(* ===== verification/_CoqProject ===== *)
-Q . S2P
Prelude.v
PyBytes.v
PyStr.v
Charset.v
Gtid.v
GtidText.v
GtidWire.v
GtidSet.v
Packet.v
Values.v
Bitmap.v
UtilBytes.v
JsonBinary.v
JsonDoc.v
Outcome.v
JsonTyped.v
Column.v
Sql.v
SqlText.v
Metric.v
Checkpoint.v
Client.v
Sync.v
SyncLive.v
SyncInv.v
Event.v
RowValues.v
RowDecimal.v
RowsEvent.v
RowCells.v
RowImage.v
RowTyped.v
TableMap.v
TableMapEvent.v
Ddl.v
Dispatch.v
Stream.v
Logging.v
Resume.v
Replication.v
EndToEnd.v
Converge.v
Replay.v
Restart.v
Session.v
Settings.v
BakClient.v
BakSync.v
BakSafe.v
BakRestart.v
BakStream.v
Dump.v
Scripts.v
Compare.v
Pipeline.v
Parallel.v
Cli.v
Deploy.v
Generator.v
