(* ===== verification/Prelude.v ===== *)
(** * mysql-sync: a verification of the replication program

    The program copies the changes of a MySQL source to a MySQL target.  It
    registers as a replica of the source, decodes the binary log it is sent,
    turns its events into operations, applies them to the target inside
    transactions, and keeps a checkpoint to start from again.

    ** Parts of the program and the files that model them

    - Reading packets ([src/pymysqlreplication/packet.py], [util/bytes.py],
      [bitmap.py], [json_binary.py]): [Packet] is the cursor over one packet
      with its push-back buffer, [UtilBytes] the integer, decimal and time
      decoders, [Bitmap] the column bitmaps, [JsonBinary] the JSON decoder.
    - GTIDs ([gtid.py]): [Gtid] is the interval algebra, [GtidText] and
      [GtidWire] its two external forms, [GtidSet] the sets of GTIDs.
    - Columns, tables and character sets ([column.py], [table.py],
      [constants/CHARSET.py], [constants/FIELD_TYPE.py]): [Column], [Charset].
    - Events ([event.py], [row_event.py]): [Event] has the constructor of every
      event class, [RowValues] the readers of one column value, [RowsEvent] the
      row events, [TableMap] the table map events with their optional metadata,
      [Dispatch] the constructor of the packet wrapper that chooses the class,
      and [Dump] the methods that print an event.
    - The stream ([binlogstream.py]): [Stream] connects, sends the dump command
      and fetches packets; [Resume] composes it with the checkpoint; [Logging]
      has the texts it logs and the messages of [exceptions.py].
    - The program ([src/main.py]): [Sql] writes row changes as statements, [Ddl]
      classifies DDL statements, [Replication] turns events into operations,
      [Client] is the target client, [Metric] the counters and the working
      directory, [Checkpoint] the position to start from, [Sync] the loop,
      [Cli] the command line; [Settings] is the [src/settings.py] it comes
      with.
    - The version before it ([src/main.bak1.py]): [BakClient], [BakSync] and,
      composed with the stream, [BakStream].
    - Scripts ([src/scripts/]): [Generator] for
      [generate_sql_statements.py]; [Scripts] (connection strings, commands,
      log files), [Compare] (queries, reports) and [Pipeline] (processes) for
      [main.py] and [dbcompare.py].
    - Deployment ([src/deploy/main.py]): [Deploy]; experiments ([src/labs/]):
      [Parallel] for [parallel_rs.py], [Compare] for [compare_gtid.py],
      [Scripts] and [Pipeline] for [pipe_logs.py].

    Three files hold what the program is compared with rather than code:
    [SqlText] reads SQL text back as statements, [Converge] executes statements
    on databases and describes a source that changes its own, and [Replay]
    follows the rows of one key through such changes.

    The files use each other in this order; [PyBytes], [PyStr] and [Values]
    hold what the sources use of Python itself, and this file the error and
    state monads, dictionaries, tactics and generic lemmas.

    ** How the code is modelled

    A function that may raise returns [result]; a method that changes an object
    is a computation in [ST] over a record of the object's attributes, and an
    exception keeps the changes made before it.  Integers are [Z]; where the
    code packs them ([struct]) the width and its check are written out.  A byte
    is a [Z] in [0, 256), a [str] its UTF-8 text, a [dict] an association list
    in insertion order.  A generator is the list of what it yields, ended by
    the exception it raises.  Objects that are shared and changed in place are
    threaded or kept once, where something depends on it: the columns of a
    table map event, the two names of one dictionary in [BakSync], the lists of
    [Generator].

    Code that is not part of the repository is a parameter: PyMySQL's packet
    ([MysqlPacketLaws] in [Packet], instance [list_packet]), mysql.connector's
    connection ([TargetLaws] in [Client], instance [journal]), the answers of
    the source ([server], [incoming] in [Stream]), character sets and codecs
    other than UTF-8 ([codecs] in [RowValues]), the Unicode tables of [re]
    ([UnicodeTables] in [Ddl]), the clock ([now]), the traversal order of
    Python sets ([set_order]), the random module ([rng]), the comparison of
    values, the reserved words and the effect of DDL on the target ([veq],
    [reserved], [ddl] in [Converge], with [ValueEquality] in [Replay]), the
    loading of a settings module ([load] in [Cli]), the YAML and HCL libraries
    ([safe_load], [dumps] in [Deploy]) and the programs of the pipeline
    ([output], [tail], [never] in [Pipeline]).

    ** What the theorems show

    - From a session with the source to the tables of the target: [Session]
      (the program, started from its configuration, connects, reads rotations,
      format descriptions, heartbeats and transactions, and leaves the target
      equal to the source; [Settings] shows that the repository's settings
      qualify), [Converge] (whatever fails, the target is a past state of the
      source), [Restart] and [BakRestart] (after any number of failed runs a
      complete one still gives the state of the source, because the statements
      can be repeated: [Replay]), [SqlText] (the SQL text denotes the row
      change).
    - From the bytes of the binlog to the target: [EndToEnd] (all of a
      transmission is applied, once and in order), [Sync] (under any failure the
      target holds whole transactions), [SyncLive] (total correctness on a
      healthy target), [SyncInv] (the invariant of a run; errors), [Client]
      (refinement of a journal of statements), [Sql] (a statement does to a
      table what the row change did).
    - Decoding inverts encoding: [RowCells], [RowDecimal], [RowImage] (every
      column type, row image and row event), [JsonDoc] (every JSON document),
      [TableMapEvent], [Event], [Dispatch] (framing), [GtidText], [GtidWire],
      [GtidSet], [UtilBytes], [Packet].
    - On arbitrary bytes: [Outcome] has the rules, [JsonTyped] and [RowTyped]
      show that the decoders return values of the column's type or raise one of
      a few exceptions, and that the loop over the rows ends.
    - GTIDs: addition, subtraction, containment and merging are those of sets of
      transaction numbers ([Gtid], [GtidSet]).
    - Restarting: [Checkpoint], [Resume] (what is asked of the source), and
      [BakSafe] for the version before, whose checkpoints never name a
      transaction the target does not hold.
    - DDL: [Ddl] (the statements of the documented forms are recognised);
      scripts: [Generator], [Scripts], [Compare], [Cli], [Deploy]; printing:
      [Dump], [Logging].
    - Processes and threads, as step relations over all interleavings:
      [Pipeline] (the three processes always come to an end), [Parallel] (no
      task of the experiment returns).

    Examples next to the theorems ([Example]) show on concrete input where the
    code does not do what it means to.

    ** Bounds and fuel

    Loops over a packet take as fuel one more than the bytes left, and every
    iteration reads at least one; the theorems on termination show that the
    fuel is never what ends them ([Packet.packet_loops_terminate],
    [RowTyped.rows_terminate]).  The exception is a row event without a column,
    whose loop does not end ([RowTyped.empty_rows_loop]).  [fetchone] and
    [operation_stream] recurse over the packets that arrive.  The recursion of
    the JSON decoder is bounded by [json_depth], the recursion limit of the
    interpreter: beyond it the code raises [RecursionError], and so does the
    model.  The time of day is counted in microseconds; the rounding of floats
    is not modelled.

    ** Not modelled

    The text printed while running, except where a function returns it; the row
    comparison of [main.py], whose methods are empty; [scripts/main3.py] and
    [scripts/replaction.py], which print the events of a reader, and
    [labs/empty_trx.py] and [labs/kafka_producer.py], which have no logic;
    [RowsEvent.__read_datetime], which is always called without its argument
    and so never runs. *)

From stdpp Require Import base list strings gmap.
From Stdlib Require Import ZArith Lia Ascii.

(** ** Notation scope and small Python vocabulary *)

Declare Scope py_scope.
Delimit Scope py_scope with py.
Open Scope Z_scope.

(** The exceptions the modelled code raises or lets escape.  [PyException]
    is a bare [Exception(...)], [StructError] is [struct.error],
    [InvalidOperation] is [decimal.InvalidOperation],
    [BackendError] is an exception raised by a database driver. *)
Inductive exn :=
  | ValueError | KeyError | IndexError | TypeError | AttributeError
  | AssertionError | StructError | UnicodeDecodeError | LookupError
  | OverflowError | UnboundLocalError | NotImplementedErr
  | RecursionError | InvalidOperation
  | StatusVariableMismatch | BinLogNotEnabled
  | PyException (msg : string) | BackendError (code : Z).

#[export] Instance exn_eq_dec : EqDecision exn.
Proof. solve_decision. Defined.

(** ** Errors as values *)

Inductive result (A : Type) :=
  | Ok (a : A)
  | Err (e : exn).
Arguments Ok {A} _.
Arguments Err {A} _.

#[export] Instance result_eq_dec {A} `{EqDecision A} : EqDecision (result A).
Proof. solve_decision. Defined.

#[export] Instance result_ret : MRet result := fun A a => Ok a.
#[export] Instance result_bind : MBind result := fun A B f m =>
  match m with Ok a => f a | Err e => Err e end.
#[export] Instance result_fmap : FMap result := fun A B f m =>
  match m with Ok a => Ok (f a) | Err e => Err e end.

Definition of_option {A} (e : exn) (o : option A) : result A :=
  match o with Some a => Ok a | None => Err e end.

Definition is_ok {A} (r : result A) : bool :=
  match r with Ok _ => true | Err _ => false end.

(** [guard_or b e] is [if not b: raise e]. *)
Definition guard_or (b : bool) (e : exn) : result unit :=
  if b then Ok tt else Err e.

(** [[f(x) for x in l]] where [f] may raise: the first exception wins. *)
Fixpoint mapM_result {A B} (f : A -> result B) (l : list A) : result (list B) :=
  match l with
  | [] => Ok []
  | x :: l' => y ← f x; ys ← mapM_result f l'; Ok (y :: ys)
  end.

(** A [for] loop threading an accumulator, stopping at the first exception. *)
Fixpoint foldM_result {A B} (f : A -> B -> result A) (l : list B) (a : A) : result A :=
  match l with
  | [] => Ok a
  | x :: l' => a' ← f a x; foldM_result f l' a'
  end.

(** ** Stateful code that may raise

    A raised exception keeps the state reached so far, as Python does. *)

Definition ST (S A : Type) : Type := S -> result A * S.

#[export] Instance ST_ret {S} : MRet (ST S) := fun A a s => (Ok a, s).
#[export] Instance ST_bind {S} : MBind (ST S) := fun A B f m s =>
  match m s with
  | (Ok a, s') => f a s'
  | (Err e, s') => (Err e, s')
  end.

Definition st_get {S} : ST S S := fun s => (Ok s, s).
Definition st_put {S} (s' : S) : ST S unit := fun _ => (Ok tt, s').
Definition st_modify {S} (f : S -> S) : ST S unit := fun s => (Ok tt, f s).
Definition st_raise {S A} (e : exn) : ST S A := fun s => (Err e, s).
Definition st_lift {S A} (r : result A) : ST S A := fun s => (r, s).

(** [try: m except Exception: h] *)
Definition st_try {S A} (m : ST S A) (h : exn -> ST S A) : ST S A := fun s =>
  match m s with
  | (Ok a, s') => (Ok a, s')
  | (Err e, s') => h e s'
  end.

Definition st_when {S} (b : bool) (m : ST S unit) : ST S unit :=
  if b then m else mret tt.

Fixpoint st_iter {S B} (f : B -> ST S unit) (l : list B) : ST S unit :=
  match l with
  | [] => mret tt
  | x :: l' => f x ;; st_iter f l'
  end.

(** ** Insertion-ordered dictionaries

    A Python [dict]: an association list without duplicate keys, in
    insertion order; assignment to a present key keeps its position. *)

Abbreviation dict K V := (list (K * V)) (only parsing).

Fixpoint dict_get {K V} `{EqDecision K} (d : dict K V) (k : K) : option V :=
  match d with
  | [] => None
  | (k', v) :: d' => if decide (k = k') then Some v else dict_get d' k
  end.

Fixpoint dict_set {K V} `{EqDecision K} (d : dict K V) (k : K) (v : V) : dict K V :=
  match d with
  | [] => [(k, v)]
  | (k', v') :: d' =>
      if decide (k = k') then (k', v) :: d' else (k', v') :: dict_set d' k v
  end.

Definition dict_mem {K V} `{EqDecision K} (d : dict K V) (k : K) : bool :=
  match dict_get d k with Some _ => true | None => false end.

Definition dict_keys {K V} (d : dict K V) : list K := d.*1.
Definition dict_values {K V} (d : dict K V) : list V := d.*2.

(** [d[k]]: raises [KeyError] when the key is absent. *)
Definition dict_index {K V} `{EqDecision K} (d : dict K V) (k : K) : result V :=
  of_option KeyError (dict_get d k).

(** ** Tactics *)

Create HintDb py discriminated.
Create Rewrite HintDb py.

(** Step through a [result] computation known to return normally. *)
Ltac inv_ok :=
  repeat match goal with
  | H : Ok _ = Ok _ |- _ => injection H as H; try subst
  | H : Err _ = Ok _ |- _ => discriminate H
  | H : Ok _ = Err _ |- _ => discriminate H
  | H : Err _ = Err _ |- _ => injection H as H; try subst
  | H : (_, _) = (_, _) |- _ => injection H as ? ?; try subst
  | H : context [mbind _ _] |- _ => unfold mbind, result_bind in H
  | H : mret _ = _ |- _ => unfold mret, result_ret in H
  | H : match ?r with Ok _ => _ | Err _ => _ end = Ok _ |- _ =>
      let E := fresh "E" in destruct r eqn:E; [| discriminate H]
  end.

(** Turn boolean tests on [Z] into propositions. *)
Ltac zify_bool :=
  repeat match goal with
  | H : (_ && _)%bool = true |- _ => apply andb_true_iff in H; destruct H
  | H : (_ || _)%bool = false |- _ => apply orb_false_iff in H; destruct H
  | H : Z.eqb _ _ = true |- _ => apply Z.eqb_eq in H
  | H : Z.eqb _ _ = false |- _ => apply Z.eqb_neq in H
  | H : Z.ltb _ _ = true |- _ => apply Z.ltb_lt in H
  | H : Z.ltb _ _ = false |- _ => apply Z.ltb_ge in H
  | H : Z.leb _ _ = true |- _ => apply Z.leb_le in H
  | H : Z.leb _ _ = false |- _ => apply Z.leb_gt in H
  end.

(** ** Lemmas on the monads *)

Lemma result_bind_ok {A B} (f : A -> result B) (m : result A) b :
  mbind f m = Ok b -> exists a, m = Ok a /\ f a = Ok b.
Proof. destruct m; cbn; intros; [eauto | discriminate]. Qed.

Lemma mapM_result_length {A B} (f : A -> result B) l l' :
  mapM_result f l = Ok l' -> length l' = length l.
Proof.
  revert l'; induction l as [|x l IH]; intros l' H; cbn in H; inv_ok; [done|].
  cbn; f_equal; eauto.
Qed.

Lemma mapM_result_map {A B} (f : A -> result B) (g : A -> B) l :
  (forall x, x ∈ l -> f x = Ok (g x)) -> mapM_result f l = Ok (map g l).
Proof.
  induction l as [|x l IH]; intros H; [done|]; cbn.
  rewrite (H x) by set_solver; cbn. rewrite IH by set_solver. done.
Qed.

Lemma foldM_result_app {A B} (f : A -> B -> result A) l1 l2 a :
  foldM_result f (l1 ++ l2) a = (a' ← foldM_result f l1 a; foldM_result f l2 a').
Proof.
  revert a; induction l1 as [|x l1 IH]; intros a; cbn; [done|].
  destruct (f a x); cbn; eauto.
Qed.

Lemma st_bind_eq {S A B} (f : A -> ST S B) (m : ST S A) s :
  mbind f m s = match m s with (Ok a, s') => f a s' | (Err e, s') => (Err e, s') end.
Proof. done. Qed.

Lemma st_iter_app {S B} (f : B -> ST S unit) l1 l2 s :
  st_iter f (l1 ++ l2) s =
  match st_iter f l1 s with (Ok _, s') => st_iter f l2 s' | (Err e, s') => (Err e, s') end.
Proof.
  revert s; induction l1 as [|x l1 IH]; intros s; cbn; [done|].
  unfold mbind, ST_bind. destruct (f x s) as [[|] s']; cbn; [apply IH | done].
Qed.

(** An invariant of every step of a loop is an invariant of the loop, also
    when the loop is left by an exception. *)
Lemma st_iter_invariant {S B} (f : B -> ST S unit) (P : S -> Prop) l s :
  (forall x s, P s -> P (snd (f x s))) -> P s -> P (snd (st_iter f l s)).
Proof.
  intros Hf. revert s; induction l as [|x l IH]; intros s Hs; cbn; [done|].
  unfold mbind, ST_bind. specialize (Hf x s Hs).
  destruct (f x s) as [[|] s']; cbn in *; eauto.
Qed.

(** ** Lemmas on lists *)

Lemma NoDup_map_inj {A B} (f : A -> B) l x y :
  NoDup (map f l) -> x ∈ l -> y ∈ l -> f x = f y -> x = y.
Proof.
  induction l as [|z l IH]; cbn; intros Hnd Hx Hy Hf; [by apply not_elem_of_nil in Hx|].
  apply NoDup_cons in Hnd as [Hz Hnd].
  apply elem_of_cons in Hx as [->|Hx], Hy as [->|Hy]; [done| | |by apply IH].
  - exfalso. apply Hz. apply list_elem_of_fmap. by exists y.
  - exfalso. apply Hz. apply list_elem_of_fmap. by exists x.
Qed.

Lemma Forall_filter {A} (P Q : A -> Prop) `{!forall x, Decision (P x)} (l : list A) : Forall Q l -> Forall Q (filter P l).
Proof. rewrite !Forall_forall. intros HQ x [_ Hx]%list_elem_of_filter. by apply HQ. Qed.

Lemma filter_nothing {A} (P : A -> Prop) `{!forall x, Decision (P x)} (l : list A) : Forall (fun x => ~ P x) l -> filter P l = [].
Proof. induction 1; [done|]. by rewrite filter_cons_False. Qed.

(** An element of [l ++ [x]] is its last one or one of [l]. *)
Lemma list_snoc_split {A} (l : list A) x p y q :
  l ++ [x] = p ++ y :: q -> (p = l /\ y = x /\ q = []) \/ y ∈ l.
Proof.
  revert p. induction l as [|z l IH]; intros p E; cbn in E.
  - destruct p as [|? p]; injection E as -> E; [by left|by destruct p].
  - destruct p as [|z' p]; injection E as -> E; [right; left|].
    destruct (IH p E) as [(-> & -> & ->)|Hin]; [by left|right; by right].
Qed.

(** ** Lemmas on dictionaries *)

Section dict.
Context {K V : Type} `{EqDecision K}.
Implicit Types (d : dict K V) (k : K) (v : V).

Lemma dict_get_set_eq d k v : dict_get (dict_set d k v) k = Some v.
Proof.
  induction d as [|[k' v'] d IH]; cbn; repeat case_decide; cbn;
    repeat case_decide; congruence.
Qed.

Lemma dict_get_set_ne d k k' v : k <> k' -> dict_get (dict_set d k v) k' = dict_get d k'.
Proof.
  intros Hne. induction d as [|[k0 v0] d IH]; cbn; repeat case_decide; cbn;
    repeat case_decide; congruence.
Qed.

Lemma dict_get_None d k : dict_get d k = None <-> k ∉ dict_keys d.
Proof.
  unfold dict_keys. induction d as [|[k' v'] d IH]; cbn.
  - split; [intros _; apply not_elem_of_nil | done].
  - rewrite not_elem_of_cons. case_decide; subst; split; [done | naive_solver | naive_solver |].
    intros [_ ?]. tauto.
Qed.

Lemma dict_get_Some_elem d k v : dict_get d k = Some v -> (k, v) ∈ d.
Proof.
  induction d as [|[k' v'] d IH]; cbn; [done|].
  case_decide; intros; simplify_eq; [left | right; eauto].
Qed.

Lemma dict_get_elem d k v : NoDup (dict_keys d) -> (k, v) ∈ d -> dict_get d k = Some v.
Proof.
  unfold dict_keys. induction d as [|[k' v'] d IH]; cbn; intros Hnd Hin.
  - by apply not_elem_of_nil in Hin.
  - apply NoDup_cons in Hnd as [Hk Hnd].
    apply elem_of_cons in Hin as [Heq|Hin].
    + simplify_eq. by rewrite decide_True.
    + case_decide; [|eauto]. subst. exfalso. apply Hk.
      apply list_elem_of_fmap. by exists (k', v).
Qed.

Lemma dict_set_keys d k v :
  dict_keys (dict_set d k v) =
  if decide (k ∈ dict_keys d) then dict_keys d else dict_keys d ++ [k].
Proof.
  unfold dict_keys. induction d as [|[k' v'] d IH]; cbn.
  - rewrite decide_False; [done | apply not_elem_of_nil].
  - destruct (decide (k = k')) as [->|Hne]; cbn.
    + rewrite decide_True; [done | left].
    + rewrite IH. destruct (decide (k ∈ d.*1)); destruct (decide (k ∈ k' :: d.*1)); try done.
      * exfalso; set_solver.
      * exfalso; set_solver.
Qed.

Lemma dict_set_nodup d k v : NoDup (dict_keys d) -> NoDup (dict_keys (dict_set d k v)).
Proof.
  intros Hnd. rewrite dict_set_keys. case_decide; [done|].
  apply NoDup_app; split; [done|]. split; [set_solver | apply NoDup_singleton].
Qed.

Lemma dict_set_same d k v : dict_get d k = Some v -> dict_set d k v = d.
Proof.
  induction d as [|[k' v'] d IH]; cbn; [done|].
  case_decide; intros; simplify_eq; [done | by rewrite IH].
Qed.

Lemma dict_set_new d k v : k ∉ dict_keys d -> dict_set d k v = d ++ [(k, v)].
Proof.
  unfold dict_keys. induction d as [|[k' v'] d IH]; cbn; [done|]. intros Hk.
  rewrite decide_False by set_solver. by rewrite IH by set_solver.
Qed.

Lemma dict_mem_spec d k : dict_mem d k = true <-> k ∈ dict_keys d.
Proof.
  unfold dict_mem. destruct (dict_get d k) eqn:E; split; try done.
  - intros _. destruct (decide (k ∈ dict_keys d)) as [|Hn]; [done|].
    apply dict_get_None in Hn. congruence.
  - intros Hin. apply dict_get_None in E. done.
Qed.
End dict.

#[export] Hint Resolve dict_set_nodup : py.
#[export] Hint Rewrite @dict_get_set_eq : py.
