(* ===== verification/PyBytes.v ===== *)
(** * Python [bytes], [struct] and [int] conversions

    The part of the Python standard library that the decoders call:
    byte strings, slicing, [struct.pack]/[struct.unpack] for the fixed-width
    formats the sources use, [int.to_bytes]/[int.from_bytes] and
    [binascii.hexlify]/[unhexlify].  A byte is a [Z] in [0, 256). *)

From stdpp Require Import base list strings.
From Stdlib Require Import ZArith Lia Ascii.
From S2P Require Import Prelude.
Open Scope Z_scope.

Abbreviation bytes := (list Z) (only parsing).

Definition byte_ok (b : Z) : Prop := 0 <= b < 256.
Definition bytes_ok (bs : bytes) : Prop := Forall byte_ok bs.

(** [len(l)] as an [int]. *)
Definition zlen {A} (l : list A) : Z := Z.of_nat (length l).

(** [l[:n]] and [l[n:]]; a negative bound counts from the end. *)
Definition slice_to {A} (l : list A) (n : Z) : list A :=
  take (Z.to_nat (if n <? 0 then zlen l + n else n)) l.
Definition slice_from {A} (l : list A) (n : Z) : list A :=
  drop (Z.to_nat (if n <? 0 then zlen l + n else n)) l.
(** [l[a:b]] for non-negative bounds. *)
Definition slice {A} (l : list A) (a b : Z) : list A :=
  take (Z.to_nat (b - a)) (drop (Z.to_nat a) l).
(** [l[i]]: a negative index counts from the end, out of range raises. *)
Definition py_index {A} (l : list A) (i : Z) : result A :=
  let j := if i <? 0 then zlen l + i else i in
  if j <? 0 then Err IndexError else of_option IndexError (l !! Z.to_nat j).

(** ** Little- and big-endian integers *)

Fixpoint le_decode (bs : bytes) : Z :=
  match bs with [] => 0 | b :: bs' => b + 256 * le_decode bs' end.

Fixpoint le_encode (n : nat) (z : Z) : bytes :=
  match n with O => [] | S n' => z mod 256 :: le_encode n' (z / 256) end.

Definition be_decode (bs : bytes) : Z := le_decode (rev bs).
Definition be_encode (n : nat) (z : Z) : bytes := rev (le_encode n z).

(** Two's complement reading of a [w]-bit unsigned value. *)
Definition to_signed (w : Z) (z : Z) : Z :=
  if z <? 2 ^ (w - 1) then z else z - 2 ^ w.

(** [struct.unpack("<B|H|I|Q")], ["<b|h|i|q"] and their [">"] forms on a
    buffer that must have exactly the format's size. *)
Definition unpack_ule (n : nat) (bs : bytes) : result Z :=
  if decide (length bs = n) then Ok (le_decode bs) else Err StructError.
Definition unpack_sle (n : nat) (bs : bytes) : result Z :=
  to_signed (8 * Z.of_nat n) <$> unpack_ule n bs.
Definition unpack_ube (n : nat) (bs : bytes) : result Z :=
  if decide (length bs = n) then Ok (be_decode bs) else Err StructError.
Definition unpack_sbe (n : nat) (bs : bytes) : result Z :=
  to_signed (8 * Z.of_nat n) <$> unpack_ube n bs.

(** [struct.pack("<B|H|I|Q", z)] and ["<i|l"]: out of range raises. *)
Definition pack_ule (n : nat) (z : Z) : result bytes :=
  if (0 <=? z) && (z <? 256 ^ Z.of_nat n) then Ok (le_encode n z) else Err StructError.
Definition pack_sle (n : nat) (z : Z) : result bytes :=
  let h := 2 ^ (8 * Z.of_nat n - 1) in
  if (- h <=? z) && (z <? h) then Ok (le_encode n (z mod 256 ^ Z.of_nat n)) else Err StructError.

(** [z.bit_length()] for a non-negative [z]. *)
Definition bit_length (z : Z) : Z := if z =? 0 then 0 else Z.log2 z + 1.

(** [z.to_bytes(n, byteorder="big")]. *)
Definition to_bytes_big (z n : Z) : result bytes :=
  if (0 <=? z) && (z <? 256 ^ n) then Ok (be_encode (Z.to_nat n) z) else Err OverflowError.

(** ** Hexadecimal text *)

Definition hex_digit (n : Z) : ascii :=
  ascii_of_nat (Z.to_nat (if n <? 10 then 48 + n else 87 + n)).

Definition hex_value (c : ascii) : option Z :=
  let n := Z.of_nat (nat_of_ascii c) in
  if (48 <=? n) && (n <=? 57) then Some (n - 48)
  else if (97 <=? n) && (n <=? 102) then Some (n - 87)
  else if (65 <=? n) && (n <=? 70) then Some (n - 55)
  else None.

Fixpoint hexlify (bs : bytes) : string :=
  match bs with
  | [] => EmptyString
  | b :: bs' => String (hex_digit (b / 16)) (String (hex_digit (b mod 16)) (hexlify bs'))
  end.

(** [binascii.unhexlify]: an odd length or a non-digit raises
    [binascii.Error], a subclass of [ValueError]. *)
Fixpoint unhexlify (s : string) : result bytes :=
  match s with
  | EmptyString => Ok []
  | String c1 (String c2 s') =>
      h ← of_option ValueError (hex_value c1);
      l ← of_option ValueError (hex_value c2);
      bs ← unhexlify s';
      Ok (16 * h + l :: bs)
  | String _ EmptyString => Err ValueError
  end.

(** ** Lemmas *)

Lemma zlen_nonneg {A} (l : list A) : 0 <= zlen l.
Proof. unfold zlen; lia. Qed.

Lemma zlen_app {A} (l1 l2 : list A) : zlen (l1 ++ l2) = zlen l1 + zlen l2.
Proof. unfold zlen. rewrite length_app. lia. Qed.

Lemma zlen_cons {A} (x : A) l : zlen (x :: l) = 1 + zlen l.
Proof. unfold zlen; cbn [length]; lia. Qed.

Lemma zlen_nil {A} : zlen (@nil A) = 0.
Proof. done. Qed.

Lemma slice_to_app {A} (l1 l2 : list A) : slice_to (l1 ++ l2) (zlen l1) = l1.
Proof.
  unfold slice_to. pose proof (zlen_nonneg l1).
  destruct (Z.ltb_spec (zlen l1) 0); [lia|].
  unfold zlen. rewrite Nat2Z.id. apply take_app_length.
Qed.

Lemma slice_from_app {A} (l1 l2 : list A) : slice_from (l1 ++ l2) (zlen l1) = l2.
Proof.
  unfold slice_from. pose proof (zlen_nonneg l1).
  destruct (Z.ltb_spec (zlen l1) 0); [lia|].
  unfold zlen. rewrite Nat2Z.id. apply drop_app_length.
Qed.

Lemma le_encode_length n z : length (le_encode n z) = n.
Proof. revert z; induction n; intros; cbn; auto. Qed.

Lemma zlen_le_encode n z : zlen (le_encode n z) = Z.of_nat n.
Proof. unfold zlen. by rewrite le_encode_length. Qed.

Lemma le_encode_ok n z : bytes_ok (le_encode n z).
Proof.
  revert z; induction n; intros z; cbn; constructor; [|apply IHn].
  unfold byte_ok. apply Z.mod_pos_bound. lia.
Qed.

Lemma le_decode_bound bs : bytes_ok bs -> 0 <= le_decode bs < 256 ^ zlen bs.
Proof.
  induction 1 as [|b bs Hb Hbs IH]; [unfold zlen; cbn; lia|].
  rewrite zlen_cons, Z.pow_add_r by (pose proof (zlen_nonneg bs); lia).
  unfold byte_ok in Hb. cbn [le_decode]. change (256 ^ 1) with 256. lia.
Qed.

Lemma le_decode_encode n z : 0 <= z < 256 ^ Z.of_nat n -> le_decode (le_encode n z) = z.
Proof.
  revert z; induction n as [|n IH]; intros z Hz; [cbn in *; lia|].
  rewrite Nat2Z.inj_succ, Z.pow_succ_r in Hz by lia.
  cbn [le_encode le_decode]. rewrite IH.
  - pose proof (Z.div_mod z 256). lia.
  - split; [apply Z.div_pos; lia | apply Z.div_lt_upper_bound; lia].
Qed.

Lemma le_encode_decode bs : bytes_ok bs -> le_encode (length bs) (le_decode bs) = bs.
Proof.
  induction 1 as [|b bs Hb Hbs IH]; [done|]. unfold byte_ok in Hb.
  cbn [length le_encode le_decode]. f_equal.
  - rewrite Z.mul_comm, Z.mod_add by lia. apply Z.mod_small; lia.
  - rewrite Z.mul_comm, Z.div_add by lia. rewrite Z.div_small by lia. apply IH.
Qed.

Lemma le_decode_app bs1 bs2 :
  le_decode (bs1 ++ bs2) = le_decode bs1 + 256 ^ zlen bs1 * le_decode bs2.
Proof.
  induction bs1 as [|b bs1 IH]; [unfold zlen; cbn; lia|].
  cbn [app le_decode]. rewrite IH, zlen_cons, Z.pow_add_r
    by (pose proof (zlen_nonneg bs1); lia). change (256 ^ 1) with 256. lia.
Qed.

Lemma be_decode_encode n z : 0 <= z < 256 ^ Z.of_nat n -> be_decode (be_encode n z) = z.
Proof. intros. unfold be_decode, be_encode. rewrite rev_involutive. by apply le_decode_encode. Qed.

Lemma be_decode_bound bs : bytes_ok bs -> 0 <= be_decode bs < 256 ^ zlen bs.
Proof.
  intros H. unfold be_decode.
  replace (zlen bs) with (zlen (rev bs)) by (unfold zlen; by rewrite length_rev).
  apply le_decode_bound. by apply List.Forall_rev.
Qed.

Lemma pack_unpack_ule n z bs : pack_ule n z = Ok bs -> unpack_ule n bs = Ok z.
Proof.
  unfold pack_ule, unpack_ule. intros H.
  destruct (_ && _) eqn:E; [|done]. zify_bool. inv_ok.
  rewrite le_encode_length, decide_True by done. by rewrite le_decode_encode.
Qed.

Lemma pack_ule_length n z bs : pack_ule n z = Ok bs -> length bs = n.
Proof.
  unfold pack_ule. destruct (_ && _); [|done]. intros; inv_ok. apply le_encode_length.
Qed.

Lemma pack_ule_in_range n z : 0 <= z < 256 ^ Z.of_nat n -> pack_ule n z = Ok (le_encode n z).
Proof.
  intros. unfold pack_ule.
  destruct (Z.leb_spec 0 z), (Z.ltb_spec z (256 ^ Z.of_nat n)); done || lia.
Qed.

Lemma unpack_ule_encode n z :
  0 <= z < 256 ^ Z.of_nat n -> unpack_ule n (le_encode n z) = Ok z.
Proof.
  intros. unfold unpack_ule. rewrite le_encode_length, decide_True by done.
  by rewrite le_decode_encode.
Qed.

(** A signed reading of [n] bytes lies in the two's complement range. *)
Lemma to_signed_range w z : 0 < w -> 0 <= z < 2 ^ w -> - 2 ^ (w - 1) <= to_signed w z < 2 ^ (w - 1).
Proof.
  intros Hw Hz. unfold to_signed.
  assert (2 ^ w = 2 * 2 ^ (w - 1)) by (rewrite <- Z.pow_succ_r by lia; f_equal; lia).
  destruct (Z.ltb_spec z (2 ^ (w - 1))); lia.
Qed.

(** Two's complement: reading back the encoding of a signed value. *)
Lemma to_signed_mod w z :
  0 < w -> - 2 ^ (w - 1) <= z < 2 ^ (w - 1) -> to_signed w (z mod 2 ^ w) = z.
Proof.
  intros Hw Hz. unfold to_signed.
  assert (2 ^ w = 2 * 2 ^ (w - 1)) by (rewrite <- Z.pow_succ_r by lia; f_equal; lia).
  destruct (Z.leb_spec 0 z).
  - rewrite Z.mod_small by lia. destruct (Z.ltb_spec z (2 ^ (w - 1))); lia.
  - rewrite <- (Z.mod_add z 1) by lia. rewrite Z.mod_small by lia.
    destruct (Z.ltb_spec (z + 1 * 2 ^ w) (2 ^ (w - 1))); lia.
Qed.

Lemma pow_256_2 n : 256 ^ Z.of_nat n = 2 ^ (8 * Z.of_nat n).
Proof. change 256 with (2 ^ 8). by rewrite <- Z.pow_mul_r by lia. Qed.

Lemma pack_unpack_sle n z bs : (0 < n)%nat -> pack_sle n z = Ok bs -> unpack_sle n bs = Ok z.
Proof.
  intros Hn. unfold pack_sle, unpack_sle. intros H.
  destruct (_ && _) eqn:E; [|done]. zify_bool. inv_ok.
  rewrite unpack_ule_encode by (apply Z.mod_pos_bound; apply Z.pow_pos_nonneg; lia).
  cbn. rewrite pow_256_2, to_signed_mod by lia. done.
Qed.

(** A boolean property of bytes is decided by its 256 cases. *)
Lemma byte_forall (f : Z -> bool) :
  forallb (fun n => f (Z.of_nat n)) (seq 0 256) = true -> forall b, byte_ok b -> f b = true.
Proof.
  intros Hf b Hb. rewrite forallb_forall in Hf. unfold byte_ok in Hb.
  rewrite <- (Z2Nat.id b) by lia. apply Hf. apply in_seq. lia.
Qed.

(** ** Hexadecimal round trip *)

Lemma hex_value_digit n : 0 <= n < 16 -> hex_value (hex_digit n) = Some n.
Proof.
  intros Hn. assert (byte_ok n) as Hb by (unfold byte_ok; lia).
  pose proof (byte_forall (fun b => implb (b <? 16) (match hex_value (hex_digit b) with Some v => v =? b | None => false end))
    ltac:(vm_compute; reflexivity) n Hb) as E. cbn beta in E.
  destruct (Z.ltb_spec n 16); [|lia]. destruct (hex_value (hex_digit n)); [|done]. cbn in E.
  by apply Z.eqb_eq in E as ->.
Qed.

Lemma unhexlify_hexlify bs : bytes_ok bs -> unhexlify (hexlify bs) = Ok bs.
Proof.
  induction 1 as [|b bs Hb Hbs IH]; [done|]. unfold byte_ok in Hb. cbn [hexlify unhexlify].
  assert (0 <= b / 16 < 16) by (split; [apply Z.div_pos; lia | apply Z.div_lt_upper_bound; lia]).
  assert (0 <= b mod 16 < 16) by (apply Z.mod_pos_bound; lia).
  rewrite !hex_value_digit by done. cbn. rewrite IH. cbn.
  rewrite <- Z.div_mod by lia. done.
Qed.

(** ** [int.to_bytes] of a minimal length *)

Lemma bit_length_bound z : 0 <= z -> z < 2 ^ bit_length z.
Proof.
  intros. unfold bit_length. destruct (Z.eqb_spec z 0); [subst; cbn; lia|].
  pose proof (Z.log2_spec z). rewrite Z.add_1_r. lia.
Qed.

Lemma bit_length_nonneg z : 0 <= bit_length z.
Proof. unfold bit_length. destruct (z =? 0); [lia|]. pose proof (Z.log2_nonneg z). lia. Qed.

Lemma to_bytes_big_minimal z :
  0 <= z ->
  to_bytes_big z ((bit_length z + 7) / 8) = Ok (be_encode (Z.to_nat ((bit_length z + 7) / 8)) z).
Proof.
  intros Hz. unfold to_bytes_big.
  pose proof (bit_length_nonneg z). pose proof (bit_length_bound z Hz).
  set (n := (bit_length z + 7) / 8).
  assert (0 <= n) by (apply Z.div_pos; lia).
  assert (bit_length z <= 8 * n).
  { unfold n. pose proof (Z.div_mod (bit_length z + 7) 8).
    pose proof (Z.mod_pos_bound (bit_length z + 7) 8). lia. }
  assert (2 ^ bit_length z <= 256 ^ n).
  { change 256 with (2 ^ 8). rewrite <- Z.pow_mul_r by lia. apply Z.pow_le_mono_r; lia. }
  destruct (Z.leb_spec 0 z), (Z.ltb_spec z (256 ^ n)); done || lia.
Qed.

#[export] Hint Resolve le_encode_ok zlen_nonneg : py.
#[export] Hint Rewrite @zlen_app @zlen_cons @zlen_nil le_encode_length zlen_le_encode : py.

Lemma lor_shiftl_add a b k : 0 <= k -> 0 <= a < 2 ^ k -> Z.lor a (Z.shiftl b k) = a + Z.shiftl b k.
Proof.
  intros Hk Ha. assert (Z.land a (Z.shiftl b k) = 0) as Hl.
  { apply Z.bits_inj'. intros n Hn. rewrite Z.land_spec, Z.bits_0, Z.shiftl_spec by done.
    destruct (Z.ltb_spec n k).
    - rewrite (Z.testbit_neg_r b) by lia. apply andb_false_r.
    - rewrite <- (Z.mod_small a (2 ^ k)) by done. by rewrite Z.mod_pow2_bits_high by lia. }
  rewrite Z.add_nocarry_lxor by done. symmetry. by apply Z.lxor_lor.
Qed.

Lemma py_index_nonneg {A} (l : list A) i : 0 <= i -> py_index l i = of_option IndexError (l !! Z.to_nat i).
Proof.
  intros Hi. unfold py_index. destruct (Z.ltb_spec i 0); [lia|].
  destruct (Z.ltb_spec i 0); [lia|done].
Qed.

Lemma py_index_head {A} (x : A) l : py_index (x :: l) 0 = Ok x.
Proof. done. Qed.
