(* ===== verification/PyStr.v ===== *)
(** * Python [str]

    A [str] is represented by its UTF-8 encoding, one [ascii] per byte:
    [encode] is the identity on the representation and [decode] is the
    validity check of the UTF-8 codec.  Concatenation, equality, hashing,
    joining, and splitting at an ASCII character are the same on both
    representations.  Decimal conversions are those of [str(int)],
    [int(str)] and the ["0w"] format specifications. *)

From stdpp Require Import base list strings.
From Stdlib Require Import ZArith Lia Ascii.
From S2P Require Import Prelude PyBytes.
Open Scope string_scope.
Open Scope Z_scope.

#[global] Arguments String.append !_ _ / : simpl nomatch.

Definition code (c : ascii) : Z := Z.of_nat (nat_of_ascii c).
Definition chr (z : Z) : ascii := ascii_of_nat (Z.to_nat z).

Fixpoint bytes_of_string (s : string) : bytes :=
  match s with EmptyString => [] | String c s' => code c :: bytes_of_string s' end.
Fixpoint string_of_bytes (bs : bytes) : string :=
  match bs with [] => EmptyString | b :: bs' => String (chr b) (string_of_bytes bs') end.

(** ** [sep.join], [s.split(c)], [s.strip] *)

Fixpoint join (sep : string) (l : list string) : string :=
  match l with
  | [] => ""
  | [x] => x
  | x :: l' => x ++ sep ++ join sep l'
  end.

Fixpoint split_on (c : ascii) (s : string) : list string :=
  match s with
  | EmptyString => [""]
  | String a s' =>
      if decide (a = c) then "" :: split_on c s'
      else match split_on c s' with
           | w :: ws => String a w :: ws
           | [] => [String a ""]
           end
  end.

Fixpoint str_forallb (f : ascii -> bool) (s : string) : bool :=
  match s with EmptyString => true | String c s' => f c && str_forallb f s' end.

Fixpoint str_mem (c : ascii) (s : string) : bool :=
  match s with EmptyString => false | String a s' => bool_decide (a = c) || str_mem c s' end.

Fixpoint lstrip (f : ascii -> bool) (s : string) : string :=
  match s with
  | EmptyString => ""
  | String c s' => if f c then lstrip f s' else s
  end.
Fixpoint rstrip (f : ascii -> bool) (s : string) : string :=
  match s with
  | EmptyString => ""
  | String c s' =>
      match rstrip f s' with
      | EmptyString => if f c then "" else String c ""
      | r => String c r
      end
  end.
Definition strip (f : ascii -> bool) (s : string) : string := rstrip f (lstrip f s).

(** [s.replace(c, "")] for a one-character [c]. *)
Fixpoint remove_char (c : ascii) (s : string) : string :=
  match s with
  | EmptyString => ""
  | String a s' => if decide (a = c) then remove_char c s' else String a (remove_char c s')
  end.

Fixpoint str_take (n : nat) (s : string) : string :=
  match n, s with S n', String c s' => String c (str_take n' s') | _, _ => "" end.
Fixpoint str_drop (n : nat) (s : string) : string :=
  match n, s with S n', String _ s' => str_drop n' s' | O, _ => s | _, EmptyString => "" end.

Fixpoint str_rev_acc (s acc : string) : string :=
  match s with EmptyString => acc | String c s' => str_rev_acc s' (String c acc) end.
(** [s[::-1]] *)
Definition str_rev (s : string) : string := str_rev_acc s "".

(** Code-point order, which UTF-8 preserves byte by byte. *)
Fixpoint str_ltb (s t : string) : bool :=
  match s, t with
  | _, EmptyString => false
  | EmptyString, String _ _ => true
  | String a s', String b t' =>
      if code a <? code b then true
      else if code a =? code b then str_ltb s' t' else false
  end.

(** ** Decimal text *)

Definition digit_char (d : Z) : ascii := chr (48 + d).
Definition is_digit (c : ascii) : bool := (48 <=? code c) && (code c <=? 57).
Definition digit_val (c : ascii) : Z := code c - 48.

Fixpoint dec_loop (fuel : nat) (z : Z) (acc : string) : string :=
  match fuel with
  | O => acc
  | S f =>
      let acc' := String (digit_char (z mod 10)) acc in
      if z / 10 =? 0 then acc' else dec_loop f (z / 10) acc'
  end.

(** Decimal digits of a non-negative integer; [log2 z + 1] bounds their number. *)
Definition dec_nonneg (z : Z) : string := dec_loop (S (Z.to_nat (Z.log2 z))) z "".

(** [str(z)] *)
Definition str_of_Z (z : Z) : string :=
  if z <? 0 then String "-" (dec_nonneg (- z)) else dec_nonneg z.

Fixpoint zeros (n : nat) : string :=
  match n with O => "" | S n' => String "0" (zeros n') end.

(** [f"{z:0w}"]: padded with zeros after the sign up to width [w]. *)
Definition fmt_zero (w : nat) (z : Z) : string :=
  let d := dec_nonneg (Z.abs z) in
  if z <? 0 then String "-" (zeros (w - 1 - String.length d) ++ d)
  else zeros (w - String.length d) ++ d.

Fixpoint digits_value (acc : Z) (s : string) : Z :=
  match s with EmptyString => acc | String c s' => digits_value (10 * acc + digit_val c) s' end.

(** The digits of an [int] literal: single underscores may separate digits. *)
Fixpoint int_digits (prev_digit : bool) (acc : Z) (s : string) : option Z :=
  match s with
  | EmptyString => if prev_digit then Some acc else None
  | String c s' =>
      if is_digit c then int_digits true (10 * acc + digit_val c) s'
      else if decide (c = "_"%char) then if prev_digit then int_digits false acc s' else None
      else None
  end.

(** White space [int()] and [str.strip()] remove (the ASCII part of it). *)
Definition is_space (c : ascii) : bool :=
  let n := code c in ((9 <=? n) && (n <=? 13)) || ((28 <=? n) && (n <=? 32)).

(** [s.split()]: the words between runs of white space. *)
Fixpoint words_from (acc : string) (s : string) : list string :=
  match s with
  | EmptyString => if decide (acc = "") then [] else [acc]
  | String c s' =>
      if is_space c then (if decide (acc = "") then [] else [acc]) ++ words_from "" s' else words_from (acc ++ String c "") s'
  end.
Definition words (s : string) : list string := words_from "" s.

(** [int(s)] in base 10. *)
Definition int_of_str (s : string) : result Z :=
  let s := strip is_space s in
  of_option ValueError
    match s with
    | String c s' =>
        if decide (c = "-"%char) then Z.opp <$> int_digits false 0 s'
        else if decide (c = "+"%char) then int_digits false 0 s'
        else int_digits false 0 s
    | EmptyString => None
    end.

(** [int(s, 2)] on a string of binary digits, most significant first. *)
Fixpoint bin_digits (acc : Z) (s : string) : option Z :=
  match s with
  | EmptyString => Some acc
  | String c s' =>
      if decide (c = "0"%char) then bin_digits (2 * acc) s'
      else if decide (c = "1"%char) then bin_digits (2 * acc + 1) s'
      else None
  end.
Definition int_of_bin (s : string) : result Z :=
  match s with EmptyString => Err ValueError | _ => of_option ValueError (bin_digits 0 s) end.

(** ** The UTF-8 codec *)

Definition in_range (lo hi b : Z) : bool := (lo <=? b) && (b <=? hi).

(** Length of the code sequence at the head of [bs] and whether it is well
    formed; for an ill-formed one, the length of its maximal subpart, which is
    what an error handler is given. *)
Definition utf8_head (bs : bytes) : nat * bool :=
  match bs with
  | [] => (0%nat, true)
  | b0 :: r =>
      let cont := in_range 0x80 0xBF in
      let second lo hi k :=
        match r with
        | b1 :: r' => if in_range lo hi b1 then k r' else (1%nat, false)
        | [] => (1%nat, false)
        end in
      let third := fun r' => match r' with
        | b2 :: _ => if cont b2 then (3%nat, true) else (2%nat, false)
        | [] => (2%nat, false)
        end in
      let fourth := fun r' => match r' with
        | b2 :: r'' => if cont b2 then
            match r'' with
            | b3 :: _ => if cont b3 then (4%nat, true) else (3%nat, false)
            | [] => (3%nat, false)
            end else (2%nat, false)
        | [] => (2%nat, false)
        end in
      if in_range 0 0x7F b0 then (1%nat, true)
      else if in_range 0xC2 0xDF b0 then second 0x80 0xBF (fun _ => (2%nat, true))
      else if b0 =? 0xE0 then second 0xA0 0xBF third
      else if b0 =? 0xED then second 0x80 0x9F third
      else if in_range 0xE1 0xEF b0 then second 0x80 0xBF third
      else if b0 =? 0xF0 then second 0x90 0xBF fourth
      else if in_range 0xF1 0xF3 b0 then second 0x80 0xBF fourth
      else if b0 =? 0xF4 then second 0x80 0x8F fourth
      else (1%nat, false)
  end.

Fixpoint utf8_chunks (fuel : nat) (bs : bytes) : list (bool * bytes) :=
  match fuel with
  | O => []
  | S f =>
      match bs with
      | [] => []
      | _ => let '(n, ok) := utf8_head bs in
             (ok, take n bs) :: utf8_chunks f (drop n bs)
      end
  end.

Inductive decode_errors := ErrStrict | ErrIgnore | ErrBackslashReplace.

Definition backslash_byte (b : Z) : string :=
  String "\" (String "x" (hexlify [b])).

(** [bs.decode("utf-8", errors)] *)
Definition utf8_decode (errors : decode_errors) (bs : bytes) : result string :=
  let chunks := utf8_chunks (S (length bs)) bs in
  match errors with
  | ErrStrict =>
      if forallb fst chunks then Ok (string_of_bytes bs) else Err UnicodeDecodeError
  | ErrIgnore =>
      Ok (string_of_bytes (concat (map snd (filter (fun c => is_true (fst c)) chunks))))
  | ErrBackslashReplace =>
      Ok (join "" (map (fun c : bool * bytes =>
            if fst c then string_of_bytes (snd c)
            else join "" (map backslash_byte (snd c))) chunks))
  end.

(** ** Lemmas: text *)

Lemma str_app_assoc (a b c : string) : (a ++ b) ++ c = a ++ (b ++ c).
Proof. induction a; cbn; congruence. Qed.

Lemma str_app_nil_r (a : string) : a ++ "" = a.
Proof. induction a; cbn; congruence. Qed.

Lemma str_length_app (a b : string) :
  String.length (a ++ b) = (String.length a + String.length b)%nat.
Proof. induction a; cbn; congruence. Qed.

Lemma code_chr z : 0 <= z < 256 -> code (chr z) = z.
Proof.
  intros. unfold code, chr. rewrite nat_ascii_embedding by lia. lia.
Qed.

Lemma chr_code c : chr (code c) = c.
Proof. unfold code, chr. by rewrite Nat2Z.id, ascii_nat_embedding. Qed.

Lemma code_range c : 0 <= code c < 256.
Proof. unfold code. pose proof (nat_ascii_bounded c). lia. Qed.

Lemma bytes_of_string_of_bytes bs : bytes_ok bs -> bytes_of_string (string_of_bytes bs) = bs.
Proof. induction 1; cbn; [done|]. by rewrite code_chr, IHForall by done. Qed.

Lemma string_of_bytes_of_string s : string_of_bytes (bytes_of_string s) = s.
Proof. induction s; cbn; [done|]. by rewrite chr_code, IHs. Qed.

Lemma string_of_bytes_app b1 b2 :
  string_of_bytes (b1 ++ b2)%list = string_of_bytes b1 ++ string_of_bytes b2.
Proof. induction b1; cbn; congruence. Qed.

Lemma bytes_of_string_length s : length (bytes_of_string s) = String.length s.
Proof. induction s; cbn; congruence. Qed.

Lemma bytes_of_string_ok s : bytes_ok (bytes_of_string s).
Proof. induction s; cbn; constructor; [apply code_range | done]. Qed.

Lemma str_forallb_app f a b : str_forallb f (a ++ b) = str_forallb f a && str_forallb f b.
Proof. induction a as [|c a IH]; cbn; [done|]. by rewrite IH, andb_assoc. Qed.

Lemma str_forallb_impl (f g : ascii -> bool) s :
  (forall c, f c = true -> g c = true) -> str_forallb f s = true -> str_forallb g s = true.
Proof.
  intros Hfg. induction s; cbn; [done|]. rewrite !andb_true_iff. naive_solver.
Qed.

Lemma str_mem_app c a b : str_mem c (a ++ b) = str_mem c a || str_mem c b.
Proof. induction a as [|x a IH]; cbn; [done|]. by rewrite IH, orb_assoc. Qed.

Lemma str_mem_false c s : str_mem c s = false <-> str_forallb (fun a => negb (bool_decide (a = c))) s = true.
Proof.
  induction s as [|a s IH]; cbn; [done|].
  rewrite orb_false_iff, andb_true_iff, negb_true_iff. tauto.
Qed.

Lemma split_on_nonempty c s : split_on c s <> [].
Proof. destruct s; cbn; [done|]. case_decide; [done|]. by destruct (split_on c s). Qed.

Lemma split_on_word c w : str_mem c w = false -> split_on c w = [w].
Proof.
  induction w as [|a w IH]; cbn; [done|]. intros H. apply orb_false_iff in H as [Ha Hw].
  apply bool_decide_eq_false in Ha. rewrite decide_False by done. by rewrite IH.
Qed.

Lemma split_on_app c w s :
  str_mem c w = false -> split_on c (w ++ String c s) = w :: split_on c s.
Proof.
  induction w as [|a w IH]; cbn; intros H.
  - by rewrite decide_True.
  - apply orb_false_iff in H as [Ha Hw]. apply bool_decide_eq_false in Ha.
    rewrite decide_False by done. by rewrite IH.
Qed.

(** Splitting a join gives the words back, when no word contains the separator. *)
Lemma split_on_join c ws :
  ws <> [] -> Forall (fun w => str_mem c w = false) ws -> split_on c (join (String c "") ws) = ws.
Proof.
  intros Hne H. induction H as [|w ws Hw Hws IH]; [done|].
  destruct ws as [|w' ws]; [by apply split_on_word|].
  change (join (String c "") (w :: w' :: ws))
    with (w ++ String c (join (String c "") (w' :: ws))).
  rewrite split_on_app by done. by rewrite IH.
Qed.

Lemma join_split_on c s : join (String c "") (split_on c s) = s.
Proof.
  induction s as [|a s IH]; [done|]. cbn. pose proof (split_on_nonempty c s).
  destruct (split_on c s) as [|w ws]; [done|]. case_decide as E; [subst a|].
  - change (join (String c "") ("" :: w :: ws)) with (String c (join (String c "") (w :: ws))).
    by rewrite IH.
  - destruct ws; cbn in *; by rewrite IH.
Qed.

Lemma strip_id f s : str_forallb (fun c => negb (f c)) s = true -> strip f s = s.
Proof.
  intros H. unfold strip.
  assert (lstrip f s = s) as ->.
  { destruct s; cbn in *; [done|]. apply andb_true_iff in H as [Ha _].
    apply negb_true_iff in Ha. by rewrite Ha. }
  induction s as [|a s IH]; cbn in *; [done|]. apply andb_true_iff in H as [Ha Hs].
  rewrite IH by done. apply negb_true_iff in Ha. destruct s; [by rewrite Ha | done].
Qed.

(** ** Lemmas: decimal text *)

Lemma digit_char_code d : 0 <= d < 10 -> code (digit_char d) = 48 + d.
Proof. intros. unfold digit_char. apply code_chr. lia. Qed.

Lemma digit_char_val d : 0 <= d < 10 -> digit_val (digit_char d) = d.
Proof. intros. unfold digit_val. rewrite digit_char_code by done. lia. Qed.

Lemma digit_char_is_digit d : 0 <= d < 10 -> is_digit (digit_char d) = true.
Proof.
  intros. unfold is_digit. rewrite digit_char_code by done.
  rewrite andb_true_iff, !Z.leb_le. lia.
Qed.


Lemma digits_value_app n a b :
  digits_value n (a ++ b) = digits_value (digits_value n a) b.
Proof. revert n; induction a; intros; cbn; auto. Qed.

Lemma digits_value_shift n a :
  digits_value n a = n * 10 ^ Z.of_nat (String.length a) + digits_value 0 a.
Proof.
  revert n; induction a as [|c a IH]; intros n; cbn [digits_value String.length]; [cbn; lia|].
  rewrite IH, (IH (10 * 0 + digit_val c)), Nat2Z.inj_succ, Z.pow_succ_r by lia. lia.
Qed.

(** Enough fuel: the loop prints a non-empty run of digits of value [z] in
    front of the accumulator. *)
Lemma dec_loop_spec fuel z acc :
  0 <= z < 2 ^ Z.of_nat fuel -> (0 < fuel)%nat ->
  exists ds, dec_loop fuel z acc = ds ++ acc /\ ds <> "" /\
    str_forallb is_digit ds = true /\ digits_value 0 ds = z.
Proof.
  revert z acc; induction fuel as [|f IH]; intros z acc Hz Hf; [lia|].
  assert (0 <= z mod 10 < 10) by (apply Z.mod_pos_bound; lia).
  pose proof (Z.div_mod z 10 ltac:(lia)) as Hdm.
  cbn [dec_loop]. destruct (Z.eqb_spec (z / 10) 0) as [E|E].
  - exists (String (digit_char (z mod 10)) ""). cbn.
    rewrite digit_char_is_digit, digit_char_val by done. repeat split; [done|]. lia.
  - assert (0 <= z / 10 < 2 ^ Z.of_nat f).
    { rewrite Nat2Z.inj_succ, Z.pow_succ_r in Hz by lia.
      split; [apply Z.div_pos; lia | apply Z.div_lt_upper_bound; lia]. }
    destruct f as [|f]; [cbn in *; lia|].
    destruct (IH (z / 10) (String (digit_char (z mod 10)) acc)) as (ds & -> & Hne & Hd & Hv);
      [done | lia |].
    exists (ds ++ String (digit_char (z mod 10)) ""). repeat split.
    + rewrite str_app_assoc. done.
    + by destruct ds.
    + rewrite str_forallb_app, Hd. cbn. by rewrite digit_char_is_digit.
    + rewrite digits_value_app, Hv. cbn. rewrite digit_char_val by done. lia.
Qed.

Lemma dec_nonneg_spec z :
  0 <= z -> dec_nonneg z <> "" /\ str_forallb is_digit (dec_nonneg z) = true /\
            digits_value 0 (dec_nonneg z) = z.
Proof.
  intros Hz. unfold dec_nonneg.
  destruct (dec_loop_spec (S (Z.to_nat (Z.log2 z))) z "") as (ds & -> & ?); [|lia|].
  - rewrite Nat2Z.inj_succ, Z2Nat.id by apply Z.log2_nonneg.
    destruct (Z.eq_dec z 0) as [->|]; [cbn; lia|]. pose proof (Z.log2_spec z). lia.
  - by rewrite str_app_nil_r.
Qed.

Lemma dec_nonneg_inj a b : 0 <= a -> 0 <= b -> dec_nonneg a = dec_nonneg b -> a = b.
Proof.
  intros Ha Hb E. destruct (dec_nonneg_spec a Ha) as (_ & _ & <-).
  rewrite E. by destruct (dec_nonneg_spec b Hb) as (_ & _ & ->).
Qed.

Lemma int_digits_spec b n s :
  str_forallb is_digit s = true -> (b = true \/ s <> "") ->
  int_digits b n s = Some (digits_value n s).
Proof.
  revert b n; induction s as [|c s IH]; intros b n H Hb; cbn in *.
  - by destruct Hb as [->|].
  - apply andb_true_iff in H as [-> Hs]. by apply IH; [|left].
Qed.

Lemma is_digit_not_space c : is_digit c = true -> negb (is_space c) = true.
Proof.
  unfold is_digit, is_space. intros H. zify_bool. apply negb_true_iff.
  apply orb_false_iff; split; apply andb_false_iff; right; apply Z.leb_gt; lia.
Qed.

Lemma str_of_Z_nonneg z : 0 <= z -> str_of_Z z = dec_nonneg z.
Proof. intros. unfold str_of_Z. by destruct (Z.ltb_spec z 0); [lia|]. Qed.

(** [int(str(z)) == z]. *)
Lemma int_of_str_of_Z z : int_of_str (str_of_Z z) = Ok z.
Proof.
  unfold int_of_str, str_of_Z. destruct (Z.ltb_spec z 0).
  - destruct (dec_nonneg_spec (- z)) as (Hne & Hd & Hv); [lia|].
    rewrite strip_id.
    2: { cbn. eapply str_forallb_impl; [|exact Hd]. apply is_digit_not_space. }
    rewrite decide_True by done. rewrite int_digits_spec, Hv by (done || by right).
    cbn. f_equal. lia.
  - destruct (dec_nonneg_spec z) as (Hne & Hd & Hv); [lia|].
    rewrite strip_id by (eapply str_forallb_impl; [apply is_digit_not_space|exact Hd]).
    destruct (dec_nonneg z) as [|c s] eqn:E; [done|].
    assert (is_digit c = true) as Hc by (cbn in Hd; by apply andb_true_iff in Hd as [? _]).
    rewrite !decide_False by (intros ->; done).
    rewrite int_digits_spec, Hv by (done || by right). done.
Qed.

Lemma digits_no_char c s :
  is_digit c = false -> str_forallb is_digit s = true -> str_mem c s = false.
Proof.
  intros Hc Hs. apply str_mem_false. eapply str_forallb_impl; [|exact Hs].
  intros a Ha. apply negb_true_iff, bool_decide_eq_false. congruence.
Qed.

Lemma dec_loop_length fuel z acc w :
  0 <= z < 10 ^ Z.of_nat (S w) ->
  (String.length (dec_loop fuel z acc) <= S w + String.length acc)%nat.
Proof.
  revert z acc w; induction fuel as [|f IH]; intros z acc w Hz; cbn [dec_loop]; [lia|].
  destruct (Z.eqb_spec (z / 10) 0) as [E|E]; [cbn; lia|].
  rewrite Nat2Z.inj_succ, Z.pow_succ_r in Hz by lia.
  assert (0 <= z / 10 < 10 ^ Z.of_nat w) as Hq
    by (split; [apply Z.div_pos; lia | apply Z.div_lt_upper_bound; lia]).
  destruct w as [|w]; [cbn in Hq; lia|].
  specialize (IH (z / 10) (String (digit_char (z mod 10)) acc) w Hq). cbn [String.length] in IH. lia.
Qed.

Lemma zeros_spec n :
  str_forallb is_digit (zeros n) = true /\ String.length (zeros n) = n /\ digits_value 0 (zeros n) = 0.
Proof. induction n as [|n (IH1 & IH2 & IH3)]; [done|]. cbn. rewrite IH1, IH2. done. Qed.

(** A number that fits is printed with exactly [w] digits. *)
Lemma fmt_zero_spec w z :
  (0 < w)%nat -> 0 <= z < 10 ^ Z.of_nat w ->
  str_forallb is_digit (fmt_zero w z) = true /\ String.length (fmt_zero w z) = w /\
  digits_value 0 (fmt_zero w z) = z.
Proof.
  intros Hw Hz. unfold fmt_zero. destruct (Z.ltb_spec z 0); [lia|]. rewrite Z.abs_eq by lia.
  destruct w as [|w]; [lia|].
  pose proof (dec_loop_length (S (Z.to_nat (Z.log2 z))) z "" w Hz) as Hl.
  change (dec_loop _ z "") with (dec_nonneg z) in Hl. cbn [String.length] in Hl.
  destruct (dec_nonneg_spec z) as (_ & Hd & Hv); [lia|].
  destruct (zeros_spec (S w - String.length (dec_nonneg z))) as (Hzd & Hzl & Hzv).
  rewrite str_forallb_app, Hzd, Hd, str_length_app, Hzl, digits_value_app, Hzv, Hv.
  repeat split. lia.
Qed.

(** ** Lemmas: UTF-8 *)

Definition is_ascii_byte (b : Z) : Prop := 0 <= b < 128.

Lemma utf8_chunks_ascii fuel bs :
  Forall is_ascii_byte bs -> (length bs < fuel)%nat ->
  utf8_chunks fuel bs = map (fun b => (true, [b])) bs.
Proof.
  intros H. revert fuel; induction H as [|b bs Hb Hbs IH]; intros [|f] Hf; cbn in *; try lia; [done|].
  unfold is_ascii_byte in Hb. unfold in_range at 1.
  destruct (Z.leb_spec 0 b), (Z.leb_spec b 127); try lia. cbn.
  rewrite IH by lia. done.
Qed.

(** ASCII bytes decode to themselves, whatever the error handler. *)
Lemma utf8_decode_ascii bs :
  Forall is_ascii_byte bs -> utf8_decode ErrStrict bs = Ok (string_of_bytes bs).
Proof.
  intros H. unfold utf8_decode. rewrite utf8_chunks_ascii by (done || lia).
  replace (forallb fst (map (fun b => (true, [b])) bs)) with true; [done|].
  symmetry. apply forallb_forall. intros c Hc. apply in_map_iff in Hc as (b & <- & _). done.
Qed.
