(* ===== verification/Charset.v ===== *)
(** * Character sets

    [pymysqlreplication/constants/CHARSET.py]: the table of character sets and
    collations of MySQL and MariaDB, and [find_charset] of
    [row_event.py], which looks a collation id of a table map event up in it. *)

From stdpp Require Import base list strings sets.
From Stdlib Require Import ZArith Lia Ascii.
From S2P Require Import Prelude PyBytes PyStr.
Open Scope string_scope.
Open Scope Z_scope.

Record Charset := mkCharset {
  id : Z;
  name : string;
  collation : string;
  is_default : bool;
  dbms : string
}.

#[export] Instance Charset_eq_dec : EqDecision Charset.
Proof. solve_decision. Defined.

(** [Charset.encoding]: the name of the Python codec. *)
Definition encoding (c : Charset) : string :=
  let name := name c in
  if bool_decide (name = "utf8mb4") || bool_decide (name = "utf8mb3") then "utf8"
  else if bool_decide (name = "latin1") then "cp1252"
  else if bool_decide (name = "koi8r") then "koi8_r"
  else if bool_decide (name = "koi8u") then "koi8_u"
  else name.

Definition is_binary (c : Charset) : bool := id c =? 63.

(** ** The registry *)

Record Charsets := mkCharsets {
  by_id_ : dict string (dict Z Charset);
  by_name_ : dict string (dict string Charset)
}.

(** [Charsets.add]; the two dictionaries are [defaultdict(dict)]. *)
Definition charsets_add (self : Charsets) (c : Charset) : Charsets :=
  let ids := dict_set (default [] (dict_get (by_id_ self) (dbms c))) (id c) c in
  let self := mkCharsets (dict_set (by_id_ self) (dbms c) ids) (by_name_ self) in
  if is_default c then
    let names := dict_set (default [] (dict_get (by_name_ self) (dbms c))) (name c) c in
    mkCharsets (by_id_ self) (dict_set (by_name_ self) (dbms c) names)
  else self.

(** [Charsets.by_id]; the id is text that [int] parses. *)
Definition by_id (self : Charsets) (id dbms : string) : result (option Charset) :=
  n ← int_of_str id;
  Ok (dict_get (default [] (dict_get (by_id_ self) dbms)) n).

(** [str.lower] of ASCII text; the names of character sets are ASCII. *)
Definition lower_ascii (c : ascii) : ascii :=
  let n := nat_of_ascii c in
  if (65 <=? n)%nat && (n <=? 90)%nat then ascii_of_nat (n + 32) else c.
Fixpoint str_lower (s : string) : string :=
  match s with EmptyString => EmptyString | String c s' => String (lower_ascii c) (str_lower s') end.

Definition by_name (self : Charsets) (name dbms : string) : option Charset :=
  let name := if bool_decide (name = "utf8") then "utf8mb4" else name in
  dict_get (default [] (dict_get (by_name_ self) dbms)) (str_lower name).

(** ** The table *)

Definition charset_rows_1 : list Charset := [
  mkCharset 1 "big5" "big5_chinese_ci" true "mysql";
  mkCharset 2 "latin2" "latin2_czech_cs" false "mysql";
  mkCharset 3 "dec8" "dec8_swedish_ci" true "mysql";
  mkCharset 4 "cp850" "cp850_general_ci" true "mysql";
  mkCharset 5 "latin1" "latin1_german1_ci" false "mysql";
  mkCharset 6 "hp8" "hp8_english_ci" true "mysql";
  mkCharset 7 "koi8r" "koi8r_general_ci" true "mysql";
  mkCharset 8 "latin1" "latin1_swedish_ci" true "mysql";
  mkCharset 9 "latin2" "latin2_general_ci" true "mysql";
  mkCharset 10 "swe7" "swe7_swedish_ci" true "mysql";
  mkCharset 11 "ascii" "ascii_general_ci" true "mysql";
  mkCharset 12 "ujis" "ujis_japanese_ci" true "mysql";
  mkCharset 13 "sjis" "sjis_japanese_ci" true "mysql";
  mkCharset 14 "cp1251" "cp1251_bulgarian_ci" false "mysql";
  mkCharset 15 "latin1" "latin1_danish_ci" false "mysql";
  mkCharset 16 "hebrew" "hebrew_general_ci" true "mysql";
  mkCharset 18 "tis620" "tis620_thai_ci" true "mysql";
  mkCharset 19 "euckr" "euckr_korean_ci" true "mysql";
  mkCharset 20 "latin7" "latin7_estonian_cs" false "mysql";
  mkCharset 21 "latin2" "latin2_hungarian_ci" false "mysql";
  mkCharset 22 "koi8u" "koi8u_general_ci" true "mysql";
  mkCharset 23 "cp1251" "cp1251_ukrainian_ci" false "mysql";
  mkCharset 24 "gb2312" "gb2312_chinese_ci" true "mysql";
  mkCharset 25 "greek" "greek_general_ci" true "mysql";
  mkCharset 26 "cp1250" "cp1250_general_ci" true "mysql";
  mkCharset 27 "latin2" "latin2_croatian_ci" false "mysql";
  mkCharset 28 "gbk" "gbk_chinese_ci" true "mysql";
  mkCharset 29 "cp1257" "cp1257_lithuanian_ci" false "mysql";
  mkCharset 30 "latin5" "latin5_turkish_ci" true "mysql";
  mkCharset 31 "latin1" "latin1_german2_ci" false "mysql";
  mkCharset 32 "armscii8" "armscii8_general_ci" true "mysql";
  mkCharset 33 "utf8mb3" "utf8mb3_general_ci" true "mysql";
  mkCharset 34 "cp1250" "cp1250_czech_cs" false "mysql";
  mkCharset 35 "ucs2" "ucs2_general_ci" true "mysql";
  mkCharset 36 "cp866" "cp866_general_ci" true "mysql";
  mkCharset 37 "keybcs2" "keybcs2_general_ci" true "mysql";
  mkCharset 38 "macce" "macce_general_ci" true "mysql";
  mkCharset 39 "macroman" "macroman_general_ci" true "mysql";
  mkCharset 40 "cp852" "cp852_general_ci" true "mysql";
  mkCharset 41 "latin7" "latin7_general_ci" true "mysql";
  mkCharset 42 "latin7" "latin7_general_cs" false "mysql";
  mkCharset 43 "macce" "macce_bin" false "mysql";
  mkCharset 44 "cp1250" "cp1250_croatian_ci" false "mysql";
  mkCharset 45 "utf8mb4" "utf8mb4_general_ci" false "mysql";
  mkCharset 46 "utf8mb4" "utf8mb4_bin" false "mysql";
  mkCharset 47 "latin1" "latin1_bin" false "mysql";
  mkCharset 48 "latin1" "latin1_general_ci" false "mysql";
  mkCharset 49 "latin1" "latin1_general_cs" false "mysql";
  mkCharset 50 "cp1251" "cp1251_bin" false "mysql";
  mkCharset 51 "cp1251" "cp1251_general_ci" true "mysql";
  mkCharset 52 "cp1251" "cp1251_general_cs" false "mysql";
  mkCharset 53 "macroman" "macroman_bin" false "mysql";
  mkCharset 54 "utf16" "utf16_general_ci" true "mysql";
  mkCharset 55 "utf16" "utf16_bin" false "mysql";
  mkCharset 56 "utf16le" "utf16le_general_ci" true "mysql";
  mkCharset 57 "cp1256" "cp1256_general_ci" true "mysql";
  mkCharset 58 "cp1257" "cp1257_bin" false "mysql";
  mkCharset 59 "cp1257" "cp1257_general_ci" true "mysql";
  mkCharset 60 "utf32" "utf32_general_ci" true "mysql";
  mkCharset 61 "utf32" "utf32_bin" false "mysql";
  mkCharset 62 "utf16le" "utf16le_bin" false "mysql";
  mkCharset 63 "binary" "binary" true "mysql";
  mkCharset 64 "armscii8" "armscii8_bin" false "mysql";
  mkCharset 65 "ascii" "ascii_bin" false "mysql";
  mkCharset 66 "cp1250" "cp1250_bin" false "mysql";
  mkCharset 67 "cp1256" "cp1256_bin" false "mysql";
  mkCharset 68 "cp866" "cp866_bin" false "mysql";
  mkCharset 69 "dec8" "dec8_bin" false "mysql";
  mkCharset 70 "greek" "greek_bin" false "mysql";
  mkCharset 71 "hebrew" "hebrew_bin" false "mysql";
  mkCharset 72 "hp8" "hp8_bin" false "mysql";
  mkCharset 73 "keybcs2" "keybcs2_bin" false "mysql";
  mkCharset 74 "koi8r" "koi8r_bin" false "mysql";
  mkCharset 75 "koi8u" "koi8u_bin" false "mysql";
  mkCharset 76 "utf8mb3" "utf8mb3_tolower_ci" false "mysql";
  mkCharset 77 "latin2" "latin2_bin" false "mysql";
  mkCharset 78 "latin5" "latin5_bin" false "mysql";
  mkCharset 79 "latin7" "latin7_bin" false "mysql";
  mkCharset 80 "cp850" "cp850_bin" false "mysql";
  mkCharset 81 "cp852" "cp852_bin" false "mysql";
  mkCharset 82 "swe7" "swe7_bin" false "mysql";
  mkCharset 83 "utf8mb3" "utf8mb3_bin" false "mysql";
  mkCharset 84 "big5" "big5_bin" false "mysql";
  mkCharset 85 "euckr" "euckr_bin" false "mysql";
  mkCharset 86 "gb2312" "gb2312_bin" false "mysql";
  mkCharset 87 "gbk" "gbk_bin" false "mysql";
  mkCharset 88 "sjis" "sjis_bin" false "mysql";
  mkCharset 89 "tis620" "tis620_bin" false "mysql";
  mkCharset 90 "ucs2" "ucs2_bin" false "mysql";
  mkCharset 91 "ujis" "ujis_bin" false "mysql";
  mkCharset 92 "geostd8" "geostd8_general_ci" true "mysql";
  mkCharset 93 "geostd8" "geostd8_bin" false "mysql";
  mkCharset 94 "latin1" "latin1_spanish_ci" false "mysql";
  mkCharset 95 "cp932" "cp932_japanese_ci" true "mysql";
  mkCharset 96 "cp932" "cp932_bin" false "mysql";
  mkCharset 97 "eucjpms" "eucjpms_japanese_ci" true "mysql";
  mkCharset 98 "eucjpms" "eucjpms_bin" false "mysql";
  mkCharset 99 "cp1250" "cp1250_polish_ci" false "mysql";
  mkCharset 101 "utf16" "utf16_unicode_ci" false "mysql";
  mkCharset 102 "utf16" "utf16_icelandic_ci" false "mysql";
  mkCharset 103 "utf16" "utf16_latvian_ci" false "mysql";
  mkCharset 104 "utf16" "utf16_romanian_ci" false "mysql";
  mkCharset 105 "utf16" "utf16_slovenian_ci" false "mysql";
  mkCharset 106 "utf16" "utf16_polish_ci" false "mysql";
  mkCharset 107 "utf16" "utf16_estonian_ci" false "mysql";
  mkCharset 108 "utf16" "utf16_spanish_ci" false "mysql";
  mkCharset 109 "utf16" "utf16_swedish_ci" false "mysql";
  mkCharset 110 "utf16" "utf16_turkish_ci" false "mysql";
  mkCharset 111 "utf16" "utf16_czech_ci" false "mysql";
  mkCharset 112 "utf16" "utf16_danish_ci" false "mysql";
  mkCharset 113 "utf16" "utf16_lithuanian_ci" false "mysql";
  mkCharset 114 "utf16" "utf16_slovak_ci" false "mysql";
  mkCharset 115 "utf16" "utf16_spanish2_ci" false "mysql";
  mkCharset 116 "utf16" "utf16_roman_ci" false "mysql";
  mkCharset 117 "utf16" "utf16_persian_ci" false "mysql";
  mkCharset 118 "utf16" "utf16_esperanto_ci" false "mysql";
  mkCharset 119 "utf16" "utf16_hungarian_ci" false "mysql";
  mkCharset 120 "utf16" "utf16_sinhala_ci" false "mysql";
  mkCharset 121 "utf16" "utf16_german2_ci" false "mysql";
  mkCharset 122 "utf16" "utf16_croatian_ci" false "mysql";
  mkCharset 123 "utf16" "utf16_unicode_520_ci" false "mysql";
  mkCharset 124 "utf16" "utf16_vietnamese_ci" false "mysql" ].

Definition charset_rows_2 : list Charset := [
  mkCharset 128 "ucs2" "ucs2_unicode_ci" false "mysql";
  mkCharset 129 "ucs2" "ucs2_icelandic_ci" false "mysql";
  mkCharset 130 "ucs2" "ucs2_latvian_ci" false "mysql";
  mkCharset 131 "ucs2" "ucs2_romanian_ci" false "mysql";
  mkCharset 132 "ucs2" "ucs2_slovenian_ci" false "mysql";
  mkCharset 133 "ucs2" "ucs2_polish_ci" false "mysql";
  mkCharset 134 "ucs2" "ucs2_estonian_ci" false "mysql";
  mkCharset 135 "ucs2" "ucs2_spanish_ci" false "mysql";
  mkCharset 136 "ucs2" "ucs2_swedish_ci" false "mysql";
  mkCharset 137 "ucs2" "ucs2_turkish_ci" false "mysql";
  mkCharset 138 "ucs2" "ucs2_czech_ci" false "mysql";
  mkCharset 139 "ucs2" "ucs2_danish_ci" false "mysql";
  mkCharset 140 "ucs2" "ucs2_lithuanian_ci" false "mysql";
  mkCharset 141 "ucs2" "ucs2_slovak_ci" false "mysql";
  mkCharset 142 "ucs2" "ucs2_spanish2_ci" false "mysql";
  mkCharset 143 "ucs2" "ucs2_roman_ci" false "mysql";
  mkCharset 144 "ucs2" "ucs2_persian_ci" false "mysql";
  mkCharset 145 "ucs2" "ucs2_esperanto_ci" false "mysql";
  mkCharset 146 "ucs2" "ucs2_hungarian_ci" false "mysql";
  mkCharset 147 "ucs2" "ucs2_sinhala_ci" false "mysql";
  mkCharset 148 "ucs2" "ucs2_german2_ci" false "mysql";
  mkCharset 149 "ucs2" "ucs2_croatian_ci" false "mysql";
  mkCharset 150 "ucs2" "ucs2_unicode_520_ci" false "mysql";
  mkCharset 151 "ucs2" "ucs2_vietnamese_ci" false "mysql";
  mkCharset 159 "ucs2" "ucs2_general_mysql500_ci" false "mysql";
  mkCharset 160 "utf32" "utf32_unicode_ci" false "mysql";
  mkCharset 161 "utf32" "utf32_icelandic_ci" false "mysql";
  mkCharset 162 "utf32" "utf32_latvian_ci" false "mysql";
  mkCharset 163 "utf32" "utf32_romanian_ci" false "mysql";
  mkCharset 164 "utf32" "utf32_slovenian_ci" false "mysql";
  mkCharset 165 "utf32" "utf32_polish_ci" false "mysql";
  mkCharset 166 "utf32" "utf32_estonian_ci" false "mysql";
  mkCharset 167 "utf32" "utf32_spanish_ci" false "mysql";
  mkCharset 168 "utf32" "utf32_swedish_ci" false "mysql";
  mkCharset 169 "utf32" "utf32_turkish_ci" false "mysql";
  mkCharset 170 "utf32" "utf32_czech_ci" false "mysql";
  mkCharset 171 "utf32" "utf32_danish_ci" false "mysql";
  mkCharset 172 "utf32" "utf32_lithuanian_ci" false "mysql";
  mkCharset 173 "utf32" "utf32_slovak_ci" false "mysql";
  mkCharset 174 "utf32" "utf32_spanish2_ci" false "mysql";
  mkCharset 175 "utf32" "utf32_roman_ci" false "mysql";
  mkCharset 176 "utf32" "utf32_persian_ci" false "mysql";
  mkCharset 177 "utf32" "utf32_esperanto_ci" false "mysql";
  mkCharset 178 "utf32" "utf32_hungarian_ci" false "mysql";
  mkCharset 179 "utf32" "utf32_sinhala_ci" false "mysql";
  mkCharset 180 "utf32" "utf32_german2_ci" false "mysql";
  mkCharset 181 "utf32" "utf32_croatian_ci" false "mysql";
  mkCharset 182 "utf32" "utf32_unicode_520_ci" false "mysql";
  mkCharset 183 "utf32" "utf32_vietnamese_ci" false "mysql";
  mkCharset 192 "utf8mb3" "utf8mb3_unicode_ci" false "mysql";
  mkCharset 193 "utf8mb3" "utf8mb3_icelandic_ci" false "mysql";
  mkCharset 194 "utf8mb3" "utf8mb3_latvian_ci" false "mysql";
  mkCharset 195 "utf8mb3" "utf8mb3_romanian_ci" false "mysql";
  mkCharset 196 "utf8mb3" "utf8mb3_slovenian_ci" false "mysql";
  mkCharset 197 "utf8mb3" "utf8mb3_polish_ci" false "mysql";
  mkCharset 198 "utf8mb3" "utf8mb3_estonian_ci" false "mysql";
  mkCharset 199 "utf8mb3" "utf8mb3_spanish_ci" false "mysql";
  mkCharset 200 "utf8mb3" "utf8mb3_swedish_ci" false "mysql";
  mkCharset 201 "utf8mb3" "utf8mb3_turkish_ci" false "mysql";
  mkCharset 202 "utf8mb3" "utf8mb3_czech_ci" false "mysql";
  mkCharset 203 "utf8mb3" "utf8mb3_danish_ci" false "mysql";
  mkCharset 204 "utf8mb3" "utf8mb3_lithuanian_ci" false "mysql";
  mkCharset 205 "utf8mb3" "utf8mb3_slovak_ci" false "mysql";
  mkCharset 206 "utf8mb3" "utf8mb3_spanish2_ci" false "mysql";
  mkCharset 207 "utf8mb3" "utf8mb3_roman_ci" false "mysql";
  mkCharset 208 "utf8mb3" "utf8mb3_persian_ci" false "mysql";
  mkCharset 209 "utf8mb3" "utf8mb3_esperanto_ci" false "mysql";
  mkCharset 210 "utf8mb3" "utf8mb3_hungarian_ci" false "mysql";
  mkCharset 211 "utf8mb3" "utf8mb3_sinhala_ci" false "mysql";
  mkCharset 212 "utf8mb3" "utf8mb3_german2_ci" false "mysql";
  mkCharset 213 "utf8mb3" "utf8mb3_croatian_ci" false "mysql";
  mkCharset 214 "utf8mb3" "utf8mb3_unicode_520_ci" false "mysql";
  mkCharset 215 "utf8mb3" "utf8mb3_vietnamese_ci" false "mysql";
  mkCharset 223 "utf8mb3" "utf8mb3_general_mysql500_ci" false "mysql";
  mkCharset 224 "utf8mb4" "utf8mb4_unicode_ci" false "mysql";
  mkCharset 225 "utf8mb4" "utf8mb4_icelandic_ci" false "mysql";
  mkCharset 226 "utf8mb4" "utf8mb4_latvian_ci" false "mysql";
  mkCharset 227 "utf8mb4" "utf8mb4_romanian_ci" false "mysql";
  mkCharset 228 "utf8mb4" "utf8mb4_slovenian_ci" false "mysql";
  mkCharset 229 "utf8mb4" "utf8mb4_polish_ci" false "mysql";
  mkCharset 230 "utf8mb4" "utf8mb4_estonian_ci" false "mysql";
  mkCharset 231 "utf8mb4" "utf8mb4_spanish_ci" false "mysql";
  mkCharset 232 "utf8mb4" "utf8mb4_swedish_ci" false "mysql";
  mkCharset 233 "utf8mb4" "utf8mb4_turkish_ci" false "mysql";
  mkCharset 234 "utf8mb4" "utf8mb4_czech_ci" false "mysql";
  mkCharset 235 "utf8mb4" "utf8mb4_danish_ci" false "mysql";
  mkCharset 236 "utf8mb4" "utf8mb4_lithuanian_ci" false "mysql";
  mkCharset 237 "utf8mb4" "utf8mb4_slovak_ci" false "mysql";
  mkCharset 238 "utf8mb4" "utf8mb4_spanish2_ci" false "mysql";
  mkCharset 239 "utf8mb4" "utf8mb4_roman_ci" false "mysql";
  mkCharset 240 "utf8mb4" "utf8mb4_persian_ci" false "mysql";
  mkCharset 241 "utf8mb4" "utf8mb4_esperanto_ci" false "mysql";
  mkCharset 242 "utf8mb4" "utf8mb4_hungarian_ci" false "mysql";
  mkCharset 243 "utf8mb4" "utf8mb4_sinhala_ci" false "mysql";
  mkCharset 244 "utf8mb4" "utf8mb4_german2_ci" false "mysql";
  mkCharset 245 "utf8mb4" "utf8mb4_croatian_ci" false "mysql";
  mkCharset 246 "utf8mb4" "utf8mb4_unicode_520_ci" false "mysql";
  mkCharset 247 "utf8mb4" "utf8mb4_vietnamese_ci" false "mysql";
  mkCharset 248 "gb18030" "gb18030_chinese_ci" true "mysql";
  mkCharset 249 "gb18030" "gb18030_bin" false "mysql";
  mkCharset 250 "gb18030" "gb18030_unicode_520_ci" false "mysql";
  mkCharset 255 "utf8mb4" "utf8mb4_0900_ai_ci" true "mysql";
  mkCharset 256 "utf8mb4" "utf8mb4_de_pb_0900_ai_ci" false "mysql";
  mkCharset 257 "utf8mb4" "utf8mb4_is_0900_ai_ci" false "mysql";
  mkCharset 258 "utf8mb4" "utf8mb4_lv_0900_ai_ci" false "mysql";
  mkCharset 259 "utf8mb4" "utf8mb4_ro_0900_ai_ci" false "mysql";
  mkCharset 260 "utf8mb4" "utf8mb4_sl_0900_ai_ci" false "mysql";
  mkCharset 261 "utf8mb4" "utf8mb4_pl_0900_ai_ci" false "mysql";
  mkCharset 262 "utf8mb4" "utf8mb4_et_0900_ai_ci" false "mysql";
  mkCharset 263 "utf8mb4" "utf8mb4_es_0900_ai_ci" false "mysql";
  mkCharset 264 "utf8mb4" "utf8mb4_sv_0900_ai_ci" false "mysql";
  mkCharset 265 "utf8mb4" "utf8mb4_tr_0900_ai_ci" false "mysql";
  mkCharset 266 "utf8mb4" "utf8mb4_cs_0900_ai_ci" false "mysql";
  mkCharset 267 "utf8mb4" "utf8mb4_da_0900_ai_ci" false "mysql";
  mkCharset 268 "utf8mb4" "utf8mb4_lt_0900_ai_ci" false "mysql";
  mkCharset 269 "utf8mb4" "utf8mb4_sk_0900_ai_ci" false "mysql";
  mkCharset 270 "utf8mb4" "utf8mb4_es_trad_0900_ai_ci" false "mysql";
  mkCharset 271 "utf8mb4" "utf8mb4_la_0900_ai_ci" false "mysql";
  mkCharset 273 "utf8mb4" "utf8mb4_eo_0900_ai_ci" false "mysql";
  mkCharset 274 "utf8mb4" "utf8mb4_hu_0900_ai_ci" false "mysql";
  mkCharset 275 "utf8mb4" "utf8mb4_hr_0900_ai_ci" false "mysql";
  mkCharset 277 "utf8mb4" "utf8mb4_vi_0900_ai_ci" false "mysql" ].

Definition charset_rows_3 : list Charset := [
  mkCharset 278 "utf8mb4" "utf8mb4_0900_as_cs" false "mysql";
  mkCharset 279 "utf8mb4" "utf8mb4_de_pb_0900_as_cs" false "mysql";
  mkCharset 280 "utf8mb4" "utf8mb4_is_0900_as_cs" false "mysql";
  mkCharset 281 "utf8mb4" "utf8mb4_lv_0900_as_cs" false "mysql";
  mkCharset 282 "utf8mb4" "utf8mb4_ro_0900_as_cs" false "mysql";
  mkCharset 283 "utf8mb4" "utf8mb4_sl_0900_as_cs" false "mysql";
  mkCharset 284 "utf8mb4" "utf8mb4_pl_0900_as_cs" false "mysql";
  mkCharset 285 "utf8mb4" "utf8mb4_et_0900_as_cs" false "mysql";
  mkCharset 286 "utf8mb4" "utf8mb4_es_0900_as_cs" false "mysql";
  mkCharset 287 "utf8mb4" "utf8mb4_sv_0900_as_cs" false "mysql";
  mkCharset 288 "utf8mb4" "utf8mb4_tr_0900_as_cs" false "mysql";
  mkCharset 289 "utf8mb4" "utf8mb4_cs_0900_as_cs" false "mysql";
  mkCharset 290 "utf8mb4" "utf8mb4_da_0900_as_cs" false "mysql";
  mkCharset 291 "utf8mb4" "utf8mb4_lt_0900_as_cs" false "mysql";
  mkCharset 292 "utf8mb4" "utf8mb4_sk_0900_as_cs" false "mysql";
  mkCharset 293 "utf8mb4" "utf8mb4_es_trad_0900_as_cs" false "mysql";
  mkCharset 294 "utf8mb4" "utf8mb4_la_0900_as_cs" false "mysql";
  mkCharset 296 "utf8mb4" "utf8mb4_eo_0900_as_cs" false "mysql";
  mkCharset 297 "utf8mb4" "utf8mb4_hu_0900_as_cs" false "mysql";
  mkCharset 298 "utf8mb4" "utf8mb4_hr_0900_as_cs" false "mysql";
  mkCharset 300 "utf8mb4" "utf8mb4_vi_0900_as_cs" false "mysql";
  mkCharset 303 "utf8mb4" "utf8mb4_ja_0900_as_cs" false "mysql";
  mkCharset 304 "utf8mb4" "utf8mb4_ja_0900_as_cs_ks" false "mysql";
  mkCharset 305 "utf8mb4" "utf8mb4_0900_as_ci" false "mysql";
  mkCharset 306 "utf8mb4" "utf8mb4_ru_0900_ai_ci" false "mysql";
  mkCharset 307 "utf8mb4" "utf8mb4_ru_0900_as_cs" false "mysql";
  mkCharset 308 "utf8mb4" "utf8mb4_zh_0900_as_cs" false "mysql";
  mkCharset 309 "utf8mb4" "utf8mb4_0900_bin" false "mysql";
  mkCharset 310 "utf8mb4" "utf8mb4_nb_0900_ai_ci" false "mysql";
  mkCharset 311 "utf8mb4" "utf8mb4_nb_0900_as_cs" false "mysql";
  mkCharset 312 "utf8mb4" "utf8mb4_nn_0900_ai_ci" false "mysql";
  mkCharset 313 "utf8mb4" "utf8mb4_nn_0900_as_cs" false "mysql";
  mkCharset 314 "utf8mb4" "utf8mb4_sr_latn_0900_ai_ci" false "mysql";
  mkCharset 315 "utf8mb4" "utf8mb4_sr_latn_0900_as_cs" false "mysql";
  mkCharset 316 "utf8mb4" "utf8mb4_bs_0900_ai_ci" false "mysql";
  mkCharset 317 "utf8mb4" "utf8mb4_bs_0900_as_cs" false "mysql";
  mkCharset 318 "utf8mb4" "utf8mb4_bg_0900_ai_ci" false "mysql";
  mkCharset 319 "utf8mb4" "utf8mb4_bg_0900_as_cs" false "mysql";
  mkCharset 320 "utf8mb4" "utf8mb4_gl_0900_ai_ci" false "mysql";
  mkCharset 321 "utf8mb4" "utf8mb4_gl_0900_as_cs" false "mysql";
  mkCharset 322 "utf8mb4" "utf8mb4_mn_cyrl_0900_ai_ci" false "mysql";
  mkCharset 323 "utf8mb4" "utf8mb4_mn_cyrl_0900_as_cs" false "mysql";
  mkCharset 1 "big5" "big5_chinese_ci" true "mariadb";
  mkCharset 2 "latin2" "latin2_czech_cs" false "mariadb";
  mkCharset 3 "dec8" "dec8_swedish_ci" true "mariadb";
  mkCharset 4 "cp850" "cp850_general_ci" true "mariadb";
  mkCharset 5 "latin1" "latin1_german1_ci" false "mariadb";
  mkCharset 6 "hp8" "hp8_english_ci" true "mariadb";
  mkCharset 7 "koi8r" "koi8r_general_ci" true "mariadb";
  mkCharset 8 "latin1" "latin1_swedish_ci" true "mariadb";
  mkCharset 9 "latin2" "latin2_general_ci" true "mariadb";
  mkCharset 10 "swe7" "swe7_swedish_ci" true "mariadb";
  mkCharset 11 "ascii" "ascii_general_ci" true "mariadb";
  mkCharset 12 "ujis" "ujis_japanese_ci" true "mariadb";
  mkCharset 13 "sjis" "sjis_japanese_ci" true "mariadb";
  mkCharset 14 "cp1251" "cp1251_bulgarian_ci" false "mariadb";
  mkCharset 15 "latin1" "latin1_danish_ci" false "mariadb";
  mkCharset 16 "hebrew" "hebrew_general_ci" true "mariadb";
  mkCharset 18 "tis620" "tis620_thai_ci" true "mariadb";
  mkCharset 19 "euckr" "euckr_korean_ci" true "mariadb";
  mkCharset 20 "latin7" "latin7_estonian_cs" false "mariadb";
  mkCharset 21 "latin2" "latin2_hungarian_ci" false "mariadb";
  mkCharset 22 "koi8u" "koi8u_general_ci" true "mariadb";
  mkCharset 23 "cp1251" "cp1251_ukrainian_ci" false "mariadb";
  mkCharset 24 "gb2312" "gb2312_chinese_ci" true "mariadb";
  mkCharset 25 "greek" "greek_general_ci" true "mariadb";
  mkCharset 26 "cp1250" "cp1250_general_ci" true "mariadb";
  mkCharset 27 "latin2" "latin2_croatian_ci" false "mariadb";
  mkCharset 28 "gbk" "gbk_chinese_ci" true "mariadb";
  mkCharset 29 "cp1257" "cp1257_lithuanian_ci" false "mariadb";
  mkCharset 30 "latin5" "latin5_turkish_ci" true "mariadb";
  mkCharset 31 "latin1" "latin1_german2_ci" false "mariadb";
  mkCharset 32 "armscii8" "armscii8_general_ci" true "mariadb";
  mkCharset 33 "utf8mb3" "utf8mb3_general_ci" true "mariadb";
  mkCharset 34 "cp1250" "cp1250_czech_cs" false "mariadb";
  mkCharset 35 "ucs2" "ucs2_general_ci" true "mariadb";
  mkCharset 36 "cp866" "cp866_general_ci" true "mariadb";
  mkCharset 37 "keybcs2" "keybcs2_general_ci" true "mariadb";
  mkCharset 38 "macce" "macce_general_ci" true "mariadb";
  mkCharset 39 "macroman" "macroman_general_ci" true "mariadb";
  mkCharset 40 "cp852" "cp852_general_ci" true "mariadb";
  mkCharset 41 "latin7" "latin7_general_ci" true "mariadb";
  mkCharset 42 "latin7" "latin7_general_cs" false "mariadb";
  mkCharset 43 "macce" "macce_bin" false "mariadb";
  mkCharset 44 "cp1250" "cp1250_croatian_ci" false "mariadb";
  mkCharset 45 "utf8mb4" "utf8mb4_general_ci" true "mariadb";
  mkCharset 46 "utf8mb4" "utf8mb4_bin" false "mariadb";
  mkCharset 47 "latin1" "latin1_bin" false "mariadb";
  mkCharset 48 "latin1" "latin1_general_ci" false "mariadb";
  mkCharset 49 "latin1" "latin1_general_cs" false "mariadb";
  mkCharset 50 "cp1251" "cp1251_bin" false "mariadb";
  mkCharset 51 "cp1251" "cp1251_general_ci" true "mariadb";
  mkCharset 52 "cp1251" "cp1251_general_cs" false "mariadb";
  mkCharset 53 "macroman" "macroman_bin" false "mariadb";
  mkCharset 54 "utf16" "utf16_general_ci" true "mariadb";
  mkCharset 55 "utf16" "utf16_bin" false "mariadb";
  mkCharset 56 "utf16le" "utf16le_general_ci" true "mariadb";
  mkCharset 57 "cp1256" "cp1256_general_ci" true "mariadb";
  mkCharset 58 "cp1257" "cp1257_bin" false "mariadb";
  mkCharset 59 "cp1257" "cp1257_general_ci" true "mariadb";
  mkCharset 60 "utf32" "utf32_general_ci" true "mariadb";
  mkCharset 61 "utf32" "utf32_bin" false "mariadb";
  mkCharset 62 "utf16le" "utf16le_bin" false "mariadb";
  mkCharset 63 "binary" "binary" true "mariadb";
  mkCharset 64 "armscii8" "armscii8_bin" false "mariadb";
  mkCharset 65 "ascii" "ascii_bin" false "mariadb";
  mkCharset 66 "cp1250" "cp1250_bin" false "mariadb";
  mkCharset 67 "cp1256" "cp1256_bin" false "mariadb";
  mkCharset 68 "cp866" "cp866_bin" false "mariadb";
  mkCharset 69 "dec8" "dec8_bin" false "mariadb";
  mkCharset 70 "greek" "greek_bin" false "mariadb";
  mkCharset 71 "hebrew" "hebrew_bin" false "mariadb";
  mkCharset 72 "hp8" "hp8_bin" false "mariadb";
  mkCharset 73 "keybcs2" "keybcs2_bin" false "mariadb";
  mkCharset 74 "koi8r" "koi8r_bin" false "mariadb";
  mkCharset 75 "koi8u" "koi8u_bin" false "mariadb";
  mkCharset 77 "latin2" "latin2_bin" false "mariadb";
  mkCharset 78 "latin5" "latin5_bin" false "mariadb";
  mkCharset 79 "latin7" "latin7_bin" false "mariadb";
  mkCharset 80 "cp850" "cp850_bin" false "mariadb";
  mkCharset 81 "cp852" "cp852_bin" false "mariadb";
  mkCharset 82 "swe7" "swe7_bin" false "mariadb" ].

Definition charset_rows_4 : list Charset := [
  mkCharset 83 "utf8mb3" "utf8mb3_bin" false "mariadb";
  mkCharset 84 "big5" "big5_bin" false "mariadb";
  mkCharset 85 "euckr" "euckr_bin" false "mariadb";
  mkCharset 86 "gb2312" "gb2312_bin" false "mariadb";
  mkCharset 87 "gbk" "gbk_bin" false "mariadb";
  mkCharset 88 "sjis" "sjis_bin" false "mariadb";
  mkCharset 89 "tis620" "tis620_bin" false "mariadb";
  mkCharset 90 "ucs2" "ucs2_bin" false "mariadb";
  mkCharset 91 "ujis" "ujis_bin" false "mariadb";
  mkCharset 92 "geostd8" "geostd8_general_ci" true "mariadb";
  mkCharset 93 "geostd8" "geostd8_bin" false "mariadb";
  mkCharset 94 "latin1" "latin1_spanish_ci" false "mariadb";
  mkCharset 95 "cp932" "cp932_japanese_ci" true "mariadb";
  mkCharset 96 "cp932" "cp932_bin" false "mariadb";
  mkCharset 97 "eucjpms" "eucjpms_japanese_ci" true "mariadb";
  mkCharset 98 "eucjpms" "eucjpms_bin" false "mariadb";
  mkCharset 99 "cp1250" "cp1250_polish_ci" false "mariadb";
  mkCharset 101 "utf16" "utf16_unicode_ci" false "mariadb";
  mkCharset 102 "utf16" "utf16_icelandic_ci" false "mariadb";
  mkCharset 103 "utf16" "utf16_latvian_ci" false "mariadb";
  mkCharset 104 "utf16" "utf16_romanian_ci" false "mariadb";
  mkCharset 105 "utf16" "utf16_slovenian_ci" false "mariadb";
  mkCharset 106 "utf16" "utf16_polish_ci" false "mariadb";
  mkCharset 107 "utf16" "utf16_estonian_ci" false "mariadb";
  mkCharset 108 "utf16" "utf16_spanish_ci" false "mariadb";
  mkCharset 109 "utf16" "utf16_swedish_ci" false "mariadb";
  mkCharset 110 "utf16" "utf16_turkish_ci" false "mariadb";
  mkCharset 111 "utf16" "utf16_czech_ci" false "mariadb";
  mkCharset 112 "utf16" "utf16_danish_ci" false "mariadb";
  mkCharset 113 "utf16" "utf16_lithuanian_ci" false "mariadb";
  mkCharset 114 "utf16" "utf16_slovak_ci" false "mariadb";
  mkCharset 115 "utf16" "utf16_spanish2_ci" false "mariadb";
  mkCharset 116 "utf16" "utf16_roman_ci" false "mariadb";
  mkCharset 117 "utf16" "utf16_persian_ci" false "mariadb";
  mkCharset 118 "utf16" "utf16_esperanto_ci" false "mariadb";
  mkCharset 119 "utf16" "utf16_hungarian_ci" false "mariadb";
  mkCharset 120 "utf16" "utf16_sinhala_ci" false "mariadb";
  mkCharset 121 "utf16" "utf16_german2_ci" false "mariadb";
  mkCharset 122 "utf16" "utf16_croatian_mysql561_ci" false "mariadb";
  mkCharset 123 "utf16" "utf16_unicode_520_ci" false "mariadb";
  mkCharset 124 "utf16" "utf16_vietnamese_ci" false "mariadb";
  mkCharset 128 "ucs2" "ucs2_unicode_ci" false "mariadb";
  mkCharset 129 "ucs2" "ucs2_icelandic_ci" false "mariadb";
  mkCharset 130 "ucs2" "ucs2_latvian_ci" false "mariadb";
  mkCharset 131 "ucs2" "ucs2_romanian_ci" false "mariadb";
  mkCharset 132 "ucs2" "ucs2_slovenian_ci" false "mariadb";
  mkCharset 133 "ucs2" "ucs2_polish_ci" false "mariadb";
  mkCharset 134 "ucs2" "ucs2_estonian_ci" false "mariadb";
  mkCharset 135 "ucs2" "ucs2_spanish_ci" false "mariadb";
  mkCharset 136 "ucs2" "ucs2_swedish_ci" false "mariadb";
  mkCharset 137 "ucs2" "ucs2_turkish_ci" false "mariadb";
  mkCharset 138 "ucs2" "ucs2_czech_ci" false "mariadb";
  mkCharset 139 "ucs2" "ucs2_danish_ci" false "mariadb";
  mkCharset 140 "ucs2" "ucs2_lithuanian_ci" false "mariadb";
  mkCharset 141 "ucs2" "ucs2_slovak_ci" false "mariadb";
  mkCharset 142 "ucs2" "ucs2_spanish2_ci" false "mariadb";
  mkCharset 143 "ucs2" "ucs2_roman_ci" false "mariadb";
  mkCharset 144 "ucs2" "ucs2_persian_ci" false "mariadb";
  mkCharset 145 "ucs2" "ucs2_esperanto_ci" false "mariadb";
  mkCharset 146 "ucs2" "ucs2_hungarian_ci" false "mariadb";
  mkCharset 147 "ucs2" "ucs2_sinhala_ci" false "mariadb";
  mkCharset 148 "ucs2" "ucs2_german2_ci" false "mariadb";
  mkCharset 149 "ucs2" "ucs2_croatian_mysql561_ci" false "mariadb";
  mkCharset 150 "ucs2" "ucs2_unicode_520_ci" false "mariadb";
  mkCharset 151 "ucs2" "ucs2_vietnamese_ci" false "mariadb";
  mkCharset 159 "ucs2" "ucs2_general_mysql500_ci" false "mariadb";
  mkCharset 160 "utf32" "utf32_unicode_ci" false "mariadb";
  mkCharset 161 "utf32" "utf32_icelandic_ci" false "mariadb";
  mkCharset 162 "utf32" "utf32_latvian_ci" false "mariadb";
  mkCharset 163 "utf32" "utf32_romanian_ci" false "mariadb";
  mkCharset 164 "utf32" "utf32_slovenian_ci" false "mariadb";
  mkCharset 165 "utf32" "utf32_polish_ci" false "mariadb";
  mkCharset 166 "utf32" "utf32_estonian_ci" false "mariadb";
  mkCharset 167 "utf32" "utf32_spanish_ci" false "mariadb";
  mkCharset 168 "utf32" "utf32_swedish_ci" false "mariadb";
  mkCharset 169 "utf32" "utf32_turkish_ci" false "mariadb";
  mkCharset 170 "utf32" "utf32_czech_ci" false "mariadb";
  mkCharset 171 "utf32" "utf32_danish_ci" false "mariadb";
  mkCharset 172 "utf32" "utf32_lithuanian_ci" false "mariadb";
  mkCharset 173 "utf32" "utf32_slovak_ci" false "mariadb";
  mkCharset 174 "utf32" "utf32_spanish2_ci" false "mariadb";
  mkCharset 175 "utf32" "utf32_roman_ci" false "mariadb";
  mkCharset 176 "utf32" "utf32_persian_ci" false "mariadb";
  mkCharset 177 "utf32" "utf32_esperanto_ci" false "mariadb";
  mkCharset 178 "utf32" "utf32_hungarian_ci" false "mariadb";
  mkCharset 179 "utf32" "utf32_sinhala_ci" false "mariadb";
  mkCharset 180 "utf32" "utf32_german2_ci" false "mariadb";
  mkCharset 181 "utf32" "utf32_croatian_mysql561_ci" false "mariadb";
  mkCharset 182 "utf32" "utf32_unicode_520_ci" false "mariadb";
  mkCharset 183 "utf32" "utf32_vietnamese_ci" false "mariadb";
  mkCharset 192 "utf8mb3" "utf8mb3_unicode_ci" false "mariadb";
  mkCharset 193 "utf8mb3" "utf8mb3_icelandic_ci" false "mariadb";
  mkCharset 194 "utf8mb3" "utf8mb3_latvian_ci" false "mariadb";
  mkCharset 195 "utf8mb3" "utf8mb3_romanian_ci" false "mariadb";
  mkCharset 196 "utf8mb3" "utf8mb3_slovenian_ci" false "mariadb";
  mkCharset 197 "utf8mb3" "utf8mb3_polish_ci" false "mariadb";
  mkCharset 198 "utf8mb3" "utf8mb3_estonian_ci" false "mariadb";
  mkCharset 199 "utf8mb3" "utf8mb3_spanish_ci" false "mariadb";
  mkCharset 200 "utf8mb3" "utf8mb3_swedish_ci" false "mariadb";
  mkCharset 201 "utf8mb3" "utf8mb3_turkish_ci" false "mariadb";
  mkCharset 202 "utf8mb3" "utf8mb3_czech_ci" false "mariadb";
  mkCharset 203 "utf8mb3" "utf8mb3_danish_ci" false "mariadb";
  mkCharset 204 "utf8mb3" "utf8mb3_lithuanian_ci" false "mariadb";
  mkCharset 205 "utf8mb3" "utf8mb3_slovak_ci" false "mariadb";
  mkCharset 206 "utf8mb3" "utf8mb3_spanish2_ci" false "mariadb";
  mkCharset 207 "utf8mb3" "utf8mb3_roman_ci" false "mariadb";
  mkCharset 208 "utf8mb3" "utf8mb3_persian_ci" false "mariadb";
  mkCharset 209 "utf8mb3" "utf8mb3_esperanto_ci" false "mariadb";
  mkCharset 210 "utf8mb3" "utf8mb3_hungarian_ci" false "mariadb";
  mkCharset 211 "utf8mb3" "utf8mb3_sinhala_ci" false "mariadb";
  mkCharset 212 "utf8mb3" "utf8mb3_german2_ci" false "mariadb";
  mkCharset 213 "utf8mb3" "utf8mb3_croatian_mysql561_ci" false "mariadb";
  mkCharset 214 "utf8mb3" "utf8mb3_unicode_520_ci" false "mariadb";
  mkCharset 215 "utf8mb3" "utf8mb3_vietnamese_ci" false "mariadb";
  mkCharset 223 "utf8mb3" "utf8mb3_general_mysql500_ci" false "mariadb";
  mkCharset 224 "utf8mb4" "utf8mb4_unicode_ci" false "mariadb";
  mkCharset 225 "utf8mb4" "utf8mb4_icelandic_ci" false "mariadb";
  mkCharset 226 "utf8mb4" "utf8mb4_latvian_ci" false "mariadb";
  mkCharset 227 "utf8mb4" "utf8mb4_romanian_ci" false "mariadb";
  mkCharset 228 "utf8mb4" "utf8mb4_slovenian_ci" false "mariadb";
  mkCharset 229 "utf8mb4" "utf8mb4_polish_ci" false "mariadb";
  mkCharset 230 "utf8mb4" "utf8mb4_estonian_ci" false "mariadb" ].

Definition charset_rows_5 : list Charset := [
  mkCharset 231 "utf8mb4" "utf8mb4_spanish_ci" false "mariadb";
  mkCharset 232 "utf8mb4" "utf8mb4_swedish_ci" false "mariadb";
  mkCharset 233 "utf8mb4" "utf8mb4_turkish_ci" false "mariadb";
  mkCharset 234 "utf8mb4" "utf8mb4_czech_ci" false "mariadb";
  mkCharset 235 "utf8mb4" "utf8mb4_danish_ci" false "mariadb";
  mkCharset 236 "utf8mb4" "utf8mb4_lithuanian_ci" false "mariadb";
  mkCharset 237 "utf8mb4" "utf8mb4_slovak_ci" false "mariadb";
  mkCharset 238 "utf8mb4" "utf8mb4_spanish2_ci" false "mariadb";
  mkCharset 239 "utf8mb4" "utf8mb4_roman_ci" false "mariadb";
  mkCharset 240 "utf8mb4" "utf8mb4_persian_ci" false "mariadb";
  mkCharset 241 "utf8mb4" "utf8mb4_esperanto_ci" false "mariadb";
  mkCharset 242 "utf8mb4" "utf8mb4_hungarian_ci" false "mariadb";
  mkCharset 243 "utf8mb4" "utf8mb4_sinhala_ci" false "mariadb";
  mkCharset 244 "utf8mb4" "utf8mb4_german2_ci" false "mariadb";
  mkCharset 245 "utf8mb4" "utf8mb4_croatian_mysql561_ci" false "mariadb";
  mkCharset 246 "utf8mb4" "utf8mb4_unicode_520_ci" false "mariadb";
  mkCharset 247 "utf8mb4" "utf8mb4_vietnamese_ci" false "mariadb";
  mkCharset 576 "utf8mb3" "utf8mb3_croatian_ci" false "mariadb";
  mkCharset 577 "utf8mb3" "utf8mb3_myanmar_ci" false "mariadb";
  mkCharset 578 "utf8mb3" "utf8mb3_thai_520_w2" false "mariadb";
  mkCharset 608 "utf8mb4" "utf8mb4_croatian_ci" false "mariadb";
  mkCharset 609 "utf8mb4" "utf8mb4_myanmar_ci" false "mariadb";
  mkCharset 610 "utf8mb4" "utf8mb4_thai_520_w2" false "mariadb";
  mkCharset 640 "ucs2" "ucs2_croatian_ci" false "mariadb";
  mkCharset 641 "ucs2" "ucs2_myanmar_ci" false "mariadb";
  mkCharset 642 "ucs2" "ucs2_thai_520_w2" false "mariadb";
  mkCharset 672 "utf16" "utf16_croatian_ci" false "mariadb";
  mkCharset 673 "utf16" "utf16_myanmar_ci" false "mariadb";
  mkCharset 674 "utf16" "utf16_thai_520_w2" false "mariadb";
  mkCharset 736 "utf32" "utf32_croatian_ci" false "mariadb";
  mkCharset 737 "utf32" "utf32_myanmar_ci" false "mariadb";
  mkCharset 738 "utf32" "utf32_thai_520_w2" false "mariadb";
  mkCharset 1025 "big5" "big5_chinese_nopad_ci" false "mariadb";
  mkCharset 1027 "dec8" "dec8_swedish_nopad_ci" false "mariadb";
  mkCharset 1028 "cp850" "cp850_general_nopad_ci" false "mariadb";
  mkCharset 1030 "hp8" "hp8_english_nopad_ci" false "mariadb";
  mkCharset 1031 "koi8r" "koi8r_general_nopad_ci" false "mariadb";
  mkCharset 1032 "latin1" "latin1_swedish_nopad_ci" false "mariadb";
  mkCharset 1033 "latin2" "latin2_general_nopad_ci" false "mariadb";
  mkCharset 1034 "swe7" "swe7_swedish_nopad_ci" false "mariadb";
  mkCharset 1035 "ascii" "ascii_general_nopad_ci" false "mariadb";
  mkCharset 1036 "ujis" "ujis_japanese_nopad_ci" false "mariadb";
  mkCharset 1037 "sjis" "sjis_japanese_nopad_ci" false "mariadb";
  mkCharset 1040 "hebrew" "hebrew_general_nopad_ci" false "mariadb";
  mkCharset 1042 "tis620" "tis620_thai_nopad_ci" false "mariadb";
  mkCharset 1043 "euckr" "euckr_korean_nopad_ci" false "mariadb";
  mkCharset 1046 "koi8u" "koi8u_general_nopad_ci" false "mariadb";
  mkCharset 1048 "gb2312" "gb2312_chinese_nopad_ci" false "mariadb";
  mkCharset 1049 "greek" "greek_general_nopad_ci" false "mariadb";
  mkCharset 1050 "cp1250" "cp1250_general_nopad_ci" false "mariadb";
  mkCharset 1052 "gbk" "gbk_chinese_nopad_ci" false "mariadb";
  mkCharset 1054 "latin5" "latin5_turkish_nopad_ci" false "mariadb";
  mkCharset 1056 "armscii8" "armscii8_general_nopad_ci" false "mariadb";
  mkCharset 1057 "utf8mb3" "utf8mb3_general_nopad_ci" false "mariadb";
  mkCharset 1059 "ucs2" "ucs2_general_nopad_ci" false "mariadb";
  mkCharset 1060 "cp866" "cp866_general_nopad_ci" false "mariadb";
  mkCharset 1061 "keybcs2" "keybcs2_general_nopad_ci" false "mariadb";
  mkCharset 1062 "macce" "macce_general_nopad_ci" false "mariadb";
  mkCharset 1063 "macroman" "macroman_general_nopad_ci" false "mariadb";
  mkCharset 1064 "cp852" "cp852_general_nopad_ci" false "mariadb";
  mkCharset 1065 "latin7" "latin7_general_nopad_ci" false "mariadb";
  mkCharset 1067 "macce" "macce_nopad_bin" false "mariadb";
  mkCharset 1069 "utf8mb4" "utf8mb4_general_nopad_ci" false "mariadb";
  mkCharset 1070 "utf8mb4" "utf8mb4_nopad_bin" false "mariadb";
  mkCharset 1071 "latin1" "latin1_nopad_bin" false "mariadb";
  mkCharset 1074 "cp1251" "cp1251_nopad_bin" false "mariadb";
  mkCharset 1075 "cp1251" "cp1251_general_nopad_ci" false "mariadb";
  mkCharset 1077 "macroman" "macroman_nopad_bin" false "mariadb";
  mkCharset 1078 "utf16" "utf16_general_nopad_ci" false "mariadb";
  mkCharset 1079 "utf16" "utf16_nopad_bin" false "mariadb";
  mkCharset 1080 "utf16le" "utf16le_general_nopad_ci" false "mariadb";
  mkCharset 1081 "cp1256" "cp1256_general_nopad_ci" false "mariadb";
  mkCharset 1082 "cp1257" "cp1257_nopad_bin" false "mariadb";
  mkCharset 1083 "cp1257" "cp1257_general_nopad_ci" false "mariadb";
  mkCharset 1084 "utf32" "utf32_general_nopad_ci" false "mariadb";
  mkCharset 1085 "utf32" "utf32_nopad_bin" false "mariadb";
  mkCharset 1086 "utf16le" "utf16le_nopad_bin" false "mariadb";
  mkCharset 1088 "armscii8" "armscii8_nopad_bin" false "mariadb";
  mkCharset 1089 "ascii" "ascii_nopad_bin" false "mariadb";
  mkCharset 1090 "cp1250" "cp1250_nopad_bin" false "mariadb";
  mkCharset 1091 "cp1256" "cp1256_nopad_bin" false "mariadb";
  mkCharset 1092 "cp866" "cp866_nopad_bin" false "mariadb";
  mkCharset 1093 "dec8" "dec8_nopad_bin" false "mariadb";
  mkCharset 1094 "greek" "greek_nopad_bin" false "mariadb";
  mkCharset 1095 "hebrew" "hebrew_nopad_bin" false "mariadb";
  mkCharset 1096 "hp8" "hp8_nopad_bin" false "mariadb";
  mkCharset 1097 "keybcs2" "keybcs2_nopad_bin" false "mariadb";
  mkCharset 1098 "koi8r" "koi8r_nopad_bin" false "mariadb";
  mkCharset 1099 "koi8u" "koi8u_nopad_bin" false "mariadb";
  mkCharset 1101 "latin2" "latin2_nopad_bin" false "mariadb";
  mkCharset 1102 "latin5" "latin5_nopad_bin" false "mariadb";
  mkCharset 1103 "latin7" "latin7_nopad_bin" false "mariadb";
  mkCharset 1104 "cp850" "cp850_nopad_bin" false "mariadb";
  mkCharset 1105 "cp852" "cp852_nopad_bin" false "mariadb";
  mkCharset 1106 "swe7" "swe7_nopad_bin" false "mariadb";
  mkCharset 1107 "utf8mb3" "utf8mb3_nopad_bin" false "mariadb";
  mkCharset 1108 "big5" "big5_nopad_bin" false "mariadb";
  mkCharset 1109 "euckr" "euckr_nopad_bin" false "mariadb";
  mkCharset 1110 "gb2312" "gb2312_nopad_bin" false "mariadb";
  mkCharset 1111 "gbk" "gbk_nopad_bin" false "mariadb";
  mkCharset 1112 "sjis" "sjis_nopad_bin" false "mariadb";
  mkCharset 1113 "tis620" "tis620_nopad_bin" false "mariadb";
  mkCharset 1114 "ucs2" "ucs2_nopad_bin" false "mariadb";
  mkCharset 1115 "ujis" "ujis_nopad_bin" false "mariadb";
  mkCharset 1116 "geostd8" "geostd8_general_nopad_ci" false "mariadb";
  mkCharset 1117 "geostd8" "geostd8_nopad_bin" false "mariadb";
  mkCharset 1119 "cp932" "cp932_japanese_nopad_ci" false "mariadb";
  mkCharset 1120 "cp932" "cp932_nopad_bin" false "mariadb";
  mkCharset 1121 "eucjpms" "eucjpms_japanese_nopad_ci" false "mariadb";
  mkCharset 1122 "eucjpms" "eucjpms_nopad_bin" false "mariadb";
  mkCharset 1125 "utf16" "utf16_unicode_nopad_ci" false "mariadb";
  mkCharset 1147 "utf16" "utf16_unicode_520_nopad_ci" false "mariadb";
  mkCharset 1152 "ucs2" "ucs2_unicode_nopad_ci" false "mariadb";
  mkCharset 1174 "ucs2" "ucs2_unicode_520_nopad_ci" false "mariadb";
  mkCharset 1184 "utf32" "utf32_unicode_nopad_ci" false "mariadb";
  mkCharset 1206 "utf32" "utf32_unicode_520_nopad_ci" false "mariadb";
  mkCharset 1216 "utf8mb3" "utf8mb3_unicode_nopad_ci" false "mariadb";
  mkCharset 1238 "utf8mb3" "utf8mb3_unicode_520_nopad_ci" false "mariadb";
  mkCharset 1248 "utf8mb4" "utf8mb4_unicode_nopad_ci" false "mariadb";
  mkCharset 1270 "utf8mb4" "utf8mb4_unicode_520_nopad_ci" false "mariadb" ].

Definition charset_rows : list Charset :=
  (charset_rows_1 ++ charset_rows_2 ++ charset_rows_3 ++ charset_rows_4 ++ charset_rows_5)%list.

Definition charsets : Charsets := foldl charsets_add (mkCharsets [] []) charset_rows.

(** [find_charset]: encoding, collation and name; unknown ids are UTF-8. *)
Definition find_charset (charset_id dbms : string) : result (string * option string * string) :=
  c ← by_id charsets charset_id dbms;
  match c with
  | None => Ok ("utf8", None, "utf8")
  | Some c => Ok (encoding c, Some (collation c), name c)
  end.

(** ** Properties *)

(** The result of looking a row of the table up by its id and, for the default
    collation of a character set, by its name. *)
Definition row_found (c : Charset) : bool :=
  bool_decide (by_id charsets (str_of_Z (id c)) (dbms c) = Ok (Some c)) &&
  (if is_default c then bool_decide (by_name charsets (name c) (dbms c) = Some c) else true).

Lemma all_rows_found : forallb row_found charset_rows = true.
Proof. vm_compute. reflexivity. Qed.

Lemma row_found_spec c : c ∈ charset_rows -> row_found c = true.
Proof. intros Hc. apply (proj1 (forallb_forall _ _) all_rows_found). by apply list_elem_of_In. Qed.

(** Every row of the character set table is found: looking up its id for
    its server returns that row and no other (no id is used twice), its
    encoding and collation are what [find_charset] reports, and the default
    collation of a character set is found by the character set's name. *)
Theorem charset_lookup_correct (c : Charset) :
  c ∈ charset_rows ->
  by_id charsets (str_of_Z (id c)) (dbms c) = Ok (Some c) /\
  find_charset (str_of_Z (id c)) (dbms c) = Ok (encoding c, Some (collation c), name c) /\
  (is_default c = true -> by_name charsets (name c) (dbms c) = Some c).
Proof.
  intros Hc. apply row_found_spec in Hc. unfold row_found in Hc. apply andb_true_iff in Hc as [Hid Hname].
  apply bool_decide_eq_true in Hid. split; [done|]. split.
  - unfold find_charset. by rewrite Hid.
  - intros Hd. rewrite Hd in Hname. by apply bool_decide_eq_true in Hname.
Qed.

Lemma charset_lookup_correct_witness :
  find_charset "45" "mysql" = Ok ("utf8", Some "utf8mb4_general_ci", "utf8mb4").
Proof.
  apply (charset_lookup_correct (mkCharset 45 "utf8mb4" "utf8mb4_general_ci" false "mysql")).
  apply (bool_decide_unpack _). vm_compute. exact I.
Defined.
