(* ===== verification/Gtid.v ===== *)
(** * GTIDs: interval sets of transactions of one server

    [pymysqlreplication/gtid.py], class [Gtid]: the interval algebra
    ([__add_interval], [__sub_interval], [__contains__], [__add__],
    [__sub__]) and the comparison operators.  The textual and binary forms
    are in [GtidText] and [GtidWire].

    Abstract specification: a list of right-open intervals denotes the set
    of transaction numbers it covers ([covers]); the representation invariant
    is [canonical] (non-empty intervals in ascending order, with a gap
    between any two of them). *)

From stdpp Require Import base list strings sets.
From Stdlib Require Import ZArith Lia Sorting.Sorted Sorting.Permutation.
From S2P Require Import Prelude PyBytes PyStr.
Open Scope Z_scope.

Abbreviation interval := (Z * Z)%type.

Record Gtid := mkGtid { sid : string; intervals : list interval }.

Definition overlap (i1 i2 : interval) : bool := (i1.1 <? i2.2) && (i2.1 <? i1.2).
Definition contains (i1 i2 : interval) : bool := (i1.1 <=? i2.1) && (i2.2 <=? i1.2).

(** Python's order on tuples and lists of tuples. *)
Definition itvl_ltb (i1 i2 : interval) : bool :=
  (i1.1 <? i2.1) || ((i1.1 =? i2.1) && (i1.2 <? i2.2)).
Definition itvl_eqb (i1 i2 : interval) : bool := (i1.1 =? i2.1) && (i1.2 =? i2.2).

Fixpoint itvls_ltb (l1 l2 : list interval) : bool :=
  match l1, l2 with
  | _, [] => false
  | [], _ :: _ => true
  | i1 :: l1', i2 :: l2' =>
      if itvl_ltb i1 i2 then true else if itvl_eqb i1 i2 then itvls_ltb l1' l2' else false
  end.

(** [sorted(l)] *)
Fixpoint insert_itvl (i : interval) (l : list interval) : list interval :=
  match l with
  | [] => [i]
  | j :: l' => if itvl_ltb j i then j :: insert_itvl i l' else i :: l
  end.
Definition sorted (l : list interval) : list interval := foldr insert_itvl [] l.

(** ** Adding and removing an interval *)

(** The merge loop of [__add_interval]: the intervals kept in [new] and the
    interval [itvl], grown by the neighbours it touches. *)
Fixpoint add_loop (itvl : interval) (l new : list interval) : list interval * interval :=
  match l with
  | [] => (new, itvl)
  | existing :: l' =>
      if itvl.1 =? existing.2 then add_loop (existing.1, itvl.2) l' new
      else if itvl.2 =? existing.1 then add_loop (itvl.1, existing.2) l' new
      else add_loop itvl l' (new ++ [existing])
  end.

Definition add_interval (l : list interval) (itvl : interval) : result (list interval) :=
  if itvl.2 <? itvl.1 then Err (PyException "Malformed interval")
  else if existsb (fun x => overlap x itvl) l then Err (PyException "Overlapping interval")
  else let '(new, itvl') := add_loop itvl (sorted l) [] in Ok (sorted (new ++ [itvl'])).

(** What is left of one interval of the set around the removed one. *)
Definition sub_piece (itvl existing : interval) : list interval :=
  if overlap existing itvl then
    (if existing.1 <? itvl.1 then [(existing.1, itvl.1)] else []) ++
    (if itvl.2 <? existing.2 then [(itvl.2, existing.2)] else [])
  else [existing].

Definition sub_interval (l : list interval) (itvl : interval) : result (list interval) :=
  if itvl.2 <? itvl.1 then Err (PyException "Malformed interval")
  else if negb (existsb (fun x => overlap x itvl) l) then Ok l
  else Ok (concat (map (sub_piece itvl) (sorted l))).

(** ** The operations of a [Gtid] *)

(** [Gtid(gtid, sid, intervals)] with a non-empty [sid]: every interval is
    added in turn to an initially empty set. *)
Definition gtid_make (s : string) (itvls : list interval) : result Gtid :=
  l ← foldM_result add_interval itvls []; Ok (mkGtid s l).

Definition gtid_contains (self other : Gtid) : bool :=
  if decide (sid other = sid self)
  then forallb (fun them => existsb (fun me => contains me them) (intervals self)) (intervals other)
  else false.

Definition gtid_add (self other : Gtid) : result Gtid :=
  if decide (sid self = sid other)
  then l ← foldM_result add_interval (intervals other) (intervals self); Ok (mkGtid (sid self) l)
  else Err (PyException "Attempt to merge different SID").

Definition gtid_sub (self other : Gtid) : result Gtid :=
  if decide (sid self = sid other)
  then l ← foldM_result sub_interval (intervals other) (intervals self); Ok (mkGtid (sid self) l)
  else Ok self.

Definition gtid_eqb (self other : Gtid) : bool :=
  if decide (sid other = sid self) then bool_decide (intervals self = intervals other) else false.
Definition gtid_ltb (self other : Gtid) : bool :=
  if decide (sid other = sid self) then itvls_ltb (intervals self) (intervals other)
  else str_ltb (sid self) (sid other).
Definition gtid_gtb (self other : Gtid) : bool :=
  if decide (sid other = sid self) then itvls_ltb (intervals other) (intervals self)
  else str_ltb (sid other) (sid self).
Definition gtid_leb (self other : Gtid) : bool :=
  if decide (sid other = sid self) then negb (itvls_ltb (intervals other) (intervals self))
  else negb (str_ltb (sid other) (sid self)).
Definition gtid_geb (self other : Gtid) : bool :=
  if decide (sid other = sid self) then negb (itvls_ltb (intervals self) (intervals other))
  else negb (str_ltb (sid self) (sid other)).

(** ** Specification *)

Definition in_itvl (x : Z) (i : interval) : Prop := i.1 <= x < i.2.
Definition covers (l : list interval) (x : Z) : Prop := Exists (in_itvl x) l.

Definition nonempty (i : interval) : Prop := i.1 < i.2.
(** [i] ends before [j] starts, with at least one number in between. *)
Definition before (i j : interval) : Prop := i.2 < j.1.
Definition canonical (l : list interval) : Prop :=
  Forall nonempty l /\ StronglySorted before l.
Definition gtid_wf (g : Gtid) : Prop := canonical (intervals g).

Definition separated (i j : interval) : Prop := before i j \/ before j i.
Definition apart (i j : interval) : Prop := i.2 <= j.1 \/ j.2 <= i.1.

(** Pairwise separation, without an order on the list. *)
Definition pairwise_sep (l : list interval) : Prop := ForallOrdPairs separated l.

#[export] Hint Unfold before separated apart nonempty in_itvl : gtid.

(** ** Lemmas on intervals and sorting *)

Lemma overlap_apart i j : overlap i j = false <-> apart i j.
Proof.
  unfold overlap, apart. rewrite andb_false_iff, !Z.ltb_ge. lia.
Qed.

Lemma overlap_spec i j :
  nonempty i -> nonempty j -> overlap i j = true <-> exists x, in_itvl x i /\ in_itvl x j.
Proof.
  unfold overlap, nonempty, in_itvl. rewrite andb_true_iff, !Z.ltb_lt. split.
  - intros. exists (Z.max i.1 j.1). lia.
  - intros (x & ? & ?). lia.
Qed.

Lemma covers_cons i l x : covers (i :: l) x <-> in_itvl x i \/ covers l x.
Proof. apply Exists_cons. Qed.

Lemma covers_app l1 l2 x : covers (l1 ++ l2) x <-> covers l1 x \/ covers l2 x.
Proof. apply Exists_app. Qed.

Lemma covers_singleton i x : covers [i] x <-> in_itvl x i.
Proof. unfold covers. rewrite Exists_cons, Exists_nil. tauto. Qed.

Lemma insert_itvl_perm i l : Permutation (insert_itvl i l) (i :: l).
Proof.
  induction l as [|j l IH]; cbn; [done|]. destruct (itvl_ltb j i); [|done].
  rewrite IH. constructor.
Qed.

Lemma sorted_perm l : Permutation (sorted l) l.
Proof.
  induction l as [|i l IH]; cbn; [done|]. by rewrite insert_itvl_perm, IH.
Qed.

Lemma covers_perm l1 l2 x : Permutation l1 l2 -> covers l1 x <-> covers l2 x.
Proof. intros H. unfold covers. by rewrite H. Qed.

Lemma itvl_ltb_before i j : nonempty i -> before i j -> itvl_ltb i j = true.
Proof.
  unfold nonempty, before, itvl_ltb. intros.
  apply orb_true_iff; left. apply Z.ltb_lt. lia.
Qed.

Lemma itvl_ltb_not_before i j : nonempty i -> before i j -> itvl_ltb j i = false.
Proof.
  unfold nonempty, before, itvl_ltb. intros.
  apply orb_false_iff; split; [apply Z.ltb_ge; lia|].
  apply andb_false_iff; left. apply Z.eqb_neq. lia.
Qed.

(** Inserting an interval separated from all the others keeps the list
    canonical. *)
Lemma insert_itvl_canonical i l :
  nonempty i -> Forall (separated i) l -> canonical l -> canonical (insert_itvl i l).
Proof.
  intros Hi Hsep [Hne Hss]. split.
  { rewrite insert_itvl_perm. by constructor. }
  induction l as [|j l IH]; cbn; [repeat constructor|].
  inversion_clear Hsep as [|?? Hij Hsep']. inversion_clear Hne as [|?? Hj Hne'].
  inversion_clear Hss as [|?? Hss' Hjl].
  destruct Hij as [Hij|Hji].
  - rewrite itvl_ltb_not_before by done. repeat constructor; [done..|].
    eapply Forall_impl; [exact Hjl|]. unfold before, nonempty in *. cbn. intros; lia.
  - rewrite itvl_ltb_before by done. constructor; [by apply IH|].
    rewrite insert_itvl_perm. by constructor.
Qed.

Lemma sorted_canonical l : Forall nonempty l -> pairwise_sep l -> canonical (sorted l).
Proof.
  intros Hne Hp. induction Hp as [|i l Hi Hp IH]; [repeat constructor|].
  inversion_clear Hne. cbn. apply insert_itvl_canonical; [done| |by apply IH].
  by rewrite sorted_perm.
Qed.

(** A canonical list is already sorted. *)
Lemma sorted_id l : canonical l -> sorted l = l.
Proof.
  intros [Hne Hss]. induction Hss as [|i l Hss IH Hi]; [done|].
  inversion_clear Hne as [|?? Hin Hne']. cbn. change (foldr insert_itvl [] l) with (sorted l).
  rewrite IH by done. destruct l as [|j l]; [done|]. cbn.
  inversion_clear Hi. by rewrite itvl_ltb_not_before.
Qed.

Lemma canonical_cons i l :
  canonical (i :: l) <-> nonempty i /\ Forall (before i) l /\ canonical l.
Proof.
  split.
  - intros [Hne Hss]. inversion Hne; inversion Hss; subst. by repeat split.
  - intros (? & ? & [? ?]). split; constructor; done.
Qed.

Lemma canonical_pairwise l : canonical l -> pairwise_sep l.
Proof.
  intros [_ H]. induction H as [|i l H IH Hi]; constructor; [|done].
  eapply Forall_impl; [exact Hi|]. by left.
Qed.

Lemma canonical_app_inv l1 i l2 :
  canonical (l1 ++ i :: l2) ->
  canonical (l1 ++ l2) /\ nonempty i /\ Forall (fun j => before j i) l1 /\ Forall (before i) l2.
Proof.
  induction l1 as [|j l1 IH]; cbn.
  - intros (? & ? & ?)%canonical_cons. done.
  - intros (Hj & Hjl & Hc)%canonical_cons.
    destruct (IH Hc) as (? & ? & ? & ?).
    apply Forall_app in Hjl as [Hj1 Hj2]. inversion_clear Hj2.
    repeat split; try done.
    + constructor; [done|]. by apply (proj1 H).
    + constructor; [apply (proj2 H)|]. apply Forall_app; done.
    + by constructor.
Qed.

(** ** Adding an interval *)

(** The merge loop over the rest [l] of a canonical list, with [new] already
    kept: [itvl] stays clear of what is kept and does not overlap what is
    still to come. *)
Lemma add_loop_spec itvl l new new' itvl' :
  canonical (new ++ l) -> nonempty itvl ->
  Forall (separated itvl) new -> Forall (apart itvl) l ->
  add_loop itvl l new = (new', itvl') ->
  canonical new' /\ nonempty itvl' /\ Forall (separated itvl') new' /\
  (forall x, covers (new' ++ [itvl']) x <-> covers (new ++ l) x \/ in_itvl x itvl).
Proof.
  revert itvl new. induction l as [|e l IH]; intros itvl new Hc Hi Hnew Hl E; cbn in E.
  - simplify_eq. rewrite app_nil_r in *. repeat (split; [done|]).
    intros x. rewrite covers_app, covers_singleton. tauto.
  - destruct (canonical_app_inv _ _ _ Hc) as (Hc' & He & Hbe & Hae).
    inversion_clear Hl as [|?? Hie Hl'].
    unfold nonempty, in_itvl, covers in *.
    repeat case_match; zify_bool.
    + apply IH in E; try done; [| | |].
      * destruct E as (? & ? & ? & Hx). repeat (split; [done|]). intros x.
        rewrite Hx, !Exists_app, Exists_cons. unfold in_itvl; cbn. intuition lia.
      * cbn. lia.
      * eapply Forall_impl; [exact Hbe|]. intros j Hj. right. exact Hj.
      * rewrite Forall_forall in *. intros j Hj. specialize (Hl' j Hj). specialize (Hae j Hj).
        assert (j.1 < j.2) by (destruct Hc' as [Hn _]; rewrite Forall_forall in Hn; set_solver).
        unfold apart, before in *. cbn. lia.
    + apply IH in E; try done; [| | |].
      * destruct E as (? & ? & ? & Hx). repeat (split; [done|]). intros x.
        rewrite Hx, !Exists_app, Exists_cons. unfold in_itvl; cbn. intuition lia.
      * cbn. lia.
      * rewrite Forall_forall in *. intros j Hj. specialize (Hnew j Hj). specialize (Hbe j Hj).
        assert (j.1 < j.2) by (destruct Hc' as [Hn _]; rewrite Forall_forall in Hn; set_solver).
        unfold separated, before in *. cbn. lia.
      * eapply Forall_impl; [exact Hae|]. unfold before, apart. cbn. intros; lia.
    + apply IH in E; try done.
      * destruct E as (? & ? & ? & Hx). repeat (split; [done|]). intros x.
        rewrite Hx, <- app_assoc. done.
      * by rewrite <- app_assoc.
      * apply Forall_app; split; [done|]. apply Forall_singleton.
        unfold separated, apart, before in *. lia.
Qed.

Lemma existsb_overlap_false l i :
  existsb (fun x => overlap x i) l = false <-> Forall (fun x => apart x i) l.
Proof.
  induction l as [|j l IH]; cbn; [done|].
  rewrite orb_false_iff, IH, overlap_apart, Forall_cons. done.
Qed.

(** Adding a non-empty interval to a canonical set, on every path: it fails
    exactly when a number is already covered, and otherwise gives the
    canonical form of the union. *)
Lemma add_interval_spec l i :
  canonical l -> nonempty i ->
  match add_interval l i with
  | Ok l' => canonical l' /\ (forall x, covers l' x <-> covers l x \/ in_itvl x i) /\
             (forall x, covers l x -> ~ in_itvl x i)
  | Err e => e = PyException "Overlapping interval" /\ exists x, covers l x /\ in_itvl x i
  end.
Proof.
  intros Hc Hi. unfold add_interval.
  destruct (Z.ltb_spec i.2 i.1); [unfold nonempty in *; lia|].
  destruct (existsb _ l) eqn:E.
  - split; [done|]. apply existsb_exists in E as (j & Hj & Ho). apply list_elem_of_In in Hj.
    destruct Hc as [Hn _]. rewrite Forall_forall in Hn.
    apply overlap_spec in Ho as (x & ? & ?); [|by apply Hn|done].
    exists x. split; [|done]. apply Exists_exists. by exists j.
  - apply existsb_overlap_false in E. rewrite sorted_id by done.
    destruct (add_loop i l []) as [new i'] eqn:El.
    apply add_loop_spec in El as (Hcn & Hi' & Hs & Hx); try done.
    2: { eapply Forall_impl; [exact E|]. unfold apart. intros; lia. }
    split; [|split].
    + apply sorted_canonical; [apply Forall_app; split; [apply Hcn | by repeat constructor]|].
      clear -Hcn Hs. apply canonical_pairwise in Hcn.
      induction Hcn as [|j l Hj Hl IH]; inversion_clear Hs; cbn; constructor; try by constructor.
      * apply Forall_app; split; [done|]. apply Forall_singleton.
        unfold separated in *. tauto.
      * by apply IH.
    + intros x. rewrite (covers_perm _ _ x (sorted_perm _)). apply Hx.
    + intros x (j & Hj & Hxj)%Exists_exists Hxi. rewrite Forall_forall in E.
      specialize (E j Hj). unfold apart, in_itvl in *. lia.
Qed.

(** ** Canonical forms are unique *)

Lemma canonical_covers_tail i l x :
  canonical (i :: l) -> covers l x -> i.2 < x.
Proof.
  intros (_ & Hb & Hc)%canonical_cons (j & Hj & Hx)%Exists_exists.
  rewrite Forall_forall in Hb. specialize (Hb j Hj). unfold before, in_itvl in *. lia.
Qed.

Lemma canonical_covers_ge i l x : canonical (i :: l) -> covers (i :: l) x -> i.1 <= x.
Proof.
  intros Hc [Hx|Hx]%covers_cons; [unfold in_itvl in Hx; lia|].
  pose proof (canonical_covers_tail _ _ _ Hc Hx).
  apply canonical_cons in Hc as [? _]. unfold nonempty in *. lia.
Qed.

(** The first interval of a canonical list is determined by the numbers
    covered. *)
Lemma canonical_head_le i l j l' :
  canonical (i :: l) -> canonical (j :: l') ->
  (forall x, covers (i :: l) x -> covers (j :: l') x) -> j.1 <= i.1 /\ (i.1 <= j.1 -> i.2 <= j.2).
Proof.
  intros Hc Hc' H.
  pose proof (proj1 (proj1 (canonical_cons _ _) Hc)) as Hi. unfold nonempty in Hi.
  split.
  - apply (canonical_covers_ge _ l'); [done|]. apply H, covers_cons. left. unfold in_itvl. lia.
  - intros Hle. destruct (Z.le_gt_cases i.2 j.2) as [|Hlt]; [done|exfalso].
    pose proof (proj1 (proj1 (canonical_cons _ _) Hc')) as Hj. unfold nonempty in Hj.
    assert (covers (j :: l') j.2) as Hcov.
    { apply H, covers_cons. left. unfold in_itvl. lia. }
    apply covers_cons in Hcov as [Hx|Hx]; [unfold in_itvl in Hx; lia|].
    pose proof (canonical_covers_tail _ _ _ Hc' Hx). lia.
Qed.

Lemma canonical_unique l1 l2 :
  canonical l1 -> canonical l2 -> (forall x, covers l1 x <-> covers l2 x) -> l1 = l2.
Proof.
  revert l2. induction l1 as [|i l1 IH]; intros [|j l2] H1 H2 H; [done| | |].
  - exfalso. apply canonical_cons in H2 as [Hj _]. unfold nonempty in Hj.
    assert (covers [] j.1) as Hn%Exists_nil; [|done].
    apply H, covers_cons. left. unfold in_itvl. lia.
  - exfalso. apply canonical_cons in H1 as [Hi _]. unfold nonempty in Hi.
    assert (covers [] i.1) as Hn%Exists_nil; [|done].
    apply H, covers_cons. left. unfold in_itvl. lia.
  - destruct (canonical_head_le i l1 j l2) as [Ha Hb]; [naive_solver..|].
    destruct (canonical_head_le j l2 i l1) as [Hc Hd]; [naive_solver..|].
    assert (i = j) as -> by (destruct i, j; cbn in *; f_equal; lia).
    f_equal. apply IH.
    + apply canonical_cons in H1; tauto.
    + apply canonical_cons in H2; tauto.
    + intros x. specialize (H x). rewrite !covers_cons in H.
      split; intros Hx.
      * destruct (proj1 H (or_intror Hx)) as [Hj|]; [|done].
        pose proof (canonical_covers_tail _ _ _ H1 Hx). unfold in_itvl in Hj. lia.
      * destruct (proj2 H (or_intror Hx)) as [Hj|]; [|done].
        pose proof (canonical_covers_tail _ _ _ H2 Hx). unfold in_itvl in Hj. lia.
Qed.

(** ** Adding a list of intervals *)

Lemma apart_disjoint i j :
  nonempty i -> nonempty j -> apart i j <-> (forall x, in_itvl x i -> ~ in_itvl x j).
Proof.
  intros Hi Hj. rewrite <- overlap_apart. pose proof (overlap_spec i j Hi Hj) as H.
  destruct (overlap i j); naive_solver.
Qed.

(** Folding [add_interval]: it succeeds exactly when the new intervals are
    clear of the set and of each other. *)
Lemma fold_add_spec itvls l :
  canonical l -> Forall nonempty itvls ->
  match foldM_result add_interval itvls l with
  | Ok l' => canonical l' /\ (forall x, covers l' x <-> covers l x \/ covers itvls x) /\
             (forall x, covers l x -> ~ covers itvls x) /\ ForallOrdPairs apart itvls
  | Err e => e = PyException "Overlapping interval" /\
             ((exists x, covers l x /\ covers itvls x) \/ ~ ForallOrdPairs apart itvls)
  end.
Proof.
  intros Hc Hne. revert l Hc. induction Hne as [|i itvls Hni Hne IH]; intros l Hc; cbn.
  - split; [done|]. setoid_rewrite Exists_nil. split; [naive_solver|]. split; [naive_solver|constructor].
  - pose proof (add_interval_spec l i Hc Hni) as Ha.
    destruct (add_interval l i) as [l1|e] eqn:E; cbn.
    + destruct Ha as (Hc1 & Hx & Hd). specialize (IH l1 Hc1).
      destruct (foldM_result add_interval itvls l1) as [l'|e] eqn:E'.
      * destruct IH as (Hc' & Hx' & Hd' & Hp'). split; [done|].
        setoid_rewrite covers_cons. split; [|split]; [intros x..|constructor; [|done]].
        -- rewrite Hx', Hx. tauto.
        -- specialize (Hd x). specialize (Hd' x). rewrite Hx in Hd'. tauto.
        -- rewrite Forall_forall in *. intros j Hj. apply apart_disjoint; [done|by apply Hne|].
           intros x Hxi Hxj. apply (Hd' x); [apply Hx; by right|]. apply Exists_exists. by exists j.
      * destruct IH as [-> [(x & Hx1 & Hx2)|Hn]]; (split; [done|]).
        -- rewrite Hx in Hx1. destruct Hx1 as [Hx1|Hx1].
           ++ left. exists x. rewrite covers_cons. tauto.
           ++ right. inversion_clear 1 as [|?? Hf _]. apply Exists_exists in Hx2 as (j & Hj & Hxj).
              rewrite Forall_forall in Hf, Hne. specialize (Hf j Hj).
              by apply (proj1 (apart_disjoint i j Hni (Hne j Hj)) Hf x).
        -- right. inversion_clear 1. done.
    + destruct Ha as (-> & x & ? & ?). split; [done|]. left. exists x. rewrite covers_cons. tauto.
Qed.

Lemma pairwise_apart l : pairwise_sep l -> ForallOrdPairs apart l.
Proof.
  induction 1 as [|i l Hi Hl IH]; constructor; [|done].
  eapply Forall_impl; [exact Hi|]. unfold separated, before, apart. intros; lia.
Qed.

Lemma canonical_nil : canonical [].
Proof. split; constructor. Qed.

(** Adding the intervals of a canonical list one by one rebuilds it. *)
Lemma fold_add_canonical l :
  canonical l -> foldM_result add_interval l [] = Ok l.
Proof.
  intros Hc. pose proof (fold_add_spec l [] canonical_nil (proj1 Hc)) as H.
  pose proof (pairwise_apart _ (canonical_pairwise _ Hc)).
  destruct (foldM_result add_interval l []) as [l'|e].
  - destruct H as (Hc' & Hx & _). f_equal. apply canonical_unique; [done..|].
    intros x. rewrite Hx. unfold covers at 1. rewrite Exists_nil. tauto.
  - destruct H as [_ [(x & Hx & _)|]]; [|done]. unfold covers in Hx. by apply Exists_nil in Hx.
Qed.

(** ** Removing an interval *)

Lemma overlap_true i j : overlap i j = true -> i.1 < j.2 /\ j.1 < i.2.
Proof. unfold overlap. intros; zify_bool. lia. Qed.

Lemma sub_piece_covers i e x :
  i.1 <= i.2 -> covers (sub_piece i e) x <-> in_itvl x e /\ ~ in_itvl x i.
Proof.
  intros Hi. unfold sub_piece. destruct (overlap e i) eqn:Ho.
  - apply overlap_true in Ho. rewrite covers_app.
    destruct (Z.ltb_spec e.1 i.1), (Z.ltb_spec i.2 e.2);
      rewrite ?covers_singleton; unfold covers, in_itvl; rewrite ?Exists_nil; cbn; lia.
  - apply overlap_apart in Ho. rewrite covers_singleton. unfold apart, in_itvl in *. lia.
Qed.

Lemma sub_pieces_covers i l x :
  i.1 <= i.2 -> covers (concat (map (sub_piece i) l)) x <-> covers l x /\ ~ in_itvl x i.
Proof.
  intros Hi. induction l as [|e l IH]; cbn.
  - unfold covers. rewrite !Exists_nil. tauto.
  - rewrite covers_app, covers_cons, IH, sub_piece_covers by done. tauto.
Qed.

Lemma sub_piece_canonical i e : nonempty i -> nonempty e -> canonical (sub_piece i e).
Proof.
  intros Hi He. unfold sub_piece. destruct (overlap e i) eqn:Ho.
  - apply overlap_true in Ho. unfold nonempty in *.
    destruct (Z.ltb_spec e.1 i.1), (Z.ltb_spec i.2 e.2); cbn; split;
      repeat constructor; unfold nonempty, before; cbn; lia.
  - by repeat constructor.
Qed.

Lemma sub_piece_within i e j : i.1 <= i.2 -> j ∈ sub_piece i e -> e.1 <= j.1 /\ j.2 <= e.2.
Proof.
  intros Hi. unfold sub_piece. destruct (overlap e i) eqn:Ho.
  - apply overlap_true in Ho.
    destruct (Z.ltb_spec e.1 i.1), (Z.ltb_spec i.2 e.2); cbn;
      rewrite ?elem_of_cons, ?elem_of_nil; intros Hj; destruct_or?; subst; cbn; try done; lia.
  - intros ->%list_elem_of_singleton. lia.
Qed.

Lemma canonical_app l1 l2 :
  canonical l1 -> canonical l2 -> (forall i j, i ∈ l1 -> j ∈ l2 -> before i j) -> canonical (l1 ++ l2).
Proof.
  induction l1 as [|i l1 IH]; cbn; [done|]. intros (Hi & Hb & Hc)%canonical_cons Hc2 H.
  apply canonical_cons. repeat split; [done| |apply IH; set_solver..].
  apply Forall_app; split; [done|]. apply Forall_forall. intros j Hj. apply H; set_solver.
Qed.

Lemma sub_pieces_canonical i l :
  nonempty i -> canonical l -> canonical (concat (map (sub_piece i) l)).
Proof.
  intros Hi. induction l as [|e l IH]; cbn; [done|]. intros (He & Hb & Hc)%canonical_cons.
  apply canonical_app; [by apply sub_piece_canonical | by apply IH|].
  intros j k Hj Hk. unfold nonempty in Hi.
  apply sub_piece_within in Hj as [_ Hj]; [|lia].
  apply list_elem_of_In, in_concat in Hk as (p & Hp & Hk).
  apply in_map_iff in Hp as (e' & <- & He').
  apply list_elem_of_In, sub_piece_within in Hk as [Hk _]; [|lia].
  rewrite Forall_forall in Hb. specialize (Hb e' (proj2 (list_elem_of_In _ _) He')).
  unfold before in *. lia.
Qed.

(** Removing a non-empty interval from a canonical set never fails and gives
    the canonical form of the difference. *)
Lemma sub_interval_spec l i :
  canonical l -> nonempty i ->
  exists l', sub_interval l i = Ok l' /\ canonical l' /\
    (forall x, covers l' x <-> covers l x /\ ~ in_itvl x i).
Proof.
  intros Hc Hi. unfold sub_interval. unfold nonempty in Hi.
  destruct (Z.ltb_spec i.2 i.1); [lia|].
  destruct (existsb _ l) eqn:E; cbn.
  - eexists; split; [done|]. rewrite sorted_id by done. split; [by apply sub_pieces_canonical|].
    intros x. apply sub_pieces_covers. lia.
  - exists l. split; [done|]. split; [done|]. apply existsb_overlap_false in E.
    intros x. split; [|tauto]. intros Hx. split; [done|].
    apply Exists_exists in Hx as (j & Hj & Hx). rewrite Forall_forall in E.
    specialize (E j Hj). unfold apart, in_itvl in *. lia.
Qed.

Lemma fold_sub_spec itvls l :
  canonical l -> Forall nonempty itvls ->
  exists l', foldM_result sub_interval itvls l = Ok l' /\ canonical l' /\
    (forall x, covers l' x <-> covers l x /\ ~ covers itvls x).
Proof.
  intros Hc Hne. revert l Hc. induction Hne as [|i itvls Hi Hne IH]; intros l Hc; cbn.
  - exists l. split; [done|]. split; [done|]. intros x. unfold covers at 3. rewrite Exists_nil. tauto.
  - destruct (sub_interval_spec l i Hc Hi) as (l1 & -> & Hc1 & Hx1). cbn.
    destruct (IH l1 Hc1) as (l' & -> & Hc' & Hx'). eexists; split; [done|]. split; [done|].
    intros x. rewrite Hx', Hx1, covers_cons. tauto.
Qed.

(** ** Containment *)

Lemma existsb_contains l i :
  canonical l -> nonempty i ->
  existsb (fun me => contains me i) l = true <-> (forall x, in_itvl x i -> covers l x).
Proof.
  intros Hc Hi. unfold nonempty in Hi. rewrite existsb_exists. split.
  - intros (j & Hj & Hji) x Hx. apply list_elem_of_In in Hj.
    apply Exists_exists. exists j. split; [done|].
    unfold contains in Hji. unfold in_itvl in *. zify_bool. lia.
  - intros H. assert (covers l i.1) as (e & He & Hx)%Exists_exists.
    { apply H. unfold in_itvl. lia. }
    exists e. split; [by apply list_elem_of_In|]. unfold contains, in_itvl in *.
    rewrite andb_true_iff, !Z.leb_le. split; [lia|].
    destruct (Z.le_gt_cases i.2 e.2) as [|Hgt]; [done|exfalso].
    assert (covers l e.2) as (e' & He' & Hx')%Exists_exists.
    { apply H. lia. }
    apply canonical_pairwise in Hc.
    pose proof (ForallOrdPairs_In Hc e e' (proj1 (list_elem_of_In _ _) He)
                  (proj1 (list_elem_of_In _ _) He')) as Hs.
    unfold separated, before, in_itvl in *. intuition (subst; lia).
Qed.

(** [__contains__] is set inclusion. *)
Lemma gtid_contains_spec self other :
  gtid_wf self -> gtid_wf other ->
  gtid_contains self other = true <->
  sid other = sid self /\
  (forall x, covers (intervals other) x -> covers (intervals self) x).
Proof.
  intros Hs Ho. unfold gtid_contains. case_decide as E; [|naive_solver].
  rewrite forallb_forall. split.
  - intros H. split; [done|]. intros x (i & Hi & Hx)%Exists_exists.
    destruct Ho as [Hn _]. rewrite Forall_forall in Hn.
    apply (existsb_contains _ i Hs (Hn i Hi)); [|done]. by apply H, list_elem_of_In.
  - intros [_ H] i Hi%list_elem_of_In. destruct Ho as [Hn _]. rewrite Forall_forall in Hn.
    apply existsb_contains; [done|by apply Hn|]. intros x Hx. apply H, Exists_exists. by exists i.
Qed.

(** ** Order *)

Lemma str_ltb_irrefl s : str_ltb s s = false.
Proof.
  induction s as [|a s IH]; cbn; [done|]. by rewrite Z.ltb_irrefl, Z.eqb_refl.
Qed.

Lemma str_ltb_trichotomy s t : s <> t -> str_ltb s t = negb (str_ltb t s).
Proof.
  revert t; induction s as [|a s IH]; intros [|b t] Hne; cbn; try done.
  destruct (Z.ltb_spec (code a) (code b)), (Z.ltb_spec (code b) (code a)),
    (Z.eqb_spec (code a) (code b)), (Z.eqb_spec (code b) (code a)); try done; try lia.
  assert (a = b) as -> by (rewrite <- (chr_code a), <- (chr_code b); congruence).
  apply IH. congruence.
Qed.

Lemma itvls_ltb_irrefl l : itvls_ltb l l = false.
Proof.
  induction l as [|[a b] l IH]; cbn; [done|].
  unfold itvl_ltb, itvl_eqb; cbn. by rewrite !Z.ltb_irrefl, !Z.eqb_refl.
Qed.

Lemma itvls_ltb_trichotomy l1 l2 : l1 <> l2 -> itvls_ltb l1 l2 = negb (itvls_ltb l2 l1).
Proof.
  revert l2; induction l1 as [|[a b] l1 IH]; intros [|[c d] l2] Hne; cbn; try done.
  unfold itvl_ltb, itvl_eqb; cbn.
  destruct (Z.ltb_spec a c), (Z.ltb_spec c a), (Z.eqb_spec a c), (Z.eqb_spec c a),
    (Z.ltb_spec b d), (Z.ltb_spec d b), (Z.eqb_spec b d), (Z.eqb_spec d b);
    cbn; try done; try lia.
  subst. apply IH. congruence.
Qed.

(** ** Properties *)

(** C23. [Gtid.__add__] on well-formed GTIDs, every path: with a different SID
    it raises; with the same SID it raises ["Overlapping interval"] exactly
    when some transaction is in both operands, and otherwise returns a
    well-formed GTID of that SID covering exactly the union. *)
Theorem gtid_add_correct self other :
  gtid_wf self -> gtid_wf other ->
  match gtid_add self other with
  | Ok g =>
      sid self = sid other /\ sid g = sid self /\ gtid_wf g /\
      (forall x, covers (intervals g) x <->
                 covers (intervals self) x \/ covers (intervals other) x) /\
      (forall x, covers (intervals self) x -> ~ covers (intervals other) x)
  | Err e =>
      (sid self <> sid other /\ e = PyException "Attempt to merge different SID") \/
      (sid self = sid other /\ e = PyException "Overlapping interval" /\
       exists x, covers (intervals self) x /\ covers (intervals other) x)
  end.
Proof.
  intros Hs Ho. unfold gtid_add. case_decide as E; [|by left].
  pose proof (fold_add_spec (intervals other) (intervals self) Hs (proj1 Ho)) as H.
  pose proof (pairwise_apart _ (canonical_pairwise _ Ho)).
  destruct (foldM_result _ _ _); cbn; [|right]; tauto.
Qed.

(** C24. [Gtid.__sub__] on well-formed GTIDs never raises; it returns a
    well-formed GTID covering exactly the transactions of [self] that are not
    in [other], and [self] unchanged when the SIDs differ. *)
Theorem gtid_sub_correct self other :
  gtid_wf self -> gtid_wf other ->
  exists g, gtid_sub self other = Ok g /\ sid g = sid self /\ gtid_wf g /\
    (forall x, covers (intervals g) x <->
       covers (intervals self) x /\ ~ (sid self = sid other /\ covers (intervals other) x)).
Proof.
  intros Hs Ho. unfold gtid_sub. case_decide as E.
  - destruct (fold_sub_spec (intervals other) (intervals self) Hs (proj1 Ho)) as (l & -> & Hc & Hx).
    eexists; split; [done|]. split; [done|]. split; [done|]. intros x. cbn. rewrite Hx. tauto.
  - exists self. repeat (split; [done|]). tauto.
Qed.

(** [Gtid.__contains__] decides set inclusion: for well-formed operands
    [other in self] holds exactly when the SIDs agree and every transaction of
    [other] is a transaction of [self]. *)
Theorem gtid_contains_correct self other :
  gtid_wf self -> gtid_wf other ->
  gtid_contains self other = true <->
  sid other = sid self /\
  (forall x, covers (intervals other) x -> covers (intervals self) x).
Proof. apply gtid_contains_spec. Qed.

(** Equality of well-formed GTIDs is extensional: [==] holds exactly when
    the SIDs agree and both cover the same transactions. *)
Theorem gtid_eq_extensional self other :
  gtid_wf self -> gtid_wf other ->
  gtid_eqb self other = true <->
  sid self = sid other /\
  (forall x, covers (intervals self) x <-> covers (intervals other) x).
Proof.
  intros Hs Ho. unfold gtid_eqb. case_decide as E; [|naive_solver].
  rewrite bool_decide_eq_true. split; [intros ->; naive_solver|].
  intros [_ H]. by apply canonical_unique.
Qed.

(** The comparison operators form one total order: exactly one of [<],
    [==], [>] holds, [<=] is "[<] or [==]" and [>=] is "[>] or [==]". *)
Theorem gtid_order_total a b :
  ((gtid_ltb a b = true /\ gtid_eqb a b = false /\ gtid_gtb a b = false) \/
   (gtid_ltb a b = false /\ gtid_eqb a b = true /\ gtid_gtb a b = false) \/
   (gtid_ltb a b = false /\ gtid_eqb a b = false /\ gtid_gtb a b = true)) /\
  gtid_leb a b = (gtid_ltb a b || gtid_eqb a b) /\
  gtid_geb a b = (gtid_gtb a b || gtid_eqb a b).
Proof.
  unfold gtid_leb, gtid_geb, gtid_ltb, gtid_eqb, gtid_gtb. case_decide as E.
  - destruct (decide (intervals a = intervals b)) as [->|Hne].
    + rewrite itvls_ltb_irrefl, bool_decide_true by done. naive_solver.
    + rewrite bool_decide_false by done. rewrite (itvls_ltb_trichotomy _ _ Hne).
      destruct (itvls_ltb (intervals b) (intervals a)); naive_solver.
  - rewrite (str_ltb_trichotomy (sid a) (sid b)) by congruence.
    destruct (str_ltb (sid b) (sid a)); naive_solver.
Qed.

(** ** Witnesses *)

Definition ex_sid : string := "57b70f4e-20d3-11e5-a393-4a63946f7eac".
Definition ex_gtid : Gtid := mkGtid ex_sid [(5, 57); (60, 61)].
Definition ex_delta : Gtid := mkGtid ex_sid [(57, 59); (70, 75)].

Lemma ex_gtid_wf : gtid_wf ex_gtid.
Proof. split; repeat constructor; unfold nonempty, before; cbn; lia. Qed.

Lemma ex_delta_wf : gtid_wf ex_delta.
Proof. split; repeat constructor; unfold nonempty, before; cbn; lia. Qed.

Lemma gtid_add_correct_witness :
  gtid_wf ex_gtid /\ gtid_wf ex_delta /\
  gtid_add ex_gtid ex_delta = Ok (mkGtid ex_sid [(5, 59); (60, 61); (70, 75)]) /\
  gtid_wf (mkGtid ex_sid [(5, 59); (60, 61); (70, 75)]).
Proof.
  split; [apply ex_gtid_wf|]. split; [apply ex_delta_wf|]. split; [vm_compute; reflexivity|].
  exact (proj1 (proj2 (proj2 (gtid_add_correct ex_gtid ex_delta ex_gtid_wf ex_delta_wf)))).
Defined.

Lemma gtid_sub_correct_witness :
  exists g, gtid_sub ex_gtid (mkGtid ex_sid [(10, 12)]) = Ok g /\ gtid_wf g /\
    intervals g = [(5, 10); (12, 57); (60, 61)].
Proof.
  assert (gtid_wf (mkGtid ex_sid [(10, 12)])) as Hw
    by (split; repeat constructor; unfold nonempty; cbn; lia).
  destruct (gtid_sub_correct ex_gtid (mkGtid ex_sid [(10, 12)]) ex_gtid_wf Hw)
    as (g & Hg & _ & Hwf & _).
  exists g. split; [exact Hg|]. split; [exact Hwf|].
  vm_compute in Hg. injection Hg as <-. reflexivity.
Defined.

Lemma gtid_contains_correct_witness :
  gtid_contains ex_gtid (mkGtid ex_sid [(10, 12); (60, 61)]) = true /\
  (forall x, covers [(10, 12); (60, 61)] x -> covers (intervals ex_gtid) x).
Proof.
  split; [reflexivity|].
  assert (gtid_wf (mkGtid ex_sid [(10, 12); (60, 61)])) as Hw
    by (split; repeat constructor; unfold nonempty, before; cbn; lia).
  exact (proj2 (proj1 (gtid_contains_correct ex_gtid _ ex_gtid_wf Hw) eq_refl)).
Defined.

Lemma gtid_eq_extensional_witness :
  gtid_eqb ex_gtid ex_gtid = true /\ gtid_wf ex_gtid /\
  (forall x, covers (intervals ex_gtid) x <-> covers (intervals ex_gtid) x).
Proof.
  split; [reflexivity|]. split; [apply ex_gtid_wf|].
  exact (proj2 (proj1 (gtid_eq_extensional ex_gtid ex_gtid ex_gtid_wf ex_gtid_wf) eq_refl)).
Defined.
