(* ===== verification/GtidText.v ===== *)
(** * The textual form of a GTID

    [Gtid.parse_interval], [Gtid.parse], [Gtid.__init__] on a string and
    [Gtid.__str__] of [pymysqlreplication/gtid.py].  The two anchored regular
    expressions of the source are written as the recognisers they denote;
    [$] also accepts one final newline, hence [chomp]. *)

From stdpp Require Import base list strings sets.
From Stdlib Require Import ZArith Lia Ascii.
From S2P Require Import Prelude PyBytes PyStr Gtid.
Open Scope string_scope.
Open Scope Z_scope.

(** Remove one final newline, as [$] does. *)
Fixpoint chomp (s : string) : string :=
  match s with
  | EmptyString => ""
  | String c EmptyString => if decide (c = "010"%char) then "" else s
  | String c s' => String c (chomp s')
  end.

Definition str_nonempty (s : string) : bool :=
  match s with EmptyString => false | _ => true end.

(** [[0-9]+] *)
Definition is_number (s : string) : bool := str_nonempty s && str_forallb is_digit s.

(** [^([0-9]+)(?:-([0-9]+))?$]; the end is incremented to the internal,
    right-open form. *)
Definition parse_interval (s : string) : result interval :=
  match split_on "-" (chomp s) with
  | [a] => if is_number a then Ok (digits_value 0 a, digits_value 0 a + 1) else Err ValueError
  | [a; b] => if is_number a && is_number b
              then Ok (digits_value 0 a, digits_value 0 b + 1) else Err ValueError
  | _ => Err ValueError
  end.

Definition is_hex (c : ascii) : bool :=
  match hex_value c with Some _ => true | None => false end.

Definition hex_field (n : nat) (s : string) : bool :=
  bool_decide (String.length s = n) && str_forallb is_hex s.

(** [[0-9a-fA-F]{8}(?:-[0-9a-fA-F]{4}){3}-[0-9a-fA-F]{12}] *)
Definition sid_ok (s : string) : bool :=
  match split_on "-" s with
  | [a; b; c; d; e] => hex_field 8 a && hex_field 4 b && hex_field 4 c && hex_field 4 d && hex_field 12 e
  | _ => false
  end.

(** [[0-9-]+] *)
Definition interval_text (s : string) : bool :=
  str_nonempty s && str_forallb (fun c => is_digit c || bool_decide (c = "-"%char)) s.

(** [Gtid.parse]: [SID(:interval)+$]. *)
Definition gtid_parse (s : string) : result (string * list interval) :=
  match split_on ":" (chomp s) with
  | sd :: (p :: ps) =>
      if sid_ok sd && forallb interval_text (p :: ps)
      then l ← mapM_result parse_interval (p :: ps); Ok (sd, l)
      else Err ValueError
  | _ => Err ValueError
  end.

(** [Gtid(gtid)] *)
Definition gtid_of_string (s : string) : result Gtid :=
  '(sd, l) ← gtid_parse s; gtid_make sd l.

Definition format_interval (x : interval) : string :=
  if x.1 + 1 =? x.2 then str_of_Z x.1
  else str_of_Z x.1 ++ "-" ++ str_of_Z (x.2 - 1).

(** [Gtid.__str__] *)
Definition gtid_str (g : Gtid) : string :=
  sid g ++ ":" ++ join ":" (map format_interval (intervals g)).

(** ** Lemmas *)

Lemma chomp_id s : str_mem "010" s = false -> chomp s = s.
Proof.
  induction s as [|c s IH]; cbn; [done|]. intros [Hc Hs]%orb_false_iff.
  apply bool_decide_eq_false in Hc. destruct s; [by rewrite decide_False|]. by rewrite IH.
Qed.

Lemma str_mem_join c sep l :
  str_mem c sep = false -> Forall (fun s => str_mem c s = false) l -> str_mem c (join sep l) = false.
Proof.
  intros Hsep. induction 1 as [|x l Hx Hl IH]; [done|].
  destruct l as [|y l]; [done|].
  change (join sep (x :: y :: l)) with (x ++ sep ++ join sep (y :: l)).
  by rewrite !str_mem_app, Hx, Hsep, IH.
Qed.

Lemma is_number_dec z : 0 <= z -> is_number (str_of_Z z) = true.
Proof.
  intros Hz. rewrite str_of_Z_nonneg by done. unfold is_number.
  destruct (dec_nonneg_spec z Hz) as (Hne & -> & _). by destruct (dec_nonneg z).
Qed.

Lemma is_number_no_char c s : is_digit c = false -> is_number s = true -> str_mem c s = false.
Proof. intros Hc [_ H]%andb_true_iff. by apply digits_no_char. Qed.

Lemma digits_value_str z : 0 <= z -> digits_value 0 (str_of_Z z) = z.
Proof. intros Hz. rewrite str_of_Z_nonneg by done. by apply dec_nonneg_spec. Qed.

Lemma format_interval_no_char c i :
  is_digit c = false -> c <> "-"%char -> 0 <= i.1 < i.2 -> str_mem c (format_interval i) = false.
Proof.
  intros Hc Hd Hi. unfold format_interval.
  pose proof (is_number_no_char c _ Hc (is_number_dec i.1 ltac:(lia))) as H1.
  pose proof (is_number_no_char c _ Hc (is_number_dec (i.2 - 1) ltac:(lia))) as H2.
  destruct (i.1 + 1 =? i.2); [done|]. rewrite !str_mem_app, H1, H2. cbn.
  by rewrite bool_decide_false.
Qed.

Lemma interval_text_no_char c s :
  is_digit c = false -> c <> "-"%char -> interval_text s = true -> str_mem c s = false.
Proof.
  intros Hc Hd [_ Hs]%andb_true_iff. apply str_mem_false. eapply str_forallb_impl; [|exact Hs].
  intros a Ha. apply negb_true_iff, bool_decide_eq_false. intros ->.
  rewrite Hc, bool_decide_false in Ha; done.
Qed.

Lemma interval_text_number s : is_number s = true -> interval_text s = true.
Proof.
  unfold is_number, interval_text. rewrite !andb_true_iff. intros [-> H]. split; [done|].
  eapply str_forallb_impl; [|exact H]. by intros c ->.
Qed.

Lemma interval_text_format i : 0 <= i.1 < i.2 -> interval_text (format_interval i) = true.
Proof.
  intros Hi. unfold format_interval.
  pose proof (interval_text_number _ (is_number_dec i.1 ltac:(lia))) as H1.
  pose proof (interval_text_number _ (is_number_dec (i.2 - 1) ltac:(lia))) as H2.
  destruct (i.1 + 1 =? i.2); [done|].
  unfold interval_text in *. rewrite !str_forallb_app.
  apply andb_true_iff in H1 as [H1 ->], H2 as [_ ->]. by destruct (str_of_Z i.1).
Qed.

(** Parsing a printed interval gives it back. *)
Lemma parse_format_interval i : 0 <= i.1 < i.2 -> parse_interval (format_interval i) = Ok i.
Proof.
  intros Hi. unfold parse_interval.
  rewrite chomp_id by (apply format_interval_no_char; done).
  unfold format_interval.
  pose proof (is_number_dec i.1 ltac:(lia)) as H1.
  pose proof (is_number_dec (i.2 - 1) ltac:(lia)) as H2.
  pose proof (is_number_no_char "-" _ eq_refl H1).
  pose proof (is_number_no_char "-" _ eq_refl H2).
  destruct (Z.eqb_spec (i.1 + 1) i.2) as [E|E].
  - rewrite split_on_word by done. rewrite H1, digits_value_str, E by lia. by destruct i.
  - change ("-" ++ str_of_Z (i.2 - 1)) with (String "-" (str_of_Z (i.2 - 1))).
    rewrite split_on_app, split_on_word by done. rewrite H1, H2. cbn.
    rewrite !digits_value_str by lia. destruct i; cbn. do 2 f_equal. lia.
Qed.

Lemma split_on_no_char c d s :
  Forall (fun w => str_mem c w = false) (split_on d s) -> c <> d -> str_mem c s = false.
Proof.
  intros H Hne. induction s as [|a s IH]; cbn in *; [done|].
  case_decide as E; subst.
  - inversion_clear H. rewrite IH by done. by rewrite bool_decide_false.
  - pose proof (split_on_nonempty d s). destruct (split_on d s) as [|w ws]; [done|].
    inversion_clear H as [|?? Hw Hws]. cbn in Hw. apply orb_false_iff in Hw as [Ha Hw].
    rewrite Ha. apply IH. by constructor.
Qed.

Lemma hex_field_no_char c n s : is_hex c = false -> hex_field n s = true -> str_mem c s = false.
Proof.
  intros Hc [_ Hs]%andb_true_iff. apply str_mem_false. eapply str_forallb_impl; [|exact Hs].
  intros a Ha. apply negb_true_iff, bool_decide_eq_false. congruence.
Qed.

Lemma sid_ok_inv s : sid_ok s = true ->
  exists a b c d e, s = a ++ "-" ++ b ++ "-" ++ c ++ "-" ++ d ++ "-" ++ e /\
    hex_field 8 a = true /\ hex_field 4 b = true /\ hex_field 4 c = true /\
    hex_field 4 d = true /\ hex_field 12 e = true.
Proof.
  unfold sid_ok. intros H.
  pose proof (join_split_on "-" s) as Hj.
  destruct (split_on "-" s) as [|a [|b [|c [|d [|e [|]]]]]]; try done.
  rewrite !andb_true_iff in H. destruct H as ((((? & ?) & ?) & ?) & ?).
  exists a, b, c, d, e. split; [by rewrite <- Hj|]. done.
Qed.

Lemma sid_ok_no_char c s :
  is_hex c = false -> c <> "-"%char -> sid_ok s = true -> str_mem c s = false.
Proof.
  intros Hc Hd (u & v & w & x & y & -> & ? & ? & ? & ? & ?)%sid_ok_inv.
  repeat match goal with H : hex_field _ _ = true |- _ => apply (hex_field_no_char c) in H; [|done] end.
  rewrite !str_mem_app. repeat match goal with H : str_mem c _ = false |- _ => rewrite H; clear H end.
  cbn. by rewrite !bool_decide_false.
Qed.

(** Intervals whose numbers have a textual form. *)
Definition printable (g : Gtid) : Prop :=
  sid_ok (sid g) = true /\ intervals g <> [] /\ Forall (fun i => 0 <= i.1) (intervals g).

Lemma wf_nonneg_bounds l :
  canonical l -> Forall (fun i => 0 <= i.1) l -> Forall (fun i : interval => 0 <= i.1 < i.2) l.
Proof.
  intros [Hn _] Hp. rewrite Forall_forall in *. intros i Hi.
  specialize (Hn i Hi). specialize (Hp i Hi). unfold nonempty in Hn. lia.
Qed.

(** Parsing a SID followed by intervals written by any faithful formatter. *)
Lemma gtid_parse_text_gen (f : interval -> string) sd l :
  sid_ok sd = true -> l <> [] ->
  Forall (fun i => interval_text (f i) = true /\ parse_interval (f i) = Ok i) l ->
  gtid_parse (sd ++ ":" ++ join ":" (map f l)) = Ok (sd, l).
Proof.
  intros Hs Hne Hf. unfold gtid_parse.
  assert (forall c, is_digit c = false -> c <> "-"%char ->
            Forall (fun s => str_mem c s = false) (map f l)) as Hl.
  { intros c Hc Hd. apply List.Forall_map. eapply Forall_impl; [exact Hf|].
    intros i [Hi _]. by apply interval_text_no_char. }
  rewrite chomp_id.
  2: { rewrite !str_mem_app, (sid_ok_no_char "010" sd) by done. cbn.
       apply str_mem_join; [done|]. by apply Hl. }
  change (":" ++ join ":" (map f l)) with (String ":" (join ":" (map f l))).
  rewrite split_on_app by (by apply sid_ok_no_char).
  rewrite split_on_join; [|by destruct l|by apply Hl].
  assert (mapM_result parse_interval (map f l) = Ok l) as Hm.
  { clear -Hf. induction Hf as [|i l [_ Hi] _ IH]; [done|]. cbn. rewrite Hi. cbn. by rewrite IH. }
  assert (forallb interval_text (map f l) = true) as Ht.
  { apply forallb_forall. intros t Ht. apply in_map_iff in Ht as (k & <- & Hk).
    rewrite List.Forall_forall in Hf. by apply Hf. }
  destruct l as [|i l]; [done|]. cbn [map] in *. by rewrite Hs, Ht, Hm.
Qed.

Lemma gtid_parse_text sd l :
  sid_ok sd = true -> l <> [] -> Forall (fun i : interval => 0 <= i.1 < i.2) l ->
  gtid_parse (sd ++ ":" ++ join ":" (map format_interval l)) = Ok (sd, l).
Proof.
  intros Hs Hne Hb. apply gtid_parse_text_gen; [done..|].
  eapply Forall_impl; [exact Hb|]. intros i Hi.
  split; [by apply interval_text_format | by apply parse_format_interval].
Qed.

Lemma gtid_of_string_str g :
  gtid_wf g -> printable g -> gtid_of_string (gtid_str g) = Ok g.
Proof.
  intros Hw (Hs & Hne & Hp). unfold gtid_of_string, gtid_str.
  rewrite gtid_parse_text by (done || by apply wf_nonneg_bounds). cbn.
  unfold gtid_make. rewrite fold_add_canonical by done. by destruct g.
Qed.

(** ** Properties *)

(** C27. Print/parse round trip: for a well-formed GTID with a UUID as SID, at
    least one interval and non-negative transaction numbers,
    [Gtid(str(g)) == g], component by component. *)
Theorem gtid_text_roundtrip g :
  gtid_wf g -> printable g -> gtid_of_string (gtid_str g) = Ok g.
Proof. apply gtid_of_string_str. Qed.



(** The text "5-4" is accepted as the empty interval [5,5), although the
    bounds are in the wrong order; "5-3" is rejected. *)
Example gtid_backwards_interval :
  gtid_of_string (ex_sid ++ ":5-4") = Ok (mkGtid ex_sid [(5, 5)]) /\
  gtid_of_string (ex_sid ++ ":5-3") = Err (PyException "Malformed interval").
Proof. split; vm_compute; reflexivity. Qed.

Lemma gtid_text_roundtrip_witness :
  gtid_str ex_gtid = ex_sid ++ ":5-56:60" /\
  gtid_of_string (gtid_str ex_gtid) = Ok ex_gtid.
Proof.
  split; [vm_compute; reflexivity|].
  apply (gtid_text_roundtrip ex_gtid ex_gtid_wf).
  split; [vm_compute; reflexivity|]. split; [discriminate|].
  repeat constructor; cbn; lia.
Defined.
