(* ===== verification/GtidWire.v ===== *)
(** * The binary form of a GTID

    [Gtid.encoded_length], [Gtid.encode] and [Gtid.decode] of
    [pymysqlreplication/gtid.py].  A [BytesIO] payload is the bytes not yet
    read; reading past the end returns fewer bytes, which [struct.unpack]
    then rejects. *)

From stdpp Require Import base list strings sets.
From Stdlib Require Import ZArith Lia Ascii.
From S2P Require Import Prelude PyBytes PyStr Gtid GtidText.
Open Scope string_scope.
Open Scope Z_scope.

Definition encoded_length (g : Gtid) : Z := 16 + 8 + 2 * 8 * zlen (intervals g).

Definition encode_interval (i : interval) : result bytes :=
  a ← pack_ule 8 i.1; b ← pack_ule 8 i.2; Ok (a ++ b)%list.

Definition gtid_encode (g : Gtid) : result bytes :=
  s ← unhexlify (remove_char "-" (sid g));
  n ← pack_ule 8 (zlen (intervals g));
  l ← mapM_result encode_interval (intervals g);
  Ok (s ++ n ++ concat l)%list.

(** [payload.read(n)] *)
Definition io_read (n : nat) (p : bytes) : bytes * bytes := (take n p, drop n p).

(** [n] pairs [struct.unpack("<QQ", payload.read(16))]; the stop position is
    decremented to the closed, human form. *)
Fixpoint decode_intervals (n : nat) (p : bytes) : result (list interval * bytes) :=
  match n with
  | O => Ok ([], p)
  | S n' =>
      let '(w, p) := io_read 16 p in
      _ ← guard_or (bool_decide (length w = 16%nat)) StructError;
      '(l, p) ← decode_intervals n' p;
      Ok ((le_decode (take 8 w), le_decode (drop 8 w) - 1) :: l, p)
  end.

(** The human form of a decoded (start, last) pair. *)
Definition decode_format (x : interval) : string := str_of_Z x.1 ++ "-" ++ str_of_Z x.2.

Definition gtid_decode (p : bytes) : result (Gtid * bytes) :=
  let '(s1, p) := io_read 4 p in
  let '(s2, p) := io_read 2 p in
  let '(s3, p) := io_read 2 p in
  let '(s4, p) := io_read 2 p in
  let '(s5, p) := io_read 6 p in
  let sd := hexlify s1 ++ "-" ++ hexlify s2 ++ "-" ++ hexlify s3 ++ "-" ++ hexlify s4 ++ "-" ++ hexlify s5 in
  let '(w, p) := io_read 8 p in
  n ← unpack_ule 8 w;
  '(l, p) ← decode_intervals (Z.to_nat n) p;
  g ← gtid_of_string (sd ++ ":" ++ join ":" (map decode_format l));
  Ok (g, p).

(** ** Lemmas *)

(** ASCII lower case of hexadecimal letters. *)
Definition lower_hex (c : ascii) : ascii :=
  if (65 <=? code c) && (code c <=? 70) then chr (code c + 32) else c.
Fixpoint hex_lower (s : string) : string :=
  match s with EmptyString => "" | String c s' => String (lower_hex c) (hex_lower s') end.

Lemma hex_digit_value c v : hex_value c = Some v -> 0 <= v < 16 /\ hex_digit v = lower_hex c.
Proof.
  destruct c as [[] [] [] [] [] [] [] []]; vm_compute; intros H; try discriminate H;
    injection H as <-; (split; [split; [discriminate|done]|reflexivity]).
Qed.

Lemma hex_lower_app a b : hex_lower (a ++ b) = hex_lower a ++ hex_lower b.
Proof. induction a; cbn; congruence. Qed.

(** Re-hexlifying gives the text in lower case. *)
Lemma hexlify_unhexlify n s bs :
  (String.length s <= n)%nat -> unhexlify s = Ok bs -> hexlify bs = hex_lower s /\ bytes_ok bs.
Proof.
  revert s bs; induction n as [|n IH]; intros s bs Hn H.
  - destruct s; cbn in *; [|lia]. simplify_eq. split; [done|constructor].
  - destruct s as [|c1 [|c2 s]]; cbn in H; [simplify_eq; split; [done|constructor]|done|].
    destruct (hex_value c1) as [h|] eqn:E1; [|done]. cbn in H.
    destruct (hex_value c2) as [l|] eqn:E2; [|done]. cbn in H.
    destruct (unhexlify s) as [bs'|] eqn:E3; [|done]. cbn in H. injection H as <-.
    apply hex_digit_value in E1 as [? E1], E2 as [? E2].
    destruct (IH s bs') as [IHs IHb]; [cbn in Hn; lia|done|].
    split; [|constructor; [unfold byte_ok; lia|done]]. cbn [hexlify hex_lower].
    replace ((16 * h + l) / 16) with h.
    2: { rewrite Z.mul_comm, Z.div_add_l, Z.div_small by lia. lia. }
    replace ((16 * h + l) mod 16) with l.
    2: { rewrite Z.add_comm, Z.mul_comm, Z.mod_add, Z.mod_small by lia. lia. }
    by rewrite E1, E2, IHs.
Qed.

Lemma unhexlify_ok s :
  str_forallb is_hex s = true -> forall n, String.length s = (2 * n)%nat ->
  exists bs, unhexlify s = Ok bs /\ length bs = n.
Proof.
  intros H n. revert s H. induction n as [|n IH]; intros s H Hl.
  - destruct s; [|done]. by exists [].
  - destruct s as [|c1 [|c2 s]]; [done|cbn in Hl; lia|]. cbn in H.
    apply andb_true_iff in H as [H1 H]. apply andb_true_iff in H as [H2 H].
    destruct (IH s H ltac:(cbn in Hl; lia)) as (bs & Hb & Hlen).
    unfold is_hex in H1, H2. cbn.
    destruct (hex_value c1); [|done]. destruct (hex_value c2); [|done]. cbn. rewrite Hb. cbn.
    eexists; split; [done|]. cbn. lia.
Qed.

Lemma unhexlify_app n s t bs :
  unhexlify s = Ok bs -> (String.length s <= n)%nat ->
  unhexlify (s ++ t) = (bt ← unhexlify t; Ok (bs ++ bt)%list).
Proof.
  revert s bs; induction n as [|n IH]; intros s bs H Hn.
  - destruct s; cbn in *; [|lia]. simplify_eq. by destruct (unhexlify t).
  - destruct s as [|c1 [|c2 s]]; cbn in H |- *; [simplify_eq; by destruct (unhexlify t)|done|].
    destruct (hex_value c1); [|done]. destruct (hex_value c2); [|done]. cbn in *.
    destruct (unhexlify s) as [bs'|] eqn:E; [|done]. cbn in H. simplify_eq.
    rewrite (IH s bs' E) by (cbn in Hn; lia). by destruct (unhexlify t).
Qed.

Lemma hex_field_decode n s :
  hex_field (2 * n) s = true ->
  exists bs, unhexlify s = Ok bs /\ length bs = n /\ hexlify bs = hex_lower s /\
             (forall t, unhexlify (s ++ t) = (bt ← unhexlify t; Ok (bs ++ bt)%list)).
Proof.
  intros [Hl%bool_decide_eq_true Hs]%andb_true_iff.
  destruct (unhexlify_ok s Hs n Hl) as (bs & Hb & Hn).
  exists bs. repeat (split; [done|]).
  split; [by apply (hexlify_unhexlify (String.length s) s bs)|].
  intros t. by apply (unhexlify_app (String.length s)).
Qed.

Lemma remove_char_app c a b : remove_char c (a ++ b) = remove_char c a ++ remove_char c b.
Proof. induction a; cbn; [done|]. case_decide; cbn; congruence. Qed.

Lemma remove_char_id c s : str_mem c s = false -> remove_char c s = s.
Proof.
  induction s as [|a s IH]; cbn; [done|]. intros [Ha Hs]%orb_false_iff.
  apply bool_decide_eq_false in Ha. rewrite decide_False by done. by rewrite IH.
Qed.

Lemma is_hex_lower c : is_hex c = true -> is_hex (lower_hex c) = true.
Proof.
  unfold is_hex. destruct (hex_value c) as [v|] eqn:E; [|done]. intros _.
  apply hex_digit_value in E as [Hv <-]. by rewrite hex_value_digit.
Qed.

Lemma hex_field_lower n s : hex_field n s = true -> hex_field n (hex_lower s) = true.
Proof.
  unfold hex_field. rewrite !andb_true_iff, !bool_decide_eq_true. intros [Hl Hs]. split.
  - rewrite <- Hl. clear. induction s; cbn; congruence.
  - clear Hl. induction s as [|c s IH]; cbn in *; [done|].
    apply andb_true_iff in Hs as [Hc Hs]. by rewrite is_hex_lower, IH.
Qed.

Lemma sid_ok_fields a b c d e :
  hex_field 8 a = true -> hex_field 4 b = true -> hex_field 4 c = true ->
  hex_field 4 d = true -> hex_field 12 e = true ->
  sid_ok (a ++ "-" ++ b ++ "-" ++ c ++ "-" ++ d ++ "-" ++ e) = true.
Proof.
  intros Ha Hb Hc Hd He. unfold sid_ok.
  change (a ++ "-" ++ b ++ "-" ++ c ++ "-" ++ d ++ "-" ++ e) with (join "-" [a; b; c; d; e]).
  rewrite split_on_join; [by rewrite Ha, Hb, Hc, Hd, He|done|].
  repeat constructor; eapply hex_field_no_char; done.
Qed.

(** A UUID is 16 bytes, and reading these bytes back in groups gives the UUID
    in lower case. *)
Lemma sid_wire sd :
  sid_ok sd = true ->
  sid_ok (hex_lower sd) = true /\
  exists s1 s2 s3 s4 s5,
    unhexlify (remove_char "-" sd) = Ok (s1 ++ s2 ++ s3 ++ s4 ++ s5)%list /\
    length s1 = 4%nat /\ length s2 = 2%nat /\ length s3 = 2%nat /\ length s4 = 2%nat /\
    length s5 = 6%nat /\
    hexlify s1 ++ "-" ++ hexlify s2 ++ "-" ++ hexlify s3 ++ "-" ++ hexlify s4 ++ "-" ++ hexlify s5
      = hex_lower sd.
Proof.
  intros (a & b & c & d & e & -> & Ha & Hb & Hc & Hd & He)%sid_ok_inv. split.
  { rewrite !hex_lower_app. cbn [hex_lower].
    change (String (lower_hex "-") "") with "-". by apply sid_ok_fields; apply hex_field_lower. }
  assert (remove_char "-" (a ++ "-" ++ b ++ "-" ++ c ++ "-" ++ d ++ "-" ++ e)
          = a ++ b ++ c ++ d ++ e) as ->.
  { rewrite !remove_char_app. cbn [remove_char].
    rewrite !decide_True by done.
    rewrite !(remove_char_id "-") by (eapply hex_field_no_char; done). done. }
  destruct (hex_field_decode 4 a Ha) as (s1 & H1 & L1 & X1 & A1).
  destruct (hex_field_decode 2 b Hb) as (s2 & H2 & L2 & X2 & A2).
  destruct (hex_field_decode 2 c Hc) as (s3 & H3 & L3 & X3 & A3).
  destruct (hex_field_decode 2 d Hd) as (s4 & H4 & L4 & X4 & A4).
  destruct (hex_field_decode 6 e He) as (s5 & H5 & L5 & X5 & A5).
  exists s1, s2, s3, s4, s5. split.
  { rewrite A1, A2, A3, A4, H5. done. }
  repeat (split; [done|]). rewrite X1, X2, X3, X4, X5, !hex_lower_app. done.
Qed.

Definition u64 (z : Z) : Prop := 0 <= z < 256 ^ 8.
Definition itvl_u64 (i : interval) : Prop := u64 i.1 /\ u64 i.2.

Lemma encode_interval_ok i :
  itvl_u64 i -> encode_interval i = Ok (le_encode 8 i.1 ++ le_encode 8 i.2)%list.
Proof.
  intros [H1 H2]. unfold encode_interval, u64 in *.
  by rewrite !pack_ule_in_range.
Qed.

Lemma encode_intervals_ok l :
  Forall itvl_u64 l ->
  exists bs, mapM_result encode_interval l = Ok bs /\ zlen (concat bs) = 16 * zlen l /\
    forall rest, decode_intervals (length l) (concat bs ++ rest)
                 = Ok (map (fun i => (i.1, i.2 - 1)) l, rest).
Proof.
  induction 1 as [|i l Hi Hl (bs & Hb & Hlen & Hd)]; [by exists []|].
  cbn [mapM_result]. rewrite encode_interval_ok by done. cbn [mbind result_bind].
  rewrite Hb. cbn [mbind result_bind].
  eexists; split; [done|]. split.
  { cbn [concat]. autorewrite with py. rewrite Hlen. lia. }
  intros rest. cbn [concat decode_intervals length map].
  rewrite <- !app_assoc. unfold io_read.
  set (tl := (concat bs ++ rest)%list).
  assert (forall a b : bytes, length a = 8%nat -> length b = 8%nat ->
            take 16 (a ++ b ++ tl) = (a ++ b)%list /\ drop 16 (a ++ b ++ tl) = tl) as Hsplit.
  { intros a b Ea Eb. rewrite app_assoc.
    by rewrite take_app_length', drop_app_length' by (rewrite length_app; lia). }
  destruct (Hsplit (le_encode 8 i.1) (le_encode 8 i.2)) as [-> ->]; [apply le_encode_length..|].
  rewrite bool_decide_true by (by rewrite length_app, !le_encode_length). cbn [guard_or mbind result_bind].
  unfold tl. rewrite Hd. cbn [mbind result_bind].
  rewrite take_app_length', drop_app_length' by (by rewrite le_encode_length).
  destruct Hi as [H1 H2]. unfold u64 in *. by rewrite !le_decode_encode.
Qed.

(** Both ways of writing an interval denote it. *)
Lemma parse_decode_format i :
  0 <= i.1 < i.2 -> parse_interval (decode_format (i.1, i.2 - 1)) = Ok i.
Proof.
  intros Hi. unfold parse_interval, decode_format; cbn [fst snd].
  pose proof (is_number_dec i.1 ltac:(lia)) as H1.
  pose proof (is_number_dec (i.2 - 1) ltac:(lia)) as H2.
  rewrite chomp_id.
  2: { rewrite !str_mem_app. by rewrite (is_number_no_char "010" _ eq_refl H1),
         (is_number_no_char "010" _ eq_refl H2). }
  change ("-" ++ str_of_Z (i.2 - 1)) with (String "-" (str_of_Z (i.2 - 1))).
  rewrite split_on_app, split_on_word by (by apply is_number_no_char).
  rewrite H1, H2. cbn. rewrite !digits_value_str by lia. destruct i; cbn. do 2 f_equal. lia.
Qed.

Lemma interval_text_decode_format i :
  0 <= i.1 < i.2 -> interval_text (decode_format (i.1, i.2 - 1)) = true.
Proof.
  intros Hi. unfold decode_format, interval_text; cbn [fst snd].
  pose proof (interval_text_number _ (is_number_dec i.1 ltac:(lia))) as H1.
  pose proof (interval_text_number _ (is_number_dec (i.2 - 1) ltac:(lia))) as H2.
  unfold interval_text in H1, H2. rewrite !str_forallb_app.
  apply andb_true_iff in H1 as [H1 ->], H2 as [_ ->]. by destruct (str_of_Z i.1).
Qed.

(** The GTIDs the wire format can carry. *)
Definition encodable (g : Gtid) : Prop :=
  sid_ok (sid g) = true /\ intervals g <> [] /\ Forall itvl_u64 (intervals g) /\
  u64 (zlen (intervals g)).

Lemma gtid_encode_ok g :
  encodable g ->
  exists s l, unhexlify (remove_char "-" (sid g)) = Ok s /\ length s = 16%nat /\
    mapM_result encode_interval (intervals g) = Ok l /\ zlen (concat l) = 16 * zlen (intervals g) /\
    gtid_encode g = Ok (s ++ le_encode 8 (zlen (intervals g)) ++ concat l)%list.
Proof.
  intros (Hs & Hne & Hi & Hn).
  destruct (sid_wire _ Hs) as (_ & s1 & s2 & s3 & s4 & s5 & Hu & L1 & L2 & L3 & L4 & L5 & _).
  destruct (encode_intervals_ok _ Hi) as (l & Hl & Hlen & _).
  eexists _, l. split; [done|]. split; [rewrite !length_app; lia|]. repeat (split; [done|]).
  unfold gtid_encode. rewrite Hu. cbn [mbind result_bind].
  rewrite pack_ule_in_range by done. cbn [mbind result_bind]. by rewrite Hl.
Qed.

Lemma drop_app_n {A} n (l1 l2 : list A) : length l1 = n -> drop n (l1 ++ l2) = l2.
Proof. intros <-. apply drop_app_length. Qed.
Lemma take_app_n {A} n (l1 l2 : list A) : length l1 = n -> take n (l1 ++ l2) = l1.
Proof. intros <-. apply take_app_length. Qed.

Lemma gtid_encode_length g :
  encodable g -> exists bs, gtid_encode g = Ok bs /\ zlen bs = encoded_length g.
Proof.
  intros H. destruct (gtid_encode_ok g H) as (s & l & _ & Hs & _ & Hl & ->).
  eexists; split; [done|]. unfold encoded_length. autorewrite with py. rewrite Hl.
  unfold zlen at 1. rewrite Hs. lia.
Qed.

Lemma gtid_decode_encode g rest :
  gtid_wf g -> encodable g ->
  exists bs, gtid_encode g = Ok bs /\
    gtid_decode (bs ++ rest) = Ok (mkGtid (hex_lower (sid g)) (intervals g), rest).
Proof.
  intros Hw He. destruct (gtid_encode_ok g He) as (s & l & Hu & _ & Hm & _ & ->).
  destruct He as (Hs & Hne & Hi & Hn).
  eexists; split; [done|].
  destruct (sid_wire _ Hs) as (Hlow & s1 & s2 & s3 & s4 & s5 & Hu' & L1 & L2 & L3 & L4 & L5 & Hx).
  rewrite Hu in Hu'. injection Hu' as ->.
  destruct (encode_intervals_ok _ Hi) as (l' & Hl' & _ & Hd). rewrite Hm in Hl'. injection Hl' as <-.
  unfold gtid_decode, io_read. rewrite <- !app_assoc.
  repeat first [ rewrite take_app_n by (done || apply le_encode_length)
               | rewrite drop_app_n by (done || apply le_encode_length) ].
  rewrite unpack_ule_encode by done. cbn [mbind result_bind].
  unfold zlen. rewrite Nat2Z.id, Hd. cbn [mbind result_bind]. rewrite Hx, map_map.
  unfold gtid_of_string. rewrite gtid_parse_text_gen; [|done|done|].
  - cbn [mbind result_bind]. unfold gtid_make. by rewrite fold_add_canonical.
  - assert (Forall (fun i => 0 <= i.1) (intervals g)) as Hp.
    { eapply Forall_impl; [exact Hi|]. intros i [[? _] _]. done. }
    eapply Forall_impl; [exact (wf_nonneg_bounds _ Hw Hp)|]. intros i Hi'. cbn beta.
    split; [by apply interval_text_decode_format | by apply parse_decode_format].
Qed.

(** ** Properties *)

(** An interval fits the wire format, decided. *)
Definition fits_u64 (i : interval) : bool := (0 <=? i.1) && (i.1 <? 2 ^ 64) && (0 <=? i.2) && (i.2 <? 2 ^ 64).

Lemma encode_interval_bounds i : encode_interval i = if fits_u64 i then encode_interval i else Err StructError.
Proof.
  destruct (fits_u64 i) eqn:Hf; [done|]. unfold encode_interval, pack_ule, fits_u64 in *.
  change (256 ^ Z.of_nat 8) with (2 ^ 64). destruct ((0 <=? i.1) && (i.1 <? 2 ^ 64)); cbn [andb mbind result_bind] in *; [|done].
  by rewrite Hf.
Qed.

Lemma encode_interval_fits i : fits_u64 i = true -> exists bs, encode_interval i = Ok bs.
Proof.
  intros Hf. unfold encode_interval, pack_ule, fits_u64 in *. change (256 ^ Z.of_nat 8) with (2 ^ 64).
  rewrite <- andb_assoc in Hf. apply andb_true_iff in Hf as [-> ->]. cbn. eauto.
Qed.

Lemma encode_intervals_overflow l : forallb fits_u64 l = false -> mapM_result encode_interval l = Err StructError.
Proof.
  induction l as [|i l IH]; [done|]. cbn [forallb mapM_result]. rewrite encode_interval_bounds.
  destruct (fits_u64 i) eqn:Hf; [|done]. cbn [andb]. intros Hl. destruct (encode_interval_fits i Hf) as [bs ->].
  cbn [mbind result_bind]. by rewrite IH.
Qed.

(** C26. The width of the wire format: for a GTID with a UUID as SID and fewer than
    2^64 intervals, [encode] succeeds exactly when every bound of every interval
    fits an unsigned 64-bit integer, and then produces [encoded_length] bytes;
    a bound outside raises [struct.error] and no truncated number is sent. *)
Theorem gtid_encode_bounds g :
  sid_ok (sid g) = true -> intervals g <> [] -> zlen (intervals g) < 2 ^ 64 ->
  if forallb fits_u64 (intervals g)
  then exists bs, gtid_encode g = Ok bs /\ zlen bs = encoded_length g
  else gtid_encode g = Err StructError.
Proof.
  intros Hs Hne Hn. pose proof (zlen_nonneg (intervals g)). destruct (forallb fits_u64 (intervals g)) eqn:Hf.
  - apply gtid_encode_length. split; [done|]. split; [done|]. split; [|unfold u64; lia].
    rewrite forallb_forall in Hf. apply List.Forall_forall. intros i Hi. specialize (Hf i Hi).
    unfold fits_u64 in Hf. zify_bool. unfold itvl_u64, u64. lia.
  - destruct (sid_wire _ Hs) as (_ & s1 & s2 & s3 & s4 & s5 & Hu & _).
    unfold gtid_encode. rewrite Hu. cbn [mbind result_bind].
    rewrite pack_ule_in_range by (change (256 ^ Z.of_nat 8) with (2 ^ 64); lia). cbn [mbind result_bind].
    by rewrite encode_intervals_overflow.
Qed.


Lemma ex_gtid_encodable : encodable ex_gtid.
Proof.
  split; [vm_compute; reflexivity|]. split; [discriminate|].
  split; [repeat constructor; unfold itvl_u64, u64; cbn; lia|]. unfold u64, zlen; cbn; lia.
Qed.

Lemma gtid_encode_bounds_witness :
  (exists bs, gtid_encode ex_gtid = Ok bs /\ zlen bs = 56) /\
  gtid_encode (mkGtid (sid ex_gtid) [(1, 2 ^ 64)]) = Err StructError.
Proof.
  split.
  - apply (gtid_encode_bounds ex_gtid); [vm_compute; reflexivity|discriminate|vm_compute; reflexivity].
  - apply (gtid_encode_bounds (mkGtid (sid ex_gtid) [(1, 2 ^ 64)])); [vm_compute; reflexivity|discriminate|vm_compute; reflexivity].
Defined.


(** A GTID with an upper-case SID is not equal to its decoded encoding, since
    SIDs are compared as text. *)
Example gtid_wire_upper_case :
  let g := mkGtid "3E11FA47-71CA-11E1-9E33-C80AA9429562" [(23, 24)] in
  exists bs g', gtid_encode g = Ok bs /\ gtid_decode bs = Ok (g', []) /\ gtid_eqb g g' = false.
Proof. eexists _, _. repeat split; vm_compute; reflexivity. Qed.
