(* ===== verification/GtidSet.v ===== *)
(** * Sets of GTIDs

    [pymysqlreplication/gtid.py], class [GtidSet]: construction from text,
    [merge_gtid], [__contains__], [__add__], [__str__], [encoded_length],
    [encoded] and [decode].  A set is the list of its GTIDs; the invariant
    [gset_wf] is that each is well formed and no SID occurs twice, and the
    abstract value is the relation [set_covers] between SIDs and transaction
    numbers. *)

From stdpp Require Import base list strings sets.
From Stdlib Require Import ZArith Lia Ascii.
From S2P Require Import Prelude PyBytes PyStr Gtid GtidText GtidWire.
Open Scope string_scope.
Open Scope Z_scope.

Abbreviation gtid_set := (list Gtid).

(** The characters removed by [strip(" \n")]. *)
Definition is_blank (c : ascii) : bool := bool_decide (c = " "%char) || bool_decide (c = "010"%char).

(** [GtidSet(text)]; the empty string gives the empty set. *)
Definition gset_of_string (s : string) : result gtid_set :=
  if str_nonempty s
  then mapM_result (fun x => gtid_of_string (strip is_blank x)) (split_on "," s)
  else Ok [].

(** [GtidSet.merge_gtid] *)
Definition merge_gtid (gs : gtid_set) (g : Gtid) : result gtid_set :=
  new ← mapM_result (fun e => if decide (sid e = sid g) then gtid_add e g else Ok e) gs;
  Ok (if decide (sid g ∈ map sid new) then new else (new ++ [g])%list).

(** [gtid in gtid_set] *)
Definition gset_contains_gtid (gs : gtid_set) (g : Gtid) : bool :=
  existsb (fun x => gtid_contains x g) gs.
(** [other in gtid_set] for a [GtidSet]: list membership, by [==]. *)
Definition gset_contains_set (gs other : gtid_set) : bool :=
  forallb (fun o => existsb (fun e => gtid_eqb e o) gs) other.

Definition gset_add_gtid (gs : gtid_set) (g : Gtid) : result gtid_set := merge_gtid gs g.
Definition gset_add_set (gs other : gtid_set) : result gtid_set := foldM_result merge_gtid other gs.

Definition gset_str (gs : gtid_set) : string := join "," (map gtid_str gs).

Definition gset_encoded_length (gs : gtid_set) : Z := 8 + foldr Z.add 0 (map encoded_length gs).

Definition gset_encoded (gs : gtid_set) : result bytes :=
  n ← pack_ule 8 (zlen gs);
  l ← mapM_result gtid_encode gs;
  Ok (n ++ concat l)%list.

Fixpoint decode_gtids (n : nat) (p : bytes) : result (gtid_set * bytes) :=
  match n with
  | O => Ok ([], p)
  | S n' => '(g, p) ← gtid_decode p; '(gs, p) ← decode_gtids n' p; Ok (g :: gs, p)
  end.

Definition gset_decode (p : bytes) : result (gtid_set * bytes) :=
  let '(w, p) := io_read 8 p in
  n ← unpack_ule 8 w;
  decode_gtids (Z.to_nat n) p.

(** ** Specification *)

Definition gset_wf (gs : gtid_set) : Prop := Forall gtid_wf gs /\ NoDup (map sid gs).
Definition set_covers (gs : gtid_set) (s : string) (x : Z) : Prop :=
  Exists (fun g => sid g = s /\ covers (intervals g) x) gs.

(** ** Lemmas *)

Lemma set_covers_cons g gs s x :
  set_covers (g :: gs) s x <-> (sid g = s /\ covers (intervals g) x) \/ set_covers gs s x.
Proof. apply Exists_cons. Qed.

Lemma set_covers_nil s x : set_covers [] s x <-> False.
Proof. apply Exists_nil. Qed.

Lemma set_covers_app gs1 gs2 s x :
  set_covers (gs1 ++ gs2) s x <-> set_covers gs1 s x \/ set_covers gs2 s x.
Proof. apply Exists_app. Qed.

Lemma set_covers_sid gs s x : set_covers gs s x -> s ∈ map sid gs.
Proof.
  intros (g & Hg & <- & _)%Exists_exists. apply list_elem_of_fmap. by exists g.
Qed.

(** The result of [Gtid.__add__], as a lemma on well-formed operands. *)
Lemma gtid_add_spec e g :
  gtid_wf e -> gtid_wf g -> sid e = sid g ->
  match gtid_add e g with
  | Ok e' => sid e' = sid e /\ gtid_wf e' /\
      (forall x, covers (intervals e') x <-> covers (intervals e) x \/ covers (intervals g) x) /\
      (forall x, covers (intervals e) x -> ~ covers (intervals g) x)
  | Err er => er = PyException "Overlapping interval" /\
      exists x, covers (intervals e) x /\ covers (intervals g) x
  end.
Proof.
  intros He Hg Hs. unfold gtid_add. rewrite decide_True by done.
  pose proof (fold_add_spec (intervals g) (intervals e) He (proj1 Hg)) as H.
  pose proof (pairwise_apart _ (canonical_pairwise _ Hg)).
  destruct (foldM_result _ _ _); cbn; tauto.
Qed.

(** The pass of [merge_gtid] over the existing GTIDs. *)
Lemma merge_pass_spec gs g :
  Forall gtid_wf gs -> gtid_wf g ->
  match mapM_result (fun e => if decide (sid e = sid g) then gtid_add e g else Ok e) gs with
  | Ok new => map sid new = map sid gs /\ Forall gtid_wf new /\
      (forall s x, set_covers new s x <->
         set_covers gs s x \/ (s = sid g /\ sid g ∈ map sid gs /\ covers (intervals g) x)) /\
      (forall x, set_covers gs (sid g) x -> ~ covers (intervals g) x)
  | Err er => er = PyException "Overlapping interval" /\
      exists x, set_covers gs (sid g) x /\ covers (intervals g) x
  end.
Proof.
  intros Hw Hg. induction Hw as [|e gs He Hw IH]; cbn [mapM_result map].
  - split; [done|]. split; [constructor|].
    split; [intros s x | intros x]; rewrite !set_covers_nil; [|done].
    rewrite elem_of_nil. tauto.
  - destruct (decide (sid e = sid g)) as [Hs|Hs].
    + pose proof (gtid_add_spec e g He Hg Hs) as Ha.
      destruct (gtid_add e g) as [e'|er]; cbn.
      2: { destruct Ha as (-> & x & ? & ?). split; [done|]. exists x. rewrite set_covers_cons. tauto. }
      destruct Ha as (Hs' & Hw' & Hx & Hd).
      destruct (mapM_result _ gs) as [new|er]; cbn.
      2: { destruct IH as (-> & x & ? & ?). split; [done|]. exists x. rewrite set_covers_cons. tauto. }
      destruct IH as (Hm & Hn & Hc & Hd'). rewrite Hm, Hs'.
      split; [done|]. split; [by constructor|]. split.
      * intros s x. rewrite !set_covers_cons, Hx, Hc, Hs', elem_of_cons.
        rewrite Hs. naive_solver.
      * intros x. rewrite set_covers_cons. intros [[_ ?]|?]; [by apply Hd|by apply Hd'].
    + cbn. destruct (mapM_result _ gs) as [new|er]; cbn.
      2: { destruct IH as (-> & x & ? & ?). split; [done|]. exists x. rewrite set_covers_cons. tauto. }
      destruct IH as (Hm & Hn & Hc & Hd'). rewrite Hm.
      split; [done|]. split; [by constructor|]. split.
      * intros s x. rewrite !set_covers_cons, Hc, elem_of_cons. naive_solver.
      * intros x. rewrite set_covers_cons. intros [[? _]|?]; [done|by apply Hd'].
Qed.

Lemma merge_gtid_spec gs g :
  gset_wf gs -> gtid_wf g ->
  match merge_gtid gs g with
  | Ok gs' => gset_wf gs' /\
      (forall s x, set_covers gs' s x <->
         set_covers gs s x \/ (s = sid g /\ covers (intervals g) x)) /\
      (forall x, set_covers gs (sid g) x -> ~ covers (intervals g) x)
  | Err er => er = PyException "Overlapping interval" /\
      exists x, set_covers gs (sid g) x /\ covers (intervals g) x
  end.
Proof.
  intros [Hw Hnd] Hg. unfold merge_gtid. pose proof (merge_pass_spec gs g Hw Hg) as H.
  destruct (mapM_result _ gs) as [new|er]; cbn; [|done].
  destruct H as (Hm & Hn & Hc & Hd). case_decide as E; rewrite Hm in E.
  - split; [split; [done|by rewrite Hm]|]. split; [|done]. intros s x. rewrite Hc. tauto.
  - split; [split|].
    + apply Forall_app; split; [done|]. by apply Forall_singleton.
    + rewrite map_app, Hm. apply NoDup_app; split; [done|].
      split; [set_solver|apply NoDup_singleton].
    + split; [|done]. intros s x. rewrite set_covers_app, Hc, set_covers_cons, set_covers_nil.
      intuition (subst; auto).
Qed.

(** Decoding the concatenated encodings of the members. *)
Lemma decode_gtids_encoded gs :
  Forall gtid_wf gs -> Forall encodable gs ->
  exists bs, mapM_result gtid_encode gs = Ok bs /\
    zlen (concat bs) = foldr Z.add 0 (map encoded_length gs) /\
    forall rest, decode_gtids (length gs) (concat bs ++ rest) =
      Ok (map (fun g => mkGtid (hex_lower (sid g)) (intervals g)) gs, rest).
Proof.
  induction 1 as [|g gs Hw Hws IH]; intros He; [by exists []|].
  inversion_clear He as [|?? Hg Hgs]. destruct (IH Hgs) as (bs & Hb & Hlen & Hd).
  destruct (gtid_encode_length g Hg) as (b & Hb1 & Hlen1).
  cbn [mapM_result]. rewrite Hb1. cbn [mbind result_bind]. rewrite Hb. cbn [mbind result_bind].
  eexists; split; [done|]. split.
  { cbn [concat map foldr]. rewrite zlen_app, Hlen, Hlen1. done. }
  intros rest. cbn [concat decode_gtids length map]. rewrite <- app_assoc.
  destruct (gtid_decode_encode g (concat bs ++ rest) Hw Hg) as (b' & Hb' & Hdec).
  rewrite Hb1 in Hb'. injection Hb' as <-.
  rewrite Hdec. cbn [mbind result_bind]. by rewrite Hd.
Qed.

Lemma gset_encoded_spec gs :
  Forall encodable gs -> u64 (zlen gs) -> Forall gtid_wf gs ->
  exists bs, gset_encoded gs = Ok bs /\ zlen bs = gset_encoded_length gs /\
    forall rest, gset_decode (bs ++ rest) =
      Ok (map (fun g => mkGtid (hex_lower (sid g)) (intervals g)) gs, rest).
Proof.
  intros He Hn Hw. destruct (decode_gtids_encoded gs Hw He) as (bs & Hb & Hlen & Hd).
  unfold gset_encoded. rewrite pack_ule_in_range by done. cbn [mbind result_bind]. rewrite Hb.
  cbn [mbind result_bind]. eexists; split; [done|]. split.
  { unfold gset_encoded_length. autorewrite with py. rewrite Hlen. lia. }
  intros rest. unfold gset_decode, io_read. rewrite <- app_assoc.
  rewrite take_app_n, drop_app_n by apply le_encode_length.
  rewrite unpack_ule_encode by done. cbn [mbind result_bind]. unfold zlen. by rewrite Nat2Z.id.
Qed.

(** A printed GTID has no separator or blank of the set syntax. *)
Lemma gtid_str_no_char c g :
  is_hex c = false -> is_digit c = false -> c <> "-"%char -> c <> ":"%char ->
  gtid_wf g -> printable g -> str_mem c (gtid_str g) = false.
Proof.
  intros Hx Hd Hm Hc Hw (Hs & Hne & Hp). unfold gtid_str.
  rewrite !str_mem_app, (sid_ok_no_char c) by done. cbn. rewrite bool_decide_false by done. cbn.
  apply str_mem_join; [cbn; by rewrite bool_decide_false|]. apply List.Forall_map.
  eapply Forall_impl; [exact (wf_nonneg_bounds _ Hw Hp)|]. intros i Hi.
  by apply format_interval_no_char.
Qed.

Lemma strip_blank_id s :
  str_mem " " s = false -> str_mem "010" s = false -> strip is_blank s = s.
Proof.
  intros H1 H2. apply strip_id. apply str_mem_false in H1, H2.
  induction s as [|c s IH]; cbn in *; [done|].
  apply andb_true_iff in H1 as [H1 H1'], H2 as [H2 H2'].
  rewrite IH by done. unfold is_blank. by rewrite negb_orb, H1, H2.
Qed.

(** ** Properties *)

(** C28. [GtidSet.merge_gtid] keeps the invariant and adds exactly the
    transactions of the GTID; it raises exactly when one of them is already in
    the set. *)
Theorem merge_gtid_correct gs g :
  gset_wf gs -> gtid_wf g ->
  match merge_gtid gs g with
  | Ok gs' => gset_wf gs' /\
      (forall s x, set_covers gs' s x <->
         set_covers gs s x \/ (s = sid g /\ covers (intervals g) x)) /\
      (forall x, set_covers gs (sid g) x -> ~ covers (intervals g) x)
  | Err er => er = PyException "Overlapping interval" /\
      exists x, set_covers gs (sid g) x /\ covers (intervals g) x
  end.
Proof. apply merge_gtid_spec. Qed.

(** C29. [GtidSet.__add__] of two well-formed sets is their union: the result
    is well formed and contains a transaction exactly when one operand does;
    if it raises, some transaction is in both. *)
Theorem gset_add_correct gs other :
  gset_wf gs -> gset_wf other ->
  match gset_add_set gs other with
  | Ok gs' => gset_wf gs' /\
      (forall s x, set_covers gs' s x <-> set_covers gs s x \/ set_covers other s x)
  | Err er => er = PyException "Overlapping interval" /\
      exists s x, set_covers gs s x /\ set_covers other s x
  end.
Proof.
  unfold gset_add_set. intros Hg [Ho Hnd]. revert gs Hg.
  induction Ho as [|g other Hw Ho IH]; intros gs Hg; cbn [foldM_result].
  - split; [done|]. intros s x. rewrite set_covers_nil. tauto.
  - cbn in Hnd. apply NoDup_cons in Hnd as [Hni Hnd].
    pose proof (merge_gtid_spec gs g Hg Hw) as Hm.
    destruct (merge_gtid gs g) as [gs1|er]; cbn [mbind result_bind].
    2: { destruct Hm as (-> & x & ? & ?). split; [done|]. exists (sid g), x.
         rewrite set_covers_cons. tauto. }
    destruct Hm as (Hg1 & Hc & _). specialize (IH Hnd gs1 Hg1).
    destruct (foldM_result merge_gtid other gs1) as [gs'|er].
    + destruct IH as [Hg' Hc']. split; [done|]. intros s x.
      rewrite Hc', Hc, set_covers_cons. intuition auto.
    + destruct IH as (-> & s & x & Hx & Hxo). split; [done|]. exists s, x.
      rewrite set_covers_cons. split; [|by right]. apply Hc in Hx as [?|[-> _]]; [done|].
      exfalso. apply Hni. by apply set_covers_sid in Hxo.
Qed.


(** Set print/parse round trip: [GtidSet(str(gs))] is [gs]. *)
Theorem gset_text_roundtrip gs :
  gset_wf gs -> Forall printable gs -> gset_of_string (gset_str gs) = Ok gs.
Proof.
  intros [Hw _] Hp. destruct gs as [|g gs]; [done|]. unfold gset_of_string, gset_str.
  assert (Forall (fun t => str_mem "," t = false) (map gtid_str (g :: gs))) as Hc.
  { apply List.Forall_map. rewrite Forall_forall in *. intros h Hh.
    apply gtid_str_no_char; try done; [by apply Hw | by apply Hp]. }
  assert (str_nonempty (join "," (map gtid_str (g :: gs))) = true) as ->.
  { inversion_clear Hp as [|?? (Hs & _) _].
    destruct (sid_ok_inv _ Hs) as (a & b & c & d & e & Hsid & Ha & _).
    apply andb_true_iff in Ha as [Ha _]. apply bool_decide_eq_true in Ha.
    cbn [map]. destruct (map gtid_str gs); unfold gtid_str; rewrite Hsid; by destruct a. }
  rewrite split_on_join by done. rewrite <- (map_id (g :: gs)) at 2.
  clear Hc. induction (g :: gs) as [|h l IH]; [done|]. cbn [map mapM_result].
  inversion_clear Hw as [|?? Hwh Hw']. inversion_clear Hp as [|?? Hph Hp'].
  rewrite strip_blank_id by (by apply gtid_str_no_char).
  rewrite gtid_of_string_str by done. cbn [mbind result_bind]. by rewrite IH.
Qed.

(** [gtid in gtid_set] on a well-formed set decides inclusion of a
    non-empty GTID: it holds exactly when the set contains every transaction
    of the GTID. *)
Theorem gset_contains_gtid_correct gs g :
  gset_wf gs -> gtid_wf g -> intervals g <> [] ->
  gset_contains_gtid gs g = true <->
  (forall x, covers (intervals g) x -> set_covers gs (sid g) x).
Proof.
  intros [Hw Hnd] Hg Hne. unfold gset_contains_gtid. rewrite existsb_exists. split.
  - intros (e & He%list_elem_of_In & Hc) x Hx. rewrite Forall_forall in Hw.
    apply gtid_contains_spec in Hc as [Hs Hi]; [|by apply Hw|done].
    apply Exists_exists. exists e. split; [done|]. split; [done|]. by apply Hi.
  - intros H. destruct (intervals g) as [|i l] eqn:E; [done|].
    assert (exists e, e ∈ gs /\ sid e = sid g) as (e & He & Hs).
    { destruct Hg as [Hn _]. rewrite E in Hn. inversion_clear Hn as [|?? Hi _]. unfold nonempty in Hi.
      assert (covers (i :: l) i.1) as Hx by (left; unfold in_itvl; lia).
      apply H, Exists_exists in Hx as (e & ? & ? & _). eauto. }
    exists e. split; [by apply list_elem_of_In|].
    apply gtid_contains_spec; [rewrite Forall_forall in Hw; by apply Hw|done|].
    split; [done|]. intros x Hx. rewrite E in Hx.
    apply H, Exists_exists in Hx as (e' & He' & Hs' & Hx').
    assert (e' = e) as ->; [|done].
    eapply (NoDup_map_inj sid gs); [done..|congruence].
Qed.

(** [other in gtid_set] for a set compares whole GTIDs for equality: a set is
    not recognised as containing a proper subset of itself, although it
    contains every GTID of that subset. *)
Theorem gset_contains_set_is_membership :
  let big := [mkGtid ex_sid [(1, 11)]] in
  let small := mkGtid ex_sid [(1, 6)] in
  gset_wf big /\ gset_wf [small] /\
  (forall s x, set_covers [small] s x -> set_covers big s x) /\
  gset_contains_gtid big small = true /\ gset_contains_set big [small] = false.
Proof.
  cbn zeta. split; [|split; [|split; [|split; reflexivity]]].
  1,2: split; [repeat constructor; unfold nonempty; cbn; lia | apply NoDup_singleton].
  intros s x. rewrite !set_covers_cons, !set_covers_nil. cbn [sid intervals].
  rewrite !covers_singleton.
  unfold in_itvl; cbn. intuition lia.
Qed.

(** ** Witnesses *)

Definition ex_sid2 : string := "1c2aad49-ae92-409a-b4df-d05a03e4702e".
Definition ex_gtid2 : Gtid := mkGtid ex_sid2 [(42, 48); (80, 101)].
Definition ex_set : gtid_set := [ex_gtid; ex_gtid2].

Lemma ex_gtid2_wf : gtid_wf ex_gtid2.
Proof. split; repeat constructor; unfold nonempty, before; cbn; lia. Qed.

Lemma ex_set_wf : gset_wf ex_set.
Proof.
  split; [constructor; [apply ex_gtid_wf|constructor; [apply ex_gtid2_wf|constructor]]|].
  apply (bool_decide_unpack _). vm_compute. exact I.
Qed.

Lemma merge_gtid_correct_witness :
  merge_gtid ex_set ex_delta = Ok [mkGtid ex_sid [(5, 59); (60, 61); (70, 75)]; ex_gtid2] /\
  gset_wf [mkGtid ex_sid [(5, 59); (60, 61); (70, 75)]; ex_gtid2].
Proof.
  split; [vm_compute; reflexivity|].
  exact (proj1 (merge_gtid_correct ex_set ex_delta ex_set_wf ex_delta_wf)).
Defined.

Lemma gset_add_correct_witness :
  gset_add_set [ex_gtid] [ex_gtid2; ex_delta]
    = Ok [mkGtid ex_sid [(5, 59); (60, 61); (70, 75)]; ex_gtid2] /\
  gset_wf [mkGtid ex_sid [(5, 59); (60, 61); (70, 75)]; ex_gtid2].
Proof.
  assert (gset_wf [ex_gtid]) as H1
    by (split; [constructor; [apply ex_gtid_wf|constructor]|apply NoDup_singleton]).
  assert (gset_wf [ex_gtid2; ex_delta]) as H2.
  { split; [constructor; [apply ex_gtid2_wf|constructor; [apply ex_delta_wf|constructor]]|].
    apply (bool_decide_unpack _). vm_compute. exact I. }
  split; [vm_compute; reflexivity|].
  exact (proj1 (gset_add_correct [ex_gtid] [ex_gtid2; ex_delta] H1 H2)).
Defined.

Lemma ex_set_encodable : Forall encodable ex_set.
Proof.
  constructor; [apply ex_gtid_encodable|]. constructor; [|constructor].
  split; [vm_compute; reflexivity|]. split; [discriminate|].
  split; [repeat constructor; unfold itvl_u64, u64; cbn; lia|]. unfold u64, zlen; cbn; lia.
Qed.


Lemma gset_text_roundtrip_witness :
  gset_str ex_set = ex_sid ++ ":5-56:60," ++ ex_sid2 ++ ":42-47:80-100" /\
  gset_of_string (gset_str ex_set) = Ok ex_set.
Proof.
  split; [vm_compute; reflexivity|].
  apply (gset_text_roundtrip ex_set ex_set_wf).
  repeat constructor; try (vm_compute; reflexivity); try discriminate; cbn; lia.
Defined.

Lemma gset_contains_gtid_correct_witness :
  gset_contains_gtid ex_set (mkGtid ex_sid2 [(80, 90)]) = true /\
  (forall x, covers [(80, 90)] x -> set_covers ex_set ex_sid2 x).
Proof.
  split; [reflexivity|].
  assert (gtid_wf (mkGtid ex_sid2 [(80, 90)])) as Hw
    by (split; repeat constructor; unfold nonempty; cbn; lia).
  exact (proj1 (gset_contains_gtid_correct ex_set _ ex_set_wf Hw ltac:(discriminate)) eq_refl).
Defined.
