(* ===== verification/Packet.v ===== *)
(** * Packets

    [pymysqlreplication/packet.py], class [BinLogPacketWrapper]: the cursor
    over one binlog event that every decoder reads from, with its push-back
    buffer and its count of bytes read.  [read_binary_json] is in
    [JsonBinary].

    The wrapped packet object is PyMySQL's [MysqlPacket], which is not part of
    the repository: it is the class [MysqlPacket], whose laws
    [MysqlPacketLaws] state the documented behaviour of [read], [advance] and
    [rewind].  [list_packet] is an instance.  Abstract view: a wrapper is the
    stream of bytes still to be read ([stream]). *)

From stdpp Require Import base list strings sets.
From Stdlib Require Import ZArith Lia Ascii.
From S2P Require Import Prelude PyBytes PyStr.
Open Scope string_scope.
Open Scope Z_scope.

(** ** The wrapped packet *)

Class MysqlPacket (P : Type) := {
  pk_data : P -> bytes;                        (* packet._data *)
  pk_position : P -> Z;                        (* packet._position *)
  pk_read : Z -> P -> result (bytes * P);      (* packet.read(n) *)
  pk_advance : Z -> P -> result P;             (* packet.advance(n) *)
  pk_rewind : Z -> P -> result P;              (* packet.rewind(pos) *)
  (* the attribute looked up as [packet.unpack_int64], if there is one *)
  pk_unpack_int64 : P -> option (bytes -> result Z)
}.

(** The bytes the wrapped packet has not delivered yet. *)
Definition pk_rest {P} `{MysqlPacket P} (p : P) : bytes :=
  drop (Z.to_nat (pk_position p)) (pk_data p).

Class MysqlPacketLaws (P : Type) `{MysqlPacket P} := {
  pk_position_range : forall p, 0 <= pk_position p <= zlen (pk_data p);
  pk_read_enough : forall n p, 0 <= n <= zlen (pk_rest p) ->
    exists p', pk_read n p = Ok (take (Z.to_nat n) (pk_rest p), p') /\
      pk_data p' = pk_data p /\ pk_position p' = pk_position p + n;
  pk_read_short : forall n p, n < 0 \/ zlen (pk_rest p) < n -> pk_read n p = Err AssertionError;
  pk_advance_enough : forall n p, 0 <= pk_position p + n <= zlen (pk_data p) ->
    exists p', pk_advance n p = Ok p' /\
      pk_data p' = pk_data p /\ pk_position p' = pk_position p + n;
  pk_rewind_ok : forall n p, 0 <= n <= zlen (pk_data p) ->
    exists p', pk_rewind n p = Ok p' /\ pk_data p' = pk_data p /\ pk_position p' = n
}.

(** ** The wrapper *)

Record wrapper (P : Type) := mkWrapper {
  read_bytes : Z;
  data_buffer : bytes;
  packet : P;
  timestamp : Z;
  event_type : Z;
  server_id : Z;
  event_size : Z;
  log_pos : Z;
  flags : Z
}.
Arguments mkWrapper {P}.
Arguments read_bytes {P}.
Arguments data_buffer {P}.
Arguments packet {P}.
Arguments timestamp {P}.
Arguments event_type {P}.
Arguments server_id {P}.
Arguments event_size {P}.
Arguments log_pos {P}.
Arguments flags {P}.

(** Replace the mutable part of a wrapper. *)
Definition set_cursor {P} (w : wrapper P) (rb : Z) (buf : bytes) (p : P) : wrapper P :=
  mkWrapper rb buf p (timestamp w) (event_type w) (server_id w) (event_size w) (log_pos w) (flags w).

Section operations.
Context {P : Type} `{MysqlPacket P}.

Abbreviation PM := (ST (wrapper P)).

(** [BinLogPacketWrapper.read] *)
Definition read (size : Z) : PM bytes := fun w =>
  let rb := read_bytes w + size in
  let deliver prefix buf n :=
    match pk_read n (packet w) with
    | Ok (d, p') => (Ok (prefix ++ d)%list, set_cursor w rb buf p')
    | Err e => (Err e, set_cursor w rb buf (packet w))
    end in
  if (0 <? zlen (data_buffer w)) then
    let data := slice_to (data_buffer w) size in
    let buf := slice_from (data_buffer w) size in
    if zlen data =? size then (Ok data, set_cursor w rb buf (packet w))
    else deliver data buf (size - zlen data)
  else deliver [] (data_buffer w) size.

(** [unread]: push data at the end of the buffer. *)
Definition unread (data : bytes) : PM unit := fun w =>
  (Ok tt, set_cursor w (read_bytes w - zlen data) (data_buffer w ++ data)%list (packet w)).

Definition advance (size : Z) : PM unit := fun w =>
  let rb := read_bytes w + size in
  let buffer_len := zlen (data_buffer w) in
  let go buf n :=
    match pk_advance n (packet w) with
    | Ok p' => (Ok tt, set_cursor w rb buf p')
    | Err e => (Err e, set_cursor w rb buf (packet w))
    end in
  if 0 <? buffer_len then
    let buf := slice_from (data_buffer w) size in
    if buffer_len <? size then go buf (size - buffer_len)
    else (Ok tt, set_cursor w rb buf (packet w))
  else go (data_buffer w) size.

(** The fixed-width readers: [struct.unpack] of what [read] returns. *)
Definition read_uint8 : PM Z := bs ← read 1; st_lift (unpack_ule 1 bs).
Definition read_int16 : PM Z := bs ← read 2; st_lift (unpack_sle 2 bs).
Definition read_uint16 : PM Z := bs ← read 2; st_lift (unpack_ule 2 bs).
Definition read_uint32 : PM Z := bs ← read 4; st_lift (unpack_ule 4 bs).
Definition read_int32 : PM Z := bs ← read 4; st_lift (unpack_sle 4 bs).
Definition read_uint64 : PM Z := bs ← read 8; st_lift (unpack_ule 8 bs).
Definition read_int64 : PM Z := bs ← read 8; st_lift (unpack_sle 8 bs).

(** [struct.unpack("BBB", ...)] *)
Definition unpack_bbb (bs : bytes) : result (Z * Z * Z) :=
  match bs with [a; b; c] => Ok (a, b, c) | _ => Err StructError end.

Definition sign24 (res : Z) : Z := if 0x800000 <=? res then res - 0x1000000 else res.

Definition read_int24 : PM Z :=
  bs ← read 3; '(a, b, c) ← st_lift (unpack_bbb bs);
  mret (sign24 (Z.lor (Z.lor a (Z.shiftl b 8)) (Z.shiftl c 16))).
Definition read_int24_be : PM Z :=
  bs ← read 3; '(a, b, c) ← st_lift (unpack_bbb bs);
  mret (sign24 (Z.lor (Z.lor (Z.shiftl a 16) (Z.shiftl b 8)) c)).
Definition read_uint24 : PM Z :=
  bs ← read 3; '(a, b, c) ← st_lift (unpack_bbb bs);
  mret (a + Z.shiftl b 8 + Z.shiftl c 16).

(** [struct.unpack] of a concatenation of little-endian fields. *)
Definition unpack_fields (ns : list nat) (bs : bytes) : result (list Z) :=
  if decide (length bs = sum_list ns)
  then Ok ((fix go ns bs := match ns with
            | [] => []
            | n :: ns' => le_decode (take n bs) :: go ns' (drop n bs)
            end) ns bs)
  else Err StructError.

Definition read_uint40 : PM Z :=
  bs ← read 5; fs ← st_lift (unpack_fields [1; 4]%nat bs);
  match fs with [a; b] => mret (a + Z.shiftl b 8) | _ => st_raise StructError end.
Definition read_int40_be : PM Z :=
  bs ← read 5;
  st_lift (if decide (length bs = 5%nat)
           then Ok (be_decode (drop 4 bs) + Z.shiftl (be_decode (take 4 bs)) 8)
           else Err StructError).
Definition read_uint48 : PM Z :=
  bs ← read 6; fs ← st_lift (unpack_fields [2; 2; 2]%nat bs);
  match fs with [a; b; c] => mret (a + Z.shiftl b 16 + Z.shiftl c 32) | _ => st_raise StructError end.
Definition read_uint56 : PM Z :=
  bs ← read 7; fs ← st_lift (unpack_fields [1; 2; 4]%nat bs);
  match fs with [a; b; c] => mret (a + Z.shiftl b 8 + Z.shiftl c 24) | _ => st_raise StructError end.

(** [read_int_be_by_size]: other sizes fall through and return [None]; the
    format [">l"] used for size 8 is four bytes wide. *)
Definition read_int_be_by_size (size : Z) : PM (option Z) :=
  if size =? 1 then bs ← read size; st_lift (Some <$> unpack_sbe 1 bs)
  else if size =? 2 then bs ← read size; st_lift (Some <$> unpack_sbe 2 bs)
  else if size =? 3 then z ← read_int24_be; mret (Some z)
  else if size =? 4 then bs ← read size; st_lift (Some <$> unpack_sbe 4 bs)
  else if size =? 5 then z ← read_int40_be; mret (Some z)
  else if size =? 8 then bs ← read size; st_lift (Some <$> unpack_sbe 4 bs)
  else mret None.

Definition read_uint_by_size (size : Z) : PM (option Z) :=
  if size =? 1 then z ← read_uint8; mret (Some z)
  else if size =? 2 then z ← read_uint16; mret (Some z)
  else if size =? 3 then z ← read_uint24; mret (Some z)
  else if size =? 4 then z ← read_uint32; mret (Some z)
  else if size =? 5 then z ← read_uint40; mret (Some z)
  else if size =? 6 then z ← read_uint48; mret (Some z)
  else if size =? 7 then z ← read_uint56; mret (Some z)
  else if size =? 8 then z ← read_uint64; mret (Some z)
  else mret None.

(** [unpack_uint16], [unpack_int24] and [unpack_int32] of a byte string; the
    first attempt of the last two, [struct.unpack] of a one-byte [int],
    always raises [TypeError] and the handler runs. *)
Definition unpack_uint16 (n : bytes) : result Z := unpack_ule 2 (slice_to n 2).
Definition unpack_int24 (n : bytes) : result Z :=
  a ← py_index n 0; b ← py_index n 1; c ← py_index n 2;
  Ok (a + Z.shiftl b 8 + Z.shiftl c 16).
Definition unpack_int32 (n : bytes) : result Z :=
  a ← py_index n 0; b ← py_index n 1; c ← py_index n 2; d ← py_index n 3;
  Ok (a + Z.shiftl b 8 + Z.shiftl c 16 + Z.shiftl d 24).

Definition NULL_COLUMN : Z := 251.
Definition UNSIGNED_CHAR_COLUMN : Z := 251.
Definition UNSIGNED_SHORT_COLUMN : Z := 252.
Definition UNSIGNED_INT24_COLUMN : Z := 253.
Definition UNSIGNED_INT64_COLUMN : Z := 254.

(** [read_length_coded_binary]; [self.unpack_int64] is looked up on the
    wrapped packet, the wrapper has no such method. *)
Definition read_length_coded_binary : PM (option Z) :=
  bs ← read 1;
  c ← st_lift (unpack_ule 1 bs);
  if c =? NULL_COLUMN then mret None
  else if c <? UNSIGNED_CHAR_COLUMN then mret (Some c)
  else if c =? UNSIGNED_SHORT_COLUMN then bs ← read 2; st_lift (Some <$> unpack_uint16 bs)
  else if c =? UNSIGNED_INT24_COLUMN then bs ← read 3; st_lift (Some <$> unpack_int24 bs)
  else if c =? UNSIGNED_INT64_COLUMN then
    w ← st_get;
    match pk_unpack_int64 (packet w) with
    | None => st_raise AttributeError
    | Some f => bs ← read 8; st_lift (Some <$> f bs)
    end
  else mret None.

Definition read_length_coded_string : PM (option string) :=
  n ← read_length_coded_binary;
  match n with
  | None => mret None
  | Some n => bs ← read n; st_lift (Some <$> utf8_decode ErrStrict bs)
  end.

(** A length that is [None] makes [int(size)] raise. *)
Definition read_opt (size : option Z) : PM bytes :=
  match size with Some n => read n | None => st_raise TypeError end.

Definition read_length_coded_pascal_string (size : Z) : PM bytes :=
  n ← read_uint_by_size size; read_opt n.

(** Upper bound on the number of single-byte reads that can succeed. *)
Definition read_fuel (w : wrapper P) : nat := S (length (data_buffer w) + length (pk_data (packet w))).

(** The loop of [read_variable_length_string]: seven bits per byte, least
    significant group first, until a byte without the high bit. *)
Fixpoint variable_length (fuel : nat) (length bits_read : Z) : PM Z :=
  match fuel with
  | O => st_raise (PyException "out of fuel")
  | S f =>
      bs ← read 1;
      byte ← st_lift (unpack_ule 1 bs);
      let length := Z.lor length (Z.shiftl (Z.land byte 0x7F) bits_read) in
      if Z.land byte 0x80 =? 0 then mret length
      else variable_length f length (bits_read + 7)
  end.

Definition read_variable_length_string : PM bytes :=
  w ← st_get; n ← variable_length (read_fuel w) 0 0; read n.

(** [read_string]: up to the NUL byte. *)
Fixpoint read_string_loop (fuel : nat) (acc : bytes) : PM bytes :=
  match fuel with
  | O => st_raise (PyException "out of fuel")
  | S f =>
      ch ← read 1;
      if decide (ch = [0]) then mret acc else read_string_loop f (acc ++ ch)%list
  end.
Definition read_string : PM bytes := w ← st_get; read_string_loop (read_fuel w) [].

Definition BINLOG_CHECKSUM_LEN : Z := 4.
Definition bytes_to_read (w : wrapper P) : Z := zlen (pk_data (packet w)) - pk_position (packet w).

(** [read_available]: reads from the wrapped packet directly, without
    touching the buffer or the count. *)
Definition read_available : PM bytes := fun w =>
  match pk_read (bytes_to_read w - BINLOG_CHECKSUM_LEN) (packet w) with
  | Ok (d, p') => (Ok d, set_cursor w (read_bytes w) (data_buffer w) p')
  | Err e => (Err e, w)
  end.

(** [self.packet.rewind(pos)], delegated to the wrapped packet. *)
Definition rewind (pos : Z) : PM unit := fun w =>
  match pk_rewind pos (packet w) with
  | Ok p' => (Ok tt, set_cursor w (read_bytes w) (data_buffer w) p')
  | Err e => (Err e, w)
  end.

(** The bytes still to be read through [read]. *)
Definition stream (w : wrapper P) : bytes := (data_buffer w ++ pk_rest (packet w))%list.
End operations.

Abbreviation PM P := (ST (wrapper P)).

(** ** The header

    [BinLogPacketWrapper.__init__] up to the construction of the event:
    [struct.unpack("<cIBIIIH", packet.read(20))]. *)
Definition open_packet {P} `{MysqlPacket P} (p : P) : result (wrapper P) :=
  '(h, p') ← pk_read 20 p;
  fs ← unpack_fields [1; 4; 1; 4; 4; 4; 2]%nat h;
  match fs with
  | [_; ts; ty; sv; sz; lp; fl] => Ok (mkWrapper 0 [] p' ts ty sv sz lp fl)
  | _ => Err StructError
  end.

(** ** An instance of the packet interface *)

Record list_packet := mkPacket { lp_data : bytes; lp_pos : nat; lp_ok : bool_decide (lp_pos <= length lp_data)%nat = true }.

Definition lp_at (d : bytes) (n : nat) : option list_packet :=
  match decide (bool_decide (n <= length d)%nat = true) with
  | left pf => Some (mkPacket d n pf)
  | right _ => None
  end.

Definition lp_start (d : bytes) : list_packet := mkPacket d 0 (bool_decide_eq_true_2 _ (Nat.le_0_l _)).

#[export] Instance list_packet_packet : MysqlPacket list_packet := {|
  pk_data := lp_data;
  pk_position p := Z.of_nat (lp_pos p);
  pk_read n p :=
    if n <? 0 then Err AssertionError
    else match lp_at (lp_data p) (lp_pos p + Z.to_nat n) with
         | Some p' => Ok (take (Z.to_nat n) (drop (lp_pos p) (lp_data p)), p')
         | None => Err AssertionError
         end;
  pk_advance n p :=
    if Z.of_nat (lp_pos p) + n <? 0 then Err (PyException "Invalid advance amount")
    else of_option (PyException "Invalid advance amount")
           (lp_at (lp_data p) (Z.to_nat (Z.of_nat (lp_pos p) + n)));
  pk_rewind n p :=
    if n <? 0 then Err (PyException "Invalid position to rewind cursor to")
    else of_option (PyException "Invalid position to rewind cursor to") (lp_at (lp_data p) (Z.to_nat n));
  pk_unpack_int64 _ := None
|}.

Open Scope list_scope.
Open Scope Z_scope.

(** ** Specification of readers

    [parses m bs a]: with [bs] at the head of the stream and nothing pushed
    back, [m] consumes exactly [bs], counts it, leaves the header alone and
    nothing pushed back, and returns [a]. *)

Section spec.
Context {P : Type} `{MysqlPacket P}.

Definition same_header (w w' : wrapper P) : Prop :=
  timestamp w' = timestamp w /\ event_type w' = event_type w /\ server_id w' = server_id w /\
  event_size w' = event_size w /\ log_pos w' = log_pos w /\ flags w' = flags w /\
  pk_data (packet w') = pk_data (packet w).

Definition step_to (w : wrapper P) (n : Z) (rest : bytes) (w' : wrapper P) : Prop :=
  stream w' = rest /\ read_bytes w' = read_bytes w + n /\ same_header w w'.

Definition parses {A} (m : PM P A) (bs : bytes) (a : A) : Prop :=
  forall w rest, data_buffer w = [] -> stream w = (bs ++ rest)%list ->
    exists w', m w = (Ok a, w') /\ data_buffer w' = [] /\ step_to w (zlen bs) rest w'.

(** [fails m n]: with fewer than [n] bytes left, [m] raises. *)
Definition fails_short {A} (m : PM P A) (n : Z) : Prop :=
  forall w, zlen (stream w) < n -> exists e w', m w = (Err e, w').
End spec.

Section lemmas.
Context {P : Type} `{MysqlPacketLaws P}.

Lemma same_header_refl (w : wrapper P) : same_header w w.
Proof. by repeat split. Qed.

Lemma same_header_trans (w1 w2 w3 : wrapper P) :
  same_header w1 w2 -> same_header w2 w3 -> same_header w1 w3.
Proof.
  intros (? & ? & ? & ? & ? & ? & ?) (? & ? & ? & ? & ? & ? & ?).
  repeat split; congruence.
Qed.

Lemma step_to_trans (w1 w2 w3 : wrapper P) n m r1 r2 :
  step_to w1 n r1 w2 -> step_to w2 m r2 w3 -> step_to w1 (n + m) r2 w3.
Proof.
  intros (? & ? & ?) (? & ? & ?). split; [done|]. split; [lia|].
  by eapply same_header_trans.
Qed.

Lemma pk_rest_after (p p' : P) n :
  0 <= n -> pk_data p' = pk_data p -> pk_position p' = pk_position p + n ->
  pk_rest p' = drop (Z.to_nat n) (pk_rest p).
Proof.
  intros Hn Hd Hp. unfold pk_rest. rewrite Hd, Hp, drop_drop.
  pose proof (pk_position_range p). f_equal. lia.
Qed.

(** Reading within the stream delivers its next bytes. *)
Lemma read_stream w n :
  0 <= n <= zlen (stream w) ->
  exists w', read n w = (Ok (take (Z.to_nat n) (stream w)), w') /\
             step_to w n (drop (Z.to_nat n) (stream w)) w'.
Proof.
  intros Hn. unfold read, stream in *. rewrite zlen_app in Hn.
  pose proof (zlen_nonneg (data_buffer w)) as Hb.
  assert (forall (pre buf : bytes) k, 0 <= k <= zlen (pk_rest (packet w)) -> (pre ++ buf)%list = data_buffer w ->
    (buf = [] \/ k = 0) -> n = zlen pre + k ->
    exists w', match pk_read k (packet w) with
      | Ok (d, p') => (Ok (pre ++ d)%list, set_cursor w (read_bytes w + n) buf p')
      | Err e => (Err e, set_cursor w (read_bytes w + n) buf (packet w))
      end = (Ok (take (Z.to_nat n) (data_buffer w ++ pk_rest (packet w))%list), w') /\
      step_to w n (drop (Z.to_nat n) (data_buffer w ++ pk_rest (packet w))%list) w') as Hdel.
  { intros pre buf k Hk Hpre Hbuf Hnk.
    destruct (pk_read_enough k (packet w) Hk) as (p' & -> & Hd & Hpos).
    assert (Z.to_nat n = (length pre + Z.to_nat k)%nat) as Hnat by (unfold zlen in Hnk; lia).
    destruct Hbuf as [->| ->].
    - rewrite app_nil_r in Hpre. subst pre. eexists. split.
      + rewrite Hnat, take_app_add. done.
      + repeat split; try done. unfold stream; cbn.
        rewrite Hnat, drop_app_add. apply pk_rest_after; [lia|done|done].
    - replace (Z.to_nat n) with (length pre) by lia. rewrite <- Hpre, <- app_assoc.
      rewrite take_app_length, drop_app_length. cbn [Z.to_nat take]. rewrite app_nil_r.
      eexists; split; [done|]. repeat split; try done. unfold stream; cbn.
      f_equal. rewrite (pk_rest_after (packet w) p' 0) by (done || lia). done. }
  destruct (Z.ltb_spec 0 (zlen (data_buffer w))).
  - unfold slice_to, slice_from. destruct (Z.ltb_spec n 0); [lia|].
    destruct (Z.eqb_spec (zlen (take (Z.to_nat n) (data_buffer w))) n) as [E|E].
    + unfold zlen in E. rewrite length_take in E. eexists; split.
      * rewrite take_app_le by lia. done.
      * repeat split; try done. unfold stream; cbn. rewrite drop_app_le by lia. done.
    + unfold zlen in *. rewrite length_take in *.
      rewrite (take_ge (data_buffer w)) by lia. rewrite (drop_ge (data_buffer w)) by lia.
      apply Hdel; [lia|by rewrite app_nil_r|by left|lia].
  - assert (data_buffer w = []) as Hnil.
    { destruct (data_buffer w); [done|]. unfold zlen in *; cbn in *; lia. }
    rewrite Hnil in *. apply (Hdel [] [] n); [unfold zlen in *; cbn in *; lia|done|by left|].
    unfold zlen; cbn; lia.
Qed.

Lemma read_buffer n w : data_buffer w = [] -> data_buffer (snd (read n w)) = [].
Proof. intros Hb. unfold read. rewrite Hb. cbn. by destruct (pk_read n (packet w)) as [[??]|]. Qed.

(** Reading past the end, or a negative amount, raises. *)
Lemma read_short w n :
  n < 0 \/ zlen (stream w) < n -> exists w', read n w = (Err AssertionError, w').
Proof.
  intros Hn. unfold read, stream in *. rewrite zlen_app in Hn.
  pose proof (zlen_nonneg (data_buffer w)). pose proof (zlen_nonneg (pk_rest (packet w))).
  destruct (Z.ltb_spec 0 (zlen (data_buffer w))).
  - destruct (Z.eqb_spec (zlen (slice_to (data_buffer w) n)) n) as [E|E].
    + exfalso. unfold slice_to, zlen in *. rewrite length_take in E. lia.
    + rewrite pk_read_short; [by eexists|].
      assert (zlen (slice_to (data_buffer w) n) <= zlen (data_buffer w)).
      { unfold slice_to, zlen. rewrite length_take. lia. }
      pose proof (zlen_nonneg (slice_to (data_buffer w) n)). lia.
  - rewrite pk_read_short; [by eexists|]. lia.
Qed.

(** *** Composition *)

Lemma parses_ret {A} (a : A) : parses (P:=P) (mret a) [] a.
Proof.
  intros w rest Hb Hw. exists w. split; [done|]. split; [done|]. split; [done|].
  split; [unfold zlen; cbn; lia|apply same_header_refl].
Qed.

Lemma parses_bind {A B} (m : PM P A) (f : A -> PM P B) b1 b2 a b :
  parses m b1 a -> parses (f a) b2 b -> parses (mbind f m) (b1 ++ b2) b.
Proof.
  intros Hm Hf w rest Hb Hw. rewrite <- app_assoc in Hw.
  destruct (Hm w _ Hb Hw) as (w1 & E1 & B1 & S1). destruct (Hf w1 rest B1 (proj1 S1)) as (w2 & E2 & B2 & S2).
  exists w2. rewrite st_bind_eq, E1. split; [done|]. split; [done|]. rewrite zlen_app.
  by eapply step_to_trans.
Qed.

(** A reader followed by a pure step. *)
Lemma parses_bind_pure {A B} (m : PM P A) (f : A -> PM P B) bs a b :
  parses m bs a -> (forall w, f a w = (Ok b, w)) -> parses (mbind f m) bs b.
Proof.
  intros Hm Hf w rest Hb Hw. destruct (Hm w rest Hb Hw) as (w1 & E1 & S1).
  exists w1. by rewrite st_bind_eq, E1, Hf.
Qed.

Lemma parses_bind_get {A} (f : wrapper P -> PM P A) bs a :
  (forall w, parses (f w) bs a) -> parses (mbind f st_get) bs a.
Proof. intros Hf w rest Hb Hw. rewrite st_bind_eq. cbn. by apply Hf. Qed.

Lemma parses_read n bs : zlen bs = n -> parses (P:=P) (read n) bs bs.
Proof.
  intros <- w rest Hb Hw. pose proof (zlen_nonneg bs) as Hn.
  destruct (read_stream w (zlen bs)) as (w' & E & S').
  { rewrite Hw, zlen_app. pose proof (zlen_nonneg rest). lia. }
  exists w'. pose proof (read_buffer (zlen bs) w Hb) as Hb'. rewrite E in Hb'.
  unfold zlen in *. rewrite Hw, Nat2Z.id, take_app_length, drop_app_length in *. done.
Qed.

(** *** Fixed-width readers *)

Lemma parses_unpack n (k : nat) (bs : bytes) :
  length bs = k -> n = Z.of_nat k ->
  parses (P:=P) (b ← read n; st_lift (unpack_ule k b)) bs (le_decode bs).
Proof.
  intros Hl ->. eapply parses_bind_pure; [apply parses_read; unfold zlen; lia|].
  intros w. unfold st_lift, unpack_ule. by rewrite decide_True.
Qed.

Lemma parses_unpack_s n (k : nat) (bs : bytes) :
  length bs = k -> n = Z.of_nat k ->
  parses (P:=P) (b ← read n; st_lift (unpack_sle k b)) bs (to_signed (8 * Z.of_nat k) (le_decode bs)).
Proof.
  intros Hl ->. eapply parses_bind_pure; [apply parses_read; unfold zlen; lia|].
  intros w. unfold st_lift, unpack_sle, unpack_ule. by rewrite decide_True.
Qed.

(** [struct.unpack] readers on a buffer of the right size, value by value. *)
Lemma parses_lift {A} n (f : bytes -> result A) (bs : bytes) a :
  zlen bs = n -> f bs = Ok a -> parses (P:=P) (b ← read n; st_lift (f b)) bs a.
Proof.
  intros Hn Hf. eapply parses_bind_pure; [by apply parses_read|]. intros w.
  unfold st_lift. by rewrite Hf.
Qed.

Lemma parses_some (m : PM P Z) (bs : bytes) (z : Z) :
  parses m bs z -> parses (z ← m; mret (Some z)) bs (Some z).
Proof. intros Hm. by eapply parses_bind_pure. Qed.

(** Close [(Ok x, w) = (Ok y, w)] where [x = y] is arithmetic. *)
Ltac ok_eq :=
  unfold mret, ST_ret;
  match goal with |- (Ok ?x, _) = (Ok ?y, _) => replace x with y; [done|] end;
  change (2 ^ 8) with 256; change (2 ^ 16) with 65536; change (2 ^ 24) with 16777216;
  change (2 ^ 32) with 4294967296; lia.

Lemma parses_read_uint24 (bs : bytes) :
  length bs = 3%nat -> parses (P:=P) read_uint24 bs (le_decode bs).
Proof.
  intros Hl. unfold read_uint24. eapply parses_bind_pure; [apply parses_read; unfold zlen; lia|].
  destruct bs as [|a [|b [|c [|]]]]; try done. intros w. cbn [le_decode].
  unfold mbind, ST_bind, st_lift, unpack_bbb. rewrite !Z.shiftl_mul_pow2 by lia.
  ok_eq.
Qed.

Lemma parses_fields n ns (k : list Z -> PM P Z) (bs : bytes) fs z :
  zlen bs = n -> unpack_fields ns bs = Ok fs -> (forall w, k fs w = (Ok z, w)) ->
  parses (b ← read n; fs ← st_lift (unpack_fields ns b); k fs) bs z.
Proof.
  intros Hn Hf Hk. eapply parses_bind_pure; [by apply parses_read|].
  intros w. unfold mbind, ST_bind, st_lift. by rewrite Hf.
Qed.

Ltac fields_tac :=
  eapply parses_fields;
    [unfold zlen; lia|unfold unpack_fields; rewrite decide_True by done; done|].

Lemma parses_read_uint40 (bs : bytes) :
  length bs = 5%nat -> parses (P:=P) read_uint40 bs (le_decode bs).
Proof.
  intros Hl. unfold read_uint40. fields_tac. intros w.
  destruct bs as [|a [|b [|c [|d [|e [|]]]]]]; try done. cbn [le_decode take drop].
  rewrite Z.shiftl_mul_pow2 by lia. ok_eq.
Qed.

Lemma parses_read_uint48 (bs : bytes) :
  length bs = 6%nat -> parses (P:=P) read_uint48 bs (le_decode bs).
Proof.
  intros Hl. unfold read_uint48. fields_tac. intros w.
  destruct bs as [|a [|b [|c [|d [|e [|f [|]]]]]]]; try done. cbn [le_decode take drop].
  rewrite !Z.shiftl_mul_pow2 by lia. ok_eq.
Qed.

Lemma parses_read_uint56 (bs : bytes) :
  length bs = 7%nat -> parses (P:=P) read_uint56 bs (le_decode bs).
Proof.
  intros Hl. unfold read_uint56. fields_tac. intros w.
  destruct bs as [|a [|b [|c [|d [|e [|f [|g [|]]]]]]]]; try done. cbn [le_decode take drop].
  rewrite !Z.shiftl_mul_pow2 by lia. ok_eq.
Qed.

Lemma parses_read_uint_by_size size (bs : bytes) :
  1 <= size <= 8 -> zlen bs = size ->
  parses (P:=P) (read_uint_by_size size) bs (Some (le_decode bs)).
Proof.
  intros Hs Hl. unfold zlen in Hl. unfold read_uint_by_size.
  repeat (match goal with |- context [size =? ?k] => destruct (Z.eqb_spec size k) end;
    [apply parses_some|]); try lia.
  all: first [apply parses_read_uint24|apply parses_read_uint40|apply parses_read_uint48
             |apply parses_read_uint56|apply parses_unpack]; lia.
Qed.

Lemma int24_be_value (bs : bytes) :
  length bs = 3%nat -> bytes_ok bs ->
  exists a b c, unpack_bbb bs = Ok (a, b, c) /\
    sign24 (Z.lor (Z.lor (Z.shiftl a 16) (Z.shiftl b 8)) c) = to_signed 24 (be_decode bs).
Proof.
  intros Hl Hok. destruct bs as [|a [|b [|c [|]]]]; try done. exists a, b, c. split; [done|].
  pose proof (Forall_inv Hok) as Ha. pose proof (Forall_inv (Forall_inv_tail Hok)) as Hb.
  pose proof (Forall_inv (Forall_inv_tail (Forall_inv_tail Hok))) as Hc. unfold byte_ok in *.
  rewrite <- Z.lor_assoc. rewrite (Z.lor_comm (Z.shiftl b 8) c), (lor_shiftl_add c b 8) by (cbn; lia).
  rewrite Z.lor_comm, lor_shiftl_add; cycle 1; [lia| |].
  { rewrite Z.shiftl_mul_pow2 by lia. change (2 ^ 16) with 65536. change (2 ^ 8) with 256. lia. }
  rewrite !Z.shiftl_mul_pow2 by lia. unfold sign24, to_signed, be_decode. cbn [rev app le_decode].
  change (2 ^ (24 - 1)) with 0x800000. change (2 ^ 24) with 0x1000000.
  change (2 ^ 8) with 256. change (2 ^ 16) with 65536.
  destruct (Z.leb_spec 0x800000 (c + b * 256 + a * 65536)),
    (Z.ltb_spec (c + 256 * (b + 256 * (a + 256 * 0))) 0x800000); lia.
Qed.

Lemma parses_read_int24_be (bs : bytes) :
  length bs = 3%nat -> bytes_ok bs ->
  parses (P:=P) read_int24_be bs (to_signed 24 (be_decode bs)).
Proof.
  intros Hl Hok. unfold read_int24_be. eapply parses_bind_pure; [apply parses_read; unfold zlen; lia|].
  destruct (int24_be_value bs Hl Hok) as (a & b & c & E & Hv). intros w.
  unfold mbind, ST_bind, st_lift. by rewrite E, <- Hv.
Qed.

Lemma parses_read_int40_be (bs : bytes) :
  length bs = 5%nat -> parses (P:=P) read_int40_be bs (be_decode bs).
Proof.
  intros Hl. unfold read_int40_be. apply parses_lift; [unfold zlen; lia|].
  rewrite decide_True by done. destruct bs as [|a [|b [|c [|d [|e [|]]]]]]; try done.
  rewrite Z.shiftl_mul_pow2 by lia. unfold be_decode. cbn [rev app take drop le_decode].
  change (2 ^ 8) with 256. f_equal. lia.
Qed.
End lemmas.

(** *** The list-backed packet satisfies the interface *)

Lemma lp_at_le d n : (n <= length d)%nat -> exists p, lp_at d n = Some p /\ lp_data p = d /\ lp_pos p = n.
Proof.
  intros Hn. unfold lp_at. destruct (decide _) as [pf|Hf]; [by eexists|].
  destruct Hf. by apply bool_decide_eq_true_2.
Qed.

Lemma lp_at_gt d n : (length d < n)%nat -> lp_at d n = None.
Proof.
  intros Hn. unfold lp_at. destruct (decide _) as [pf|]; [|done].
  pose proof (bool_decide_eq_true_1 _ pf). lia.
Qed.

#[export] Instance list_packet_laws : MysqlPacketLaws list_packet.
Proof.
  assert (forall p : list_packet, (lp_pos p <= length (lp_data p))%nat) as Hle.
  { intros p. apply (bool_decide_eq_true_1 _ (lp_ok p)). }
  split.
  - intros p. cbn. specialize (Hle p). unfold zlen. lia.
  - intros n p Hn. cbn in *. unfold pk_rest, zlen in *. cbn in *. rewrite Nat2Z.id, length_drop in *.
    destruct (Z.ltb_spec n 0); [lia|].
    destruct (lp_at_le (lp_data p) (lp_pos p + Z.to_nat n)) as (p' & -> & Hd & Hp);
      [specialize (Hle p); lia|]. exists p'. split; [done|]. split; [done|lia].
  - intros n p Hn. cbn in *. unfold pk_rest, zlen in *. cbn in *. rewrite Nat2Z.id, length_drop in *.
    destruct (Z.ltb_spec n 0); [done|]. rewrite lp_at_gt; [done|lia].
  - intros n p Hn. cbn in *. unfold zlen in *. destruct (Z.ltb_spec (Z.of_nat (lp_pos p) + n) 0); [lia|].
    destruct (lp_at_le (lp_data p) (Z.to_nat (Z.of_nat (lp_pos p) + n))) as (p' & -> & Hd & Hp); [lia|].
    exists p'. split; [done|]. split; [done|lia].
  - intros n p Hn. cbn in *. unfold zlen in *. destruct (Z.ltb_spec n 0); [lia|].
    destruct (lp_at_le (lp_data p) (Z.to_nat n)) as (p' & -> & Hd & Hp); [lia|].
    exists p'. split; [done|]. split; [done|lia].
Qed.

(** A wrapper positioned at the start of some bytes, for concrete runs. *)
Definition wrap_bytes (bs : bytes) : wrapper list_packet := mkWrapper 0 [] (lp_start bs) 0 0 0 0 0 0.

Lemma stream_wrap_bytes bs : stream (wrap_bytes bs) = bs.
Proof. done. Qed.

(** ** Properties *)

Section claims.
Context {P : Type} `{MysqlPacketLaws P}.

(** What is pushed back is read after the bytes already pushed back. *)
Lemma unread_stream (bs : bytes) (w : wrapper P) :
  exists w', unread bs w = (Ok tt, w') /\ data_buffer w' = (data_buffer w ++ bs)%list /\
    (data_buffer w = [] -> step_to w (- zlen bs) (bs ++ stream w)%list w').
Proof.
  eexists. split; [done|]. split; [done|]. intros Hb.
  unfold step_to, stream, same_header. cbn. rewrite Hb. cbn. repeat split; lia.
Qed.

(** [advance] skips what [read] would have returned. *)
Lemma advance_stream n (w : wrapper P) :
  0 <= n <= zlen (stream w) ->
  exists w', advance n w = (Ok tt, w') /\ step_to w n (drop (Z.to_nat n) (stream w)) w'.
Proof.
  intros Hn. unfold advance. unfold stream in Hn. rewrite zlen_app in Hn.
  pose proof (pk_position_range (packet w)) as Hpr.
  assert (zlen (pk_rest (packet w)) = zlen (pk_data (packet w)) - pk_position (packet w)) as Hrl.
  { unfold pk_rest, zlen in *. rewrite length_drop. lia. }
  pose proof (zlen_nonneg (data_buffer w)).
  assert (forall k (buf : bytes), 0 <= k <= zlen (pk_rest (packet w)) ->
    buf = [] -> n = zlen (data_buffer w) + k ->
    exists w', match pk_advance k (packet w) with
      | Ok p' => (Ok tt, set_cursor w (read_bytes w + n) buf p')
      | Err e => (Err e, set_cursor w (read_bytes w + n) buf (packet w))
      end = (Ok tt, w') /\ step_to w n (drop (Z.to_nat n) (stream w)) w') as Hgo.
  { intros k buf Hk -> Hnk. destruct (pk_advance_enough k (packet w)) as (p' & -> & Hd & Hp); [lia|].
    eexists. split; [done|]. unfold step_to, same_header, stream; cbn. repeat split; try done.
    rewrite (pk_rest_after (packet w) p' k) by (done || lia).
    replace (Z.to_nat n) with (length (data_buffer w) + Z.to_nat k)%nat by (unfold zlen in *; lia).
    by rewrite drop_app_add. }
  destruct (Z.ltb_spec 0 (zlen (data_buffer w))).
  - unfold slice_from. destruct (Z.ltb_spec n 0); [lia|].
    destruct (Z.ltb_spec (zlen (data_buffer w)) n).
    + apply Hgo; [lia|apply drop_ge; unfold zlen in *; lia|lia].
    + eexists. split; [done|]. unfold step_to, same_header, stream; cbn. repeat split; try done.
      rewrite drop_app_le; [done|unfold zlen in *; lia].
  - apply Hgo; [lia| |lia]. destruct (data_buffer w); [done|]. unfold zlen in *; cbn in *; lia.
Qed.

Lemma parses_advance n (bs : bytes) : zlen bs = n -> parses (P:=P) (advance n) bs tt.
Proof.
  intros <- w rest Hb Hw. pose proof (zlen_nonneg bs) as Hn.
  destruct (advance_stream (zlen bs) w) as (w' & E & S').
  { rewrite Hw, zlen_app. pose proof (zlen_nonneg rest). lia. }
  exists w'. split; [done|]. split.
  - unfold advance in E. rewrite Hb in E. cbn in E. destruct (pk_advance (zlen bs) (packet w)); [|done].
    injection E as <-. done.
  - unfold zlen in *. rewrite Hw, Nat2Z.id, drop_app_length in S'. done.
Qed.

(** The length-coded integers of the MySQL protocol that fit three bytes, as
    a server writes them. *)
Definition length_coded (z : Z) : bytes :=
  if z <? 251 then [z]
  else if z <? 2 ^ 16 then 252 :: le_encode 2 z
  else 253 :: le_encode 3 z.

Lemma parses_lift_ok {A B} (r : result A) (f : A -> PM P B) a (bs : bytes) b :
  r = Ok a -> parses (f a) bs b -> parses (mbind f (st_lift r)) bs b.
Proof. intros -> Hf w rest Hb Hw. by apply Hf. Qed.

(** Reading one byte and continuing with it. *)
Lemma parses_byte {A} (f : Z -> PM P A) (b : Z) (bs : bytes) (a : A) :
  parses (f b) bs a -> parses (d ← read 1; c ← st_lift (unpack_ule 1 d); f c) (b :: bs) a.
Proof.
  intros Hf. apply (parses_bind (read 1) _ [b] bs [b] a); [by apply parses_read|].
  eapply parses_lift_ok; [|done]. unfold unpack_ule. rewrite decide_True by done.
  f_equal. cbn [le_decode]. lia.
Qed.

Lemma unpack_int24_bytes a b c : unpack_int24 [a; b; c] = Ok (a + 256 * b + 65536 * c).
Proof.
  transitivity (Ok (a + Z.shiftl b 8 + Z.shiftl c 16)); [done|].
  rewrite !Z.shiftl_mul_pow2 by lia. f_equal. lia.
Qed.

Lemma parses_length_coded z :
  0 <= z < 2 ^ 24 -> parses (P:=P) read_length_coded_binary (length_coded z) (Some z).
Proof.
  intros Hz. unfold length_coded, read_length_coded_binary, NULL_COLUMN, UNSIGNED_CHAR_COLUMN.
  destruct (Z.ltb_spec z 251).
  - apply parses_byte. destruct (Z.eqb_spec z 251); [lia|].
    destruct (Z.ltb_spec z 251); [|lia]. apply parses_ret.
  - destruct (Z.ltb_spec z (2 ^ 16)); apply parses_byte; cbn [Z.eqb Z.ltb Z.compare];
      (eapply parses_lift; [apply zlen_le_encode|]).
    + unfold unpack_uint16, slice_to. cbn [Z.ltb Z.compare]. rewrite take_ge by (rewrite le_encode_length; done).
      rewrite unpack_ule_encode by (cbn; lia). done.
    + cbn [le_encode]. rewrite unpack_int24_bytes. unfold fmap, result_fmap. do 2 f_equal.
      pose proof (le_decode_encode 3 z ltac:(cbn; lia)) as E. cbn [le_encode le_decode] in E. lia.
Qed.

(** A length written in base 128, least significant group first, in [n + 1]
    groups. *)
Fixpoint base128 (n : nat) (z : Z) : bytes :=
  match n with
  | O => [z mod 128]
  | S n' => (128 + z mod 128) :: base128 n' (z / 128)
  end.

Lemma base128_length n z : length (base128 n z) = S n.
Proof. revert z; induction n; intros z; cbn; auto. Qed.

Lemma land_127 b : byte_ok b -> Z.land b 0x7F = b mod 128.
Proof. intros _. apply (Z.land_ones b 7). lia. Qed.

Lemma land_128 b : byte_ok b -> (Z.land b 0x80 =? 0) = (b <? 128).
Proof.
  intros Hb. apply (byte_forall (fun b => Bool.eqb (Z.land b 0x80 =? 0) (b <? 128))) in Hb;
    [|vm_compute; reflexivity]. by apply Bool.eqb_prop.
Qed.

Lemma parses_variable_length n fuel z acc bits :
  (n < fuel)%nat -> 0 <= z < 128 ^ (Z.of_nat n + 1) -> 0 <= bits -> 0 <= acc < 2 ^ bits ->
  parses (P:=P) (variable_length fuel acc bits) (base128 n z) (acc + z * 2 ^ bits).
Proof.
  revert fuel z acc bits. induction n as [|n IH]; intros [|fuel] z acc bits Hf Hz Hb Ha; try lia;
    cbn [variable_length base128]; apply parses_byte;
    pose proof (Z.mod_pos_bound z 128 ltac:(lia)) as Hm;
    rewrite land_128, land_127 by (unfold byte_ok; lia).
  - change (128 ^ (Z.of_nat 0 + 1)) with 128 in Hz. rewrite !(Z.mod_small z 128) by lia.
    destruct (Z.ltb_spec z 128); [|lia]. rewrite lor_shiftl_add, Z.shiftl_mul_pow2 by lia. apply parses_ret.
  - destruct (Z.ltb_spec (128 + z mod 128) 128); [lia|].
    replace ((128 + z mod 128) mod 128) with (z mod 128)
      by (rewrite Z.add_mod, Z.mod_same, Z.add_0_l, !Z.mod_mod by lia; done).
    rewrite lor_shiftl_add, Z.shiftl_mul_pow2 by lia.
    replace (acc + z * 2 ^ bits) with (acc + z mod 128 * 2 ^ bits + (z / 128) * 2 ^ (bits + 7)).
    + apply IH; [lia| |lia|].
      * replace (Z.of_nat (S n) + 1) with (1 + (Z.of_nat n + 1)) in Hz by lia.
        rewrite Z.pow_add_r in Hz by lia. change (128 ^ 1) with 128 in Hz.
        split; [apply Z.div_pos; lia|apply Z.div_lt_upper_bound; lia].
      * rewrite Z.pow_add_r by lia. change (2 ^ 7) with 128. nia.
    + rewrite Z.pow_add_r by lia. change (2 ^ 7) with 128. rewrite (Z.div_mod z 128) at 3 by lia. ring.
Qed.

(** The fuel of the byte loops exceeds the bytes that can be read. *)
Lemma read_fuel_stream (w : wrapper P) : (length (stream w) < read_fuel w)%nat.
Proof. unfold stream, read_fuel, pk_rest. rewrite length_app, length_drop. lia. Qed.

Lemma parses_get_fuel {A} (f : nat -> PM P A) (bs : bytes) a :
  (forall fuel, (length bs < fuel)%nat -> parses (f fuel) bs a) ->
  parses (w ← st_get; f (read_fuel w)) bs a.
Proof.
  intros Hf w rest Hb Hw. rewrite st_bind_eq. cbn. apply Hf; [|done|done].
  pose proof (read_fuel_stream w) as Hl. rewrite Hw, length_app in Hl. lia.
Qed.

Lemma parses_variable_string n (s : bytes) :
  zlen s < 128 ^ (Z.of_nat n + 1) ->
  parses (P:=P) read_variable_length_string (base128 n (zlen s) ++ s) s.
Proof.
  intros Hs. apply (parses_get_fuel (fun f => n ← variable_length f 0 0; read n)).
  intros fuel Hf. rewrite length_app, base128_length in Hf.
  eapply parses_bind; [apply parses_variable_length; cbn; pose proof (zlen_nonneg s); lia|].
  apply parses_read. cbn. lia.
Qed.

Lemma parses_read_string_loop (s acc : bytes) fuel :
  (length s < fuel)%nat -> 0 ∉ s -> parses (P:=P) (read_string_loop fuel acc) (s ++ [0]) (acc ++ s).
Proof.
  revert acc fuel. induction s as [|b s IH]; intros acc [|fuel] Hf Hs; cbn in Hf; try lia;
    cbn [read_string_loop app].
  - apply (parses_bind (read 1) _ [0] [] [0]); [by apply parses_read|].
    rewrite decide_True by done. rewrite app_nil_r. apply parses_ret.
  - apply not_elem_of_cons in Hs as [Hb Hs].
    apply (parses_bind (read 1) _ [b] (s ++ [0]) [b]); [by apply parses_read|].
    rewrite decide_False by congruence. replace (acc ++ b :: s)%list with ((acc ++ [b]) ++ s)%list.
    + apply IH; [lia|done].
    + by rewrite <- app_assoc.
Qed.

(** *** Out of fuel is unreachable *)

Definition out_of_fuel : exn := PyException "out of fuel".

(** Either the stream is empty and [read 1] raises, or it delivers a byte. *)
Lemma read_one (w : wrapper P) :
  (exists w', read 1 w = (Err AssertionError, w')) \/
  (exists b w', read 1 w = (Ok [b], w') /\ length (stream w) = S (length (stream w'))).
Proof.
  destruct (stream w) as [|b rest] eqn:Hw.
  - left. apply read_short. right. by rewrite Hw.
  - right. destruct (read_stream w 1) as (w' & E & Hs & _); [rewrite Hw, zlen_cons; pose proof (zlen_nonneg rest); lia|].
    rewrite Hw in E, Hs. change (take (Z.to_nat 1) (b :: rest)) with ([b] : bytes) in E.
    change (drop (Z.to_nat 1) (b :: rest)) with rest in Hs.
    exists b, w'. split; [done|]. by rewrite Hs.
Qed.

Lemma read_not_fuel n (w : wrapper P) : fst (read n w) <> Err out_of_fuel.
Proof.
  destruct (decide (0 <= n <= zlen (stream w))) as [Hn|Hn].
  - destruct (read_stream w n Hn) as (w' & -> & _). done.
  - destruct (read_short w n) as [w' ->]; [lia|done].
Qed.

Lemma variable_length_fuel fuel acc bits (w : wrapper P) :
  (length (stream w) < fuel)%nat -> fst (variable_length fuel acc bits w) <> Err out_of_fuel.
Proof.
  revert acc bits w. induction fuel as [|fuel IH]; intros acc bits w Hf; [lia|].
  cbn [variable_length]. rewrite st_bind_eq.
  destruct (read_one w) as [(w' & ->)|(b & w' & -> & Hl)]; [done|].
  rewrite st_bind_eq. unfold st_lift, unpack_ule. rewrite decide_True by done.
  destruct (_ =? 0); [done|]. apply IH. lia.
Qed.

Lemma read_string_fuel fuel acc (w : wrapper P) :
  (length (stream w) < fuel)%nat -> fst (read_string_loop fuel acc w) <> Err out_of_fuel.
Proof.
  revert acc w. induction fuel as [|fuel IH]; intros acc w Hf; [lia|].
  cbn [read_string_loop]. rewrite st_bind_eq.
  destruct (read_one w) as [(w' & ->)|(b & w' & -> & Hl)]; [done|].
  case_decide; [done|]. apply IH. lia.
Qed.

(** C35. The cursor of [BinLogPacketWrapper]: with [n] bytes available (in the
    push-back buffer and the wrapped packet together) [read] returns exactly
    the next [n] and [advance] skips them, both counting [n] and leaving the
    header fields alone; asking [read] for more, or for a negative amount,
    raises; and bytes pushed back with [unread] on an empty buffer are the
    next ones to be read. *)
Theorem packet_cursor_correct (w : wrapper P) (n : Z) (bs : bytes) :
  (0 <= n <= zlen (stream w) ->
     (exists w', read n w = (Ok (take (Z.to_nat n) (stream w)), w') /\
                 step_to w n (drop (Z.to_nat n) (stream w)) w') /\
     (exists w', advance n w = (Ok tt, w') /\ step_to w n (drop (Z.to_nat n) (stream w)) w')) /\
  (n < 0 \/ zlen (stream w) < n -> exists w', read n w = (Err AssertionError, w')) /\
  (data_buffer w = [] -> exists w', unread bs w = (Ok tt, w') /\ step_to w (- zlen bs) (bs ++ stream w) w').
Proof.
  split; [|split].
  - intros Hn. split; [by apply read_stream|by apply advance_stream].
  - apply read_short.
  - intros Hb. destruct (unread_stream bs w) as (w' & ? & ? & Hs). eauto.
Qed.

(** [read_uint_by_size] decodes the little-endian unsigned integer of each
    size from 1 to 8 bytes, consuming exactly those bytes, and for any other
    size consumes nothing and returns [None]. *)
Theorem read_uint_by_size_correct (size : Z) (bs : bytes) :
  (1 <= size <= 8 -> zlen bs = size ->
     parses (P:=P) (read_uint_by_size size) bs (Some (le_decode bs))) /\
  (~ 1 <= size <= 8 -> parses (P:=P) (read_uint_by_size size) [] None).
Proof.
  split; [apply parses_read_uint_by_size|]. intros Hs. unfold read_uint_by_size.
  repeat (match goal with |- context [size =? ?k] => destruct (Z.eqb_spec size k) end; [lia|]).
  apply parses_ret.
Qed.

(** [read_int_be_by_size] decodes big-endian two's complement integers of
    1 to 4 bytes; 5 bytes are decoded unsigned; the format used for 8 bytes
    is four bytes wide, so that size always raises [struct.error]. *)
Theorem read_int_be_by_size_correct (size : Z) (bs : bytes) :
  zlen bs = size -> bytes_ok bs ->
  (1 <= size <= 4 ->
     parses (P:=P) (read_int_be_by_size size) bs (Some (to_signed (8 * size) (be_decode bs)))) /\
  (size = 5 -> parses (P:=P) (read_int_be_by_size size) bs (Some (be_decode bs))) /\
  (size = 8 -> forall (w : wrapper P) rest, data_buffer w = [] -> stream w = bs ++ rest ->
     fst (read_int_be_by_size size w) = Err StructError).
Proof.
  intros Hl Hok. assert (Z.of_nat (length bs) = size) as Hlen by done. unfold read_int_be_by_size.
  split; [|split].
  - intros Hs. assert (size = 1 \/ size = 2 \/ size = 3 \/ size = 4) as [E|[E|[E|E]]] by lia;
      rewrite E in *; cbn [Z.eqb Pos.eqb];
      first [apply (parses_lift _ (fun b => Some <$> unpack_sbe _ b) bs _ Hl);
             unfold unpack_sbe, unpack_ube; rewrite decide_True by lia; done
            |apply parses_some, parses_read_int24_be; [lia|done]].
  - intros E. rewrite E in *. cbn [Z.eqb Pos.eqb]. apply parses_some, parses_read_int40_be. lia.
  - intros E w rest Hb Hw. rewrite E in *. cbn [Z.eqb Pos.eqb].
    destruct (parses_read 8 bs Hl w rest Hb Hw) as (w' & Er & _). rewrite st_bind_eq, Er.
    unfold st_lift, unpack_sbe, unpack_ube. rewrite decide_False by lia. done.
Qed.

(** C36. Length-coded integers and the variable-length and NUL-terminated
    strings read back what a server writes: a length below 2^24 in the
    protocol's length coding, a string preceded by its length in base 128 (in
    any number of groups large enough), a string without NUL bytes followed
    by a NUL. *)
Theorem packet_strings_roundtrip (z : Z) (n : nat) (s t : bytes) :
  0 <= z < 2 ^ 24 -> zlen s < 128 ^ (Z.of_nat n + 1) -> 0 ∉ t ->
  parses (P:=P) read_length_coded_binary (length_coded z) (Some z) /\
  parses (P:=P) read_variable_length_string (base128 n (zlen s) ++ s) s /\
  parses (P:=P) read_string (t ++ [0]) t.
Proof.
  intros Hz Hs Ht. split; [by apply parses_length_coded|]. split.
  - by apply parses_variable_string.
  - apply (parses_get_fuel (fun f => read_string_loop f [])). intros fuel Hf. rewrite length_app in Hf.
    apply (parses_read_string_loop t []); [lia|done].
Qed.

(** The two byte loops terminate on every packet: [read_string] and
    [read_variable_length_string] return or raise within the fuel their
    models are given, whatever bytes are left. *)
Theorem packet_loops_terminate (w : wrapper P) :
  fst (read_string w) <> Err out_of_fuel /\ fst (read_variable_length_string w) <> Err out_of_fuel.
Proof.
  pose proof (read_fuel_stream w) as Hf. split.
  - by apply (read_string_fuel (read_fuel w) [] w).
  - change (fst (mbind read (variable_length (read_fuel w) 0 0) w) <> Err out_of_fuel). rewrite st_bind_eq.
    pose proof (variable_length_fuel (read_fuel w) 0 0 w Hf) as Hv.
    destruct (variable_length (read_fuel w) 0 0 w) as [[k|e] w']; cbn in *; [apply read_not_fuel|congruence].
Qed.
End claims.

(** *** Witnesses *)

Lemma read_int_be_by_size_correct_witness :
  fst (read_int_be_by_size 3 (wrap_bytes [255; 255; 254; 7])) = Ok (Some (-2)) /\
  fst (read_int_be_by_size 8 (wrap_bytes [1; 2; 3; 4; 5; 6; 7; 8])) = Err StructError.
Proof.
  split.
  - destruct (proj1 (read_int_be_by_size_correct (P:=list_packet) 3 [255; 255; 254] eq_refl
      ltac:(repeat constructor; lia)) ltac:(lia) (wrap_bytes [255; 255; 254; 7]) [7] eq_refl eq_refl) as (w' & E & _).
    rewrite E. reflexivity.
  - apply (proj2 (proj2 (read_int_be_by_size_correct (P:=list_packet) 8 [1; 2; 3; 4; 5; 6; 7; 8] eq_refl
      ltac:(repeat constructor; lia))) eq_refl (wrap_bytes [1; 2; 3; 4; 5; 6; 7; 8]) [] eq_refl eq_refl).
Defined.

Lemma packet_strings_roundtrip_witness :
  length_coded 1000 = [252; 232; 3] /\ base128 1 3 = [131; 0] /\
  parses (P:=list_packet) read_length_coded_binary [252; 232; 3] (Some 1000) /\
  parses (P:=list_packet) read_variable_length_string [131; 0; 7; 8; 9] [7; 8; 9] /\
  parses (P:=list_packet) read_string [97; 98; 0] [97; 98].
Proof.
  split; [reflexivity|]. split; [reflexivity|].
  apply (packet_strings_roundtrip (P:=list_packet) 1000 1 [7; 8; 9] [97; 98]);
    [lia|vm_compute; reflexivity|apply (bool_decide_unpack _); vm_compute; exact I].
Defined.

Lemma packet_cursor_correct_witness :
  fst (read 2 (wrap_bytes [1; 2; 3])) = Ok [1; 2] /\ zlen (stream (wrap_bytes [1; 2; 3])) = 3.
Proof.
  split; [|reflexivity].
  destruct (proj1 (proj1 (packet_cursor_correct (P:=list_packet) (wrap_bytes [1; 2; 3]) 2 [])
    ltac:(vm_compute; split; discriminate))) as (w' & E & _).
  rewrite E. reflexivity.
Defined.

Lemma read_uint_by_size_correct_witness :
  fst (read_uint_by_size 5 (wrap_bytes [1; 0; 0; 0; 1; 9])) = Ok (Some 4294967297).
Proof.
  pose proof (proj1 (read_uint_by_size_correct (P:=list_packet) 5 [1; 0; 0; 0; 1]) ltac:(lia) eq_refl) as Hp.
  destruct (Hp (wrap_bytes [1; 0; 0; 0; 1; 9]) [9] eq_refl eq_refl) as (w' & E & _).
  rewrite E. reflexivity.
Defined.

Lemma packet_loops_terminate_witness :
  fst (read_string (wrap_bytes [1; 2; 3])) <> Err out_of_fuel.
Proof. apply (packet_loops_terminate (P:=list_packet) (wrap_bytes [1; 2; 3])). Defined.

(** A length-coded integer of eight bytes raises: neither the wrapper nor
    PyMySQL's packet has [unpack_int64]. *)
Example length_coded_64_raises :
  fst (read_length_coded_binary (wrap_bytes (254 :: le_encode 8 (2 ^ 24)))) = Err AttributeError.
Proof. reflexivity. Qed.

(** Bytes pushed back while the buffer is not empty are read after the ones
    already there. *)
Example unread_is_fifo :
  fst ((unread [1] ;; unread [2] ;; read 2) (wrap_bytes [9])) = Ok [1; 2].
Proof. reflexivity. Qed.
