(* ===== verification/Values.v ===== *)
(** * Values of a row

    The Python objects the decoders produce and the SQL writer consumes, and
    the constructors of the standard library that may refuse their arguments:
    [datetime.date], [datetime.datetime], [datetime.time],
    [datetime.timedelta] and [decimal.Decimal]. *)

From stdpp Require Import base list strings.
From Stdlib Require Import ZArith Lia Ascii.
From S2P Require Import Prelude PyBytes PyStr.
Open Scope string_scope.
Open Scope Z_scope.

(** A float is its IEEE 754 binary64 bit pattern; a [Decimal] its sign,
    coefficient and exponent; a [timedelta] a number of microseconds; a [set]
    of strings the list of its elements, without repetitions; [VJsonDiff] is
    a [JsonDiff] object, with the number of its operation. *)
Inductive pyval :=
  | VNone
  | VBool (b : bool)
  | VInt (z : Z)
  | VFloat (bits : Z)
  | VStr (s : string)
  | VBytes (bs : bytes)
  | VDecimal (neg : bool) (coeff exp : Z)
  | VDate (year month day : Z)
  | VDatetime (year month day hour minute second us : Z)
  | VTime (hour minute second us : Z)
  | VTimedelta (us : Z)
  | VSet (l : list string)
  | VList (l : list pyval)
  | VDict (d : list (bytes * pyval))
  | VJsonDiff (op : Z) (path : bytes) (v : pyval).

(** ** Dates *)

Definition is_leap (y : Z) : bool := (y mod 4 =? 0) && (negb (y mod 100 =? 0) || (y mod 400 =? 0)).

Definition days_in_month (y m : Z) : Z :=
  if m =? 2 then if is_leap y then 29 else 28
  else if bool_decide (m ∈ [4; 6; 9; 11]) then 30 else 31.

Definition between (lo x hi : Z) : bool := (lo <=? x) && (x <=? hi).

Definition date_ok (y m d : Z) : bool :=
  between 1 y 9999 && between 1 m 12 && between 1 d (days_in_month y m).

Definition time_ok (h mi s us : Z) : bool :=
  between 0 h 23 && between 0 mi 59 && between 0 s 59 && between 0 us 999999.

(** [datetime.date(...)], [datetime.datetime(...)], [datetime.time(...)] *)
Definition mk_date (y m d : Z) : result pyval :=
  if date_ok y m d then Ok (VDate y m d) else Err ValueError.
Definition mk_datetime (y m d h mi s us : Z) : result pyval :=
  if date_ok y m d && time_ok h mi s us then Ok (VDatetime y m d h mi s us) else Err ValueError.
Definition mk_time (h mi s us : Z) : result pyval :=
  if time_ok h mi s us then Ok (VTime h mi s us) else Err ValueError.

(** [datetime.datetime.utcfromtimestamp(t)]: the proleptic Gregorian date of a
    number of days since 1970-01-01, in eras of 400 years that start on
    March 1st. *)
Definition civil_from_days (days : Z) : Z * Z * Z :=
  let z := days + 719468 in
  let era := z / 146097 in
  let doe := z mod 146097 in
  let yoe := (doe - doe / 1460 + doe / 36524 - doe / 146096) / 365 in
  let doy := doe - (365 * yoe + yoe / 4 - yoe / 100) in
  let mp := (5 * doy + 2) / 153 in
  let d := doy - (153 * mp + 2) / 5 + 1 in
  let m := if mp <? 10 then mp + 3 else mp - 9 in
  let y := yoe + era * 400 in
  ((if m <=? 2 then y + 1 else y), m, d).

Definition utcfromtimestamp (t : Z) : result pyval :=
  let '(y, m, d) := civil_from_days (t / 86400) in
  let s := t mod 86400 in
  mk_datetime y m d (s / 3600) (s mod 3600 / 60) (s mod 60) 0.

Example utc_epoch : utcfromtimestamp 0 = Ok (VDatetime 1970 1 1 0 0 0 0).
Proof. reflexivity. Qed.
Example utc_leap : utcfromtimestamp 951782400 = Ok (VDatetime 2000 2 29 0 0 0 0).
Proof. reflexivity. Qed.
Example utc_before : utcfromtimestamp (-1) = Ok (VDatetime 1969 12 31 23 59 59 0).
Proof. reflexivity. Qed.
Example utc_max : utcfromtimestamp 2147483647 = Ok (VDatetime 2038 1 19 3 14 7 0).
Proof. reflexivity. Qed.

(** [datetime.timedelta(hours=h, minutes=mi, seconds=s, microseconds=us)] *)
Definition mk_timedelta (h mi s us : Z) : pyval :=
  VTimedelta (((h * 60 + mi) * 60 + s) * 1000000 + us).

(** ** [decimal.Decimal(text)]

    An optional sign and digits with at most one point; the coefficient is
    the digits without the point. *)
Definition decimal_of_str (s : string) : result pyval :=
  let '(neg, body) := match s with
    | String c s' => if decide (c = "-"%char) then (true, s') else (false, s)
    | EmptyString => (false, s)
    end in
  match split_on "." body with
  | [i] => if str_forallb is_digit i && negb (bool_decide (i = ""))
           then Ok (VDecimal neg (digits_value 0 i) 0) else Err InvalidOperation
  | [i; f] => if str_forallb is_digit i && str_forallb is_digit f && negb (bool_decide (i ++ f = ""))
              then Ok (VDecimal neg (digits_value 0 (i ++ f)) (- Z.of_nat (String.length f)))
              else Err InvalidOperation
  | _ => Err InvalidOperation
  end.

(** ** Floating point

    [struct.unpack("<f")] widens binary32 to binary64, which is exact. *)
Definition f32_to_f64 (b : Z) : Z :=
  let s := Z.shiftr b 31 in
  let e := Z.land (Z.shiftr b 23) 0xFF in
  let m := Z.land b 0x7FFFFF in
  let sign := Z.shiftl s 63 in
  if e =? 0xFF then Z.lor sign (Z.lor (Z.shiftl 0x7FF 52) (Z.shiftl m 29))
  else if e =? 0 then
    if m =? 0 then sign
    else let k := Z.log2 m in
         Z.lor sign (Z.lor (Z.shiftl (k + 874) 52) (Z.shiftl (m - 2 ^ k) (52 - k)))
  else Z.lor sign (Z.lor (Z.shiftl (e + 896) 52) (Z.shiftl m 29)).

Example f32_one : f32_to_f64 0x3F800000 = 0x3FF0000000000000.
Proof. reflexivity. Qed.
Example f32_tenth : f32_to_f64 0xBDCCCCCD = 0xBFB99999A0000000.
Proof. reflexivity. Qed.
Example f32_denormal : f32_to_f64 1 = 0x36A0000000000000.
Proof. reflexivity. Qed.

(** A well-formed value: dates and times are in the range their constructors
    accept, bytes are bytes. *)
Fixpoint val_ok (v : pyval) : Prop :=
  match v with
  | VNone | VBool _ | VInt _ | VStr _ | VTimedelta _ | VJsonDiff _ _ _ => True
  | VFloat b => 0 <= b < 2 ^ 64
  | VBytes bs => bytes_ok bs
  | VDecimal _ c _ => 0 <= c
  | VDate y m d => date_ok y m d = true
  | VDatetime y m d h mi s us => date_ok y m d && time_ok h mi s us = true
  | VTime h mi s us => time_ok h mi s us = true
  | VSet l => NoDup l
  | VList l => (fix go l := match l with [] => True | v :: l' => val_ok v /\ go l' end) l
  | VDict d => (fix go d := match d with [] => True | (k, v) :: d' => bytes_ok k /\ val_ok v /\ go d' end) d
  end.

(** Induction on values that reaches inside lists and dictionaries. *)
Section pyval_ind.
Context (Q : pyval -> Prop).
Hypothesis Hatom : forall v, match v with VList _ | VDict _ => True | _ => Q v end.
Hypothesis Hlist : forall l, Forall Q l -> Q (VList l).
Hypothesis Hdict : forall d, Forall Q d.*2 -> Q (VDict d).

Fixpoint pyval_nested_ind (v : pyval) : Q v :=
  match v with
  | VList l => Hlist l ((fix go l : Forall Q l := match l with
      | [] => Forall_nil_2 _
      | v :: l' => Forall_cons_2 _ _ _ (pyval_nested_ind v) (go l')
      end) l)
  | VDict d => Hdict d ((fix go (d : list (bytes * pyval)) : Forall Q d.*2 := match d with
      | [] => Forall_nil_2 _
      | (_, v) :: d' => Forall_cons_2 _ _ _ (pyval_nested_ind v) (go d')
      end) d)
  | v => Hatom v
  end.
End pyval_ind.
