(* ===== verification/Bitmap.v ===== *)
(** * Column bitmaps

    [pymysqlreplication/bitmap.py]: the population count by table lookup and
    the bit test, with their specification by [Z.testbit]. *)

From stdpp Require Import base list.
From Stdlib Require Import ZArith Lia.
From S2P Require Import Prelude PyBytes.
Open Scope Z_scope.

Definition bitCountInByte : list Z := [
  0; 1; 1; 2; 1; 2; 2; 3; 1; 2; 2; 3; 2; 3; 3; 4;
  1; 2; 2; 3; 2; 3; 3; 4; 2; 3; 3; 4; 3; 4; 4; 5;
  1; 2; 2; 3; 2; 3; 3; 4; 2; 3; 3; 4; 3; 4; 4; 5;
  2; 3; 3; 4; 3; 4; 4; 5; 3; 4; 4; 5; 4; 5; 5; 6;
  1; 2; 2; 3; 2; 3; 3; 4; 2; 3; 3; 4; 3; 4; 4; 5;
  2; 3; 3; 4; 3; 4; 4; 5; 3; 4; 4; 5; 4; 5; 5; 6;
  2; 3; 3; 4; 3; 4; 4; 5; 3; 4; 4; 5; 4; 5; 5; 6;
  3; 4; 4; 5; 4; 5; 5; 6; 4; 5; 5; 6; 5; 6; 6; 7;
  1; 2; 2; 3; 2; 3; 3; 4; 2; 3; 3; 4; 3; 4; 4; 5;
  2; 3; 3; 4; 3; 4; 4; 5; 3; 4; 4; 5; 4; 5; 5; 6;
  2; 3; 3; 4; 3; 4; 4; 5; 3; 4; 4; 5; 4; 5; 5; 6;
  3; 4; 4; 5; 4; 5; 5; 6; 4; 5; 5; 6; 5; 6; 6; 7;
  2; 3; 3; 4; 3; 4; 4; 5; 3; 4; 4; 5; 4; 5; 5; 6;
  3; 4; 4; 5; 4; 5; 5; 6; 4; 5; 5; 6; 5; 6; 6; 7;
  3; 4; 4; 5; 4; 5; 5; 6; 4; 5; 5; 6; 5; 6; 6; 7;
  4; 5; 5; 6; 5; 6; 6; 7; 5; 6; 6; 7; 6; 7; 7; 8 ].

Definition BitCount (bitmap : bytes) : result Z :=
  foldM_result (fun n bit => c ← py_index bitCountInByte bit; Ok (n + c)) bitmap 0.

(** [int(position / 8)] truncates towards zero; the float division by eight
    is exact below 2^53. *)
Definition BitGet (bitmap : bytes) (position : Z) : result Z :=
  bit ← py_index bitmap (Z.quot position 8);
  Ok (Z.land bit (Z.shiftl 1 (Z.land position 7))).

(** ** Specification *)

(** Bit [i] of a bitmap stored least significant bit first. *)
Definition bit_at (bitmap : bytes) (i : Z) : bool := Z.testbit (le_decode bitmap) i.

(** The number of set bits among the first [n]. *)
Fixpoint popcount (bitmap : bytes) (n : nat) : Z :=
  match n with O => 0 | S n' => popcount bitmap n' + Z.b2z (bit_at bitmap (Z.of_nat n')) end.

Definition popbyte (b : Z) : Z :=
  foldr (fun i acc => Z.b2z (Z.testbit b (Z.of_nat i)) + acc) 0 (seq 0 8).

(** ** Lemmas *)

Lemma bitCountInByte_spec b : byte_ok b -> py_index bitCountInByte b = Ok (popbyte b).
Proof.
  intros Hb. pose proof (byte_forall (fun b => match py_index bitCountInByte b with
    | Ok c => c =? popbyte b | Err _ => false end) ltac:(vm_compute; reflexivity) b Hb) as E.
  cbn beta in E. destruct (py_index bitCountInByte b); [|done]. apply Z.eqb_eq in E. by subst.
Qed.

Lemma bit_at_cons b bs i :
  byte_ok b -> 0 <= i -> bit_at (b :: bs) i = if i <? 8 then Z.testbit b i else bit_at bs (i - 8).
Proof.
  intros Hb Hi. unfold bit_at, byte_ok in *. cbn [le_decode].
  replace (b + 256 * le_decode bs) with (Z.lor b (Z.shiftl (le_decode bs) 8))
    by (rewrite lor_shiftl_add, Z.shiftl_mul_pow2 by lia; change (2 ^ 8) with 256; lia).
  rewrite Z.lor_spec, Z.shiftl_spec by done. destruct (Z.ltb_spec i 8).
  - rewrite (Z.testbit_neg_r _ (i - 8)) by lia. apply orb_false_r.
  - rewrite <- (Z.mod_small b (2 ^ 8)) by (cbn; lia). by rewrite Z.mod_pow2_bits_high by lia.
Qed.

Lemma popcount_cons b bs n :
  byte_ok b -> popcount (b :: bs) (8 + n) = popbyte b + popcount bs n.
Proof.
  intros Hb. induction n as [|n IH].
  - cbn [popcount plus]. rewrite !bit_at_cons by (done || lia). unfold popbyte. cbn [seq foldr].
    cbn [foldr popcount]. repeat match goal with |- context [Z.ltb ?a 8] => change (Z.ltb a 8) with true end.
    cbv iota. ring.
  - replace (8 + S n)%nat with (S (8 + n)) by lia. cbn [popcount]. rewrite IH, bit_at_cons by (done || lia).
    destruct (Z.ltb_spec (Z.of_nat (8 + n)) 8); [lia|].
    replace (Z.of_nat (8 + n) - 8) with (Z.of_nat n) by lia. ring.
Qed.

Lemma BitCount_from n bitmap :
  bytes_ok bitmap ->
  foldM_result (fun n bit => c ← py_index bitCountInByte bit; Ok (n + c)) bitmap n =
  Ok (n + popcount bitmap (8 * length bitmap)).
Proof.
  intros Hok. revert n. induction Hok as [|b bs Hb Hbs IH]; intros n; [cbn; f_equal; lia|].
  cbn [foldM_result]. rewrite bitCountInByte_spec by done. cbn [mbind result_bind]. rewrite IH.
  replace (8 * length (b :: bs))%nat with (8 + 8 * length bs)%nat by (cbn [length]; lia).
  rewrite popcount_cons by done. f_equal. lia.
Qed.

Lemma popcount_range bitmap n : 0 <= popcount bitmap n <= Z.of_nat n.
Proof. induction n as [|n IH]; cbn [popcount]; [lia|]. destruct (bit_at _ _); cbn [Z.b2z]; lia. Qed.

Lemma land_pow2_testbit a n : 0 <= n -> (Z.land a (Z.shiftl 1 n) =? 0) = negb (Z.testbit a n).
Proof.
  intros Hn. rewrite Z.shiftl_1_l.
  destruct (Z.testbit a n) eqn:E; cbn.
  - apply Z.eqb_neq. intros H0. apply (f_equal (fun x => Z.testbit x n)) in H0.
    rewrite Z.land_spec, E, Z.pow2_bits_true, Z.bits_0 in H0 by done. done.
  - apply Z.eqb_eq, Z.bits_inj'. intros m Hm. rewrite Z.land_spec, Z.bits_0.
    destruct (Z.eq_dec m n) as [->|Hne]; [by rewrite E|].
    rewrite Z.pow2_bits_false by congruence. apply andb_false_r.
Qed.

Lemma bit_at_lookup bitmap i b :
  bytes_ok bitmap -> 0 <= i -> bitmap !! Z.to_nat (i / 8) = Some b ->
  bit_at bitmap i = Z.testbit b (i mod 8).
Proof.
  intros Hok. revert i. induction Hok as [|c bs Hc Hbs IH]; intros i Hi Hl; [done|].
  rewrite bit_at_cons by done. destruct (Z.ltb_spec i 8).
  - rewrite Z.div_small in Hl by lia. cbn in Hl. injection Hl as ->. rewrite (Z.mod_small i 8) by lia. done.
  - replace (i / 8) with (1 + (i - 8) / 8) in Hl.
    2:{ replace i with (i - 8 + 1 * 8) at 2 by lia. rewrite Z.div_add by lia. lia. }
    assert (0 <= (i - 8) / 8) by (apply Z.div_pos; lia).
    rewrite Z2Nat.inj_add in Hl by lia. cbn in Hl.
    rewrite (IH (i - 8)) by (done || lia). f_equal.
    replace i with (i - 8 + 1 * 8) at 2 by lia. by rewrite Z.mod_add by lia.
Qed.

(** What the readers rely on: [BitGet] never raises inside the bitmap, and is
    non-zero exactly on the set bits. *)
Lemma BitGet_spec bitmap i :
  bytes_ok bitmap -> 0 <= i < 8 * zlen bitmap ->
  exists v, BitGet bitmap i = Ok v /\ (v =? 0) = negb (bit_at bitmap i).
Proof.
  intros Hok Hi. unfold BitGet. rewrite Z.quot_div_nonneg by lia.
  rewrite py_index_nonneg by (apply Z.div_pos; lia).
  assert (Z.to_nat (i / 8) < length bitmap)%nat as Hl.
  { unfold zlen in Hi. assert (i / 8 < Z.of_nat (length bitmap)) by (apply Z.div_lt_upper_bound; lia).
    assert (0 <= i / 8) by (apply Z.div_pos; lia). lia. }
  apply lookup_lt_is_Some in Hl as [b Hb]. rewrite Hb. cbn [of_option mbind result_bind].
  eexists; split; [done|]. rewrite (bit_at_lookup bitmap i b) by (done || lia).
  change 7 with (Z.ones 3). rewrite Z.land_ones by lia. change (2 ^ 3) with 8.
  apply land_pow2_testbit. apply Z.mod_pos_bound. lia.
Qed.

(** C38. The table-driven bitmap routines agree with arithmetic: [BitCount] is
    the number of set bits of the bitmap and [BitGet] is non-zero exactly at
    the set bits, inside the bitmap; past its end it raises [IndexError]. *)
Theorem bitmap_correct (bitmap : bytes) (position : Z) :
  bytes_ok bitmap -> 0 <= position ->
  BitCount bitmap = Ok (popcount bitmap (8 * length bitmap)) /\
  (position < 8 * zlen bitmap ->
     exists v, BitGet bitmap position = Ok v /\ (v =? 0) = negb (bit_at bitmap position)) /\
  (8 * zlen bitmap <= position -> BitGet bitmap position = Err IndexError).
Proof.
  intros Hok Hp. split; [unfold BitCount; by rewrite BitCount_from|]. split.
  - intros Hl. by apply BitGet_spec.
  - intros Hl. unfold BitGet. rewrite Z.quot_div_nonneg by lia.
    rewrite py_index_nonneg by (apply Z.div_pos; lia). rewrite lookup_ge_None_2; [done|].
    unfold zlen in Hl. assert (Z.of_nat (length bitmap) <= position / 8) by (apply Z.div_le_lower_bound; lia).
    lia.
Qed.

Lemma bitmap_correct_witness : BitCount [0x81; 0x03] = Ok 4 /\ BitGet [0x81; 0x03] 16 = Err IndexError.
Proof.
  destruct (bitmap_correct [0x81; 0x03] 16 ltac:(repeat constructor; lia) ltac:(lia)) as (E & _ & F).
  split; [rewrite E; vm_compute; reflexivity|apply F; vm_compute; discriminate].
Defined.
