(* ===== verification/UtilBytes.v ===== *)
(** * Decoding helpers

    [pymysqlreplication/util/bytes.py]: integers at fixed widths, the
    length-encoded and variable-length integers of the JSON format, packed
    decimals, times and datetimes.  The properties are round trips against
    the encodings a MySQL server writes. *)

From stdpp Require Import base list strings.
From Stdlib Require Import ZArith Lia Ascii.
From S2P Require Import Prelude PyBytes PyStr Values.
Open Scope string_scope.
Open Scope Z_scope.

Definition is_data_short (data : bytes) (expected : Z) : bool := zlen data <? expected.

Definition parse_int16 (data : bytes) : result Z := unpack_sle 2 (slice_to data 2).
Definition parse_uint16 (data : bytes) : result Z := unpack_ule 2 (slice_to data 2).
(** The first attempt applies [struct.unpack] to an [int], which raises
    [TypeError]; the handler computes the value. *)
Definition parse_uint24 (data : bytes) : result Z :=
  a ← py_index data 0; b ← py_index data 1; c ← py_index data 2;
  Ok (a + Z.shiftl b 8 + Z.shiftl c 16).
Definition parse_int32 (data : bytes) : result Z := unpack_sle 4 (slice_to data 4).
Definition parse_uint32 (data : bytes) : result Z := unpack_ule 4 (slice_to data 4).
Definition parse_int64 (data : bytes) : result Z := unpack_sle 8 (slice_to data 8).
Definition parse_uint64 (data : bytes) : result Z := unpack_ule 8 (slice_to data 8).
(** The bit pattern of the double. *)
Definition parse_double (data : bytes) : result pyval := VFloat <$> unpack_ule 8 (slice_to data 8).

Definition parse_string (n length : Z) (data : bytes) : bytes := slice_to (slice_from data n) length.

Definition decode_count (data : bytes) (is_small : bool) : result Z :=
  if is_small then parse_uint16 data else parse_uint32 data.

Definition decode_uint (data : bytes) : result Z :=
  if is_data_short data 2 then Ok 0 else parse_uint16 data.

(** Value (or [None]), null flag, number of bytes. *)
Definition length_encoded_int (data : bytes) : result (option Z * bool * Z) :=
  match data with
  | [] => Ok (Some 0, true, 0)
  | d0 :: rest =>
      if d0 =? 251 then Ok (None, true, 1)
      else if d0 =? 252 then v ← parse_uint16 rest; Ok (Some v, false, 3)
      else if d0 =? 253 then v ← parse_uint24 rest; Ok (Some v, false, 4)
      else if d0 =? 254 then v ← parse_uint64 rest; Ok (Some v, false, 9)
      else Ok (Some d0, false, 1)
  end.

Definition sys_maxsize : Z := 2 ^ 63 - 1.

(** The [for] loop of [decode_variable_length]: [n] iterations left. *)
Fixpoint decode_variable_length_loop (n : nat) (data : bytes) (pos length : Z) : result (Z * Z) :=
  match n with
  | O => Ok (0, 0)
  | S n' =>
      v ← py_index data pos;
      let length := Z.lor length (Z.shiftl (Z.land v 0x7F) (7 * pos)) in
      let pos := pos + 1 in
      if Z.land v 0x80 =? 0
      then if sys_maxsize - 1 <? length then Ok (0, 0) else Ok (length, pos)
      else decode_variable_length_loop n' data pos length
  end.

Definition decode_variable_length (data : bytes) : result (Z * Z) :=
  let max_count := if zlen data <? 5 then zlen data else 5 in
  decode_variable_length_loop (Z.to_nat max_count) data 0 0.

(** ** Decimals *)

Definition digits_per_integer : Z := 9.
Definition compressed_bytes : list Z := [0; 1; 1; 2; 2; 3; 3; 4; 4; 4].

Definition decode_decimal_decompress_value (comp_indx : Z) (data : bytes) (mask : Z) : result (Z * Z) :=
  size ← py_index compressed_bytes comp_indx;
  if 0 <? size then
    databuff ← mapM_result (fun i => b ← py_index (slice_to data size) (Z.of_nat i);
                                     Ok (Z.land (Z.lxor b mask) 0xFF))
                           (seq 0 (Z.to_nat size));
    Ok (size, be_decode databuff)
  else Ok (0, 0).

(** [for _ in range(n)]: append nine digits per big-endian [int32]. *)
Fixpoint decimal_groups (n : nat) (raw : bytes) (mask : Z) (pointer : Z) (res : string)
  : result (Z * string) :=
  match n with
  | O => Ok (pointer, res)
  | S n' =>
      v ← unpack_sbe 4 (slice raw pointer (pointer + 4));
      let value := Z.lxor v mask in
      decimal_groups n' raw mask (pointer + 4) (res ++ fmt_zero 9 value)
  end.

Definition parse_decimal_from_bytes (raw_decimal : bytes) (precision decimals : Z) : result pyval :=
  let integral := precision - decimals in
  let uncomp_integral := integral / digits_per_integer in
  let comp_integral := integral mod digits_per_integer in
  let uncomp_fractional := decimals / digits_per_integer in
  let comp_fractional := decimals mod digits_per_integer in
  b0 ← py_index raw_decimal 0;
  let res := if Z.land b0 0x80 =? 0 then "-" else "" in
  let mask := if decide (res = "-") then -1 else 0 in
  let raw_decimal := (Z.lxor b0 0x80 :: slice_from raw_decimal 1)%list in
  '(pointer, value) ← decode_decimal_decompress_value comp_integral raw_decimal mask;
  let res := res ++ str_of_Z value in
  '(pointer, res) ← decimal_groups (Z.to_nat uncomp_integral) raw_decimal mask pointer res;
  let res := res ++ "." in
  '(pointer, res) ← decimal_groups (Z.to_nat uncomp_fractional) raw_decimal mask pointer res;
  '(size, value) ← decode_decimal_decompress_value comp_fractional (slice_from raw_decimal pointer) mask;
  let res := if 0 <? size then res ++ fmt_zero (Z.to_nat comp_fractional) value else res in
  decimal_of_str res.

Definition decode_decimal (data : bytes) : result pyval :=
  d0 ← py_index data 0; d1 ← py_index data 1;
  parse_decimal_from_bytes (slice_from data 2) d0 d1.

(** ** Packed times *)

Definition decode_time (data : bytes) : result pyval :=
  v ← parse_int64 data;
  if v =? 0 then mk_time 0 0 0 0
  else
    let v := if v <? 0 then - v else v in
    let int_part := Z.shiftr v 24 in
    let hour := Z.shiftr int_part 12 mod Z.shiftl 1 10 in
    let min := Z.shiftr int_part 6 mod Z.shiftl 1 6 in
    let sec := int_part mod Z.shiftl 1 6 in
    let frac := v mod Z.shiftl 1 24 in
    mk_time hour min sec frac.

Definition decode_datetime (data : bytes) : result pyval :=
  v ← parse_int64 data;
  if v =? 0 then Ok (VStr "0000-00-00 00:00:00")
  else
    let v := if v <? 0 then - v else v in
    let int_part := Z.shiftr v 24 in
    let ymd := Z.shiftr int_part 17 in
    let ym := Z.shiftr ymd 5 in
    let hms := int_part mod Z.shiftl 1 17 in
    let year := ym / 13 in
    let month := ym mod 13 in
    let day := ymd mod Z.shiftl 1 5 in
    let hour := Z.shiftr hms 12 in
    let minute := Z.shiftr hms 6 mod Z.shiftl 1 6 in
    let second := hms mod Z.shiftl 1 6 in
    let frac := v mod Z.shiftl 1 24 in
    mk_datetime year month day hour minute second frac.

(** 1234567890.1234 and its negation as [DECIMAL(14, 4)]. *)
Example decimal_example :
  parse_decimal_from_bytes [0x81; 0x0D; 0xFB; 0x38; 0xD2; 0x04; 0xD2] 14 4 =
    Ok (VDecimal false 12345678901234 (-4)) /\
  parse_decimal_from_bytes [0x7E; 0xF2; 0x04; 0xC7; 0x2D; 0xFB; 0x2D] 14 4 =
    Ok (VDecimal true 12345678901234 (-4)).
Proof. split; vm_compute; reflexivity. Qed.

(** ** The binary format of decimals

    What a server writes for a [DECIMAL(precision, decimals)] whose value is
    [(-1)^neg * c / 10^decimals]: groups of nine digits in four bytes, the
    remaining leading and trailing digits in [compressed_bytes] bytes, all
    complemented for a negative number, the sign bit of the first flipped. *)

Definition group_size (k : Z) : nat := Z.to_nat (default 0 (compressed_bytes !! Z.to_nat k)).

Fixpoint encode_groups (n : nat) (v : Z) : bytes :=
  match n with
  | O => []
  | S n' => (be_encode 4 (v / 10 ^ (9 * Z.of_nat n')) ++ encode_groups n' (v mod 10 ^ (9 * Z.of_nat n')))%list
  end.

Definition decimal_body (precision decimals c : Z) : bytes :=
  let integral := precision - decimals in
  let ui := integral / 9 in let ci := integral mod 9 in
  let uf := decimals / 9 in let cf := decimals mod 9 in
  let i := c / 10 ^ decimals in
  let f := c mod 10 ^ decimals in
  (be_encode (group_size ci) (i / 10 ^ (9 * ui)) ++
   (encode_groups (Z.to_nat ui) (i mod 10 ^ (9 * ui)) ++
    (encode_groups (Z.to_nat uf) (f / 10 ^ cf) ++
     be_encode (group_size cf) (f mod 10 ^ cf))))%list.

Definition mask_byte (neg : bool) (b : Z) : Z := if neg then 255 - b else b.

Definition flip_sign (bs : bytes) : bytes :=
  match bs with [] => [] | b :: r => Z.lxor b 0x80 :: r end.

Definition decimal_encode (neg : bool) (precision decimals c : Z) : bytes :=
  flip_sign (map (mask_byte neg) (decimal_body precision decimals c)).

Example decimal_encode_example :
  decimal_encode true 14 4 12345678901234 = [0x7E; 0xF2; 0x04; 0xC7; 0x2D; 0xFB; 0x2D].
Proof. vm_compute. reflexivity. Qed.

(** *** Lemmas *)

Definition sign_mask (neg : bool) : Z := if neg then -1 else 0.

Lemma mask_byte_ok neg b : byte_ok b -> byte_ok (mask_byte neg b).
Proof. unfold byte_ok, mask_byte. destruct neg; lia. Qed.

Lemma unmask_byte neg b : byte_ok b -> Z.land (Z.lxor (mask_byte neg b) (sign_mask neg)) 0xFF = b.
Proof.
  intros Hb. apply Z.eqb_eq.
  apply (byte_forall (fun b => Z.land (Z.lxor (mask_byte neg b) (sign_mask neg)) 0xFF =? b)); [|done].
  destruct neg; vm_compute; reflexivity.
Qed.

Lemma mapM_index {A} (f : Z -> A) (data : bytes) (s : nat) :
  (s <= length data)%nat ->
  mapM_result (fun i => b ← py_index (slice_to data (Z.of_nat s)) (Z.of_nat i); Ok (f b)) (seq 0 s) =
  Ok (map f (take s data)).
Proof.
  intros Hs. assert (slice_to data (Z.of_nat s) = take s data) as ->.
  { unfold slice_to. destruct (Z.ltb_spec (Z.of_nat s) 0); [lia|]. by rewrite Nat2Z.id. }
  assert (forall (l pre : bytes), mapM_result (fun i => b ← py_index (pre ++ l)%list (Z.of_nat i); Ok (f b))
    (seq (length pre) (length l)) = Ok (map f l)) as Hgen.
  { induction l as [|x l IH]; intros pre; [done|]. cbn [length seq mapM_result].
    rewrite py_index_nonneg, Nat2Z.id, list_lookup_middle by (done || lia).
    cbn [of_option mbind result_bind]. specialize (IH (pre ++ [x])%list).
    rewrite <- app_assoc, length_app, Nat.add_1_r in IH. cbn [app] in IH. rewrite IH. done. }
  specialize (Hgen (take s data) []). cbn in Hgen. rewrite length_take_le in Hgen by done. exact Hgen.
Qed.

Lemma group_size_spec k :
  0 <= k < 9 -> py_index compressed_bytes k = Ok (Z.of_nat (group_size k)) /\
  10 ^ k <= 256 ^ Z.of_nat (group_size k) /\
  (0 < k -> (0 < group_size k)%nat /\ 10 ^ k <= 128 * 256 ^ Z.of_nat (pred (group_size k))).
Proof.
  intros Hk. assert (k = 0 \/ k = 1 \/ k = 2 \/ k = 3 \/ k = 4 \/ k = 5 \/ k = 6 \/ k = 7 \/ k = 8) as Hc by lia.
  repeat destruct Hc as [->|Hc]; try subst k; (split; [reflexivity|split; [vm_compute; discriminate|]]);
    [lia|..]; intros _; (split; [vm_compute; lia|vm_compute; discriminate]).
Qed.

Lemma be_encode_length n v : length (be_encode n v) = n.
Proof. unfold be_encode. rewrite length_rev. apply le_encode_length. Qed.

Lemma be_encode_ok n v : bytes_ok (be_encode n v).
Proof. unfold be_encode, bytes_ok. apply Forall_rev, le_encode_ok. Qed.

Lemma decompress_spec neg k v (rest : bytes) :
  0 <= k < 9 -> 0 <= v < 10 ^ k ->
  decode_decimal_decompress_value k (map (mask_byte neg) (be_encode (group_size k) v) ++ rest)%list (sign_mask neg)
  = Ok (Z.of_nat (group_size k), v).
Proof.
  intros Hk Hv. destruct (group_size_spec k Hk) as (Hs & Hb & Hp). unfold decode_decimal_decompress_value.
  rewrite Hs. cbn [mbind result_bind]. destruct (Z.ltb_spec 0 (Z.of_nat (group_size k))) as [Hpos|Hz].
  - rewrite Nat2Z.id. rewrite mapM_index by (rewrite length_app, length_map, be_encode_length; lia).
    cbn [mbind result_bind].
    rewrite take_app_length' by (by rewrite length_map, be_encode_length). rewrite map_map.
    do 2 f_equal. rewrite <- (be_decode_encode (group_size k) v) at 2 by lia. f_equal.
    transitivity (map id (be_encode (group_size k) v)); [|apply map_id].
    apply map_ext_Forall. eapply Forall_impl; [apply be_encode_ok|]. intros b Hbyte. by apply unmask_byte.
  - assert (k = 0) as -> by (destruct (decide (k = 0)); [done|]; destruct Hp; lia).
    cbn in Hv. by assert (v = 0) as -> by lia.
Qed.

Lemma le_decode_complement bs :
  le_decode (map (mask_byte true) bs) = 256 ^ zlen bs - 1 - le_decode bs.
Proof.
  induction bs as [|b bs IH]; [done|]. rewrite zlen_cons, Z.pow_add_r by (pose proof (zlen_nonneg bs); lia).
  cbn [map le_decode mask_byte]. rewrite IH. lia.
Qed.

Lemma unpack_group neg v :
  0 <= v < 10 ^ 9 ->
  exists u, unpack_sbe 4 (map (mask_byte neg) (be_encode 4 v)) = Ok u /\ Z.lxor u (sign_mask neg) = v.
Proof.
  intros Hv. eexists. split.
  - unfold unpack_sbe, unpack_ube. rewrite decide_True by (by rewrite length_map, be_encode_length). done.
  - unfold be_decode, be_encode. rewrite <- map_rev, rev_involutive.
    assert (to_signed (8 * Z.of_nat 4) v = v) as Hpos.
    { unfold to_signed. destruct (Z.ltb_spec v (2 ^ (8 * Z.of_nat 4 - 1))) as [|Hge]; [done|].
      change (2 ^ (8 * Z.of_nat 4 - 1)) with 2147483648 in Hge. lia. }
    destruct neg; cbn [sign_mask].
    + rewrite le_decode_complement, zlen_le_encode, le_decode_encode by (cbn; lia).
      unfold to_signed. change (256 ^ Z.of_nat 4) with 4294967296.
      change (2 ^ (8 * Z.of_nat 4 - 1)) with 2147483648. change (2 ^ (8 * Z.of_nat 4)) with 4294967296.
      destruct (Z.ltb_spec (4294967296 - 1 - v) 2147483648); [lia|].
      rewrite Z.lxor_m1_r. unfold Z.lnot. lia.
    + rewrite Z.lxor_0_r. erewrite map_ext by (intros b; exact eq_refl).
      change (map (fun a => a) ?l) with (map (@id Z) l). rewrite map_id.
      rewrite le_decode_encode by (cbn; lia). exact Hpos.
Qed.

(** [n] decimal digits of value [v]. *)
Definition digit_text (s : string) (n : nat) (v : Z) : Prop :=
  str_forallb is_digit s = true /\ String.length s = n /\ digits_value 0 s = v.

Lemma digit_text_app s t n m v w :
  digit_text s n v -> digit_text t m w -> digit_text (s ++ t) (n + m) (v * 10 ^ Z.of_nat m + w).
Proof.
  intros (Hs & Hn & Hv) (Ht & Hm & Hw). unfold digit_text.
  rewrite str_forallb_app, Hs, Ht, str_length_app, digits_value_app, digits_value_shift, Hv, Hn, Hm, Hw.
  done.
Qed.

(** The digits [decimal_groups] prints for [n] groups of value [v]. *)
Fixpoint group_text (n : nat) (v : Z) : string :=
  match n with
  | O => ""
  | S n' => fmt_zero 9 (v / 10 ^ (9 * Z.of_nat n')) ++ group_text n' (v mod 10 ^ (9 * Z.of_nat n'))
  end.

(** The leading group of [n + 1] and the value of the rest. *)
Lemma group_bounds n v :
  0 <= v < 10 ^ (9 * Z.of_nat (S n)) ->
  0 <= v / 10 ^ (9 * Z.of_nat n) < 10 ^ 9 /\ 0 <= v mod 10 ^ (9 * Z.of_nat n) < 10 ^ (9 * Z.of_nat n).
Proof.
  intros Hv. assert (0 < 10 ^ (9 * Z.of_nat n)) by (apply Z.pow_pos_nonneg; lia).
  replace (9 * Z.of_nat (S n)) with (9 * Z.of_nat n + 9) in Hv by lia. rewrite Z.pow_add_r in Hv by lia.
  split; [split; [apply Z.div_pos; lia|apply Z.div_lt_upper_bound; lia]|apply Z.mod_pos_bound; lia].
Qed.

Lemma group_text_spec n v :
  0 <= v < 10 ^ (9 * Z.of_nat n) -> digit_text (group_text n v) (9 * n) v.
Proof.
  revert v. induction n as [|n IH]; intros v Hv.
  - cbn in Hv. by assert (v = 0) as -> by lia.
  - apply group_bounds in Hv as [Hq Hr]. cbn [group_text].
    replace (9 * S n)%nat with (9 + 9 * n)%nat by lia.
    pose proof (digit_text_app _ _ 9 (9 * n) _ _ (fmt_zero_spec 9 _ ltac:(lia) Hq) (IH _ Hr)) as Ht.
    replace (Z.of_nat (9 * n)) with (9 * Z.of_nat n) in Ht by lia.
    rewrite (Z.mul_comm (v / _)), <- Z.div_mod in Ht; [done|]. apply Z.pow_nonzero; lia.
Qed.

Lemma slice_middle {A} (pre l rest : list A) n :
  zlen l = n -> slice (pre ++ l ++ rest) (zlen pre) (zlen pre + n) = l.
Proof.
  intros <-. unfold slice, zlen. replace (_ + _ - _) with (Z.of_nat (length l)) by lia.
  rewrite !Nat2Z.id, drop_app_length. apply take_app_length.
Qed.

Lemma decimal_groups_spec neg n v (pre rest : bytes) res :
  0 <= v < 10 ^ (9 * Z.of_nat n) ->
  decimal_groups n (pre ++ map (mask_byte neg) (encode_groups n v) ++ rest)%list (sign_mask neg) (zlen pre) res
  = Ok (zlen pre + 4 * Z.of_nat n, res ++ group_text n v).
Proof.
  revert v pre res. induction n as [|n IH]; intros v pre res Hv.
  - cbn. by rewrite str_app_nil_r, Z.add_0_r.
  - apply group_bounds in Hv as [Hq Hr]. cbn [decimal_groups encode_groups group_text].
    rewrite map_app, <- app_assoc.
    destruct (unpack_group neg (v / 10 ^ (9 * Z.of_nat n)) Hq) as (u & Hu & Hx).
    assert (zlen (map (mask_byte neg) (be_encode 4 (v / 10 ^ (9 * Z.of_nat n)))) = 4) as Hl
      by (unfold zlen; by rewrite length_map, be_encode_length).
    rewrite slice_middle, Hu by done. cbn [mbind result_bind]. rewrite Hx.
    rewrite (app_assoc pre). replace (zlen pre + 4) with
      (zlen (pre ++ map (mask_byte neg) (be_encode 4 (v / 10 ^ (9 * Z.of_nat n))))%list)
      by (by rewrite zlen_app, Hl).
    rewrite IH, zlen_app, Hl, str_app_assoc by done. do 2 f_equal. lia.
Qed.

(** *** The sign bit *)

Definition head_small (bs : bytes) : Prop := match bs with [] => True | b :: _ => 0 <= b < 128 end.

Lemma head_small_app (a b : bytes) : head_small a -> (a = [] -> head_small b) -> head_small (a ++ b)%list.
Proof. destruct a; cbn; auto. Qed.

Lemma le_encode_snoc n v : le_encode (S n) v = (le_encode n v ++ [(v / 256 ^ Z.of_nat n) mod 256])%list.
Proof.
  revert v. induction n as [|n IH]; intros v; [cbn; by rewrite Z.div_1_r|].
  change (le_encode (S (S n)) v) with (v mod 256 :: le_encode (S n) (v / 256))%list. rewrite IH.
  cbn [le_encode app]. rewrite Z.div_div by (try apply Z.pow_pos_nonneg; lia).
  rewrite Nat2Z.inj_succ, Z.pow_succ_r by lia. done.
Qed.

Lemma head_small_be_encode n v : 0 <= v < 128 * 256 ^ Z.of_nat (pred n) -> head_small (be_encode n v).
Proof.
  intros Hv. destruct n as [|n]; [done|]. unfold be_encode. rewrite le_encode_snoc, rev_app_distr. cbn in *.
  assert (0 < 256 ^ Z.of_nat n) by (apply Z.pow_pos_nonneg; lia).
  assert (0 <= v / 256 ^ Z.of_nat n < 128)
    by (split; [apply Z.div_pos; lia|apply Z.div_lt_upper_bound; lia]).
  rewrite Z.mod_small; lia.
Qed.

Lemma head_small_group k v : 0 <= k < 9 -> 0 <= v < 10 ^ k -> head_small (be_encode (group_size k) v).
Proof.
  intros Hk Hv. destruct (decide (k = 0)) as [->|Hne]; [done|].
  destruct (group_size_spec k Hk) as (_ & _ & Hp). apply head_small_be_encode. destruct Hp; lia.
Qed.

Lemma head_small_groups n v : 0 <= v < 10 ^ (9 * Z.of_nat n) -> head_small (encode_groups n v).
Proof.
  intros Hv. destruct n as [|n]; [done|]. apply group_bounds in Hv as [Hq Hr]. cbn [encode_groups].
  apply head_small_app; [apply head_small_be_encode; cbn in *; lia|].
  intros E. apply (f_equal length) in E. by rewrite be_encode_length in E.
Qed.

Lemma flip_sign_masked neg b :
  0 <= b < 128 ->
  (Z.land (Z.lxor (mask_byte neg b) 0x80) 0x80 =? 0) = neg /\
  Z.lxor (Z.lxor (mask_byte neg b) 0x80) 0x80 = mask_byte neg b.
Proof.
  intros Hb. split; [|by rewrite Z.lxor_assoc, Z.lxor_nilpotent, Z.lxor_0_r].
  assert (byte_ok b) as Hok by (unfold byte_ok; lia).
  pose proof (byte_forall (fun b => implb (b <? 128)
    (Bool.eqb (Z.land (Z.lxor (mask_byte neg b) 0x80) 0x80 =? 0) neg))
    ltac:(destruct neg; vm_compute; reflexivity) b Hok) as E. cbn beta in E.
  destruct (Z.ltb_spec b 128); [|lia]. by apply Bool.eqb_prop.
Qed.

Lemma decimal_of_str_spec (neg : bool) i f :
  str_forallb is_digit i = true -> str_forallb is_digit f = true -> i ++ f <> "" ->
  decimal_of_str ((if neg then "-" else "") ++ i ++ "." ++ f) =
  Ok (VDecimal neg (digits_value 0 (i ++ f)) (- Z.of_nat (String.length f))).
Proof.
  intros Hi Hf Hne. unfold decimal_of_str.
  assert (split_on "." (i ++ "." ++ f) = [i; f]) as Hsp.
  { cbn. rewrite split_on_app by (by apply digits_no_char).
    by rewrite split_on_word by (by apply digits_no_char). }
  assert (negb (bool_decide (i ++ f = "")) = true) as Hnn by (by apply negb_true_iff, bool_decide_eq_false).
  destruct neg.
  - cbn [String.append]. rewrite decide_True by done. cbn in Hsp |- *. rewrite Hsp, Hi, Hf, Hnn. done.
  - change ("" ++ ?s) with s.
    assert (exists c s, i ++ "." ++ f = String c s /\ c <> "-"%char) as (c & s & E & Hc).
    { destruct i as [|c i]; [by exists "."%char, f|]. exists c, (i ++ "." ++ f). split; [done|].
      intros ->. by cbn in Hi. }
    rewrite E in *. rewrite decide_False, Hsp, Hi, Hf, Hnn by done. done.
Qed.

Lemma split_pow v a b :
  0 <= a -> 0 <= b -> 0 <= v < 10 ^ (a + b) ->
  0 <= v / 10 ^ b < 10 ^ a /\ 0 <= v mod 10 ^ b < 10 ^ b /\ v / 10 ^ b * 10 ^ b + v mod 10 ^ b = v.
Proof.
  intros Ha Hb Hv. assert (0 < 10 ^ b) by (apply Z.pow_pos_nonneg; lia). rewrite Z.pow_add_r in Hv by lia.
  split; [split; [apply Z.div_pos; lia|apply Z.div_lt_upper_bound; lia]|].
  split; [apply Z.mod_pos_bound; lia|]. pose proof (Z.div_mod v (10 ^ b)). lia.
Qed.

Lemma encode_groups_length n v : length (encode_groups n v) = (4 * n)%nat.
Proof. revert v. induction n as [|n IH]; intros v; [done|]. cbn [encode_groups]. rewrite length_app, be_encode_length, IH. lia. Qed.

Section pieces.
Context (neg : bool) (ui uf : nat) (ci cf hi lo fh fl : Z).
Hypothesis Hci : 0 <= ci < 9.
Hypothesis Hcf : 0 <= cf < 9.
Hypothesis Hhi : 0 <= hi < 10 ^ ci.
Hypothesis Hlo : 0 <= lo < 10 ^ (9 * Z.of_nat ui).
Hypothesis Hfh : 0 <= fh < 10 ^ (9 * Z.of_nat uf).
Hypothesis Hfl : 0 <= fl < 10 ^ cf.
Hypothesis Hsome : 0 < ci + Z.of_nat ui + Z.of_nat uf + cf.

Let body : bytes := (be_encode (group_size ci) hi ++
  (encode_groups ui lo ++ (encode_groups uf fh ++ be_encode (group_size cf) fl)))%list.

Lemma body_head : exists b rest, body = b :: rest /\ 0 <= b < 128.
Proof.
  assert (head_small body) as Hh.
  { unfold body. apply head_small_app; [by apply head_small_group|]. intros _.
    apply head_small_app; [by apply head_small_groups|]. intros _.
    apply head_small_app; [by apply head_small_groups|]. intros _. by apply head_small_group. }
  destruct body as [|b rest] eqn:E; [|by eauto]. exfalso.
  apply (f_equal length) in E. unfold body in E.
  rewrite !length_app, !encode_groups_length, !be_encode_length in E. cbn in E.
  destruct (group_size_spec ci Hci) as (_ & _ & H1), (group_size_spec cf Hcf) as (_ & _ & H2).
  destruct (decide (0 < ci)) as [Hp|Hp]; [destruct (H1 Hp); lia|].
  destruct (decide (0 < cf)) as [Hq|Hq]; [destruct (H2 Hq); lia|]. lia.
Qed.

(** The digits after the point. *)
Lemma fraction_text :
  digit_text (group_text uf fh ++ (if 0 <? Z.of_nat (group_size cf) then fmt_zero (Z.to_nat cf) fl else ""))
             (9 * uf + Z.to_nat cf) (fh * 10 ^ cf + fl).
Proof.
  replace (10 ^ cf) with (10 ^ Z.of_nat (Z.to_nat cf)) by (rewrite Z2Nat.id by lia; done).
  apply digit_text_app; [by apply group_text_spec|].
  destruct (group_size_spec cf Hcf) as (_ & _ & Hp). destruct (decide (cf = 0)) as [E|E].
  - rewrite E. rewrite E in Hfl. cbn in Hfl |- *. by assert (fl = 0) as -> by lia.
  - destruct Hp as [Hp _]; [lia|]. destruct (Z.ltb_spec 0 (Z.of_nat (group_size cf))); [|lia].
    apply fmt_zero_spec; [lia|]. rewrite Z2Nat.id; lia.
Qed.

Lemma parse_decimal_pieces :
  parse_decimal_from_bytes (flip_sign (map (mask_byte neg) body))
    (9 * Z.of_nat ui + ci + (9 * Z.of_nat uf + cf)) (9 * Z.of_nat uf + cf) =
  Ok (VDecimal neg ((hi * 10 ^ (9 * Z.of_nat ui) + lo) * 10 ^ (9 * Z.of_nat uf + cf) + (fh * 10 ^ cf + fl))
               (- (9 * Z.of_nat uf + cf))).
Proof.
  destruct body_head as (b & rest & Hbody & Hb). destruct (flip_sign_masked neg b Hb) as [Hneg Hflip].
  unfold parse_decimal_from_bytes, digits_per_integer.
  replace (9 * Z.of_nat ui + ci + (9 * Z.of_nat uf + cf) - (9 * Z.of_nat uf + cf)) with (Z.of_nat ui * 9 + ci) by lia.
  replace (9 * Z.of_nat uf + cf) with (Z.of_nat uf * 9 + cf) by lia.
  rewrite !Z.div_add_l, !(Z.div_small _ 9), !Z.add_0_r, !Nat2Z.id by lia.
  rewrite !(Z.add_comm (_ * 9)), !Z.mod_add, !(Z.mod_small _ 9) by lia.
  rewrite Hbody. cbn [map flip_sign]. rewrite py_index_head.
  cbn [mbind result_bind]. rewrite Hneg, Hflip.
  replace (if decide ((if neg then "-" else "") = "-") then -1 else 0) with (sign_mask neg) by (by destruct neg).
  assert ((mask_byte neg b :: slice_from (Z.lxor (mask_byte neg b) 128 :: map (mask_byte neg) rest) 1)%list
    = map (mask_byte neg) body) as -> by (by rewrite Hbody).
  destruct fraction_text as (Hfd & Hflen & Hfv).
  unfold body. rewrite !map_app. set (A := map (mask_byte neg) (be_encode (group_size ci) hi)).
  set (G := map (mask_byte neg) (encode_groups ui lo)).
  set (F := map (mask_byte neg) (encode_groups uf fh)).
  assert (zlen A = Z.of_nat (group_size ci)) as HA by (unfold zlen, A; by rewrite length_map, be_encode_length).
  assert (zlen G = 4 * Z.of_nat ui) as HG by (unfold zlen, G; rewrite length_map, encode_groups_length; lia).
  assert (zlen F = 4 * Z.of_nat uf) as HF by (unfold zlen, F; rewrite length_map, encode_groups_length; lia).
  rewrite (decompress_spec neg ci hi (G ++ _) Hci Hhi : decode_decimal_decompress_value ci (A ++ _) _ = _).
  cbn [mbind result_bind]. rewrite <- HA.
  rewrite (decimal_groups_spec neg ui lo A (F ++ _) _ Hlo : decimal_groups ui (A ++ G ++ _) _ _ _ = _).
  cbn [mbind result_bind].
  rewrite <- HG, <- zlen_app, (app_assoc A G).
  rewrite (decimal_groups_spec neg uf fh (A ++ G) _ _ Hfh : decimal_groups uf (_ ++ F ++ _) _ _ _ = _).
  cbn [mbind result_bind].
  rewrite <- HF, <- zlen_app, (app_assoc (A ++ G)), slice_from_app.
  rewrite <- (app_nil_r (map _ (be_encode _ fl))), decompress_spec by done. cbn [mbind result_bind].
  rewrite str_of_Z_nonneg by lia. destruct (dec_nonneg_spec hi) as (Hne & Hhd & Hhv); [lia|].
  destruct (group_text_spec ui lo Hlo) as (Hgd & Hgl & Hgv).
  set (T := (group_text uf fh ++ (if 0 <? Z.of_nat (group_size cf) then fmt_zero (Z.to_nat cf) fl else ""))) in *.
  replace (if 0 <? Z.of_nat (group_size cf) then _ else _)
    with ((if neg then "-" else "") ++ (dec_nonneg hi ++ group_text ui lo) ++ "." ++ T)
    by (unfold T; destruct (0 <? _); rewrite ?str_app_nil_r, ?str_app_assoc; done).
  rewrite decimal_of_str_spec; [|by rewrite str_forallb_app, Hhd, Hgd|done|by destruct (dec_nonneg hi)].
  rewrite !digits_value_app, Hhv, (digits_value_shift hi), Hgv, Hgl, digits_value_shift, Hfv, Hflen.
  replace (Z.of_nat (9 * ui)) with (9 * Z.of_nat ui) by lia.
  replace (Z.of_nat (9 * uf + Z.to_nat cf)) with (9 * Z.of_nat uf + cf) by lia.
  by replace (cf + Z.of_nat uf * 9) with (9 * Z.of_nat uf + cf) by lia.
Qed.
End pieces.

(** Every decimal is made of four such pieces. *)
Lemma decimal_split precision decimals c :
  0 <= decimals <= precision -> 0 < precision -> 0 <= c < 10 ^ precision ->
  exists (ui uf : nat) (ci cf hi lo fh fl : Z),
    (0 <= ci < 9 /\ 0 <= cf < 9) /\ (0 <= hi < 10 ^ ci /\ 0 <= lo < 10 ^ (9 * Z.of_nat ui)) /\
    (0 <= fh < 10 ^ (9 * Z.of_nat uf) /\ 0 <= fl < 10 ^ cf) /\ 0 < ci + Z.of_nat ui + Z.of_nat uf + cf /\
    precision = 9 * Z.of_nat ui + ci + (9 * Z.of_nat uf + cf) /\ decimals = 9 * Z.of_nat uf + cf /\
    c = (hi * 10 ^ (9 * Z.of_nat ui) + lo) * 10 ^ (9 * Z.of_nat uf + cf) + (fh * 10 ^ cf + fl) /\
    decimal_body precision decimals c = (be_encode (group_size ci) hi ++
      (encode_groups ui lo ++ (encode_groups uf fh ++ be_encode (group_size cf) fl)))%list.
Proof.
  intros Hd Hp Hc.
  pose proof (Z.div_mod (precision - decimals) 9 ltac:(lia)) as Ei.
  pose proof (Z.div_mod decimals 9 ltac:(lia)) as Ef.
  pose proof (Z.mod_pos_bound (precision - decimals) 9 ltac:(lia)) as Bi.
  pose proof (Z.mod_pos_bound decimals 9 ltac:(lia)) as Bf.
  assert (0 <= (precision - decimals) / 9) by (apply Z.div_pos; lia).
  assert (0 <= decimals / 9) by (apply Z.div_pos; lia).
  destruct (split_pow c (precision - decimals) decimals) as (Hi & Hf & Hsum);
    [lia|lia|by replace (precision - decimals + decimals) with precision by lia|].
  exists (Z.to_nat ((precision - decimals) / 9)), (Z.to_nat (decimals / 9)), ((precision - decimals) mod 9), (decimals mod 9),
    (c / 10 ^ decimals / 10 ^ (9 * ((precision - decimals) / 9))), ((c / 10 ^ decimals) mod 10 ^ (9 * ((precision - decimals) / 9))),
    (c mod 10 ^ decimals / 10 ^ (decimals mod 9)), ((c mod 10 ^ decimals) mod 10 ^ (decimals mod 9)).
  rewrite !Z2Nat.id by lia.
  set (ci := (precision - decimals) mod 9) in *. set (cf := decimals mod 9) in *.
  set (ui := (precision - decimals) / 9) in *. set (uf := decimals / 9) in *.
  destruct (split_pow (c / 10 ^ decimals) ci (9 * ui)) as (Hhi & Hlo & Hisum);
    [lia|lia|by replace (ci + 9 * ui) with (precision - decimals) by lia|].
  destruct (split_pow (c mod 10 ^ decimals) (9 * uf) cf) as (Hfh & Hfl & Hfsum);
    [lia|lia|by replace (9 * uf + cf) with decimals by lia|].
  rewrite Hisum, Hfsum. replace (9 * uf + cf) with decimals by lia.
  repeat split; (lia || done).
Qed.

Lemma decimal_bytes_parsed (neg : bool) (precision decimals c : Z) :
  0 <= decimals <= precision -> 0 < precision -> 0 <= c < 10 ^ precision ->
  parse_decimal_from_bytes (decimal_encode neg precision decimals c) precision decimals =
  Ok (VDecimal neg c (- decimals)).
Proof.
  intros Hd Hp Hc. unfold decimal_encode.
  destruct (decimal_split precision decimals c Hd Hp Hc)
    as (ui & uf & ci & cf & hi & lo & fh & fl & [? ?] & [? ?] & [? ?] & ? & Ep & Ed & Ec & ->).
  rewrite Ep, Ed, Ec. by apply parse_decimal_pieces.
Qed.



(** ** Packed times and datetimes *)

Definition pack_time (h mi s us : Z) : Z := ((h * 2 ^ 6 + mi) * 2 ^ 6 + s) * 2 ^ 24 + us.
Definition pack_datetime (y m d h mi s us : Z) : Z :=
  (((y * 13 + m) * 2 ^ 5 + d) * 2 ^ 17 + ((h * 2 ^ 6 + mi) * 2 ^ 6 + s)) * 2 ^ 24 + us.

(** Eight bytes, two's complement. *)
Definition encode_int64 (v : Z) : bytes := le_encode 8 (v mod 2 ^ 64).

Lemma parse_int64_encode v (rest : bytes) :
  - 2 ^ 63 <= v < 2 ^ 63 -> parse_int64 (encode_int64 v ++ rest)%list = Ok v.
Proof.
  intros Hv. unfold parse_int64, encode_int64.
  replace 8 with (zlen (le_encode 8 (v mod 2 ^ 64))) at 2 by (by rewrite zlen_le_encode).
  rewrite slice_to_app. apply (pack_unpack_sle 8 v); [lia|]. unfold pack_sle.
  change (2 ^ (8 * Z.of_nat 8 - 1)) with (2 ^ 63).
  destruct (Z.leb_spec (- 2 ^ 63) v); [|lia]. destruct (Z.ltb_spec v (2 ^ 63)); [done|lia].
Qed.

Lemma pack_div a b k : 0 <= b < k -> (a * k + b) / k = a.
Proof. intros Hb. rewrite Z.div_add_l, (Z.div_small b k) by lia. lia. Qed.

Lemma pack_mod a b k : 0 <= b < k -> (a * k + b) mod k = b.
Proof. intros Hb. rewrite Z.add_comm, Z.mod_add, Z.mod_small by lia. done. Qed.

Lemma decode_time_packed v h mi s us (rest : bytes) :
  0 <= h < 2 ^ 10 -> 0 <= mi < 2 ^ 6 -> 0 <= s < 2 ^ 6 -> 0 <= us < 2 ^ 24 ->
  Z.abs v = pack_time h mi s us ->
  decode_time (encode_int64 v ++ rest)%list = mk_time h mi s us.
Proof.
  intros Hh Hm Hs Hu Hv. unfold decode_time.
  assert (0 <= pack_time h mi s us < 2 ^ 46) as Hb
    by (unfold pack_time; change (2 ^ 6) with 64; change (2 ^ 24) with 16777216 in *; lia).
  rewrite parse_int64_encode by lia. cbn [mbind result_bind].
  destruct (Z.eqb_spec v 0) as [->|Hne].
  - unfold pack_time in Hv. cbn in Hv. assert (h = 0 /\ mi = 0 /\ s = 0 /\ us = 0) as (-> & -> & -> & ->) by lia. done.
  - replace (if v <? 0 then - v else v) with (pack_time h mi s us)
      by (destruct (Z.ltb_spec v 0); lia).
    rewrite !Z.shiftr_div_pow2, !Z.shiftl_1_l by lia. unfold pack_time.
    rewrite pack_div, !pack_mod by lia. rewrite pack_div by lia.
    replace (((h * 2 ^ 6 + mi) * 2 ^ 6 + s) / 2 ^ 12) with h.
    2:{ change (2 ^ 12) with (2 ^ 6 * 2 ^ 6). rewrite <- Z.div_div, !pack_div by lia. done. }
    rewrite pack_mod, (Z.mod_small h) by lia. done.
Qed.

Lemma decode_datetime_packed y m d h mi s us (rest : bytes) :
  date_ok y m d && time_ok h mi s us = true ->
  decode_datetime (encode_int64 (pack_datetime y m d h mi s us) ++ rest)%list =
  Ok (VDatetime y m d h mi s us).
Proof.
  unfold date_ok, time_ok, between.
  intros Hok. assert (mk_datetime y m d h mi s us = Ok (VDatetime y m d h mi s us)) as Hmk
    by (unfold mk_datetime, date_ok, time_ok, between; by rewrite Hok).
  assert (forall a b, days_in_month a b <= 31) as Hdim
    by (intros a b; unfold days_in_month; repeat case_match; lia).
  zify_bool. specialize (Hdim y m). unfold decode_datetime.
  assert (0 <= pack_datetime y m d h mi s us < 2 ^ 63) as Hb.
  { unfold pack_datetime. change (2 ^ 5) with 32. change (2 ^ 6) with 64. change (2 ^ 17) with 131072.
    change (2 ^ 24) with 16777216. lia. }
  assert (pack_datetime y m d h mi s us <> 0).
  { unfold pack_datetime. change (2 ^ 5) with 32. change (2 ^ 6) with 64. change (2 ^ 17) with 131072.
    change (2 ^ 24) with 16777216. lia. }
  rewrite parse_int64_encode by lia. cbn [mbind result_bind].
  destruct (Z.eqb_spec (pack_datetime y m d h mi s us) 0); [lia|].
  destruct (Z.ltb_spec (pack_datetime y m d h mi s us) 0); [lia|].
  rewrite !Z.shiftr_div_pow2, !Z.shiftl_1_l by lia. unfold pack_datetime.
  rewrite pack_div, pack_mod by lia. rewrite pack_div, pack_mod by lia.
  rewrite pack_div, pack_mod by lia. rewrite pack_div, pack_mod by lia. rewrite pack_div, pack_mod by lia.
  replace (((h * 2 ^ 6 + mi) * 2 ^ 6 + s) / 2 ^ 12) with h.
  2:{ change (2 ^ 12) with (2 ^ 6 * 2 ^ 6). rewrite <- Z.div_div, !pack_div by lia. done. }
  by rewrite pack_mod by lia.
Qed.

(** Temporal values embedded in JSON documents: decoding a packed datetime
    gives back every valid date and time; decoding a packed time of either
    sign is [datetime.time] of its fields, so that the sign is dropped and an
    hour of 24 or more, which MySQL allows, raises [ValueError]. *)
Theorem packed_temporal_correct (y m d h mi s us : Z) (rest : bytes) :
  (date_ok y m d && time_ok h mi s us = true ->
     decode_datetime (encode_int64 (pack_datetime y m d h mi s us) ++ rest)%list =
     Ok (VDatetime y m d h mi s us)) /\
  (0 <= h < 839 -> time_ok 0 mi s us = true ->
     forall v, Z.abs v = pack_time h mi s us ->
     decode_time (encode_int64 v ++ rest)%list =
     if h <? 24 then Ok (VTime h mi s us) else Err ValueError).
Proof.
  split; [apply decode_datetime_packed|].
  intros Hh Hok v Hv. unfold time_ok, between in Hok.
  assert (mk_time h mi s us = if h <? 24 then Ok (VTime h mi s us) else Err ValueError) as Hmk.
  { unfold mk_time, time_ok, between. rewrite (proj2 (Z.leb_le 0 h)) by lia.
    destruct (Z.ltb_spec h 24).
    - rewrite (proj2 (Z.leb_le h 23)) by lia. cbn in Hok |- *. by rewrite Hok.
    - by rewrite (proj2 (Z.leb_gt h 23)) by lia. }
  zify_bool. by rewrite (decode_time_packed v h mi s us) by lia.
Qed.

Lemma packed_temporal_correct_witness :
  decode_datetime (encode_int64 (pack_datetime 2024 2 29 23 59 58 123456)) = Ok (VDatetime 2024 2 29 23 59 58 123456) /\
  decode_time (encode_int64 (- pack_time 25 0 0 0)) = Err ValueError.
Proof.
  split.
  - rewrite <- (app_nil_r (encode_int64 _)). exact (proj1 (packed_temporal_correct 2024 2 29 23 59 58 123456 []) eq_refl).
  - rewrite <- (app_nil_r (encode_int64 _)).
    exact (proj2 (packed_temporal_correct 1 1 1 25 0 0 0 []) ltac:(lia) eq_refl (- pack_time 25 0 0 0) eq_refl).
Defined.
