(* ===== verification/JsonBinary.v ===== *)
(** * Binary JSON

    [pymysqlreplication/json_binary.py] and
    [BinLogPacketWrapper.read_binary_json] of [packet.py].  The mutual
    recursion of [parse_json] and [parse_json_object_or_array] is bounded by
    [depth], the number of nested calls the interpreter's recursion limit
    allows; exceeding it raises [RecursionError], as Python does. *)

From stdpp Require Import base list strings.
From Stdlib Require Import ZArith Lia Ascii.
From S2P Require Import Prelude PyBytes PyStr Values UtilBytes Packet.
Open Scope string_scope.
Open Scope Z_scope.

Definition JSONB_TYPE_SMALL_OBJECT : Z := 0x0.
Definition JSONB_TYPE_LARGE_OBJECT : Z := 0x1.
Definition JSONB_TYPE_SMALL_ARRAY : Z := 0x2.
Definition JSONB_TYPE_LARGE_ARRAY : Z := 0x3.
Definition JSONB_TYPE_LITERAL : Z := 0x4.
Definition JSONB_TYPE_INT16 : Z := 0x5.
Definition JSONB_TYPE_UINT16 : Z := 0x6.
Definition JSONB_TYPE_INT32 : Z := 0x7.
Definition JSONB_TYPE_UINT32 : Z := 0x8.
Definition JSONB_TYPE_INT64 : Z := 0x9.
Definition JSONB_TYPE_UINT64 : Z := 0xA.
Definition JSONB_TYPE_DOUBLE : Z := 0xB.
Definition JSONB_TYPE_STRING : Z := 0xC.
Definition JSONB_TYPE_OPAQUE : Z := 0xF.

Definition JSONB_LITERAL_NULL : Z := 0x0.
Definition JSONB_LITERAL_TRUE : Z := 0x1.
Definition JSONB_LITERAL_FALSE : Z := 0x2.

Definition JSONB_SMALL_OFFSET_SIZE : Z := 2.
Definition JSONB_LARGE_OFFSET_SIZE : Z := 4.
Definition JSONB_KEY_ENTRY_SIZE_SMALL : Z := 2 + JSONB_SMALL_OFFSET_SIZE.
Definition JSONB_KEY_ENTRY_SIZE_LARGE : Z := 2 + JSONB_LARGE_OFFSET_SIZE.
Definition JSONB_VALUE_ENTRY_SIZE_SMALL : Z := 1 + JSONB_SMALL_OFFSET_SIZE.
Definition JSONB_VALUE_ENTRY_SIZE_LARGE : Z := 1 + JSONB_LARGE_OFFSET_SIZE.

Definition is_json_inline_value (type : Z) (is_small : bool) : bool :=
  if bool_decide (type ∈ [JSONB_TYPE_UINT16; JSONB_TYPE_INT16; JSONB_TYPE_LITERAL]) then true
  else if bool_decide (type ∈ [JSONB_TYPE_INT32; JSONB_TYPE_UINT32]) then negb is_small
  else false.

Definition parse_literal (data : bytes) : result pyval :=
  json_type ← py_index data 0;
  if json_type =? JSONB_LITERAL_NULL then Ok VNone
  else if json_type =? JSONB_LITERAL_TRUE then Ok (VBool true)
  else if json_type =? JSONB_LITERAL_FALSE then Ok (VBool false)
  else Err ValueError.

(** The [FIELD_TYPE] codes [parse_opaque] distinguishes. *)
Definition decimal_types : list Z := [246; 0].
Definition time_types : list Z := [11; 19].
Definition datetime_types : list Z := [10; 12; 18].

Definition parse_opaque (data : bytes) : result pyval :=
  if is_data_short data 1 then Ok VNone
  else
    type_ ← py_index data 0;
    let data := slice_from data 1 in
    '(length, n) ← decode_variable_length data;
    let data := slice data n (n + length) in
    if bool_decide (type_ ∈ decimal_types) then decode_decimal data
    else if bool_decide (type_ ∈ time_types) then decode_time data
    else if bool_decide (type_ ∈ datetime_types) then decode_datetime data
    else VStr <$> utf8_decode ErrIgnore data.

Section containers.
(** The recursive call, [parse_json]. *)
Context (parse : Z -> bytes -> result pyval).
Context (bs : bytes) (is_small is_object : bool).
Context (offset_size key_entry_size value_entry_size count : Z).

Definition parse_key (i : nat) : result bytes :=
  let entry_offset := 2 * offset_size + key_entry_size * Z.of_nat i in
  key_offset ← decode_count (slice_from bs entry_offset) is_small;
  key_length ← decode_uint (slice_from bs (entry_offset + offset_size));
  Ok (slice bs key_offset (key_offset + key_length)).

(** One iteration of the value loop; [None] is the early [return None]. *)
Definition parse_value (i : nat) : result (option pyval) :=
  let entry_offset := 2 * offset_size + value_entry_size * Z.of_nat i in
  let entry_offset := if is_object then entry_offset + key_entry_size * count else entry_offset in
  json_type ← py_index bs entry_offset;
  if is_json_inline_value json_type is_small then
    Some <$> parse json_type (slice bs (entry_offset + 1) (entry_offset + value_entry_size))
  else
    value_offset ← decode_count (slice_from bs (entry_offset + 1)) is_small;
    if is_data_short bs value_offset then Ok None
    else Some <$> parse json_type (slice_from bs value_offset).

Fixpoint parse_values (l : list nat) : result (option (list pyval)) :=
  match l with
  | [] => Ok (Some [])
  | i :: l' =>
      v ← parse_value i;
      match v with
      | None => Ok None
      | Some v =>
          vs ← parse_values l';
          match vs with None => Ok None | Some vs => Ok (Some (v :: vs)) end
      end
  end.
End containers.

Definition parse_json_object_or_array (parse : Z -> bytes -> result pyval)
    (bs : bytes) (is_small is_object : bool) : result pyval :=
  let offset_size := if is_small then JSONB_SMALL_OFFSET_SIZE else JSONB_LARGE_OFFSET_SIZE in
  count ← decode_count bs is_small;
  size ← decode_count (slice_from bs offset_size) is_small;
  let key_entry_size := if is_small then JSONB_KEY_ENTRY_SIZE_SMALL else JSONB_KEY_ENTRY_SIZE_LARGE in
  let value_entry_size := if is_small then JSONB_VALUE_ENTRY_SIZE_SMALL else JSONB_VALUE_ENTRY_SIZE_LARGE in
  if is_data_short bs size then Err ValueError
  else
    let header_size := 2 * offset_size + count * value_entry_size in
    let header_size := if is_object then header_size + count * key_entry_size else header_size in
    if size <? header_size then Err ValueError
    else
      let indices := seq 0 (Z.to_nat count) in
      keys ← (if is_object then mapM_result (parse_key bs is_small offset_size key_entry_size) indices
              else Ok []);
      values ← parse_values parse bs is_small is_object offset_size key_entry_size value_entry_size count indices;
      match values with
      | None => Ok VNone
      | Some values =>
          if negb is_object then Ok (VList values)
          else Ok (VDict (foldl (fun out kv => dict_set out (fst kv) (snd kv)) [] (zip keys values)))
      end.

Fixpoint parse_json (depth : nat) (type : Z) (data : bytes) : result pyval :=
  match depth with
  | O => Err RecursionError
  | S depth' =>
      let obj := parse_json_object_or_array (parse_json depth') in
      if type =? JSONB_TYPE_SMALL_OBJECT then obj data true true
      else if type =? JSONB_TYPE_LARGE_OBJECT then obj data false true
      else if type =? JSONB_TYPE_SMALL_ARRAY then obj data true false
      else if type =? JSONB_TYPE_LARGE_ARRAY then obj data false false
      else if type =? JSONB_TYPE_LITERAL then parse_literal data
      else if type =? JSONB_TYPE_INT16 then VInt <$> parse_int16 data
      else if type =? JSONB_TYPE_UINT16 then VInt <$> parse_uint16 data
      else if type =? JSONB_TYPE_INT32 then VInt <$> parse_int32 data
      else if type =? JSONB_TYPE_UINT32 then VInt <$> parse_uint32 data
      else if type =? JSONB_TYPE_INT64 then VInt <$> parse_int64 data
      else if type =? JSONB_TYPE_UINT64 then VInt <$> parse_uint64 data
      else if type =? JSONB_TYPE_DOUBLE then parse_double data
      else if type =? JSONB_TYPE_STRING then
        '(length, n) ← decode_variable_length data; Ok (VBytes (parse_string n length data))
      else if type =? JSONB_TYPE_OPAQUE then parse_opaque data
      else Err ValueError
  end.

(** ** Partial updates *)

Inductive JsonDiffOperation := Replace | Insert | Remove.

Definition by_index (index : Z) : result JsonDiffOperation :=
  if index =? 0 then Ok Replace else if index =? 1 then Ok Insert
  else if index =? 2 then Ok Remove else Err ValueError.

Record JsonDiff := mkJsonDiff { op : JsonDiffOperation; path : bytes; value : pyval }.

Inductive json_cell :=
  | JsonValue (v : pyval)
  | JsonPatch (d : JsonDiff).

(** [data[:n]] where a length of [None] means the whole of [data]. *)
Definition slice_to_opt (data : bytes) (n : option Z) : bytes :=
  match n with Some n => slice_to data n | None => data end.
(** [data[n:]], likewise. *)
Definition slice_from_opt (data : bytes) (n : option Z) : bytes :=
  match n with Some n => slice_from data n | None => data end.

(** The part of [read_binary_json] after the bytes have been read. *)
Definition decode_json_data (depth : nat) (is_partial : bool) (data : bytes) : result json_cell :=
  if is_partial then
    operation_number ← py_index data 0;
    json_operation ← by_index operation_number;
    let data := slice_from data 1 in
    '(path_length, _, n) ← length_encoded_int data;
    let data := slice_from data n in
    let path := slice_to_opt data path_length in
    let data := slice_from_opt data path_length in
    '(value_length, _, n) ← length_encoded_int data;
    match json_operation with
    | Remove => Ok (JsonPatch (mkJsonDiff json_operation path VNone))
    | _ =>
        let data := slice_from data n in
        let data := slice_to_opt data value_length in
        t ← py_index data 0;
        v ← parse_json depth t (slice_from data 1);
        Ok (JsonPatch (mkJsonDiff json_operation path v))
    end
  else
    t ← py_index data 0;
    v ← parse_json depth t (slice_from data 1);
    Ok (JsonValue v).

(** [read_binary_json]: a zero length is SQL [NULL]. *)
Definition read_binary_json {P} `{MysqlPacket P} (depth : nat) (size : Z) (is_partial : bool)
  : PM P (option json_cell) :=
  length ← read_uint_by_size size;
  if decide (length = Some 0) then mret None
  else data ← read_opt length; st_lift (Some <$> decode_json_data depth is_partial data).

(** [{"a": [1, true]}] as a server writes it. *)
Example parse_json_example :
  parse_json 3 JSONB_TYPE_SMALL_OBJECT
    [1; 0; 22; 0;  11; 0; 1; 0;  2; 12; 0;  97;
     2; 0; 10; 0;  5; 1; 0;  4; 1; 0] =
  Ok (VDict [([97], VList [VInt 1; VBool true])]).
Proof. vm_compute. reflexivity. Qed.

(** A value offset of zero makes the parser call itself on the same bytes. *)
Lemma parse_cyclic_array parse :
  parse_json_object_or_array parse [1; 0; 7; 0;  2; 0; 0] true false =
  (v ← parse JSONB_TYPE_SMALL_ARRAY [1; 0; 7; 0;  2; 0; 0]; Ok (VList [v])).
Proof. vm_compute. by destruct (parse 2 [1; 0; 7; 0; 2; 0; 0]). Qed.

Example parse_json_cyclic : forall depth,
  parse_json depth JSONB_TYPE_SMALL_ARRAY [1; 0; 7; 0;  2; 0; 0] = Err RecursionError.
Proof.
  induction depth as [|d IH]; [done|]. transitivity
    (parse_json_object_or_array (parse_json d) [1; 0; 7; 0;  2; 0; 0] true false); [done|].
  by rewrite parse_cyclic_array, IH.
Qed.
