(* ===== verification/JsonDoc.v ===== *)
(** * Binary JSON documents

    The encoding of a JSON document as a MySQL server writes it to the binary
    log, and the proof that [JsonBinary.parse_json] inverts it: scalars at the
    width the server chose, strings, opaque decimals, times and datetimes, and
    arrays and objects in the small and the large format, with their entries
    inlined where the format says so. *)

From stdpp Require Import base sets list strings.
From Stdlib Require Import ZArith Lia Ascii.
From S2P Require Import Prelude PyBytes PyStr Values UtilBytes Packet JsonBinary.
Open Scope string_scope.
Open Scope Z_scope.
Open Scope list_scope.

(** ** Documents *)

Inductive jwidth := W16 | W32 | W64.

Definition width_bytes (w : jwidth) : nat := match w with W16 => 2 | W32 => 4 | W64 => 8 end.
Definition width_bits (w : jwidth) : Z := match w with W16 => 16 | W32 => 32 | W64 => 64 end.

(** [JArray small] and [JObject small]: [small] is the format with offsets of
    two bytes, otherwise they have four. *)
Inductive jdoc :=
  | JNull
  | JBool (b : bool)
  | JInt (w : jwidth) (signed : bool) (z : Z)
  | JDouble (bits : Z)
  | JString (s : bytes)
  | JDecimal (neg : bool) (precision decimals coeff : Z)
  | JTime (h mi s us : Z)
  | JDatetime (y m d h mi s us : Z)
  | JArray (small : bool) (l : list jdoc)
  | JObject (small : bool) (l : list (bytes * jdoc)).

Section jdoc_ind.
Context (Q : jdoc -> Prop).
Hypothesis Hatom : forall d, match d with JArray _ _ | JObject _ _ => True | _ => Q d end.
Hypothesis Harray : forall s l, Forall Q l -> Q (JArray s l).
Hypothesis Hobject : forall s l, Forall Q l.*2 -> Q (JObject s l).

Fixpoint jdoc_nested_ind (d : jdoc) : Q d :=
  match d with
  | JArray s l => Harray s l ((fix go l : Forall Q l := match l with
      | [] => Forall_nil_2 _
      | x :: l' => Forall_cons_2 _ _ _ (jdoc_nested_ind x) (go l')
      end) l)
  | JObject s l => Hobject s l ((fix go (l : list (bytes * jdoc)) : Forall Q l.*2 := match l with
      | [] => Forall_nil_2 _
      | (_, x) :: l' => Forall_cons_2 _ _ _ (jdoc_nested_ind x) (go l')
      end) l)
  | d => Hatom d
  end.
End jdoc_ind.

(** The Python object a document stands for. *)
Fixpoint jval (d : jdoc) : pyval :=
  match d with
  | JNull => VNone
  | JBool b => VBool b
  | JInt _ _ z => VInt z
  | JDouble bits => VFloat bits
  | JString s => VBytes s
  | JDecimal neg _ decimals c => VDecimal neg c (- decimals)
  | JTime h mi s us => VTime h mi s us
  | JDatetime y m d h mi s us => VDatetime y m d h mi s us
  | JArray _ l => VList (map jval l)
  | JObject _ l => VDict (map (fun kd => (fst kd, jval (snd kd))) l)
  end.

(** Nesting depth, the number of nested calls of [parse_json] it takes. *)
Fixpoint jdepth (d : jdoc) : nat :=
  match d with
  | JArray _ l => S (foldr (fun x n => max (jdepth x) n) O l)
  | JObject _ l => S (foldr (fun kd n => max (jdepth (snd kd)) n) O l)
  | _ => 1%nat
  end.

(** ** The encoding *)

Definition jtype (d : jdoc) : Z :=
  match d with
  | JNull | JBool _ => 4
  | JInt W16 true _ => 5
  | JInt W16 false _ => 6
  | JInt W32 true _ => 7
  | JInt W32 false _ => 8
  | JInt W64 true _ => 9
  | JInt W64 false _ => 10
  | JDouble _ => 11
  | JString _ => 12
  | JDecimal _ _ _ _ | JTime _ _ _ _ | JDatetime _ _ _ _ _ _ _ => 15
  | JArray small _ => if small then 2 else 3
  | JObject small _ => if small then 0 else 1
  end.

(** The number an inlined scalar stores in its entry. *)
Definition jnum (d : jdoc) : Z :=
  match d with JBool true => 1 | JBool false => 2 | JInt _ _ z => z | _ => 0 end.

Definition inlined (small : bool) (d : jdoc) : bool :=
  match d with
  | JNull | JBool _ | JInt W16 _ _ => true
  | JInt W32 _ _ => negb small
  | _ => false
  end.

(** Two's complement at [n] bytes. *)
Definition le_signed (n : nat) (z : Z) : bytes := le_encode n (z mod 256 ^ Z.of_nat n).

(** Seven bits per byte, least significant first; the high bit marks that
    another byte follows.  [n] bounds the number of further bytes. *)
Fixpoint var_length (n : nat) (z : Z) : bytes :=
  match n with
  | O => [z]
  | S n' => if z <? 128 then [z] else (128 + z mod 128) :: var_length n' (z / 128)
  end.

Definition with_length (bs : bytes) : bytes := var_length 4 (zlen bs) ++ bs.
Definition opaque (field_type : Z) (bs : bytes) : bytes := field_type :: with_length bs.

(** An entry of a container: its type, the number it inlines or [None], and
    the bytes stored behind the header. *)
Record cell := mkcell { c_type : Z; c_inline : option Z; c_body : bytes }.

Section container.
Context (small : bool) (keys : option (list bytes)) (cells : list cell).

Definition osize : nat := if small then 2 else 4.
Definition key_texts : list bytes := default [] keys.
Definition bodies : list bytes := map c_body cells.

Definition header_length : Z :=
  2 * Z.of_nat osize + zlen key_texts * Z.of_nat (osize + 2) + zlen cells * Z.of_nat (osize + 1).
Definition key_offset (i : nat) : Z := header_length + zlen (concat (take i key_texts)).
Definition body_offset (i : nat) : Z :=
  header_length + zlen (concat key_texts) + zlen (concat (take i bodies)).
Definition total_length : Z := header_length + zlen (concat key_texts) + zlen (concat bodies).

Definition key_entry (i : nat) (k : bytes) : bytes := le_encode osize (key_offset i) ++ le_encode 2 (zlen k).
Definition value_entry (i : nat) (c : cell) : bytes :=
  c_type c :: match c_inline c with
              | Some z => le_signed osize z
              | None => le_encode osize (body_offset i)
              end.

Definition header : bytes :=
  (le_encode osize (zlen cells) ++ le_encode osize total_length) ++
  concat (imap key_entry key_texts) ++ concat (imap value_entry cells).

Definition container : bytes := header ++ concat key_texts ++ concat bodies.
End container.

Definition jcell (small : bool) (d : jdoc) (body : bytes) : cell :=
  if inlined small d then mkcell (jtype d) (Some (jnum d)) [] else mkcell (jtype d) None body.

Fixpoint jbody (d : jdoc) : bytes :=
  match d with
  | JNull | JBool _ => [jnum d]
  | JInt w _ z => le_signed (width_bytes w) z
  | JDouble bits => le_encode 8 bits
  | JString s => with_length s
  | JDecimal neg precision decimals c =>
      opaque 246 (precision :: decimals :: decimal_encode neg precision decimals c)
  | JTime h mi s us => opaque 11 (encode_int64 (pack_time h mi s us))
  | JDatetime y m d h mi s us => opaque 12 (encode_int64 (pack_datetime y m d h mi s us))
  | JArray small l => container small None (map (fun d => jcell small d (jbody d)) l)
  | JObject small l =>
      container small (Some (map fst l)) (map (fun kd => jcell small (snd kd) (jbody (snd kd))) l)
  end.

(** ** Documents a server can write *)

Definition container_fits (small : bool) (keys : option (list bytes)) (cells : list cell) : Prop :=
  total_length small keys cells < 256 ^ Z.of_nat (osize small) /\
  Forall (fun k => zlen k < 2 ^ 16) (key_texts keys).

Definition jatom_ok (d : jdoc) : Prop :=
  match d with
  | JInt w true z => - 2 ^ (width_bits w - 1) <= z < 2 ^ (width_bits w - 1)
  | JInt w false z => 0 <= z < 2 ^ width_bits w
  | JDouble bits => 0 <= bits < 2 ^ 64
  | JString s => zlen s < 2 ^ 35
  | JDecimal _ precision decimals c =>
      0 <= decimals <= precision /\ 0 < precision <= 65 /\ 0 <= c < 10 ^ precision
  | JTime h mi s us => time_ok h mi s us = true
  | JDatetime y m d h mi s us => date_ok y m d && time_ok h mi s us = true
  | JArray small l => container_fits small None (map (fun d => jcell small d (jbody d)) l)
  | JObject small l =>
      NoDup (map fst l) /\
      container_fits small (Some (map fst l)) (map (fun kd => jcell small (snd kd) (jbody (snd kd))) l)
  | _ => True
  end.

Definition is_atom (d : jdoc) : bool := match d with JArray _ _ | JObject _ _ => false | _ => true end.

Inductive jok : jdoc -> Prop :=
  | jok_atom d : is_atom d = true -> jatom_ok d -> jok d
  | jok_array s l : jatom_ok (JArray s l) -> Forall jok l -> jok (JArray s l)
  | jok_object s l : jatom_ok (JObject s l) -> Forall jok l.*2 -> jok (JObject s l).

Example jbody_example :
  jbody (JObject true [([97], JArray true [JInt W16 true 1; JBool true])]) =
  [1; 0; 22; 0;  11; 0; 1; 0;  2; 12; 0;  97;  2; 0; 10; 0;  5; 1; 0;  4; 1; 0].
Proof. vm_compute. reflexivity. Qed.

(** ** Scalars *)

Lemma le_encode_mod n k z : (n <= k)%nat -> le_encode n (z mod 256 ^ Z.of_nat k) = le_encode n z.
Proof.
  revert k z; induction n as [|n IH]; intros k z Hk; [done|]. destruct k as [|k]; [lia|].
  cbn [le_encode]. rewrite Nat2Z.inj_succ, Z.pow_succ_r by lia. f_equal.
  - rewrite Z.rem_mul_r by (try apply Z.pow_nonzero; lia). rewrite Z.mul_comm, Z.mod_add by lia.
    apply Z.mod_mod; lia.
  - rewrite Z.rem_mul_r by (try apply Z.pow_nonzero; lia).
    rewrite Z.mul_comm, Z.div_add by lia.
    rewrite (Z.div_small (z mod 256)) by (apply Z.mod_pos_bound; lia). apply IH. lia.
Qed.

Lemma take_le_encode n m z : (n <= m)%nat -> take n (le_encode m z) = le_encode n z.
Proof.
  revert m z; induction n as [|n IH]; intros m z Hm; [done|]. destruct m as [|m]; [lia|].
  cbn. f_equal. apply IH. lia.
Qed.

Lemma slice_to_take {A} (l : list A) n : slice_to l (Z.of_nat n) = take n l.
Proof. unfold slice_to. destruct (Z.ltb_spec (Z.of_nat n) 0); [lia|]. by rewrite Nat2Z.id. Qed.

(** The first [n] bytes of a number stored at [m] bytes. *)
Lemma slice_to_number n m z (rest : bytes) :
  (n <= m)%nat -> slice_to (le_signed m z ++ rest) (Z.of_nat n) = le_encode n z.
Proof.
  intros Hn. rewrite slice_to_take. unfold le_signed.
  rewrite take_app_le by (rewrite le_encode_length; lia).
  rewrite take_le_encode by done. by apply le_encode_mod.
Qed.

Lemma unpack_ule_number n m z (rest : bytes) :
  (n <= m)%nat -> 0 <= z < 256 ^ Z.of_nat n ->
  unpack_ule n (slice_to (le_signed m z ++ rest) (Z.of_nat n)) = Ok z.
Proof.
  intros Hn Hz. rewrite slice_to_number by done. unfold unpack_ule.
  rewrite decide_True by apply le_encode_length. by rewrite le_decode_encode.
Qed.

Lemma unpack_sle_number n m z (rest : bytes) :
  (0 < n <= m)%nat -> - 2 ^ (8 * Z.of_nat n - 1) <= z < 2 ^ (8 * Z.of_nat n - 1) ->
  unpack_sle n (slice_to (le_signed m z ++ rest) (Z.of_nat n)) = Ok z.
Proof.
  intros Hn Hz. rewrite slice_to_number by lia.
  apply (pack_unpack_sle n z); [lia|]. unfold pack_sle.
  rewrite (proj2 (Z.leb_le _ _)), (proj2 (Z.ltb_lt _ _)) by lia. cbn.
  by rewrite le_encode_mod by lia.
Qed.

Lemma le_encode_small n z : 0 <= z < 256 ^ Z.of_nat n -> le_encode n z = le_signed n z.
Proof. intros Hz. unfold le_signed. by rewrite Z.mod_small. Qed.

Lemma decode_count_number small z (rest : bytes) :
  0 <= z < 256 ^ Z.of_nat (osize small) ->
  decode_count (le_encode (osize small) z ++ rest) small = Ok z.
Proof.
  intros Hz. rewrite le_encode_small by done.
  unfold decode_count, parse_uint16, parse_uint32.
  destruct small; [apply (unpack_ule_number 2 2)|apply (unpack_ule_number 4 4)]; auto.
Qed.

(** ** Variable-length lengths *)

Lemma length_byte b : byte_ok b -> Z.land b 0x7F = b mod 128 /\ (Z.land b 0x80 =? 0) = (b <? 128).
Proof.
  intros Hb. split.
  - change 0x7F with (Z.ones 7). by rewrite Z.land_ones by lia.
  - pose proof (byte_forall (fun b => Bool.eqb (Z.land b 0x80 =? 0) (b <? 128)) eq_refl b Hb) as H.
    by apply Bool.eqb_prop in H.
Qed.

(** One iteration of the loop. *)
Lemma variable_length_step m (pre l : bytes) a b :
  byte_ok b -> 0 <= a < 2 ^ (7 * zlen pre) -> 7 * zlen pre <= 28 ->
  let a' := a + b mod 128 * 2 ^ (7 * zlen pre) in
  decode_variable_length_loop (S m) (pre ++ b :: l) (zlen pre) a =
  if b <? 128 then Ok (a', zlen pre + 1)
  else decode_variable_length_loop m (pre ++ b :: l) (zlen pre + 1) a'.
Proof.
  intros Hb Ha Hp a'. pose proof (zlen_nonneg pre). destruct (length_byte b Hb) as [E7 E8].
  assert (2 ^ (7 * zlen pre) <= 2 ^ 28) by (apply Z.pow_le_mono_r; lia).
  assert (0 <= b mod 128 < 128) by (apply Z.mod_pos_bound; lia).
  cbn [decode_variable_length_loop]. rewrite py_index_nonneg by lia.
  replace (Z.to_nat (zlen pre)) with (length pre) by (unfold zlen; lia).
  rewrite lookup_app_r, Nat.sub_diag by lia. cbn [lookup list_lookup of_option mbind result_bind].
  rewrite E7, E8, lor_shiftl_add, Z.shiftl_mul_pow2 by lia. fold a'.
  assert (a' < 2 ^ 35) by (unfold a'; change (2 ^ 35) with (128 * 2 ^ 28); nia).
  destruct (b <? 128); [|done].
  destruct (Z.ltb_spec (sys_maxsize - 1) a') as [Hbig|]; [unfold sys_maxsize in Hbig; lia|done].
Qed.

Lemma var_length_loop n m (pre rest : bytes) a z :
  (length (var_length n z) <= m)%nat -> zlen pre + Z.of_nat n < 5 -> 0 <= z < 128 ^ (Z.of_nat n + 1) -> 0 <= a < 2 ^ (7 * zlen pre) ->
  decode_variable_length_loop m (pre ++ var_length n z ++ rest) (zlen pre) a =
  Ok (a + z * 2 ^ (7 * zlen pre), zlen (pre ++ var_length n z)).
Proof.
  revert m pre a z. induction n as [|n IH]; intros m pre a z Hm Hp Hz Ha;
    cbn [var_length] in Hm |- *; pose proof (zlen_nonneg pre) as Hpre;
    (destruct m as [|m]; [repeat case_match; cbn in Hm; lia|]).
  - change (128 ^ (Z.of_nat 0 + 1)) with 128 in Hz. cbn [app].
    rewrite variable_length_step by (unfold byte_ok; lia).
    rewrite (proj2 (Z.ltb_lt z 128)), Z.mod_small by lia. by rewrite zlen_app.
  - destruct (Z.ltb_spec z 128) as [Hs|Hs]; cbn [length] in Hm.
    + cbn [app]. rewrite variable_length_step by (unfold byte_ok; lia).
      rewrite (proj2 (Z.ltb_lt z 128)), Z.mod_small by lia. by rewrite zlen_app.
    + assert (0 <= z mod 128 < 128) as Hmod by (apply Z.mod_pos_bound; lia). set (b := 128 + z mod 128).
      assert (b mod 128 = z mod 128) as Eb
        by (unfold b; replace (128 + z mod 128) with (z mod 128 + 1 * 128) by lia;
            rewrite Z.mod_add by lia; apply Z.mod_mod; lia).
      cbn [app]. rewrite variable_length_step by (unfold byte_ok, b; lia).
      rewrite (proj2 (Z.ltb_ge b 128)), Eb by (unfold b; lia).
      assert (2 ^ (7 * (zlen pre + 1)) = 128 * 2 ^ (7 * zlen pre)) as Epow
        by (rewrite Z.mul_add_distr_l, Z.pow_add_r by lia; change (2 ^ (7 * 1)) with 128; lia).
      specialize (IH m (pre ++ [b]) (a + z mod 128 * 2 ^ (7 * zlen pre)) (z / 128)).
      replace (zlen (pre ++ [b])) with (zlen pre + 1) in IH by (by rewrite zlen_app).
      rewrite <- !app_assoc, Epow in IH. cbn [app] in IH.
      rewrite IH; [|lia|lia| |nia].
      * pose proof (Z.div_mod z 128). f_equal; f_equal; nia.
      * split; [apply Z.div_pos; lia|]. apply Z.div_lt_upper_bound; [lia|].
        rewrite Nat2Z.inj_succ, Z.add_succ_l, Z.pow_succ_r in Hz by lia. lia.
Qed.

Lemma var_length_bytes n z : 0 < zlen (var_length n z) <= Z.of_nat n + 1.
Proof.
  revert z; induction n as [|n IH]; intros z; cbn [var_length]; [unfold zlen; cbn [length]; lia|].
  case_match; [unfold zlen; cbn [length]; lia|]. rewrite zlen_cons. specialize (IH (z / 128)). lia.
Qed.

Lemma decode_with_length bs (rest : bytes) :
  zlen bs < 2 ^ 35 ->
  decode_variable_length (with_length bs ++ rest) = Ok (zlen bs, zlen (var_length 4 (zlen bs))).
Proof.
  intros Hb. unfold decode_variable_length, with_length. rewrite <- app_assoc.
  pose proof (zlen_nonneg bs). pose proof (var_length_bytes 4 (zlen bs)) as Hv.
  set (vl := var_length 4 (zlen bs)) in *. set (m := if _ <? 5 then _ else 5).
  assert (zlen vl <= m).
  { subst m. rewrite zlen_app. pose proof (zlen_nonneg (bs ++ rest)). case_match; lia. }
  pose proof (var_length_loop 4 (Z.to_nat m) [] (bs ++ rest) 0 (zlen bs)) as H1.
  fold vl in H1. cbn [app] in H1. change (zlen (@nil Z)) with 0 in H1. rewrite H1.
  - f_equal. f_equal. lia.
  - unfold zlen in *. lia.
  - lia.
  - change (128 ^ (Z.of_nat 4 + 1)) with (2 ^ 35). lia.
  - cbn. lia.
Qed.

Lemma slice_with_length bs (rest : bytes) :
  let n := zlen (var_length 4 (zlen bs)) in
  slice (with_length bs ++ rest) n (n + zlen bs) = bs /\
  parse_string n (zlen bs) (with_length bs ++ rest) = bs.
Proof.
  cbn zeta. unfold with_length, slice, parse_string. rewrite <- app_assoc. split.
  - replace (Z.to_nat (_ + _ - _)) with (length bs) by (unfold zlen; lia).
    replace (Z.to_nat (zlen _)) with (length (var_length 4 (zlen bs))) by (unfold zlen; lia).
    by rewrite drop_app_length, take_app_length.
  - by rewrite slice_from_app, slice_to_app.
Qed.

Lemma parse_opaque_payload t bs (rest : bytes) :
  zlen bs < 2 ^ 35 ->
  parse_opaque (opaque t bs ++ rest) =
  if bool_decide (t ∈ decimal_types) then decode_decimal bs
  else if bool_decide (t ∈ time_types) then decode_time bs
  else if bool_decide (t ∈ datetime_types) then decode_datetime bs
  else VStr <$> utf8_decode ErrIgnore bs.
Proof.
  intros Hb. unfold parse_opaque, opaque, is_data_short. cbn [app].
  pose proof (zlen_nonneg (with_length bs ++ rest)).
  rewrite (proj2 (Z.ltb_ge _ _)) by (rewrite zlen_cons; lia).
  rewrite py_index_head. cbn [mbind result_bind].
  change (slice_from (t :: with_length bs ++ rest) 1) with (with_length bs ++ rest).
  rewrite decode_with_length by done. cbn [mbind result_bind].
  by destruct (slice_with_length bs rest) as [-> _].
Qed.

Lemma zlen_int64 v : zlen (encode_int64 v) = 8.
Proof. unfold encode_int64. by rewrite zlen_le_encode. Qed.

(** A decimal takes at most four bytes for each digit. *)
Lemma decimal_encode_length neg precision decimals c :
  0 <= decimals <= precision -> 0 < precision <= 65 ->
  zlen (decimal_encode neg precision decimals c) < 1000.
Proof.
  intros Hd Hp. unfold decimal_encode, decimal_body. cbv zeta.
  assert (forall bs, length (flip_sign bs) = length bs) as Hf by (by intros []).
  unfold zlen. rewrite Hf, length_map, !length_app, !be_encode_length, !encode_groups_length.
  assert (forall k, (group_size k <= 4)%nat) as Hg.
  { intros k. unfold group_size. destruct (compressed_bytes !! Z.to_nat k) as [x|] eqn:E; cbn; [|lia].
    apply list_elem_of_lookup_2 in E. unfold compressed_bytes in E. repeat (apply elem_of_cons in E as [->|E]; [cbn; lia|]).
    by apply not_elem_of_nil in E. }
  pose proof (Hg ((precision - decimals) mod 9)). pose proof (Hg (decimals mod 9)).
  assert ((precision - decimals) / 9 <= 65) by (apply Z.div_le_upper_bound; lia).
  assert (decimals / 9 <= 65) by (apply Z.div_le_upper_bound; lia). lia.
Qed.

Lemma parse_int_atom n w signed z (rest : bytes) :
  jatom_ok (JInt w signed z) -> (width_bytes w <= n)%nat ->
  forall depth, parse_json (S depth) (jtype (JInt w signed z)) (le_signed n z ++ rest) = Ok (VInt z).
Proof.
  intros Hok Hn depth. cbn [parse_json]. 
  destruct w, signed; cbn [width_bytes width_bits jatom_ok jtype] in *; cbn [Z.eqb Pos.eqb
    JSONB_TYPE_SMALL_OBJECT];
  [ change (VInt <$> parse_int16 (le_signed n z ++ rest) = Ok (VInt z))
  | change (VInt <$> parse_uint16 (le_signed n z ++ rest) = Ok (VInt z))
  | change (VInt <$> parse_int32 (le_signed n z ++ rest) = Ok (VInt z))
  | change (VInt <$> parse_uint32 (le_signed n z ++ rest) = Ok (VInt z))
  | change (VInt <$> parse_int64 (le_signed n z ++ rest) = Ok (VInt z))
  | change (VInt <$> parse_uint64 (le_signed n z ++ rest) = Ok (VInt z)) ].
  - unfold parse_int16. by rewrite (unpack_sle_number 2) by (cbn; lia).
  - unfold parse_uint16. by rewrite (unpack_ule_number 2) by (cbn; lia).
  - unfold parse_int32. by rewrite (unpack_sle_number 4) by (cbn; lia).
  - unfold parse_uint32. by rewrite (unpack_ule_number 4) by (cbn; lia).
  - unfold parse_int64. by rewrite (unpack_sle_number 8) by (cbn; lia).
  - unfold parse_uint64. by rewrite (unpack_ule_number 8) by (cbn; lia).
Qed.

Lemma parse_atom d (rest : bytes) depth :
  is_atom d = true -> jatom_ok d -> parse_json (S depth) (jtype d) (jbody d ++ rest) = Ok (jval d).
Proof.
  intros Ha Hok. destruct d; try discriminate Ha.
  - done.
  - by destruct b.
  - by apply parse_int_atom.
  - cbn [jtype jbody jval]. cbn in Hok.
    change (parse_double (le_encode 8 bits ++ rest) = Ok (VFloat bits)). unfold parse_double.
    rewrite le_encode_small by (change (256 ^ Z.of_nat 8) with (2 ^ 64); lia).
    by rewrite (unpack_ule_number 8 8) by (cbn; lia).
  - cbn [jtype jbody jval]. cbn [jatom_ok] in Hok.
    change (('(length, n) ← decode_variable_length (with_length s ++ rest);
             Ok (VBytes (parse_string n length (with_length s ++ rest)))) = Ok (VBytes s)).
    rewrite decode_with_length by done. cbn [mbind result_bind].
    by destruct (slice_with_length s rest) as [_ ->].
  - destruct Hok as (Hd & Hp & Hc). cbn [jtype jbody jval].
    change (parse_opaque (opaque 246 (precision :: decimals :: decimal_encode neg precision decimals coeff) ++ rest) =
            Ok (VDecimal neg coeff (- decimals))).
    pose proof (decimal_encode_length neg precision decimals coeff Hd Hp).
    rewrite parse_opaque_payload by (rewrite !zlen_cons; lia).
    change (decode_decimal (precision :: decimals :: decimal_encode neg precision decimals coeff) =
            Ok (VDecimal neg coeff (- decimals))).
    apply decimal_bytes_parsed; [done|lia|done].
  - cbn [jtype jbody jval]. cbn [jatom_ok] in Hok.
    change (parse_opaque (opaque 11 (encode_int64 (pack_time h mi s us)) ++ rest) = Ok (VTime h mi s us)).
    rewrite parse_opaque_payload by (rewrite zlen_int64; lia).
    change (decode_time (encode_int64 (pack_time h mi s us)) = Ok (VTime h mi s us)).
    rewrite <- (app_nil_r (encode_int64 _)).
    assert (mk_time h mi s us = Ok (VTime h mi s us)) as <- by (unfold mk_time; by rewrite Hok).
    unfold time_ok, between in Hok. zify_bool. apply decode_time_packed; try lia.
    unfold pack_time. apply Z.abs_eq. lia.
  - cbn [jtype jbody jval]. cbn [jatom_ok] in Hok.
    change (parse_opaque (opaque 12 (encode_int64 (pack_datetime y m d h mi s us)) ++ rest) =
            Ok (VDatetime y m d h mi s us)).
    rewrite parse_opaque_payload by (rewrite zlen_int64; lia).
    change (decode_datetime (encode_int64 (pack_datetime y m d h mi s us)) = Ok (VDatetime y m d h mi s us)).
    rewrite <- (app_nil_r (encode_int64 _)). by apply decode_datetime_packed.
Qed.

(** ** Containers *)

(** [x] is found at offset [off] of [bs]. *)
Definition found_at (bs : bytes) (off : Z) (x : bytes) : Prop := exists t, slice_from bs off = x ++ t.

Lemma slice_from_add (bs : bytes) a b : 0 <= a -> 0 <= b -> slice_from bs (a + b) = slice_from (slice_from bs a) b.
Proof.
  intros Ha Hb. unfold slice_from.
  rewrite (proj2 (Z.ltb_ge (a + b) 0)), (proj2 (Z.ltb_ge a 0)), (proj2 (Z.ltb_ge b 0)) by lia.
  rewrite drop_drop. f_equal. lia.
Qed.

Lemma found_split (pre x t : bytes) off : off = zlen pre -> found_at (pre ++ x ++ t) off x.
Proof. intros ->. exists t. apply slice_from_app. Qed.

(** The [i]-th piece of a concatenation. *)
Lemma found_piece (pre post bs : bytes) (ls : list bytes) i x off :
  bs = pre ++ concat ls ++ post -> ls !! i = Some x -> off = zlen pre + zlen (concat (take i ls)) ->
  found_at bs off x.
Proof.
  intros -> Hi ->. rewrite <- (take_drop_middle ls i x Hi) at 1.
  rewrite concat_app. cbn [concat]. rewrite <- !app_assoc, app_assoc.
  apply found_split. by rewrite zlen_app.
Qed.

Lemma concat_uniform_length (ls : list bytes) w i :
  Forall (fun l => zlen l = w) ls -> (i <= length ls)%nat -> zlen (concat (take i ls)) = w * Z.of_nat i.
Proof.
  revert i; induction ls as [|l ls IH]; intros i Hw Hi; 
    (destruct i as [|i]; [cbn [take concat]; rewrite zlen_nil; lia|]); cbn [length] in Hi; [lia|].
  inversion Hw as [|?? Hl Hw']; subst. cbn [take concat]. rewrite zlen_app, IH by (done || lia). lia.
Qed.

(** The [i]-th of entries of one width. *)
Lemma found_entry (pre post bs : bytes) (ls : list bytes) w i x off :
  bs = pre ++ concat ls ++ post ->
  Forall (fun l => zlen l = w) ls -> ls !! i = Some x -> off = zlen pre + w * Z.of_nat i ->
  found_at bs off x.
Proof.
  intros Hbs Hw Hi ->. apply (found_piece pre post bs ls i); [done|done|].
  rewrite (concat_uniform_length _ w) by (try apply lookup_lt_Some in Hi; done || lia). done.
Qed.

Lemma map_lookup_seq {A} (d : A) (l : list A) : map (fun i => default d (l !! i)) (seq 0 (length l)) = l.
Proof.
  apply list_eq. intros i. change (@map nat A) with (@fmap list _ nat A). rewrite list_lookup_fmap.
  destruct (decide (i < length l)%nat) as [Hi|Hi].
  - rewrite lookup_seq_lt by done. cbn. by destruct (lookup_lt_is_Some_2 l i Hi) as [x ->].
  - rewrite lookup_seq_ge by lia. symmetry. apply lookup_ge_None. lia.
Qed.

Lemma Forall_imap_width {A} (f : nat -> A -> bytes) w (l : list A) :
  (forall i x, zlen (f i x) = w) -> Forall (fun e => zlen e = w) (imap f l).
Proof.
  intros Hf. apply Forall_forall. intros e He. apply list_elem_of_lookup in He as [i Hi].
  rewrite list_lookup_imap in Hi. destruct (l !! i); cbn in Hi; simplify_eq. apply Hf.
Qed.

Section parse_container.
Context (parse : Z -> bytes -> result pyval) (small : bool) (keys : option (list bytes)) (cells : list cell).
Context (values : list pyval) (rest : bytes).

Let o : Z := Z.of_nat (osize small).
Let is_object : bool := match keys with Some _ => true | None => false end.
Let bs : bytes := container small keys cells ++ rest.
Let ksize : Z := o + 2.
Let vsize : Z := o + 1.
Let nkeys : Z := zlen (key_texts keys).

(** Each entry reads back as its value. *)
Definition cell_parses (c : cell) (v : pyval) : Prop :=
  is_json_inline_value (c_type c) small = bool_decide (is_Some (c_inline c)) /\
  match c_inline c with
  | Some z => parse (c_type c) (le_signed (osize small) z) = Ok v
  | None => forall t, parse (c_type c) (c_body c ++ t) = Ok v
  end.

Hypothesis Hfits : container_fits small keys cells.
Hypothesis Hkeys : match keys with Some ks => length ks = length cells | None => True end.
Hypothesis Hcells : Forall2 cell_parses cells values.

Lemma osize_pos : 2 <= o <= 4.
Proof. unfold o, osize. destruct small; lia. Qed.

Lemma key_entry_width : Forall (fun e => zlen e = ksize) (imap (key_entry small keys cells) (key_texts keys)).
Proof. apply Forall_imap_width. intros. unfold key_entry. rewrite zlen_app, !zlen_le_encode. unfold ksize, o. lia. Qed.

Lemma value_entry_width : Forall (fun e => zlen e = vsize) (imap (value_entry small keys cells) cells).
Proof.
  apply Forall_imap_width. intros i c. unfold value_entry, le_signed.
  destruct (c_inline c); rewrite zlen_cons, zlen_le_encode; unfold vsize, o; lia.
Qed.

Lemma entries_length (ls : list bytes) w : Forall (fun l => zlen l = w) ls -> zlen (concat ls) = w * zlen ls.
Proof.
  intros Hw. rewrite <- (take_ge ls (length ls)) at 1 by lia. by rewrite (concat_uniform_length _ w) by (done || lia).
Qed.

Lemma header_app : zlen (header small keys cells) = header_length small keys cells.
Proof.
  unfold header. rewrite !zlen_app, !zlen_le_encode.
  rewrite (entries_length _ _ key_entry_width), (entries_length _ _ value_entry_width).
  unfold zlen at 1 2. rewrite !length_imap. fold (zlen (key_texts keys)) (zlen cells).
  unfold header_length, ksize, vsize, o. lia.
Qed.

Lemma total_length_eq : zlen (container small keys cells) = total_length small keys cells.
Proof. unfold container, total_length. rewrite !zlen_app, header_app. lia. Qed.

Lemma header_bounds :
  header_length small keys cells = 2 * o + nkeys * ksize + zlen cells * vsize /\
  header_length small keys cells <= total_length small keys cells < 256 ^ o.
Proof.
  destruct Hfits as [Hlt _]. unfold total_length in *. fold o in Hlt.
  pose proof (zlen_nonneg (concat (key_texts keys))). pose proof (zlen_nonneg (concat (bodies cells))).
  split; [|lia]. unfold header_length, nkeys, ksize, vsize, o. lia.
Qed.

(** Where the pieces of the container are. *)
Lemma found_count : found_at bs 0 (le_encode (osize small) (zlen cells)).
Proof. unfold bs, container, header. rewrite <- !app_assoc. by eexists. Qed.

Lemma found_size : found_at bs o (le_encode (osize small) (total_length small keys cells)).
Proof. unfold bs, container, header. rewrite <- !app_assoc. apply found_split. by rewrite zlen_le_encode. Qed.

Lemma found_key_entry i k :
  key_texts keys !! i = Some k -> found_at bs (2 * o + ksize * Z.of_nat i) (key_entry small keys cells i k).
Proof.
  intros Hi. eapply (found_entry (le_encode (osize small) (zlen cells) ++ le_encode (osize small) (total_length small keys cells))).
  - unfold bs, container, header. by rewrite <- !app_assoc.
  - apply key_entry_width.
  - by rewrite list_lookup_imap, Hi.
  - rewrite zlen_app, !zlen_le_encode. unfold o. lia.
Qed.

Lemma found_value_entry i c :
  cells !! i = Some c ->
  found_at bs (2 * o + nkeys * ksize + vsize * Z.of_nat i) (value_entry small keys cells i c).
Proof.
  intros Hi. eapply (found_entry ((le_encode (osize small) (zlen cells) ++ le_encode (osize small) (total_length small keys cells))
                        ++ concat (imap (key_entry small keys cells) (key_texts keys)))).
  - unfold bs, container, header. by rewrite <- !app_assoc.
  - apply value_entry_width.
  - by rewrite list_lookup_imap, Hi.
  - rewrite !zlen_app, !zlen_le_encode, (entries_length _ _ key_entry_width).
    unfold zlen at 1. rewrite length_imap. fold (zlen (key_texts keys)) nkeys. unfold o. lia.
Qed.

Lemma found_key i k : key_texts keys !! i = Some k -> found_at bs (key_offset small keys cells i) k.
Proof.
  intros Hi. eapply (found_piece (header small keys cells) _ _ _ i); [|done|by rewrite header_app].
  unfold bs, container. by rewrite <- !app_assoc.
Qed.

Lemma found_body i c : cells !! i = Some c -> found_at bs (body_offset small keys cells i) (c_body c).
Proof.
  intros Hi. eapply (found_piece (header small keys cells ++ concat (key_texts keys)) _ _ (bodies cells) i).
  - unfold bs, container. by rewrite <- !app_assoc.
  - unfold bodies. by rewrite list_lookup_fmap, Hi.
  - by rewrite zlen_app, header_app.
Qed.

(** Offsets lie inside the container. *)
Lemma concat_take_le (ls : list bytes) i : 0 <= zlen (concat (take i ls)) <= zlen (concat ls).
Proof.
  split; [apply zlen_nonneg|]. rewrite <- (take_drop i ls) at 2. rewrite concat_app, zlen_app.
  pose proof (zlen_nonneg (concat (drop i ls))). lia.
Qed.

Lemma offsets_fit i :
  0 <= key_offset small keys cells i < 256 ^ o /\ 0 <= body_offset small keys cells i < 256 ^ o /\
  body_offset small keys cells i <= zlen bs.
Proof.
  pose proof header_bounds as [_ Hh]. pose proof (zlen_nonneg (header small keys cells)) as H0. rewrite header_app in H0.
  pose proof (concat_take_le (key_texts keys) i). pose proof (concat_take_le (bodies cells) i).
  pose proof (zlen_nonneg rest). unfold bs. rewrite zlen_app, total_length_eq.
  unfold total_length, key_offset, body_offset in *. lia.
Qed.

Lemma decode_count_found off z :
  found_at bs off (le_encode (osize small) z) -> 0 <= z < 256 ^ o -> decode_count (slice_from bs off) small = Ok z.
Proof. intros [t ->] Hz. by apply decode_count_number. Qed.

Lemma parse_key_found i k :
  key_texts keys !! i = Some k -> parse_key bs small o ksize i = Ok k.
Proof.
  intros Hi. unfold parse_key. pose proof (offsets_fit i) as (Hko & _ & _).
  destruct (found_key_entry i k Hi) as [t Ht]. unfold key_entry in Ht. rewrite <- app_assoc in Ht.
  rewrite (decode_count_found _ (key_offset small keys cells i)) by (done || by eexists).
  cbn [mbind result_bind]. rewrite slice_from_add, Ht by (pose proof osize_pos; lia).
  replace o with (zlen (le_encode (osize small) (key_offset small keys cells i))) at 1 by (by rewrite zlen_le_encode).
  rewrite slice_from_app. destruct Hfits as [_ Hk]. rewrite Forall_lookup in Hk. specialize (Hk i k Hi).
  pose proof (zlen_nonneg k). unfold decode_uint, is_data_short, parse_uint16.
  rewrite (proj2 (Z.ltb_ge _ _)) by (rewrite zlen_app, zlen_le_encode; pose proof (zlen_nonneg t); lia).
  rewrite le_encode_small, (unpack_ule_number 2 2) by (cbn; lia). cbn [mbind result_bind].
  f_equal. destruct (found_key i k Hi) as [t' Ht']. unfold slice.
  unfold slice_from in Ht'. rewrite (proj2 (Z.ltb_ge _ _)) in Ht' by lia. rewrite Ht'.
  replace (Z.to_nat (_ + _ - _)) with (length k) by (unfold zlen; lia). by rewrite take_app_length.
Qed.

Lemma nkeys_eq : nkeys = if is_object then zlen cells else 0.
Proof. unfold nkeys, is_object, key_texts. destruct keys as [ks|]; [|done]. cbn. unfold zlen. by rewrite Hkeys. Qed.

Lemma parse_value_found i c v :
  cells !! i = Some c -> cell_parses c v ->
  parse_value parse bs small is_object o ksize vsize (zlen cells) i = Ok (Some v).
Proof.
  intros Hi [Hinl Hv]. unfold parse_value.
  replace (if is_object then _ else _) with (2 * o + nkeys * ksize + vsize * Z.of_nat i)
    by (rewrite nkeys_eq; destruct is_object; lia).
  set (off := 2 * o + _ + _). pose proof osize_pos as Ho. pose proof (zlen_nonneg (key_texts keys)) as Hn. fold nkeys in Hn.
  assert (0 <= off) by (unfold off, ksize, vsize; nia).
  destruct (found_value_entry i c Hi) as [t Ht]. fold off in Ht. unfold value_entry in Ht. cbn [app] in Ht.
  assert (py_index bs off = Ok (c_type c)) as ->.
  { rewrite py_index_nonneg by done. unfold slice_from in Ht. rewrite (proj2 (Z.ltb_ge _ _)) in Ht by lia.
    by rewrite <- (Nat.add_0_r (Z.to_nat off)), <- lookup_drop, Ht. }
  assert (slice_from bs (off + 1) = match c_inline c with
      | Some z => le_signed (osize small) z
      | None => le_encode (osize small) (body_offset small keys cells i) end ++ t) as Ht'
    by (rewrite slice_from_add, Ht by lia; done).
  cbn [mbind result_bind]. rewrite Hinl. destruct (c_inline c) as [z|] eqn:Ec.
  - rewrite bool_decide_eq_true_2 by done. unfold slice. unfold slice_from in Ht'.
    rewrite (proj2 (Z.ltb_ge _ _)) in Ht' by lia. rewrite Ht'.
    replace (Z.to_nat (_ + _ - _)) with (length (le_signed (osize small) z))
      by (unfold le_signed, vsize, o; rewrite le_encode_length; lia).
    rewrite take_app_length, Hv. done.
  - rewrite bool_decide_eq_false_2 by (intros [? ?]; done).
    pose proof (offsets_fit i) as (_ & Hbo & Hle).
    rewrite (decode_count_found _ (body_offset small keys cells i)) by (done || by eexists).
    cbn [mbind result_bind]. unfold is_data_short. rewrite (proj2 (Z.ltb_ge _ _)) by lia.
    destruct (found_body i c Hi) as [t' ->]. by rewrite Hv.
Qed.

Lemma parse_values_found (l : list nat) :
  Forall (fun i => (i < length cells)%nat) l ->
  parse_values parse bs small is_object o ksize vsize (zlen cells) l =
  Ok (Some (map (fun i => default VNone (values !! i)) l)).
Proof.
  induction l as [|i l IH]; intros Hl; [done|]. inversion Hl as [|?? Hi Hl']; subst. cbn [parse_values map].
  destruct (lookup_lt_is_Some_2 cells i Hi) as [c Hc].
  destruct (Forall2_lookup_l _ _ _ _ _ Hcells Hc) as (v & Hv & Hp).
  rewrite (parse_value_found i c v Hc Hp). cbn [mbind result_bind]. rewrite IH by done. cbn. by rewrite Hv.
Qed.

Lemma parse_keys_found :
  (if is_object then mapM_result (parse_key bs small o ksize) (seq 0 (length cells)) else Ok []) = Ok (key_texts keys).
Proof.
  pose proof nkeys_eq as Hn. unfold nkeys, zlen in Hn. destruct is_object.
  - apply Nat2Z.inj in Hn. rewrite (mapM_result_map _ (fun i => default [] (key_texts keys !! i))).
    + by rewrite <- Hn, map_lookup_seq.
    + intros i Hi. apply elem_of_seq in Hi. destruct (lookup_lt_is_Some_2 (key_texts keys) i) as [k Hk]; [lia|].
      by rewrite (parse_key_found i k Hk), Hk.
  - by destruct (key_texts keys).
Qed.

(** A container of entries that read back reads back. *)
Lemma parse_container_found :
  parse_json_object_or_array parse bs small is_object =
  Ok (if is_object then VDict (foldl (fun out kv => dict_set out (fst kv) (snd kv)) [] (zip (key_texts keys) values))
      else VList values).
Proof.
  unfold parse_json_object_or_array.
  replace (if small then JSONB_SMALL_OFFSET_SIZE else JSONB_LARGE_OFFSET_SIZE) with o by (unfold o, osize; by destruct small).
  replace (if small then JSONB_KEY_ENTRY_SIZE_SMALL else JSONB_KEY_ENTRY_SIZE_LARGE) with ksize by (unfold ksize, o, osize; by destruct small).
  replace (if small then JSONB_VALUE_ENTRY_SIZE_SMALL else JSONB_VALUE_ENTRY_SIZE_LARGE) with vsize by (unfold vsize, o, osize; by destruct small).
  pose proof header_bounds as [Hh Ht]. pose proof osize_pos. pose proof (zlen_nonneg cells).
  assert (0 <= nkeys) by apply zlen_nonneg.
  assert (zlen cells < 256 ^ o) by (unfold ksize, vsize in Hh; nia).
  pose proof (decode_count_found 0 (zlen cells) found_count ltac:(lia)) as Hc. rewrite (Hc : decode_count bs small = _).
  cbn [mbind result_bind]. rewrite (decode_count_found o _ found_size) by nia. cbn [mbind result_bind].
  assert (is_data_short bs (total_length small keys cells) = false) as ->
    by (unfold is_data_short, bs; rewrite zlen_app, total_length_eq; pose proof (zlen_nonneg rest); apply Z.ltb_ge; lia).
  replace (if is_object then _ else _) with (header_length small keys cells)
    by (rewrite Hh, nkeys_eq; destruct is_object; lia).
  rewrite (proj2 (Z.ltb_ge _ _)) by lia.
  replace (Z.to_nat (zlen cells)) with (length cells) by (unfold zlen; lia).
  rewrite parse_keys_found. cbn [mbind result_bind].
  rewrite parse_values_found by (apply Forall_forall; intros i Hi; apply elem_of_seq in Hi; lia).
  cbn [mbind result_bind]. rewrite (Forall2_length _ _ _ Hcells), map_lookup_seq. by destruct is_object.
Qed.
End parse_container.

(** ** Documents *)

Lemma inline_agrees small d : is_json_inline_value (jtype d) small = inlined small d.
Proof. by destruct d as [|[]|[] []| | | | | |[]|[]], small. Qed.

Lemma inline_atom small d : inlined small d = true -> is_atom d = true.
Proof. by destruct d. Qed.

Lemma parse_inlined small d depth :
  inlined small d = true -> jok d ->
  parse_json (S depth) (jtype d) (le_signed (osize small) (jnum d)) = Ok (jval d).
Proof.
  intros Hi Hok. destruct d as [|b|w signed z| | | | | | |]; try discriminate Hi.
  - by destruct small.
  - by destruct b, small.
  - inversion Hok as [? _ Ha| |]; subst. rewrite <- (app_nil_r (le_signed _ _)).
    apply parse_int_atom; [done|]. destruct w, small; cbn in *; lia || discriminate Hi.
Qed.

Definition reads_back (d : jdoc) : Prop := forall depth rest,
  (jdepth d <= depth)%nat -> parse_json depth (jtype d) (jbody d ++ rest) = Ok (jval d).

Lemma jcell_parses small d depth :
  jok d -> reads_back d -> (jdepth d <= depth)%nat ->
  cell_parses (parse_json depth) small (jcell small d (jbody d)) (jval d).
Proof.
  intros Hok Hd Hn. unfold cell_parses, jcell. destruct depth as [|depth]; [destruct d; cbn in Hn; lia|].
  destruct (inlined small d) eqn:Ei; cbn [c_type c_inline c_body]; rewrite inline_agrees, Ei; (split; [done|]).
  - by apply parse_inlined.
  - intros t. by apply Hd.
Qed.

Lemma dict_of_pairs {V} (l pre : list (bytes * V)) :
  NoDup (dict_keys (pre ++ l)) ->
  foldl (fun out kv => dict_set out (fst kv) (snd kv)) pre l = pre ++ l.
Proof.
  revert pre. induction l as [|[k v] l IH]; intros pre Hnd; cbn [foldl fst snd]; [by rewrite app_nil_r|].
  rewrite dict_set_new.
  - rewrite IH; rewrite <- app_assoc; [done|]. exact Hnd.
  - unfold dict_keys in *. rewrite fmap_app, NoDup_app in Hnd. destruct Hnd as (_ & Hd & _). cbn in Hd. set_solver.
Qed.

Lemma zip_map_both {A B C} (f : A -> B) (g : A -> C) (l : list A) :
  zip (map f l) (map g l) = map (fun x => (f x, g x)) l.
Proof. induction l as [|x l IH]; [done|]. cbn. by rewrite IH. Qed.

Lemma depth_max {A} (f : A -> nat) (l : list A) n :
  (foldr (fun x m => max (f x) m) O l <= n)%nat -> Forall (fun x => f x <= n)%nat l.
Proof. induction l as [|x l IH]; cbn; intros H; constructor; [lia|]. apply IH. lia. Qed.

Lemma array_reads_back small l :
  Forall (fun d => jok d -> reads_back d) l -> jok (JArray small l) -> reads_back (JArray small l).
Proof.
  intros Hl Hok depth rest Hd. inversion Hok as [? Hat| |]; [discriminate Hat|]; subst. destruct depth as [|depth]; [cbn in Hd; lia|].
  cbn [jdepth] in Hd. assert (foldr (fun x n => max (jdepth x) n) 0%nat l <= depth)%nat as Hm by lia.
  apply depth_max in Hm. rewrite Forall_lookup in Hm, Hl. match goal with H : Forall jok l |- _ => rename H into Hj end.
  pose proof (parse_container_found (parse_json depth) small None (map (fun d => jcell small d (jbody d)) l)
                (map jval l) rest) as Hp. cbn iota zeta in Hp.
  transitivity (parse_json_object_or_array (parse_json depth) (jbody (JArray small l) ++ rest) small false);
    [by destruct small|].
  apply Hp; [done|done|]. apply Forall2_fmap_2, Forall_Forall2_diag. apply Forall_lookup. intros i d Hi.
  rewrite Forall_lookup in Hj. apply jcell_parses; eauto.
Qed.

Lemma object_reads_back small l :
  Forall (fun d => jok d -> reads_back d) l.*2 -> jok (JObject small l) -> reads_back (JObject small l).
Proof.
  intros Hl Hok depth rest Hd. inversion Hok as [? Hat| |]; [discriminate Hat|]; subst. destruct depth as [|depth]; [cbn in Hd; lia|].
  cbn [jdepth] in Hd.
  assert (foldr (fun kd n => max (jdepth (snd kd)) n) 0%nat l <= depth)%nat as Hm by lia.
  apply depth_max in Hm. rewrite Forall_lookup in Hm. match goal with H : Forall jok l.*2 |- _ => rename H into Hj end.
  match goal with H : jatom_ok (JObject small l) |- _ => destruct H as [Hnd Hfit] end.
  pose proof (parse_container_found (parse_json depth) small (Some (map fst l))
                (map (fun kd => jcell small (snd kd) (jbody (snd kd))) l)
                (map (fun kd => jval (snd kd)) l) rest) as Hp. cbn iota zeta in Hp.
  transitivity (parse_json_object_or_array (parse_json depth) (jbody (JObject small l) ++ rest) small true);
    [by destruct small|].
  cbn [jbody]. rewrite Hp; [|done|by rewrite !length_map|].
  - change (key_texts (Some (map fst l))) with (map fst l). rewrite zip_map_both, dict_of_pairs; [done|].
    cbn [app]. unfold dict_keys. change (@fmap list list_fmap) with (@map). rewrite map_map. exact Hnd.
  - apply Forall2_fmap_2, Forall_Forall2_diag. apply Forall_lookup. intros i kd Hi.
    apply (list_lookup_fmap_Some_2 snd) in Hi as Hi2.
    rewrite Forall_lookup in Hj, Hl. apply jcell_parses; [exact (Hj _ _ Hi2)|exact (Hl _ _ Hi2 (Hj _ _ Hi2))|exact (Hm _ _ Hi)].
Qed.

Lemma document_reads_back d : jok d -> reads_back d.
Proof.
  apply (jdoc_nested_ind (fun d => jok d -> reads_back d)); clear d.
  - intros d. destruct d; try exact I; intros Hok depth rest Hd; (destruct depth as [|depth]; [inversion Hd|]);
      inversion Hok; subst; by apply parse_atom.
  - intros small l IH Hok. by apply array_reads_back.
  - intros small l IH Hok. by apply object_reads_back.
Qed.

(** ** The documents of a row *)

Lemma length_encoded_number z (rest : bytes) :
  0 <= z < 2 ^ 24 ->
  length_encoded_int (length_coded z ++ rest) = Ok (Some z, false, zlen (length_coded z)).
Proof.
  intros Hz. unfold length_coded.
  destruct (Z.ltb_spec z 251); [|destruct (Z.ltb_spec z (2 ^ 16))]; cbn [app length_encoded_int Z.eqb Pos.eqb].
  - by repeat (rewrite (proj2 (Z.eqb_neq _ _)) by lia).
  - unfold parse_uint16. rewrite le_encode_small, (unpack_ule_number 2 2) by (cbn; lia). done.
  - assert (parse_uint24 (le_encode 3 z ++ rest) = Ok z) as ->; [|done].
    transitivity (Ok (z mod 256 + Z.shiftl (z / 256 mod 256) 8 + Z.shiftl (z / 256 / 256 mod 256) 16)); [done|].
    rewrite !Z.shiftl_mul_pow2 by lia. f_equal. Z.to_euclidean_division_equations; lia.
Qed.

(** A change of a document, as a partial update records it. *)
Definition op_number (op : JsonDiffOperation) : Z := match op with Replace => 0 | Insert => 1 | Remove => 2 end.

Definition patch_bytes (op : JsonDiffOperation) (path : bytes) (d : jdoc) : bytes :=
  let value := match op with Remove => [] | _ => jtype d :: jbody d end in
  op_number op :: length_coded (zlen path) ++ path ++ length_coded (zlen value) ++ value.

Definition patch_value (op : JsonDiffOperation) (d : jdoc) : pyval :=
  match op with Remove => VNone | _ => jval d end.

Lemma decode_document d depth :
  jok d -> (jdepth d <= depth)%nat -> decode_json_data depth false (jtype d :: jbody d) = Ok (JsonValue (jval d)).
Proof.
  intros Hok Hd. unfold decode_json_data. rewrite py_index_head. cbn [mbind result_bind].
  change (slice_from (jtype d :: jbody d) 1) with (jbody d). rewrite <- (app_nil_r (jbody d)).
  by rewrite document_reads_back.
Qed.

Lemma decode_patch op path d depth (tail : bytes) :
  jok d -> (jdepth d <= depth)%nat -> zlen path < 2 ^ 24 -> zlen (jbody d) < 2 ^ 24 - 1 ->
  decode_json_data depth true (patch_bytes op path d ++ tail) =
  Ok (JsonPatch (mkJsonDiff op path (patch_value op d))).
Proof.
  intros Hok Hd Hp Hv. unfold patch_bytes, decode_json_data.
  set (value := match op with Remove => [] | _ => jtype d :: jbody d end).
  cbn [app]. rewrite py_index_head. cbn [mbind result_bind].
  assert (by_index (op_number op) = Ok op) as -> by (by destruct op). cbn [mbind result_bind].
  change (slice_from (op_number op :: ?x) 1) with x. rewrite <- !app_assoc.
  pose proof (zlen_nonneg path).
  assert (0 <= zlen value < 2 ^ 24).
  { split; [apply zlen_nonneg|]. unfold value. destruct op; rewrite ?zlen_cons, ?zlen_nil; lia. }
  rewrite length_encoded_number by lia. cbn [mbind result_bind].
  rewrite slice_from_app. cbn [slice_to_opt slice_from_opt]. rewrite slice_to_app, slice_from_app.
  rewrite length_encoded_number by lia. cbn [mbind result_bind].
  destruct op; [| |done]; cbn [slice_to_opt]; rewrite slice_from_app, slice_to_app; unfold value;
    rewrite py_index_head; cbn [mbind result_bind];
    change (slice_from (jtype d :: jbody d) 1) with (jbody d);
    rewrite <- (app_nil_r (jbody d)) at 1; by rewrite document_reads_back.
Qed.


(** [{"a": [-2, true, null], "n": 12.50}], the array in the large format. *)
Definition sample_doc : jdoc :=
  JObject true [([97], JArray false [JInt W16 true (-2); JBool true; JNull; JInt W32 false 70000]);
                ([110], JDecimal false 4 2 1250)].

Lemma sample_doc_ok : jok sample_doc.
Proof.
  apply jok_object; [split; [|split; [reflexivity|]]|].
  - by apply (bool_decide_unpack _).
  - repeat constructor.
  - repeat apply Forall_cons_2; [| |apply Forall_nil_2].
    + apply jok_array; [split; [reflexivity|constructor]|].
      repeat apply Forall_cons_2; try apply Forall_nil_2; apply jok_atom; cbn; (done || lia).
    + apply jok_atom; [done|]. cbn. lia.
Qed.

