(* ===== verification/Outcome.v ===== *)
(** * Outcomes of computations on arbitrary input

    A decoder applied to bytes nobody vouches for either returns a value of
    the right shape or raises one of a few exceptions.  [outcome Q E] says this
    of a computation that may raise, [reads k Q E] of one that reads from a
    packet, where [k] is a lower bound on the number of bytes it consumes when
    it returns.  The rules follow the structure of the programs, so that the
    proofs for the decoders are the programs' own shape. *)

From stdpp Require Import base list strings sets.
From Stdlib Require Import ZArith Lia Ascii.
From S2P Require Import Prelude PyBytes PyStr Values UtilBytes Packet.
Open Scope string_scope.
Open Scope Z_scope.

(** ** Computations that may raise *)

Definition outcome {A} (Q : A -> Prop) (E : exn -> Prop) (r : result A) : Prop :=
  match r with Ok a => Q a | Err e => E e end.

Section outcome.
Context (E : exn -> Prop).

Lemma outcome_bind {A B} (Q : A -> Prop) (R : B -> Prop) (m : result A) (f : A -> result B) :
  outcome Q E m -> (forall a, Q a -> outcome R E (f a)) -> outcome R E (mbind f m).
Proof. destruct m; cbn; auto. Qed.

Lemma outcome_fmap {A B} (Q : A -> Prop) (R : B -> Prop) (m : result A) (f : A -> B) :
  outcome Q E m -> (forall a, Q a -> R (f a)) -> outcome R E (f <$> m).
Proof. destruct m; cbn; auto. Qed.

Lemma outcome_mono {A} (Q R : A -> Prop) (E' : exn -> Prop) (m : result A) :
  outcome Q E' m -> (forall a, Q a -> R a) -> (forall e, E' e -> E e) -> outcome R E m.
Proof. destruct m; cbn; auto. Qed.

Lemma outcome_mapM {A B} (Q : B -> Prop) (f : A -> result B) l :
  (forall x, x ∈ l -> outcome Q E (f x)) -> outcome (fun ys => Forall Q ys /\ length ys = length l) E (mapM_result f l).
Proof.
  induction l as [|x l IH]; intros Hf; cbn [mapM_result]; [split; [constructor|done]|].
  eapply outcome_bind; [apply Hf; left|]. intros y Hy.
  eapply outcome_bind; [apply IH; intros; apply Hf; by right|]. intros ys [Hys Hn]. cbn. split; [by constructor|by rewrite Hn].
Qed.
End outcome.

(** The exceptions of a decoder, as a list. *)
Abbreviation among es := (fun e : exn => e ∈ (es : list exn)) (only parsing).

Lemma outcome_of_option {A} (Q : A -> Prop) (E : exn -> Prop) e o :
  E e -> (forall a, o = Some a -> Q a) -> outcome Q E (of_option e o).
Proof. destruct o; cbn; auto. Qed.

Lemma py_index_outcome {A} (l : list A) i (E : exn -> Prop) :
  E IndexError -> outcome (fun x => x ∈ l) E (py_index l i).
Proof.
  intros He. unfold py_index. case_match; [done|]. apply outcome_of_option; [done|].
  intros a. apply list_elem_of_lookup_2.
Qed.

Lemma unpack_ule_outcome n bs (E : exn -> Prop) :
  E StructError -> bytes_ok bs -> outcome (fun z => 0 <= z < 256 ^ Z.of_nat n) E (unpack_ule n bs).
Proof.
  intros He Hb. unfold unpack_ule. case_decide as Hn; [|done]. cbn. subst n. by apply le_decode_bound.
Qed.

Lemma unpack_sle_outcome n bs (E : exn -> Prop) :
  (0 < n)%nat -> E StructError -> bytes_ok bs ->
  outcome (fun z => - 2 ^ (8 * Z.of_nat n - 1) <= z < 2 ^ (8 * Z.of_nat n - 1)) E (unpack_sle n bs).
Proof.
  intros Hn He Hb. unfold unpack_sle. eapply outcome_fmap; [by apply unpack_ule_outcome|].
  intros z Hz. rewrite pow_256_2 in Hz. apply to_signed_range; lia.
Qed.

(** Slices of bytes are bytes. *)
Lemma slice_from_ok bs n : bytes_ok bs -> bytes_ok (slice_from bs n).
Proof. apply Forall_drop. Qed.
Lemma slice_to_ok bs n : bytes_ok bs -> bytes_ok (slice_to bs n).
Proof. apply Forall_take. Qed.
Lemma slice_ok bs a b : bytes_ok bs -> bytes_ok (slice bs a b).
Proof. intros. by apply Forall_take, Forall_drop. Qed.
Lemma elem_byte_ok b bs : bytes_ok bs -> b ∈ bs -> byte_ok b.
Proof. intros Hb. by apply Forall_forall. Qed.
#[export] Hint Resolve slice_from_ok slice_to_ok slice_ok elem_byte_ok : py.

(** Membership in a list of exceptions written out. *)
Ltac in_list := repeat first [apply list_elem_of_here | apply list_elem_of_further].
#[export] Hint Extern 2 (_ ∈ _ :: _) => (in_list; fail) : py.

(** One step through a program: the first computation of a bind by a lemma of
    the database, the continuation by the caller. *)
Ltac ostep := eapply outcome_bind; [solve [eauto with py]|]; intros ? ?.

#[export] Hint Resolve py_index_outcome unpack_ule_outcome unpack_sle_outcome : py.

(** ** Readers *)

Section reads.
Context {P : Type} `{MysqlPacketLaws P}.

(** Everything the packet can still deliver is bytes. *)
Definition wrapper_ok (w : wrapper P) : Prop := bytes_ok (data_buffer w) /\ bytes_ok (pk_data (packet w)).

(** From a state whose packet is well-formed: a result that satisfies [Q] after
    at least [k] bytes, and a well-formed packet; or an exception of [E].
    [view] is the packet of a state. *)
Definition gives {S A} (view : S -> wrapper P) (k : Z) (Q : A -> Prop) (E : exn -> Prop) (m : ST S A) : Prop :=
  forall s, wrapper_ok (view s) ->
  match m s with
  | (Ok a, s') => wrapper_ok (view s') /\ read_bytes (view s) + k <= read_bytes (view s') /\ Q a
  | (Err e, _) => E e
  end.

Section rules.
Context {S : Type} (view : S -> wrapper P).

Lemma gives_ret {A} (Q : A -> Prop) E a : Q a -> gives view 0 Q E (mret a).
Proof. intros Hq s Hs. cbn. split; [done|]. split; [lia|done]. Qed.

Lemma gives_raise {A} (Q : A -> Prop) (E : exn -> Prop) e k : E e -> gives view k Q E (st_raise e).
Proof. by intros He s Hs. Qed.

Lemma gives_lift {A} (Q : A -> Prop) E (r : result A) : outcome Q E r -> gives view 0 Q E (st_lift r).
Proof. intros Hr s Hs. unfold st_lift. destruct r; cbn in *; [|done]. split; [done|]. split; [lia|done]. Qed.

Lemma gives_bind {A B} k1 k2 k (Q : A -> Prop) (R : B -> Prop) E (m : ST S A) (f : A -> ST S B) :
  gives view k1 Q E m -> (forall a, Q a -> gives view k2 R E (f a)) -> k <= k1 + k2 -> gives view k R E (mbind f m).
Proof.
  intros Hm Hf Hk s Hs. rewrite st_bind_eq. specialize (Hm s Hs). destruct (m s) as [[a|e] s1]; [|done].
  destruct Hm as (Hs1 & Hk1 & Ha). specialize (Hf a Ha s1 Hs1). destruct (f a s1) as [[b|e] s2]; [|done].
  destruct Hf as (? & ? & ?). split; [done|]. split; [lia|done].
Qed.

(** What follows the first computation need not consume anything. *)
Lemma gives_head {A B} k (Q : A -> Prop) (R : B -> Prop) E (m : ST S A) (f : A -> ST S B) :
  gives view k Q E m -> (forall a, Q a -> gives view 0 R E (f a)) -> gives view k R E (mbind f m).
Proof. intros Hm Hf. eapply gives_bind; [done|done|lia]. Qed.

Lemma gives_tail {A B} k (Q : A -> Prop) (R : B -> Prop) E (m : ST S A) (f : A -> ST S B) :
  gives view 0 Q E m -> (forall a, Q a -> gives view k R E (f a)) -> gives view k R E (mbind f m).
Proof. intros Hm Hf. eapply gives_bind; [done|done|lia]. Qed.

Lemma gives_less {A} k (Q : A -> Prop) E (m : ST S A) : 0 <= k -> gives view k Q E m -> gives view 0 Q E m.
Proof. intros Hk Hm s Hs. specialize (Hm s Hs). destruct (m s) as [[a|e] s1]; [|done]. destruct Hm as (? & ? & ?). eauto with lia. Qed.

Lemma gives_mono {A} k k' (Q R : A -> Prop) (E E' : exn -> Prop) m :
  gives view k' Q E' m -> k <= k' -> (forall a, Q a -> R a) -> (forall e, E' e -> E e) -> gives view k R E m.
Proof.
  intros Hm Hk Hq He s Hs. specialize (Hm s Hs). destruct (m s) as [[a|e] s1]; [|auto].
  destruct Hm as (? & ? & ?). split; [done|]. split; [lia|auto].
Qed.

Lemma gives_get {B} k (R : B -> Prop) E (f : S -> ST S B) :
  (forall s, gives view k R E (f s)) -> gives view k R E (mbind f st_get).
Proof. intros Hf s Hs. rewrite st_bind_eq. cbn. by apply Hf. Qed.

(** A change that leaves the packet alone. *)
Lemma gives_modify E (f : S -> S) : (forall s, view (f s) = view s) -> gives view 0 (fun _ => True) E (st_modify f).
Proof. intros Hf s Hs. cbn. rewrite Hf. split; [done|]. split; [lia|done]. Qed.
End rules.

Definition reads {A} : Z -> (A -> Prop) -> (exn -> Prop) -> ST (wrapper P) A -> Prop := gives (fun w => w).

Lemma pk_rest_ok p : bytes_ok (pk_data p) -> bytes_ok (pk_rest p).
Proof. apply Forall_drop. Qed.

(** [read] delivers exactly the bytes asked for, or the packet is too short. *)
Lemma reads_read n (E : exn -> Prop) :
  0 <= n -> E AssertionError -> reads n (fun bs => bytes_ok bs /\ zlen bs = n) E (read n).
Proof.
  intros Hn HE w [Hb Hp]. unfold read.
  assert (forall pre buf m, bytes_ok pre -> bytes_ok buf -> 0 <= m -> zlen pre + m = n ->
    match (match pk_read m (packet w) with
           | Ok (d, p') => (Ok (pre ++ d)%list, set_cursor w (read_bytes w + n) buf p')
           | Err e => (Err e, set_cursor w (read_bytes w + n) buf (packet w)) end) with
    | (Ok a, w') => wrapper_ok w' /\ read_bytes w + n <= read_bytes w' /\ bytes_ok a /\ zlen a = n
    | (Err e, _) => E e end) as Hdeliver.
  { intros pre buf m Hpre Hbuf Hm Hlen. destruct (decide (m <= zlen (pk_rest (packet w)))) as [Hle|Hgt].
    - destruct (pk_read_enough m (packet w) (conj Hm Hle)) as (p' & -> & Ed & _). cbn.
      split; [split; [done|cbn; by rewrite Ed]|]. split; [lia|]. split.
      + apply Forall_app. split; [done|]. by apply Forall_take, pk_rest_ok.
      + rewrite zlen_app. unfold zlen in *. rewrite length_take. lia.
    - rewrite pk_read_short by lia. done. }
  destruct (Z.ltb_spec 0 (zlen (data_buffer w))) as [Hpos|Hz].
  - destruct (Z.eqb_spec (zlen (slice_to (data_buffer w) n)) n) as [Heq|Hne].
    + cbn. split; [split; [by apply slice_from_ok|done]|]. split; [lia|]. split; [by apply slice_to_ok|done].
    + apply Hdeliver; [by apply slice_to_ok|by apply slice_from_ok| |lia].
      unfold slice_to, zlen. rewrite (proj2 (Z.ltb_ge n 0)), length_take by lia. lia.
  - apply Hdeliver; [constructor|done|done|]. rewrite zlen_nil. lia.
Qed.

(** Pushing bytes back undoes their reading. *)
Lemma reads_unread bs E : bytes_ok bs -> reads (- zlen bs) (fun _ => True) E (unread bs).
Proof.
  intros Hbs w [Hb Hp]. unfold unread. cbn. split; [split; [by apply Forall_app|done]|]. split; [lia|done].
Qed.
End reads.
