(* ===== verification/JsonTyped.v ===== *)
(** * Binary JSON from arbitrary bytes

    Whatever the bytes of a JSON column, [parse_json] returns a well-formed
    value - dates and times in range, byte strings of bytes, decimals with a
    non-negative coefficient, at every level of nesting - or raises one of
    five exceptions. *)

From stdpp Require Import base list strings sets.
From Stdlib Require Import ZArith Lia Ascii.
From S2P Require Import Prelude PyBytes PyStr Values UtilBytes Packet JsonBinary Outcome.
Open Scope string_scope.
Open Scope Z_scope.

Definition json_errors : list exn := [RecursionError; ValueError; IndexError; StructError; InvalidOperation].

Section errors.
Context (E : exn -> Prop).
Hypothesis HE : forall e, e ∈ json_errors -> E e.

Lemma E_value : E ValueError. Proof. apply HE. in_list. Qed.
Lemma E_index : E IndexError. Proof. apply HE. in_list. Qed.
Lemma E_struct : E StructError. Proof. apply HE. in_list. Qed.
Lemma E_invalid : E InvalidOperation. Proof. apply HE. in_list. Qed.
Lemma E_recursion : E RecursionError. Proof. apply HE. in_list. Qed.
Hint Resolve E_value E_index E_struct E_invalid E_recursion : py.

Lemma decode_count_outcome data small : bytes_ok data -> outcome (fun z => 0 <= z) E (decode_count data small).
Proof.
  intros Hd. unfold decode_count, parse_uint16, parse_uint32.
  destruct small; (eapply outcome_mono; [apply unpack_ule_outcome with (E := E); eauto with py|by intros ? [? ?]|done]).
Qed.

Lemma decode_uint_outcome data : bytes_ok data -> outcome (fun z => 0 <= z) E (decode_uint data).
Proof. intros Hd. unfold decode_uint. case_match; [cbn; lia|by apply (decode_count_outcome data true)]. Qed.

Lemma decode_variable_length_outcome data : outcome (fun _ => True) E (decode_variable_length data).
Proof.
  unfold decode_variable_length. generalize (Z.to_nat (if zlen data <? 5 then zlen data else 5)) as n.
  generalize 0 at 1 as pos. generalize 0 at 1 as len. intros len pos n. revert pos len.
  induction n as [|n IH]; intros pos len; cbn [decode_variable_length_loop]; [done|].
  eapply outcome_bind; [apply py_index_outcome; eauto with py|]. intros v _. repeat case_match; (done || apply IH).
Qed.

Lemma digits_value_nonneg acc s : 0 <= acc -> str_forallb is_digit s = true -> 0 <= digits_value acc s.
Proof.
  revert acc. induction s as [|c s IH]; intros acc Ha Hs; cbn in *; [done|].
  apply andb_true_iff in Hs as [Hc Hs]. apply IH; [|done]. unfold is_digit, in_range, digit_val in *. lia.
Qed.

Lemma decimal_of_str_outcome s : outcome val_ok E (decimal_of_str s).
Proof.
  unfold decimal_of_str. destruct (match s with EmptyString => _ | String _ _ => _ end) as [neg body].
  destruct (split_on "." body) as [|i [|f [|]]]; cbn; eauto with py; case_match eqn:Hc; cbn; eauto with py;
    apply digits_value_nonneg; try lia; zify_bool; rewrite ?str_forallb_app; by repeat (apply andb_true_iff; split).
Qed.

Lemma decompress_outcome i data mask : outcome (fun _ => True) E (decode_decimal_decompress_value i data mask).
Proof.
  unfold decode_decimal_decompress_value. eapply outcome_bind; [apply py_index_outcome; eauto with py|]. intros n _.
  case_match; [|done]. eapply outcome_bind; [apply outcome_mapM with (Q := fun _ => True)|by intros].
  intros k _. eapply outcome_bind; [apply py_index_outcome; eauto with py|by intros].
Qed.

Lemma decimal_groups_outcome n raw mask pointer res :
  outcome (fun _ => True) E (decimal_groups n raw mask pointer res).
Proof.
  revert pointer res. induction n as [|n IH]; intros pointer res; cbn [decimal_groups]; [done|].
  eapply outcome_bind with (Q := fun _ => True); [|intros; apply IH].
  unfold unpack_sbe, unpack_ube. case_decide; cbn; eauto with py.
Qed.

Lemma decode_decimal_outcome data : outcome val_ok E (decode_decimal data).
Proof.
  unfold decode_decimal, parse_decimal_from_bytes.
  do 3 (eapply outcome_bind; [apply py_index_outcome; eauto with py|]; intros ? _).
  eapply outcome_bind; [apply decompress_outcome|]. intros [] _.
  eapply outcome_bind; [apply decimal_groups_outcome|]. intros [] _.
  eapply outcome_bind; [apply decimal_groups_outcome|]. intros [] _.
  eapply outcome_bind; [apply decompress_outcome|]. intros [] _. apply decimal_of_str_outcome.
Qed.

Lemma mk_time_outcome h mi s us : outcome val_ok E (mk_time h mi s us).
Proof. unfold mk_time. case_match eqn:Ht; cbn; eauto with py. Qed.

Lemma mk_datetime_outcome y m d h mi s us : outcome val_ok E (mk_datetime y m d h mi s us).
Proof. unfold mk_datetime. case_match eqn:Ht; cbn; eauto with py. Qed.

Lemma parse_int64_outcome data : bytes_ok data -> outcome (fun _ => True) E (parse_int64 data).
Proof.
  intros Hd. eapply outcome_mono; [apply unpack_sle_outcome with (E := E); eauto with py; lia|done|done].
Qed.

Lemma decode_time_outcome data : bytes_ok data -> outcome val_ok E (decode_time data).
Proof.
  intros Hd. unfold decode_time. eapply outcome_bind; [by apply parse_int64_outcome|]. intros v _.
  case_match; apply mk_time_outcome.
Qed.

Lemma decode_datetime_outcome data : bytes_ok data -> outcome val_ok E (decode_datetime data).
Proof.
  intros Hd. unfold decode_datetime. eapply outcome_bind; [by apply parse_int64_outcome|]. intros v _.
  case_match; [done|apply mk_datetime_outcome].
Qed.

Lemma parse_opaque_outcome data : bytes_ok data -> outcome val_ok E (parse_opaque data).
Proof.
  intros Hd. unfold parse_opaque. case_match; [done|].
  eapply outcome_bind; [apply py_index_outcome; eauto with py|]. intros t _.
  eapply outcome_bind; [apply decode_variable_length_outcome|]. intros [len n] _.
  repeat case_match; [apply decode_decimal_outcome|apply decode_time_outcome; eauto with py
    |apply decode_datetime_outcome; eauto with py|done].
Qed.

Lemma val_ok_list l : Forall val_ok l -> val_ok (VList l).
Proof. induction 1; cbn in *; auto. Qed.

Lemma val_ok_dict d : Forall (fun kv => bytes_ok kv.1 /\ val_ok kv.2) d -> val_ok (VDict d).
Proof. induction 1 as [|[k v] d [? ?] ? IH]; cbn in *; auto. Qed.

Lemma dict_set_Forall {V} (R : bytes * V -> Prop) (d : dict bytes V) k v :
  Forall R d -> R (k, v) -> Forall R (dict_set d k v).
Proof.
  induction 1 as [|[k' v'] d Hkv Hd IH]; intros Hr; cbn; [by constructor|].
  case_decide; constructor; subst; auto.
Qed.

Lemma dict_fold_Forall {V} (R : bytes * V -> Prop) (l d : dict bytes V) :
  Forall R l -> Forall R d -> Forall R (foldl (fun out kv => dict_set out (fst kv) (snd kv)) d l).
Proof.
  intros Hl. revert d. induction Hl as [|[k v] l Hr Hl IH]; intros d Hd; cbn [foldl fst snd]; [done|].
  apply IH. by apply dict_set_Forall.
Qed.

Lemma zip_Forall (ks : list bytes) (vs : list pyval) :
  Forall bytes_ok ks -> Forall val_ok vs -> Forall (fun kv => bytes_ok kv.1 /\ val_ok kv.2) (zip ks vs).
Proof.
  intros Hk. revert vs. induction Hk as [|k ks ? ? IH]; intros vs Hv; [constructor|].
  destruct Hv; cbn; constructor; auto.
Qed.

Section containers.
Context (parse : Z -> bytes -> result pyval).
Hypothesis Hparse : forall t data, bytes_ok data -> outcome val_ok E (parse t data).

Lemma parse_key_outcome bs small o ks i : bytes_ok bs -> outcome bytes_ok E (parse_key bs small o ks i).
Proof.
  intros Hb. unfold parse_key. eapply outcome_bind; [apply decode_count_outcome; eauto with py|]. intros ? _.
  eapply outcome_bind; [apply decode_uint_outcome; eauto with py|]. intros ? _. cbn. eauto with py.
Qed.

Lemma parse_value_outcome bs small obj o ks vs n i :
  bytes_ok bs -> outcome (from_option val_ok True) E (parse_value parse bs small obj o ks vs n i).
Proof.
  intros Hb. unfold parse_value. eapply outcome_bind; [apply py_index_outcome; eauto with py|]. intros t _.
  case_match; [eapply outcome_fmap; [apply Hparse; eauto with py|done]|].
  eapply outcome_bind; [apply decode_count_outcome; eauto with py|]. intros off _.
  case_match; [done|]. eapply outcome_fmap; [apply Hparse; eauto with py|done].
Qed.

Lemma parse_values_outcome bs small obj o ks vs n l :
  bytes_ok bs -> outcome (from_option (Forall val_ok) True) E (parse_values parse bs small obj o ks vs n l).
Proof.
  intros Hb. induction l as [|i l IH]; cbn [parse_values]; [constructor|].
  eapply outcome_bind; [by apply parse_value_outcome|]. intros [v|] Hv; [|done].
  eapply outcome_bind; [apply IH|]. intros [l'|] Hl; [|done]. by constructor.
Qed.

Lemma parse_container_outcome bs small obj :
  bytes_ok bs -> outcome val_ok E (parse_json_object_or_array parse bs small obj).
Proof.
  intros Hb. unfold parse_json_object_or_array.
  eapply outcome_bind; [apply decode_count_outcome; eauto with py|]. intros n _.
  eapply outcome_bind; [apply decode_count_outcome; eauto with py|]. intros sz _.
  case_match; [cbn; eauto with py|]. case_match; [cbn; eauto with py|].
  eapply outcome_bind with (Q := Forall bytes_ok).
  { destruct obj; [|constructor]. eapply outcome_mono; [apply outcome_mapM with (E := E)|by intros ? []|done].
    intros i _. by apply parse_key_outcome. }
  intros keys Hk. eapply outcome_bind; [by apply parse_values_outcome|]. intros [vals|] Hv; [|done].
  destruct obj; [|by apply val_ok_list]. apply val_ok_dict, dict_fold_Forall; [by apply zip_Forall|constructor].
Qed.
End containers.

Lemma parse_json_outcome depth t data : bytes_ok data -> outcome val_ok E (parse_json depth t data).
Proof.
  revert t data. induction depth as [|depth IH]; intros t data Hd; cbn [parse_json]; [cbn; eauto with py|].
  assert (forall n, (0 < n)%nat -> outcome val_ok E (VInt <$> unpack_sle n (slice_to data (Z.of_nat n)))) as Hs
    by (intros n Hn; eapply outcome_fmap; [apply unpack_sle_outcome with (E := E); eauto with py|done]).
  assert (forall n, outcome val_ok E (VInt <$> unpack_ule n (slice_to data (Z.of_nat n)))) as Hu
    by (intros n; eapply outcome_fmap; [apply unpack_ule_outcome with (E := E); eauto with py|done]).
  do 4 (case_match; [by apply parse_container_outcome|]).
  case_match; [unfold parse_literal; eapply outcome_bind; [apply py_index_outcome; eauto with py|];
               intros ? _; repeat case_match; cbn; eauto with py|].
  do 6 (case_match; [first [apply Hu | apply (Hs 2%nat); lia | apply (Hs 4%nat); lia | apply (Hs 8%nat); lia]|]).
  case_match; [eapply outcome_fmap; [apply unpack_ule_outcome with (E := E); eauto with py|done]|].
  case_match; [|case_match; [by apply parse_opaque_outcome|cbn; eauto with py]].
  eapply outcome_bind; [apply decode_variable_length_outcome|]. intros [len n] _. cbn. unfold parse_string. eauto with py.
Qed.
End errors.
