(* ===== verification/Column.v ===== *)
(** * Columns and tables

    [pymysqlreplication/column.py] and [table.py]: the definition of a column
    as it is read from a table map event, and the primary key of a table.
    Attributes the constructor sets for some column types only are options;
    reading a missing one raises [AttributeError]. *)

From stdpp Require Import base list strings.
From Stdlib Require Import ZArith Lia Ascii.
From S2P Require Import Prelude PyBytes PyStr Packet.
Open Scope string_scope.
Open Scope Z_scope.

(** ** [constants/FIELD_TYPE.py] *)

Module FIELD_TYPE.
Definition DECIMAL : Z := 0.
Definition TINY : Z := 1.
Definition SHORT : Z := 2.
Definition LONG : Z := 3.
Definition FLOAT : Z := 4.
Definition DOUBLE : Z := 5.
Definition NULL : Z := 6.
Definition TIMESTAMP : Z := 7.
Definition LONGLONG : Z := 8.
Definition INT24 : Z := 9.
Definition DATE : Z := 10.
Definition TIME : Z := 11.
Definition DATETIME : Z := 12.
Definition YEAR : Z := 13.
Definition NEWDATE : Z := 14.
Definition VARCHAR : Z := 15.
Definition BIT : Z := 16.
Definition TIMESTAMP2 : Z := 17.
Definition DATETIME2 : Z := 18.
Definition TIME2 : Z := 19.
Definition JSON : Z := 245.
Definition NEWDECIMAL : Z := 246.
Definition ENUM : Z := 247.
Definition SET : Z := 248.
Definition TINY_BLOB : Z := 249.
Definition MEDIUM_BLOB : Z := 250.
Definition LONG_BLOB : Z := 251.
Definition BLOB : Z := 252.
Definition VAR_STRING : Z := 253.
Definition STRING : Z := 254.
Definition GEOMETRY : Z := 255.
Definition CHAR : Z := TINY.
Definition INTERVAL : Z := ENUM.
End FIELD_TYPE.

(** ** Columns *)

Record Column := mkColumn {
  type : Z;
  name : option string;
  unsigned : bool;
  is_primary : bool;
  character_set_name : option string;
  collation_name : option string;
  enum_values : option (list string);
  set_values : option (list string);
  visibility : bool;
  max_length : option Z;
  size : option Z;
  fsp : option Z;
  length_size : option Z;
  precision : option Z;
  decimals : option Z;
  bits : option Z;
  col_bytes : option Z
}.

(** The attributes [__parse_column_definition] sets before reading. *)
Definition new_column (column_type : Z) : Column :=
  mkColumn column_type None false false None None None None false None None None None None None None None.

(** Reading an attribute that may not be set. *)
Definition attr {A} (o : option A) : result A := of_option AttributeError o.

Definition set_type (t : Z) (c : Column) : Column :=
  mkColumn t (name c) (unsigned c) (is_primary c) (character_set_name c) (collation_name c)
    (enum_values c) (set_values c) (visibility c) (max_length c) (size c) (fsp c) (length_size c)
    (precision c) (decimals c) (bits c) (col_bytes c).
Definition set_max_length (v : Z) (c : Column) : Column :=
  mkColumn (type c) (name c) (unsigned c) (is_primary c) (character_set_name c) (collation_name c)
    (enum_values c) (set_values c) (visibility c) (Some v) (size c) (fsp c) (length_size c)
    (precision c) (decimals c) (bits c) (col_bytes c).
Definition set_size (v : Z) (c : Column) : Column :=
  mkColumn (type c) (name c) (unsigned c) (is_primary c) (character_set_name c) (collation_name c)
    (enum_values c) (set_values c) (visibility c) (max_length c) (Some v) (fsp c) (length_size c)
    (precision c) (decimals c) (bits c) (col_bytes c).
Definition set_fsp (v : Z) (c : Column) : Column :=
  mkColumn (type c) (name c) (unsigned c) (is_primary c) (character_set_name c) (collation_name c)
    (enum_values c) (set_values c) (visibility c) (max_length c) (size c) (Some v) (length_size c)
    (precision c) (decimals c) (bits c) (col_bytes c).
Definition set_length_size (v : Z) (c : Column) : Column :=
  mkColumn (type c) (name c) (unsigned c) (is_primary c) (character_set_name c) (collation_name c)
    (enum_values c) (set_values c) (visibility c) (max_length c) (size c) (fsp c) (Some v)
    (precision c) (decimals c) (bits c) (col_bytes c).
Definition set_decimal (p d : Z) (c : Column) : Column :=
  mkColumn (type c) (name c) (unsigned c) (is_primary c) (character_set_name c) (collation_name c)
    (enum_values c) (set_values c) (visibility c) (max_length c) (size c) (fsp c) (length_size c)
    (Some p) (Some d) (bits c) (col_bytes c).
Definition set_bits (n b : Z) (c : Column) : Column :=
  mkColumn (type c) (name c) (unsigned c) (is_primary c) (character_set_name c) (collation_name c)
    (enum_values c) (set_values c) (visibility c) (max_length c) (size c) (fsp c) (length_size c)
    (precision c) (decimals c) (Some n) (Some b).

Section parse.
Context {P : Type} `{MysqlPacket P}.

(** [Column.__read_string_metadata] *)
Definition read_string_metadata (self : Column) : PM P Column :=
  hi ← read_uint8; lo ← read_uint8;
  let metadata := Z.shiftl hi 8 + lo in
  let real_type := Z.shiftr metadata 8 in
  if (real_type =? FIELD_TYPE.SET) || (real_type =? FIELD_TYPE.ENUM)
  then mret (set_size (Z.land metadata 0x00FF) (set_type real_type self))
  else mret (set_max_length (Z.lxor (Z.land (Z.shiftr metadata 4) 0x300) 0x300 + Z.land metadata 0x00FF) self).

(** [Column.__parse_column_definition] *)
Definition parse_column_definition (column_type : Z) : PM P Column :=
  let self := new_column column_type in
  if column_type =? FIELD_TYPE.VARCHAR then
    bs ← read 2; v ← st_lift (unpack_ule 2 bs); mret (set_max_length v self)
  else if column_type =? FIELD_TYPE.DOUBLE then v ← read_uint8; mret (set_size v self)
  else if column_type =? FIELD_TYPE.FLOAT then v ← read_uint8; mret (set_size v self)
  else if column_type =? FIELD_TYPE.TIMESTAMP2 then v ← read_uint8; mret (set_fsp v self)
  else if column_type =? FIELD_TYPE.DATETIME2 then v ← read_uint8; mret (set_fsp v self)
  else if column_type =? FIELD_TYPE.TIME2 then v ← read_uint8; mret (set_fsp v self)
  else if (column_type =? FIELD_TYPE.VAR_STRING) || (column_type =? FIELD_TYPE.STRING) then
    read_string_metadata self
  else if column_type =? FIELD_TYPE.BLOB then v ← read_uint8; mret (set_length_size v self)
  else if column_type =? FIELD_TYPE.GEOMETRY then v ← read_uint8; mret (set_length_size v self)
  else if column_type =? FIELD_TYPE.JSON then v ← read_uint8; mret (set_length_size v self)
  else if column_type =? FIELD_TYPE.NEWDECIMAL then
    p ← read_uint8; d ← read_uint8; mret (set_decimal p d self)
  else if column_type =? FIELD_TYPE.BIT then
    b ← read_uint8; bytes ← read_uint8;
    let n := bytes * 8 + b in
    mret (set_bits n (Z.quot (n + 7) 8) self)
  else mret self.
End parse.

(** ** Tables *)

(** [None], a column name, or a tuple of column names. *)
Inductive pkey :=
  | PkNone
  | PkStr (s : string)
  | PkTuple (l : list (option string)).

Record Table := mkTable {
  table_id : Z;
  schema : string;
  table : string;
  columns : list Column;
  primary_key : pkey;
  column_name_flag : bool
}.

(** [Table.__init__] with [primary_key=None]. *)
Definition make_primary_key (columns : list Column) : pkey :=
  match map name (filter (fun c => is_primary c = true) columns) with
  | [] => PkStr ""
  | [Some k] => PkStr k
  | [None] => PkNone
  | l => PkTuple l
  end.

Definition make_table (table_id : Z) (schema table : string) (columns : list Column) (column_name_flag : bool) : Table :=
  mkTable table_id schema table columns (make_primary_key columns) column_name_flag.

(** ** Properties *)

(** The metadata bytes a server writes for a [CHAR] column of [n] bytes: the
    two high bits of the length are folded, inverted, into the type byte. *)
Definition string_metadata (n : Z) : bytes :=
  [Z.lxor FIELD_TYPE.STRING (Z.shiftr (Z.land n 0x300) 4); Z.land n 0xFF].

Lemma string_metadata_cases n :
  0 <= n < 1024 ->
  exists hi lo, string_metadata n = [hi; lo] /\ byte_ok hi /\ byte_ok lo /\
    (hi =? FIELD_TYPE.SET) = false /\ (hi =? FIELD_TYPE.ENUM) = false /\
    Z.lxor (Z.land (Z.shiftr (Z.shiftl hi 8 + lo) 4) 0x300) 0x300 + Z.land (Z.shiftl hi 8 + lo) 0x00FF = n /\
    Z.shiftr (Z.shiftl hi 8 + lo) 8 = hi.
Proof.
  intros Hn. unfold string_metadata.
  set (hi := Z.lxor FIELD_TYPE.STRING (Z.shiftr (Z.land n 0x300) 4)). set (lo := Z.land n 0xFF).
  exists hi, lo. split; [done|].
  pose (f := fun n : Z => let hi := Z.lxor FIELD_TYPE.STRING (Z.shiftr (Z.land n 0x300) 4) in
    let lo := Z.land n 0xFF in
    (0 <=? hi) && (hi <? 256) && ((0 <=? lo) && (lo <? 256)) &&
    negb (hi =? FIELD_TYPE.SET) && negb (hi =? FIELD_TYPE.ENUM) &&
    (Z.lxor (Z.land (Z.shiftr (Z.shiftl hi 8 + lo) 4) 0x300) 0x300 + Z.land (Z.shiftl hi 8 + lo) 0x00FF =? n) &&
    (Z.shiftr (Z.shiftl hi 8 + lo) 8 =? hi)).
  assert (forallb (fun k => f (Z.of_nat k)) (seq 0 1024) = true) as Hall by (vm_compute; reflexivity).
  assert (f n = true) as Hf.
  { rewrite forallb_forall in Hall. rewrite <- (Z2Nat.id n) by lia. apply Hall, in_seq. lia. }
  unfold f in Hf. fold hi lo in Hf. zify_bool. unfold byte_ok.
  repeat match goal with H : negb _ = true |- _ => apply negb_true_iff in H end. repeat split; assumption.
Qed.

Section claims.
Context {P : Type} `{MysqlPacketLaws P}.

Lemma parses_read_uint8 b : parses (P:=P) read_uint8 [b] b.
Proof.
  unfold read_uint8. eapply parses_lift; [done|]. unfold unpack_ule. rewrite decide_True by done.
  cbn [le_decode]. f_equal. lia.
Qed.

(** Reading the definition of a [CHAR] column recovers its length. *)
Lemma string_column_length n :
  0 <= n < 1024 ->
  parses (P:=P) (parse_column_definition FIELD_TYPE.STRING) (string_metadata n)
         (set_max_length n (new_column FIELD_TYPE.STRING)).
Proof.
  intros Hn. destruct (string_metadata_cases n Hn) as (hi & lo & -> & Hhi & Hlo & Hs & He & Hv & Hr).
  change (parse_column_definition FIELD_TYPE.STRING) with (read_string_metadata (new_column FIELD_TYPE.STRING)).
  unfold read_string_metadata. apply (parses_bind read_uint8 _ [hi] [lo] hi); [apply parses_read_uint8|].
  eapply parses_bind_pure; [apply parses_read_uint8|]. intros w. rewrite Hr, Hs, He, Hv. done.
Qed.
End claims.
