(* ===== verification/Sql.v ===== *)
(** * From row operations to SQL

    [main.py]: the operation classes, [generate_condition_and_values] and
    [dmlOperation2Sql].  The specification is the effect of a statement on a
    table: [exec] interprets the statements the code writes, with SQL's
    three-valued comparison, and [dmlOperation2Sql] renders them. *)

From stdpp Require Import base list strings sets.
From Stdlib Require Import ZArith Lia Ascii.
From S2P Require Import Prelude PyBytes PyStr Values Column.
Open Scope string_scope.
Open Scope Z_scope.

(** ** Operations *)

Inductive NonDMLType :=
  | CREATEDATABASE | DROPDATABASE | ALTERDATABASE | CREATETABLE | ALTERTABLE
  | DROPTABLE | RENAMETABLE | TRUNCATETABLE | CREATEINDEX.

#[export] Instance NonDMLType_eq_dec : EqDecision NonDMLType.
Proof. solve_decision. Defined.

(** A row: column names to values, in column order. *)
Abbreviation row := (list (string * pyval)) (only parsing).

Inductive OperationDML :=
  | OperationDMLInsert (schema table : string) (values : row) (primary_key : pkey)
  | OperationDMLDelete (schema table : string) (values : row) (primary_key : pkey)
  | OperationDMLUpdate (schema table : string) (after_values before_values : row) (primary_key : pkey).

Definition dml_schema (o : OperationDML) : string :=
  match o with OperationDMLInsert s _ _ _ | OperationDMLDelete s _ _ _ | OperationDMLUpdate s _ _ _ _ => s end.
Definition dml_table (o : OperationDML) : string :=
  match o with OperationDMLInsert _ t _ _ | OperationDMLDelete _ t _ _ | OperationDMLUpdate _ t _ _ _ => t end.

Inductive operation :=
  | OperationNonDML (oper_type : NonDMLType) (schema table : option string) (query : string)
  | OpDML (o : OperationDML)
  | OperationHeartbeat
  | OperationCommit
  | OperationBegin
  | OperationGtid (server_uuid xid : string) (last_committed : Z).

(** ** Rendering *)

(** The names a true primary key lists; [None], [""] and [()] are false. *)
Definition pkey_names (pk : pkey) : option (list (option string)) :=
  match pk with
  | PkNone => None
  | PkStr s => if decide (s = "") then None else Some [Some s]
  | PkTuple [] => None
  | PkTuple l => Some l
  end.

(** [str(k)] of a column name, which may be [None]. *)
Definition key_text (k : option string) : string := default "None" k.

(** [f"`{k}` = %s"] *)
Definition quoted_eq (k : string) : string := "`" ++ k ++ "` = %s".

(** [values[k]] *)
Definition row_index (values : row) (k : option string) : result pyval :=
  match k with Some k => dict_index values k | None => Err KeyError end.

Definition generate_condition_and_values (primary_key : pkey) (values : row)
  : result (string * list pyval) :=
  match pkey_names primary_key with
  | Some ks =>
      let condition := join " AND " (map (fun k => quoted_eq (key_text k)) ks) in
      primary_values ← mapM_result (row_index values) ks;
      Ok (condition, primary_values)
  | None =>
      Ok (join " AND " (map quoted_eq (dict_keys values)), dict_values values)
  end.

Definition dmlOperation2Sql (o : OperationDML) : result (string * list pyval) :=
  match o with
  | OperationDMLInsert schema table values _ =>
      let keys := join ", " (dict_keys values) in
      let values_placeholder := join "," (map (fun _ => "%s") values) in
      Ok ("REPLACE INTO `" ++ schema ++ "`.`" ++ table ++ "`(" ++ keys ++ ") VALUES(" ++ values_placeholder ++ ")",
          dict_values values)
  | OperationDMLDelete schema table values primary_key =>
      '(condition, primary_values) ← generate_condition_and_values primary_key values;
      Ok ("DELETE FROM `" ++ schema ++ "`.`" ++ table ++ "` WHERE " ++ condition, primary_values)
  | OperationDMLUpdate schema table after_values before_values primary_key =>
      let set_clause := join ", " (map (fun k => k ++ " = %s") (dict_keys after_values)) in
      '(condition, primary_values) ← generate_condition_and_values primary_key before_values;
      Ok ("UPDATE `" ++ schema ++ "`.`" ++ table ++ "` SET " ++ set_clause ++ " WHERE " ++ condition,
          (dict_values after_values ++ primary_values)%list)
  end.

Example insert_example :
  dmlOperation2Sql (OperationDMLInsert "d" "t" [("id", VInt 1); ("v", VStr "x")] (PkStr "id")) =
  Ok ("REPLACE INTO `d`.`t`(id, v) VALUES(%s,%s)", [VInt 1; VStr "x"]).
Proof. reflexivity. Qed.

Example update_example :
  dmlOperation2Sql (OperationDMLUpdate "d" "t" [("id", VInt 1); ("v", VStr "y")] [("id", VInt 1); ("v", VStr "x")] (PkStr "id")) =
  Ok ("UPDATE `d`.`t` SET id = %s, v = %s WHERE `id` = %s", [VInt 1; VStr "y"; VInt 1]).
Proof. reflexivity. Qed.

(** ** Statements and their effect

    The statements [dmlOperation2Sql] writes, as data: a list of pairs is a
    list of columns with the parameters bound to them. *)

Inductive stmt :=
  | SReplace (schema table : string) (cols : row)
  | SDelete (schema table : string) (conds : row)
  | SUpdate (schema table : string) (sets conds : row).

Definition render_conds (conds : row) : string := join " AND " (map quoted_eq conds.*1).

Definition render (s : stmt) : string * list pyval :=
  match s with
  | SReplace schema table cols =>
      ("REPLACE INTO `" ++ schema ++ "`.`" ++ table ++ "`(" ++ join ", " cols.*1 ++ ") VALUES("
         ++ join "," (map (fun _ => "%s") cols) ++ ")", cols.*2)
  | SDelete schema table conds =>
      ("DELETE FROM `" ++ schema ++ "`.`" ++ table ++ "` WHERE " ++ render_conds conds, conds.*2)
  | SUpdate schema table sets conds =>
      ("UPDATE `" ++ schema ++ "`.`" ++ table ++ "` SET " ++ join ", " (map (fun k => k ++ " = %s") sets.*1)
         ++ " WHERE " ++ render_conds conds, (sets.*2 ++ conds.*2)%list)
  end.

(** The columns a [WHERE] clause compares: the primary key, or every column
    of a table without one. *)
Definition conditions (pk : pkey) (values : row) : result row :=
  match pkey_names pk with
  | Some ks => mapM_result (fun k => v ← row_index values k; Ok (key_text k, v)) ks
  | None => Ok values
  end.

Definition statement (o : OperationDML) : result stmt :=
  match o with
  | OperationDMLInsert schema table values _ => Ok (SReplace schema table values)
  | OperationDMLDelete schema table values pk =>
      c ← conditions pk values; Ok (SDelete schema table c)
  | OperationDMLUpdate schema table after before pk =>
      c ← conditions pk before; Ok (SUpdate schema table after c)
  end.

Section semantics.
(** The target's comparison of two non-null values (collations, numeric
    types), and the columns of its unique key. *)
Context (veq : pyval -> pyval -> bool) (key : list string).

Definition is_null (v : pyval) : bool := match v with VNone => true | _ => false end.

(** [x = y] is true: never when one of them is null. *)
Definition sql_true (x y : pyval) : bool := negb (is_null x) && negb (is_null y) && veq x y.

Definition where_holds (conds r : row) : bool :=
  forallb (fun kv : string * pyval => match dict_get r kv.1 with Some x => sql_true x kv.2 | None => false end) conds.

(** Two rows collide on the unique key. *)
Definition same_key (r r' : row) : bool :=
  forallb (fun k => match dict_get r k, dict_get r' k with
                    | Some x, Some y => sql_true x y
                    | _, _ => false
                    end) key.

Definition assign (r sets : row) : row := foldl (fun r kv => dict_set r kv.1 kv.2) r sets.

Definition exec (s : stmt) (tbl : list row) : list row :=
  match s with
  | SReplace _ _ cols => (filter (fun r => same_key r cols = false) tbl ++ [cols])%list
  | SDelete _ _ conds => filter (fun r => where_holds conds r = false) tbl
  | SUpdate _ _ sets conds => map (fun r => if where_holds conds r then assign r sets else r) tbl
  end.
End semantics.

(** A row whose key columns are all present and non-null. *)
Definition keyed (key : list string) (r : row) : Prop :=
  forall k, k ∈ key -> exists v, dict_get r k = Some v /\ is_null v = false.

(** The primary key [pk] of an event names the columns [key]. *)
Definition names_key (pk : pkey) (key : list string) : Prop := pkey_names pk = Some (map Some key).

(** *** Lemmas *)

Lemma condition_renders pk values :
  generate_condition_and_values pk values =
  (c ← conditions pk values; Ok (render_conds c, c.*2)).
Proof.
  unfold generate_condition_and_values, conditions, render_conds. destruct (pkey_names pk) as [ks|]; [|done].
  assert (forall ks, mapM_result (row_index values) ks =
    (c ← mapM_result (fun k => v ← row_index values k; Ok (key_text k, v)) ks; Ok c.*2)) as H2.
  { clear ks. induction ks as [|k ks IH]; [done|]. cbn. destruct (row_index values k); cbn; [|done].
    rewrite IH. by destruct (mapM_result (fun k => v ← row_index values k; Ok (key_text k, v)) ks). }
  assert (forall ks c, mapM_result (fun k => v ← row_index values k; Ok (key_text k, v)) ks = Ok c ->
    map key_text ks = c.*1) as H1.
  { clear ks. induction ks as [|k ks IH]; intros c Hc; cbn in Hc; inv_ok; [done|]. cbn. f_equal. by apply IH. }
  rewrite H2. destruct (mapM_result (fun k => v ← row_index values k; Ok (key_text k, v)) ks) as [c|e] eqn:E; cbn; [|done].
  rewrite <- (H1 ks c E), map_map. done.
Qed.

(** What the code sends is the rendering of the statement. *)
Lemma dml_renders o : dmlOperation2Sql o = render <$> statement o.
Proof.
  destruct o; cbn [dmlOperation2Sql statement]; [done| |];
    rewrite condition_renders; destruct (conditions _ _); done.
Qed.

Lemma conditions_key pk key values :
  names_key pk key -> keyed key values ->
  exists c, conditions pk values = Ok c /\ Forall2 (fun k kv => kv.1 = k /\ dict_get values k = Some kv.2) key c.
Proof.
  intros Hpk Hk. unfold conditions. rewrite Hpk. clear Hpk. induction key as [|k key IH]; [by exists []|].
  destruct (Hk k) as (v & Hv & _); [left|].
  destruct IH as (c & Hc & HF); [intros k' Hin; apply Hk; by right|].
  exists ((k, v) :: c). cbn. unfold dict_index. rewrite Hv. cbn. rewrite Hc. cbn. split; [done|]. by constructor.
Qed.

Section replay.
Context (veq : pyval -> pyval -> bool) (key : list string).
Hypothesis veq_refl : forall v, is_null v = false -> veq v v = true.

Lemma where_same_key c values r :
  Forall2 (fun k kv => kv.1 = k /\ dict_get values k = Some kv.2) key c ->
  where_holds veq c r = same_key veq key r values.
Proof.
  unfold where_holds, same_key. induction 1 as [|k [k' v] ks cs [Hk Hv] HF IH]; [done|]. cbn in *. subst k'.
  rewrite IH, Hv. by destruct (dict_get r k).
Qed.

Lemma same_key_refl r : keyed key r -> same_key veq key r r = true.
Proof.
  intros Hk. unfold same_key. apply forallb_forall. intros k Hin%list_elem_of_In.
  destruct (Hk k Hin) as (v & -> & Hn). unfold sql_true. by rewrite Hn, veq_refl.
Qed.

Lemma filter_all {A} (f : A -> bool) (l : list A) :
  Forall (fun x => f x = false) l -> filter (fun x => f x = false) l = l.
Proof. induction 1 as [|x l Hx HF IH]; [done|]. rewrite filter_cons_True by done. by rewrite IH. Qed.

(** Assigning every column of a row of the same shape replaces the row. *)
Lemma assign_all (before after : row) :
  NoDup (dict_keys before) -> dict_keys after = dict_keys before -> assign before after = after.
Proof.
  unfold assign, dict_keys. intros Hnd Hk.
  assert (forall (pre before after : row), NoDup (pre ++ before)%list.*1 -> after.*1 = before.*1 ->
    foldl (fun r kv => dict_set r kv.1 kv.2) (pre ++ before)%list after = (pre ++ after)%list) as Hgen.
  { clear. intros pre before after. revert pre before.
    induction after as [|[k v] after IH]; intros pre before Hnd Hk; destruct before as [|[k' v'] before]; try done.
    cbn in Hk. injection Hk as -> Hk. cbn [foldl fst snd].
    assert (dict_set (pre ++ (k', v') :: before)%list k' v = (pre ++ [(k', v)]) ++ before)%list as ->.
    { rewrite fmap_app in Hnd. apply NoDup_app in Hnd as (_ & Hdis & _). rewrite <- app_assoc. cbn [app].
      assert (k' ∉ pre.*1) as Hni by (intros Hin; apply (Hdis k' Hin); left). clear Hdis IH.
      induction pre as [|[k0 v0] pre IHd]; cbn; [by rewrite decide_True|].
      cbn in Hni. apply not_elem_of_cons in Hni as [Hne Hni]. rewrite decide_False by done. by rewrite IHd. }
    rewrite IH; [by rewrite <- app_assoc| |done].
    rewrite <- app_assoc. rewrite !fmap_app in *. done. }
  apply (Hgen [] before after); done.
Qed.
End replay.

(** *** Placeholders *)

(** The number of [%] characters. *)
Fixpoint percents (s : string) : nat :=
  match s with
  | EmptyString => 0
  | String c s' => (if decide (c = "%"%char) then 1 else 0) + percents s'
  end.

Lemma percents_app a b : percents (a ++ b) = (percents a + percents b)%nat.
Proof. induction a as [|c a IH]; cbn; [done|]. rewrite IH. lia. Qed.

(** Joining [n] pieces with one placeholder each. *)
Lemma percents_join {A} sep (f : A -> string) (l : list A) :
  percents sep = 0%nat -> (forall x, x ∈ l -> percents (f x) = 1%nat) ->
  percents (join sep (map f l)) = length l.
Proof.
  intros Hs. induction l as [|x [|y l] IH]; intros Hf; [done|by apply Hf; left|].
  change (percents (f x ++ sep ++ join sep (map f (y :: l))) = S (length (y :: l))).
  rewrite !percents_app, Hs, IH, (Hf x) by (set_solver || (intros; apply Hf; set_solver)). done.
Qed.

Lemma percents_join_plain sep (l : list string) :
  percents sep = 0%nat -> (forall x, x ∈ l -> percents x = 0%nat) -> percents (join sep l) = 0%nat.
Proof.
  intros Hs. induction l as [|x [|y l] IH]; intros Hf; [done|apply Hf; left|].
  change (percents (x ++ sep ++ join sep (y :: l)) = 0%nat).
  rewrite !percents_app, Hs, IH, (Hf x) by (set_solver || (intros; apply Hf; set_solver)). done.
Qed.

Definition plain_names (schema table : string) (r : row) : Prop :=
  percents schema = 0%nat /\ percents table = 0%nat /\ (forall k, k ∈ r.*1 -> percents k = 0%nat).

Lemma percents_conds (c : row) :
  (forall k, k ∈ c.*1 -> percents k = 0%nat) -> percents (render_conds c) = length c.
Proof.
  intros Hc. unfold render_conds. rewrite percents_join; [by rewrite length_fmap|done|].
  intros k Hk. unfold quoted_eq. rewrite !percents_app, (Hc k) by done. done.
Qed.

(** Evaluate the constant parts of a text. *)
Ltac count_percents :=
  repeat match goal with |- context [percents ?s] =>
    let v := eval vm_compute in (percents s) in change (percents s) with v end; lia.

Lemma render_placeholders s :
  match s with
  | SReplace sc t r | SDelete sc t r => plain_names sc t r
  | SUpdate sc t r c => plain_names sc t r /\ plain_names sc t c
  end -> percents (render s).1 = length (render s).2.
Proof.
  destruct s as [sc t r|sc t r|sc t r c]; cbn [render fst snd].
  - intros (Hs & Ht & Hr). rewrite !percents_app, Hs, Ht, length_fmap.
    rewrite percents_join_plain by done. rewrite percents_join by done. count_percents.
  - intros (Hs & Ht & Hr). rewrite !percents_app, Hs, Ht, length_fmap, percents_conds by done. count_percents.
  - intros ((Hs & Ht & Hr) & (_ & _ & Hc)).
    rewrite !percents_app, Hs, Ht, length_app, !length_fmap, percents_conds by done.
    rewrite percents_join, length_fmap; [count_percents|done|].
    intros k Hk. rewrite percents_app, (Hr k) by done. done.
Qed.

Lemma mapM_row_index_names values ks c :
  mapM_result (fun k => v ← row_index values k; Ok (key_text k, v)) ks = Ok c ->
  forall k, k ∈ c.*1 -> k ∈ dict_keys values.
Proof.
  revert c. induction ks as [|k0 ks IH]; intros c Hc k Hk; cbn in Hc.
  { injection Hc as <-. by apply not_elem_of_nil in Hk. }
  destruct (row_index values k0) as [v|] eqn:Er; [|done]. cbn in Hc.
  destruct (mapM_result (fun k => v ← row_index values k; Ok (key_text k, v)) ks) as [c'|] eqn:Em; [|done].
  cbn in Hc. injection Hc as <-. cbn in Hk. apply elem_of_cons in Hk as [->|Hk]; [|by eapply IH].
  destruct k0 as [k0|]; [|done]. cbn in Er |- *. unfold dict_index, of_option in Er.
  destruct (dict_get values k0) as [v'|] eqn:Eg; [|done]. apply dict_get_Some_elem in Eg.
  apply list_elem_of_fmap. by exists (k0, v').
Qed.

Lemma conditions_names pk values c :
  conditions pk values = Ok c -> forall k, k ∈ c.*1 -> k ∈ dict_keys values.
Proof.
  unfold conditions. destruct (pkey_names pk); [apply mapM_row_index_names|].
  intros. by inv_ok.
Qed.

(** Every statement has as many placeholders as parameters: for schema,
    table and column names without a percent sign, the number of percent
    signs in the SQL text [dmlOperation2Sql] returns is the length of the
    parameter tuple it returns with it. *)
Theorem sql_placeholders_match (o : OperationDML) (sql : string) (params : list pyval) :
  match o with
  | OperationDMLInsert s t v _ | OperationDMLDelete s t v _ => plain_names s t v
  | OperationDMLUpdate s t a b _ => plain_names s t a /\ plain_names s t b
  end ->
  dmlOperation2Sql o = Ok (sql, params) -> percents sql = length params.
Proof.
  intros Hn Hsql. rewrite dml_renders in Hsql. destruct (statement o) as [s|e] eqn:E; cbn in Hsql; [|done].
  injection Hsql as Hsql. assert (percents (render s).1 = length (render s).2) as H; [|by rewrite Hsql in H].
  apply render_placeholders. destruct o as [sc t v pk|sc t v pk|sc t a b pk]; cbn in E; inv_ok; try done.
  - destruct Hn as (? & ? & Hk). repeat split; try done. intros k Hc. by eapply Hk, conditions_names.
  - destruct Hn as (? & (? & ? & Hk)). split; [done|]. repeat split; try done. intros k Hc. by eapply Hk, conditions_names.
Qed.

(** A statement with the key of [r] as its condition finds [r] and no other row. *)
Section one_row.
Context (veq : pyval -> pyval -> bool) (key : list string) (c r : row).
Hypothesis Hc : Forall2 (fun k kv => kv.1 = k /\ dict_get r k = Some kv.2) key c.

Lemma where_keeps l :
  Forall (fun r' => same_key veq key r' r = false) l -> filter (fun r' => where_holds veq c r' = false) l = l.
Proof.
  intros Hl. apply filter_all. eapply Forall_impl; [exact Hl|]. intros r' Hr'. by rewrite (where_same_key veq key c r r' Hc).
Qed.

Lemma where_stays (sets : row) l :
  Forall (fun r' => same_key veq key r' r = false) l ->
  map (fun r' => if where_holds veq c r' then assign r' sets else r') l = l.
Proof.
  intros Hl. rewrite <- (map_id l) at 2. apply map_ext_Forall. eapply Forall_impl; [exact Hl|].
  intros r' Hr'. cbn. by rewrite (where_same_key veq key c r r' Hc), Hr'.
Qed.
End one_row.

Section replay_rows.
Context (veq : pyval -> pyval -> bool) (key : list string) (pk : pkey) (sc t : string) (r : row).
Hypothesis veq_refl : forall v, is_null v = false -> veq v v = true.
Hypothesis Hpk : names_key pk key.
Hypothesis Hk : keyed key r.

Lemma replay_insert (l : list row) :
  Forall (fun r' => same_key veq key r' r = false) l ->
  exec veq key (SReplace sc t r) l = (l ++ [r])%list.
Proof. intros Hl. cbn [exec]. by rewrite filter_all. Qed.

Lemma replay_delete (l1 l2 : list row) :
  Forall (fun r' => same_key veq key r' r = false) (l1 ++ l2)%list ->
  exists s, statement (OperationDMLDelete sc t r pk) = Ok s /\ exec veq key s (l1 ++ r :: l2)%list = (l1 ++ l2)%list.
Proof.
  intros [H1 H2]%Forall_app. destruct (conditions_key pk key r Hpk Hk) as (c & Ec & HF).
  exists (SDelete sc t c). cbn [statement]. rewrite Ec. split; [done|]. cbn [exec].
  rewrite filter_app, filter_cons_False by (by rewrite (where_same_key veq key c r r HF), same_key_refl).
  by rewrite !(where_keeps veq key c r HF).
Qed.

Lemma replay_update (a : row) (l1 l2 : list row) :
  Forall (fun r' => same_key veq key r' r = false) (l1 ++ l2)%list ->
  NoDup (dict_keys r) -> dict_keys a = dict_keys r ->
  exists s, statement (OperationDMLUpdate sc t a r pk) = Ok s /\ exec veq key s (l1 ++ r :: l2)%list = (l1 ++ a :: l2)%list.
Proof.
  intros [H1 H2]%Forall_app Hnd Hkeys. destruct (conditions_key pk key r Hpk Hk) as (c & Ec & HF).
  exists (SUpdate sc t a c). cbn [statement]. rewrite Ec. split; [done|]. cbn [exec].
  rewrite map_app. cbn [map]. rewrite !(where_stays veq key c r HF) by done.
  by rewrite (where_same_key veq key c r r HF), same_key_refl, assign_all.
Qed.
End replay_rows.

(** Replaying a row change on a target table that agrees with the source
    has the source's effect: on a table whose primary key names the columns
    [key], for rows with non-null keys, the statement sent for an insert of a
    new key appends the row, the one for a delete removes exactly that row,
    and the one for an update replaces exactly that row by its new image. *)
Theorem dml_replay_correct (veq : pyval -> pyval -> bool) (key : list string) (pk : pkey)
    (sc t : string) (r a : row) (l1 l2 : list row) :
  (forall v, is_null v = false -> veq v v = true) ->
  names_key pk key -> keyed key r ->
  Forall (fun r' => same_key veq key r' r = false) (l1 ++ l2)%list ->
  (exists s, dmlOperation2Sql (OperationDMLInsert sc t r pk) = Ok (render s) /\
     exec veq key s (l1 ++ l2)%list = ((l1 ++ l2) ++ [r])%list) /\
  (exists s, dmlOperation2Sql (OperationDMLDelete sc t r pk) = Ok (render s) /\
     exec veq key s (l1 ++ r :: l2)%list = (l1 ++ l2)%list) /\
  (NoDup (dict_keys r) -> dict_keys a = dict_keys r ->
   exists s, dmlOperation2Sql (OperationDMLUpdate sc t a r pk) = Ok (render s) /\
     exec veq key s (l1 ++ r :: l2)%list = (l1 ++ a :: l2)%list).
Proof.
  intros Hveq Hpk Hk HF. split; [|split].
  - exists (SReplace sc t r). rewrite dml_renders. split; [done|]. by apply replay_insert.
  - destruct (replay_delete veq key pk sc t r Hveq Hpk Hk l1 l2 HF) as (s & Hs & He).
    exists s. by rewrite dml_renders, Hs.
  - intros Hnd Hkeys. destruct (replay_update veq key pk sc t r Hveq Hpk Hk a l1 l2 HF Hnd Hkeys) as (s & Hs & He).
    exists s. by rewrite dml_renders, Hs.
Qed.

(** A comparison of values for concrete tables. *)
Definition int_eq (x y : pyval) : bool :=
  match x, y with VInt a, VInt b => a =? b | VStr a, VStr b => bool_decide (a = b) | _, _ => true end.

Lemma sql_placeholders_match_witness :
  percents "DELETE FROM `d`.`t` WHERE `id` = %s" = length [VInt 7].
Proof.
  apply (sql_placeholders_match (OperationDMLDelete "d" "t" [("id", VInt 7); ("v", VNone)] (PkStr "id"))).
  - repeat split; try reflexivity. intros k Hk.
    repeat (apply elem_of_cons in Hk as [->|Hk]; [reflexivity|]). by apply not_elem_of_nil in Hk.
  - reflexivity.
Defined.

Lemma dml_replay_correct_witness :
  exists s, dmlOperation2Sql (OperationDMLUpdate "d" "t" [("id", VInt 2); ("v", VStr "new")]
                               [("id", VInt 2); ("v", VStr "old")] (PkStr "id")) = Ok (render s) /\
    exec int_eq ["id"] s [[("id", VInt 1); ("v", VNone)]; [("id", VInt 2); ("v", VStr "old")]] =
    [[("id", VInt 1); ("v", VNone)]; [("id", VInt 2); ("v", VStr "new")]].
Proof.
  pose proof (dml_replay_correct int_eq ["id"] (PkStr "id") "d" "t"
    [("id", VInt 2); ("v", VStr "old")] [("id", VInt 2); ("v", VStr "new")]
    [[("id", VInt 1); ("v", VNone)]] []) as H.
  destruct H as (_ & _ & H).
  - intros v; destruct v; cbn; try done; intros _; [apply Z.eqb_refl|by apply bool_decide_eq_true_2].
  - reflexivity.
  - intros k Hk. apply list_elem_of_singleton in Hk as ->. by exists (VInt 2).
  - repeat constructor.
  - apply H; [|reflexivity]. apply (bool_decide_unpack _). vm_compute. exact I.
Defined.

(** Without a primary key every column is compared, so a row with a null in
    it is not found by its own image: nothing is deleted. *)
Example delete_null_without_key :
  exec int_eq [] (SDelete "d" "t" [("a", VInt 1); ("b", VNone)]) [[("a", VInt 1); ("b", VNone)]] =
  [[("a", VInt 1); ("b", VNone)]] /\
  statement (OperationDMLDelete "d" "t" [("a", VInt 1); ("b", VNone)] (PkStr "")) =
  Ok (SDelete "d" "t" [("a", VInt 1); ("b", VNone)]).
Proof. split; reflexivity. Qed.

(** Without a primary key, deleting one of two equal rows deletes both. *)
Example delete_duplicate_without_key :
  exec int_eq [] (SDelete "d" "t" [("a", VInt 1)]) [[("a", VInt 1)]; [("a", VInt 1)]] = [].
Proof. reflexivity. Qed.
