(* ===== verification/SqlText.v ===== *)
(** * The statements as text

    What a target reads in the text [dmlOperation2Sql] writes: [parse_sql] is a
    reader for the three forms of statement - names in backquotes or bare,
    placeholders, separators - that pairs each placeholder with its parameter.
    The words the server reserves are a parameter.  The theorem of this file
    is that the text denotes the statement it was written for. *)

From stdpp Require Import base option list strings sets.
From Stdlib Require Import ZArith Lia Ascii.
From S2P Require Import Prelude PyBytes PyStr Values Column Sql.
Open Scope string_scope.
Open Scope Z_scope.

(** ** The reader *)

(** The text after the prefix [w]. *)
Fixpoint lit (w s : string) : option string :=
  match w, s with
  | EmptyString, _ => Some s
  | String a w', String b s' => if decide (a = b) then lit w' s' else None
  | String _ _, EmptyString => None
  end.

(** The longest prefix of characters in [f], and the rest. *)
Fixpoint span (f : ascii -> bool) (s : string) : string * string :=
  match s with
  | EmptyString => ("", "")
  | String c s' => if f c then let '(a, b) := span f s' in (String c a, b) else ("", s)
  end.

Definition letter (c : ascii) : bool :=
  ((65 <=? code c) && (code c <=? 90)) || ((97 <=? code c) && (code c <=? 122)) || (code c =? 95).
Definition name_char (c : ascii) : bool := letter c || is_digit c || (code c =? 36).
Definition backquote : ascii := "`".
Definition not_backquote (c : ascii) : bool := negb (bool_decide (c = backquote)).

Definition starts_with (f : ascii -> bool) (s : string) : bool :=
  match s with EmptyString => false | String c _ => f c end.

(** A name in backquotes. *)
Definition quoted_name (s : string) : option (string * string) :=
  s1 ← lit "`" s;
  let '(a, b) := span not_backquote s1 in
  s2 ← lit "`" b;
  if decide (a = "") then None else Some (a, s2).

Section reader.
Context (reserved : string -> bool).

(** A bare name: not a reserved word. *)
Definition bare_name (s : string) : option (string * string) :=
  let '(a, b) := span name_char s in
  if starts_with letter a && negb (reserved a) then Some (a, b) else None.

Definition quoted_condition (s : string) : option (string * string) :=
  '(k, s1) ← quoted_name s; s2 ← lit " = %s" s1; Some (k, s2).
Definition bare_assignment (s : string) : option (string * string) :=
  '(k, s1) ← bare_name s; s2 ← lit " = %s" s1; Some (k, s2).
Definition placeholder (s : string) : option (unit * string) :=
  s1 ← lit "%s" s; Some (tt, s1).

(** One or more items with separators between them. *)
Fixpoint sep_list {A} (item : string -> option (A * string)) (sep : string) (fuel : nat) (s : string)
  : option (list A * string) :=
  match fuel with
  | O => None
  | S fuel' =>
      '(x, s1) ← item s;
      match lit sep s1 with
      | Some s2 => '(l, s3) ← sep_list item sep fuel' s2; Some (x :: l, s3)
      | None => Some ([x], s1)
      end
  end.

(** [`schema`.`table`] *)
Definition table_name (s : string) : option (string * string * string) :=
  '(schema, s1) ← quoted_name s;
  s2 ← lit "." s1;
  '(table, s3) ← quoted_name s2;
  Some (schema, table, s3).

Definition at_end (s : string) : option unit := if decide (s = "") then Some tt else None.

(** Each name with its parameter. *)
Definition bind (names : list string) (ps : list pyval) : option row :=
  if decide (length names = length ps) then Some (zip names ps) else None.

Definition parse_replace (n : nat) (s : string) (ps : list pyval) : option stmt :=
  '(schema, table, s1) ← table_name s;
  s2 ← lit "(" s1;
  '(names, s3) ← sep_list bare_name ", " n s2;
  s4 ← lit ") VALUES(" s3;
  '(marks, s5) ← sep_list placeholder "," n s4;
  s6 ← lit ")" s5;
  _ ← at_end s6;
  if decide (length names = length marks) then cols ← bind names ps; Some (SReplace schema table cols) else None.

Definition parse_delete (n : nat) (s : string) (ps : list pyval) : option stmt :=
  '(schema, table, s1) ← table_name s;
  s2 ← lit " WHERE " s1;
  '(names, s3) ← sep_list quoted_condition " AND " n s2;
  _ ← at_end s3;
  conds ← bind names ps; Some (SDelete schema table conds).

Definition parse_update (n : nat) (s : string) (ps : list pyval) : option stmt :=
  '(schema, table, s1) ← table_name s;
  s2 ← lit " SET " s1;
  '(names, s3) ← sep_list bare_assignment ", " n s2;
  s4 ← lit " WHERE " s3;
  '(keys, s5) ← sep_list quoted_condition " AND " n s4;
  _ ← at_end s5;
  sets ← bind names (take (length names) ps);
  conds ← bind keys (drop (length names) ps);
  Some (SUpdate schema table sets conds).

(** The statement a text with its parameters stands for; no list in it is
    longer than the list of parameters. *)
Definition parse_sql (sql : string) (ps : list pyval) : option stmt :=
  let n := length ps in
  match lit "REPLACE INTO " sql with
  | Some s => parse_replace n s ps
  | None =>
      match lit "DELETE FROM " sql with
      | Some s => parse_delete n s ps
      | None => s ← lit "UPDATE " sql; parse_update n s ps
      end
  end.

(** ** The names the text can carry *)

Definition column_name (k : string) : Prop :=
  str_forallb name_char k = true /\ starts_with letter k = true /\ reserved k = false.
Definition any_name (k : string) : Prop := k <> "" /\ str_forallb not_backquote k = true.

Definition stmt_names (s : stmt) : Prop :=
  match s with
  | SReplace sc t cols => any_name sc /\ any_name t /\ cols <> [] /\ Forall column_name cols.*1
  | SDelete sc t conds => any_name sc /\ any_name t /\ conds <> [] /\ Forall any_name conds.*1
  | SUpdate sc t sets conds => any_name sc /\ any_name t /\ sets <> [] /\ Forall column_name sets.*1 /\
      conds <> [] /\ Forall any_name conds.*1
  end.

(** ** The text is read back *)

Lemma lit_app w s : lit w (w ++ s) = Some s.
Proof. induction w as [|a w IH]; [done|]. cbn. by rewrite decide_True. Qed.

(** The rest of a text does not go on with characters of [f]. *)
Definition stops (f : ascii -> bool) (s : string) : Prop := starts_with f s = false.

Lemma span_app f a rest : str_forallb f a = true -> stops f rest -> span f (a ++ rest) = (a, rest).
Proof.
  induction a as [|c a IH]; cbn; intros Ha Hr.
  - destruct rest as [|c rest]; [done|]. cbn. unfold stops in Hr. cbn in Hr. by rewrite Hr.
  - apply andb_true_iff in Ha as [-> Ha]. by rewrite IH.
Qed.

Lemma quoted_name_app k rest : any_name k -> quoted_name ("`" ++ k ++ "`" ++ rest) = Some (k, rest).
Proof.
  intros [Hk Hq]. unfold quoted_name. rewrite lit_app. cbn [mbind option_bind].
  rewrite (span_app not_backquote k ("`" ++ rest)) by done. rewrite lit_app. cbn [mbind option_bind].
  by rewrite decide_False.
Qed.

Lemma bare_name_app k rest : column_name k -> stops name_char rest -> bare_name (k ++ rest) = Some (k, rest).
Proof. intros (Hc & Hl & Hr) Hs. unfold bare_name. by rewrite span_app, Hl, Hr. Qed.

Lemma table_name_app sc t rest :
  any_name sc -> any_name t -> table_name ("`" ++ sc ++ "`.`" ++ t ++ "`" ++ rest) = Some (sc, t, rest).
Proof.
  intros Hs Ht. unfold table_name. change ("`.`" ++ t ++ "`" ++ rest) with ("`" ++ "." ++ "`" ++ t ++ "`" ++ rest).
  rewrite quoted_name_app by done. cbn [mbind option_bind]. rewrite lit_app. cbn [mbind option_bind].
  by rewrite quoted_name_app.
Qed.

Lemma sep_list_join {A} (item : string -> option (A * string)) sep (print : A -> string) (ok : A -> Prop)
    (stop : string -> Prop) l fuel rest :
  (forall x r, ok x -> stop r -> item (print x ++ r) = Some (x, r)) ->
  (forall r, stop (sep ++ r)) -> stop rest -> lit sep rest = None ->
  l <> [] -> Forall ok l -> (length l <= fuel)%nat ->
  sep_list item sep fuel (join sep (map print l) ++ rest) = Some (l, rest).
Proof.
  intros Hitem Hsep Hrest Hlit. revert fuel. induction l as [|x l IH]; intros fuel Hne HF Hl; [done|].
  apply Forall_cons in HF as [Hx HF]. destruct fuel as [|fuel]; cbn in Hl; [lia|]. cbn [sep_list].
  destruct l as [|y l].
  - change (join sep (map print [x])) with (print x). rewrite Hitem by done. cbn [mbind option_bind]. by rewrite Hlit.
  - change (join sep (map print (x :: y :: l))) with (print x ++ sep ++ join sep (map print (y :: l))).
    rewrite !str_app_assoc, Hitem by done. cbn [mbind option_bind]. rewrite lit_app.
    rewrite IH by (done || lia). done.
Qed.

Lemma bind_zip names ps : length names = length ps -> bind names ps = Some (zip names ps).
Proof. intros H. unfold bind. by rewrite decide_True. Qed.

Lemma bind_split (r : row) : bind r.*1 r.*2 = Some r.
Proof.
  rewrite bind_zip by (by rewrite !length_fmap). f_equal. induction r as [|[k v] r IH]; [done|]. cbn. by rewrite IH.
Qed.

Lemma quoted_condition_app k rest : any_name k -> quoted_condition (quoted_eq k ++ rest) = Some (k, rest).
Proof.
  intros Hk. unfold quoted_condition, quoted_eq.
  replace (("`" ++ k ++ "` = %s") ++ rest) with ("`" ++ k ++ "`" ++ (" = %s" ++ rest)) by (by rewrite !str_app_assoc).
  rewrite quoted_name_app by done. cbn [mbind option_bind]. by rewrite lit_app.
Qed.

Lemma bare_assignment_app k rest : column_name k -> bare_assignment ((k ++ " = %s") ++ rest) = Some (k, rest).
Proof.
  intros Hk. unfold bare_assignment. rewrite str_app_assoc, bare_name_app by done. cbn [mbind option_bind].
  by rewrite lit_app.
Qed.

(** Every [WHERE] clause is read to the end of the text. *)
Lemma conditions_read (conds : row) n :
  conds <> [] -> Forall any_name conds.*1 -> (length conds <= n)%nat ->
  sep_list quoted_condition " AND " n (render_conds conds) = Some (conds.*1, "").
Proof.
  intros Hne Hn Hl. unfold render_conds. rewrite <- (str_app_nil_r (join _ _)).
  apply (sep_list_join _ _ _ any_name (fun _ => True)); try done; [|by destruct conds|by rewrite length_fmap].
  intros k r Hk _. by apply quoted_condition_app.
Qed.

Lemma parse_render_replace sc t cols :
  stmt_names (SReplace sc t cols) -> parse_sql (render (SReplace sc t cols)).1 (render (SReplace sc t cols)).2 = Some (SReplace sc t cols).
Proof.
  cbn [stmt_names render fst snd]. unfold parse_sql.
  intros (Hsc & Ht & Hne & Hn).
  replace ("REPLACE INTO `" ++ sc ++ "`.`" ++ t ++ "`(" ++ join ", " cols.*1 ++ ") VALUES("
       ++ join "," (map (fun _ => "%s") cols) ++ ")")
    with ("REPLACE INTO " ++ ("`" ++ sc ++ "`.`" ++ t ++ "`" ++ "(" ++ (join ", " (map id cols.*1) ++ ") VALUES("
       ++ (join "," (map (fun _ : unit => "%s") (map (fun _ => tt) cols)) ++ ")" ++ "")))) by (by rewrite map_id, map_map).
  rewrite lit_app. unfold parse_replace. rewrite table_name_app by done. cbn [mbind option_bind].
  rewrite lit_app. cbn [mbind option_bind]. rewrite length_fmap.
  rewrite (sep_list_join _ _ id column_name (stops name_char)); try done; [|by intros; apply bare_name_app|by destruct cols|by rewrite length_fmap].
  cbn [mbind option_bind]. rewrite lit_app. cbn [mbind option_bind].
  rewrite (sep_list_join _ _ (fun _ : unit => "%s") (fun _ => True) (fun _ => True)); try done;
    [|by intros []|by destruct cols|by apply Forall_true|by rewrite length_map].
  cbn [mbind option_bind]. rewrite (lit_app ")" ""). cbn [mbind option_bind at_end]. rewrite length_fmap, length_map.
  unfold at_end. rewrite decide_True by done. cbn [mbind option_bind]. rewrite decide_True by done. by rewrite bind_split.
Qed.

Lemma parse_render_delete sc t conds :
  stmt_names (SDelete sc t conds) -> parse_sql (render (SDelete sc t conds)).1 (render (SDelete sc t conds)).2 = Some (SDelete sc t conds).
Proof.
  cbn [stmt_names render fst snd]. unfold parse_sql.
  intros (Hsc & Ht & Hne & Hn).
  replace ("DELETE FROM `" ++ sc ++ "`.`" ++ t ++ "` WHERE " ++ render_conds conds)
    with ("DELETE FROM " ++ ("`" ++ sc ++ "`.`" ++ t ++ "`" ++ " WHERE " ++ render_conds conds)) by done.
  change (lit "REPLACE INTO " ("DELETE FROM " ++ ?x)) with (@None string). cbv iota.
  rewrite lit_app. unfold parse_delete. rewrite table_name_app by done. cbn [mbind option_bind].
  rewrite lit_app. cbn [mbind option_bind]. rewrite conditions_read by (done || by rewrite length_fmap). cbn [mbind option_bind].
  unfold at_end. rewrite decide_True by done. cbn [mbind option_bind]. by rewrite bind_split.
Qed.

Lemma parse_render_update sc t sets conds :
  stmt_names (SUpdate sc t sets conds) -> parse_sql (render (SUpdate sc t sets conds)).1 (render (SUpdate sc t sets conds)).2 = Some (SUpdate sc t sets conds).
Proof.
  cbn [stmt_names render fst snd]. unfold parse_sql.
  intros (Hsc & Ht & Hne & Hn & Hnc & Hc).
  replace ("UPDATE `" ++ sc ++ "`.`" ++ t ++ "` SET " ++ join ", " (map (fun k => k ++ " = %s") sets.*1)
       ++ " WHERE " ++ render_conds conds)
    with ("UPDATE " ++ ("`" ++ sc ++ "`.`" ++ t ++ "`" ++ " SET " ++ (join ", " (map (fun k => k ++ " = %s") sets.*1)
       ++ " WHERE " ++ render_conds conds))) by done.
  change (lit "REPLACE INTO " ("UPDATE " ++ ?x)) with (@None string). cbv iota.
  change (lit "DELETE FROM " ("UPDATE " ++ ?x)) with (@None string). cbv iota.
  rewrite lit_app. cbn [mbind option_bind]. unfold parse_update. rewrite table_name_app by done. cbn [mbind option_bind].
  rewrite lit_app. cbn [mbind option_bind].
  rewrite length_app, !length_fmap.
  rewrite (sep_list_join _ _ (fun k => k ++ " = %s") column_name (fun _ => True)); try done;
    [|by intros; apply bare_assignment_app|by destruct sets|rewrite length_fmap; lia].
  cbn [mbind option_bind]. rewrite lit_app. cbn [mbind option_bind].
  rewrite conditions_read by (done || lia). cbn [mbind option_bind].
  unfold at_end. rewrite decide_True by done. cbn [mbind option_bind].
  rewrite take_app_length', drop_app_length' by (by rewrite !length_fmap). rewrite !bind_split. done.
Qed.

Lemma parse_render s : stmt_names s -> parse_sql (render s).1 (render s).2 = Some s.
Proof. destruct s; auto using parse_render_replace, parse_render_delete, parse_render_update. Qed.

(** ** The operations whose statement can be read *)

(** The names of an operation; the columns are named in its rows. *)
Definition row_names (r : row) : Prop := r <> [] /\ Forall column_name r.*1.

Definition op_names (o : OperationDML) : Prop :=
  any_name (dml_schema o) /\ any_name (dml_table o) /\
  match o with
  | OperationDMLInsert _ _ r _ | OperationDMLDelete _ _ r _ => row_names r
  | OperationDMLUpdate _ _ a b _ => row_names a /\ row_names b
  end.

Lemma name_char_plain c : name_char c = true -> not_backquote c = true.
Proof.
  unfold not_backquote. intros Hc. apply negb_true_iff, bool_decide_eq_false. intros ->. by vm_compute in Hc.
Qed.

Lemma column_name_any k : column_name k -> any_name k.
Proof.
  intros (Hc & Hl & _). split; [by intros ->|]. eapply str_forallb_impl; [|exact Hc]. apply name_char_plain.
Qed.

Lemma conditions_named pk r c : row_names r -> conditions pk r = Ok c -> c <> [] /\ Forall any_name c.*1.
Proof.
  intros [Hne Hn] Hc. split.
  - unfold conditions in Hc. destruct (pkey_names pk) as [ks|] eqn:E; [|by injection Hc as <-].
    intros ->. destruct ks as [|k ks]; [|cbn in Hc; by inv_ok].
    destruct pk as [|s|[|]]; cbn in E; try done. by case_decide.
  - apply Forall_forall. intros k Hk. apply (conditions_names pk r c Hc) in Hk.
    apply column_name_any. by eapply Forall_forall in Hn.
Qed.

Lemma statement_named o s : op_names o -> statement o = Ok s -> stmt_names s.
Proof.
  destruct o as [sc t r pk|sc t r pk|sc t a b pk]; cbn; intros (Hs & Ht & Hr) E.
  - by inv_ok.
  - destruct (conditions pk r) as [c|] eqn:Ec; [|done]. injection E as <-. cbn.
    by pose proof (conditions_named pk r c Hr Ec).
  - destruct Hr as [[Hne Hn] Hb]. destruct (conditions pk b) as [c|] eqn:Ec; [|done]. injection E as <-. cbn.
    by destruct (conditions_named pk b c Hb Ec).
Qed.

Lemma text_denotes o s :
  op_names o -> statement o = Ok s ->
  dmlOperation2Sql o = Ok (render s) /\ parse_sql (render s).1 (render s).2 = Some s.
Proof.
  intros Hn Hs. rewrite dml_renders, Hs. split; [done|]. by eapply parse_render, statement_named.
Qed.

End reader.

(** C12. The SQL text denotes the row change: for schema and table names without
    backquotes and column names that are identifiers and not reserved words,
    when [dmlOperation2Sql] returns a text and its parameters, reading the text
    as SQL and giving each placeholder the parameter at its position yields
    exactly one statement: the REPLACE of the whole row, the DELETE or UPDATE
    of the rows with this key. *)
Theorem sql_text_denotes (reserved : string -> bool) (o : OperationDML) (sql : string) (ps : list pyval) :
  op_names reserved o -> dmlOperation2Sql o = Ok (sql, ps) ->
  exists s, statement o = Ok s /\ parse_sql reserved sql ps = Some s.
Proof.
  intros Hn Hsql. rewrite dml_renders in Hsql. destruct (statement o) as [s|] eqn:Es; [|done]. cbn in Hsql.
  exists s. split; [done|]. destruct (text_denotes reserved o s Hn Es) as [_ Hp].
  injection Hsql as Hsql. by rewrite Hsql in Hp.
Qed.

Definition ex_reserved (s : string) : bool := bool_decide (s ∈ ["key"; "order"; "group"]).

Lemma sql_text_denotes_witness :
  exists s, statement (OperationDMLUpdate "d" "t" [("id", VInt 2); ("v", VStr "y")] [("id", VInt 1); ("v", VNone)] (PkStr "id")) = Ok s /\
    parse_sql ex_reserved "UPDATE `d`.`t` SET id = %s, v = %s WHERE `id` = %s" [VInt 2; VStr "y"; VInt 1] = Some s.
Proof.
  apply (sql_text_denotes ex_reserved
    (OperationDMLUpdate "d" "t" [("id", VInt 2); ("v", VStr "y")] [("id", VInt 1); ("v", VNone)] (PkStr "id"))).
  - repeat split; try done; repeat constructor; done.
  - reflexivity.
Defined.

(** A column named like a reserved word makes the text unreadable: the names in
    the column list of an insert and in the assignments of an update are not
    put in backquotes. *)
Example reserved_column_unreadable :
  dmlOperation2Sql (OperationDMLInsert "d" "t" [("key", VInt 1)] (PkStr "key")) =
    Ok ("REPLACE INTO `d`.`t`(key) VALUES(%s)", [VInt 1]) /\
  parse_sql ex_reserved "REPLACE INTO `d`.`t`(key) VALUES(%s)" [VInt 1] = None.
Proof. split; reflexivity. Qed.
