(* ===== verification/Metric.v ===== *)
(** * Files and metrics

    [main.py]: the working directory the program writes its state to, and
    [MetricController].  A file holds a JSON object with integer values or
    plain text; [json.dump] followed by [json.load] is the identity on such
    objects, so files are compared by content. *)

From stdpp Require Import base list strings sets.
From Stdlib Require Import ZArith Lia Ascii.
From S2P Require Import Prelude PyBytes PyStr Sql.
Open Scope string_scope.
Open Scope Z_scope.

(** ** The working directory *)

Inductive file :=
  | FJson (d : dict string Z)
  | FText (s : string).

Abbreviation files := (dict string file) (only parsing).

(** ** Metrics *)

Module MetricAttr.
Definition DML_INSERT : string := "dml_insert".
Definition DML_UPDATE : string := "dml_update".
Definition DML_DELETE : string := "dml_delete".
Definition NONDML : string := "nondml".
Definition TRX : string := "trx".
Definition MERGE_TRX : string := "merge_trx".
Definition DELAY : string := "delay".
Definition all : list string := [DML_INSERT; DML_UPDATE; DML_DELETE; NONDML; TRX; MERGE_TRX; DELAY].
End MetricAttr.

(** [NonDMLType.value] *)
Definition nondml_value (t : NonDMLType) : string :=
  match t with
  | CREATEDATABASE => "nondml_createdatabase"
  | DROPDATABASE => "nondml_dropdatabase"
  | ALTERDATABASE => "nondml_alterdatabase"
  | CREATETABLE => "nondml_createtable"
  | ALTERTABLE => "nondml_altertable"
  | DROPTABLE => "nondml_droptable"
  | RENAMETABLE => "nondml_renametable"
  | TRUNCATETABLE => "nondml_truncatetable"
  | CREATEINDEX => "nondml_createindex"
  end.

Definition nondml_all : list NonDMLType :=
  [CREATEDATABASE; DROPDATABASE; ALTERDATABASE; CREATETABLE; ALTERTABLE; DROPTABLE; RENAMETABLE; TRUNCATETABLE; CREATEINDEX].

Record metric := mkMetric { metrics : dict string Z; change : bool }.

(** [MetricController.__init__] *)
Definition metric_init : metric :=
  mkMetric (map (fun a => (a, 0)) (MetricAttr.all ++ map nondml_value nondml_all)%list) false.

Definition increment (attr : string) (m : metric) : metric :=
  match dict_get (metrics m) attr with
  | Some v => if decide (attr = MetricAttr.DELAY) then m
              else mkMetric (dict_set (metrics m) attr (v + 1)) true
  | None => m
  end.

(** [self.__metrics["delay"] += value] *)
Definition set_delay (value : Z) (m : metric) : result metric :=
  v ← dict_index (metrics m) MetricAttr.DELAY;
  Ok (mkMetric (dict_set (metrics m) MetricAttr.DELAY (v + value)) true).

Definition metric_persist (m : metric) (fs : files) : metric * files :=
  (mkMetric (metrics m) false,
   if change m then dict_set fs "metrics.json" (FJson (metrics m)) else fs).

(** ** Properties *)

(** The counters a controller has from its construction on. *)
Definition metric_wf (m : metric) : Prop := dict_keys (metrics m) = dict_keys (metrics metric_init).

Lemma metric_keys_init a : metric_wf a -> forall k, k ∈ dict_keys (metrics metric_init) <->
  exists v, dict_get (metrics a) k = Some v.
Proof.
  intros Hwf k. rewrite <- Hwf. rewrite <- dict_mem_spec. unfold dict_mem.
  destruct (dict_get (metrics a) k); split; [eauto|done|done|intros [? ?]; done].
Qed.

Lemma dict_set_present {K V} `{EqDecision K} (d : dict K V) k v w :
  dict_get d k = Some w -> dict_keys (dict_set d k v) = dict_keys d.
Proof.
  intros Hg. rewrite dict_set_keys. apply decide_True.
  apply dict_get_Some_elem in Hg. apply list_elem_of_fmap. by exists (k, w).
Qed.

Lemma increment_wf a m : metric_wf m -> metric_wf (increment a m).
Proof.
  intros Hwf. unfold increment. destruct (dict_get (metrics m) a) eqn:E; [|done].
  case_decide; [done|]. unfold metric_wf. cbn [metrics]. by rewrite (dict_set_present _ _ _ _ E).
Qed.

(** The delay counter exists, so [set_delay] does not raise. *)
Lemma set_delay_ok v m : metric_wf m -> exists m', set_delay v m = Ok m' /\ metric_wf m'.
Proof.
  intros Hwf. destruct (proj1 (metric_keys_init m Hwf MetricAttr.DELAY)) as [w Hw].
  { apply (bool_decide_unpack _). vm_compute. exact I. }
  unfold set_delay, dict_index. rewrite Hw. eexists. split; [done|]. unfold metric_wf. cbn [metrics].
  by rewrite (dict_set_present _ _ _ _ Hw).
Qed.

(** Successive reports of the delay add up instead of replacing each other. *)
Example set_delay_accumulates :
  (m ← set_delay 5 metric_init; m ← set_delay 2 m; Ok (dict_get (metrics m) "delay")) = Ok (Some 7).
Proof. reflexivity. Qed.
