(* ===== verification/Checkpoint.v ===== *)
(** * Checkpoints

    [main.py], class [Checkpoint]: the position to resume from, written to
    and read from the working directory. *)

From stdpp Require Import base list strings sets.
From Stdlib Require Import ZArith Lia Ascii.
From S2P Require Import Prelude PyBytes PyStr Metric.
Open Scope string_scope.
Open Scope Z_scope.

(** [l[-1]]; [str.split] never returns an empty list. *)
Definition last_of (l : list string) : result string := of_option IndexError (last l).
Definition head_of (l : list string) : result string := of_option IndexError (head l).

(** One iteration of [__format_gtidset]. *)
Definition format_entry (d : dict string Z) (gtidset : string) : result (dict string Z) :=
  let gtidsetf := split_on ":" gtidset in
  uuid ← head_of gtidsetf;
  l ← last_of gtidsetf;
  x ← (if str_mem "-" l then last_of (split_on "-" l) else Ok l);
  v ← int_of_str x;
  Ok (dict_set d uuid v).

Definition format_gtidset (gtidsets : string) : result (dict string Z) :=
  foldM_result format_entry (split_on "," gtidsets) [].

(** The loop over the items of the loaded checkpoint. *)
Definition merge_entry (d : dict string Z) (kv : string * Z) : dict string Z :=
  match dict_get d kv.1 with
  | Some v => dict_set d kv.1 (Z.max v kv.2)
  | None => dict_set d kv.1 kv.2
  end.

(** [__get_checkpoint_gtidset]; a file that is not a JSON object of integers
    makes [json.load] raise [ValueError]. *)
Definition get_checkpoint_gtidset (fs : files) (gtidset : string) : result string :=
  start ← format_gtidset gtidset;
  start ← match dict_get fs "ckpt.json" with
          | None => Ok start
          | Some (FJson d) => Ok (foldl merge_entry start d)
          | Some (FText _) => Err ValueError
          end;
  Ok (join ", " (map (fun kv : string * Z => kv.1 ++ ":1-" ++ str_of_Z kv.2) start)).

Definition persist_checkpoint_gtidset (gtidset : dict string Z) (fs : files) : files :=
  dict_set fs "ckpt.gtidset.json" (FJson gtidset).

(** A binlog file and a position in it, either of which may be [None]. *)
Definition position : Type := option string * option Z.

(** [f"{postion[0]}:{postion[1]}"] *)
Definition position_text (p : position) : string :=
  default "None" p.1 ++ ":" ++ match p.2 with Some z => str_of_Z z | None => "None" end.

(** [postion[0]] of an empty tuple raises [IndexError]. *)
Definition persist_checkpoint_position (latest : option position) (fs : files) : result files :=
  match latest with
  | None => Err IndexError
  | Some p => Ok (dict_set fs "ckpt.logposition.txt" (FText (position_text p)))
  end.

(** ** Properties *)

(** The value a list of pairs gives to a key, the last one winning. *)
Lemma merge_entries_get d l k :
  NoDup (dict_keys l) ->
  dict_get (foldl merge_entry d l) k =
  match dict_get l k, dict_get d k with
  | Some v, Some w => Some (Z.max w v)
  | Some v, None => Some v
  | None, o => o
  end.
Proof.
  revert d. induction l as [|[k0 v0] l IH]; intros d Hnd; [cbn; by destruct (dict_get d k)|].
  unfold dict_keys in *. cbn in Hnd. apply NoDup_cons in Hnd as [Hni Hnd]. cbn [foldl].
  rewrite IH by done. clear IH. cbn [dict_get].
  destruct (decide (k = k0)) as [->|Hne].
  - assert (dict_get l k0 = None) as -> by (by apply dict_get_None).
    unfold merge_entry. cbn. destruct (dict_get d k0) eqn:E; by rewrite dict_get_set_eq.
  - assert (dict_get (merge_entry d (k0, v0)) k = dict_get d k) as ->; [|done].
    unfold merge_entry. cbn. destruct (dict_get d k0); by rewrite dict_get_set_ne.
Qed.

(** C22. Resuming: the start position merges the configured set with the
    content of [ckpt.json] by taking, for each server, the larger of the two
    transaction numbers.  The checkpoint the program itself writes is not
    that file: whatever [persist_checkpoint_gitdset] and
    [persist_checkpoint_position] have written, the position computed at the
    next start is the one that would be computed without it. *)
Theorem checkpoint_resume (fs fs' : files) (gtidset : string) (d saved : dict string Z)
    (pos : option position) :
  NoDup (dict_keys d) -> persist_checkpoint_position pos (persist_checkpoint_gtidset saved fs) = Ok fs' ->
  (forall start, format_gtidset gtidset = Ok start ->
     exists merged, get_checkpoint_gtidset (dict_set fs "ckpt.json" (FJson d)) gtidset =
         Ok (join ", " (map (fun kv : string * Z => kv.1 ++ ":1-" ++ str_of_Z kv.2) merged)) /\
       forall k, dict_get merged k =
         match dict_get d k, dict_get start k with
         | Some v, Some w => Some (Z.max w v)
         | Some v, None => Some v
         | None, o => o
         end) /\
  get_checkpoint_gtidset fs' gtidset = get_checkpoint_gtidset fs gtidset.
Proof.
  intros Hnd Hfs'. split.
  - intros start Hs. exists (foldl merge_entry start d). unfold get_checkpoint_gtidset. rewrite Hs. cbn [mbind result_bind].
    rewrite dict_get_set_eq. split; [done|]. intros k. by apply merge_entries_get.
  - unfold get_checkpoint_gtidset. destruct (format_gtidset gtidset); cbn [mbind result_bind]; [|done].
    destruct pos as [[f p]|]; cbn in Hfs'; inv_ok. unfold persist_checkpoint_gtidset.
    by rewrite !dict_get_set_ne.
Qed.

Lemma checkpoint_resume_witness :
  get_checkpoint_gtidset (dict_set [] "ckpt.gtidset.json" (FJson [("u", 9)])) "u:1-5" =
  get_checkpoint_gtidset [] "u:1-5".
Proof.
  assert (dict_set (dict_set ([] : files) "ckpt.gtidset.json" (FJson [("u", 9)])) "ckpt.logposition.txt" (FText "f:4")
    = [("ckpt.gtidset.json", FJson [("u", 9)]); ("ckpt.logposition.txt", FText "f:4")]) as E by reflexivity.
  pose proof (checkpoint_resume [] _ "u:1-5" [("u", 7)] [("u", 9)] (Some (Some "f", Some 4))
    ltac:(apply (bool_decide_unpack _); vm_compute; exact I) eq_refl) as [_ H].
  rewrite <- H. reflexivity.
Defined.

(** The first interval and the gaps of a set are lost: transactions 6 to 9 of
    this server would never be asked for. *)
Example format_drops_gaps : get_checkpoint_gtidset [] "u:1-5:10-20" = Ok "u:1-20".
Proof. reflexivity. Qed.
