(* ===== verification/Client.v ===== *)
(** * The target database client

    [main.py], class [MysqlClient].  The connection is mysql.connector's
    [MySQLConnection], which is not part of the repository: it is the class
    [TargetConnection], and [TargetLaws] states the documented behaviour the
    client relies on in terms of what the server has committed and what the
    open transaction holds.  [journal] is an instance. *)

From stdpp Require Import base list strings sets.
From Stdlib Require Import ZArith Lia Ascii.
From S2P Require Import Prelude PyBytes PyStr Values.
Open Scope string_scope.
Open Scope Z_scope.

(** ** The connection *)

Class TargetConnection (C : Type) := {
  con_in_transaction : C -> bool;                       (* con.in_transaction *)
  con_start_transaction : ST C unit;                    (* con.start_transaction() *)
  con_execute : string -> list pyval -> ST C unit;      (* cur.execute(sql, params) *)
  con_execute_ddl : string -> ST C unit;                (* with con.cursor() as cur: cur.execute(sql) *)
  con_set_database : string -> ST C unit;               (* con.database = db *)
  con_commit : ST C unit;                               (* con.commit() *)
  con_rollback : ST C unit                              (* con.rollback() *)
}.

(** What reaches the server. *)
Inductive action :=
  | ADml (sql : string) (params : list pyval)
  | ADdl (sql : string).

(** What a connection with autocommit off does.  A statement that fails leaves
    the transaction as it was or, after a deadlock, rolled back; a commit
    that fails may or may not have taken effect; DDL commits implicitly. *)
Class TargetLaws (C : Type) `{TargetConnection C} := {
  committed : C -> list action;
  pending : C -> list action;
  idle_pending : forall c, con_in_transaction c = false -> pending c = [];
  start_ok : forall c c', con_start_transaction c = (Ok tt, c') ->
    committed c' = committed c /\ (pending c = [] -> pending c' = []);
  start_err : forall c c' e, con_start_transaction c = (Err e, c') ->
    committed c' = committed c /\ pending c' = pending c;
  execute_ok : forall sql ps c c', con_execute sql ps c = (Ok tt, c') ->
    committed c' = committed c /\ pending c' = (pending c ++ [ADml sql ps])%list /\ con_in_transaction c' = true;
  execute_err : forall sql ps c c' e, con_execute sql ps c = (Err e, c') ->
    committed c' = committed c /\ (pending c' = pending c \/ pending c' = []);
  ddl_ok : forall sql c c', con_execute_ddl sql c = (Ok tt, c') ->
    committed c' = (committed c ++ pending c ++ [ADdl sql])%list /\ pending c' = [];
  ddl_err : forall sql c c' e, con_execute_ddl sql c = (Err e, c') ->
    (committed c' = committed c /\ pending c' = pending c) \/
    (committed c' = (committed c ++ pending c)%list /\ pending c' = []);
  database_same : forall db c r c', con_set_database db c = (r, c') ->
    committed c' = committed c /\ pending c' = pending c;
  commit_ok : forall c c', con_commit c = (Ok tt, c') ->
    committed c' = (committed c ++ pending c)%list /\ pending c' = [];
  commit_err : forall c c' e, con_commit c = (Err e, c') ->
    (committed c' = committed c /\ (pending c' = pending c \/ pending c' = [])) \/
    (committed c' = (committed c ++ pending c)%list /\ pending c' = []);
  rollback_same : forall c r c', con_rollback c = (r, c') ->
    committed c' = committed c /\ (pending c' = pending c \/ pending c' = [])
}.

(** ** The client *)

Record client (C : Type) := mkClient { con : C; dml_cnt : Z }.
Arguments mkClient {C}.
Arguments con {C}.
Arguments dml_cnt {C}.

Section client.
Context {C : Type} `{TargetConnection C}.

(** Run an operation of the connection. *)
Definition on_con (m : ST C unit) : ST (client C) unit := fun s =>
  let '(r, c') := m (con s) in (r, mkClient c' (dml_cnt s)).

(** [MysqlClient.__init__] on an open connection. *)
Definition client_init (c : C) : client C := mkClient c 0.

Definition push_begin : ST (client C) unit := fun s =>
  if con_in_transaction (con s) then (Ok tt, s) else on_con con_start_transaction s.

Definition push_dml (sql_text : string) (params : list pyval) : ST (client C) unit :=
  on_con (con_execute sql_text params) ;;
  st_modify (fun s => mkClient (con s) (dml_cnt s + 1)).

Definition push_commit : ST (client C) unit :=
  s ← st_get;
  (if con_in_transaction (con s)
   then if 1 <=? dml_cnt s then on_con con_commit else on_con con_rollback
   else mret tt) ;;
  st_modify (fun s => mkClient (con s) 0).

(** [if db:] is false for [None] and for the empty name. *)
Definition push_nondml (db : option string) (sql_text : string) : ST (client C) unit :=
  push_commit ;;
  (match db with
   | None => mret tt
   | Some d => if decide (d = "") then mret tt else on_con (con_set_database d)
   end) ;;
  on_con (con_execute_ddl sql_text).
End client.

(** ** Properties *)

Section laws.
Context {C : Type} `{TargetLaws C}.

(** Statements of the open transaction are counted, so that [push_commit]
    does not take a non-empty transaction for an empty one. *)
Definition client_inv (s : client C) : Prop := 0 <= dml_cnt s /\ (pending (con s) <> [] -> 1 <= dml_cnt s).

Definition done_of (s : client C) : list action := committed (con s).
Definition open_of (s : client C) : list action := pending (con s).

Lemma push_commit_ok s s' :
  client_inv s -> push_commit s = (Ok tt, s') ->
  done_of s' = (done_of s ++ open_of s)%list /\ open_of s' = [] /\ client_inv s'.
Proof.
  intros [Hn Hp] Hr. unfold push_commit in Hr. rewrite st_bind_eq in Hr. cbn [st_get] in Hr.
  unfold done_of, open_of, client_inv, mbind, ST_bind, on_con, st_modify in *.
  destruct (con_in_transaction (con s)) eqn:Ht.
  - destruct (Z.leb_spec 1 (dml_cnt s)).
    + destruct (con_commit (con s)) as [[[]|e] c'] eqn:E; [|done]. injection Hr as <-. cbn.
      apply commit_ok in E as [-> ->]. done.
    + assert (pending (con s) = []) as Hpe 
        by (destruct (pending (con s)); [done|]; specialize (Hp ltac:(done)); lia).
      destruct (con_rollback (con s)) as [[[]|e] c'] eqn:E; [|done]. injection Hr as <-. cbn.
      apply rollback_same in E as (-> & Hpc). rewrite Hpe in *. rewrite app_nil_r.
      assert (pending c' = []) as -> by naive_solver. done.
  - cbn in Hr. injection Hr as <-. cbn. rewrite (idle_pending (con s) Ht), app_nil_r. done.
Qed.

Lemma push_begin_spec s r s' :
  client_inv s -> push_begin s = (r, s') -> done_of s' = done_of s /\ open_of s' = open_of s /\ client_inv s'.
Proof.
  intros [Hn Hp] Hr. unfold push_begin, on_con, done_of, open_of, client_inv in *.
  destruct (con_in_transaction (con s)) eqn:Ht; [injection Hr as <- <-; done|].
  destruct (con_start_transaction (con s)) as [r' c'] eqn:E. injection Hr as <- <-. cbn.
  pose proof (idle_pending (con s) Ht) as Hpe. rewrite Hpe.
  destruct r' as [[]|e].
  - apply start_ok in E as (-> & Hpc). by rewrite (Hpc Hpe).
  - apply start_err in E as (-> & ->). by rewrite Hpe.
Qed.

Lemma push_dml_ok sql ps s s' :
  client_inv s -> push_dml sql ps s = (Ok tt, s') ->
  done_of s' = done_of s /\ open_of s' = (open_of s ++ [ADml sql ps])%list /\ client_inv s'.
Proof.
  intros [Hn Hp] Hr. unfold push_dml, mbind, ST_bind, on_con, st_modify, done_of, open_of, client_inv in *.
  destruct (con_execute sql ps (con s)) as [[[]|e] c'] eqn:E; [|done]. injection Hr as <-. cbn.
  apply execute_ok in E as (-> & -> & _). repeat split; lia.
Qed.

(** A failed statement commits nothing. *)
Lemma push_dml_err sql ps s s' e :
  client_inv s -> push_dml sql ps s = (Err e, s') ->
  done_of s' = done_of s /\ (open_of s' = open_of s \/ open_of s' = []) /\ client_inv s'.
Proof.
  intros [Hn Hp] Hr. unfold push_dml, mbind, ST_bind, on_con, st_modify, done_of, open_of, client_inv in *.
  destruct (con_execute sql ps (con s)) as [[[]|e'] c'] eqn:E; [done|]. injection Hr as _ <-. cbn.
  apply execute_err in E as (-> & Hpc). split; [done|]. split; [done|]. split; [done|].
  intros Hne. apply Hp. destruct Hpc as [<-|Hpc]; [done|congruence].
Qed.

Lemma push_nondml_ok db sql s s' :
  client_inv s -> push_nondml db sql s = (Ok tt, s') ->
  done_of s' = (done_of s ++ open_of s ++ [ADdl sql])%list /\ open_of s' = [] /\ client_inv s'.
Proof.
  intros Hi Hr. unfold push_nondml in Hr. rewrite st_bind_eq in Hr.
  destruct (push_commit s) as [[[]|e] s1] eqn:E1; [|done].
  apply (push_commit_ok s s1 Hi) in E1 as (Hd1 & Ho1 & [Hn1 Hp1]).
  rewrite st_bind_eq in Hr.
  assert (exists s2, (match db with None => mret tt | Some d => if decide (d = "") then mret tt else on_con (con_set_database d) end) s1
    = (Ok tt, s2) /\ done_of s2 = done_of s1 /\ open_of s2 = open_of s1 /\ dml_cnt s2 = dml_cnt s1) as (s2 & E2 & Hd2 & Ho2 & Hc2).
  { destruct db as [d|]; [|by exists s1]. case_decide; [by exists s1|].
    unfold on_con in *. destruct (con_set_database d (con s1)) as [[[]|e] c'] eqn:E; [|done].
    apply database_same in E as [? ?]. by eexists. }
  rewrite E2 in Hr. unfold on_con, done_of, open_of, client_inv in *.
  destruct (con_execute_ddl sql (con s2)) as [[[]|e] c'] eqn:E3; [|done]. injection Hr as <-. cbn.
  apply ddl_ok in E3 as (-> & ->). rewrite Hd2, Ho2, Hd1, Ho1, Hc2. cbn. rewrite <- app_assoc. done.
Qed.

(** Whatever the outcome of a commit, the committed statements are those
    before it or those before it and the pending ones. *)
Definition same_or_all (s s' : client C) : Prop :=
  done_of s' = done_of s \/ done_of s' = (done_of s ++ open_of s)%list.

Lemma push_commit_any s r s' : client_inv s -> push_commit s = (r, s') -> same_or_all s s'.
Proof.
  intros Hi Hr. destruct r as [[]|e]; [right; by apply push_commit_ok|].
  unfold push_commit in Hr. rewrite st_bind_eq in Hr. cbn [st_get] in Hr. rewrite st_bind_eq in Hr.
  unfold same_or_all, done_of, open_of, on_con in *.
  destruct (con_in_transaction (con s)); [|done]. destruct (1 <=? dml_cnt s).
  - destruct (con_commit (con s)) as [[[]|e'] c'] eqn:E; [done|]. injection Hr as _ <-. cbn.
    apply commit_err in E as [[-> _]|[-> _]]; eauto.
  - destruct (con_rollback (con s)) as [[[]|e'] c'] eqn:E; [done|]. injection Hr as _ <-. cbn.
    apply rollback_same in E as [-> _]. eauto.
Qed.

Lemma push_nondml_any db sql s r s' :
  client_inv s -> push_nondml db sql s = (r, s') ->
  same_or_all s s' \/ done_of s' = (done_of s ++ open_of s ++ [ADdl sql])%list.
Proof.
  intros Hi Hr. destruct r as [[]|e]; [right; by eapply push_nondml_ok|]. left.
  unfold push_nondml in Hr. rewrite st_bind_eq in Hr.
  destruct (push_commit s) as [[[]|e1] s1] eqn:E1; [|injection Hr as _ <-; by eapply push_commit_any].
  apply (push_commit_ok s s1 Hi) in E1 as (Hd1 & Ho1 & _). rewrite st_bind_eq in Hr.
  assert (forall s2, done_of s2 = done_of s1 -> open_of s2 = open_of s1 ->
    forall r s3, on_con (con_execute_ddl sql) s2 = (Err r, s3) -> same_or_all s s3) as Hddl.
  { intros s2 Hd2 Ho2 r s3 E. right. rewrite <- Hd1, <- Hd2. unfold on_con, done_of, open_of in *.
    destruct (con_execute_ddl sql (con s2)) as [[[]|e'] c'] eqn:E3; [done|]. injection E as _ <-. cbn.
    apply ddl_err in E3 as [[-> _]|[-> _]]; [done|]. by rewrite Ho2, Ho1, app_nil_r. }
  destruct db as [d|]; [|by apply (Hddl s1 eq_refl eq_refl e)].
  case_decide; [by apply (Hddl s1 eq_refl eq_refl e)|]. unfold on_con in Hr at 1.
  destruct (con_set_database d (con s1)) as [r2 c2] eqn:E2. apply database_same in E2 as [Hc2 Hp2].
  destruct r2 as [[]|e2]; [by apply (Hddl (mkClient c2 (dml_cnt s1)) Hc2 Hp2 e)|].
  injection Hr as _ <-. right. unfold done_of in *. cbn. by rewrite Hc2, Hd1.
Qed.

(** C11. [MysqlClient] refines a journal of committed and pending statements,
    whatever connection it is given: from a state in which the statements of
    the open transaction are counted, [push_begin] changes neither,
    [push_dml] adds its statement to the open transaction, [push_commit]
    commits every pending statement in order (it never rolls work back), and
    [push_nondml] commits the pending statements before its own; the count
    stays right, and a failed [push_dml] commits nothing. *)
Theorem client_refines_journal (s s' : client C) (sql : string) (ps : list pyval) (db : option string) :
  client_inv s ->
  (push_begin s = (Ok tt, s') -> done_of s' = done_of s /\ open_of s' = open_of s /\ client_inv s') /\
  (push_dml sql ps s = (Ok tt, s') ->
     done_of s' = done_of s /\ open_of s' = (open_of s ++ [ADml sql ps])%list /\ client_inv s') /\
  (push_commit s = (Ok tt, s') ->
     done_of s' = (done_of s ++ open_of s)%list /\ open_of s' = [] /\ client_inv s') /\
  (push_nondml db sql s = (Ok tt, s') ->
     done_of s' = (done_of s ++ open_of s ++ [ADdl sql])%list /\ open_of s' = [] /\ client_inv s') /\
  (forall e, push_dml sql ps s = (Err e, s') -> done_of s' = done_of s /\ client_inv s').
Proof.
  intros Hi. split; [by apply push_begin_spec|]. split; [by apply push_dml_ok|].
  split; [by apply push_commit_ok|]. split; [by apply push_nondml_ok|].
  intros e He. by destruct (push_dml_err sql ps s s' e Hi He) as (? & _ & ?).
Qed.
End laws.

(** ** A connection that keeps a journal

    Statements whose text is listed in [j_bad] are refused. *)
Record journal := mkJournal { j_done : list action; j_open : list action; j_trx : bool; j_bad : list string }.

Definition refused : exn := BackendError 1064.

#[export] Instance journal_connection : TargetConnection journal := {|
  con_in_transaction j := j_trx j;
  con_start_transaction j :=
    if j_trx j then (Err refused, j) else (Ok tt, mkJournal (j_done j) [] true (j_bad j));
  con_execute sql ps j :=
    if bool_decide (sql ∈ j_bad j) then (Err refused, j)
    else (Ok tt, mkJournal (j_done j) ((if j_trx j then j_open j else []) ++ [ADml sql ps])%list true (j_bad j));
  con_execute_ddl sql j :=
    let j' := mkJournal (j_done j ++ (if j_trx j then j_open j else []))%list [] false (j_bad j) in
    if bool_decide (sql ∈ j_bad j) then (Err refused, j')
    else (Ok tt, mkJournal (j_done j' ++ [ADdl sql])%list [] false (j_bad j));
  con_set_database _ j := (Ok tt, j);
  con_commit j := (Ok tt, mkJournal (j_done j ++ (if j_trx j then j_open j else []))%list [] false (j_bad j));
  con_rollback j := (Ok tt, mkJournal (j_done j) [] false (j_bad j))
|}.

#[export] Instance journal_laws : TargetLaws journal.
Proof.
  refine {| committed := j_done; pending j := if j_trx j then j_open j else [] |}.
  - cbn. intros c ->. done.
  - cbn. intros c c'. destruct (j_trx c) eqn:E; intros Hc; [done|]. injection Hc as <-. done.
  - cbn. intros c c' e. destruct (j_trx c) eqn:E; intros Hc; [|done]. injection Hc as _ <-. by rewrite E.
  - cbn. intros sql ps c c'. case_bool_decide; intros Hc; [done|]. injection Hc as <-. done.
  - cbn. intros sql ps c c' e. case_bool_decide; intros Hc; [|done]. injection Hc as _ <-. eauto.
  - cbn. intros sql c c'. case_bool_decide; intros Hc; [done|]. injection Hc as <-. cbn. by rewrite <- app_assoc.
  - cbn. intros sql c c' e. case_bool_decide; intros Hc; [|done]. injection Hc as _ <-. by right.
  - cbn. intros db c r c' Hc. injection Hc as _ <-. done.
  - cbn. intros c c' Hc. injection Hc as <-. done.
  - cbn. done.
  - cbn. intros c r c' Hc. injection Hc as _ <-. eauto.
Defined.

Definition journal_init (bad : list string) : client journal := client_init (mkJournal [] [] false bad).

Lemma client_refines_journal_witness :
  exists s', (push_begin ;; push_dml "a" [] ;; push_commit) (journal_init []) = (Ok tt, s') /\
    done_of s' = [ADml "a" []].
Proof.
  eexists. split; [reflexivity|].
  assert (client_inv (mkClient (mkJournal [] [ADml "a" []] true []) 1)) as Hi by (split; cbn; intros; lia).
  destruct (proj1 (proj2 (proj2 (client_refines_journal _
    (mkClient (mkJournal [ADml "a" []] [] false []) 0) "a" [] None Hi))) eq_refl) as [E _].
  exact E.
Defined.
