(* ===== verification/Sync.v ===== *)
(** * The synchronisation loop

    [main.py], class [MysqlSync]: the operations of the source are pushed to
    the target, transactions are committed one by one or, with [merge_trx],
    merged while the source committed them as one group, and checkpoints are
    written when the interval has passed.

    [time.time()] is the parameter [now]: its [n]-th call returns [now n], in
    microseconds (the rounding of Python's floats is not modelled).  The
    operation stream is the list of what [operation_stream] yields; an [Err]
    is an exception raised by the generator. *)

From stdpp Require Import base list strings sets.
From Stdlib Require Import ZArith Lia Ascii.
From S2P Require Import Prelude PyBytes PyStr Values Column Sql Metric Checkpoint Client.
Open Scope string_scope.
Open Scope Z_scope.

Record settings := mkSettings {
  merge_trx : bool;
  checkpoint_interval : Z;                       (* microseconds *)
  exclude_tables : dict string (list string)
}.

Record sync (C : Type) := mkSync {
  mc : client C;
  metric_of : metric;
  last_committed : Z;
  allow_commit : bool;
  allow_checkpoint : bool;
  latest_gtidset : dict string Z;
  latest_position : option position;
  dir : files;
  ticks : nat;
  (* local variables of [run] *)
  ts_0 : Z;
  operation_timestamp : Z;
  error_exit : bool;
  last_heartbeat : bool                          (* type(_last_operation) == OperationHeartbeat *)
}.
Arguments mkSync {C}.
Arguments mc {C}.
Arguments metric_of {C}.
Arguments last_committed {C}.
Arguments allow_commit {C}.
Arguments allow_checkpoint {C}.
Arguments latest_gtidset {C}.
Arguments latest_position {C}.
Arguments dir {C}.
Arguments ticks {C}.
Arguments ts_0 {C}.
Arguments operation_timestamp {C}.
Arguments error_exit {C}.
Arguments last_heartbeat {C}.

(** An element of the stream: log file and position, timestamp, operation. *)
Definition item : Type := position * Z * operation.

Section sync.
Context {C : Type} `{TargetConnection C} (now : nat -> Z) (cfg : settings).

Abbreviation SM := (ST (sync C)).

(** *** Assignments *)

Definition set_mc (x : client C) (s : sync C) : sync C :=
  mkSync x (metric_of s) (last_committed s) (allow_commit s) (allow_checkpoint s) (latest_gtidset s)
    (latest_position s) (dir s) (ticks s) (ts_0 s) (operation_timestamp s) (error_exit s) (last_heartbeat s).
Definition set_metric (x : metric) (s : sync C) : sync C :=
  mkSync (mc s) x (last_committed s) (allow_commit s) (allow_checkpoint s) (latest_gtidset s)
    (latest_position s) (dir s) (ticks s) (ts_0 s) (operation_timestamp s) (error_exit s) (last_heartbeat s).
Definition set_last_committed (x : Z) (s : sync C) : sync C :=
  mkSync (mc s) (metric_of s) x (allow_commit s) (allow_checkpoint s) (latest_gtidset s)
    (latest_position s) (dir s) (ticks s) (ts_0 s) (operation_timestamp s) (error_exit s) (last_heartbeat s).
Definition set_allow_commit (x : bool) (s : sync C) : sync C :=
  mkSync (mc s) (metric_of s) (last_committed s) x (allow_checkpoint s) (latest_gtidset s)
    (latest_position s) (dir s) (ticks s) (ts_0 s) (operation_timestamp s) (error_exit s) (last_heartbeat s).
Definition set_allow_checkpoint (x : bool) (s : sync C) : sync C :=
  mkSync (mc s) (metric_of s) (last_committed s) (allow_commit s) x (latest_gtidset s)
    (latest_position s) (dir s) (ticks s) (ts_0 s) (operation_timestamp s) (error_exit s) (last_heartbeat s).
Definition set_latest (g : dict string Z) (p : option position) (s : sync C) : sync C :=
  mkSync (mc s) (metric_of s) (last_committed s) (allow_commit s) (allow_checkpoint s) g
    p (dir s) (ticks s) (ts_0 s) (operation_timestamp s) (error_exit s) (last_heartbeat s).
Definition set_dir (x : files) (s : sync C) : sync C :=
  mkSync (mc s) (metric_of s) (last_committed s) (allow_commit s) (allow_checkpoint s) (latest_gtidset s)
    (latest_position s) x (ticks s) (ts_0 s) (operation_timestamp s) (error_exit s) (last_heartbeat s).
Definition set_ts_0 (x : Z) (s : sync C) : sync C :=
  mkSync (mc s) (metric_of s) (last_committed s) (allow_commit s) (allow_checkpoint s) (latest_gtidset s)
    (latest_position s) (dir s) (ticks s) x (operation_timestamp s) (error_exit s) (last_heartbeat s).
Definition set_operation_timestamp (x : Z) (s : sync C) : sync C :=
  mkSync (mc s) (metric_of s) (last_committed s) (allow_commit s) (allow_checkpoint s) (latest_gtidset s)
    (latest_position s) (dir s) (ticks s) (ts_0 s) x (error_exit s) (last_heartbeat s).
Definition set_error_exit (x : bool) (s : sync C) : sync C :=
  mkSync (mc s) (metric_of s) (last_committed s) (allow_commit s) (allow_checkpoint s) (latest_gtidset s)
    (latest_position s) (dir s) (ticks s) (ts_0 s) (operation_timestamp s) x (last_heartbeat s).
Definition set_last_heartbeat (x : bool) (s : sync C) : sync C :=
  mkSync (mc s) (metric_of s) (last_committed s) (allow_commit s) (allow_checkpoint s) (latest_gtidset s)
    (latest_position s) (dir s) (ticks s) (ts_0 s) (operation_timestamp s) (error_exit s) x.

(** *** Helpers *)

(** [time.time()] *)
Definition time_time : SM Z := fun s =>
  (Ok (now (ticks s)),
   mkSync (mc s) (metric_of s) (last_committed s) (allow_commit s) (allow_checkpoint s) (latest_gtidset s)
     (latest_position s) (dir s) (S (ticks s)) (ts_0 s) (operation_timestamp s) (error_exit s) (last_heartbeat s)).

Definition on_mc (m : ST (client C) unit) : SM unit := fun s =>
  let '(r, c') := m (mc s) in (r, set_mc c' s).

Definition metric_increment (attr : string) : SM unit :=
  st_modify (fun s => set_metric (increment attr (metric_of s)) s).

Definition metric_set_delay (value : Z) : SM unit :=
  s ← st_get; m ← st_lift (set_delay value (metric_of s)); st_modify (set_metric m).

Definition metric_persist_ : SM unit :=
  st_modify (fun s => let '(m, d) := metric_persist (metric_of s) (dir s) in set_dir d (set_metric m s)).

(** [__merge_commit] *)
Definition merge_commit : SM unit :=
  s ← st_get;
  if allow_commit s then
    on_mc push_commit ;;
    st_modify (set_allow_commit false) ;;
    metric_increment MetricAttr.MERGE_TRX ;;
    st_modify (set_allow_checkpoint true)
  else mret tt.

(** [__checkpoint] *)
Definition checkpoint : SM unit :=
  st_modify (fun s => set_dir (persist_checkpoint_gtidset (latest_gtidset s) (dir s)) s) ;;
  s ← st_get;
  d ← st_lift (persist_checkpoint_position (latest_position s) (dir s));
  st_modify (set_dir d) ;;
  st_modify (set_allow_checkpoint false).

Definition is_heartbeat (o : operation) : bool := match o with OperationHeartbeat => true | _ => false end.

Definition excluded (o : OperationDML) : bool :=
  match dict_get (exclude_tables cfg) (dml_schema o) with
  | Some ts => bool_decide (dml_table o ∈ ts)
  | None => false
  end.

Definition dml_metric (o : OperationDML) : string :=
  match o with
  | OperationDMLDelete _ _ _ _ => MetricAttr.DML_DELETE
  | OperationDMLInsert _ _ _ _ => MetricAttr.DML_INSERT
  | OperationDMLUpdate _ _ _ _ _ => MetricAttr.DML_UPDATE
  end.

(** The [if]/[elif] chain of the loop body. *)
Definition dispatch (it : item) : SM unit :=
  let '(pos, timestamp, op) := it in
  match op with
  | OperationNonDML oper_type schema _ query =>
      merge_commit ;;
      st_try (on_mc (push_nondml schema query) ;; metric_increment (nondml_value oper_type))
             (fun _ => st_modify (set_error_exit true))
  | OpDML o =>
      metric_increment (dml_metric o) ;;
      st_try ('(sql_text, params) ← st_lift (dmlOperation2Sql o); on_mc (push_dml sql_text params))
             (fun _ => st_modify (set_error_exit true))
  | OperationBegin => on_mc push_begin
  | OperationCommit =>
      metric_increment MetricAttr.TRX ;;
      if merge_trx cfg then st_modify (set_allow_commit true) else on_mc push_commit
  | OperationGtid server_uuid xid lc =>
      s ← st_get;
      (if merge_trx cfg && negb (last_committed s =? lc)
       then merge_commit ;; st_modify (set_last_committed lc) else mret tt) ;;
      x ← st_lift (int_of_str xid);
      st_modify (fun s => set_latest (dict_set (latest_gtidset s) server_uuid x) (Some pos) s)
  | OperationHeartbeat =>
      s ← st_get;
      if last_heartbeat s
      then t ← time_time; st_modify (set_operation_timestamp t) ;; merge_commit
      else mret tt
  end.

(** The rest of the loop body: delay, checkpoint interval. *)
Definition after_dispatch (it : item) : SM unit :=
  let '(_, timestamp, op) := it in
  (if is_heartbeat op then mret tt else st_modify (set_operation_timestamp (timestamp * 1000000))) ;;
  t ← time_time;
  s ← st_get;
  metric_set_delay (Z.quot (t - operation_timestamp s) 1000000) ;;
  t1 ← time_time;
  s ← st_get;
  (if ts_0 s + checkpoint_interval cfg <=? t1 then
     metric_persist_ ;;
     st_modify (set_ts_0 t1) ;;
     s ← st_get;
     if allow_checkpoint s then checkpoint else mret tt
   else mret tt) ;;
  st_modify (set_last_heartbeat (is_heartbeat op)).

(** One iteration; operations on excluded tables [continue]. *)
Definition step (it : item) : SM unit :=
  match it.2 with
  | OpDML o => if excluded o then mret tt else dispatch it ;; after_dispatch it
  | _ => dispatch it ;; after_dispatch it
  end.

Fixpoint loop (items : list (result item)) : SM unit :=
  match items with
  | [] => mret tt
  | Err e :: _ => st_raise e
  | Ok it :: rest =>
      step it ;;
      s ← st_get;
      if error_exit s then mret tt else loop rest
  end.

(** [run]; [true] is [sys.exit(1)]. *)
Definition run (items : list (result item)) : SM bool :=
  t ← time_time;
  st_modify (set_ts_0 t) ;;
  st_modify (set_operation_timestamp 0) ;;
  st_modify (set_error_exit false) ;;
  st_modify (set_last_heartbeat false) ;;
  loop items ;;
  merge_commit ;;
  metric_persist_ ;;
  s ← st_get;
  mret (error_exit s).

(** [MysqlSync.__init__]: the start position and the initial state, for an
    open connection. *)
Definition sync_init (c : C) (d : files) (auto_position : string) : result (string * sync C) :=
  start ← get_checkpoint_gtidset d auto_position;
  Ok (start, mkSync (client_init c) metric_init (-1) false false [] None d 0 0 0 false false).
End sync.

(** ** Transactions

    The stream a source writes is a sequence of transactions: row changes
    between a [BEGIN] and a commit, or one DDL statement, each announced by
    its GTID, with heartbeats between transactions. *)

Inductive trx :=
  | TDml (uuid xid : string) (lc : Z) (ops : list OperationDML)
  | TDdl (uuid xid : string) (lc : Z) (oper_type : NonDMLType) (schema table : option string) (query : string)
  | TIdle.

Definition ops_of (t : trx) : list operation :=
  match t with
  | TDml uuid xid lc ops =>
      OperationGtid uuid xid lc :: OperationBegin :: (map OpDML ops ++ [OperationCommit])%list
  | TDdl uuid xid lc ty schema table query =>
      [OperationGtid uuid xid lc; OperationNonDML ty schema table query]
  | TIdle => [OperationHeartbeat]
  end.

Definition stream_of (ts : list trx) : list operation := mjoin (map ops_of ts).

(** The statement of an operation, if it can be written. *)
Definition dml_action (o : OperationDML) : list action :=
  match dmlOperation2Sql o with Ok (sql, ps) => [ADml sql ps] | Err _ => [] end.

Section actions.
Context (cfg : settings).

(** What a transaction does on the target. *)
Definition dml_actions (ops : list OperationDML) : list action :=
  mjoin (map (fun o => if excluded cfg o then [] else dml_action o) ops).

Definition actions_of (t : trx) : list action :=
  match t with
  | TDml _ _ _ ops => dml_actions ops
  | TDdl _ _ _ _ _ _ query => [ADdl query]
  | TIdle => []
  end.

Definition effect (ts : list trx) : list action := mjoin (map actions_of ts).

Lemma effect_app ts us : effect (ts ++ us) = (effect ts ++ effect us)%list.
Proof. unfold effect. by rewrite map_app, join_app. Qed.

Lemma dml_actions_app l1 l2 : dml_actions (l1 ++ l2) = (dml_actions l1 ++ dml_actions l2)%list.
Proof. unfold dml_actions. by rewrite map_app, join_app. Qed.
End actions.

(** ** Lemmas on one iteration *)

Section steps.
Context {C : Type} `{TargetLaws C} (now : nat -> Z) (cfg : settings).
Implicit Types s : sync C.

(** The part of the state the target depends on. *)
Definition core s := (mc s, allow_commit s, error_exit s).

(** [m] leaves the core of the state alone, whether it raises or not. *)
Definition quiet {A} (m : ST (sync C) A) : Prop := forall s, core (snd (m s)) = core s.

Lemma quiet_bind {A B} (m : ST (sync C) A) (f : A -> ST (sync C) B) :
  quiet m -> (forall a, quiet (f a)) -> quiet (mbind f m).
Proof.
  intros Hm Hf s. rewrite st_bind_eq. specialize (Hm s). destruct (m s) as [[a|e] s']; cbn in *; [|done].
  by rewrite Hf.
Qed.

Lemma quiet_modify f : (forall s, core (f s) = core s) -> quiet (st_modify f).
Proof. intros Hf s. apply Hf. Qed.

Lemma quiet_get : quiet (st_get (S := sync C)).
Proof. done. Qed.
Lemma quiet_lift {A} (r : result A) : quiet (st_lift r).
Proof. done. Qed.
Lemma quiet_ret {A} (a : A) : quiet (mret a).
Proof. done. Qed.
Lemma quiet_time : quiet (time_time now).
Proof. done. Qed.
End steps.

#[export] Hint Resolve quiet_get quiet_lift quiet_ret quiet_time : py.

(** Decompose a sequence of steps that do not touch the core. *)
Ltac quiet_tac :=
  repeat first [solve [auto with py]|apply quiet_bind; [|intros ?]|apply quiet_modify; intros ?; done|case_match].

Section steps2.
Context {C : Type} `{TargetLaws C} (now : nat -> Z) (cfg : settings).
Implicit Types s : sync C.

Lemma quiet_increment a : quiet (C := C) (metric_increment a).
Proof. by apply quiet_modify. Qed.

Lemma quiet_persist : quiet (C := C) metric_persist_.
Proof. apply quiet_modify. intros s. by destruct (metric_persist (metric_of s) (dir s)). Qed.

Lemma quiet_checkpoint : quiet (C := C) checkpoint.
Proof. unfold checkpoint. quiet_tac. Qed.

Lemma quiet_set_delay v : quiet (C := C) (metric_set_delay v).
Proof. unfold metric_set_delay. quiet_tac. Qed.
End steps2.

#[export] Hint Resolve quiet_increment quiet_persist quiet_checkpoint quiet_set_delay : py.

Section steps3.
Context {C : Type} `{TargetLaws C} (now : nat -> Z) (cfg : settings).
Implicit Types s : sync C.

Lemma quiet_after it : quiet (C := C) (after_dispatch now cfg it).
Proof.
  destruct it as [[[lf lp] ts] op]. unfold after_dispatch.
  quiet_tac.
Qed.

Definition sdone s : list action := done_of (mc s).
Definition sopen s : list action := open_of (mc s).
(** The client counts right and no error has been met. *)
Definition good s : Prop := client_inv (mc s) /\ error_exit s = false.

(** Nothing committed; the open transaction grows by [acts]. *)
Definition grows (acts : list action) s s' : Prop :=
  sdone s' = sdone s /\ sopen s' = (sopen s ++ acts)%list /\ allow_commit s' = allow_commit s.
(** Everything pending is committed, followed by [acts]. *)
Definition flushes (acts : list action) s s' : Prop :=
  sdone s' = (sdone s ++ sopen s ++ acts)%list /\ sopen s' = [].

Lemma core_facts s s' :
  core s' = core s -> mc s' = mc s /\ allow_commit s' = allow_commit s /\ error_exit s' = error_exit s.
Proof. unfold core. intros E. by injection E. Qed.

Lemma quiet_grows {A} (m : ST (sync C) A) s r s' :
  quiet m -> m s = (r, s') -> grows [] s s' /\ (good s -> good s') /\ error_exit s' = error_exit s.
Proof.
  intros Hq E. specialize (Hq s). rewrite E in Hq. cbn [snd] in Hq. apply core_facts in Hq as (Hm & Ha & He).
  unfold grows, good, sdone, sopen. rewrite Hm, Ha, He, app_nil_r. done.
Qed.

(** Running the client inside the loop. *)
Lemma on_mc_eq m s r c' : m (mc s) = (r, c') -> on_mc m s = (r, set_mc c' s).
Proof. intros E. unfold on_mc. by rewrite E. Qed.

Lemma merge_commit_spec s s' :
  good s -> merge_commit s = (Ok tt, s') ->
  good s' /\ (grows [] s s' /\ allow_commit s = false \/ flushes [] s s' /\ allow_commit s' = false).
Proof.
  intros [Hi He] Hr. unfold merge_commit in Hr. rewrite st_bind_eq in Hr. cbn [st_get] in Hr.
  destruct (allow_commit s) eqn:Ha.
  - rewrite st_bind_eq in Hr. destruct (push_commit (mc s)) as [r c'] eqn:Ep.
    rewrite (on_mc_eq _ _ _ _ Ep) in Hr. destruct r as [[]|e]; [|done].
    apply push_commit_ok in Ep as (Hd & Ho & Hi'); [|done]. cbn in Hr. injection Hr as <-.
    split; [done|]. right. unfold flushes, sdone, sopen. cbn. by rewrite app_nil_r, Hd.
  - cbn in Hr. injection Hr as <-. split; [done|]. left. unfold grows. by rewrite app_nil_r.
Qed.

(** A handled exception sets the error flag. *)
Lemma try_clean {A} (m : ST (sync C) A) h s a s' :
  (forall e s1 r s2, h e s1 = (r, s2) -> error_exit s2 = true) ->
  st_try m h s = (Ok a, s') -> error_exit s' = false -> m s = (Ok a, s').
Proof.
  intros Hh Hr He. unfold st_try in Hr. destruct (m s) as [[a'|e] s1]; [done|].
  apply Hh in Hr. congruence.
Qed.

(** Split the hypothesis that a sequence of steps succeeds. *)
Lemma bind_ok {A B} (f : A -> ST (sync C) B) m s b s' :
  mbind f m s = (Ok b, s') -> exists a s1, m s = (Ok a, s1) /\ f a s1 = (Ok b, s').
Proof. rewrite st_bind_eq. destruct (m s) as [[a|e] s1]; [eauto|done]. Qed.

Lemma dispatch_begin lf lp ts s s' :
  good s -> dispatch now cfg (lf, lp, ts, OperationBegin) s = (Ok tt, s') -> good s' /\ grows [] s s'.
Proof.
  intros [Hi He] Hr. cbn in Hr. destruct (push_begin (mc s)) as [r c'] eqn:Ep.
  rewrite (on_mc_eq _ _ _ _ Ep) in Hr. injection Hr as -> <-.
  apply push_begin_spec in Ep as (Hd & Ho & Hi'); [|done].
  split; [done|]. unfold grows, sdone, sopen. cbn. by rewrite app_nil_r.
Qed.

Lemma dispatch_dml lf lp ts o s s' :
  good s -> dispatch now cfg (lf, lp, ts, OpDML o) s = (Ok tt, s') -> error_exit s' = false ->
  good s' /\ grows (dml_action o) s s'.
Proof.
  intros Hg Hr He. cbn [dispatch] in Hr. apply bind_ok in Hr as ([] & s1 & E1 & Hr).
  destruct (quiet_grows _ _ _ _ (quiet_increment _) E1) as (Hgr & Hg1 & _).
  destruct (Hg1 Hg) as [Hi1 He1]. destruct Hgr as (Hd & Ho & Ha).
  apply try_clean in Hr; [|intros e s2 r s3 E; injection E as _ <-; done|done].
  apply bind_ok in Hr as ([sql ps] & s2 & E2 & Hr). injection E2 as E2 <-. cbv beta iota in Hr.
  unfold dml_action. rewrite E2.
  destruct (push_dml sql ps (mc s1)) as [r c'] eqn:Ep.
  rewrite (on_mc_eq _ _ _ _ Ep) in Hr. injection Hr as -> <-.
  apply push_dml_ok in Ep as (Hd' & Ho' & Hi'); [|done].
  split; [done|]. unfold grows, sdone, sopen in *. cbn. rewrite Hd', Ho', Hd, Ho, Ha, app_nil_r. done.
Qed.

Lemma dispatch_commit lf lp ts s s' :
  good s -> dispatch now cfg (lf, lp, ts, OperationCommit) s = (Ok tt, s') ->
  good s' /\ (sdone s' = sdone s /\ sopen s' = sopen s /\ allow_commit s' = true \/ flushes [] s s').
Proof.
  intros Hg Hr. cbn [dispatch] in Hr. apply bind_ok in Hr as ([] & s1 & E1 & Hr).
  destruct (quiet_grows _ _ _ _ (quiet_increment _) E1) as (Hgr & Hg1 & _).
  destruct (Hg1 Hg) as [Hi1 He1]. destruct Hgr as (Hd & Ho & Ha). rewrite app_nil_r in Ho.
  destruct (merge_trx cfg).
  - cbn in Hr. injection Hr as <-. split; [done|]. left. done.
  - destruct (push_commit (mc s1)) as [r c'] eqn:Ep. rewrite (on_mc_eq _ _ _ _ Ep) in Hr. injection Hr as -> <-.
    apply push_commit_ok in Ep as (Hd' & Ho' & Hi'); [|done].
    split; [done|]. right. unfold flushes, sdone, sopen in *. cbn. by rewrite Hd', Hd, Ho, app_nil_r.
Qed.

Lemma dispatch_gtid lf lp ts u x lc s s' :
  good s -> dispatch now cfg (lf, lp, ts, OperationGtid u x lc) s = (Ok tt, s') ->
  good s' /\ (grows [] s s' \/ flushes [] s s' /\ allow_commit s' = false).
Proof.
  intros Hg Hr. cbn [dispatch] in Hr. apply bind_ok in Hr as (s0 & s1 & E0 & Hr). injection E0 as <- <-.
  apply bind_ok in Hr as ([] & s2 & E2 & Hr).
  assert (good s2 /\ (grows [] s s2 \/ flushes [] s s2 /\ allow_commit s2 = false)) as [Hg2 Hc2].
  { destruct (merge_trx cfg && negb (last_committed s =? lc)).
    - apply bind_ok in E2 as ([] & s3 & E3 & E2). cbn in E2. injection E2 as <-.
      apply merge_commit_spec in E3 as (Hg3 & Hc3); [|done]. split; [done|].
      destruct Hc3 as [[Hc3 _]|Hc3]; [by left|by right].
    - cbn in E2. injection E2 as <-. split; [done|]. left. unfold grows. by rewrite app_nil_r. }
  apply bind_ok in Hr as (z & s3 & E3 & Hr). injection E3 as _ <-. cbn in Hr. injection Hr as <-. done.
Qed.

Lemma dispatch_nondml lf lp ts ty sch tab q s s' :
  good s -> dispatch now cfg (lf, lp, ts, OperationNonDML ty sch tab q) s = (Ok tt, s') -> error_exit s' = false ->
  good s' /\ flushes [ADdl q] s s'.
Proof.
  intros Hg Hr He. cbn [dispatch] in Hr. apply bind_ok in Hr as ([] & s1 & E1 & Hr).
  apply merge_commit_spec in E1 as ([Hi1 He1] & Hc1); [|done].
  apply try_clean in Hr; [|intros e s2 r s3 E; injection E as _ <-; done|done].
  apply bind_ok in Hr as ([] & s2 & E2 & Hr).
  destruct (push_nondml sch q (mc s1)) as [r c'] eqn:Ep.
  rewrite (on_mc_eq _ _ _ _ Ep) in E2. injection E2 as -> <-.
  apply push_nondml_ok in Ep as (Hd' & Ho' & Hi'); [|done].
  destruct (quiet_grows _ _ _ _ (quiet_increment _) Hr) as ((Hd2 & Ho2 & _) & Hg2 & _).
  split; [by apply Hg2|]. unfold flushes, sdone, sopen in *. cbn in Hd2, Ho2. rewrite Hd2, Ho2, Hd', Ho'.
  split; [|done]. destruct Hc1 as [[(Hd & Ho & _) _]|[(Hd & Ho) _]]; unfold sdone, sopen in *; rewrite Hd, Ho, app_nil_r.
  - done.
  - by rewrite <- app_assoc.
Qed.

Lemma dispatch_heartbeat lf lp ts s s' :
  good s -> dispatch now cfg (lf, lp, ts, OperationHeartbeat) s = (Ok tt, s') ->
  good s' /\ (grows [] s s' \/ flushes [] s s' /\ allow_commit s' = false).
Proof.
  intros Hg Hr. cbn [dispatch] in Hr. apply bind_ok in Hr as (s0 & s1 & E0 & Hr). injection E0 as <- <-.
  destruct (last_heartbeat s).
  - apply bind_ok in Hr as (t & s1 & E1 & Hr). apply bind_ok in Hr as ([] & s2 & E2 & Hr).
    injection E1 as _ <-. injection E2 as <-.
    apply merge_commit_spec in Hr as (Hg3 & Hc3); [|done]. split; [done|].
    destruct Hc3 as [[Hc3 _]|Hc3]; [by left|by right].
  - cbn in Hr. injection Hr as <-. split; [done|]. left. unfold grows. by rewrite app_nil_r.
Qed.
End steps3.

(** ** Runs without errors, as a relation *)

Section runs.
Context {C : Type} `{TargetLaws C} (now : nat -> Z) (cfg : settings).
Implicit Types s : sync C.

Inductive runs : sync C -> list item -> sync C -> Prop :=
  | runs_nil s : runs s [] s
  | runs_cons s it s1 its s2 :
      step now cfg it s = (Ok tt, s1) -> error_exit s1 = false -> runs s1 its s2 -> runs s (it :: its) s2.

(** The loop that ends without setting the error flag went through every
    operation. *)
Lemma loop_runs its s s' :
  loop now cfg (map Ok its) s = (Ok tt, s') -> error_exit s' = false -> runs s its s'.
Proof.
  revert s. induction its as [|it its IH]; intros s Hr He; cbn [loop map] in Hr.
  - injection Hr as <-. constructor.
  - apply bind_ok in Hr as ([] & s1 & E1 & Hr). apply bind_ok in Hr as (s2 & s3 & E2 & Hr).
    injection E2 as <- <-. destruct (error_exit s1) eqn:E; [|by econstructor; eauto].
    injection Hr as <-. congruence.
Qed.

Lemma runs_app s its1 its2 s' :
  runs s (its1 ++ its2) s' -> exists s1, runs s its1 s1 /\ runs s1 its2 s'.
Proof.
  revert s. induction its1 as [|it its1 IH]; intros s Hr; [exists s; split; [constructor|done]|].
  cbn in Hr. inversion Hr as [|? ? sm ? ? Hs He Hrest]; subst. destruct (IH _ Hrest) as (s2 & ? & ?). exists s2. split; [|done]. by econstructor.
Qed.

(** What one operation does to the target. *)
Definition op_effect (op : operation) s s' : Prop :=
  match op with
  | OperationBegin => grows [] s s'
  | OpDML o => grows (if excluded cfg o then [] else dml_action o) s s'
  | OperationCommit =>
      sdone s' = sdone s /\ sopen s' = sopen s /\ allow_commit s' = true \/ flushes [] s s'
  | OperationGtid _ _ _ | OperationHeartbeat => grows [] s s' \/ flushes [] s s'
  | OperationNonDML _ _ _ q => flushes [ADdl q] s s'
  end.

Lemma grows_trans a b s1 s2 s3 : grows a s1 s2 -> grows b s2 s3 -> grows (a ++ b)%list s1 s3.
Proof.
  intros (Hd & Ho & Ha) (Hd' & Ho' & Ha'). unfold grows. rewrite Hd', Hd, Ho', Ho, Ha', Ha, app_assoc. done.
Qed.

Lemma op_effect_quiet op s s1 s' : op_effect op s s1 -> grows [] s1 s' -> op_effect op s s'.
Proof.
  intros He (Hd & Ho & Ha). rewrite app_nil_r in Ho.
  destruct op; cbn in *; unfold grows, flushes in *; rewrite Hd, Ho, ?Ha; done.
Qed.

Lemma step_effect it s s' :
  good s -> step now cfg it s = (Ok tt, s') -> error_exit s' = false -> good s' /\ op_effect it.2 s s'.
Proof.
  intros Hg Hr He.
  assert ((dispatch now cfg it ;; after_dispatch now cfg it) s = (Ok tt, s') ->
    (forall o, it.2 = OpDML o -> excluded cfg o = false) -> good s' /\ op_effect it.2 s s') as Hmain.
  { clear Hr. intros Hr Hex. apply bind_ok in Hr as ([] & s1 & E1 & Hr).
    destruct (quiet_grows _ _ _ _ (quiet_after now cfg it) Hr) as (Hq & Hgq & Heq).
    assert (good s1 /\ op_effect it.2 s s1) as [Hg1 Hop]; [|split; [by apply Hgq|by eapply op_effect_quiet]].
    rewrite He in Heq. symmetry in Heq. destruct it as [[[lf lp] ts] [ty sch tab q|o| | | |u x lc]]; cbn [snd op_effect] in *.
    - by eapply dispatch_nondml.
    - rewrite (Hex o eq_refl). by eapply dispatch_dml.
    - apply dispatch_heartbeat in E1 as (? & [?|[? ?]]); eauto.
    - by eapply dispatch_commit.
    - by eapply dispatch_begin.
    - apply dispatch_gtid in E1 as (? & [?|[? ?]]); eauto. }
  unfold step in Hr. destruct it.2 as [| o | | | |] eqn:Eop; try (apply Hmain; [done|intros; congruence]).
  destruct (excluded cfg o) eqn:Ex.
  - cbn in Hr. injection Hr as <-. split; [done|]. cbn. rewrite Ex. unfold grows. by rewrite app_nil_r.
  - apply Hmain; [done|]. intros o' E. by injection E as <-.
Qed.

Lemma runs_dmls its ops s s' :
  good s -> runs s its s' -> map snd its = map OpDML ops -> good s' /\ grows (dml_actions cfg ops) s s'.
Proof.
  revert its s. induction ops as [|o ops IH]; intros its s Hg Hr Hm.
  - destruct its; [|done]. inversion Hr; subst. split; [done|]. unfold grows. by rewrite app_nil_r.
  - destruct its as [|it its]; [done|]. cbn in Hm. injection Hm as Ho Hm. inversion Hr as [|? ? s1 ? ? Hs1 He1 Hr1]; subst.
    destruct (step_effect it s s1 Hg Hs1 He1) as (Hg1 & Hop). rewrite Ho in Hop. cbn in Hop.
    destruct (IH its s1 Hg1 Hr1 Hm) as (Hg' & Hgr). split; [done|]. by eapply grows_trans.
Qed.

(** Between transactions: some prefix of the transactions seen is committed,
    the others are pending and waiting for a commit. *)
Definition boundary (d0 : list action) (ts : list trx) s : Prop :=
  good s /\ (sopen s <> [] -> allow_commit s = true) /\
  exists ts1 ts2, ts = (ts1 ++ ts2)%list /\ sdone s = (d0 ++ effect cfg ts1)%list /\ sopen s = effect cfg ts2.

(** Inside a transaction: nothing of it is committed. *)
Definition inside (d0 : list action) (ts : list trx) (acts : list action) s : Prop :=
  good s /\ exists ts1 ts2, ts = (ts1 ++ ts2)%list /\ sdone s = (d0 ++ effect cfg ts1)%list /\
    sopen s = (effect cfg ts2 ++ acts)%list.

Lemma inside_grows d0 ts acts acts' s s' :
  inside d0 ts acts s -> good s' -> grows acts' s s' -> inside d0 ts (acts ++ acts')%list s'.
Proof.
  intros (_ & ts1 & ts2 & -> & Hd & Ho) Hg (Hd' & Ho' & _). split; [done|]. exists ts1, ts2.
  by rewrite Hd', Ho', Ho, Hd, app_assoc.
Qed.

Lemma inside_flushes d0 ts acts s s' :
  inside d0 ts [] s -> good s' -> flushes acts s s' ->
  good s' /\ sdone s' = (d0 ++ effect cfg ts ++ acts)%list /\ sopen s' = [].
Proof.
  intros (_ & ts1 & ts2 & -> & Hd & Ho) Hg (Hd' & Ho'). split; [done|]. split; [|done].
  by rewrite Hd', Ho, Hd, app_nil_r, effect_app, <- !app_assoc.
Qed.

(** Everything up to here committed. *)
Lemma flushed_inside d0 ts s :
  good s -> sdone s = (d0 ++ effect cfg ts ++ [])%list -> sopen s = [] -> inside d0 ts [] s.
Proof. intros Hg Hd Ho. split; [done|]. exists ts, []. by rewrite Hd, Ho, !app_nil_r. Qed.

Lemma inside_gtid d0 ts u x lc it s s' :
  inside d0 ts [] s -> it.2 = OperationGtid u x lc \/ it.2 = OperationHeartbeat ->
  step now cfg it s = (Ok tt, s') -> error_exit s' = false -> inside d0 ts [] s'.
Proof.
  intros Hin Hop Hs He. destruct (step_effect it s s' (proj1 Hin) Hs He) as (Hg & Hef).
  assert (grows [] s s' \/ flushes [] s s') as [Hgr|Hfl] by (by destruct Hop as [Hop|Hop]; rewrite Hop in Hef).
  - by apply (inside_grows d0 ts [] [] s s' Hin).
  - destruct (inside_flushes d0 ts [] s s' Hin Hg Hfl) as (? & ? & ?). by apply flushed_inside.
Qed.

Lemma boundary_inside d0 ts s : boundary d0 ts s -> inside d0 ts [] s.
Proof. intros (Hg & _ & ts1 & ts2 & -> & Hd & Ho). split; [done|]. exists ts1, ts2. by rewrite Ho, app_nil_r. Qed.

Lemma flushed_boundary d0 ts s :
  good s -> sdone s = (d0 ++ effect cfg ts)%list -> sopen s = [] -> boundary d0 ts s.
Proof. intros Hg Hd Ho. split; [done|]. split; [done|]. exists ts, []. by rewrite Hd, Ho, app_nil_r. Qed.

Lemma effect_snoc_one t : effect cfg [t] = actions_of cfg t.
Proof. unfold effect. cbn. by rewrite app_nil_r. Qed.

Lemma effect_snoc ts t : effect cfg (ts ++ [t]) = (effect cfg ts ++ actions_of cfg t)%list.
Proof. rewrite effect_app. unfold effect at 2. cbn. by rewrite app_nil_r. Qed.

(** The head of a run. *)
Lemma runs_head s it its s' :
  runs s (it :: its) s' ->
  exists s1, step now cfg it s = (Ok tt, s1) /\ error_exit s1 = false /\ runs s1 its s'.
Proof. intros Hr. inversion Hr; subst. eauto. Qed.

(** Up to the last row change of a transaction. *)
Lemma runs_open d0 ts u x lc its ops s s' :
  inside d0 ts [] s -> runs s its s' ->
  map snd its = OperationGtid u x lc :: OperationBegin :: map OpDML ops ->
  inside d0 ts (dml_actions cfg ops) s'.
Proof.
  intros Hin Hr Hm. destruct its as [|i1 [|i2 its]]; try done. cbn in Hm. injection Hm as H1 H2 Hm.
  apply runs_head in Hr as (s1 & Hs1 & He1 & Hr). apply runs_head in Hr as (s2 & Hs2 & He2 & Hr).
  apply (inside_gtid d0 ts u x lc i1 s s1 Hin (or_introl H1) Hs1) in He1 as Hin1.
  destruct (step_effect i2 s1 s2 (proj1 Hin1) Hs2 He2) as (Hg2 & Hef). rewrite H2 in Hef. cbn in Hef.
  pose proof (inside_grows d0 ts [] [] s1 s2 Hin1 Hg2 Hef) as Hin2.
  destruct (runs_dmls its ops s2 s' Hg2 Hr Hm) as (Hg' & Hgr).
  by apply (inside_grows d0 ts [] _ s2 s' Hin2).
Qed.

(** A whole transaction leads from one boundary to the next. *)
Lemma runs_trx d0 ts t its s s' :
  boundary d0 ts s -> runs s its s' -> map snd its = ops_of t -> boundary d0 (ts ++ [t]) s'.
Proof.
  intros Hb Hr Hm. pose proof (boundary_inside d0 ts s Hb) as Hin.
  destruct t as [u x lc ops|u x lc ty sch tab q|]; cbn [ops_of] in Hm.
  - rewrite !app_comm_cons in Hm. apply map_eq_app in Hm as (its1 & its2 & -> & Hm1 & Hm2).
    apply runs_app in Hr as (s1 & Hr1 & Hr2). destruct its2 as [|it [|]]; try done.
    injection Hm2 as Hc. apply runs_head in Hr2 as (s2 & Hs2 & He2 & Hr2). inversion Hr2; subst.
    pose proof (runs_open d0 ts u x lc its1 ops s s1 Hin Hr1 Hm1) as Hin1.
    destruct (step_effect it s1 s' (proj1 Hin1) Hs2 He2) as (Hg' & Hef). rewrite Hc in Hef. cbn in Hef.
    destruct Hin1 as (_ & ts1 & ts2 & -> & Hd & Ho). destruct Hef as [(Hd' & Ho' & Ha')|(Hd' & Ho')].
    + split; [done|]. split; [done|]. exists ts1, (ts2 ++ [TDml u x lc ops])%list.
      by rewrite effect_snoc, Hd', Ho', Ho, Hd, <- app_assoc.
    + apply flushed_boundary; [done| |done].
      by rewrite Hd', Hd, Ho, effect_snoc, effect_app, app_nil_r, <- !app_assoc.
  - destruct its as [|i1 [|i2 [|]]]; try done. cbn in Hm. injection Hm as H1 H2.
    apply runs_head in Hr as (s1 & Hs1 & He1 & Hr). apply runs_head in Hr as (s2 & Hs2 & He2 & Hr).
    inversion Hr; subst.
    apply (inside_gtid d0 ts u x lc i1 s s1 Hin (or_introl H1) Hs1) in He1 as Hin1.
    destruct (step_effect i2 s1 s' (proj1 Hin1) Hs2 He2) as (Hg2 & Hef). rewrite H2 in Hef. cbn in Hef.
    destruct (inside_flushes d0 ts _ s1 s' Hin1 Hg2 Hef) as (? & Hd & Ho).
    apply flushed_boundary; [done| |done]. by rewrite effect_snoc.
  - destruct its as [|i1 [|]]; try done. cbn in Hm. injection Hm as H1.
    apply runs_head in Hr as (s1 & Hs1 & He1 & Hr). inversion Hr; subst.
    destruct (step_effect i1 s s' (proj1 Hin) Hs1 He1) as (Hg1 & Hef). rewrite H1 in Hef. cbn in Hef.
    destruct Hef as [(Hd & Ho & Ha)|Hfl].
    + rewrite app_nil_r in Ho. destruct Hb as (_ & Hal & ts1 & ts2 & -> & Hd0 & Ho0).
      split; [done|]. split; [by rewrite Ho, Ha|]. exists ts1, (ts2 ++ [TIdle])%list.
      rewrite effect_snoc, app_nil_r, <- app_assoc. by rewrite Hd, Ho.
    + destruct (inside_flushes d0 ts [] s s' Hin Hg1 Hfl) as (? & Hd & Ho).
      apply flushed_boundary; [done| |done]. by rewrite effect_snoc, Hd, !app_nil_r.
Qed.

Lemma runs_stream d0 ts0 ts its s s' :
  boundary d0 ts0 s -> runs s its s' -> map snd its = stream_of ts -> boundary d0 (ts0 ++ ts) s'.
Proof.
  revert ts0 its s. induction ts as [|t ts IH]; intros ts0 its s Hb Hr Hm.
  - destruct its; [|done]. inversion Hr; subst. by rewrite app_nil_r.
  - unfold stream_of in Hm. cbn in Hm. apply map_eq_app in Hm as (its1 & its2 & -> & Hm1 & Hm2).
    apply runs_app in Hr as (s1 & Hr1 & Hr2).
    apply (runs_trx d0 ts0 t its1 s s1 Hb Hr1) in Hm1. change (t :: ts) with ([t] ++ ts)%list. rewrite (app_assoc ts0 [t] ts).
    by eapply IH.
Qed.

(** The statements of the row changes among some operations. *)
Definition op_acts (l : list operation) : list action :=
  mjoin (map (fun op => match op with OpDML o => if excluded cfg o then [] else dml_action o | _ => [] end) l).

Lemma op_acts_dmls ops : op_acts (map OpDML ops) = dml_actions cfg ops.
Proof. unfold op_acts, dml_actions. by rewrite map_map. Qed.

(** In the middle of a transaction none of it is committed. *)
Lemma runs_partial d0 ts t p q its s s' :
  boundary d0 ts s -> runs s its s' -> ops_of t = (p ++ q)%list -> q <> [] -> map snd its = p ->
  inside d0 ts (op_acts p) s'.
Proof.
  intros Hb Hr Ht Hq Hm. pose proof (boundary_inside d0 ts s Hb) as Hin.
  destruct its as [|i1 its]; [inversion Hr; subst; done|].
  subst p. destruct t as [u x lc ops|u x lc ty sch tab qq|]; cbn [ops_of map app] in Ht.
  - injection Ht as H1 Ht. destruct its as [|i2 its].
    { apply runs_head in Hr as (s1 & Hs1 & He1 & Hr). inversion Hr; subst. unfold op_acts. cbn. rewrite <- H1.
      by eapply (inside_gtid d0 ts u x lc i1); [|left|..]. }
    cbn in Ht. injection Ht as H2 Ht.
    assert (exists ops1, map snd its = map OpDML ops1) as (ops1 & Hops).
    { clear -Ht Hq. revert its Ht. induction ops as [|o ops IH]; intros its Ht; cbn in Ht.
      - destruct its as [|it its]; [by exists []|]. cbn in Ht. injection Ht as _ Ht.
        destruct its; [by destruct q|done].
      - destruct its as [|it its]; [by exists []|]. cbn in Ht. injection Ht as Ho Ht.
        destruct (IH its Ht) as (ops1 & E). exists (o :: ops1). cbn. by rewrite E, Ho. }
    assert (op_acts (map snd (i1 :: i2 :: its)) = dml_actions cfg ops1) as ->.
    { rewrite <- op_acts_dmls, <- Hops. unfold op_acts. cbn. by rewrite <- H1, <- H2. }
    apply (runs_open d0 ts u x lc (i1 :: i2 :: its) ops1 s s' Hin Hr). cbn. by rewrite H1, H2, Hops.
  - injection Ht as H1 Ht. destruct its as [|i2 its]; cbn in Ht.
    + apply runs_head in Hr as (s1 & Hs1 & He1 & Hr). inversion Hr; subst. unfold op_acts. cbn. rewrite <- H1.
      by eapply (inside_gtid d0 ts u x lc i1); [|left|..].
    + injection Ht as _ Ht. destruct its; [by destruct q|done].
  - injection Ht as _ Ht. destruct its; [by destruct q|done].
Qed.

(** ** Any outcome of one iteration *)

(** The committed statements are those of some of the first transactions. *)
Definition atomic (d0 : list action) (ts : list trx) s : Prop :=
  exists pre, pre `prefix_of` ts /\ sdone s = (d0 ++ effect cfg pre)%list.

Lemma atomic_more d0 ts us s : atomic d0 ts s -> atomic d0 (ts ++ us) s.
Proof. intros (pre & Hp & Hd). exists pre. split; [by apply prefix_app_r|done]. Qed.

Lemma inside_atomic d0 ts acts s : inside d0 ts acts s -> atomic d0 ts s.
Proof. intros (_ & ts1 & ts2 & -> & Hd & _). exists ts1. split; [by exists ts2|done]. Qed.

Section outcomes.
Context (d0 : list action) (ts : list trx) (t : trx).

Lemma atomic_same acts s s' : inside d0 ts acts s -> sdone s' = sdone s -> atomic d0 (ts ++ [t]) s'.
Proof.
  intros Hin Hd'. destruct (inside_atomic d0 ts acts s Hin) as (pre & Hp & Hd). exists pre.
  split; [by apply prefix_app_r|]. by rewrite Hd'.
Qed.

Lemma atomic_all s s' :
  inside d0 ts [] s -> sdone s' = (sdone s ++ sopen s)%list -> atomic d0 (ts ++ [t]) s'.
Proof.
  intros (_ & ts1 & ts2 & -> & Hd & Ho) Hd'. exists (ts1 ++ ts2)%list. split; [by eexists|].
  by rewrite Hd', Hd, Ho, app_nil_r, effect_app, <- app_assoc.
Qed.

Lemma atomic_full acts extra s s' :
  inside d0 ts acts s -> (acts ++ extra)%list = actions_of cfg t ->
  sdone s' = (sdone s ++ sopen s ++ extra)%list -> atomic d0 (ts ++ [t]) s'.
Proof.
  intros (_ & ts1 & ts2 & -> & Hd & Ho) Hac Hd'. exists ((ts1 ++ ts2) ++ [t])%list. split; [done|].
  by rewrite Hd', Hd, Ho, effect_snoc, effect_app, <- Hac, <- !app_assoc.
Qed.
End outcomes.

Definition quiet_done {A} (h : exn -> ST (sync C) A) : Prop := forall e s, sdone (snd (h e s)) = sdone s.

(** A sequence of two steps, whatever the outcome. *)
Lemma bind_any {A B} (f : A -> ST (sync C) B) m s r s' :
  mbind f m s = (r, s') ->
  (exists e, m s = (Err e, s')) \/ (exists a s1, m s = (Ok a, s1) /\ f a s1 = (r, s')).
Proof. rewrite st_bind_eq. destruct (m s) as [[a|e] s1]; [eauto|]. intros E. injection E as _ <-. eauto. Qed.

Lemma try_any {A} (m : ST (sync C) A) h s r s' :
  quiet_done h -> st_try m h s = (r, s') -> exists r1 s1, m s = (r1, s1) /\ sdone s' = sdone s1.
Proof.
  intros Hh Hr. unfold st_try in Hr. destruct (m s) as [[a|e] s1] eqn:E.
  - injection Hr as <- <-. eauto.
  - exists (Err e), s1. split; [done|]. specialize (Hh e s1). by rewrite Hr in Hh.
Qed.

Lemma quiet_sdone {A} (m : ST (sync C) A) s r s' : quiet m -> m s = (r, s') -> sdone s' = sdone s.
Proof. intros Hq E. by destruct (quiet_grows m s r s' Hq E) as ((Hd & _) & _). Qed.

Lemma merge_commit_any s r s' :
  good s -> merge_commit s = (r, s') -> sdone s' = sdone s \/ sdone s' = (sdone s ++ sopen s)%list.
Proof.
  intros [Hi He] Hr. unfold merge_commit in Hr. rewrite st_bind_eq in Hr. cbn [st_get] in Hr.
  destruct (allow_commit s); [|injection Hr as _ <-; by left].
  apply bind_any in Hr. destruct (push_commit (mc s)) as [r1 c1] eqn:Ep.
  pose proof (push_commit_any (mc s) r1 c1 Hi Ep) as Hany. rewrite (on_mc_eq _ _ _ _ Ep) in Hr.
  destruct Hr as [(e & Hr)|(a & s1 & E1 & Hr)]; [by injection Hr as _ <-|].
  injection E1 as _ <-. cbn in Hr. injection Hr as _ <-. exact Hany.
Qed.

(** One iteration inside a transaction [t], at each of its operations and with
    any outcome, leaves whole transactions committed. *)

Lemma atomic_merge d0 ts t s s' :
  inside d0 ts [] s -> sdone s' = sdone s \/ sdone s' = (sdone s ++ sopen s)%list -> atomic d0 (ts ++ [t]) s'.
Proof. intros Hin [Hd|Hd]; [by eapply atomic_same|by eapply atomic_all]. Qed.

Lemma nondml_any d0 ts t lf lp tm ty sch tab q s r s' :
  inside d0 ts [] s -> actions_of cfg t = [ADdl q] ->
  dispatch now cfg (lf, lp, tm, OperationNonDML ty sch tab q) s = (r, s') -> atomic d0 (ts ++ [t]) s'.
Proof.
  intros Hin Hq Hr. cbn [dispatch] in Hr. apply bind_any in Hr as [(e & Hr)|([] & s1 & E1 & Hr)].
  { apply merge_commit_any in Hr; [by eapply atomic_merge|apply Hin]. }
  apply merge_commit_spec in E1 as (Hg1 & Hc1); [|apply Hin].
  apply try_any in Hr as (r1 & s2 & E2 & Hd2); [|done].
  assert (inside d0 ts [] s1) as Hin1.
  { destruct Hc1 as [[Hgr _]|[Hfl _]]; [by apply (inside_grows d0 ts [] [] s s1)|].
    destruct (inside_flushes d0 ts [] s s1 Hin Hg1 Hfl) as (? & ? & ?). by apply flushed_inside. }
  assert (exists r3 c3, push_nondml sch q (mc s1) = (r3, c3) /\ sdone s2 = done_of c3) as (r3 & c3 & E3 & Hd3).
  { apply bind_any in E2. destruct (push_nondml sch q (mc s1)) as [r3 c3] eqn:E3. exists r3, c3. split; [done|].
    rewrite (on_mc_eq _ _ _ _ E3) in E2. destruct E2 as [(e & E2)|(a & s3 & E4 & E2)].
    - by injection E2 as _ <-.
    - injection E4 as _ <-. by rewrite (quiet_sdone _ _ _ _ (quiet_increment _) E2). }
  apply push_nondml_any in E3; [|apply Hg1]. unfold same_or_all in E3. rewrite <- Hd3, <- Hd2 in E3.
  destruct E3 as [Hd|Hd]; [by eapply atomic_merge|]. by eapply (atomic_full d0 ts t []).
Qed.

Lemma dml_any d0 ts t acts lf lp tm o s r s' :
  inside d0 ts acts s -> dispatch now cfg (lf, lp, tm, OpDML o) s = (r, s') -> atomic d0 (ts ++ [t]) s'.
Proof.
  intros Hin Hr. cbn [dispatch] in Hr. apply bind_any in Hr as [(e & Hr)|([] & s1 & E1 & Hr)].
  { eapply atomic_same; [done|]. by eapply quiet_sdone; [apply quiet_increment|]. }
  apply try_any in Hr as (r1 & s2 & E2 & Hd2); [|done].
  eapply atomic_same; [done|]. rewrite Hd2, <- (quiet_sdone _ _ _ _ (quiet_increment _) E1).
  destruct (quiet_grows _ _ _ _ (quiet_increment _) E1) as (_ & Hg1 & _). specialize (Hg1 (proj1 Hin)) as [Hi1 _].
  apply bind_any in E2 as [(e & E2)|([sql ps] & s3 & E3 & E2)]; [by injection E2 as _ <-|].
  injection E3 as _ <-. cbv beta iota in E2. destruct (push_dml sql ps (mc s1)) as [r4 c4] eqn:E4.
  rewrite (on_mc_eq _ _ _ _ E4) in E2. injection E2 as _ <-. unfold sdone. cbn.
  destruct r4 as [[]|e]; [by apply push_dml_ok in E4 as (-> & _)|by apply push_dml_err in E4 as (-> & _)].
Qed.

Lemma heartbeat_any d0 ts t lf lp tm s r s' :
  inside d0 ts [] s -> dispatch now cfg (lf, lp, tm, OperationHeartbeat) s = (r, s') -> atomic d0 (ts ++ [t]) s'.
Proof.
  intros Hin Hr. cbn [dispatch] in Hr. apply bind_any in Hr as [(e & Hr)|(s0 & s1 & E1 & Hr)]; [done|].
  injection E1 as <- <-. destruct (last_heartbeat s); [|injection Hr as _ <-; by eapply atomic_same].
  apply bind_any in Hr as [(e & Hr)|(tv & s1 & E1 & Hr)]; [done|]. injection E1 as _ <-.
  apply bind_any in Hr as [(e & Hr)|([] & s2 & E2 & Hr)]; [done|]. injection E2 as <-.
  apply merge_commit_any in Hr; [by eapply (atomic_merge d0 ts t s)|apply Hin].
Qed.

Lemma commit_any d0 ts t lf lp tm s r s' :
  inside d0 ts (actions_of cfg t) s -> dispatch now cfg (lf, lp, tm, OperationCommit) s = (r, s') ->
  atomic d0 (ts ++ [t]) s'.
Proof.
  intros Hin Hr. cbn [dispatch] in Hr. apply bind_any in Hr as [(e & Hr)|([] & s1 & E1 & Hr)].
  { eapply atomic_same; [done|]. by eapply quiet_sdone; [apply quiet_increment|]. }
  destruct (quiet_grows _ _ _ _ (quiet_increment _) E1) as ((Hd1 & Ho1 & _) & Hg1 & _).
  specialize (Hg1 (proj1 Hin)) as [Hi1 _]. rewrite app_nil_r in Ho1. destruct (merge_trx cfg).
  { injection Hr as _ <-. by eapply atomic_same. }
  destruct (push_commit (mc s1)) as [r2 c2] eqn:E2. rewrite (on_mc_eq _ _ _ _ E2) in Hr. injection Hr as _ <-.
  apply push_commit_any in E2 as [Hd|Hd]; [| |done].
  - eapply atomic_same; [done|]. unfold sdone in *. cbn. congruence.
  - eapply (atomic_full d0 ts t _ []); [done|apply app_nil_r|]. rewrite app_nil_r, <- Hd1, <- Ho1. exact Hd.
Qed.

Lemma gtid_any d0 ts t lf lp tm u x lc s r s' :
  inside d0 ts [] s -> dispatch now cfg (lf, lp, tm, OperationGtid u x lc) s = (r, s') -> atomic d0 (ts ++ [t]) s'.
Proof.
  intros Hin Hr. cbn [dispatch] in Hr. apply bind_any in Hr as [(e & Hr)|(s0 & s1 & E1 & Hr)]; [done|].
  injection E1 as <- <-.
  assert (forall r2 s2, (if merge_trx cfg && negb (last_committed s =? lc)
     then merge_commit ;; st_modify (set_last_committed lc) else mret tt) s = (r2, s2) ->
     sdone s2 = sdone s \/ sdone s2 = (sdone s ++ sopen s)%list) as Hmc.
  { intros r2 s2 E2. destruct (merge_trx cfg && _); [|injection E2 as _ <-; by left].
    apply bind_any in E2 as [(e & E2)|([] & s3 & E3 & E2)]; [by apply merge_commit_any in E2; [|apply Hin]|].
    injection E2 as _ <-. by apply merge_commit_any in E3; [|apply Hin]. }
  apply (atomic_merge d0 ts t s s' Hin).
  apply bind_any in Hr as [(e & Hr)|([] & s2 & E2 & Hr)]; [by eapply Hmc|].
  assert (sdone s' = sdone s2) as ->; [|by eapply Hmc].
  apply bind_any in Hr as [(e & Hr)|(z & s3 & E3 & Hr)]; [by injection Hr as _ <-|].
  injection E3 as _ <-. by injection Hr as _ <-.
Qed.

Lemma dispatch_any d0 ts t acts it s r s' :
  inside d0 ts acts s ->
  match it.2 with
  | OperationBegin | OpDML _ => True
  | OperationCommit => acts = actions_of cfg t
  | OperationGtid _ _ _ | OperationHeartbeat => acts = []
  | OperationNonDML _ _ _ q => acts = [] /\ actions_of cfg t = [ADdl q]
  end ->
  dispatch now cfg it s = (r, s') -> atomic d0 (ts ++ [t]) s'.
Proof.
  intros Hin Hpos Hr. destruct it as [[[lf lp] tm] [ty sch tab q|o| | | |u x lc]]; cbn [snd] in *.
  - destruct Hpos as [-> Hq]. by eapply nondml_any.
  - by eapply dml_any.
  - subst acts. by eapply heartbeat_any.
  - subst acts. by eapply commit_any.
  - cbn [dispatch] in Hr. destruct (push_begin (mc s)) as [r1 c1] eqn:E1.
    rewrite (on_mc_eq _ _ _ _ E1) in Hr. injection Hr as _ <-.
    apply push_begin_spec in E1 as (Hd & _); [|apply Hin]. by eapply atomic_same.
  - subst acts. by eapply gtid_any.
Qed.

(** What has been executed of a transaction when an operation is reached. *)
Lemma op_position t p op q :
  ops_of t = (p ++ op :: q)%list ->
  match op with
  | OperationBegin | OpDML _ => True
  | OperationCommit => op_acts p = actions_of cfg t
  | OperationGtid _ _ _ | OperationHeartbeat => op_acts p = []
  | OperationNonDML _ _ _ qq => op_acts p = [] /\ actions_of cfg t = [ADdl qq]
  end.
Proof.
  intros Ht. destruct t as [u x lc ops|u x lc ty sch tab qq|]; cbn [ops_of] in Ht.
  - destruct p as [|o1 [|o2 p]]; cbn in Ht; [by injection Ht as <- _|by injection Ht as _ <- _|].
    injection Ht as <- <- Ht. destruct (list_snoc_split (map OpDML ops) OperationCommit p op q Ht) as [(-> & -> & ->)|Hin].
    + change (op_acts (map OpDML ops) = dml_actions cfg ops). apply op_acts_dmls.
    + apply list_elem_of_fmap in Hin as (o & -> & _). done.
  - destruct p as [|o1 [|o2 p]]; cbn in Ht; [by injection Ht as <- _|by injection Ht as <- <- _|].
    injection Ht as _ _ Ht. by destruct p.
  - destruct p as [|o1 p]; cbn in Ht; [by injection Ht as <- _|]. injection Ht as _ Ht. by destruct p.
Qed.

Lemma step_any d0 ts t p op q it s r s' :
  inside d0 ts (op_acts p) s -> ops_of t = (p ++ op :: q)%list -> it.2 = op ->
  step now cfg it s = (r, s') -> atomic d0 (ts ++ [t]) s'.
Proof.
  intros Hin Ht Hop Hr.
  assert (forall r1 s1, dispatch now cfg it s = (r1, s1) -> atomic d0 (ts ++ [t]) s1) as Hd.
  { intros r1 s1. apply (dispatch_any d0 ts t (op_acts p) it s r1 s1 Hin). rewrite Hop. by apply (op_position t p op q). }
  assert ((dispatch now cfg it ;; after_dispatch now cfg it) s = (r, s') -> atomic d0 (ts ++ [t]) s') as Hmain.
  { clear Hr. intros Hr. apply bind_any in Hr as [(e & Hr)|([] & s1 & E1 & Hr)]; [by eapply Hd|].
    destruct (Hd _ _ E1) as (pre & Hp & Hdone). exists pre. split; [done|].
    by rewrite (quiet_sdone _ _ _ _ (quiet_after now cfg it) Hr). }
  unfold step in Hr. destruct it.2; try by apply Hmain.
  destruct (excluded cfg o); [|by apply Hmain]. injection Hr as _ <-. by eapply atomic_same.
Qed.

(** Where a point of the stream lies. *)
Lemma stream_split (l rest : list operation) ts :
  (l ++ rest)%list = stream_of ts -> rest <> [] ->
  exists tsa t tsb p q, ts = (tsa ++ t :: tsb)%list /\ l = (stream_of tsa ++ p)%list /\
    ops_of t = (p ++ q)%list /\ q <> [] /\ rest = (q ++ stream_of tsb)%list.
Proof.
  revert l. induction ts as [|t ts IH]; intros l E Hr; [by destruct l, rest|].
  unfold stream_of in E. cbn in E. apply app_eq_inv in E as [(k & -> & E)|(k & E & ->)].
  - destruct (IH k) as (tsa & t' & tsb & p & q & -> & -> & Ht & Hq & ->); [done|done|].
    exists (t :: tsa), t', tsb, p, q. split; [done|]. split; [by rewrite app_assoc|done].
  - destruct k as [|o k].
    + rewrite app_nil_r in E. subst l. destruct (IH []) as (tsa & t' & tsb & p & q & -> & Hl & Ht & Hq & Hrest);
        [done|done|]. exists (t :: tsa), t', tsb, p, q. split; [done|].
      symmetry in Hl. apply app_nil in Hl as [Hl ->].
      split; [|done]. change (stream_of (t :: tsa)) with (ops_of t ++ stream_of tsa)%list.
      by rewrite Hl, !app_nil_r.
    + exists [], t, ts, l, (o :: k). done.
Qed.

(** How a loop ends: after some clean iterations, or in the middle of one. *)
Lemma loop_cases its tl s r s' :
  (forall it, Ok it ∉ tl) -> loop now cfg (map Ok its ++ tl)%list s = (r, s') ->
  (exists its1 its2, its = (its1 ++ its2)%list /\ runs s its1 s') \/
  (exists its1 it its2 s1 r1, its = (its1 ++ it :: its2)%list /\ runs s its1 s1 /\ step now cfg it s1 = (r1, s')).
Proof.
  intros Htl. revert s. induction its as [|it its IH]; intros s Hr.
  - left. exists [], []. split; [done|]. destruct tl as [|[it|e] tl]; cbn in Hr.
    + injection Hr as _ <-. constructor.
    + exfalso. apply (Htl it). left.
    + injection Hr as _ <-. constructor.
  - cbn [map app loop] in Hr. apply bind_any in Hr as [(e & Hr)|([] & s1 & E1 & Hr)].
    { right. exists [], it, its, s, (Err e). split; [done|]. split; [constructor|done]. }
    apply bind_any in Hr as [(e & Hr)|(s2 & s3 & E2 & Hr)]; [done|]. injection E2 as <- <-.
    destruct (error_exit s1) eqn:Ee.
    { injection Hr as _ <-. right. exists [], it, its, s, (Ok tt). split; [done|]. split; [constructor|done]. }
    destruct (IH s1 Hr) as [(its1 & its2 & -> & Hruns)|(its1 & it' & its2 & s2 & r1 & -> & Hruns & Hst)].
    + left. exists (it :: its1), its2. split; [done|]. by econstructor.
    + right. exists (it :: its1), it', its2, s2, r1. split; [done|]. split; [by econstructor|done].
Qed.

Lemma loop_atomic (ts : list trx) (its : list item) (tl : list (result item)) s r s' :
  client_inv (mc s) -> error_exit s = false -> sopen s = [] ->
  map snd its `prefix_of` stream_of ts -> (forall it, Ok it ∉ tl) ->
  loop now cfg (map Ok its ++ tl)%list s = (r, s') ->
  exists pre, pre `prefix_of` ts /\ sdone s' = (sdone s ++ effect cfg pre)%list.
Proof.
  intros Hi He Ho [rest Hpre] Htl Hr.
  assert (boundary (sdone s) [] s) as Hb by (apply flushed_boundary; [done|cbn; by rewrite app_nil_r|done]).
  apply (loop_cases its tl s r s' Htl) in Hr as [(its1 & its2 & -> & Hrun)|(its1 & it & its2 & s1 & r1 & -> & Hrun & Hst)];
    rewrite map_app, <- app_assoc in Hpre; symmetry in Hpre.
  - match type of Hpre with (_ ++ ?x)%list = _ => remember x as l eqn:El end. destruct l as [|o l].
    + rewrite app_nil_r in Hpre. apply (runs_stream (sdone s) [] ts its1 s s' Hb Hrun) in Hpre.
      by eapply inside_atomic, boundary_inside.
    + apply stream_split in Hpre as (tsa & t & tsb & p & q & -> & Hl & Ht & Hq & _); [|done].
      apply map_eq_app in Hl as (i1 & i2 & -> & Hm1 & Hm2). apply runs_app in Hrun as (s1 & Hr1 & Hr2).
      apply (runs_stream (sdone s) [] tsa i1 s s1 Hb Hr1) in Hm1.
      apply (runs_partial (sdone s) tsa t p q i2 s1 s' Hm1 Hr2 Ht Hq) in Hm2.
      by eapply atomic_more, inside_atomic.
  - apply stream_split in Hpre as (tsa & t & tsb & p & q & -> & Hl & Ht & Hq & Hrest); [|done].
    apply map_eq_app in Hl as (i1 & i2 & -> & Hm1 & Hm2). apply runs_app in Hrun as (s2 & Hr1 & Hr2).
    apply (runs_stream (sdone s) [] tsa i1 s s2 Hb Hr1) in Hm1.
    apply (runs_partial (sdone s) tsa t p q i2 s2 s1 Hm1 Hr2 Ht Hq) in Hm2.
    destruct q as [|op q]; [done|]. cbn in Hrest. injection Hrest as Hop _.
    pose proof (step_any (sdone s) tsa t p op q it s1 r1 s' Hm2 Ht Hop Hst) as Hat.
    change (t :: tsb) with ([t] ++ tsb)%list. rewrite app_assoc. by apply atomic_more.
Qed.

(** C4. Atomicity under every outcome: feed the loop any prefix of a stream of
    transactions, possibly cut short by an exception of the source, with any
    connection that may fail at any statement and in either commit mode.
    Whether the loop returns, stops at an error or lets an exception escape,
    what the target has committed since the start is exactly the statements
    of the first transactions of the stream, whole and in order. *)
Theorem sync_crash_safe (ts : list trx) (its : list item) (tl : list (result item)) s r s' :
  client_inv (mc s) -> error_exit s = false -> sopen s = [] ->
  map snd its `prefix_of` stream_of ts -> (forall it, Ok it ∉ tl) ->
  loop now cfg (map Ok its ++ tl)%list s = (r, s') ->
  exists pre, pre `prefix_of` ts /\ sdone s' = (sdone s ++ effect cfg pre)%list.
Proof. apply loop_atomic. Qed.

Lemma run_ok items s s' :
  run now cfg items s = (Ok false, s') ->
  exists s1 s2 s3, mc s1 = mc s /\ error_exit s1 = false /\
    loop now cfg items s1 = (Ok tt, s2) /\ merge_commit s2 = (Ok tt, s3) /\
    sdone s' = sdone s3 /\ sopen s' = sopen s3 /\ error_exit s3 = false.
Proof.
  intros Hr. unfold run in Hr.
  apply bind_ok in Hr as (t0 & sa & Ea & Hr). apply bind_ok in Hr as ([] & sb & Eb & Hr).
  apply bind_ok in Hr as ([] & sc & Ec & Hr). apply bind_ok in Hr as ([] & sd & Ed & Hr).
  apply bind_ok in Hr as ([] & s1 & E1 & Hr). apply bind_ok in Hr as ([] & s2 & E2 & Hr).
  apply bind_ok in Hr as ([] & s3 & E3 & Hr). apply bind_ok in Hr as ([] & s4 & E4 & Hr).
  apply bind_ok in Hr as (s5 & s6 & E5 & Hr). injection E5 as <- <-. injection Hr as Herr <-.
  injection Ea as _ <-. injection Eb as <-. injection Ec as <-. injection Ed as <-.
  destruct (quiet_grows _ _ _ _ quiet_persist E4) as ((Hd & Ho & _) & _ & He). rewrite app_nil_r in Ho.
  exists s1, s2, s3. injection E1 as <-. repeat split; try done. congruence.
Qed.

Lemma run_complete (ts : list trx) (its : list item) s s' :
  client_inv (mc s) -> sopen s = [] -> map snd its = stream_of ts ->
  run now cfg (map Ok its) s = (Ok false, s') ->
  sdone s' = (sdone s ++ effect cfg ts)%list /\ sopen s' = [].
Proof.
  intros Hi Ho Hm Hr. apply run_ok in Hr as (s1 & s2 & s3 & Hmc & He1 & Hloop & Hmerge & Hd' & Ho' & He3).
  assert (error_exit s2 = false) as He2.
  { destruct (error_exit s2) eqn:E; [|done]. unfold merge_commit in Hmerge. rewrite st_bind_eq in Hmerge. cbn [st_get] in Hmerge.
    destruct (allow_commit s2); [|by injection Hmerge as <-; congruence].
    apply bind_ok in Hmerge as ([] & s4 & E4 & Hmerge). unfold on_mc in E4.
    destruct (push_commit (mc s2)) as [r c]. injection E4 as _ <-. cbn in Hmerge. injection Hmerge as <-. cbn in He3. congruence. }
  apply loop_runs in Hloop; [|done].
  assert (boundary (sdone s) [] s1) as Hb.
  { apply flushed_boundary; [split; [by rewrite Hmc|done]| |]; unfold sdone, sopen in *; rewrite Hmc; [cbn; by rewrite app_nil_r|done]. }
  apply (runs_stream (sdone s) [] ts its s1 s2 Hb Hloop) in Hm. destruct Hm as (Hg & Hal & ts1 & ts2 & Hts & Hd2 & Ho2).
  cbn in Hts. rewrite Hd', Ho', Hts, effect_app, app_assoc, <- Hd2, <- Ho2.
  apply merge_commit_spec in Hmerge as (_ & [[(Hd3 & Ho3 & _) Ha]|[(Hd3 & Ho3) _]]); [| |done].
  - rewrite Hd3, Ho3, app_nil_r. destruct (sopen s2) as [|a l]; [by rewrite app_nil_r|].
    rewrite Hal in Ha; done.
  - by rewrite Hd3, Ho3, app_nil_r.
Qed.

(** Completeness: a run over a whole stream of transactions that ends
    normally has committed every statement of every transaction, in order
    and once, and leaves nothing pending, in either commit mode. *)
Theorem sync_complete (ts : list trx) (its : list item) s s' :
  client_inv (mc s) -> sopen s = [] -> map snd its = stream_of ts ->
  run now cfg (map Ok its) s = (Ok false, s') ->
  sdone s' = (sdone s ++ effect cfg ts)%list /\ sopen s' = [].
Proof. apply run_complete. Qed.
End runs.

(** ** Concrete runs *)

Definition ex_clock (n : nat) : Z := Z.of_nat n * 1000000.
Definition ex_merge : settings := mkSettings true 10000000 [].
Definition ex_always : settings := mkSettings true 0 [].
Definition ex_state (bad : list string) : sync journal :=
  mkSync (journal_init bad) metric_init (-1) false false [] None [] 0 0 0 false false.
Definition ex_row (n : Z) : OperationDML := OperationDMLInsert "d" "t" [("id", VInt n)] (PkStr "id").
Definition ex_action (n : Z) : action := ADml "REPLACE INTO `d`.`t`(id) VALUES(%s)" [VInt n].
(** The statement refused by the target in the examples with an error. *)
Definition ex_bad_row : OperationDML := OperationDMLDelete "d" "t" [("id", VInt 9)] (PkStr "id").
Definition ex_bad_sql : string := "DELETE FROM `d`.`t` WHERE `id` = %s".

Definition ex_items (ops : list operation) : list item := map (fun op => (Some "f", Some 4, 7, op)) ops.

(** Two transactions of one commit group and a DDL statement. *)
Definition ex_trxs : list trx :=
  [TDml "u" "1" 0 [ex_row 1]; TDml "u" "2" 0 [ex_row 2; ex_row 3];
   TDdl "u" "3" 2 CREATETABLE (Some "d") (Some "x") "create table x(id int)"; TIdle].

Example ex_run :
  let '(r, s) := run ex_clock ex_merge (map Ok (ex_items (stream_of ex_trxs))) (ex_state []) in
  r = Ok false /\ sdone s = [ex_action 1; ex_action 2; ex_action 3; ADdl "create table x(id int)"] /\
  dict_get (metrics (metric_of s)) "merge_trx" = Some 1.
Proof. vm_compute. done. Qed.

Lemma sync_crash_safe_witness :
  exists pre, pre `prefix_of` ex_trxs /\
    sdone (snd (loop ex_clock ex_merge (map Ok (ex_items (take 6 (stream_of ex_trxs))) ++ [Err ValueError])%list (ex_state [])))
    = (sdone (ex_state []) ++ effect ex_merge pre)%list.
Proof.
  apply (sync_crash_safe ex_clock ex_merge ex_trxs (ex_items (take 6 (stream_of ex_trxs))) [Err ValueError] (ex_state [])
    (fst (loop ex_clock ex_merge (map Ok (ex_items (take 6 (stream_of ex_trxs))) ++ [Err ValueError])%list (ex_state [])))).
  - split; cbn; [lia|done].
  - reflexivity.
  - reflexivity.
  - eexists. vm_compute. reflexivity.
  - intros it Hin. by apply list_elem_of_singleton in Hin.
  - apply surjective_pairing.
Defined.

Lemma sync_complete_witness :
  effect ex_merge ex_trxs = [ex_action 1; ex_action 2; ex_action 3; ADdl "create table x(id int)"] /\
  sdone (snd (run ex_clock ex_merge (map Ok (ex_items (stream_of ex_trxs))) (ex_state []))) =
    (sdone (ex_state []) ++ effect ex_merge ex_trxs)%list /\
  sopen (snd (run ex_clock ex_merge (map Ok (ex_items (stream_of ex_trxs))) (ex_state []))) = [].
Proof.
  split; [vm_compute; reflexivity|].
  apply (sync_complete ex_clock ex_merge ex_trxs (ex_items (stream_of ex_trxs)) (ex_state []));
    [split; cbn; [lia|done]|reflexivity|reflexivity|].
  rewrite (surjective_pairing (run ex_clock ex_merge (map Ok (ex_items (stream_of ex_trxs))) (ex_state []))) at 1.
  f_equal.
Defined.

(** With merged commits, an error in the middle of a transaction is followed
    by the final [__merge_commit], which commits the statements the broken
    transaction had already executed: transaction 2 is half applied. *)
Example merge_error_commits_half :
  let '(r, s) := run ex_clock ex_merge
    (map Ok (ex_items (stream_of [TDml "u" "1" 0 [ex_row 1]; TDml "u" "2" 0 [ex_row 2; ex_bad_row]])))
    (ex_state [ex_bad_sql]) in
  r = Ok true /\ sdone s = [ex_action 1; ex_action 2].
Proof. vm_compute. done. Qed.

(** A checkpoint is written after the GTID of the next transaction has been
    recorded: it names transaction 2 while only transaction 1 is committed. *)
Example checkpoint_ahead_of_commit :
  let '(r, s) := loop ex_clock ex_always
    (map Ok (ex_items (stream_of [TDml "u" "1" 0 [ex_row 1]] ++ [OperationGtid "u" "2" 1])%list)) (ex_state []) in
  r = Ok tt /\ sdone s = [ex_action 1] /\ dict_get (dir s) "ckpt.gtidset.json" = Some (FJson [("u", 2)]).
Proof. vm_compute. done. Qed.

(** Without merging, commits never allow a checkpoint: none is written. *)
Example no_checkpoint_without_merge :
  let '(r, s) := run ex_clock (mkSettings false 0 []) (map Ok (ex_items (stream_of ex_trxs))) (ex_state []) in
  r = Ok false /\ dict_get (dir s) "ckpt.gtidset.json" = None.
Proof. vm_compute. done. Qed.
