(* ===== verification/SyncLive.v ===== *)
(** * The synchronisation loop makes progress

    On a healthy target - every statement of the stream is accepted - the
    loop of [MysqlSync.run] never raises and never gives up: it consumes the
    whole stream and returns.  With the completeness of [Sync] this is total
    correctness. *)

From stdpp Require Import base list strings sets.
From Stdlib Require Import ZArith Lia Ascii.
From S2P Require Import Prelude PyBytes PyStr Values Column Sql Metric Checkpoint Client Sync.
Open Scope string_scope.
Open Scope Z_scope.

(** A target that accepts what it is sent. *)
Class TargetHealthy (C : Type) `{TargetConnection C} := {
  healthy : C -> Prop;
  start_healthy : forall c, healthy c -> con_in_transaction c = false ->
    exists c', con_start_transaction c = (Ok tt, c') /\ healthy c';
  execute_healthy : forall sql ps c, healthy c -> exists c', con_execute sql ps c = (Ok tt, c') /\ healthy c';
  ddl_healthy : forall sql c, healthy c -> exists c', con_execute_ddl sql c = (Ok tt, c') /\ healthy c';
  database_healthy : forall db c, healthy c -> exists c', con_set_database db c = (Ok tt, c') /\ healthy c';
  commit_healthy : forall c, healthy c -> exists c', con_commit c = (Ok tt, c') /\ healthy c';
  rollback_healthy : forall c, healthy c -> exists c', con_rollback c = (Ok tt, c') /\ healthy c'
}.

#[export] Instance journal_healthy : TargetHealthy journal.
Proof.
  refine {| healthy j := j_bad j = [] |}; cbn; intros; simplify_eq/=.
  - rewrite H0. by eexists.
  - rewrite H, bool_decide_eq_false_2 by set_solver. by eexists.
  - rewrite H, bool_decide_eq_false_2 by set_solver. by eexists.
  - by eexists.
  - by eexists.
  - by eexists.
Defined.

(** [m] succeeds from every state of [Pre], in a state of [Post]. *)
Definition succeeds {S A} (Pre : S -> Prop) (m : ST S A) (Post : S -> Prop) : Prop :=
  forall s, Pre s -> exists a s', m s = (Ok a, s') /\ Post s'.

Lemma succeeds_bind {S A B} (Pre Mid Post : S -> Prop) (m : ST S A) (f : A -> ST S B) :
  succeeds Pre m Mid -> (forall a, succeeds Mid (f a) Post) -> succeeds Pre (mbind f m) Post.
Proof.
  intros Hm Hf s Hs. destruct (Hm s Hs) as (a & s1 & E & H1). destruct (Hf a s1 H1) as (b & s2 & E2 & H2).
  exists b, s2. by rewrite st_bind_eq, E.
Qed.

Lemma succeeds_get {S B} (Pre Post : S -> Prop) (f : S -> ST S B) :
  (forall s, Pre s -> succeeds (fun s' => s' = s) (f s) Post) -> succeeds Pre (mbind f st_get) Post.
Proof. intros Hf s Hs. rewrite st_bind_eq. cbn [st_get]. by apply (Hf s). Qed.

Lemma succeeds_modify {S} (Pre Post : S -> Prop) (f : S -> S) :
  (forall s, Pre s -> Post (f s)) -> succeeds Pre (st_modify f) Post.
Proof. intros Hf s Hs. exists tt, (f s). split; [done|]. by apply Hf. Qed.

Lemma succeeds_ret {S A} (Pre : S -> Prop) (a : A) : succeeds Pre (mret a) Pre.
Proof. intros s Hs. by exists a, s. Qed.

Lemma succeeds_lift {S A} (Pre : S -> Prop) (r : result A) a : r = Ok a -> succeeds Pre (st_lift r) Pre.
Proof. intros -> s Hs. by exists a, s. Qed.

Lemma succeeds_try {S A} (Pre Post : S -> Prop) (m : ST S A) h : succeeds Pre m Post -> succeeds Pre (st_try m h) Post.
Proof. intros Hm s Hs. destruct (Hm s Hs) as (a & s' & E & H'). exists a, s'. unfold st_try. by rewrite E. Qed.

Lemma succeeds_weaken {S A} (Pre Pre' Post : S -> Prop) (m : ST S A) :
  (forall s, Pre' s -> Pre s) -> succeeds Pre m Post -> succeeds Pre' m Post.
Proof. intros Hp Hm s Hs. by apply Hm, Hp. Qed.

Section live.
Context {C : Type} `{TargetHealthy C} (now : nat -> Z) (cfg : settings).
Implicit Types s : sync C.

(** The loop can go on; with [b], a transaction has been announced. *)
Definition live (b : bool) s : Prop :=
  healthy (con (mc s)) /\ metric_wf (metric_of s) /\ error_exit s = false /\
  (allow_commit s = true \/ allow_checkpoint s = true -> latest_position s <> None) /\
  (b = true -> latest_position s <> None).

Definition healthy_client (c : client C) : Prop := healthy (con c).

Lemma push_begin_live : succeeds healthy_client push_begin healthy_client.
Proof.
  intros s Hs. unfold push_begin. destruct (con_in_transaction (con s)) eqn:E; [by exists tt, s|].
  destruct (start_healthy _ Hs E) as (c' & E' & Hc). unfold on_con. rewrite E'. by eexists _, _.
Qed.

Lemma on_con_live (m : ST C unit) :
  (forall c, healthy c -> exists c', m c = (Ok tt, c') /\ healthy c') -> succeeds healthy_client (on_con m) healthy_client.
Proof. intros Hm s Hs. destruct (Hm _ Hs) as (c' & E & Hc). unfold on_con. rewrite E. by eexists _, _. Qed.

Lemma push_commit_live : succeeds healthy_client push_commit healthy_client.
Proof.
  unfold push_commit. apply succeeds_get. intros s Hs.
  eapply succeeds_bind with (Mid := healthy_client); [|intros _; by apply succeeds_modify].
  apply (succeeds_weaken healthy_client); [by intros ? ->|].
  destruct (con_in_transaction (con s)); [|apply succeeds_ret].
  destruct (1 <=? dml_cnt s); apply on_con_live; [apply commit_healthy|apply rollback_healthy].
Qed.

Lemma push_dml_live sql ps : succeeds healthy_client (push_dml sql ps) healthy_client.
Proof. eapply succeeds_bind; [apply on_con_live, execute_healthy|intros _; by apply succeeds_modify]. Qed.

Lemma push_nondml_live db sql : succeeds healthy_client (push_nondml db sql) healthy_client.
Proof.
  unfold push_nondml. eapply succeeds_bind; [apply push_commit_live|intros _].
  eapply succeeds_bind; [|intros _; apply on_con_live, ddl_healthy].
  destruct db as [d|]; [|apply succeeds_ret]. case_decide; [apply succeeds_ret|]. apply on_con_live, database_healthy.
Qed.

Lemma on_mc_live b m : succeeds healthy_client m healthy_client -> succeeds (live b) (on_mc m) (live b).
Proof.
  intros Hm s (Hh & Hrest). destruct (Hm (mc s) Hh) as ([] & c' & E & Hc). unfold on_mc. rewrite E.
  exists tt, (set_mc c' s). split; [done|]. split; [done|exact Hrest].
Qed.

Lemma increment_live b a : succeeds (live b) (metric_increment a) (live b).
Proof.
  apply succeeds_modify. intros s (Hh & Hm & Hrest). split; [done|]. split; [by apply increment_wf|done].
Qed.

Lemma merge_commit_live b : succeeds (live b) merge_commit (live b).
Proof.
  unfold merge_commit. apply succeeds_get. intros s Hs. destruct (allow_commit s) eqn:E.
  - assert (live true s) as Hs' by (destruct Hs as (? & ? & ? & Hp & _); repeat split; auto).
    apply (succeeds_weaken (live true)); [by intros ? ->|].
    eapply succeeds_bind; [apply on_mc_live, push_commit_live|intros _].
    eapply succeeds_bind; [apply (succeeds_modify _ (live true)); intros ? (? & ? & ? & Hp & Hq); repeat split; auto|intros _].
    eapply succeeds_bind; [apply increment_live|intros _].
    apply succeeds_modify. intros ? (? & ? & ? & Hp & Hq). repeat split; auto.
  - apply (succeeds_weaken (live b)); [by intros ? ->|apply succeeds_ret].
Qed.

Lemma checkpoint_live : succeeds (live true) checkpoint (live true).
Proof.
  unfold checkpoint. eapply succeeds_bind; [by apply (succeeds_modify _ (live true))|intros _].
  apply succeeds_get. intros s Hs. destruct (latest_position s) as [p|] eqn:E; [|by destruct Hs as (_ & _ & _ & _ & []) ].
  eapply succeeds_bind; [eapply succeeds_lift; reflexivity|]. intros d.
  apply (succeeds_weaken (live true)); [by intros ? ->|].
  eapply succeeds_bind; [by apply (succeeds_modify _ (live true))|intros _].
  apply succeeds_modify. intros ? (? & ? & ? & Hp & Hq). repeat split; auto.
Qed.

Lemma set_delay_live b v : succeeds (live b) (metric_set_delay v) (live b).
Proof.
  unfold metric_set_delay. apply succeeds_get. intros s Hs. pose proof Hs as (Hh & Hm & Hrest).
  destruct (set_delay_ok v (metric_of s) Hm) as (m' & E & Hm'). intros ? ->.
  exists tt, (set_metric m' s). split; [by rewrite st_bind_eq; unfold st_lift; rewrite E|]. by split.
Qed.

(** A change of a part of the state that does not matter here. *)
Lemma modify_live b f : (forall s, live b s -> live b (f s)) -> succeeds (live b) (st_modify f) (live b).
Proof. apply succeeds_modify. Qed.

Lemma time_live b : succeeds (live b) (time_time now) (live b).
Proof. intros s Hs. by eexists _, _. Qed.

Lemma persist_live b : succeeds (live b) metric_persist_ (live b).
Proof. by apply modify_live. Qed.

Lemma get_live {A} b (f : sync C -> ST (sync C) A) (Post : sync C -> Prop) :
  (forall s, live b s -> succeeds (live b) (f s) Post) -> succeeds (live b) (mbind f st_get) Post.
Proof. intros Hf. apply succeeds_get. intros s Hs. apply (succeeds_weaken (live b)); [by intros ? ->|by apply Hf]. Qed.

Lemma live_checkpoint b s : live b s -> allow_checkpoint s = true -> live true s.
Proof. intros (? & ? & ? & Hp & _) Ha. repeat split; auto. Qed.

Lemma live_weaken b s : live true s -> live b s.
Proof. intros (? & ? & ? & Hp & Hq). repeat split; auto. Qed.

Lemma checkpoint_live_any b : succeeds (live b)
  (s ← st_get; if allow_checkpoint s then checkpoint else mret tt) (live b).
Proof.
  apply succeeds_get. intros s Hs. destruct (allow_checkpoint s) eqn:E.
  - intros ? ->. destruct (checkpoint_live s (live_checkpoint b s Hs E)) as (a & s' & E' & Hs').
    exists a, s'. split; [done|]. by apply live_weaken.
  - apply (succeeds_weaken (live b)); [by intros ? ->|apply succeeds_ret].
Qed.

Lemma after_dispatch_live b it : succeeds (live b) (after_dispatch now cfg it) (live b).
Proof.
  destruct it as [[pos t] op]. unfold after_dispatch.
  eapply succeeds_bind; [destruct (is_heartbeat op); [apply succeeds_ret|by apply modify_live]|intros _].
  eapply succeeds_bind; [apply time_live|intros t0]. apply get_live. intros s0 _.
  eapply succeeds_bind; [apply set_delay_live|intros _].
  eapply succeeds_bind; [apply time_live|intros t1]. apply get_live. intros s1 _.
  eapply succeeds_bind with (Mid := live b); [|intros _; by apply modify_live].
  destruct (_ <=? _); [|apply succeeds_ret].
  eapply succeeds_bind; [apply persist_live|intros _]. eapply succeeds_bind; [by apply modify_live|intros _].
  apply checkpoint_live_any.
Qed.

(** An operation that can be carried out. *)
Definition fine (op : operation) : Prop :=
  match op with
  | OpDML o => exists sp, dmlOperation2Sql o = Ok sp
  | OperationGtid _ xid _ => exists x, int_of_str xid = Ok x
  | _ => True
  end.

(** Whether a transaction has been announced after an operation. *)
Definition announces (b : bool) (op : operation) : bool := match op with OperationGtid _ _ _ => true | _ => b end.

Lemma live_positioned b s : live b s -> latest_position s <> None -> live true s.
Proof. intros (? & ? & ? & Hp & Hq) ?. repeat split; auto. Qed.

Lemma dispatch_live b it :
  fine it.2 -> (it.2 = OperationCommit -> b = true) ->
  succeeds (live b) (dispatch now cfg it) (live (announces b it.2)).
Proof.
  destruct it as [[pos t] op]. cbn [snd]. intros Hf Hc. destruct op; cbn [dispatch announces].
  - eapply succeeds_bind; [apply merge_commit_live|intros _]. apply succeeds_try.
    eapply succeeds_bind; [apply on_mc_live, push_nondml_live|intros _; apply increment_live].
  - eapply succeeds_bind; [apply increment_live|intros _]. apply succeeds_try. destruct Hf as ((sql & ps) & E).
    intros s Hs. rewrite st_bind_eq. unfold st_lift. rewrite E. by apply (on_mc_live b _ (push_dml_live sql ps)).
  - apply get_live. intros s _. destruct (last_heartbeat s); [|apply succeeds_ret].
    eapply succeeds_bind; [apply time_live|intros t0]. eapply succeeds_bind; [by apply modify_live|intros _].
    apply merge_commit_live.
  - rewrite (Hc eq_refl). eapply succeeds_bind; [apply increment_live|intros _].
    destruct (merge_trx cfg); [|apply on_mc_live, push_commit_live].
    apply modify_live. intros s (? & ? & ? & Hp & Hq). repeat split; auto.
  - apply on_mc_live, push_begin_live.
  - destruct Hf as (x & Ex). apply get_live. intros s _.
    eapply succeeds_bind with (Mid := live b).
    { destruct (_ && _); [|apply succeeds_ret].
      eapply succeeds_bind; [apply merge_commit_live|intros _; by apply modify_live]. }
    intros _. eapply succeeds_bind; [by apply (succeeds_lift _ _ x)|intros y].
    apply succeeds_modify. intros s' (? & ? & ? & Hp & Hq). by repeat split.
Qed.

Lemma step_live b it :
  fine it.2 -> (it.2 = OperationCommit -> b = true) -> succeeds (live b) (step now cfg it) (live (announces b it.2)).
Proof.
  intros Hf Hc. assert (succeeds (live b) (dispatch now cfg it ;; after_dispatch now cfg it) (live (announces b it.2))) as Hs.
  { eapply succeeds_bind; [by apply dispatch_live|intros _; apply after_dispatch_live]. }
  unfold step. destruct it as [[pos t] []]; try exact Hs. cbn [snd announces]. destruct (excluded cfg o); [apply succeeds_ret|exact Hs].
Qed.

(** Commits are announced. *)
Fixpoint announced (b : bool) (ops : list operation) : Prop :=
  match ops with
  | [] => True
  | op :: rest => fine op /\ (op = OperationCommit -> b = true) /\ announced (announces b op) rest
  end.

Lemma loop_live b its : announced b (map snd its) -> succeeds (live b) (loop now cfg (map Ok its)) (live false).
Proof.
  revert b. induction its as [|it its IH]; intros b Ha; cbn [map loop].
  - intros s Hs. exists tt, s. split; [done|]. destruct Hs as (? & ? & ? & Hp & _). by repeat split.
  - destruct Ha as (Hf & Hc & Ha). eapply succeeds_bind; [by apply step_live|intros _].
    apply get_live. intros s (_ & _ & He & _). rewrite He. by apply IH.
Qed.

(** The transactions of a stream can be carried out. *)
Definition trx_fine (t : trx) : Prop := Forall fine (ops_of t).

Lemma announced_app b l1 l2 : announced b l1 -> (forall b', announced b' l2) -> announced b (l1 ++ l2)%list.
Proof.
  revert b. induction l1 as [|op l1 IH]; intros b H1 H2; [done|]. destruct H1 as (? & ? & ?).
  split; [done|]. split; [done|]. by apply IH.
Qed.

Lemma announced_true l : Forall fine l -> announced true l.
Proof.
  induction 1 as [|op l Hop Hl IH]; [done|]. split; [done|]. split; [done|]. by destruct op.
Qed.

Lemma announced_trx b t : trx_fine t -> announced b (ops_of t).
Proof.
  unfold trx_fine. destruct t; cbn [ops_of]; intros Hf.
  - apply Forall_cons in Hf as [Hg Hf]. split; [done|]. split; [done|]. by apply announced_true.
  - apply Forall_cons in Hf as [Hg Hf]. split; [done|]. split; [done|]. by apply announced_true.
  - by repeat split.
Qed.

Lemma announced_stream b ts : Forall trx_fine ts -> announced b (stream_of ts).
Proof.
  intros Hf. revert b. induction Hf as [|t ts Ht Hf IH]; intros b; [done|].
  change (stream_of (t :: ts)) with (ops_of t ++ stream_of ts)%list. apply announced_app; [by apply announced_trx|done].
Qed.

Lemma run_live its s :
  announced false (map snd its) -> healthy (con (mc s)) -> metric_wf (metric_of s) ->
  (allow_commit s = true \/ allow_checkpoint s = true -> latest_position s <> None) ->
  exists s', run now cfg (map Ok its) s = (Ok false, s').
Proof.
  intros Ha Hh Hm Hp. unfold run. rewrite st_bind_eq. cbn [time_time]. do 4 (rewrite st_bind_eq; cbn [st_modify]).
  set (s1 := set_last_heartbeat _ _).
  destruct (loop_live false its Ha s1) as ([] & s2 & E2 & H2); [by repeat split|].
  destruct (merge_commit_live false s2 H2) as ([] & s3 & E3 & H3).
  destruct (persist_live false s3 H3) as ([] & s4 & E4 & H4).
  rewrite st_bind_eq, E2, st_bind_eq, E3, st_bind_eq, E4, st_bind_eq. exists s4.
  destruct H4 as (_ & _ & He & _). cbn [st_get mret ST_ret]. by rewrite He.
Qed.
End live.

Section total.
Context {C : Type} `{TargetLaws C} `{!TargetHealthy C} (now : nat -> Z) (cfg : settings).

Lemma run_total (ts : list trx) (its : list item) (s : sync C) :
  healthy (con (mc s)) -> metric_wf (metric_of s) -> client_inv (mc s) -> sopen s = [] ->
  (allow_commit s = true \/ allow_checkpoint s = true -> latest_position s <> None) ->
  Forall trx_fine ts -> map snd its = stream_of ts ->
  exists s', run now cfg (map Ok its) s = (Ok false, s') /\
    sdone s' = (sdone s ++ effect cfg ts)%list /\ sopen s' = [].
Proof.
  intros Hh Hm Hi Ho Hp Hts Hits. destruct (run_live now cfg its s) as (s' & E); [|done..|].
  - rewrite Hits. by apply announced_stream.
  - exists s'. split; [done|]. by eapply run_complete.
Qed.

(** C5. Progress and completeness: on a target that accepts every statement, a
    run over the stream of any transactions whose row operations can be
    written as SQL and whose transaction numbers are numbers returns without
    error, in either commit mode and whatever the clock does, having
    committed every statement of every transaction, in order and once, with
    nothing left pending. *)
Theorem sync_total (ts : list trx) (its : list item) (s : sync C) :
  healthy (con (mc s)) -> metric_wf (metric_of s) -> client_inv (mc s) -> sopen s = [] ->
  (allow_commit s = true \/ allow_checkpoint s = true -> latest_position s <> None) ->
  Forall trx_fine ts -> map snd its = stream_of ts ->
  exists s', run now cfg (map Ok its) s = (Ok false, s') /\
    sdone s' = (sdone s ++ effect cfg ts)%list /\ sopen s' = [].
Proof. apply run_total. Qed.
End total.

Lemma sync_total_witness :
  exists s', run ex_clock ex_merge (map Ok (ex_items (stream_of ex_trxs))) (ex_state []) = (Ok false, s') /\
    sdone s' = (sdone (ex_state []) ++ effect ex_merge ex_trxs)%list /\ sopen s' = [].
Proof.
  apply (sync_total ex_clock ex_merge ex_trxs (ex_items (stream_of ex_trxs)) (ex_state [])); try reflexivity.
  - split; cbn; [lia|done].
  - cbn. by intros [|].
  - repeat constructor; cbn; by eexists.
Defined.
