(* ===== verification/SyncInv.v ===== *)
(** * The invariant of a synchronisation run

    What holds of [MysqlSync]'s own state after every operation, whatever the
    target and the source do and however the run ends: the counters of the
    metrics count the operations seen, the commit and checkpoint flags are only
    set after what they stand for, and everything the position and the
    checkpoint file name was announced by the source. *)

From stdpp Require Import base list strings sets.
From Stdlib Require Import ZArith Lia Ascii.
From S2P Require Import Prelude PyBytes PyStr Values Sql Metric Checkpoint Client Sync.
Open Scope string_scope.
Open Scope Z_scope.

(** ** The operations a counter counts *)

Section counts.
Context (cfg : settings).

Definition counted (k : string) (o : operation) : bool :=
  match o with
  | OpDML d => negb (excluded cfg d) && bool_decide (dml_metric d = k)
  | OperationCommit => bool_decide (k = MetricAttr.TRX)
  | OperationNonDML t _ _ _ => bool_decide (k = nondml_value t)
  | _ => false
  end.

Definition count (k : string) (done : list operation) : Z := zlen (filter (fun o => is_true (counted k o)) done).

Lemma count_snoc k done o : count k (done ++ [o])%list = count k done + Z.b2z (counted k o).
Proof.
  unfold count. rewrite filter_app, zlen_app, filter_cons. destruct (counted k o).
  - by rewrite decide_True.
  - by rewrite decide_False.
Qed.

(** The counters that count every operation of their kind; those of the
    statements that are not DML count the ones the target executed. *)
Definition exact_counters : list string :=
  [MetricAttr.DML_INSERT; MetricAttr.DML_UPDATE; MetricAttr.DML_DELETE; MetricAttr.TRX].

(** An entry of a GTID dictionary the source announced. *)
Definition announced (done : list operation) (g : dict string Z) : Prop :=
  forall u x, dict_get g u = Some x -> exists xid lc, OperationGtid u xid lc ∈ done /\ int_of_str xid = Ok x.

Section state.
Context {C : Type} (d0 : files).

Record inv (done : list operation) (s : sync C) : Prop := mkInv {
  inv_keys : metric_wf (metric_of s);
  inv_exact : forall k, k ∈ exact_counters -> dict_get (metrics (metric_of s)) k = Some (count k done);
  inv_nondml : forall t, exists v, dict_get (metrics (metric_of s)) (nondml_value t) = Some v /\
    0 <= v <= count (nondml_value t) done;
  inv_merged : exists m, dict_get (metrics (metric_of s)) MetricAttr.MERGE_TRX = Some m /\
    0 <= m /\ m + Z.b2z (allow_commit s) <= count MetricAttr.TRX done /\
    (allow_checkpoint s = true -> 0 < m);
  inv_mode : merge_trx cfg = false -> allow_commit s = false /\ allow_checkpoint s = false;
  inv_latest : NoDup (dict_keys (latest_gtidset s)) /\ announced done (latest_gtidset s);
  inv_position : latest_position s = None <-> latest_gtidset s = [];
  inv_saved : dict_get (dir s) "ckpt.gtidset.json" = dict_get d0 "ckpt.gtidset.json" \/
    exists g, dict_get (dir s) "ckpt.gtidset.json" = Some (FJson g) /\ announced done g
}.
End state.
End counts.

(** ** Rules *)

(** [m] keeps [I], whether it returns or raises. *)
Definition keeps {S A} (I : S -> Prop) (m : ST S A) : Prop := forall s, I s -> I (snd (m s)).

Section keeps.
Context {S : Type} (I : S -> Prop).

Lemma keeps_bind {A B} (m : ST S A) (f : A -> ST S B) : keeps I m -> (forall a, keeps I (f a)) -> keeps I (mbind f m).
Proof.
  intros Hm Hf s Hs. rewrite st_bind_eq. specialize (Hm s Hs). destruct (m s) as [[a|e] s1]; [by apply Hf|done].
Qed.
Lemma keeps_ret {A} (a : A) : keeps I (mret a).
Proof. by intros s. Qed.
Lemma keeps_get : keeps I st_get.
Proof. by intros s. Qed.
Lemma keeps_lift {A} (r : result A) : keeps I (st_lift r).
Proof. by intros s. Qed.
Lemma keeps_modify f : (forall s, I s -> I (f s)) -> keeps I (st_modify f).
Proof. by intros Hf s Hs; apply Hf. Qed.
Lemma keeps_try {A} (m : ST S A) h : keeps I m -> (forall e, keeps I (h e)) -> keeps I (st_try m h).
Proof.
  intros Hm Hh s Hs. unfold st_try. specialize (Hm s Hs). destruct (m s) as [[a|e] s1]; [done|by apply Hh].
Qed.
End keeps.

Create HintDb inv discriminated.
#[export] Hint Resolve keeps_ret keeps_get keeps_lift : inv.

(** Follow the structure of a program. *)
Ltac keeps_tac :=
  repeat first [solve [eauto with inv]|apply keeps_bind; [|intros ?]|apply keeps_try; [|intros ?]|case_match].

Section preserved.
Context {C : Type} `{TargetConnection C} (now : nat -> Z) (cfg : settings) (d0 : files).
Implicit Types s : sync C.
Abbreviation Inv := (inv (C:=C) cfg d0).

(** The parts of the state the invariant reads. *)
Definition seen s := (metric_of s, allow_commit s, allow_checkpoint s, latest_gtidset s, latest_position s, dir s).

Lemma inv_seen done s s' : seen s' = seen s -> Inv done s -> Inv done s'.
Proof.
  unfold seen. intros Heq []. injection Heq as E1 E2 E3 E4 E5 E6. constructor; rewrite ?E1, ?E2, ?E3, ?E4, ?E5, ?E6; done.
Qed.

Lemma keeps_unseen done f : (forall s, seen (f s) = seen s) -> keeps (Inv done) (st_modify f).
Proof. intros Hf. apply keeps_modify. intros s. by apply inv_seen. Qed.

Lemma keeps_on_mc done m : keeps (Inv done) (on_mc m).
Proof. intros s. unfold on_mc. destruct (m (mc s)) as [r c']. by apply inv_seen. Qed.

Lemma keeps_time done : keeps (Inv done) (time_time now).
Proof. intros s. by apply inv_seen. Qed.

Lemma increment_get k k' m v :
  dict_get (metrics m) k = Some v -> k <> MetricAttr.DELAY ->
  dict_get (metrics (increment k m)) k' = if decide (k = k') then Some (v + 1) else dict_get (metrics m) k'.
Proof.
  intros Hv Hk. unfold increment. rewrite Hv, decide_False by done. cbn [metrics].
  case_decide; subst; [by rewrite dict_get_set_eq|by rewrite dict_get_set_ne].
Qed.

Lemma exact_not_delay k : k ∈ exact_counters -> k <> MetricAttr.DELAY /\ k <> MetricAttr.MERGE_TRX.
Proof. intros Hk. repeat (apply elem_of_cons in Hk as [->|Hk]; [done|]). by apply not_elem_of_nil in Hk. Qed.

Lemma nondml_other t : nondml_value t ∉ MetricAttr.all.
Proof. destruct t; apply (bool_decide_unpack _); vm_compute; exact I. Qed.

Lemma nondml_neq t k : k ∈ MetricAttr.all -> nondml_value t <> k.
Proof. intros Hk <-. by apply (nondml_other t). Qed.

Lemma nondml_value_inj t t' : nondml_value t = nondml_value t' -> t = t'.
Proof. by destruct t, t'. Qed.

(** The delay is not part of the invariant. *)
Lemma keeps_set_delay done v : keeps (Inv done) (metric_set_delay v).
Proof.
  unfold metric_set_delay. intros s Hs. rewrite st_bind_eq. cbn [st_get]. rewrite st_bind_eq. cbn [st_lift].
  destruct (set_delay_ok v (metric_of s) (inv_keys _ _ _ _ Hs)) as (m & Hm & Hwf). rewrite Hm. cbn.
  unfold set_delay in Hm. destruct (dict_index _ _) as [w|]; [|done]. injection Hm as <-.
  assert (forall k, k <> MetricAttr.DELAY -> dict_get (dict_set (metrics (metric_of s)) MetricAttr.DELAY (w + v)) k =
    dict_get (metrics (metric_of s)) k) as Hk by (intros; by apply dict_get_set_ne).
  destruct Hs. constructor; cbn; [done| | | |done|done|done|done].
  - intros k Hin. rewrite Hk by (by apply exact_not_delay). auto.
  - intros t. rewrite Hk by (apply nondml_neq; set_solver). auto.
  - by rewrite Hk.
Qed.

Lemma keeps_persist done : keeps (Inv done) metric_persist_.
Proof.
  apply keeps_modify. intros s []. unfold metric_persist. constructor; cbn; try done.
  destruct (change (metric_of s)); [|done]. by rewrite dict_get_set_ne.
Qed.

Lemma keeps_checkpoint done : keeps (Inv done) checkpoint.
Proof.
  unfold checkpoint. apply keeps_bind.
  { apply keeps_modify. intros s []. constructor; cbn; try done. right. eexists.
    unfold persist_checkpoint_gtidset. rewrite dict_get_set_eq. by destruct inv_latest0. }
  intros _. intros s Hs. rewrite st_bind_eq. cbn [st_get]. rewrite st_bind_eq. cbn [st_lift].
  unfold persist_checkpoint_position. destruct (latest_position s) as [p|] eqn:Ep; [|done].
  change (Inv done (set_allow_checkpoint false
    (set_dir (dict_set (dir s) "ckpt.logposition.txt" (FText (position_text p))) s))).
  destruct Hs. constructor; cbn; try done.
  - destruct inv_merged0 as (m & ? & ? & ? & ?). by exists m.
  - intros Hm. split; [by apply inv_mode0|done].
  - by rewrite dict_get_set_ne.
Qed.

(** A commit of merged transactions: one for the flag it takes back. *)
Lemma keeps_merge_commit done : keeps (Inv done) merge_commit.
Proof.
  intros s Hs. unfold merge_commit. rewrite st_bind_eq. cbn [st_get]. destruct (allow_commit s) eqn:Ha; [|done].
  rewrite st_bind_eq. pose proof (keeps_on_mc done push_commit s Hs) as Hmc. unfold on_mc in *.
  destruct (push_commit (mc s)) as [[[]|e] c']; [|exact Hmc]. cbn [snd] in Hmc. clear Hs.
  change (Inv done (set_allow_checkpoint true
    (set_metric (increment MetricAttr.MERGE_TRX (metric_of s)) (set_allow_commit false (set_mc c' s))))).
  destruct Hmc. destruct inv_merged0 as (m & Hm & H0 & Hle & _). cbn in Hm, Hle. rewrite Ha in Hle. cbn [Z.b2z] in Hle.
  assert (forall k, dict_get (metrics (increment MetricAttr.MERGE_TRX (metric_of s))) k =
    if decide (MetricAttr.MERGE_TRX = k) then Some (m + 1) else dict_get (metrics (metric_of s)) k) as Hget
    by (intros k; by apply increment_get).
  constructor; cbn; try done.
  - by apply increment_wf.
  - intros k Hin. rewrite Hget, decide_False by (apply exact_not_delay in Hin as []; congruence). auto.
  - intros t. rewrite Hget, decide_False by (apply not_eq_sym, nondml_neq; set_solver). auto.
  - exists (m + 1). rewrite Hget, decide_True by done. split; [done|]. split; [lia|]. split; [cbn [Z.b2z]; lia|lia].
  - intros Hmode. destruct (inv_mode0 Hmode) as [Hc _]. cbn in Hc. congruence.
Qed.

(** ** One operation *)

Lemma announced_more done o g : announced done g -> announced (done ++ [o])%list g.
Proof. intros Hg u x Hu. destruct (Hg u x Hu) as (xid & lc & Hin & Hx). exists xid, lc. set_solver. Qed.

Lemma latest_more done o g : NoDup (dict_keys g) /\ announced done g -> NoDup (dict_keys g) /\ announced (done ++ [o])%list g.
Proof. intros []. split; [done|by apply announced_more]. Qed.

Lemma saved_more done o (f f0 : option file) :
  f = f0 \/ (exists g, f = Some (FJson g) /\ announced done g) ->
  f = f0 \/ (exists g, f = Some (FJson g) /\ announced (done ++ [o])%list g).
Proof. intros [|(g & ? & ?)]; [by left|right]. exists g. split; [done|by apply announced_more]. Qed.

Lemma count_more k done o : count cfg k done <= count cfg k (done ++ [o])%list.
Proof. rewrite count_snoc. destruct (counted cfg k o); cbn; lia. Qed.

(** An operation the exact counters do not count. *)
Lemma inv_more done o s : (forall k, k ∈ exact_counters -> counted cfg k o = false) -> Inv done s -> Inv (done ++ [o])%list s.
Proof.
  intros Ho []. constructor; try done.
  - intros k Hk. rewrite count_snoc, Ho by done. cbn. rewrite Z.add_0_r. auto.
  - intros t. destruct (inv_nondml0 t) as (v & Hv & Hr). exists v. pose proof (count_more (nondml_value t) done o). split; [done|lia].
  - destruct inv_merged0 as (m & Hm & H0 & Hle & Hc). exists m. pose proof (count_more MetricAttr.TRX done o). split; [done|]. split; [done|]. split; [lia|done].
  - by apply latest_more.
  - by apply saved_more.
Qed.

(** The counter of a row change goes up before the change is made. *)
Lemma inv_dml done o s :
  excluded cfg o = false -> Inv done s -> Inv (done ++ [OpDML o])%list (set_metric (increment (dml_metric o) (metric_of s)) s).
Proof.
  intros He []. assert (dml_metric o ∈ exact_counters /\ dml_metric o <> MetricAttr.TRX) as [Hin Hntrx]
    by (destruct o; cbn; (split; [unfold exact_counters; set_solver|done])).
  destruct (exact_not_delay _ Hin) as [Hnd Hnm].
  assert (forall k, counted cfg k (OpDML o) = bool_decide (dml_metric o = k)) as Hc by (intros k; cbn; by rewrite He).
  pose proof (increment_get (dml_metric o)) as Hget. specialize (Hget) with (1 := inv_exact0 _ Hin) (2 := Hnd).
  constructor; cbn; try done.
  - by apply increment_wf.
  - intros k Hk. rewrite Hget, count_snoc, Hc. case_decide as Hd; [subst; by rewrite bool_decide_eq_true_2|].
    rewrite bool_decide_eq_false_2 by done. cbn. rewrite Z.add_0_r. auto.
  - intros t. destruct (inv_nondml0 t) as (v & Hv & Hr). exists v. pose proof (count_more (nondml_value t) done (OpDML o)).
    rewrite Hget, decide_False; [split; [done|lia]|]. destruct o; apply not_eq_sym, nondml_neq; set_solver.
  - destruct inv_merged0 as (m & Hm & H0 & Hle & Hcp). exists m. pose proof (count_more MetricAttr.TRX done (OpDML o)).
    rewrite Hget, decide_False by done. split; [done|]. split; [done|]. split; [lia|done].
  - by apply latest_more.
  - by apply saved_more.
Qed.

(** A transaction ends: its counter goes up, and in merging mode a commit is
    due. *)
Lemma inv_commit done s (b : bool) :
  (b = true -> merge_trx cfg = true) -> Inv done s ->
  Inv (done ++ [OperationCommit])%list
    (set_allow_commit (b || allow_commit s) (set_metric (increment MetricAttr.TRX (metric_of s)) s)).
Proof.
  intros Hb []. pose proof (inv_exact0 MetricAttr.TRX ltac:(unfold exact_counters; set_solver)) as Htrx.
  pose proof (increment_get MetricAttr.TRX) as Hget. specialize (Hget) with (1 := Htrx). specialize (fun k => Hget k ltac:(done)) as Hget'.
  assert (forall k, counted cfg k OperationCommit = bool_decide (MetricAttr.TRX = k)) as Hc
    by (intros k; cbn; apply bool_decide_ext; split; congruence).
  constructor; cbn [set_allow_commit set_metric metric_of allow_commit allow_checkpoint latest_gtidset latest_position dir]; try done.
  - by apply increment_wf.
  - intros k Hk. rewrite Hget', count_snoc, Hc. case_decide as Hd; [subst; by rewrite bool_decide_eq_true_2|].
    rewrite bool_decide_eq_false_2 by done. cbn. rewrite Z.add_0_r. auto.
  - intros t. destruct (inv_nondml0 t) as (v & Hv & Hr). exists v. pose proof (count_more (nondml_value t) done OperationCommit).
    rewrite Hget', decide_False; [split; [done|lia]|]. apply not_eq_sym, nondml_neq; set_solver.
  - destruct inv_merged0 as (m & Hm & H0 & Hle & Hcp). exists m. rewrite Hget', decide_False by done.
    split; [done|]. split; [done|]. split; [|done]. rewrite count_snoc, Hc, bool_decide_eq_true_2 by done. cbn [Z.b2z].
    destruct b, (allow_commit s); cbn [orb Z.b2z] in *; lia.
  - intros Hmode. destruct (inv_mode0 Hmode) as [-> ?]. split; [|done]. destruct b; [|done]. rewrite Hb in Hmode by done. done.
  - by apply latest_more.
  - by apply saved_more.
Qed.

(** The counter of a statement goes up after the target has executed it. *)
Lemma inv_nondml_done done t sch tab q s :
  Inv done s ->
  Inv (done ++ [OperationNonDML t sch tab q])%list (set_metric (increment (nondml_value t) (metric_of s)) s).
Proof.
  intros []. destruct (inv_nondml0 t) as (v & Hv & Hr).
  assert (nondml_value t ∉ exact_counters) as Hne by (destruct t; apply (bool_decide_unpack _); vm_compute; exact I).
  pose proof (increment_get (nondml_value t)) as Hget. specialize (Hget) with (1 := Hv).
  specialize (fun k => Hget k (nondml_neq t MetricAttr.DELAY ltac:(set_solver))) as Hget'. clear Hget.
  constructor; cbn [set_metric metric_of allow_commit allow_checkpoint latest_gtidset latest_position dir]; try done.
  - by apply increment_wf.
  - intros k Hk. rewrite Hget', decide_False by (by intros <-). rewrite count_snoc. cbn [counted].
    rewrite bool_decide_eq_false_2 by (by intros ->). cbn. rewrite Z.add_0_r. auto.
  - intros t'. rewrite Hget'. destruct (inv_nondml0 t') as (v' & Hv' & Hr').
    pose proof (count_more (nondml_value t') done (OperationNonDML t sch tab q)).
    case_decide as Hd; [|exists v'; split; [done|lia]]. rewrite <- Hd in *. exists (v + 1). split; [done|].
    rewrite count_snoc. cbn [counted]. rewrite bool_decide_eq_true_2 by done. cbn [Z.b2z]. lia.
  - destruct inv_merged0 as (m & Hm & H0 & Hle & Hcp). exists m. rewrite Hget', decide_False by (apply nondml_neq; set_solver).
    pose proof (count_more MetricAttr.TRX done (OperationNonDML t sch tab q)). split; [done|]. split; [done|]. split; [lia|done].
  - by apply latest_more.
  - by apply saved_more.
Qed.

(** The position moves to the transaction that is announced. *)
Lemma inv_gtid done u xid lc x pos s :
  int_of_str xid = Ok x -> Inv done s ->
  Inv (done ++ [OperationGtid u xid lc])%list (set_latest (dict_set (latest_gtidset s) u x) (Some pos) s).
Proof.
  intros Hx Hs. apply (inv_more _ (OperationGtid u xid lc)) in Hs; [|done]. destruct Hs.
  constructor; cbn [set_latest metric_of allow_commit allow_checkpoint latest_gtidset latest_position dir]; try done.
  - destruct inv_latest0 as [Hnd Ha]. split; [by apply dict_set_nodup|]. intros u' x' Hu.
    destruct (decide (u = u')) as [<-|Hne].
    + rewrite dict_get_set_eq in Hu. injection Hu as <-. exists xid, lc. split; [set_solver|done].
    + rewrite dict_get_set_ne in Hu by done. by apply Ha.
  - split; [done|]. intros Hnil. exfalso. pose proof (dict_get_set_eq (latest_gtidset s) u x) as Hg. by rewrite Hnil in Hg.
Qed.

Hint Resolve keeps_on_mc keeps_time keeps_set_delay keeps_persist keeps_checkpoint keeps_merge_commit : inv.
Hint Extern 1 (keeps _ (st_modify _)) => (apply keeps_unseen; intros ?; reflexivity) : inv.

Lemma keeps_after done it : keeps (Inv done) (after_dispatch now cfg it).
Proof. destruct it as [[pos ts] op]. unfold after_dispatch. keeps_tac. Qed.

(** Reaching the invariant of one more operation, whatever the outcome. *)
Definition reaches {A} (done done' : list operation) (m : ST (sync C) A) : Prop :=
  forall s, Inv done s -> Inv done' (snd (m s)).

(** [m] first, then what it announced is done. *)
Lemma reaches_bind {A B} done done' (m : ST (sync C) A) (f : A -> ST (sync C) B) :
  reaches done done' m -> (forall a, keeps (Inv done') (f a)) -> reaches done done' (mbind f m).
Proof.
  intros Hm Hf s Hs. rewrite st_bind_eq. specialize (Hm s Hs). destruct (m s) as [[a|e] s1]; [by apply Hf|done].
Qed.

Lemma reaches_after {A B} done o (m : ST (sync C) A) (f : A -> ST (sync C) B) :
  (forall k, k ∈ exact_counters -> counted cfg k o = false) ->
  keeps (Inv done) m -> (forall a, reaches done (done ++ [o])%list (f a)) -> reaches done (done ++ [o])%list (mbind f m).
Proof.
  intros Ho Hm Hf s Hs. rewrite st_bind_eq. specialize (Hm s Hs). destruct (m s) as [[a|e] s1]; [by apply Hf|by apply inv_more].
Qed.

Lemma reaches_keeps {A} done o (m : ST (sync C) A) :
  (forall k, k ∈ exact_counters -> counted cfg k o = false) -> keeps (Inv done) m -> reaches done (done ++ [o])%list m.
Proof. intros Ho Hm s Hs. apply inv_more; auto. Qed.

Lemma nondml_uncounted t sch tab q k : k ∈ exact_counters -> counted cfg k (OperationNonDML t sch tab q) = false.
Proof.
  intros Hk. cbn. apply bool_decide_eq_false_2. intros ->. revert Hk.
  destruct t; apply (bool_decide_unpack _); vm_compute; exact I.
Qed.

Lemma dispatch_reaches done pos ts o :
  match o with OpDML d => excluded cfg d = false | _ => True end ->
  reaches done (done ++ [o])%list (dispatch now cfg (pos, ts, o)).
Proof.
  intros Hex. destruct o as [t sch tab q|d| | | |u xid lc]; cbn [dispatch].
  - apply reaches_after; [apply nondml_uncounted|apply keeps_merge_commit|]. intros _.
    intros s Hs. unfold st_try. rewrite st_bind_eq. pose proof (keeps_on_mc done (push_nondml sch q) s Hs) as Hmc.
    destruct (on_mc (push_nondml sch q) s) as [[[]|e] s1]; cbn [snd] in Hmc.
    + by apply inv_nondml_done.
    + apply (inv_seen _ s1); [done|]. apply inv_more; [apply nondml_uncounted|done].
  - apply reaches_bind; [intros s Hs; by apply inv_dml|]. intros _. keeps_tac.
  - apply reaches_keeps; [done|]. keeps_tac.
  - intros s Hs. rewrite st_bind_eq. cbn [metric_increment st_modify]. destruct (merge_trx cfg) eqn:Hm.
    + by apply (inv_commit done s true).
    + apply keeps_on_mc. apply (inv_seen _ (set_allow_commit (allow_commit s) (set_metric (increment MetricAttr.TRX (metric_of s)) s))); [done|].
      by apply (inv_commit done s false).
  - apply reaches_keeps; [done|]. keeps_tac.
  - apply reaches_after; [done|keeps_tac|]. intros s0. apply reaches_after; [done|keeps_tac|]. intros _.
    intros s Hs. rewrite st_bind_eq. cbn [st_lift]. destruct (int_of_str xid) as [x|e] eqn:Hx; [by apply inv_gtid|by apply inv_more].
Qed.

Lemma step_reaches done it : reaches done (done ++ [it.2])%list (step now cfg it).
Proof.
  destruct it as [[pos ts] o]. unfold step. cbn [snd].
  assert (match o with OpDML d => excluded cfg d = false | _ => True end ->
    reaches done (done ++ [o])%list (dispatch now cfg (pos, ts, o) ;; after_dispatch now cfg (pos, ts, o))) as Hd.
  { intros Hex. apply reaches_bind; [by apply dispatch_reaches|]. intros _. apply keeps_after. }
  destruct o as [ | d | | | | ]; try (by apply Hd).
  destruct (excluded cfg d) eqn:Hex; [|by apply Hd]. apply reaches_keeps; [|apply keeps_ret].
  intros k _. cbn. by rewrite Hex.
Qed.

Lemma loop_reaches items done s :
  Inv done s -> exists its, map Ok its `prefix_of` items /\
    Inv (done ++ map snd its)%list (snd (loop now cfg items s)).
Proof.
  revert done s. induction items as [|[it|e] items IH]; intros done s Hs; cbn [loop].
  - exists []. split; [apply prefix_nil|]. by rewrite app_nil_r.
  - rewrite st_bind_eq. pose proof (step_reaches done it s Hs) as Hst.
    destruct (step now cfg it s) as [[[]|e] s1]; cbn [snd] in Hst.
    2:{ exists [it]. split; [apply prefix_cons, prefix_nil|done]. }
    rewrite st_bind_eq. cbn [st_get]. destruct (error_exit s1).
    { exists [it]. split; [apply prefix_cons, prefix_nil|done]. }
    destruct (IH _ _ Hst) as (its & Hp & Hi). exists (it :: its). split; [by apply prefix_cons|].
    cbn [map]. by rewrite <- app_assoc in Hi.
  - exists []. split; [apply prefix_nil|]. by rewrite app_nil_r.
Qed.

Lemma inv_init c ap start s : sync_init c d0 ap = Ok (start, s) -> Inv [] s.
Proof.
  unfold sync_init. destruct (get_checkpoint_gtidset d0 ap); [|done]. cbn. intros [= <- <-].
  assert (forall k, count cfg k [] = 0) as Hz by done.
  constructor; cbn [metric_of allow_commit allow_checkpoint latest_gtidset latest_position dir]; try done.
  - intros k Hk. repeat (apply elem_of_cons in Hk as [->|Hk]; [done|]). by apply not_elem_of_nil in Hk.
  - intros t. exists 0. split; [by destruct t|]. rewrite Hz. lia.
  - exists 0. split; [done|]. rewrite Hz. cbn [Z.b2z]. lia.
  - split; [constructor|]. by intros u x Hu.
  - by left.
Qed.

(** C8. The invariant of a run: start from a fresh [MysqlSync] and run it on any
    stream - of any operations in any order, cut short by an exception or not -
    against any target.  However the run ends, the operations it took in are a
    prefix of the stream; the counters of row changes and transactions are the
    numbers of those operations, of tables that are not excluded, and those of
    the other statements at most theirs; there was at most one merged commit
    for each transaction, counting the one still due, and none was due outside
    merging mode; a checkpoint was only allowed after a merged commit; and
    every number in the current position and in the checkpoint file was
    announced by the source. *)
Theorem sync_invariant (c : C) (auto_position start : string) (items : list (result item)) s s' r :
  sync_init c d0 auto_position = Ok (start, s) -> run now cfg items s = (r, s') ->
  exists its, map Ok its `prefix_of` items /\ inv cfg d0 (map snd its) s'.
Proof.
  intros Hinit Hrun. pose proof (inv_init _ _ _ _ Hinit) as Hs. unfold run in Hrun.
  do 5 (rewrite st_bind_eq in Hrun; cbn [time_time st_modify] in Hrun).
  rewrite st_bind_eq in Hrun.
  match type of Hrun with context [loop now cfg items ?s1] =>
    destruct (loop_reaches items [] s1) as (its & Hp & Hi); [by apply (inv_seen _ s)|];
    destruct (loop now cfg items s1) as [[[]|e] s2] end.
  - exists its. split; [done|]. cbn [snd app] in Hi.
    assert (keeps (Inv (map snd its)) (merge_commit ;; metric_persist_ ;; s ← st_get; mret (error_exit s))) as Hk by keeps_tac.
    specialize (Hk s2 Hi). by rewrite Hrun in Hk.
  - exists its. split; [done|]. by injection Hrun as _ <-.
Qed.
End preserved.

Lemma sync_invariant_witness :
  exists its, map Ok its `prefix_of` map Ok (ex_items (stream_of ex_trxs)) /\
    inv ex_merge [] (map snd its) (snd (run ex_clock ex_merge (map Ok (ex_items (stream_of ex_trxs))) (ex_state []))).
Proof.
  apply (sync_invariant ex_clock ex_merge [] (con (journal_init [])) "u:1-5" "u:1-5" _ (ex_state []) _
    (fst (run ex_clock ex_merge (map Ok (ex_items (stream_of ex_trxs))) (ex_state [])))); [reflexivity|].
  apply surjective_pairing.
Defined.

(** ** Errors *)

Section errors.
Context {C : Type} `{TargetLaws C} (now : nat -> Z) (cfg : settings).
Implicit Types s : sync C.

(** A row change cannot be written as a statement, or the target refuses it. *)
Definition statement_fails (d : OperationDML) (c : client C) : Prop :=
  match dmlOperation2Sql d with
  | Err _ => True
  | Ok (sql, ps) => exists e c', push_dml sql ps c = (Err e, c')
  end.

Lemma dml_dispatch_outcome pos ts d s :
  error_exit s = false ->
  let s' := snd (dispatch now cfg (pos, ts, OpDML d) s) in
  (error_exit s' = true <-> statement_fails d (mc s)) /\ sdone s' = sdone s.
Proof.
  intros He. cbn [dispatch]. rewrite st_bind_eq. cbn [metric_increment st_modify]. unfold st_try, statement_fails.
  rewrite st_bind_eq. cbn [st_lift]. destruct (dmlOperation2Sql d) as [[sql ps]|e]; [|by cbn].
  unfold on_mc. cbn [mc set_metric]. destruct (push_dml sql ps (mc s)) as [[[]|e] c'] eqn:Ep; cbn.
  - split; [split; [by rewrite He|by intros (? & ? & ?)]|]. unfold sdone, done_of in *. cbn.
    unfold push_dml in Ep. rewrite st_bind_eq in Ep. unfold on_con in Ep.
    destruct (con_execute sql ps (con (mc s))) as [[[]|e] c1] eqn:Ec; [|done]. apply execute_ok in Ec as [Hc _].
    cbn in Ep. injection Ep as <-. done.
  - split; [split; [eauto|done]|]. unfold sdone, done_of in *. cbn. unfold push_dml in Ep. rewrite st_bind_eq in Ep. unfold on_con in Ep.
    destruct (con_execute sql ps (con (mc s))) as [[[]|e'] c1] eqn:Ec; [done|]. apply execute_err in Ec as [Hc _].
    by injection Ep as _ <-.
Qed.

Lemma dml_step_outcome pos ts d s :
  error_exit s = false -> excluded cfg d = false ->
  let s' := snd (step now cfg (pos, ts, OpDML d) s) in
  (error_exit s' = true <-> statement_fails d (mc s)) /\ sdone s' = sdone s.
Proof.
  intros He Hex. unfold step. cbn [snd]. rewrite Hex, st_bind_eq.
  pose proof (dml_dispatch_outcome pos ts d s He) as Hd. cbn zeta in Hd.
  destruct (dispatch now cfg (pos, ts, OpDML d) s) as [[[]|e] s1]; cbn [snd] in Hd; [|exact Hd].
  pose proof (quiet_after now cfg (pos, ts, OpDML d) s1) as Hq. apply core_facts in Hq as (Hm & _ & Hee).
  unfold sdone in *. rewrite Hee, Hm. exact Hd.
Qed.

Lemma loop_after_runs its rest s s1 :
  runs now cfg s its s1 -> loop now cfg (map Ok its ++ rest)%list s = loop now cfg rest s1.
Proof.
  induction 1 as [|s it s2 its s3 Hst He Hr IH]; [done|]. cbn [map app loop].
  rewrite st_bind_eq, Hst, st_bind_eq. cbn [st_get]. by rewrite He.
Qed.

(** C9. Errors: after any number of operations without one, a row change of a
    table that is not excluded raises the error flag exactly when it cannot be
    written as a statement or the target refuses the statement, and commits
    nothing; the loop then ends, and so do an exception of the step itself and
    one of the source end it with that exception, and no operation behind any
    of them has an effect. *)
Theorem sync_errors (its : list item) (rest : list (result item)) s s1 :
  error_exit s = false -> runs now cfg s its s1 ->
  (forall pos ts d, excluded cfg d = false ->
     let s' := snd (step now cfg (pos, ts, OpDML d) s1) in
     (error_exit s' = true <-> statement_fails d (mc s1)) /\ sdone s' = sdone s1) /\
  (forall it s2, step now cfg it s1 = (Ok tt, s2) -> error_exit s2 = true ->
     loop now cfg (map Ok its ++ Ok it :: rest)%list s = (Ok tt, s2)) /\
  (forall it e s2, step now cfg it s1 = (Err e, s2) -> loop now cfg (map Ok its ++ Ok it :: rest)%list s = (Err e, s2)) /\
  (forall e, loop now cfg (map Ok its ++ Err e :: rest)%list s = (Err e, s1)).
Proof.
  intros He Hr. assert (error_exit s1 = false) as He1 by (clear -He Hr; induction Hr; auto).
  split; [intros; by apply dml_step_outcome|].
  split; [|split].
  - intros it s2 Hst Hee. rewrite (loop_after_runs its _ s s1) by done. cbn [loop]. rewrite st_bind_eq, Hst, st_bind_eq. cbn [st_get]. by rewrite Hee.
  - intros it e s2 Hst. rewrite (loop_after_runs its _ s s1) by done. cbn [loop]. by rewrite st_bind_eq, Hst.
  - intros e. by rewrite (loop_after_runs its _ s s1) by done.
Qed.
End errors.

(** The target refuses the second statement: the insert behind it is not made. *)
Lemma sync_errors_witness :
  fst (loop ex_clock ex_merge (Ok (None, None, 0, OpDML ex_bad_row) :: map Ok (ex_items [OpDML (ex_row 1)])) (ex_state [ex_bad_sql])) = Ok tt /\
  error_exit (snd (step ex_clock ex_merge (None, None, 0, OpDML ex_bad_row) (ex_state [ex_bad_sql]))) = true /\
  statement_fails ex_bad_row (mc (ex_state [ex_bad_sql])).
Proof.
  assert (statement_fails ex_bad_row (mc (ex_state [ex_bad_sql]))) as Hf by (eexists; eexists; vm_compute; reflexivity).
  pose proof (sync_errors ex_clock ex_merge [] (map Ok (ex_items [OpDML (ex_row 1)])) (ex_state [ex_bad_sql]) _
    eq_refl (runs_nil _ _ _)) as (Hdml & Hstop & _ & _).
  pose proof (proj2 (proj1 (Hdml (None, None) 0 ex_bad_row eq_refl)) Hf) as He. cbn zeta in He.
  split; [|split; [exact He|exact Hf]].
  assert (step ex_clock ex_merge (None, None, 0, OpDML ex_bad_row) (ex_state [ex_bad_sql]) =
    (Ok tt, snd (step ex_clock ex_merge (None, None, 0, OpDML ex_bad_row) (ex_state [ex_bad_sql])))) as Hst by (vm_compute; reflexivity).
  pose proof (Hstop _ _ Hst He) as Hl. cbn [map app] in Hl. exact (f_equal fst Hl).
Defined.
