(* ===== verification/Event.v ===== *)
(** * Events

    [pymysqlreplication/event.py]: the constructor of every event class as a
    reader of the packet, in the order in which it reads.  [event_size] is
    the size without header and checksum.  Printing ([dump], [_dump],
    [to_dict]) is in [Dump]. *)

From stdpp Require Import base list strings sets.
From Stdlib Require Import ZArith Lia Ascii.
From S2P Require Import Prelude PyBytes PyStr Values UtilBytes Packet Column Gtid GtidText GtidWire.
Open Scope string_scope.
Open Scope Z_scope.

(** ** [constants/BINLOG.py] *)

Module BINLOG.
Definition QUERY_EVENT : Z := 0x02.
Definition STOP_EVENT : Z := 0x03.
Definition ROTATE_EVENT : Z := 0x04.
Definition INTVAR_EVENT : Z := 0x05.
Definition RAND_EVENT : Z := 0x0D.
Definition USER_VAR_EVENT : Z := 0x0E.
Definition FORMAT_DESCRIPTION_EVENT : Z := 0x0F.
Definition XID_EVENT : Z := 0x10.
Definition BEGIN_LOAD_QUERY_EVENT : Z := 0x11.
Definition EXECUTE_LOAD_QUERY_EVENT : Z := 0x12.
Definition TABLE_MAP_EVENT : Z := 0x13.
Definition WRITE_ROWS_EVENT_V1 : Z := 0x17.
Definition UPDATE_ROWS_EVENT_V1 : Z := 0x18.
Definition DELETE_ROWS_EVENT_V1 : Z := 0x19.
Definition HEARTBEAT_LOG_EVENT : Z := 0x1B.
Definition ROWS_QUERY_LOG_EVENT : Z := 0x1D.
Definition WRITE_ROWS_EVENT_V2 : Z := 0x1E.
Definition UPDATE_ROWS_EVENT_V2 : Z := 0x1F.
Definition DELETE_ROWS_EVENT_V2 : Z := 0x20.
Definition GTID_LOG_EVENT : Z := 0x21.
Definition ANONYMOUS_GTID_LOG_EVENT : Z := 0x22.
Definition PREVIOUS_GTIDS_LOG_EVENT : Z := 0x23.
Definition XA_PREPARE_EVENT : Z := 0x26.
Definition PARTIAL_UPDATE_ROWS_EVENT : Z := 0x27.
Definition MARIADB_ANNOTATE_ROWS_EVENT : Z := 0xA0.
Definition MARIADB_BINLOG_CHECKPOINT_EVENT : Z := 0xA1.
Definition MARIADB_GTID_EVENT : Z := 0xA2.
Definition MARIADB_GTID_GTID_LIST_EVENT : Z := 0xA3.
Definition MARIADB_START_ENCRYPTION_EVENT : Z := 0xA4.
End BINLOG.

(** ** [zlib.crc32] *)

Fixpoint crc_bits (n : nat) (c : Z) : Z :=
  match n with
  | O => c
  | S n' => crc_bits n' (if Z.testbit c 0 then Z.lxor (Z.shiftr c 1) 0xEDB88320 else Z.shiftr c 1)
  end.
Definition crc32 (data : bytes) : Z :=
  Z.lxor (foldl (fun c b => crc_bits 8 (Z.lxor c b)) 0xFFFFFFFF data) 0xFFFFFFFF.

Example crc32_check : crc32 (bytes_of_string "123456789") = 0xCBF43926.
Proof. vm_compute. reflexivity. Qed.

(** ** Event data *)

(** [hexlify(sid)] cut into the five fields of a UUID. *)
Definition uuid_text (sid : bytes) : string :=
  let n := hexlify sid in
  str_take 8 n ++ "-" ++ str_take 4 (str_drop 8 n) ++ "-" ++ str_take 4 (str_drop 12 n) ++ "-"
    ++ str_take 4 (str_drop 16 n) ++ "-" ++ str_drop 20 n.

Record GtidEvent := mkGtidEvent {
  ge_commit_flag : bool;
  ge_sid : bytes;
  ge_gno : Z;
  ge_lt_type : Z;
  ge_last_committed : option Z;      (* set when mysql_version >= (5, 7) *)
  ge_sequence_number : option Z
}.

(** [GtidEvent.gtid] *)
Definition ge_gtid (e : GtidEvent) : string := uuid_text (ge_sid e) ++ ":" ++ str_of_Z (ge_gno e).

(** The value of a status variable: integers or byte strings read. *)
Inductive status_value := SvInts (l : list Z) | SvBytes (l : list bytes).

Record QueryEvent := mkQueryEvent {
  qe_slave_proxy_id : Z;
  qe_execution_time : Z;
  qe_schema_length : Z;
  qe_error_code : Z;
  qe_status_vars_length : Z;
  qe_status_vars : list (Z * status_value);
  qe_schema : bytes;
  qe_query : string
}.

Record FormatDescriptionEvent := mkFormatDescription {
  fd_binlog_version : Z;
  fd_mysql_version_str : string;
  fd_mysql_version : list Z;
  fd_created : Z;
  fd_common_header_len : Z;
  fd_post_header_len : bytes;
  fd_server_version_split : bytes;
  fd_number_of_event_types : Z
}.

Record UserVarEvent := mkUserVar {
  uv_name : string;
  uv_is_null : Z;
  uv_type : option Z;
  uv_charset : option Z;
  uv_value_len : option Z;
  uv_value : pyval;
  uv_flags : option Z
}.

Section events.
Context {P : Type} `{MysqlPacket P}.

(** [BinLogEvent._verify_event]: [None] when checksums are not verified. *)
Definition verify_event (verify_checksum : bool) (event_size : Z) : PM P (option bool) :=
  if negb verify_checksum then mret None
  else
    rewind 1 ;;
    data ← read (19 + event_size);
    footer ← read 4;
    byte_data ← st_lift (pack_ule 4 (crc32 data));
    st_modify (fun w => set_cursor w (read_bytes w - (19 + event_size + 4)) (data_buffer w) (packet w)) ;;
    rewind 20 ;;
    mret (Some (bool_decide (byte_data = footer))).

(** [BinLogEvent._read_table_id]: six bytes padded to eight. *)
Definition read_table_id : PM P Z :=
  bs ← read 6; st_lift (unpack_ule 8 (bs ++ [0; 0])%list).

(** [self.packet.read(1)[0]] *)
Definition read_byte : PM P Z := bs ← read 1; st_lift (py_index bs 0).

(** Tuple comparison [version >= (a, b)]. *)
Fixpoint version_geb (v w : list Z) : bool :=
  match w with
  | [] => true
  | y :: w' => match v with
               | [] => false
               | x :: v' => if x =? y then version_geb v' w' else y <? x
               end
  end.

Definition read_gtid_event (mysql_version : list Z) : PM P GtidEvent :=
  f ← read_uint8;
  sid ← read 16;
  gno ← read_uint64;
  lt ← read_byte;
  if version_geb mysql_version [5; 7] then
    lc ← read_uint64; sn ← read_uint64;
    mret (mkGtidEvent (f =? 1) sid gno lt (Some lc) (Some sn))
  else mret (mkGtidEvent (f =? 1) sid gno lt None None).

(** [n] readings in a row. *)
Fixpoint read_times {A} (n : nat) (m : PM P A) : PM P (list A) :=
  match n with
  | O => mret []
  | S n' => x ← m; l ← read_times n' m; mret (x :: l)
  end.

(** [repr] of a list of strings without quotes or backslashes. *)
Definition repr_list (l : list string) : string := "[" ++ join ", " (map (fun s => "'" ++ s ++ "'") l) ++ "]".

(** One SID of [PreviousGtidsEvent]: the text has a hyphen before the colon
    and the intervals as a Python list. *)
Definition read_previous_gtid : PM P string :=
  sid ← read 16;
  n ← read_uint64;
  l ← read_times (Z.to_nat n) (a ← read_int64; b ← read_uint64; mret (str_of_Z a ++ "-" ++ str_of_Z b));
  mret (uuid_text sid ++ "-:" ++ repr_list l).

Definition read_previous_gtids : PM P string :=
  n ← read_int64; l ← read_times (Z.to_nat n) read_previous_gtid; mret (join "," l).

(** MariaDB: sequence number, domain, flags and the GTID text. *)
Definition read_mariadb_gtid : PM P (Z * Z * Z * string) :=
  w ← st_get;
  seq ← read_uint64; dom ← read_uint32; fl ← read_uint8;
  mret (seq, dom, fl, str_of_Z dom ++ "-" ++ str_of_Z (server_id w) ++ "-" ++ str_of_Z seq).

Definition read_mariadb_checkpoint : PM P string :=
  n ← read_uint32; bs ← read n; st_lift (utf8_decode ErrStrict bs).

Definition read_mariadb_annotate (event_size : Z) : PM P bytes := read event_size.

(** Each element of the list is itself a [BinLogEvent], verified again. *)
Definition read_mariadb_gtid_list (verify : bool) (event_size : Z) : PM P (list string) :=
  n ← read_uint32;
  read_times (Z.to_nat n)
    (verify_event verify event_size ;;
     dom ← read_uint32; sv ← read_uint32; seq ← read_uint64;
     mret (str_of_Z dom ++ "-" ++ str_of_Z sv ++ "-" ++ str_of_Z seq)).

(** Position and name of the next binlog. *)
Definition read_rotate (event_size : Z) : PM P (Z * string) :=
  pos ← read_uint64; bs ← read (event_size - 8); s ← st_lift (utf8_decode ErrStrict bs); mret (pos, s).

(** One phase, format id, gtrid and bqual. *)
Definition read_xa_prepare : PM P (bool * Z * bytes * bytes) :=
  one ← read 1;
  fmt ← read_uint32; g ← read_uint32; b ← read_uint32;
  gtrid ← read g; bqual ← read b;
  mret (negb (bool_decide (one = [0])), fmt, gtrid, bqual).

Definition xa_xid (gtrid bqual : bytes) : result string :=
  a ← utf8_decode ErrStrict gtrid; b ← utf8_decode ErrStrict bqual; Ok (a ++ b).

(** [bs.rstrip(b"\0")] *)
Definition rstrip_nul (bs : bytes) : bytes :=
  foldr (fun b acc => match acc with [] => if b =? 0 then [] else [b] | _ => b :: acc end) [] bs.

Definition read_format_description (event_size : Z) : PM P FormatDescriptionEvent :=
  bv ← read_uint16;
  vb ← read 50;
  vs ← st_lift (utf8_decode ErrStrict (rstrip_nul vb));
  numbers ← st_lift (of_option IndexError (head (split_on "-" vs)));
  mv ← st_lift (mapM_result int_of_str (split_on "." numbers));
  created ← read_uint32;
  chl ← read_uint8;
  let n := event_size - 57 - chl - 1 - 4 in
  ph ← read n;
  sv ← read 3;
  net ← read_uint8;
  mret (mkFormatDescription bv vs mv created chl ph sv net).

Definition read_xid : PM P Z := read_uint64.

Definition read_heartbeat (event_size : Z) : PM P string :=
  bs ← read event_size; st_lift (utf8_decode ErrStrict bs).

(** *** Query events *)

(** A byte string preceded by its length; nothing is set for length zero. *)
Definition read_pascal1 : PM P (list bytes) :=
  n ← read_uint8; if n =? 0 then mret [] else bs ← read n; mret [bs].

Definition read_status_vars_value_for_key (key : Z) : PM P status_value :=
  let ints m := z ← m; mret (SvInts [z]) in
  if key =? 0x00 then ints read_uint32
  else if key =? 0x01 then ints read_uint64
  else if key =? 0x02 then mret (SvInts [])
  else if key =? 0x03 then a ← read_uint16; b ← read_uint16; mret (SvInts [a; b])
  else if key =? 0x04 then a ← read_uint16; b ← read_uint16; c ← read_uint16; mret (SvInts [a; b; c])
  else if key =? 0x05 then l ← read_pascal1; mret (SvBytes l)
  else if key =? 0x06 then l ← read_pascal1; mret (SvBytes l)
  else if key =? 0x07 then ints read_uint16
  else if key =? 0x08 then ints read_uint16
  else if key =? 0x09 then ints read_uint64
  else if key =? 0x0A then mret (SvInts [])
  else if key =? 0x0B then u ← read_pascal1; h ← read_pascal1; mret (SvBytes (u ++ h)%list)
  else if key =? 0x0C then
    n ← read_uint8;
    if n =? 254 then mret (SvBytes []) else l ← read_times (Z.to_nat n) read_string; mret (SvBytes l)
  else if key =? 0x0D then ints read_uint24
  else if key =? 0x0E then mret (SvInts [])
  else if key =? 0x0F then mret (SvInts [])
  else if key =? 0x10 then ints read_uint8
  else if key =? 0x11 then ints read_uint64
  else if key =? 0x12 then ints read_uint16
  else if key =? 0x13 then ints read_uint8
  else if key =? 0x14 then ints read_uint8
  else if key =? 0x80 then ints read_uint24
  else if key =? 0x81 then ints read_uint64
  else st_raise StatusVariableMismatch.

(** [while self.packet.read_bytes < status_vars_end_pos] *)
Fixpoint read_status_vars (fuel : nat) (end_pos : Z) : PM P (list (Z * status_value)) :=
  match fuel with
  | O => st_raise (PyException "out of fuel")
  | S f =>
      w ← st_get;
      if read_bytes w <? end_pos then
        k ← read_uint8;
        v ← read_status_vars_value_for_key k;
        l ← read_status_vars f end_pos;
        mret ((k, v) :: l)
      else mret []
  end.

Definition read_status_block (length : Z) : PM P (list (Z * status_value)) :=
  w ← st_get; read_status_vars (read_fuel w) (read_bytes w + length).

Definition read_query_event (event_size : Z) : PM P QueryEvent :=
  pid ← read_uint32;
  et ← read_uint32;
  sl ← read_uint8;
  ec ← read_uint16;
  vl ← read_uint16;
  vars ← read_status_block vl;
  sch ← read sl;
  advance 1 ;;
  q ← read (event_size - 13 - vl - sl - 1);
  qs ← st_lift (utf8_decode ErrBackslashReplace q);
  mret (mkQueryEvent pid et sl ec vl vars sch qs).

(** *** The remaining events *)

Definition read_begin_load_query (event_size : Z) : PM P (Z * bytes) :=
  f ← read_uint32; d ← read (event_size - 4); mret (f, d).

Definition read_execute_load_query : PM P (list Z) :=
  a ← read_uint32; b ← read_uint32; c ← read_uint8; d ← read_uint16; e ← read_uint16;
  f ← read_uint32; g ← read_uint32; h ← read_uint32; i ← read_uint8;
  mret [a; b; c; d; e; f; g; h; i].

Definition read_intvar : PM P (Z * Z) := t ← read_uint8; v ← read_uint32; mret (t, v).

Definition read_rand : PM P (Z * Z) := a ← read_uint64; b ← read_uint64; mret (a, b).

(** [UserVarEvent._set_value_from_temp_buffer]: an empty buffer leaves the
    value [None]; the default method takes no argument, so that calling it
    with the buffer raises [TypeError]. *)
Definition user_var_value (type flags : Z) (buffer : bytes) : result pyval :=
  match buffer with
  | [] => Ok VNone
  | _ =>
      if type =? 0 then VStr <$> utf8_decode ErrStrict buffer
      else if type =? 1 then VFloat <$> unpack_ule 8 buffer
      else if type =? 2 then VInt <$> (if flags =? 1 then unpack_ule 8 buffer else unpack_sle 8 buffer)
      else if type =? 4 then
        p ← py_index buffer 0; d ← py_index buffer 1; parse_decimal_from_bytes (slice_from buffer 2) p d
      else Err TypeError
  end.

Definition read_user_var : PM P UserVarEvent :=
  nl ← read_uint32;
  nb ← read nl;
  name ← st_lift (utf8_decode ErrStrict nb);
  isnull ← read_uint8;
  if isnull =? 0 then
    ty ← read_uint8; cs ← read_uint32; vl ← read_uint32;
    buf ← read vl;
    fl ← read_uint8;
    v ← st_lift (user_var_value ty fl buf);
    mret (mkUserVar name isnull (Some ty) (Some cs) (Some vl) v (Some fl))
  else mret (mkUserVar name isnull None None None VNone None).

Definition read_start_encryption : PM P (Z * Z * bytes) :=
  s ← read_uint8; k ← read_uint32; n ← read 12; mret (s, k, n).

Definition read_rows_query : PM P string :=
  advance 1 ;; bs ← read_available; st_lift (utf8_decode ErrStrict bs).

Definition read_not_implemented (event_size : Z) : PM P unit := advance event_size.
End events.

(** ** Properties *)

Lemma lxor_bound n a b : 0 < n -> 0 <= a < 2 ^ n -> 0 <= b < 2 ^ n -> 0 <= Z.lxor a b < 2 ^ n.
Proof.
  intros Hn Ha Hb. assert (0 <= Z.lxor a b) as Hp by (apply Z.lxor_nonneg; lia). split; [done|].
  destruct (Z.eq_dec (Z.lxor a b) 0) as [->|Hne]; [apply Z.pow_pos_nonneg; lia|].
  apply Z.log2_lt_pow2; [lia|]. pose proof (Z.log2_lxor a b ltac:(lia) ltac:(lia)).
  assert (forall x, 0 <= x < 2 ^ n -> Z.log2 x < n) as Hlog.
  { intros x Hx. destruct (Z.eq_dec x 0) as [->|]; [cbn; lia|]. apply Z.log2_lt_pow2; lia. }
  pose proof (Hlog a Ha). pose proof (Hlog b Hb). lia.
Qed.

Lemma crc_bits_bound n c : 0 <= c < 2 ^ 32 -> 0 <= crc_bits n c < 2 ^ 32.
Proof.
  revert c. induction n as [|n IH]; intros c Hc; [done|]. cbn [crc_bits]. apply IH.
  assert (0 <= Z.shiftr c 1 < 2 ^ 32).
  { rewrite Z.shiftr_div_pow2 by lia. split; [apply Z.div_pos; lia|]. apply Z.div_lt_upper_bound; lia. }
  destruct (Z.testbit c 0); [|done]. apply lxor_bound; lia.
Qed.

Lemma crc32_bound data : bytes_ok data -> 0 <= crc32 data < 2 ^ 32.
Proof.
  intros Hok. unfold crc32. apply lxor_bound; [lia| |lia].
  assert (forall c, 0 <= c < 2 ^ 32 -> 0 <= foldl (fun c b => crc_bits 8 (Z.lxor c b)) c data < 2 ^ 32) as Hg; [|apply Hg; lia].
  induction Hok as [|b bs Hb Hbs IH]; intros c Hc; [done|]. cbn [foldl]. apply IH, crc_bits_bound.
  unfold byte_ok in Hb. apply lxor_bound; lia.
Qed.

Section verify.
Context {P : Type} `{MysqlPacketLaws P}.

Lemma rewind_spec n (w : wrapper P) :
  data_buffer w = [] -> 0 <= n <= zlen (pk_data (packet w)) ->
  exists w', rewind n w = (Ok tt, w') /\ stream w' = drop (Z.to_nat n) (pk_data (packet w)) /\
    read_bytes w' = read_bytes w /\ same_header w w' /\ data_buffer w' = [].
Proof.
  intros Hb Hn. unfold rewind. destruct (pk_rewind_ok n (packet w) Hn) as (p' & -> & Hd & Hp).
  eexists. split; [done|]. unfold stream, pk_rest, same_header. cbn. rewrite Hb, Hd, Hp. done.
Qed.

Lemma verify_event_spec (w : wrapper P) (event_size : Z) :
  data_buffer w = [] -> pk_position (packet w) = 20 -> bytes_ok (pk_data (packet w)) ->
  0 <= event_size -> 24 + event_size <= zlen (pk_data (packet w)) ->
  exists w', verify_event true event_size w =
      (Ok (Some (bool_decide
         (le_encode 4 (crc32 (slice (pk_data (packet w)) 1 (20 + event_size))) =
          slice (pk_data (packet w)) (20 + event_size) (24 + event_size)))), w') /\
    stream w' = stream w /\ read_bytes w' = read_bytes w /\ data_buffer w' = [] /\ same_header w w'.
Proof.
  intros Hb Hp Hok Hs Hlen. unfold verify_event. cbn [negb].
  destruct (rewind_spec 1 w Hb) as (w1 & E1 & S1 & R1 & H1 & B1); [lia|]. rewrite st_bind_eq, E1.
  set (d := pk_data (packet w)) in *. assert (zlen (stream w1) = zlen d - 1) as L1.
  { rewrite S1. unfold zlen in *. rewrite length_drop. lia. }
  destruct (read_stream w1 (19 + event_size)) as (w2 & E2 & S2 & R2 & H2); [lia|].
  pose proof (read_buffer (19 + event_size) w1 B1) as B2. rewrite E2 in B2. cbn in B2. rewrite st_bind_eq, E2.
  assert (zlen (stream w2) = zlen d - 20 - event_size) as L2.
  { rewrite S2. unfold zlen in *. rewrite length_drop. lia. }
  destruct (read_stream w2 4) as (w3 & E3 & S3 & R3 & H3); [lia|].
  pose proof (read_buffer 4 w2 B2) as B3. rewrite E3 in B3. cbn in B3. rewrite st_bind_eq, E3.
  assert (take (Z.to_nat (19 + event_size)) (stream w1) = slice d 1 (20 + event_size)) as D1.
  { rewrite S1. unfold slice. by replace (20 + event_size - 1) with (19 + event_size) by lia. }
  assert (take (Z.to_nat 4) (stream w2) = slice d (20 + event_size) (24 + event_size)) as D2.
  { rewrite S2, S1, drop_drop. unfold slice. replace (24 + event_size - (20 + event_size)) with 4 by lia.
    do 2 f_equal. lia. }
  rewrite D1, D2. rewrite st_bind_eq. unfold st_lift. rewrite pack_ule_in_range.
  2:{ pose proof (crc32_bound (slice d 1 (20 + event_size))) as Hc. change (256 ^ Z.of_nat 4) with (2 ^ 32).
      apply Hc. unfold slice. by apply Forall_take, Forall_drop. }
  rewrite st_bind_eq. cbn [st_modify].
  pose proof (same_header_trans _ _ _ H1 (same_header_trans _ _ _ H2 H3)) as H13.
  set (w4 := set_cursor w3 _ _ _).
  destruct (rewind_spec 20 w4) as (w5 & E5 & S5 & R5 & H5 & B5).
  { done. } { cbn. destruct H13 as (_ & _ & _ & _ & _ & _ & ->). fold d. lia. }
  rewrite st_bind_eq, E5. eexists. split; [done|].
  assert (same_header w w4) as H14 by exact H13.
  split; [|split; [|split; [done|by eapply same_header_trans]]].
  - rewrite S5. unfold stream, pk_rest. rewrite Hb, Hp. cbn. destruct H13 as (_ & _ & _ & _ & _ & _ & ->). done.
  - rewrite R5. cbn. lia.
Qed.

(** Verifying the checksum of an event does not disturb its decoding: on a
    packet whose header has just been read, with the checksum present, it
    succeeds, reports whether the CRC-32 of header and body equals the
    four-byte footer, and leaves the stream, the byte count, the push-back
    buffer and the header fields as they were. *)
Theorem verify_event_neutral (w : wrapper P) (event_size : Z) :
  data_buffer w = [] -> pk_position (packet w) = 20 -> bytes_ok (pk_data (packet w)) ->
  0 <= event_size -> 24 + event_size <= zlen (pk_data (packet w)) ->
  exists w', verify_event true event_size w =
      (Ok (Some (bool_decide
         (le_encode 4 (crc32 (slice (pk_data (packet w)) 1 (20 + event_size))) =
          slice (pk_data (packet w)) (20 + event_size) (24 + event_size)))), w') /\
    stream w' = stream w /\ read_bytes w' = read_bytes w /\ data_buffer w' = [] /\ same_header w w'.
Proof. apply verify_event_spec. Qed.
End verify.

(** *** GTID events *)

Lemma hexlify_hex bs : bytes_ok bs -> str_forallb is_hex (hexlify bs) = true /\ String.length (hexlify bs) = (2 * length bs)%nat.
Proof.
  induction 1 as [|b bs Hb Hbs [IH1 IH2]]; [done|]. cbn [hexlify str_forallb String.length length].
  unfold byte_ok in Hb. assert (0 <= b / 16 < 16) by (split; [apply Z.div_pos; lia|apply Z.div_lt_upper_bound; lia]).
  assert (0 <= b mod 16 < 16) by (apply Z.mod_pos_bound; lia).
  unfold is_hex at 1 2. rewrite !hex_value_digit, IH1, IH2 by done. split; [done|lia].
Qed.

Lemma str_take_spec f n s :
  str_forallb f s = true -> (n <= String.length s)%nat ->
  str_forallb f (str_take n s) = true /\ String.length (str_take n s) = n.
Proof.
  revert s. induction n as [|n IH]; intros s Hf Hn; [done|]. destruct s as [|c s]; [cbn in Hn; lia|].
  cbn in *. apply andb_true_iff in Hf as [Hc Hf]. destruct (IH s Hf) as [H1 H2]; [lia|]. by rewrite Hc, H1, H2.
Qed.

Lemma str_drop_spec f n s :
  str_forallb f s = true -> str_forallb f (str_drop n s) = true /\ String.length (str_drop n s) = (String.length s - n)%nat.
Proof.
  revert s. induction n as [|n IH]; intros s Hf; [cbn; split; [by destruct s|lia]|]. destruct s as [|c s]; [done|].
  cbn in *. apply andb_true_iff in Hf as [_ Hf]. by apply IH.
Qed.

Lemma uuid_text_ok sid : length sid = 16%nat -> bytes_ok sid -> sid_ok (uuid_text sid) = true.
Proof.
  intros Hl Hok. destruct (hexlify_hex sid Hok) as [Hh Hn]. unfold uuid_text.
  assert (forall a b, (a + b <= 32)%nat -> hex_field b (str_take b (str_drop a (hexlify sid))) = true) as Hf.
  { intros a b Hab. destruct (str_drop_spec is_hex a (hexlify sid) Hh) as [H1 H2].
    destruct (str_take_spec is_hex b (str_drop a (hexlify sid)) H1) as [H3 H4]; [lia|].
    unfold hex_field. by rewrite H3, bool_decide_eq_true_2. }
  apply sid_ok_fields; [apply (Hf 0 8)%nat|apply (Hf 8 4)%nat|apply (Hf 12 4)%nat|apply (Hf 16 4)%nat|]; try lia.
  destruct (str_drop_spec is_hex 20 (hexlify sid) Hh) as [H1 H2]. unfold hex_field.
  rewrite H1, bool_decide_eq_true_2; [done|lia].
Qed.

Section gtid_event.
Context {P : Type} `{MysqlPacketLaws P}.

Lemma parses_uint (n : Z) (k : nat) z :
  n = Z.of_nat k -> 0 <= z < 256 ^ Z.of_nat k ->
  parses (P:=P) (b ← read n; st_lift (unpack_ule k b)) (le_encode k z) z.
Proof.
  intros -> Hz. rewrite <- (le_decode_encode k z) at 2 by done.
  apply parses_unpack; [apply le_encode_length|done].
Qed.

(** What a server of version 5.7 or later writes. *)
Definition encode_gtid_event (flag : Z) (sid : bytes) (gno lt lc sn : Z) : bytes :=
  ([flag] ++ sid ++ le_encode 8 gno ++ [lt] ++ le_encode 8 lc ++ le_encode 8 sn)%list.

Lemma gtid_event_parsed (flag gno lt lc sn : Z) (sid : bytes) (mysql_version : list Z) :
  version_geb mysql_version [5; 7] = true ->
  length sid = 16%nat -> bytes_ok sid -> 0 <= gno < 2 ^ 63 -> 0 <= lc < 2 ^ 64 -> 0 <= sn < 2 ^ 64 ->
  let e := mkGtidEvent (flag =? 1) sid gno lt (Some lc) (Some sn) in
  parses (P:=P) (read_gtid_event mysql_version) (encode_gtid_event flag sid gno lt lc sn) e /\
  gtid_of_string (ge_gtid e) = Ok (mkGtid (uuid_text sid) [(gno, gno + 1)]).
Proof.
  intros Hv Hl Hok Hg Hlc Hsn e. split.
  - unfold read_gtid_event, encode_gtid_event. rewrite Hv.
    eapply parses_bind; [apply parses_read_uint8|].
    eapply parses_bind; [apply parses_read; unfold zlen; lia|].
    eapply parses_bind; [apply parses_uint; [done|change (256 ^ Z.of_nat 8) with (2 ^ 64); lia]|].
    eapply parses_bind; [unfold read_byte; apply (parses_lift 1 (fun bs => py_index bs 0) [lt] lt); done|].
    eapply parses_bind; [by apply parses_uint|].
    eapply parses_bind_pure; [by apply parses_uint|]. done.
  - change (ge_gtid e) with (uuid_text sid ++ ":" ++ str_of_Z gno).
    replace (uuid_text sid ++ ":" ++ str_of_Z gno) with (gtid_str (mkGtid (uuid_text sid) [(gno, gno + 1)])).
    2:{ unfold gtid_str. cbn [intervals Gtid.sid map join]. unfold format_interval. cbn [fst snd]. by rewrite Z.eqb_refl. }
    apply gtid_of_string_str.
    + unfold gtid_wf, canonical. cbn. split; repeat constructor. unfold nonempty. cbn. lia.
    + unfold printable. cbn [Gtid.sid intervals]. split; [by apply uuid_text_ok|].
      split; [done|]. repeat constructor. cbn. lia.
Qed.

(** A GTID event reads back the fields the server wrote, and its [gtid]
    text is the textual form of exactly that transaction: parsing it with
    [Gtid] gives the event's SID, as a UUID, and the one transaction number. *)
Theorem gtid_event_roundtrip (flag gno lt lc sn : Z) (sid : bytes) (mysql_version : list Z) :
  version_geb mysql_version [5; 7] = true ->
  length sid = 16%nat -> bytes_ok sid -> 0 <= gno < 2 ^ 63 -> 0 <= lc < 2 ^ 64 -> 0 <= sn < 2 ^ 64 ->
  let e := mkGtidEvent (flag =? 1) sid gno lt (Some lc) (Some sn) in
  parses (P:=P) (read_gtid_event mysql_version) (encode_gtid_event flag sid gno lt lc sn) e /\
  gtid_of_string (ge_gtid e) = Ok (mkGtid (uuid_text sid) [(gno, gno + 1)]).
Proof. apply gtid_event_parsed. Qed.
End gtid_event.

(** *** Query events *)

Section query_event.
Context {P : Type} `{MysqlPacketLaws P}.

(** Status variables with the bytes of their values. *)
Definition var_bytes (vars : list (Z * status_value * bytes)) : bytes :=
  mjoin (map (fun x => x.1.1 :: x.2) vars).

(** The bytes of each variable are those its key announces. *)
Definition vars_ok (vars : list (Z * status_value * bytes)) : Prop :=
  Forall (fun x => parses (P:=P) (read_status_vars_value_for_key x.1.1) x.2 x.1.2) vars.

Lemma status_vars_loop vars fuel end_pos (w : wrapper P) rest :
  vars_ok vars -> (length vars < fuel)%nat -> data_buffer w = [] ->
  stream w = (var_bytes vars ++ rest)%list -> end_pos = read_bytes w + zlen (var_bytes vars) ->
  exists w', read_status_vars fuel end_pos w = (Ok (map fst vars), w') /\ data_buffer w' = [] /\
    step_to w (zlen (var_bytes vars)) rest w'.
Proof.
  intros Hok. revert fuel w. induction Hok as [|[[k v] bs] vars Hp Hok IH]; intros fuel w Hf Hb Hs He;
    (destruct fuel as [|fuel]; [cbn in Hf; lia|]); cbn [read_status_vars]; rewrite st_bind_eq; cbn [st_get].
  - change (var_bytes []) with ([] : bytes) in *. rewrite zlen_nil in *. destruct (Z.ltb_spec (read_bytes w) end_pos); [lia|].
    exists w. split; [done|]. split; [done|]. split; [done|]. split; [lia|apply same_header_refl].
  - change (var_bytes ((k, v, bs) :: vars)) with ([k] ++ (bs ++ var_bytes vars))%list in *.
    rewrite !zlen_app in *. pose proof (zlen_nonneg bs). pose proof (zlen_nonneg (var_bytes vars)).
    change (zlen [k]) with 1 in *. destruct (Z.ltb_spec (read_bytes w) end_pos); [|lia].
    rewrite <- !app_assoc in Hs.
    destruct (parses_read_uint8 k w _ Hb Hs) as (w1 & E1 & B1 & S1). rewrite st_bind_eq, E1.
    destruct (Hp w1 _ B1 (proj1 S1)) as (w2 & E2 & B2 & S2). cbn in E2. rewrite st_bind_eq, E2.
    destruct (IH fuel w2) as (w3 & E3 & B3 & S3); [cbn in Hf; lia|done|apply S2| |].
    { destruct S1 as (_ & R1 & _), S2 as (_ & R2 & _). cbn in R2. change (zlen [k]) with 1 in R1. lia. }
    rewrite st_bind_eq, E3. exists w3. split; [done|]. split; [done|].
    eapply step_to_trans; [exact S1|]. by eapply step_to_trans.
Qed.

Lemma parses_status_block vars n :
  vars_ok vars -> zlen (var_bytes vars) = n -> parses (P:=P) (read_status_block n) (var_bytes vars) (map fst vars).
Proof.
  intros Hok <- w rest Hb Hs. unfold read_status_block. rewrite st_bind_eq. cbn [st_get].
  apply status_vars_loop; try done. pose proof (read_fuel_stream w) as Hf. rewrite Hs, length_app in Hf.
  assert (length vars <= length (var_bytes vars))%nat; [|lia]. clear.
  induction vars as [|x vars IH]; [done|].
  change (var_bytes (x :: vars)) with (x.1.1 :: (x.2 ++ var_bytes vars))%list.
  cbn [length]. rewrite length_app. lia.
Qed.

Definition encode_query_event (pid et ec : Z) (vars : list (Z * status_value * bytes)) (schema query : bytes) : bytes :=
  (le_encode 4 pid ++ le_encode 4 et ++ [zlen schema] ++ le_encode 2 ec ++
   le_encode 2 (zlen (var_bytes vars)) ++ var_bytes vars ++ schema ++ [0] ++ query)%list.

Lemma query_event_parsed (pid et ec : Z) (vars : list (Z * status_value * bytes)) (schema query : bytes) (qs : string) :
  0 <= pid < 2 ^ 32 -> 0 <= et < 2 ^ 32 -> 0 <= ec < 2 ^ 16 ->
  vars_ok vars -> zlen (var_bytes vars) < 2 ^ 16 ->
  utf8_decode ErrBackslashReplace query = Ok qs ->
  let body := encode_query_event pid et ec vars schema query in
  parses (P:=P) (read_query_event (zlen body)) body
    (mkQueryEvent pid et (zlen schema) ec (zlen (var_bytes vars)) (map fst vars) schema qs).
Proof.
  intros Hpid Het Hec Hok Hlen Hqs body.
  assert (zlen body - 13 - zlen (var_bytes vars) - zlen schema - 1 = zlen query) as Hq.
  { unfold body, encode_query_event. rewrite !zlen_app, !zlen_le_encode.
    change (zlen [zlen schema]) with 1. change (zlen [0]) with 1. lia. }
  unfold read_query_event. unfold body at 2, encode_query_event. pose proof (zlen_nonneg (var_bytes vars)).
  eapply parses_bind; [by apply parses_uint|]. eapply parses_bind; [by apply parses_uint|].
  eapply parses_bind; [apply parses_read_uint8|]. eapply parses_bind; [by apply parses_uint|].
  eapply parses_bind; [apply parses_uint; [done|change (256 ^ Z.of_nat 2) with (2 ^ 16); lia]|].
  eapply parses_bind; [by apply parses_status_block|].
  eapply parses_bind; [by apply parses_read|].
  eapply parses_bind; [by apply parses_advance|].
  rewrite Hq. eapply parses_bind_pure; [by apply parses_read|]. intros w.
  rewrite st_bind_eq. unfold st_lift. by rewrite Hqs.
Qed.

End query_event.

(** *** Witnesses *)

Definition ex_packet : bytes := map Z.of_nat (seq 0 24) ++ le_encode 4 (crc32 (map Z.of_nat (seq 1 23))).

Lemma verify_event_neutral_witness :
  exists w w', pk_position (packet w) = 20 /\ pk_data (packet w) = ex_packet /\
    verify_event true 4 w = (Ok (Some true), w') /\ stream w' = stream w.
Proof.
  pose (w := mkWrapper 0 [] (mkPacket ex_packet 20 eq_refl) 0 0 0 0 0 0).
  destruct (verify_event_neutral w 4) as (w' & E & S & _); [reflexivity|reflexivity| |lia|vm_compute; discriminate|].
  - apply (bool_decide_unpack _). vm_compute. exact I.
  - exists w, w'. split; [reflexivity|]. split; [reflexivity|]. split; [|exact S]. rewrite E. vm_compute. reflexivity.
Defined.

Definition ex_sid_bytes : bytes := [0x57; 0xb7; 0x0f; 0x4e; 0x20; 0xd3; 0x11; 0xe5; 0xa3; 0x93; 0x4a; 0x63; 0x94; 0x6f; 0x7e; 0xac].

Lemma gtid_event_roundtrip_witness :
  parses (P:=list_packet) (read_gtid_event [8; 0; 30]) (encode_gtid_event 1 ex_sid_bytes 23 2 5 6)
    (mkGtidEvent true ex_sid_bytes 23 2 (Some 5) (Some 6)) /\
  gtid_of_string "57b70f4e-20d3-11e5-a393-4a63946f7eac:23" = Ok (mkGtid "57b70f4e-20d3-11e5-a393-4a63946f7eac" [(23, 24)]).
Proof.
  apply (gtid_event_roundtrip (P:=list_packet) 1 23 2 5 6 ex_sid_bytes [8; 0; 30]); try lia; try reflexivity.
  apply (bool_decide_unpack _). vm_compute. exact I.
Defined.

Definition ex_vars : list (Z * status_value * bytes) := [(0x00, SvInts [7], [7; 0; 0; 0])].


(** The text of a [PreviousGtidsEvent] is not a GTID set: there is a hyphen
    before the colon and the intervals are printed as a Python list. *)
Example previous_gtids_text :
  fst (read_previous_gtids (wrap_bytes (le_encode 8 1 ++ ex_sid_bytes ++ le_encode 8 1 ++ le_encode 8 1 ++ le_encode 8 5)))
  = Ok "57b70f4e-20d3-11e5-a393-4a63946f7eac-:['1-5']".
Proof. vm_compute. reflexivity. Qed.

(** With checksum verification on, every element of a MariaDB GTID list is
    read from the start of the body again, the length included. *)
Example mariadb_list_verified :
  let body := (le_encode 4 2 ++ le_encode 4 0 ++ le_encode 4 1 ++ le_encode 8 7 ++ le_encode 4 0 ++ le_encode 4 1 ++ le_encode 8 8)%list in
  let w := mkWrapper 0 [] (mkPacket (repeat 0 20 ++ body ++ repeat 0 4)%list 20 eq_refl) 0 0 0 0 0 0 in
  fst (read_mariadb_gtid_list false 36 w) = Ok ["0-1-7"; "0-1-8"] /\
  fst (read_mariadb_gtid_list true 36 w) = Ok ["2-0-30064771073"; "2-0-30064771073"].
Proof. vm_compute. done. Qed.
