(* ===== verification/RowValues.v ===== *)
(** * Column values

    The readers of [RowsEvent] in [pymysqlreplication/row_event.py] that
    decode one column value.  [datetime] arithmetic, [decimal] and [struct]
    are those of [Values] and [PyBytes].  The character sets of MySQL
    ([pymysql.charset]) and Python's codecs other than UTF-8 are not part of
    the repository: they are the fields of the parameter [codecs]. *)

From stdpp Require Import base list strings sets.
From Stdlib Require Import ZArith Lia Ascii.
From S2P Require Import Prelude PyBytes PyStr Values UtilBytes Packet Column Bitmap JsonBinary.
Open Scope string_scope.
Open Scope Z_scope.

(** [charset_by_name(name).encoding] and [bytes.decode(encoding, errors)],
    which raises [LookupError] for an encoding Python does not have. *)
Record codecs := mkCodecs {
  encoding_of : string -> option string;
  decode : string -> decode_errors -> bytes -> result string
}.

Section readers.
Context {P : Type} `{MysqlPacket P} (cd : codecs) (ignore_decode_errors : bool).

(** A size reader that returned [None] makes the arithmetic raise. *)
Definition need (o : option Z) : PM P Z := st_lift (of_option TypeError o).

Definition read_attr {A} (o : option A) : PM P A := st_lift (attr o).

(** [RowsEvent._is_null] *)
Definition row_is_null (null_bitmap : bytes) (position : Z) : result bool :=
  bit ← py_index null_bitmap (Z.quot position 8);
  Ok (negb (Z.land bit (Z.shiftl 1 (position mod 8)) =? 0)).

Definition read_binary_slice (binary start size data_length : Z) : Z :=
  Z.land (Z.shiftr binary (data_length - (start + size))) (Z.shiftl 1 size - 1).

Definition read_fsp (column : Column) : PM P Z :=
  f ← read_attr (fsp column);
  let read := if (f =? 1) || (f =? 2) then 1
              else if (f =? 3) || (f =? 4) then 2
              else if (f =? 5) || (f =? 6) then 3 else 0 in
  if 0 <? read then
    o ← read_int_be_by_size read;
    us ← need o;
    let us := if f mod 2 =? 0 then us else Z.quot us 10 in
    mret (us * 10 ^ (6 - f))
  else mret 0.

(** [time.replace(microsecond=us)] *)
Definition replace_microsecond (v : pyval) (us : Z) : result pyval :=
  match v with
  | VDatetime y m d h mi s _ => mk_datetime y m d h mi s us
  | _ => Err AttributeError
  end.

Definition add_fsp_to_time (time : pyval) (column : Column) : PM P pyval :=
  us ← read_fsp column;
  if 0 <? us then st_lift (replace_microsecond time us) else mret time.

Definition charset_to_encoding (name : string) : string := default name (encoding_of cd name).

(** The decoding in [RowsEvent.__read_string]: an encoding Python does not
    have leaves the bytes as they are. *)
Definition decode_text (column : Column) (bs : bytes) : result pyval :=
  let errors := if ignore_decode_errors then ErrIgnore else ErrStrict in
  match character_set_name column with
  | Some cs =>
      match decode cd (charset_to_encoding cs) errors bs with
      | Ok s => Ok (VStr s)
      | Err LookupError => Ok (VBytes bs)
      | Err e => Err e
      end
  | None => VStr <$> utf8_decode errors bs
  end.

(** [RowsEvent.__read_string] *)
Definition read_string_value (size : Z) (column : Column) : PM P pyval :=
  bs ← read_length_coded_pascal_string size;
  st_lift (decode_text column bs).

(** [for bit in range(0, end)], then [current_byte[::-1]]: the [end] low bits,
    most significant first. *)
Fixpoint low_bits (n : nat) (data : Z) : string :=
  match n with
  | O => ""
  | S n' => String (if Z.testbit data (Z.of_nat n') then "1" else "0") (low_bits n' data)
  end.

Fixpoint read_bit_loop (todo : nat) (first : bool) (bits bytes_ : Z) (resp : string) : PM P string :=
  match todo with
  | O => mret resp
  | S todo' =>
      data ← read_uint8;
      let end_ := if first then if bytes_ =? 1 then bits
                                else if bits mod 8 =? 0 then 8 else bits mod 8
                  else 8 in
      read_bit_loop todo' false bits bytes_ (resp ++ low_bits (Z.to_nat end_) data)
  end.

(** [RowsEvent.__read_bit] *)
Definition read_bit (column : Column) : PM P pyval :=
  b ← read_attr (col_bytes column); n ← read_attr (bits column);
  s ← read_bit_loop (Z.to_nat b) true n b ""; mret (VStr s).

Definition read_time : PM P pyval :=
  time ← read_uint24;
  mret (mk_timedelta (Z.quot time 10000) (Z.quot (time mod 10000) 100) (time mod 100) 0).

(** [RowsEvent.__read_time2] *)
Definition read_time2 (column : Column) : PM P pyval :=
  o ← read_int_be_by_size 3; data ← need o;
  let sign := if read_binary_slice data 0 1 24 =? 0 then -1 else 1 in
  let data := if sign =? -1 then Z.lnot data + 1 else data in
  us ← read_fsp column;
  match mk_timedelta (read_binary_slice data 2 10 24) (read_binary_slice data 12 6 24)
                     (read_binary_slice data 18 6 24) us with
  | VTimedelta t => mret (VTimedelta (t * sign))
  | v => mret v
  end.

(** [RowsEvent.__read_date] *)
Definition read_date (raw : Z) : result pyval :=
  if raw =? 0 then Ok VNone
  else
    let year := Z.shiftr (Z.land raw (Z.shiftl (Z.shiftl 1 15 - 1) 9)) 9 in
    let month := Z.shiftr (Z.land raw (Z.shiftl (Z.shiftl 1 4 - 1) 5)) 5 in
    let day := Z.land raw (Z.shiftl 1 5 - 1) in
    if (year =? 0) || (month =? 0) || (day =? 0) then Ok VNone else mk_date year month day.

(** [RowsEvent.__read_datetime2] *)
Definition read_datetime2 (column : Column) (data : Z) : PM P pyval :=
  let year_month := read_binary_slice data 1 17 40 in
  match mk_datetime (Z.quot year_month 13) (year_month mod 13) (read_binary_slice data 18 5 40)
                    (read_binary_slice data 23 5 40) (read_binary_slice data 28 6 40)
                    (read_binary_slice data 34 6 40) 0 with
  | Ok t => add_fsp_to_time t column
  | Err ValueError => read_fsp column ;; mret VNone
  | Err e => st_raise e
  end.

(** Nine digits per big-endian [int32]. *)
Fixpoint read_decimal_groups (n : nat) (mask : Z) (res : string) : PM P string :=
  match n with
  | O => mret res
  | S n' =>
      bs ← read 4; v ← st_lift (unpack_sbe 4 bs);
      read_decimal_groups n' mask (res ++ fmt_zero 9 (Z.lxor v mask))
  end.

(** The digits of a decimal after its sign bit has been taken off. *)
Definition read_decimal_digits (res : string) (mask uncomp_integral comp_integral uncomp_fractional comp_fractional : Z)
  : PM P pyval :=
  size ← st_lift (py_index compressed_bytes comp_integral);
  res ← (if 0 <? size then
           o ← read_int_be_by_size size; v ← need o; mret (res ++ str_of_Z (Z.lxor v mask))
         else mret res);
  res ← read_decimal_groups (Z.to_nat uncomp_integral) mask res;
  res ← read_decimal_groups (Z.to_nat uncomp_fractional) mask (res ++ ".");
  size ← st_lift (py_index compressed_bytes comp_fractional);
  res ← (if 0 <? size then
           o ← read_int_be_by_size size; v ← need o;
           mret (res ++ fmt_zero (Z.to_nat comp_fractional) (Z.lxor v mask))
         else mret res);
  st_lift (decimal_of_str res).

(** [RowsEvent.__read_new_decimal] *)
Definition read_new_decimal (column : Column) : PM P pyval :=
  precision ← read_attr (precision column); decimals ← read_attr (decimals column);
  let integral := precision - decimals in
  let uncomp_integral := Z.quot integral 9 in
  let uncomp_fractional := Z.quot decimals 9 in
  let comp_integral := integral - uncomp_integral * 9 in
  let comp_fractional := decimals - uncomp_fractional * 9 in
  value ← read_uint8;
  let '(res, mask) := if negb (Z.land value 0x80 =? 0) then ("", 0) else ("-", -1) in
  pushed ← st_lift (pack_ule 1 (Z.lxor value 0x80));
  unread pushed ;;
  read_decimal_digits res mask uncomp_integral comp_integral uncomp_fractional comp_fractional.

Definition read_enum (column : Column) : PM P pyval :=
  sz ← read_attr (size column);
  match enum_values column with
  | Some ((_ :: _) as vals) =>
      o ← read_uint_by_size sz; i ← need o;
      v ← st_lift (py_index vals i); mret (VStr v)
  | _ => read_uint_by_size sz ;; mret VNone
  end.

(** The elements of a [SET] whose bit is set. *)
Fixpoint set_members (idx : Z) (vals : list string) (mask : Z) : list string :=
  match vals with
  | [] => []
  | v :: vals' =>
      if Z.land mask (Z.shiftl 1 idx) =? 0 then set_members (idx + 1) vals' mask
      else v :: set_members (idx + 1) vals' mask
  end.

(** The value of a [JSON] column. *)
Definition json_cell_val (c : option json_cell) : pyval :=
  match c with
  | None => VNone
  | Some (JsonValue v) => v
  | Some (JsonPatch d) => VJsonDiff (match op d with Replace => 0 | Insert => 1 | Remove => 2 end) (path d) (value d)
  end.
End readers.
