(* ===== verification/RowDecimal.v ===== *)
(** * DECIMAL columns

    [RowsEvent.__read_new_decimal] reads the first byte of a decimal, pushes
    it back with the sign bit flipped and reads on.  This file gives the
    readers their specification in the presence of pushed-back bytes and
    shows that a decimal written in MySQL's binary format
    ([UtilBytes.decimal_encode]) is read back. *)

From stdpp Require Import base list strings sets.
From Stdlib Require Import ZArith Lia Ascii.
From S2P Require Import Prelude PyBytes PyStr Values UtilBytes Packet Column RowValues.
Open Scope string_scope.
Open Scope Z_scope.
Open Scope list_scope.

Section buffered.
Context {P : Type} `{MysqlPacketLaws P}.

(** [parses] without the assumption that nothing was pushed back: the bytes
    consumed come from the buffer first. *)
Definition bparses {A} (m : PM P A) (bs : bytes) (a : A) : Prop :=
  forall w rest, stream w = (bs ++ rest)%list ->
    exists w', m w = (Ok a, w') /\
      (length (data_buffer w') <= length (data_buffer w) - length bs)%nat /\
      step_to w (zlen bs) rest w'.

Lemma bparses_parses {A} (m : PM P A) bs a : bparses m bs a -> parses m bs a.
Proof.
  intros Hm w rest Hb Hw. destruct (Hm w rest Hw) as (w' & E & Hl & S').
  exists w'. split; [done|]. split; [|done]. rewrite Hb in Hl. cbn in Hl.
  destruct (data_buffer w'); [done|cbn in Hl; lia].
Qed.

Lemma bparses_ret {A} (a : A) : bparses (mret a) [] a.
Proof.
  intros w rest Hw. exists w. split; [done|]. cbn. split; [lia|]. split; [done|].
  split; [unfold zlen; cbn; lia|apply same_header_refl].
Qed.

Lemma bparses_bind {A B} (m : PM P A) (f : A -> PM P B) b1 b2 a b :
  bparses m b1 a -> bparses (f a) b2 b -> bparses (mbind f m) (b1 ++ b2) b.
Proof.
  intros Hm Hf w rest Hw. rewrite <- app_assoc in Hw.
  destruct (Hm w _ Hw) as (w1 & E1 & B1 & S1). destruct (Hf w1 rest (proj1 S1)) as (w2 & E2 & B2 & S2).
  exists w2. rewrite st_bind_eq, E1. split; [done|]. rewrite length_app. split; [lia|]. rewrite zlen_app.
  by eapply step_to_trans.
Qed.

Lemma bparses_lift {A B} (r : result A) (f : A -> PM P B) a bs b :
  r = Ok a -> bparses (f a) bs b -> bparses (mbind f (st_lift r)) bs b.
Proof. intros -> Hf w rest Hw. rewrite st_bind_eq. by apply Hf. Qed.

Lemma read_buffer_length n w :
  0 <= n <= zlen (stream w) -> length (data_buffer (snd (read n w))) = (length (data_buffer w) - Z.to_nat n)%nat.
Proof.
  intros Hn. unfold read. destruct (Z.ltb_spec 0 (zlen (data_buffer w))) as [Hp|Hp].
  - assert (length (slice_from (data_buffer w) n) = (length (data_buffer w) - Z.to_nat n)%nat) as E.
    { unfold slice_from. destruct (Z.ltb_spec n 0); [lia|]. by rewrite length_drop. }
    destruct (_ =? _); [done|]. by destruct (pk_read _ _) as [[??]|].
  - unfold zlen in Hp. destruct (data_buffer w) eqn:Hb; [|cbn in Hp; lia].
    by destruct (pk_read _ _) as [[??]|].
Qed.

Lemma bparses_read n bs : zlen bs = n -> bparses (read n) bs bs.
Proof.
  intros <- w rest Hw. pose proof (zlen_nonneg bs). pose proof (zlen_nonneg rest).
  assert (0 <= zlen bs <= zlen (stream w)) as Hr by (rewrite Hw, zlen_app; lia).
  destruct (read_stream w (zlen bs) Hr) as (w' & E & S'). exists w'.
  pose proof (read_buffer_length (zlen bs) w Hr) as Hb'. rewrite E in Hb'. cbn in Hb'.
  unfold zlen in *. rewrite Hw, Nat2Z.id, take_app_length, drop_app_length in *.
  split; [done|]. split; [lia|done].
Qed.

(** A reader that is [read] followed by a computation on the bytes. *)
Lemma bparses_read_pure {A} n (f : bytes -> PM P A) bs a :
  zlen bs = n -> (forall w, f bs w = (Ok a, w)) -> bparses (mbind f (read n)) bs a.
Proof.
  intros Hn Hf. rewrite <- (app_nil_r bs). eapply bparses_bind; [by apply bparses_read|].
  intros w rest Hw. exists w. rewrite Hf. split; [done|]. cbn. split; [lia|].
  split; [done|]. split; [unfold zlen; cbn; lia|apply same_header_refl].
Qed.

Lemma bparses_some (m : PM P Z) bs z : bparses m bs z -> bparses (z ← m; mret (Some z)) bs (Some z).
Proof. intros Hm. pose proof (bparses_bind m (fun z => mret (Some z)) bs [] z (Some z) Hm (bparses_ret _)) as Hb. by rewrite app_nil_r in Hb. Qed.

(** Pushing a byte back and reading it again with what follows. *)
Lemma parses_unread {A} (m : PM P A) b bs a : bparses m (b :: bs) a -> parses (unread [b] ;; m) bs a.
Proof.
  intros Hm w rest Hb Hw. destruct (unread_stream [b] w) as (w1 & E1 & B1 & S1). specialize (S1 Hb).
  rewrite Hb in B1. rewrite Hw in S1. destruct (Hm w1 rest (proj1 S1)) as (w2 & E2 & B2 & S2).
  exists w2. rewrite st_bind_eq, E1. split; [done|]. rewrite B1 in B2. cbn in B2.
  split; [destruct (data_buffer w2); [done|cbn in B2; lia]|].
  replace (zlen bs) with (- zlen [b] + zlen (b :: bs)) by (unfold zlen; cbn [length]; lia).
  by eapply step_to_trans.
Qed.

(** ** Big-endian signed integers of one to four bytes *)

Lemma bparses_read_int_be (size : nat) bs :
  (1 <= size <= 4)%nat -> length bs = size -> bytes_ok bs ->
  bparses (read_int_be_by_size (Z.of_nat size)) bs (Some (to_signed (8 * Z.of_nat size) (be_decode bs))).
Proof.
  intros Hs Hl Hok. assert (zlen bs = Z.of_nat size) as Hz by (unfold zlen; lia).
  destruct size as [|[|[|[|[|]]]]]; try lia; unfold read_int_be_by_size; cbn [Z.of_nat Pos.of_succ_nat Pos.succ Z.eqb Pos.eqb].
  3: { unfold read_int24_be. destruct (int24_be_value bs Hl Hok) as (a & b & c & E & Hv).
       apply bparses_some, bparses_read_pure; [done|]. intros w. unfold mbind, ST_bind, st_lift.
       rewrite E. change (8 * _) with 24. by rewrite <- Hv. }
  all: apply bparses_read_pure; [done|]; intros w; unfold st_lift, unpack_sbe, unpack_ube;
    rewrite decide_True by done; done.
Qed.

(** ** Digit groups *)

Lemma masked_value neg n v :
  (0 < n)%nat -> 0 <= v < 128 * 256 ^ Z.of_nat (pred n) ->
  Z.lxor (to_signed (8 * Z.of_nat n) (be_decode (map (mask_byte neg) (be_encode n v)))) (sign_mask neg) = v.
Proof.
  intros Hn Hv. unfold be_decode, be_encode. rewrite <- map_rev, rev_involutive.
  assert (2 ^ (8 * Z.of_nat n - 1) = 128 * 256 ^ Z.of_nat (pred n)) as Hhalf.
  { replace (8 * Z.of_nat n - 1) with (7 + 8 * Z.of_nat (pred n)) by lia.
    rewrite Z.pow_add_r, Z.pow_mul_r by lia. done. }
  assert (256 ^ Z.of_nat n = 2 * (128 * 256 ^ Z.of_nat (pred n))) as Hfull.
  { replace (Z.of_nat n) with (Z.succ (Z.of_nat (pred n))) by lia. rewrite Z.pow_succ_r by lia. lia. }
  assert (2 ^ (8 * Z.of_nat n) = 256 ^ Z.of_nat n) as Htop by (rewrite Z.pow_mul_r by lia; done).
  unfold to_signed. rewrite Htop, Hhalf. destruct neg; cbn [sign_mask].
  - rewrite le_decode_complement, zlen_le_encode, le_decode_encode by lia.
    match goal with |- context [?a <? ?b] => destruct (Z.ltb_spec a b) end; [lia|].
    rewrite Z.lxor_m1_r. unfold Z.lnot. lia.
  - rewrite (map_ext (mask_byte false) id), map_id by done. rewrite le_decode_encode by lia.
    destruct (Z.ltb_spec v (128 * 256 ^ Z.of_nat (pred n))); [|lia]. apply Z.lxor_0_r.
Qed.

Lemma masked_ok neg n v : bytes_ok (map (mask_byte neg) (be_encode n v)).
Proof. apply Forall_map. eapply Forall_impl; [apply be_encode_ok|]. intros b. apply mask_byte_ok. Qed.

(** The leading or trailing digits, in [group_size k] bytes. *)
Lemma bparses_compressed {A} neg k v (f : Z -> PM P A) (bs : bytes) a :
  0 < k < 9 -> 0 <= v < 10 ^ k ->
  (forall u, Z.lxor u (sign_mask neg) = v -> bparses (f u) bs a) ->
  bparses (o ← read_int_be_by_size (Z.of_nat (group_size k)); u ← need o; f u)
    (map (mask_byte neg) (be_encode (group_size k) v) ++ bs) a.
Proof.
  intros Hk Hv Hf. destruct (group_size_spec k ltac:(lia)) as (Hs & _ & Hp). destruct Hp as [Hp Hb]; [lia|].
  assert (group_size k <= 4)%nat by (clear -Hk; assert (k = 1 \/ k = 2 \/ k = 3 \/ k = 4 \/ k = 5 \/ k = 6 \/ k = 7 \/ k = 8)
    as Hc by lia; repeat destruct Hc as [->|Hc]; try subst k; vm_compute; lia).
  eapply bparses_bind.
  - apply bparses_read_int_be; [lia|by rewrite length_map, be_encode_length|apply masked_ok].
  - eapply bparses_lift; [done|]. apply Hf, masked_value; lia.
Qed.

Lemma bparses_groups neg n v res :
  0 <= v < 10 ^ (9 * Z.of_nat n) ->
  bparses (read_decimal_groups n (sign_mask neg) res) (map (mask_byte neg) (encode_groups n v)) (res ++ group_text n v)%string.
Proof.
  revert v res. induction n as [|n IH]; intros v res Hv.
  - cbn. rewrite str_app_nil_r. apply bparses_ret.
  - apply group_bounds in Hv as [Hq Hr]. cbn [read_decimal_groups encode_groups group_text].
    rewrite map_app. destruct (unpack_group neg (v / 10 ^ (9 * Z.of_nat n)) Hq) as (u & Hu & Hx).
    eapply bparses_bind; [apply bparses_read; unfold zlen; by rewrite length_map, be_encode_length|].
    eapply bparses_lift; [exact Hu|]. rewrite Hx, <- str_app_assoc. by apply IH.
Qed.

(** ** A decimal in four pieces *)

Section pieces.
Context (neg : bool) (ui uf : nat) (ci cf hi lo fh fl : Z).
Hypothesis Hci : 0 <= ci < 9.
Hypothesis Hcf : 0 <= cf < 9.
Hypothesis Hhi : 0 <= hi < 10 ^ ci.
Hypothesis Hlo : 0 <= lo < 10 ^ (9 * Z.of_nat ui).
Hypothesis Hfh : 0 <= fh < 10 ^ (9 * Z.of_nat uf).
Hypothesis Hfl : 0 <= fl < 10 ^ cf.
Hypothesis Hsome : 0 < ci + Z.of_nat ui + Z.of_nat uf + cf.

Let head_text : string := if decide (ci = 0) then "" else dec_nonneg hi.
Let fraction : string :=
  (group_text uf fh ++ (if (0 <? Z.of_nat (group_size cf))%Z then fmt_zero (Z.to_nat cf) fl else ""))%string.

Lemma group_size_pos k : 0 <= k < 9 -> (0 <? Z.of_nat (group_size k)) = negb (k =? 0).
Proof.
  intros Hk. destruct (group_size_spec k Hk) as (_ & _ & Hp). destruct (Z.eqb_spec k 0) as [->|]; [done|].
  destruct Hp; [lia|]. apply Z.ltb_lt. lia.
Qed.

Lemma digits_parsed (res : string) (val : pyval) :
  decimal_of_str (res ++ (head_text ++ group_text ui lo) ++ "." ++ fraction)%string = Ok val ->
  bparses (read_decimal_digits res (sign_mask neg) (Z.of_nat ui) ci (Z.of_nat uf) cf)
    (map (mask_byte neg) (be_encode (group_size ci) hi ++
      (encode_groups ui lo ++ (encode_groups uf fh ++ be_encode (group_size cf) fl)))) val.
Proof.
  intros Hval. unfold read_decimal_digits. rewrite !map_app, !Nat2Z.id.
  eapply bparses_lift; [apply (group_size_spec ci Hci)|]. rewrite (group_size_pos ci Hci).
  eapply bparses_bind with (a := (res ++ head_text)%string).
  { unfold head_text. destruct (Z.eqb_spec ci 0) as [E|E]; cbn [negb].
    - rewrite decide_True by done. rewrite E, str_app_nil_r. apply bparses_ret.
    - rewrite decide_False by done. rewrite <- (app_nil_r (map _ _)).
      apply bparses_compressed; [lia|done|]. intros u ->. rewrite str_of_Z_nonneg by lia. apply bparses_ret. }
  eapply bparses_bind; [by apply bparses_groups|]. eapply bparses_bind; [by apply bparses_groups|].
  eapply bparses_lift; [apply (group_size_spec cf Hcf)|].
  rewrite <- (app_nil_r (map _ (be_encode _ fl))).
  assert (forall s, decimal_of_str s = Ok val -> bparses (st_lift (decimal_of_str s)) [] val) as Hend.
  { intros s ->. apply bparses_ret. }
  eapply bparses_bind; [|apply Hend, Hval].
  unfold fraction. rewrite (group_size_pos cf Hcf). destruct (Z.eqb_spec cf 0) as [E|E]; cbn [negb].
  - rewrite E, str_app_nil_r, !str_app_assoc. apply bparses_ret.
  - rewrite <- (app_nil_r (map _ _)). apply bparses_compressed; [lia|done|]. intros u ->.
    rewrite !str_app_assoc. apply bparses_ret.
Qed.

Lemma head_text_spec :
  str_forallb is_digit head_text = true /\ digits_value 0 head_text = hi /\ (0 < ci -> head_text <> "").
Proof.
  unfold head_text. case_decide as E.
  - rewrite E in Hhi. cbn in Hhi. repeat split; [cbn; lia|lia].
  - destruct (dec_nonneg_spec hi) as (Hne & Hd & Hv); [lia|]. done.
Qed.

Lemma pieces_value :
  decimal_of_str ((if neg then "-" else "") ++ (head_text ++ group_text ui lo) ++ "." ++ fraction)%string =
  Ok (VDecimal neg ((hi * 10 ^ (9 * Z.of_nat ui) + lo) * 10 ^ (9 * Z.of_nat uf + cf) + (fh * 10 ^ cf + fl))
               (- (9 * Z.of_nat uf + cf))).
Proof.
  destruct head_text_spec as (Hhd & Hhv & Hhne). destruct (group_text_spec ui lo Hlo) as (Hgd & Hgl & Hgv).
  destruct (fraction_text ui uf ci cf hi lo fh fl) as (Hfd & Hflen & Hfv); [done..|]. fold fraction in Hfd, Hflen, Hfv.
  rewrite decimal_of_str_spec; [|by rewrite str_forallb_app, Hhd, Hgd|done|].
  - rewrite !digits_value_app, Hhv, (digits_value_shift hi), Hgv, Hgl, digits_value_shift, Hfv, Hflen.
    replace (Z.of_nat (9 * ui)) with (9 * Z.of_nat ui) by lia.
    by replace (Z.of_nat (9 * uf + Z.to_nat cf)) with (9 * Z.of_nat uf + cf) by lia.
  - intros E. apply (f_equal String.length) in E. rewrite !str_length_app, Hgl, Hflen in E. cbn in E.
    destruct (decide (0 < ci)) as [Hp|Hp]; [|lia]. apply Hhne in Hp. destruct head_text; [done|cbn in E; lia].
Qed.

Lemma pushed_byte b :
  0 <= b < 128 -> pack_ule 1 (Z.lxor (Z.lxor (mask_byte neg b) 0x80) 0x80) = Ok [mask_byte neg b].
Proof.
  intros Hb. rewrite Z.lxor_assoc, Z.lxor_nilpotent, Z.lxor_0_r.
  pose proof (mask_byte_ok neg b ltac:(unfold byte_ok; lia)) as Hm. unfold byte_ok in Hm.
  unfold pack_ule. replace ((0 <=? mask_byte neg b) && (mask_byte neg b <? 256 ^ Z.of_nat 1)) with true
    by (change (256 ^ Z.of_nat 1) with 256; symmetry; apply andb_true_intro; lia).
  cbn. by rewrite Z.mod_small by lia.
Qed.

Lemma decimal_pieces_parsed column :
  precision column = Some (9 * Z.of_nat ui + ci + (9 * Z.of_nat uf + cf)) ->
  decimals column = Some (9 * Z.of_nat uf + cf) ->
  parses (read_new_decimal column)
    (flip_sign (map (mask_byte neg) (be_encode (group_size ci) hi ++
      (encode_groups ui lo ++ (encode_groups uf fh ++ be_encode (group_size cf) fl)))))
    (VDecimal neg ((hi * 10 ^ (9 * Z.of_nat ui) + lo) * 10 ^ (9 * Z.of_nat uf + cf) + (fh * 10 ^ cf + fl))
              (- (9 * Z.of_nat uf + cf))).
Proof.
  intros Hp Hd. pose proof (digits_parsed _ _ pieces_value) as Hdig.
  destruct (body_head ui uf ci cf hi lo fh fl) as (b & r & Hbody & Hb); [done..|].
  destruct (flip_sign_masked neg b Hb) as [Hneg _].
  unfold read_new_decimal. rewrite Hp, Hd. eapply parses_lift_ok; [done|].
  eapply parses_lift_ok; [done|].
  replace (9 * Z.of_nat ui + ci + (9 * Z.of_nat uf + cf) - (9 * Z.of_nat uf + cf)) with (Z.of_nat ui * 9 + ci) by lia.
  replace (Z.quot (Z.of_nat ui * 9 + ci) 9) with (Z.of_nat ui)
    by (rewrite Z.quot_div_nonneg, Z.div_add_l, Z.div_small by lia; lia).
  replace (Z.quot (9 * Z.of_nat uf + cf) 9) with (Z.of_nat uf)
    by (rewrite Z.quot_div_nonneg by lia; apply (Z.div_unique _ 9 _ cf); lia).
  replace (Z.of_nat ui * 9 + ci - Z.of_nat ui * 9) with ci by lia.
  replace (9 * Z.of_nat uf + cf - Z.of_nat uf * 9) with cf by lia.
  rewrite Hbody in *. cbn [map flip_sign] in *.
  eapply (parses_bind _ _ [Z.lxor (mask_byte neg b) 0x80]); [apply parses_read_uint8|]. rewrite Hneg.
  replace (if negb neg then ("", 0) else ("-", -1)) with (if neg then "-" else "", sign_mask neg) by (by destruct neg).
  cbn beta iota zeta. apply parses_lift_ok with (a := [mask_byte neg b]); [by apply pushed_byte|].
  by apply parses_unread.
Qed.
End pieces.

Lemma decimal_parsed (column : Column) (neg : bool) (p d c : Z) :
  precision column = Some p -> decimals column = Some d ->
  0 <= d <= p -> 0 < p -> 0 <= c < 10 ^ p ->
  parses (read_new_decimal column) (decimal_encode neg p d c) (VDecimal neg c (- d)).
Proof.
  intros Ep Ed Hd Hp Hc. unfold decimal_encode.
  destruct (decimal_split p d c Hd Hp Hc)
    as (ui & uf & ci & cf & hi & lo & fh & fl & [? ?] & [? ?] & [? ?] & ? & Hpe & Hde & Hce & ->).
  rewrite Hpe in Ep. rewrite Hde in Ed. rewrite Hde, Hce. by apply decimal_pieces_parsed.
Qed.

(** A [DECIMAL(p, d)] column of a row image is read back: for either sign
    and every coefficient of at most [p] digits, [read_new_decimal] consumes
    exactly the bytes a server writes, sign bit pushed back and all, and
    returns that sign and coefficient with exponent [-d]. *)
Theorem row_decimal_roundtrip (column : Column) (neg : bool) (p d c : Z) :
  precision column = Some p -> decimals column = Some d ->
  0 <= d <= p -> 0 < p -> 0 <= c < 10 ^ p ->
  parses (P:=P) (read_new_decimal column) (decimal_encode neg p d c) (VDecimal neg c (- d)).
Proof. apply decimal_parsed. Qed.
End buffered.

Lemma row_decimal_roundtrip_witness :
  parses (P:=list_packet) (read_new_decimal (set_decimal 14 4 (new_column FIELD_TYPE.NEWDECIMAL)))
    [0x7E; 0xF2; 0x04; 0xC7; 0x2D; 0xFB; 0x2D] (VDecimal true 12345678901234 (-4)).
Proof.
  rewrite <- decimal_encode_example.
  apply (row_decimal_roundtrip (P:=list_packet) _ true 14 4 12345678901234); [reflexivity..|lia|lia|lia].
Defined.
