(* ===== verification/RowsEvent.v ===== *)
(** * Row events

    [RowsEvent] and its subclasses in [pymysqlreplication/row_event.py]: the
    header and filters of the constructor, the row images, and the loop that
    reads the rows.  The columns are those of the table map event the
    [table_map] holds for the table id. *)

From stdpp Require Import base list strings sets.
From Stdlib Require Import ZArith Lia Ascii.
From S2P Require Import Prelude PyBytes PyStr Values UtilBytes Packet Column Bitmap JsonBinary RowValues Event Sql.
Open Scope string_scope.
Open Scope Z_scope.

(** ** [constants/NONE_SOURCE.py] *)

Module NONE_SOURCE.
Definition NULL : string := "null".
Definition OUT_OF_DATE_RANGE : string := "out of date range".
Definition OUT_OF_DATETIME_RANGE : string := "out of datetime range".
Definition OUT_OF_DATETIME2_RANGE : string := "out of datetime2 range".
Definition EMPTY_SET : string := "empty set".
Definition COLS_BITMAP : string := "cols bitmap".
Definition JSON_PARTIAL_UPDATE : string := "same with before values".
End NONE_SOURCE.

(** ** Filters *)

Record filters := mkFilters {
  only_tables : option (list string);
  ignored_tables : option (list string);
  only_schemas : option (list string);
  ignored_schemas : option (list string)
}.

(** [only is not None and x not in only], or else
    [ignored is not None and x in ignored]. *)
Definition rejected (only ignored : option (list string)) (x : string) : bool :=
  match only with
  | Some l => if bool_decide (x ∈ l) then match ignored with Some l' => bool_decide (x ∈ l') | None => false end
              else true
  | None => match ignored with Some l' => bool_decide (x ∈ l') | None => false end
  end.

Definition filtered (f : filters) (schema table : string) : bool :=
  rejected (only_tables f) (ignored_tables f) table || rejected (only_schemas f) (ignored_schemas f) schema.

(** ** State of an event being read *)

Record rowst (P : Type) := mkRowst {
  rs_packet : wrapper P;
  none_sources : dict (option string) string;
  row_values : dict (option string) Z
}.
Arguments mkRowst {P}.
Arguments rs_packet {P}.
Arguments none_sources {P}.
Arguments row_values {P}.

(** Event types with the V2 post-header. *)
Definition is_v2 (event_type : Z) : bool := bool_decide (event_type ∈
    [BINLOG.WRITE_ROWS_EVENT_V2; BINLOG.DELETE_ROWS_EVENT_V2; BINLOG.UPDATE_ROWS_EVENT_V2; BINLOG.PARTIAL_UPDATE_ROWS_EVENT]).

Inductive RowImageType := WriteAI | UpdateBI | UpdateAI | DeleteBI.
#[export] Instance RowImageType_eq_dec : EqDecision RowImageType.
Proof. solve_decision. Defined.

Section rows.
Context {P : Type} `{MysqlPacket P} (cd : codecs) (ignore_decode_errors : bool) (json_depth : nat).

Abbreviation RM := (ST (rowst P)).

Definition on_packet {A} (m : PM P A) : RM A := fun s =>
  let '(r, w') := m (rs_packet s) in (r, mkRowst w' (none_sources s) (row_values s)).
Definition set_none (name : option string) (source : string) : RM unit :=
  st_modify (fun s => mkRowst (rs_packet s) (dict_set (none_sources s) name source) (row_values s)).
Definition set_raw (name : option string) (raw : Z) : RM unit :=
  st_modify (fun s => mkRowst (rs_packet s) (none_sources s) (dict_set (row_values s) name raw)).

Definition is_none (v : pyval) : bool := match v with VNone => true | _ => false end.

(** Mark the column when its value came out as [None]. *)
Definition none_if (v : pyval) (name : option string) (source : string) : RM pyval :=
  (if is_none v then set_none name source else mret tt) ;; mret v.

(** The column present and not null: the dispatch on [column.type]. *)
Definition read_value (column : Column) (is_partial : bool) : RM pyval :=
  let t := type column in
  let uns := unsigned column in
  let name := name column in
  let int (m : PM P Z) : RM pyval := z ← on_packet m; mret (VInt z) in
  if t =? FIELD_TYPE.TINY then
    int (if uns then read_uint8 else bs ← read 1; st_lift (unpack_sle 1 bs))
  else if t =? FIELD_TYPE.SHORT then int (if uns then read_uint16 else read_int16)
  else if t =? FIELD_TYPE.LONG then int (if uns then read_uint32 else read_int32)
  else if t =? FIELD_TYPE.INT24 then int (if uns then read_uint24 else read_int24)
  else if t =? FIELD_TYPE.FLOAT then b ← on_packet read_uint32; mret (VFloat (f32_to_f64 b))
  else if t =? FIELD_TYPE.DOUBLE then b ← on_packet read_uint64; mret (VFloat b)
  else if (t =? FIELD_TYPE.VARCHAR) || (t =? FIELD_TYPE.STRING) then
    ml ← on_packet (read_attr (max_length column));
    on_packet (read_string_value cd ignore_decode_errors (if 255 <? ml then 2 else 1) column)
  else if t =? FIELD_TYPE.NEWDECIMAL then on_packet (read_new_decimal column)
  else if t =? FIELD_TYPE.BLOB then
    ls ← on_packet (read_attr (length_size column));
    on_packet (read_string_value cd ignore_decode_errors ls column)
  else if t =? FIELD_TYPE.DATETIME then
    (* [self.__read_datetime()] is called without its argument *)
    raw ← on_packet read_uint64; set_raw name raw ;; st_raise TypeError
  else if t =? FIELD_TYPE.TIME then on_packet read_time
  else if t =? FIELD_TYPE.DATE then
    raw ← on_packet read_uint24; set_raw name raw ;;
    v ← st_lift (read_date raw); none_if v name NONE_SOURCE.OUT_OF_DATE_RANGE
  else if t =? FIELD_TYPE.TIMESTAMP then
    raw ← on_packet read_uint32; set_raw name raw ;; st_lift (utcfromtimestamp raw)
  else if t =? FIELD_TYPE.DATETIME2 then
    o ← on_packet (read_int_be_by_size 5); raw ← on_packet (need o); set_raw name raw ;;
    v ← on_packet (read_datetime2 column raw); none_if v name NONE_SOURCE.OUT_OF_DATETIME2_RANGE
  else if t =? FIELD_TYPE.TIME2 then on_packet (read_time2 column)
  else if t =? FIELD_TYPE.TIMESTAMP2 then
    o ← on_packet (read_int_be_by_size 4); ts ← on_packet (need o);
    v ← st_lift (utcfromtimestamp ts); on_packet (add_fsp_to_time v column)
  else if t =? FIELD_TYPE.LONGLONG then int (if uns then read_uint64 else read_int64)
  else if t =? FIELD_TYPE.YEAR then z ← on_packet read_uint8; mret (VInt (z + 1900))
  else if t =? FIELD_TYPE.ENUM then on_packet (read_enum column)
  else if t =? FIELD_TYPE.SET then
    sz ← on_packet (read_attr (size column));
    o ← on_packet (read_uint_by_size sz);
    match set_values column with
    | Some ((_ :: _) as vals) =>
        mask ← on_packet (need o);
        match set_members 0 vals mask with
        | [] => set_none name NONE_SOURCE.EMPTY_SET ;; mret VNone
        | l => mret (VSet (remove_dups l))
        end
    | _ => set_none name NONE_SOURCE.EMPTY_SET ;; mret VNone
    end
  else if t =? FIELD_TYPE.BIT then on_packet (read_bit column)
  else if t =? FIELD_TYPE.GEOMETRY then
    ls ← on_packet (read_attr (length_size column));
    bs ← on_packet (read_length_coded_pascal_string ls); mret (VBytes bs)
  else if t =? FIELD_TYPE.JSON then
    ls ← on_packet (read_attr (length_size column));
    c ← on_packet (read_binary_json json_depth ls is_partial);
    let v := json_cell_val c in
    if is_partial then none_if v name NONE_SOURCE.JSON_PARTIAL_UPDATE else mret v
  else st_raise NotImplementedErr.

(** [RowsEvent.__read_values_name] *)
Definition read_values_name (column : Column) (null_bitmap : bytes) (null_bitmap_index : Z)
    (is_partial : bool) (cols_bitmap : bytes) (i : Z) : RM pyval :=
  present ← st_lift (BitGet cols_bitmap i);
  if present =? 0 then set_none (name column) NONE_SOURCE.COLS_BITMAP ;; mret VNone
  else
    isnull ← st_lift (row_is_null null_bitmap null_bitmap_index);
    if (isnull : bool) then set_none (name column) NONE_SOURCE.NULL ;; mret VNone
    else read_value column is_partial.

(** [if not name: name = "UNKNOWN_COL" + str(i)] *)
Definition column_key (column : Column) (i : Z) : string :=
  match name column with
  | Some n => if decide (n = "") then "UNKNOWN_COL" ++ str_of_Z i else n
  | None => "UNKNOWN_COL" ++ str_of_Z i
  end.

(** The loop of [_read_column_data]; [partial] is the partial bitmap, if the
    image is the after image of a partial JSON update. *)
Fixpoint read_columns (columns : list Column) (i null_index partial_index : Z)
    (null_bitmap cols_bitmap : bytes) (partial : option bytes) (values : row) : RM row :=
  match columns with
  | [] => mret values
  | column :: rest =>
      pi ← (match partial with
            | Some pb =>
                if type column =? FIELD_TYPE.JSON
                then b ← st_lift (BitGet pb partial_index); mret (0 <? b, partial_index + 1)
                else mret (false, partial_index)
            | None => mret (false, partial_index)
            end);
      v ← read_values_name column null_bitmap null_index (fst pi) cols_bitmap i;
      present ← st_lift (BitGet cols_bitmap i);
      read_columns rest (i + 1) (if present =? 0 then null_index else null_index + 1) (snd pi)
        null_bitmap cols_bitmap partial (dict_set values (column_key column i) v)
  end.

Definition json_column_count (columns : list Column) : Z :=
  zlen (filter (fun c => type c = FIELD_TYPE.JSON) columns).

(** [RowsEvent._read_column_data] *)
Definition read_column_data (event_type : Z) (columns : list Column) (cols_bitmap : bytes)
    (image : option RowImageType) : RM row :=
  partial ← (if (event_type =? BINLOG.PARTIAL_UPDATE_ROWS_EVENT) && bool_decide (image = Some UpdateAI) then
               o ← on_packet read_length_coded_binary;
               opt ← on_packet (need o);
               if Z.land opt 129 =? 0 then mret None
               else pb ← on_packet (read ((json_column_count columns + 7) / 8)); mret (Some pb)
             else mret None);
  n ← st_lift (BitCount cols_bitmap);
  null_bitmap ← on_packet (read ((n + 7) / 8));
  read_columns columns 0 0 0 null_bitmap cols_bitmap partial [].

(** [_get_none_sources]: why each [None] of a row image is [None]. *)
Definition get_none_sources (column_data : row) : RM (dict string string) :=
  s ← st_get;
  mret (map (fun kv : string * pyval => (kv.1, default "null" (dict_get (none_sources s) (Some kv.1))))
            (filter (fun kv => is_none kv.2 = true) column_data)).

(** [_get_row_values]: the raw integer each [None] was read from, if any. *)
Definition get_row_values (column_data : row) : RM (dict string pyval) :=
  s ← st_get;
  mret (map (fun kv : string * pyval =>
              (kv.1, match dict_get (row_values s) (Some kv.1) with Some z => VInt z | None => VStr "null" end))
            (filter (fun kv => is_none kv.2 = true) column_data)).

(** ** Rows *)

Record row_data := mkRowData {
  values : row;
  rd_none_sources : dict string string;
  rd_raw_values : option (dict string pyval)
}.

Inductive row_image :=
  | RowValues (data : row_data)
  | RowUpdate (before after : row_data).

Inductive rows_class := CDelete | CWrite | CUpdate | CPartialUpdate.

Definition read_row_data (event_type : Z) (columns : list Column) (bitmap : bytes) : RM row_data :=
  v ← read_column_data event_type columns bitmap None;
  n ← get_none_sources v; r ← get_row_values v; mret (mkRowData v n (Some r)).

(** A row image of a partial update has no raw values. *)
Definition read_partial_row_data (event_type : Z) (columns : list Column) (bitmap : bytes) (image : RowImageType)
  : RM row_data :=
  v ← read_column_data event_type columns bitmap (Some image);
  n ← get_none_sources v; mret (mkRowData v n None).

(** [_fetch_one_row] of each class. *)
Definition fetch_one_row (cls : rows_class) (event_type : Z) (columns : list Column) (bitmap bitmap2 : bytes) : RM row_image :=
  match cls with
  | CDelete | CWrite =>
      d ← read_row_data event_type columns bitmap; mret (RowValues d)
  | CUpdate =>
      b ← read_row_data event_type columns bitmap;
      a ← read_row_data event_type columns bitmap2; mret (RowUpdate b a)
  | CPartialUpdate =>
      b ← read_partial_row_data event_type columns bitmap UpdateBI;
      a ← read_partial_row_data event_type columns bitmap2 UpdateAI; mret (RowUpdate b a)
  end.

(** [_fetch_rows]: [while self.packet.read_bytes < self.event_size]. *)
Fixpoint fetch_rows (fuel : nat) (event_size : Z) (one : RM row_image) : RM (list row_image) :=
  match fuel with
  | O => st_raise (PyException "out of fuel")
  | S f =>
      s ← st_get;
      if read_bytes (rs_packet s) <? event_size then
        r ← one; l ← fetch_rows f event_size one; mret (r :: l)
      else mret []
  end.

Record RowsEvent := mkRowsEvent {
  re_class : rows_class;
  re_table_id : Z;
  re_schema : string;
  re_table : string;
  re_primary_key : pkey;
  re_flags : Z;
  re_number_of_columns : Z;
  re_columns : list Column;
  re_bitmap : bytes;
  re_bitmap2 : bytes
}.

(** The post-header of version 2 events: flags and extra data. *)
Definition read_v2_header (event_type : Z) : PM P Z :=
  flags ← read_uint16; extra ← read_uint16;
  (if 2 <? extra then
     ty ← read_uint8;
     if ty =? 0 then
       n ← read_uint8; _ ← read_uint8; _ ← read (n - 2); mret tt
     else if ty =? 1 then
       if (event_type =? BINLOG.UPDATE_ROWS_EVENT_V2) || (event_type =? BINLOG.PARTIAL_UPDATE_ROWS_EVENT)
       then _ ← read 4; mret tt else _ ← read_uint16; mret tt
     else _ ← read (extra - 3); mret tt
   else mret tt) ;;
  mret flags.

(** The constructors; [None] is an event that was not processed. *)
Definition read_rows_event (cls : rows_class) (f : filters) (table_map : dict Z Table) : PM P (option RowsEvent) :=
  w ← st_get;
  let event_type := event_type w in
  tid ← read_table_id;
  match dict_get table_map tid with
  | None => mret None
  | Some tb =>
      if filtered f (schema tb) (table tb) then mret None
      else
        flags ← (if is_v2 event_type then read_v2_header event_type else read_uint16);
        o ← read_length_coded_binary;
        n ← need o;
        bitmap ← read ((n + 7) / 8);
        bitmap2 ← (match cls with CUpdate | CPartialUpdate => read ((n + 7) / 8) | _ => mret [] end);
        mret (Some (mkRowsEvent cls tid (schema tb) (table tb) (primary_key tb) flags n (columns tb) bitmap bitmap2))
  end.

(** The property [rows] of an event, read on demand. *)
Definition rows (e : RowsEvent) (event_type event_size : Z) : RM (list row_image) :=
  s ← st_get;
  fetch_rows (S (Z.to_nat (event_size - read_bytes (rs_packet s)))) event_size
    (fetch_one_row (re_class e) event_type (re_columns e) (re_bitmap e) (re_bitmap2 e)).
End rows.
