(* ===== verification/RowCells.v ===== *)
(** * Row images

    What the row events of a server contain: the binary form of a value of
    each column type ([cell_of]), the null bitmap and the values of the
    columns that are present ([encode_image]).  The theorems show that
    [read_value] reads back every value, [read_column_data] every row image,
    and [rows] every row of an event. *)

From stdpp Require Import base list strings sets.
From Stdlib Require Import ZArith Lia Ascii.
From S2P Require Import Prelude PyBytes PyStr Values UtilBytes Packet Column Bitmap JsonBinary JsonDoc RowValues RowDecimal Event Sql RowsEvent.
Open Scope string_scope.
Open Scope Z_scope.
Open Scope list_scope.

(** [lia] with quotients and remainders by constants. *)
Ltac div_lia := Z.to_euclidean_division_equations; lia.

(** Reduce the dispatch of [read_value] on a known column type. *)
Ltac pick_type Ht :=
  unfold read_value; rewrite Ht; cbv zeta;
  repeat match goal with
  | |- context [if ?c then _ else _] =>
      let r := eval vm_compute in c in
      first [constr_eq r true|constr_eq r false]; change c with r; cbv iota
  end.

Section rows.
Context {P : Type} `{MysqlPacketLaws P} (cd : codecs) (ignore_decode_errors : bool) (json_depth : nat).

(** [parses] for readers that also keep the sources of [None]. *)
Definition rparses {A} (m : ST (rowst P) A) (bs : bytes) (a : A) : Prop :=
  forall s rest, data_buffer (rs_packet s) = [] -> stream (rs_packet s) = (bs ++ rest)%list ->
    exists s', m s = (Ok a, s') /\ data_buffer (rs_packet s') = [] /\
      step_to (rs_packet s) (zlen bs) rest (rs_packet s').

Lemma rparses_on_packet {A} (m : PM P A) bs a : parses m bs a -> rparses (on_packet m) bs a.
Proof.
  intros Hm s rest Hb Hs. destruct (Hm _ rest Hb Hs) as (w' & E & Hb' & S').
  unfold on_packet. rewrite E. by eexists.
Qed.

(** A computation that leaves the packet alone. *)
Lemma rparses_pure {A} (m : ST (rowst P) A) a :
  (forall s, exists s', m s = (Ok a, s') /\ rs_packet s' = rs_packet s) -> rparses m [] a.
Proof.
  intros Hm s rest Hb Hs. destruct (Hm s) as (s' & E & Hp). exists s'. rewrite Hp.
  split; [done|]. split; [done|]. split; [done|]. split; [unfold zlen; cbn; lia|apply same_header_refl].
Qed.

Lemma rparses_ret {A} (a : A) : rparses (mret a) [] a.
Proof. apply rparses_pure. intros s. by exists s. Qed.

Lemma rparses_set_none n src : rparses (set_none n src) [] tt.
Proof. apply rparses_pure. intros s. by eexists. Qed.

Lemma rparses_set_raw n raw : rparses (set_raw n raw) [] tt.
Proof. apply rparses_pure. intros s. by eexists. Qed.

Lemma rparses_bind {A B} (m : ST (rowst P) A) (f : A -> ST (rowst P) B) b1 b2 a b :
  rparses m b1 a -> rparses (f a) b2 b -> rparses (mbind f m) (b1 ++ b2) b.
Proof.
  intros Hm Hf s rest Hb Hs. rewrite <- app_assoc in Hs.
  destruct (Hm s _ Hb Hs) as (s1 & E1 & B1 & S1). destruct (Hf s1 rest B1 (proj1 S1)) as (s2 & E2 & B2 & S2).
  exists s2. rewrite st_bind_eq, E1. split; [done|]. split; [done|]. rewrite zlen_app. by eapply step_to_trans.
Qed.

(** Steps that consume nothing, before and after. *)
Lemma rparses_then {A B} (m : ST (rowst P) A) (f : A -> ST (rowst P) B) bs a b :
  rparses m [] a -> rparses (f a) bs b -> rparses (mbind f m) bs b.
Proof. intros Hm Hf. apply (rparses_bind m f [] bs a b Hm Hf). Qed.

Lemma rparses_last {A B} (m : ST (rowst P) A) (f : A -> ST (rowst P) B) bs a b :
  rparses m bs a -> rparses (f a) [] b -> rparses (mbind f m) bs b.
Proof. intros Hm Hf. rewrite <- (app_nil_r bs). by eapply rparses_bind. Qed.

Lemma rparses_lift {A B} (r : result A) (f : A -> ST (rowst P) B) bs a b :
  r = Ok a -> rparses (f a) bs b -> rparses (mbind f (st_lift r)) bs b.
Proof. intros -> Hf. eapply rparses_then; [|done]. apply rparses_ret. Qed.

Lemma rparses_none_if v n src : rparses (none_if v n src) [] v.
Proof.
  unfold none_if. eapply rparses_then; [|apply rparses_ret].
  destruct (is_none v); [apply rparses_set_none|apply rparses_ret].
Qed.

(** ** Values *)

(** [n]-byte integers, signed or unsigned. *)
Definition int_range (uns : bool) (n : nat) (z : Z) : Prop :=
  if uns then 0 <= z < 256 ^ Z.of_nat n
  else - 2 ^ (8 * Z.of_nat n - 1) <= z < 2 ^ (8 * Z.of_nat n - 1).

Definition int_width (t : Z) : option nat :=
  if t =? FIELD_TYPE.TINY then Some 1%nat
  else if t =? FIELD_TYPE.SHORT then Some 2%nat
  else if t =? FIELD_TYPE.INT24 then Some 3%nat
  else if t =? FIELD_TYPE.LONG then Some 4%nat
  else if t =? FIELD_TYPE.LONGLONG then Some 8%nat else None.

Definition encode_int (n : nat) (z : Z) : bytes := le_encode n (z mod 256 ^ Z.of_nat n).

Lemma encode_int_length n z : length (encode_int n z) = n.
Proof. apply le_encode_length. Qed.

Lemma decode_int (uns : bool) n z :
  (0 < n)%nat -> int_range uns n z ->
  (if uns then le_decode (encode_int n z) else to_signed (8 * Z.of_nat n) (le_decode (encode_int n z))) = z.
Proof.
  intros Hn Hz. unfold int_range, encode_int in *.
  assert (0 < 256 ^ Z.of_nat n) as Hp by (apply Z.pow_pos_nonneg; lia).
  rewrite le_decode_encode by (apply Z.mod_pos_bound; lia).
  destruct uns; [apply Z.mod_small; lia|].
  assert (256 ^ Z.of_nat n = 2 ^ (8 * Z.of_nat n)) as E by (rewrite Z.pow_mul_r by lia; done).
  assert (2 ^ (8 * Z.of_nat n) = 2 * 2 ^ (8 * Z.of_nat n - 1)) as E2.
  { replace (8 * Z.of_nat n) with (Z.succ (8 * Z.of_nat n - 1)) at 1 by lia. apply Z.pow_succ_r. lia. }
  unfold to_signed. rewrite E in *. destruct (Z.leb_spec 0 z).
  - rewrite Z.mod_small by lia. destruct (Z.ltb_spec z (2 ^ (8 * Z.of_nat n - 1))); lia.
  - replace (z mod 2 ^ (8 * Z.of_nat n)) with (z + 2 ^ (8 * Z.of_nat n)).
    + destruct (Z.ltb_spec (z + 2 ^ (8 * Z.of_nat n)) (2 ^ (8 * Z.of_nat n - 1))); lia.
    + apply (Z.mod_unique _ _ (-1)); lia.
Qed.

Lemma parses_read_int24 (bs : bytes) :
  length bs = 3%nat -> bytes_ok bs -> parses (P:=P) read_int24 bs (to_signed 24 (le_decode bs)).
Proof.
  intros Hl Hok. unfold read_int24. eapply parses_bind_pure; [apply parses_read; unfold zlen; lia|].
  destruct bs as [|a [|b [|c [|]]]]; try done. intros w.
  destruct (int24_be_value [c; b; a] eq_refl) as (a' & b' & c' & E & Hv); [by apply Forall_rev in Hok|].
  injection E as <- <- <-. unfold mbind, ST_bind, st_lift. cbn [unpack_bbb]. rewrite Z.lor_comm, Z.lor_assoc.
  unfold mret, ST_ret. rewrite (Z.lor_comm (Z.shiftl c 16) a), (Z.lor_comm a), <- Z.lor_assoc, (Z.lor_comm a), Z.lor_assoc, Hv.
  done.
Qed.

Lemma rparses_int (m : PM P Z) bs z :
  parses m bs z -> rparses (z ← on_packet m; mret (VInt z)) bs (VInt z).
Proof. intros Hm. eapply rparses_last; [by apply rparses_on_packet|apply rparses_ret]. Qed.

Lemma encode_int_ok n z : bytes_ok (encode_int n z).
Proof. apply le_encode_ok. Qed.

Lemma value_int column n z :
  int_width (type column) = Some n -> int_range (unsigned column) n z ->
  rparses (read_value cd ignore_decode_errors json_depth column false) (encode_int n z) (VInt z).
Proof.
  intros Hw Hz. pose proof (encode_int_length n z) as Hl. pose proof (encode_int_ok n z) as Hok.
  assert ((0 < n)%nat) as Hn.
  { unfold int_width in Hw. repeat (case_match; [simplify_eq; lia|]). done. }
  pose proof (decode_int _ n z Hn Hz) as Hd. unfold int_width in Hw.
  set (bs := encode_int n z) in *. clearbody bs. rewrite <- Hd. clear Hd Hz.
  destruct (unsigned column) eqn:Hu;
  repeat match goal with
  | Hw : (if ?t =? ?k then _ else _) = _ |- _ =>
      destruct (Z.eqb_spec t k) as [Ht|?];
      [injection Hw as <-; pick_type Ht; rewrite Hu; apply rparses_int|]
  end; try done;
  first [by apply parses_read_uint24|by apply parses_read_int24|by apply parses_unpack|by apply parses_unpack_s].
Qed.

(** *** Floating point, strings, years *)

Lemma value_float column b :
  type column = FIELD_TYPE.FLOAT -> 0 <= b < 2 ^ 32 ->
  rparses (read_value cd ignore_decode_errors json_depth column false) (le_encode 4 b) (VFloat (f32_to_f64 b)).
Proof.
  intros Ht Hb. pick_type Ht. eapply rparses_last; [|apply rparses_ret].
  apply rparses_on_packet. rewrite <- (le_decode_encode 4 b) at 2 by (cbn in *; lia).
  apply parses_unpack; [apply le_encode_length|done].
Qed.

Lemma value_double column b :
  type column = FIELD_TYPE.DOUBLE -> 0 <= b < 2 ^ 64 ->
  rparses (read_value cd ignore_decode_errors json_depth column false) (le_encode 8 b) (VFloat b).
Proof.
  intros Ht Hb. pick_type Ht. eapply rparses_last; [|apply rparses_ret].
  apply rparses_on_packet. rewrite <- (le_decode_encode 8 b) at 2 by (cbn in *; lia).
  apply parses_unpack; [apply le_encode_length|done].
Qed.

Definition pascal (k : nat) (bs : bytes) : bytes := le_encode k (zlen bs) ++ bs.

Lemma parses_sized (k : nat) z :
  (1 <= k <= 8)%nat -> 0 <= z < 256 ^ Z.of_nat k ->
  parses (P:=P) (read_uint_by_size (Z.of_nat k)) (le_encode k z) (Some z).
Proof.
  intros Hk Hz. rewrite <- (le_decode_encode k z) at 2 by done.
  apply parses_read_uint_by_size; [lia|by rewrite zlen_le_encode].
Qed.

Lemma parses_pascal (k : nat) bs :
  (1 <= k <= 8)%nat -> zlen bs < 256 ^ Z.of_nat k ->
  parses (P:=P) (read_length_coded_pascal_string (Z.of_nat k)) (pascal k bs) bs.
Proof.
  intros Hk Hl. pose proof (zlen_nonneg bs). eapply parses_bind; [apply parses_sized; [done|lia]|].
  by apply parses_read.
Qed.

Lemma parses_text column (k : nat) bs v :
  (1 <= k <= 8)%nat -> zlen bs < 256 ^ Z.of_nat k -> decode_text cd ignore_decode_errors column bs = Ok v ->
  parses (P:=P) (read_string_value cd ignore_decode_errors (Z.of_nat k) column) (pascal k bs) v.
Proof.
  intros Hk Hl Hd. eapply parses_bind_pure; [by apply parses_pascal|]. intros w. unfold st_lift. by rewrite Hd.
Qed.

(** Bytes of the length prefix of a [VARCHAR] or [CHAR]. *)
Definition prefix_size (ml : Z) : nat := if 255 <? ml then 2 else 1.

Lemma value_string column ml bs v :
  type column = FIELD_TYPE.VARCHAR \/ type column = FIELD_TYPE.STRING -> max_length column = Some ml ->
  zlen bs < 256 ^ Z.of_nat (prefix_size ml) -> decode_text cd ignore_decode_errors column bs = Ok v ->
  rparses (read_value cd ignore_decode_errors json_depth column false) (pascal (prefix_size ml) bs) v.
Proof.
  intros Ht Hm Hl Hd.
  assert (rparses (ml ← on_packet (read_attr (max_length column));
    on_packet (read_string_value cd ignore_decode_errors (if 255 <? ml then 2 else 1) column)) (pascal (prefix_size ml) bs) v) as Hp.
  { rewrite Hm. eapply rparses_then; [apply rparses_on_packet; apply parses_ret|].
    apply rparses_on_packet. unfold prefix_size in *. destruct (255 <? ml); apply parses_text; (lia || done). }
  destruct Ht as [Ht|Ht]; pick_type Ht; exact Hp.
Qed.

Lemma value_blob column (k : nat) bs v :
  type column = FIELD_TYPE.BLOB -> length_size column = Some (Z.of_nat k) -> (1 <= k <= 8)%nat ->
  zlen bs < 256 ^ Z.of_nat k -> decode_text cd ignore_decode_errors column bs = Ok v ->
  rparses (read_value cd ignore_decode_errors json_depth column false) (pascal k bs) v.
Proof.
  intros Ht Hs Hk Hl Hd. pick_type Ht. rewrite Hs.
  eapply rparses_then; [apply rparses_on_packet; apply parses_ret|].
  by apply rparses_on_packet, parses_text.
Qed.

Lemma value_geometry column (k : nat) bs :
  type column = FIELD_TYPE.GEOMETRY -> length_size column = Some (Z.of_nat k) -> (1 <= k <= 8)%nat ->
  zlen bs < 256 ^ Z.of_nat k ->
  rparses (read_value cd ignore_decode_errors json_depth column false) (pascal k bs) (VBytes bs).
Proof.
  intros Ht Hs Hk Hl. pick_type Ht. rewrite Hs.
  eapply rparses_then; [apply rparses_on_packet; apply parses_ret|].
  eapply rparses_last; [by apply rparses_on_packet, parses_pascal|apply rparses_ret].
Qed.

Lemma value_json column (k : nat) d :
  type column = FIELD_TYPE.JSON -> length_size column = Some (Z.of_nat k) -> (1 <= k <= 8)%nat ->
  zlen (jbody d) + 1 < 256 ^ Z.of_nat k -> jok d -> (jdepth d <= json_depth)%nat ->
  rparses (read_value cd ignore_decode_errors json_depth column false) (pascal k (jtype d :: jbody d)) (jval d).
Proof.
  intros Ht Hs Hk Hl Hok Hd. pick_type Ht. rewrite Hs. pose proof (zlen_nonneg (jbody d)).
  eapply rparses_then; [apply rparses_on_packet; apply parses_ret|].
  eapply rparses_last with (a := Some (JsonValue (jval d))); [|apply rparses_ret].
  apply rparses_on_packet. unfold read_binary_json.
  eapply parses_bind; [apply parses_sized; [done|rewrite zlen_cons; lia]|].
  rewrite decide_False by (intros [=]; rewrite zlen_cons in *; lia). eapply parses_bind_pure; [by apply parses_read|].
  intros w. unfold st_lift. by rewrite decode_document.
Qed.

Lemma value_year column y :
  type column = FIELD_TYPE.YEAR -> 1901 <= y <= 2155 ->
  rparses (read_value cd ignore_decode_errors json_depth column false) [y - 1900] (VInt y).
Proof.
  intros Ht Hy. pick_type Ht. eapply rparses_last; [apply rparses_on_packet, parses_read_uint8|].
  replace (y - 1900 + 1900) with y by lia. apply rparses_ret.
Qed.

Lemma value_decimal column p d neg c :
  type column = FIELD_TYPE.NEWDECIMAL -> precision column = Some p -> decimals column = Some d ->
  0 <= d <= p -> 0 < p -> 0 <= c < 10 ^ p ->
  rparses (read_value cd ignore_decode_errors json_depth column false) (decimal_encode neg p d c) (VDecimal neg c (- d)).
Proof. intros Ht Hp Hd ? ? ?. pick_type Ht. apply rparses_on_packet. by apply decimal_parsed. Qed.

(** *** Dates and times *)

Lemma low_mod b n : 0 <= n -> Z.land b (Z.shiftl 1 n - 1) = b mod 2 ^ n.
Proof.
  intros Hn. rewrite Z.shiftl_mul_pow2, Z.mul_1_l by lia. rewrite <- Z.land_ones by lia. by rewrite Z.ones_equiv.
Qed.

Lemma slice_div b k n : 0 <= k -> 0 <= n -> Z.land (Z.shiftr b k) (Z.shiftl 1 n - 1) = (b / 2 ^ k) mod 2 ^ n.
Proof.
  intros Hk Hn. by rewrite low_mod, Z.shiftr_div_pow2.
Qed.

Lemma masked_div b k n :
  0 <= k -> 0 <= n -> Z.shiftr (Z.land b (Z.shiftl (Z.shiftl 1 n - 1) k)) k = (b / 2 ^ k) mod 2 ^ n.
Proof.
  intros Hk Hn. rewrite <- slice_div by done. rewrite Z.shiftr_land, Z.shiftr_shiftl_l by lia.
  by rewrite Z.sub_diag, Z.shiftl_0_r.
Qed.

Definition date_bits (y m d : Z) : Z := (y * 16 + m) * 32 + d.

Lemma date_ok_bounds y m d : date_ok y m d = true -> 1 <= y <= 9999 /\ 1 <= m <= 12 /\ 1 <= d <= 31.
Proof.
  unfold date_ok, between, days_in_month. intros Hd.
  assert ((if m =? 2 then if is_leap y then 29 else 28 else if bool_decide (m ∈ [4; 6; 9; 11]) then 30 else 31) <= 31)
    by (repeat case_match; lia).
  rewrite !andb_true_iff, !Z.leb_le in Hd. lia.
Qed.

Lemma read_date_bits y m d : date_ok y m d = true -> read_date (date_bits y m d) = Ok (VDate y m d).
Proof.
  intros Hd. destruct (date_ok_bounds y m d Hd) as (Hy & Hm & Hdd). unfold read_date.
  rewrite !masked_div by lia. rewrite low_mod by lia.
  assert (date_bits y m d / 2 ^ 9 = y) as Ey.
  { unfold date_bits. symmetry. apply (Z.div_unique _ _ _ (m * 32 + d)); change (2 ^ 9) with 512; lia. }
  assert (date_bits y m d / 2 ^ 5 = y * 16 + m) as Em by (apply pack_div; lia).
  assert (date_bits y m d mod 2 ^ 5 = d) as Ed by (apply pack_mod; lia).
  rewrite Ey, Em, Ed. change (2 ^ 4) with 16. change (2 ^ 15) with 32768.
  rewrite pack_mod, (Z.mod_small y) by lia.
  destruct (Z.eqb_spec (date_bits y m d) 0); [unfold date_bits in *; lia|].
  destruct (Z.eqb_spec y 0); [lia|]. destruct (Z.eqb_spec m 0); [lia|]. destruct (Z.eqb_spec d 0); [lia|].
  cbn [orb]. unfold mk_date. by rewrite Hd.
Qed.

Lemma parses_le (k : nat) z (m : PM P Z) :
  0 <= z < 256 ^ Z.of_nat k -> (forall bs, length bs = k -> parses m bs (le_decode bs)) -> parses m (le_encode k z) z.
Proof. intros Hz Hm. rewrite <- (le_decode_encode k z) at 2 by done. apply Hm, le_encode_length. Qed.

Lemma value_date column y m d :
  type column = FIELD_TYPE.DATE -> date_ok y m d = true ->
  rparses (read_value cd ignore_decode_errors json_depth column false) (le_encode 3 (date_bits y m d)) (VDate y m d).
Proof.
  intros Ht Hd. destruct (date_ok_bounds y m d Hd) as (Hy & Hm & Hdd). pick_type Ht.
  eapply rparses_last.
  - apply rparses_on_packet, parses_le; [|intros; by apply parses_read_uint24].
    unfold date_bits. change (256 ^ Z.of_nat 3) with 16777216. lia.
  - eapply rparses_then; [apply rparses_set_raw|]. eapply rparses_lift; [by apply read_date_bits|].
    apply rparses_none_if.
Qed.

(** The date [0000-00-00], and dates with a zero month or day, are [None]. *)
Lemma value_date_zero column raw :
  type column = FIELD_TYPE.DATE -> 0 <= raw < 2 ^ 24 -> (raw / 32) mod 16 = 0 \/ raw mod 32 = 0 \/ raw < 512 ->
  rparses (read_value cd ignore_decode_errors json_depth column false) (le_encode 3 raw) VNone.
Proof.
  intros Ht Hr Hz. pick_type Ht. eapply rparses_last.
  - apply rparses_on_packet, parses_le; [|intros; by apply parses_read_uint24]. cbn in *; lia.
  - eapply rparses_then; [apply rparses_set_raw|]. eapply rparses_lift with (a := VNone); [|apply rparses_none_if].
    unfold read_date. destruct (raw =? 0); [done|]. rewrite !masked_div by lia.
    rewrite low_mod by lia.
    change (2 ^ 9) with 512. change (2 ^ 5) with 32. change (2 ^ 4) with 16.
    destruct Hz as [-> |[-> |Hz]]; [by rewrite orb_true_r|by rewrite !orb_true_r|].
    by rewrite (Z.div_small raw 512) by lia.
Qed.

(** *** Fractional seconds *)

Definition fsp_bytes (f : Z) : nat := Z.to_nat ((f + 1) / 2).
Definition encode_fsp (f us : Z) : bytes := be_encode (fsp_bytes f) (us / 10 ^ (6 - 2 * ((f + 1) / 2))).

Definition fsp_ok (column : Column) (f us : Z) : Prop :=
  fsp column = Some f /\ 0 <= f <= 6 /\ 0 <= us < 1000000 /\ us mod 10 ^ (6 - f) = 0.

Lemma parses_be_small (k : nat) z :
  (1 <= k <= 4)%nat -> 0 <= z < 128 * 256 ^ Z.of_nat (pred k) ->
  parses (P:=P) (read_int_be_by_size (Z.of_nat k)) (be_encode k z) (Some z).
Proof.
  intros Hk Hz. pose proof (masked_value false k z ltac:(lia) Hz) as Hv. cbn [sign_mask] in Hv.
  rewrite Z.lxor_0_r, (map_ext (mask_byte false) id), map_id in Hv by done. rewrite <- Hv at 2.
  apply bparses_parses, bparses_read_int_be; [done|apply be_encode_length|apply be_encode_ok].
Qed.

Lemma parses_fsp column f us : fsp_ok column f us -> parses (P:=P) (read_fsp column) (encode_fsp f us) us.
Proof.
  intros (Hf & Hr & Hu & Hm). unfold read_fsp. rewrite Hf. eapply parses_lift_ok; [done|].
  assert (f = 0 \/ f = 1 \/ f = 2 \/ f = 3 \/ f = 4 \/ f = 5 \/ f = 6) as Hc by lia.
  assert (forall (k : nat) (p b : Z), (1 <= k <= 4)%nat -> 10 ^ (6 - 2 * ((f + 1) / 2)) = p -> 0 < p ->
    fsp_bytes f = k -> 128 * 256 ^ Z.of_nat (pred k) = b -> us / p < b ->
    (if f mod 2 =? 0 then us / p else Z.quot (us / p) 10) * 10 ^ (6 - f) = us ->
    parses (P:=P) (o ← read_int_be_by_size (Z.of_nat k); us ← need o;
      mret ((if f mod 2 =? 0 then us else Z.quot us 10) * 10 ^ (6 - f))) (encode_fsp f us) us) as Hcase.
  { intros k p b Hk Hp Hpos Hb <- Hlt Hval. unfold encode_fsp. rewrite Hp, Hb.
    eapply parses_bind_pure; [apply parses_be_small; [done|]|].
    - split; [apply Z.div_pos; lia|done].
    - intros w. unfold mbind, ST_bind, need, st_lift, of_option, mret, ST_ret. by rewrite Hval. }
  destruct Hc as [-> |[-> |[-> |[-> |[-> |[-> | ->]]]]]].
  - change (10 ^ (6 - 0)) with 1000000 in Hm. rewrite Z.mod_small in Hm by lia. rewrite Hm. apply parses_ret.
  - change (10 ^ (6 - 1)) with 100000 in *. apply (Hcase 1%nat 10000 128); try reflexivity; try lia; try div_lia. change (1 mod 2 =? 0) with false; cbv iota; div_lia.
  - change (10 ^ (6 - 2)) with 10000 in *. apply (Hcase 1%nat 10000 128); try reflexivity; try lia; try div_lia. change (2 mod 2 =? 0) with true; cbv iota; div_lia.
  - change (10 ^ (6 - 3)) with 1000 in *. apply (Hcase 2%nat 100 32768); try reflexivity; try lia; try div_lia. change (3 mod 2 =? 0) with false; cbv iota; div_lia.
  - change (10 ^ (6 - 4)) with 100 in *. apply (Hcase 2%nat 100 32768); try reflexivity; try lia; try div_lia. change (4 mod 2 =? 0) with true; cbv iota; div_lia.
  - change (10 ^ (6 - 5)) with 10 in *. apply (Hcase 3%nat 1 8388608); try reflexivity; try lia; try div_lia. change (5 mod 2 =? 0) with false; cbv iota; div_lia.
  - change (10 ^ (6 - 6)) with 1 in *. apply (Hcase 3%nat 1 8388608); try reflexivity; try lia; try div_lia. change (6 mod 2 =? 0) with true; cbv iota; div_lia.
Qed.

Lemma parses_add_fsp column f us y m d h mi s :
  fsp_ok column f us -> mk_datetime y m d h mi s 0 = Ok (VDatetime y m d h mi s 0) ->
  parses (P:=P) (add_fsp_to_time (VDatetime y m d h mi s 0) column) (encode_fsp f us) (VDatetime y m d h mi s us).
Proof.
  intros Hf Hd. pose proof Hf as (_ & _ & Hu & _). unfold add_fsp_to_time.
  eapply parses_bind_pure; [by apply parses_fsp|]. intros w. destruct (Z.ltb_spec 0 us).
  - unfold st_lift, replace_microsecond, mk_datetime in *.
    destruct (date_ok y m d); [|done]. cbn [andb] in *. unfold time_ok in *.
    destruct (between 0 h 23 && between 0 mi 59 && between 0 s 59); [|done]. unfold between.
    destruct (Z.leb_spec 0 us), (Z.leb_spec us 999999); (done || lia).
  - by assert (us = 0) as -> by lia.
Qed.

Definition datetime_bits (y m d h mi s : Z) : Z :=
  (((((1 * 2 ^ 17 + (y * 13 + m)) * 32 + d) * 32 + h) * 64 + mi) * 64) + s.

Lemma mk_datetime_bounds y m d h mi s us :
  mk_datetime y m d h mi s us = Ok (VDatetime y m d h mi s us) ->
  date_ok y m d = true /\ 0 <= h <= 23 /\ 0 <= mi <= 59 /\ 0 <= s <= 59 /\ 0 <= us <= 999999.
Proof.
  unfold mk_datetime, time_ok, between. destruct (date_ok y m d); [|done].
  destruct (_ && _) eqn:E; [|done]. rewrite !andb_true_iff, !Z.leb_le in E. intros _. split; [done|lia].
Qed.

(** The fields of a packed date and time. *)
Lemma datetime_slices y m d h mi s :
  0 <= y <= 9999 -> 0 <= m <= 12 -> 0 <= d <= 31 -> 0 <= h <= 23 -> 0 <= mi <= 59 -> 0 <= s <= 59 ->
  read_binary_slice (datetime_bits y m d h mi s) 1 17 40 = y * 13 + m /\
  read_binary_slice (datetime_bits y m d h mi s) 18 5 40 = d /\
  read_binary_slice (datetime_bits y m d h mi s) 23 5 40 = h /\
  read_binary_slice (datetime_bits y m d h mi s) 28 6 40 = mi /\
  read_binary_slice (datetime_bits y m d h mi s) 34 6 40 = s.
Proof.
  intros. unfold read_binary_slice. rewrite !slice_div by lia. unfold datetime_bits.
  change (40 - (1 + 17)) with 22. change (40 - (18 + 5)) with 17. change (40 - (23 + 5)) with 12.
  change (40 - (28 + 6)) with 6. change (40 - (34 + 6)) with 0.
  repeat split; div_lia.
Qed.

Lemma value_datetime2 column f us y m d h mi s :
  type column = FIELD_TYPE.DATETIME2 -> fsp_ok column f us ->
  mk_datetime y m d h mi s 0 = Ok (VDatetime y m d h mi s 0) ->
  rparses (read_value cd ignore_decode_errors json_depth column false)
    (be_encode 5 (datetime_bits y m d h mi s) ++ encode_fsp f us) (VDatetime y m d h mi s us).
Proof.
  intros Ht Hf Hd. destruct (mk_datetime_bounds _ _ _ _ _ _ _ Hd) as (Hdate & Hh & Hmi & Hs & _).
  destruct (date_ok_bounds y m d Hdate) as (Hy & Hm & Hdd). pick_type Ht.
  assert (parses (P:=P) (read_int_be_by_size 5) (be_encode 5 (datetime_bits y m d h mi s))
            (Some (datetime_bits y m d h mi s))) as Hraw.
  { rewrite <- (be_decode_encode 5 (datetime_bits y m d h mi s)) at 2
      by (unfold datetime_bits; change (256 ^ Z.of_nat 5) with 1099511627776; lia).
    apply parses_some, parses_read_int40_be, be_encode_length. }
  eapply rparses_bind; [by apply rparses_on_packet|].
  eapply rparses_then; [apply rparses_on_packet; apply parses_ret|].
  eapply rparses_then; [apply rparses_set_raw|]. eapply rparses_last; [|apply rparses_none_if].
  apply rparses_on_packet. unfold read_datetime2.
  destruct (datetime_slices y m d h mi s) as (-> & -> & -> & -> & ->); [lia..|].
  replace (Z.quot (y * 13 + m) 13) with y by div_lia. replace ((y * 13 + m) mod 13) with m by div_lia.
  rewrite Hd. by apply parses_add_fsp.
Qed.

Lemma value_timestamp2 column f us ts y m d h mi s :
  type column = FIELD_TYPE.TIMESTAMP2 -> fsp_ok column f us -> 0 <= ts < 2 ^ 31 ->
  utcfromtimestamp ts = Ok (VDatetime y m d h mi s 0) ->
  rparses (read_value cd ignore_decode_errors json_depth column false)
    (be_encode 4 ts ++ encode_fsp f us) (VDatetime y m d h mi s us).
Proof.
  intros Ht Hf Hts Hu. pick_type Ht.
  eapply rparses_bind; [apply rparses_on_packet, (parses_be_small 4); [lia|]|].
  { change (128 * 256 ^ Z.of_nat (pred 4)) with (2 ^ 31). lia. }
  eapply rparses_then; [apply rparses_on_packet; apply parses_ret|].
  eapply rparses_lift; [exact Hu|]. apply rparses_on_packet, parses_add_fsp; [done|].
  unfold utcfromtimestamp in Hu. destruct (civil_from_days (ts / 86400)) as [[y' m'] d'].
  pose proof Hu as Hu'. unfold mk_datetime in Hu. destruct (_ && _); [|done]. by injection Hu as <- <- <- <- <- <-.
Qed.

(** A time of day or a duration, as a number of seconds. *)
Definition time_bits (h mi s : Z) : Z := (h * 64 + mi) * 64 + s.

Lemma time_slices k h mi s :
  0 <= h < 1024 -> 0 <= mi <= 59 -> 0 <= s <= 59 ->
  read_binary_slice (time_bits h mi s + k * 2 ^ 22) 2 10 24 = h /\
  read_binary_slice (time_bits h mi s + k * 2 ^ 22) 12 6 24 = mi /\
  read_binary_slice (time_bits h mi s + k * 2 ^ 22) 18 6 24 = s.
Proof.
  intros. unfold read_binary_slice. rewrite !slice_div by lia. unfold time_bits.
  change (24 - (2 + 10)) with 12. change (24 - (12 + 6)) with 6. change (24 - (18 + 6)) with 0.
  repeat split; div_lia.
Qed.

Lemma parses_be3 z :
  0 <= z < 2 ^ 24 -> parses (P:=P) (read_int_be_by_size 3) (be_encode 3 z) (Some (to_signed 24 z)).
Proof.
  intros Hz. rewrite <- (be_decode_encode 3 z) at 2 by (change (256 ^ Z.of_nat 3) with (2 ^ 24); lia).
  apply bparses_parses, (bparses_read_int_be 3); [lia|apply be_encode_length|apply be_encode_ok].
Qed.

Definition seconds_us (h mi s us : Z) : Z := ((h * 60 + mi) * 60 + s) * 1000000 + us.

Lemma value_time2 column f us h mi s :
  type column = FIELD_TYPE.TIME2 -> fsp_ok column f us -> 0 <= h <= 838 -> 0 <= mi <= 59 -> 0 <= s <= 59 ->
  rparses (read_value cd ignore_decode_errors json_depth column false)
    (be_encode 3 (2 ^ 23 + time_bits h mi s) ++ encode_fsp f us) (VTimedelta (seconds_us h mi s us)).
Proof.
  intros Ht Hf Hh Hmi Hs. pick_type Ht. apply rparses_on_packet. unfold read_time2.
  assert (0 <= time_bits h mi s < 2 ^ 22) as Hb by (unfold time_bits; change (2 ^ 22) with 4194304; lia).
  assert (to_signed 24 (2 ^ 23 + time_bits h mi s) = time_bits h mi s + (-2) * 2 ^ 22) as Hts.
  { unfold to_signed. change (2 ^ (24 - 1)) with (2 ^ 23). destruct (Z.ltb_spec (2 ^ 23 + time_bits h mi s) (2 ^ 23)); lia. }
  eapply parses_bind; [apply parses_be3; lia|]. rewrite Hts. eapply parses_lift_ok; [done|].
  destruct (time_slices (-2) h mi s) as (E1 & E2 & E3); [lia..|].
  assert (read_binary_slice (time_bits h mi s + -2 * 2 ^ 22) 0 1 24 = 1) as ->.
  { unfold read_binary_slice. rewrite slice_div by lia. change (24 - (0 + 1)) with 23. div_lia. }
  cbn [Z.eqb]. eapply parses_bind_pure; [by apply parses_fsp|]. intros w. rewrite E1, E2, E3.
  unfold mk_timedelta. by rewrite Z.mul_1_r.
Qed.

(** A negative time without fraction is stored as a two's complement. *)
Lemma value_time2_negative column h mi s :
  type column = FIELD_TYPE.TIME2 -> fsp column = Some 0 -> 0 <= h <= 838 -> 0 <= mi <= 59 -> 0 <= s <= 59 ->
  0 < time_bits h mi s ->
  rparses (read_value cd ignore_decode_errors json_depth column false)
    (be_encode 3 (2 ^ 23 - time_bits h mi s)) (VTimedelta (- seconds_us h mi s 0)).
Proof.
  intros Ht Hf Hh Hmi Hs Hpos. pick_type Ht. apply rparses_on_packet. unfold read_time2.
  assert (time_bits h mi s < 2 ^ 22) as Hb by (unfold time_bits; change (2 ^ 22) with 4194304; lia).
  assert (to_signed 24 (2 ^ 23 - time_bits h mi s) = 2 ^ 23 - time_bits h mi s) as Hts.
  { unfold to_signed. change (2 ^ (24 - 1)) with (2 ^ 23). destruct (Z.ltb_spec (2 ^ 23 - time_bits h mi s) (2 ^ 23)); lia. }
  rewrite <- (app_nil_r (be_encode _ _)). eapply parses_bind; [apply parses_be3; lia|]. rewrite Hts.
  eapply parses_lift_ok; [done|]. destruct (time_slices (-2) h mi s) as (E1 & E2 & E3); [lia..|].
  assert (read_binary_slice (2 ^ 23 - time_bits h mi s) 0 1 24 = 0) as ->.
  { unfold read_binary_slice. rewrite slice_div by lia. change (24 - (0 + 1)) with 23. div_lia. }
  cbn [Z.eqb]. replace (Z.lnot (2 ^ 23 - time_bits h mi s) + 1) with (time_bits h mi s + -2 * 2 ^ 22) by (unfold Z.lnot; lia).
  assert (fsp_ok column 0 0) as Hok by (repeat split; (done || lia)).
  eapply (parses_bind_pure _ _ []); [exact (parses_fsp column 0 0 Hok)|]. intros w. cbn [Z.opp Z.eqb Pos.eqb]. rewrite E1, E2, E3.
  unfold mk_timedelta, seconds_us, mret, ST_ret. do 3 f_equal. lia.
Qed.

(** *** Enumerations, sets and bits *)

Lemma value_enum column (k : nat) vals (i : nat) v :
  type column = FIELD_TYPE.ENUM -> size column = Some (Z.of_nat k) -> (1 <= k <= 2)%nat ->
  enum_values column = Some vals -> Z.of_nat i < 256 ^ Z.of_nat k -> vals !! i = Some v ->
  rparses (read_value cd ignore_decode_errors json_depth column false) (le_encode k (Z.of_nat i)) (VStr v).
Proof.
  intros Ht Hs Hk Hv Hi Hl. pick_type Ht. apply rparses_on_packet. unfold read_enum. rewrite Hs, Hv.
  eapply parses_lift_ok; [done|]. destruct vals as [|v0 vals]; [done|].
  rewrite <- (app_nil_r (le_encode _ _)). eapply parses_bind; [apply parses_sized; lia|].
  eapply parses_lift_ok; [done|]. eapply parses_lift_ok; [|apply parses_ret].
  rewrite py_index_nonneg, Nat2Z.id, Hl by lia. done.
Qed.

(** The members of a set whose bits are one in the mask. *)
Definition set_value (vals : list string) (mask : Z) : pyval :=
  match set_members 0 vals mask with [] => VNone | l => VSet (remove_dups l) end.

Lemma set_members_spec vals mask idx v :
  0 <= idx -> v ∈ set_members idx vals mask <->
  exists i, vals !! i = Some v /\ Z.testbit mask (idx + Z.of_nat i) = true.
Proof.
  revert idx. induction vals as [|x vals IH]; intros idx Hidx; cbn [set_members].
  - split; [by intros ?%not_elem_of_nil|]. intros (i & Hi & _). by rewrite lookup_nil in Hi.
  - rewrite land_pow2_testbit by done.
    assert ((exists i, (x :: vals) !! i = Some v /\ Z.testbit mask (idx + Z.of_nat i) = true) <->
      (v = x /\ Z.testbit mask idx = true) \/ exists i, vals !! i = Some v /\ Z.testbit mask (idx + 1 + Z.of_nat i) = true) as ->.
    { split.
      - intros ([|i] & Hi & Hb); cbn in Hi.
        + left. rewrite Z.add_0_r in Hb. by simplify_eq.
        + right. exists i. split; [done|]. by replace (idx + 1 + Z.of_nat i) with (idx + Z.of_nat (S i)) by lia.
      - intros [[-> Hb]|(i & Hi & Hb)]; [exists 0%nat; by rewrite Z.add_0_r|].
        exists (S i). split; [done|]. by replace (idx + Z.of_nat (S i)) with (idx + 1 + Z.of_nat i) by lia. }
    rewrite <- IH by lia. destruct (Z.testbit mask idx); cbn [negb]; [rewrite elem_of_cons; naive_solver|naive_solver].
Qed.

Lemma value_set column (k : nat) vals mask :
  type column = FIELD_TYPE.SET -> size column = Some (Z.of_nat k) -> (1 <= k <= 8)%nat ->
  set_values column = Some vals -> 0 <= mask < 256 ^ Z.of_nat k ->
  rparses (read_value cd ignore_decode_errors json_depth column false) (le_encode k mask) (set_value vals mask).
Proof.
  intros Ht Hs Hk Hv Hm. pick_type Ht. rewrite Hs, Hv.
  eapply rparses_then; [apply rparses_on_packet; apply parses_ret|].
  eapply rparses_last; [by apply rparses_on_packet, parses_sized|]. unfold set_value.
  destruct vals as [|v0 vals].
  - eapply rparses_then; [apply rparses_set_none|apply rparses_ret].
  - eapply rparses_then; [apply rparses_on_packet; apply parses_ret|].
    destruct (set_members 0 (v0 :: vals) mask); [|apply rparses_ret].
    eapply rparses_then; [apply rparses_set_none|apply rparses_ret].
Qed.

Lemma low_bits_app a b v : 0 <= v -> low_bits (a + b) v = (low_bits a (v / 2 ^ Z.of_nat b) ++ low_bits b v)%string.
Proof.
  intros Hv. induction a as [|a IH]; [done|]. cbn [low_bits plus String.append]. rewrite IH. f_equal.
  rewrite Z.div_pow2_bits by lia. by rewrite Nat2Z.inj_add.
Qed.

Lemma low_bits_mod n (m : nat) v : (n <= m)%nat -> low_bits n (v mod 2 ^ Z.of_nat m) = low_bits n v.
Proof.
  intros Hn. induction n as [|n IH]; [done|]. cbn [low_bits]. rewrite IH by lia.
  by rewrite Z.mod_pow2_bits_low by lia.
Qed.

Lemma be_encode_cons n v : be_encode (S n) v = (v / 256 ^ Z.of_nat n) mod 256 :: be_encode n v.
Proof. unfold be_encode. by rewrite le_encode_snoc, rev_app_distr. Qed.

Lemma pow256 n : 256 ^ Z.of_nat n = 2 ^ Z.of_nat (8 * n).
Proof. rewrite Nat2Z.inj_mul, Z.pow_mul_r by lia. done. Qed.

(** The bytes after the first of a [BIT] value. *)
Lemma parses_bit_tail n bits nb resp v :
  0 <= v ->
  parses (P:=P) (read_bit_loop n false bits nb resp) (be_encode n v) (resp ++ low_bits (8 * n) v)%string.
Proof.
  intros Hv. revert resp. induction n as [|n IH]; intros resp.
  - cbn. rewrite str_app_nil_r. apply parses_ret.
  - rewrite be_encode_cons. cbn [read_bit_loop].
    eapply (parses_bind _ _ [_]); [apply parses_read_uint8|].
    replace (8 * S n)%nat with (8 + 8 * n)%nat by lia. rewrite low_bits_app by done.
    rewrite <- str_app_assoc, <- pow256, <- (low_bits_mod 8 8 (v / _)) by lia. apply IH.
Qed.

Lemma value_bit column (n : nat) v :
  type column = FIELD_TYPE.BIT -> bits column = Some (Z.of_nat n) ->
  col_bytes column = Some ((Z.of_nat n + 7) / 8) -> (0 < n)%nat -> 0 <= v ->
  rparses (read_value cd ignore_decode_errors json_depth column false)
    (be_encode (Z.to_nat ((Z.of_nat n + 7) / 8)) v) (VStr (low_bits n v)).
Proof.
  intros Ht Hb Hc Hn Hv. pick_type Ht. apply rparses_on_packet. unfold read_bit. rewrite Hb, Hc.
  eapply parses_lift_ok; [done|]. eapply parses_lift_ok; [done|].
  set (q := ((n - 1) / 8)%nat). set (e := (n - 8 * q)%nat).
  pose proof (Nat.div_mod (n - 1) 8 ltac:(lia)) as Hq. pose proof (Nat.mod_upper_bound (n - 1) 8 ltac:(lia)) as Hr.
  fold q in Hq. assert ((Z.of_nat n + 7) / 8 = Z.of_nat q + 1) as Hnb by (unfold e in *; div_lia).
  rewrite Hnb. replace (Z.to_nat (Z.of_nat q + 1)) with (S q) by lia.
  rewrite be_encode_cons, <- (app_nil_r (be_encode q v)), app_comm_cons. eapply parses_bind; [|apply parses_ret].
  cbn [read_bit_loop]. eapply (parses_bind _ _ [_]); [apply parses_read_uint8|].
  assert ((if Z.of_nat q + 1 =? 1 then Z.of_nat n else if Z.of_nat n mod 8 =? 0 then 8 else Z.of_nat n mod 8) = Z.of_nat e) as ->.
  { unfold e. destruct (Z.eqb_spec (Z.of_nat q + 1) 1); [lia|].
    destruct (Z.eqb_spec (Z.of_nat n mod 8) 0); div_lia. }
  rewrite Nat2Z.id. change ("" ++ ?s)%string with s.
  replace n with (e + 8 * q)%nat at 2 by (unfold e; lia).
  rewrite low_bits_app, <- pow256 by done. rewrite <- (low_bits_mod e 8 (v / _)) by (unfold e; lia).
  by apply parses_bit_tail.
Qed.

(** ** The values of a column and their bytes

    [cell_of column bs v]: a server writes the value [v] of the column as the
    bytes [bs]. *)
Inductive cell_of (column : Column) : bytes -> pyval -> Prop :=
  | cell_int n z :
      int_width (type column) = Some n -> int_range (unsigned column) n z ->
      cell_of column (encode_int n z) (VInt z)
  | cell_float b :
      type column = FIELD_TYPE.FLOAT -> 0 <= b < 2 ^ 32 -> cell_of column (le_encode 4 b) (VFloat (f32_to_f64 b))
  | cell_double b :
      type column = FIELD_TYPE.DOUBLE -> 0 <= b < 2 ^ 64 -> cell_of column (le_encode 8 b) (VFloat b)
  | cell_string ml bs v :
      type column = FIELD_TYPE.VARCHAR \/ type column = FIELD_TYPE.STRING -> max_length column = Some ml ->
      zlen bs < 256 ^ Z.of_nat (prefix_size ml) -> decode_text cd ignore_decode_errors column bs = Ok v ->
      cell_of column (pascal (prefix_size ml) bs) v
  | cell_blob k bs v :
      type column = FIELD_TYPE.BLOB -> length_size column = Some (Z.of_nat k) -> (1 <= k <= 8)%nat ->
      zlen bs < 256 ^ Z.of_nat k -> decode_text cd ignore_decode_errors column bs = Ok v ->
      cell_of column (pascal k bs) v
  | cell_geometry k bs :
      type column = FIELD_TYPE.GEOMETRY -> length_size column = Some (Z.of_nat k) -> (1 <= k <= 8)%nat ->
      zlen bs < 256 ^ Z.of_nat k -> cell_of column (pascal k bs) (VBytes bs)
  | cell_json k d :
      type column = FIELD_TYPE.JSON -> length_size column = Some (Z.of_nat k) -> (1 <= k <= 8)%nat ->
      zlen (jbody d) + 1 < 256 ^ Z.of_nat k -> jok d -> (jdepth d <= json_depth)%nat ->
      cell_of column (pascal k (jtype d :: jbody d)) (jval d)
  | cell_decimal p d neg c :
      type column = FIELD_TYPE.NEWDECIMAL -> precision column = Some p -> decimals column = Some d ->
      0 <= d <= p -> 0 < p -> 0 <= c < 10 ^ p ->
      cell_of column (decimal_encode neg p d c) (VDecimal neg c (- d))
  | cell_year y :
      type column = FIELD_TYPE.YEAR -> 1901 <= y <= 2155 -> cell_of column [y - 1900] (VInt y)
  | cell_date y m d :
      type column = FIELD_TYPE.DATE -> date_ok y m d = true ->
      cell_of column (le_encode 3 (date_bits y m d)) (VDate y m d)
  | cell_date_zero raw :
      type column = FIELD_TYPE.DATE -> 0 <= raw < 2 ^ 24 ->
      (raw / 32) mod 16 = 0 \/ raw mod 32 = 0 \/ raw < 512 ->
      cell_of column (le_encode 3 raw) VNone
  | cell_datetime2 f us y m d h mi s :
      type column = FIELD_TYPE.DATETIME2 -> fsp_ok column f us ->
      mk_datetime y m d h mi s 0 = Ok (VDatetime y m d h mi s 0) ->
      cell_of column (be_encode 5 (datetime_bits y m d h mi s) ++ encode_fsp f us) (VDatetime y m d h mi s us)
  | cell_timestamp2 f us ts y m d h mi s :
      type column = FIELD_TYPE.TIMESTAMP2 -> fsp_ok column f us -> 0 <= ts < 2 ^ 31 ->
      utcfromtimestamp ts = Ok (VDatetime y m d h mi s 0) ->
      cell_of column (be_encode 4 ts ++ encode_fsp f us) (VDatetime y m d h mi s us)
  | cell_time2 f us h mi s :
      type column = FIELD_TYPE.TIME2 -> fsp_ok column f us -> 0 <= h <= 838 -> 0 <= mi <= 59 -> 0 <= s <= 59 ->
      cell_of column (be_encode 3 (2 ^ 23 + time_bits h mi s) ++ encode_fsp f us) (VTimedelta (seconds_us h mi s us))
  | cell_time2_negative h mi s :
      type column = FIELD_TYPE.TIME2 -> fsp column = Some 0 -> 0 <= h <= 838 -> 0 <= mi <= 59 -> 0 <= s <= 59 ->
      0 < time_bits h mi s ->
      cell_of column (be_encode 3 (2 ^ 23 - time_bits h mi s)) (VTimedelta (- seconds_us h mi s 0))
  | cell_enum k vals i v :
      type column = FIELD_TYPE.ENUM -> size column = Some (Z.of_nat k) -> (1 <= k <= 2)%nat ->
      enum_values column = Some vals -> Z.of_nat i < 256 ^ Z.of_nat k -> vals !! i = Some v ->
      cell_of column (le_encode k (Z.of_nat i)) (VStr v)
  | cell_set k vals mask :
      type column = FIELD_TYPE.SET -> size column = Some (Z.of_nat k) -> (1 <= k <= 8)%nat ->
      set_values column = Some vals -> 0 <= mask < 256 ^ Z.of_nat k ->
      cell_of column (le_encode k mask) (set_value vals mask)
  | cell_bit n v :
      type column = FIELD_TYPE.BIT -> bits column = Some (Z.of_nat n) ->
      col_bytes column = Some ((Z.of_nat n + 7) / 8) -> (0 < n)%nat -> 0 <= v ->
      cell_of column (be_encode (Z.to_nat ((Z.of_nat n + 7) / 8)) v) (VStr (low_bits n v)).

Lemma cell_read column bs v :
  cell_of column bs v -> rparses (read_value cd ignore_decode_errors json_depth column false) bs v.
Proof.
  intros []; [by apply value_int|by apply value_float|by apply value_double|by apply value_string|by apply value_blob
    |by apply value_geometry|by apply value_json|by apply value_decimal|by apply value_year|by apply value_date
    |by apply value_date_zero|by apply value_datetime2|by eapply value_timestamp2|by apply value_time2
    |by apply value_time2_negative|by eapply value_enum|by apply value_set|by apply value_bit].
Qed.

End rows.

(** UTF-8 only. *)
Definition no_codecs : codecs := mkCodecs (fun _ => None) (fun _ _ _ => Err LookupError).


(** The time [-00:00:01.10] is stored as [7F FF FE F6] and read as 1.9 seconds
    before midnight: the fraction of a negative time has the wrong sign. *)
Example time2_negative_fraction :
  fst (read_time2 (set_fsp 2 (new_column FIELD_TYPE.TIME2)) (wrap_bytes [0x7F; 0xFF; 0xFE; 0xF6])) =
  Ok (VTimedelta (-1900000)).
Proof. vm_compute. reflexivity. Qed.

(** The year [0000], stored as zero, is read as 1900. *)
Example year_zero :
  fst (read_value no_codecs false 10 (new_column FIELD_TYPE.YEAR) false (mkRowst (wrap_bytes [0]) [] [])) = Ok (VInt 1900).
Proof. vm_compute. reflexivity. Qed.
