(* ===== verification/RowImage.v ===== *)
(** * Row images and the rows of an event

    A row image is a null bitmap, one bit for each column of the bitmap of
    present columns, and the values of the columns that are present and not
    null.  [read_column_data] reads it back as the dictionary of the row, and
    [rows] reads back all the rows of an event and stops at its end. *)

From stdpp Require Import base list strings sets.
From Stdlib Require Import ZArith Lia Ascii.
From S2P Require Import Prelude PyBytes PyStr Values UtilBytes Packet Column Bitmap JsonBinary RowValues RowDecimal Event Sql RowsEvent RowCells.
Open Scope string_scope.
Open Scope Z_scope.
Open Scope list_scope.

(** A column of a row image. *)
Inductive cell :=
  | Absent
  | Null
  | Value (bs : bytes) (v : pyval).

Definition present (c : cell) : bool := match c with Absent => false | _ => true end.
Definition null_cell (c : cell) : bool := match c with Null => true | _ => false end.
Definition cell_bytes (c : cell) : bytes := match c with Value bs _ => bs | _ => [] end.
Definition cell_val (c : cell) : pyval := match c with Value _ v => v | _ => VNone end.

(** The names under which the columns from index [i] on are stored. *)
Fixpoint column_keys (i : Z) (columns : list Column) : list string :=
  match columns with [] => [] | c :: rest => column_key c i :: column_keys (i + 1) rest end.

(** The bitmap of present columns, and the null bitmap at the rank of each
    present column, describe the cells from index [i] on. *)
Fixpoint describes (cols_bitmap null_bitmap : bytes) (cells : list cell) (i : nat) : Prop :=
  match cells with
  | [] => True
  | c :: rest =>
      bit_at cols_bitmap (Z.of_nat i) = present c /\
      (present c = true -> bit_at null_bitmap (popcount cols_bitmap i) = null_cell c) /\
      describes cols_bitmap null_bitmap rest (S i)
  end.

Lemma popcount_mono bitmap n m : (n <= m)%nat -> popcount bitmap n <= popcount bitmap m.
Proof. induction 1 as [|m Hm IH]; [lia|]. cbn [popcount]. destruct (bit_at _ _); cbn [Z.b2z]; lia. Qed.

Lemma row_is_null_spec null p :
  bytes_ok null -> 0 <= p < 8 * zlen null -> row_is_null null p = Ok (bit_at null p).
Proof.
  intros Hok Hp. destruct (BitGet_spec null p Hok Hp) as (v & E & Hv). unfold BitGet, row_is_null in *.
  destruct (py_index null (Z.quot p 8)) as [b|]; [|done]. cbn [mbind result_bind] in *.
  injection E as <-. change 7 with (Z.ones 3) in Hv. rewrite Z.land_ones in Hv by lia.
  change (2 ^ 3) with 8 in Hv. by rewrite Hv, negb_involutive.
Qed.

Section image.
Context {P : Type} `{MysqlPacketLaws P} (cd : codecs) (ignore_decode_errors : bool) (json_depth : nat).
Context (cols_bitmap null_bitmap : bytes).
Hypothesis Hcols : bytes_ok cols_bitmap.
Hypothesis Hnull : bytes_ok null_bitmap.
Hypothesis Hlen : zlen null_bitmap = (popcount cols_bitmap (8 * length cols_bitmap) + 7) / 8.

(** A value of a cell is one its column can have. *)
Definition cell_ok (column : Column) (c : cell) : Prop :=
  match c with Value bs v => cell_of cd ignore_decode_errors json_depth column bs v | _ => True end.

Lemma cell_parsed column c (i : nat) :
  (i < 8 * length cols_bitmap)%nat -> cell_ok column c ->
  bit_at cols_bitmap (Z.of_nat i) = present c ->
  (present c = true -> bit_at null_bitmap (popcount cols_bitmap i) = null_cell c) ->
  rparses (P:=P) (read_values_name cd ignore_decode_errors json_depth column null_bitmap
    (popcount cols_bitmap i) false cols_bitmap (Z.of_nat i)) (cell_bytes c) (cell_val c).
Proof.
  intros Hi Hok Hp Hn. unfold read_values_name.
  destruct (BitGet_spec cols_bitmap (Z.of_nat i) Hcols) as (v & Ev & Hv); [unfold zlen; lia|].
  eapply rparses_lift; [exact Ev|]. rewrite Hv, Hp, negb_if.
  destruct (present c) eqn:Hpc; cycle 1.
  { destruct c; [|done..]. eapply rparses_then; [apply rparses_set_none|apply rparses_ret]. }
  assert (0 <= popcount cols_bitmap i < 8 * zlen null_bitmap) as Hj.
  { pose proof (popcount_range cols_bitmap i).
    pose proof (popcount_mono cols_bitmap (S i) (8 * length cols_bitmap) ltac:(lia)) as Hm.
    cbn [popcount] in Hm. rewrite Hp in Hm. cbn [Z.b2z] in Hm. rewrite Hlen. div_lia. }
  eapply rparses_lift; [by apply row_is_null_spec|]. rewrite (Hn eq_refl).
  destruct c as [| |bs v']; [done| |by apply cell_read].
  eapply rparses_then; [apply rparses_set_none|apply rparses_ret].
Qed.

Lemma image_columns_parsed columns cells (i : nat) values :
  Forall2 cell_ok columns cells -> describes cols_bitmap null_bitmap cells i ->
  (i + length cells <= 8 * length cols_bitmap)%nat -> NoDup (dict_keys values ++ column_keys (Z.of_nat i) columns) ->
  rparses (P:=P) (read_columns cd ignore_decode_errors json_depth columns (Z.of_nat i) (popcount cols_bitmap i) 0
     null_bitmap cols_bitmap None values)
    (concat (map cell_bytes cells)) (values ++ zip (column_keys (Z.of_nat i) columns) (map cell_val cells)).
Proof.
  intros HF. revert i values. induction HF as [|column c columns cells Hc HF IH]; intros i values Hd Hl Hnd.
  - cbn. rewrite app_nil_r. apply rparses_ret.
  - destruct Hd as (Hp & Hn & Hd). cbn [length] in Hl. cbn [read_columns map concat column_keys zip zip_with].
    eapply rparses_then; [apply rparses_ret|]. cbn [fst snd].
    eapply rparses_bind; [by apply cell_parsed; [lia|..]|].
    destruct (BitGet_spec cols_bitmap (Z.of_nat i) Hcols) as (v & Ev & Hv); [unfold zlen; lia|].
    eapply rparses_lift; [exact Ev|].
    assert ((if v =? 0 then popcount cols_bitmap i else popcount cols_bitmap i + 1) = popcount cols_bitmap (S i)) as ->.
    { cbn [popcount]. rewrite Hv. destruct (bit_at _ _); cbn; lia. }
    replace (Z.of_nat i + 1) with (Z.of_nat (S i)) in * by lia.
    cbn [column_keys] in Hnd. replace (Z.of_nat i + 1) with (Z.of_nat (S i)) in Hnd by lia.
    rewrite dict_set_new by (intros Hin; apply NoDup_app in Hnd as (_ & Hdis & _); apply (Hdis _ Hin); set_solver).
    match goal with |- rparses _ _ (values ++ ?kv :: ?l) => replace (values ++ kv :: l) with ((values ++ [kv]) ++ l) by (by rewrite <- app_assoc) end.
    apply IH; [done|lia|].
    unfold dict_keys in *. rewrite map_app. by rewrite <- app_assoc.
Qed.
End image.

Section rows.
Context {P : Type} `{MysqlPacketLaws P} (cd : codecs) (ignore_decode_errors : bool) (json_depth : nat).

(** [image_of columns bitmap bs r]: the bytes [bs] are an image, with the
    columns of [bitmap] present, of the row [r]. *)
Definition image_of (columns : list Column) (bitmap bs : bytes) (r : row) : Prop :=
  exists (null_bitmap : bytes) (cells : list cell),
    bytes_ok bitmap /\ bytes_ok null_bitmap /\
    zlen null_bitmap = (popcount bitmap (8 * length bitmap) + 7) / 8 /\
    (length cells <= 8 * length bitmap)%nat /\
    describes bitmap null_bitmap cells 0 /\
    Forall2 (cell_ok cd ignore_decode_errors json_depth) columns cells /\
    bs = (null_bitmap ++ concat (map cell_bytes cells))%list /\
    r = zip (column_keys 0 columns) (map cell_val cells).

Lemma image_parsed (event_type : Z) columns bitmap bs r :
  NoDup (column_keys 0 columns) -> image_of columns bitmap bs r ->
  rparses (P:=P) (read_column_data cd ignore_decode_errors json_depth event_type columns bitmap None) bs r.
Proof.
  intros Hnd (null & cells & Hb & Hn & Hl & Hlen & Hd & HF & -> & ->). unfold read_column_data.
  rewrite bool_decide_eq_false_2, andb_false_r by done.
  eapply rparses_then; [apply rparses_ret|].
  eapply rparses_lift; [unfold BitCount; by rewrite BitCount_from|].
  eapply rparses_bind; [apply rparses_on_packet, parses_read; rewrite Hl; do 2 f_equal; lia|].
  by apply (image_columns_parsed cd ignore_decode_errors json_depth bitmap null Hb Hn Hl columns cells 0 []).
Qed.


(** ** All the rows of an event *)

(** The row dictionaries of a row. *)
Definition row_values_of (r : row_image) : list row :=
  match r with RowValues d => [values d] | RowUpdate b a => [values b; values a] end.

(** The bytes of one row of an event of a class. *)
Definition row_bytes_of (cls : rows_class) (columns : list Column) (bitmap bitmap2 bs : bytes) (rs : list row) : Prop :=
  match cls with
  | CWrite | CDelete => exists r, image_of columns bitmap bs r /\ rs = [r]
  | CUpdate => exists b1 b2 r1 r2, image_of columns bitmap b1 r1 /\ image_of columns bitmap2 b2 r2 /\
                                   bs = (b1 ++ b2)%list /\ rs = [r1; r2]
  | CPartialUpdate => False
  end.

(** [rparses] for a result known up to a property. *)
Definition rreads {A} (m : ST (rowst P) A) (bs : bytes) (Q : A -> Prop) : Prop :=
  forall s rest, data_buffer (rs_packet s) = [] -> stream (rs_packet s) = (bs ++ rest)%list ->
    exists a s', m s = (Ok a, s') /\ Q a /\ data_buffer (rs_packet s') = [] /\
      step_to (rs_packet s) (zlen bs) rest (rs_packet s').

Lemma rreads_bind {A B} (m : ST (rowst P) A) (f : A -> ST (rowst P) B) b1 b2 (Q : A -> Prop) (R : B -> Prop) :
  rreads m b1 Q -> (forall a, Q a -> rreads (f a) b2 R) -> rreads (mbind f m) (b1 ++ b2) R.
Proof.
  intros Hm Hf s rest Hb Hs. rewrite <- app_assoc in Hs.
  destruct (Hm s _ Hb Hs) as (a & s1 & E1 & Qa & B1 & S1).
  destruct (Hf a Qa s1 rest B1 (proj1 S1)) as (b & s2 & E2 & Rb & B2 & S2).
  exists b, s2. rewrite st_bind_eq, E1. split; [done|]. split; [done|]. split; [done|].
  rewrite zlen_app. by eapply step_to_trans.
Qed.

Lemma rreads_last {A B} (m : ST (rowst P) A) (f : A -> ST (rowst P) B) bs (Q : A -> Prop) (R : B -> Prop) :
  rreads m bs Q -> (forall a, Q a -> rreads (f a) [] R) -> rreads (mbind f m) bs R.
Proof. intros. rewrite <- (app_nil_r bs). by eapply rreads_bind. Qed.

Lemma rreads_parses {A} (m : ST (rowst P) A) bs a (Q : A -> Prop) : rparses m bs a -> Q a -> rreads m bs Q.
Proof. intros Hm Hq s rest Hb Hs. destruct (Hm s rest Hb Hs) as (s' & E & ?). by exists a, s'. Qed.

Lemma rreads_ret {A} (a : A) (Q : A -> Prop) : Q a -> rreads (mret a) [] Q.
Proof. apply rreads_parses, rparses_ret. Qed.

(** A computation that only looks at the state. *)
Lemma rreads_get {A} (f : rowst P -> A) (Q : A -> Prop) :
  (forall s, Q (f s)) -> rreads (s ← st_get; mret (f s)) [] Q.
Proof.
  intros Hq s rest Hb Hs. exists (f s), s. split; [done|]. split; [done|]. split; [done|]. split; [done|].
  split; [unfold zlen; cbn; lia|apply same_header_refl].
Qed.

Lemma row_data_read event_type columns bitmap bs r :
  NoDup (column_keys 0 columns) -> image_of columns bitmap bs r ->
  rreads (read_row_data cd ignore_decode_errors json_depth event_type columns bitmap) bs (fun d => values d = r).
Proof.
  intros Hnd Hi. unfold read_row_data. eapply rreads_last with (Q := eq r).
  - eapply rreads_parses; [by apply image_parsed|done].
  - intros ? <-. eapply rreads_last; [by apply (rreads_get _ (fun _ => True))|]. intros n _.
    eapply rreads_last; [by apply (rreads_get _ (fun _ => True))|]. intros d _. by apply rreads_ret.
Qed.

Lemma one_row_read cls event_type columns bm bm2 bs rs :
  NoDup (column_keys 0 columns) -> row_bytes_of cls columns bm bm2 bs rs ->
  rreads (fetch_one_row cd ignore_decode_errors json_depth cls event_type columns bm bm2) bs (fun x => row_values_of x = rs).
Proof.
  intros Hnd. destruct cls; cbn [row_bytes_of fetch_one_row]; [| | |done].
  1-2: intros (r & Hi & ->); eapply rreads_last; [by apply row_data_read|];
    intros d <-; by apply rreads_ret.
  intros (b1 & b2 & r1 & r2 & Hi1 & Hi2 & -> & ->).
  eapply rreads_bind; [by apply row_data_read|]. intros d1 <-.
  eapply rreads_last; [by apply row_data_read|]. intros d2 <-. by apply rreads_ret.
Qed.

Lemma rows_read (one : ST (rowst P) row_image) images expected fuel s rest :
  Forall2 (fun bs rs => bs <> [] /\ rreads one bs (fun x => row_values_of x = rs)) images expected ->
  (length (concat images) < fuel)%nat ->
  data_buffer (rs_packet s) = [] -> stream (rs_packet s) = (concat images ++ rest)%list ->
  exists l s', fetch_rows fuel (read_bytes (rs_packet s) + zlen (concat images)) one s = (Ok l, s') /\
    map row_values_of l = expected /\ stream (rs_packet s') = rest.
Proof.
  intros HF. revert fuel s. induction HF as [|bs rs images expected [Hne Hone] HF IH]; intros fuel s Hfuel Hb Hs.
  - destruct fuel as [|fuel]; [lia|]. exists [], s. cbn [fetch_rows concat]. rewrite st_bind_eq. cbn [st_get].
    rewrite (proj2 (Z.ltb_ge _ _)) by (unfold zlen; cbn; lia). done.
  - destruct fuel as [|fuel]; [lia|]. cbn [concat] in *. rewrite <- app_assoc in Hs.
    destruct (Hone s _ Hb Hs) as (x & s1 & E1 & Hx & B1 & S1). pose proof S1 as (Hs1 & Hr1 & _).
    rewrite length_app in Hfuel. assert (0 < length bs)%nat by (destruct bs; [done|cbn; lia]).
    destruct (IH fuel s1) as (l & s2 & E2 & Hl & Hs2); [lia|done|done|].
    exists (x :: l), s2. cbn [fetch_rows]. rewrite st_bind_eq. cbn [st_get].
    rewrite zlen_app, Z.add_assoc, <- Hr1.
    rewrite (proj2 (Z.ltb_lt _ _)) by (unfold zlen in *; lia).
    rewrite st_bind_eq, E1, st_bind_eq, E2. cbn. by rewrite Hx, Hl.
Qed.

Lemma rows_parsed (e : RowsEvent) (event_type : Z) (images : list bytes) (expected : list (list row))
    (s : rowst P) (rest : bytes) :
  NoDup (column_keys 0 (re_columns e)) ->
  Forall2 (fun bs rs => bs <> [] /\ row_bytes_of (re_class e) (re_columns e) (re_bitmap e) (re_bitmap2 e) bs rs)
    images expected ->
  data_buffer (rs_packet s) = [] -> stream (rs_packet s) = (concat images ++ rest)%list ->
  exists l s', rows cd ignore_decode_errors json_depth e event_type (read_bytes (rs_packet s) + zlen (concat images)) s
    = (Ok l, s') /\ map row_values_of l = expected /\ stream (rs_packet s') = rest.
Proof.
  intros Hnd HF Hb Hs. unfold rows. rewrite st_bind_eq. cbn [st_get].
  apply (rows_read _ images); [|unfold zlen; lia|done|done].
  eapply Forall2_impl; [exact HF|]. intros bs rs [Hne Hr]. split; [done|]. by apply one_row_read.
Qed.

(** C13. [rows] returns exactly the rows of an event, in order: when the rest of
    the event, up to its declared size, is a sequence of row images - one per
    row of an insert or delete, a before and an after image per row of an
    update - the loop reads each of them, returns their values and stops at
    the end of the event. *)
Theorem rows_correct (e : RowsEvent) (event_type : Z) (images : list bytes) (expected : list (list row))
    (s : rowst P) (rest : bytes) :
  NoDup (column_keys 0 (re_columns e)) ->
  Forall2 (fun bs rs => bs <> [] /\ row_bytes_of (re_class e) (re_columns e) (re_bitmap e) (re_bitmap2 e) bs rs)
    images expected ->
  data_buffer (rs_packet s) = [] -> stream (rs_packet s) = (concat images ++ rest)%list ->
  exists l s', rows cd ignore_decode_errors json_depth e event_type (read_bytes (rs_packet s) + zlen (concat images)) s
    = (Ok l, s') /\ map row_values_of l = expected /\ stream (rs_packet s') = rest.
Proof. apply rows_parsed. Qed.
End rows.

(** A table of an integer and a text column, both present. *)
Definition named (n : string) (c : Column) : Column :=
  mkColumn (type c) (Some n) (unsigned c) (is_primary c) (character_set_name c) (collation_name c)
    (enum_values c) (set_values c) (visibility c) (max_length c) (size c) (fsp c) (length_size c)
    (precision c) (decimals c) (bits c) (col_bytes c).
Definition ex_columns : list Column :=
  [named "id" (new_column FIELD_TYPE.LONG); named "name" (set_max_length 20 (new_column FIELD_TYPE.VARCHAR))].

Lemma ex_columns_keys : NoDup (column_keys 0 ex_columns).
Proof. apply (bool_decide_unpack _). vm_compute. exact I. Qed.

Lemma ex_image_null :
  image_of no_codecs false 10 ex_columns [3] [2; 8; 0; 0; 0] [("id", VInt 8); ("name", VNone)].
Proof.
  exists [2], [Value [8; 0; 0; 0] (VInt 8); Null].
  repeat split; try reflexivity; try (repeat constructor; unfold byte_ok; lia); try (cbn; lia).
  repeat constructor. cbn [cell_ok]. apply (cell_int _ _ _ _ 4 8); [reflexivity|]. cbn. lia.
Qed.

Lemma ex_image_text :
  image_of no_codecs false 10 ex_columns [3] [0; 7; 0; 0; 0; 2; 104; 105] [("id", VInt 7); ("name", VStr "hi")].
Proof.
  exists [0], [Value [7; 0; 0; 0] (VInt 7); Value [2; 104; 105] (VStr "hi")].
  repeat split; try reflexivity; try (repeat constructor; unfold byte_ok; lia); try (cbn; lia).
  repeat constructor; cbn [cell_ok].
  - apply (cell_int _ _ _ _ 4 7); [reflexivity|]. cbn. lia.
  - apply (cell_string _ _ _ _ 20 [104; 105]); [by left|reflexivity|vm_compute; reflexivity|vm_compute; reflexivity].
Qed.


Definition ex_event : RowsEvent := mkRowsEvent CWrite 1 "d" "t" (PkStr "id") 0 2 ex_columns [3] [].
Definition ex_rowst : rowst list_packet :=
  mkRowst (wrap_bytes [0; 7; 0; 0; 0; 2; 104; 105; 2; 8; 0; 0; 0; 0xAA]) [] [].

Lemma rows_correct_witness :
  exists l s', rows no_codecs false 10 ex_event 0x1E 13 ex_rowst = (Ok l, s') /\
    map row_values_of l = [[[("id", VInt 7); ("name", VStr "hi")]]; [[("id", VInt 8); ("name", VNone)]]] /\
    stream (rs_packet s') = [0xAA].
Proof.
  apply (rows_correct (P:=list_packet) no_codecs false 10 ex_event 0x1E
    [[0; 7; 0; 0; 0; 2; 104; 105]; [2; 8; 0; 0; 0]] _ ex_rowst [0xAA]); [apply ex_columns_keys| |reflexivity|reflexivity].
  repeat constructor; try discriminate.
  - eexists. split; [apply ex_image_text|reflexivity].
  - eexists. split; [apply ex_image_null|reflexivity].
Defined.
