(* ===== verification/RowTyped.v ===== *)
(** * Row images from arbitrary bytes

    What reading a row can do when nothing is assumed of the bytes of the
    event: each column type has a set of values ([typed]) and a set of
    exceptions ([read_errors]), reading a value stays inside both, and the loop
    over the rows ends because every row consumes at least its null bitmap. *)

From stdpp Require Import base list strings sets.
From Stdlib Require Import ZArith Lia Ascii.
From S2P Require Import Prelude PyBytes PyStr Values UtilBytes Packet Column Bitmap JsonBinary Outcome JsonTyped RowValues RowDecimal Event Sql RowsEvent RowCells RowImage.
Open Scope string_scope.
Open Scope Z_scope.
Open Scope list_scope.

Section readers.
Context {P : Type} `{MysqlPacketLaws P} (E : exn -> Prop).
Hypothesis HE : E AssertionError.

Abbreviation reads := (reads (P:=P)).

(** ** Fixed-width readers *)

Lemma reads_exact {A} n (Q : A -> Prop) (f : bytes -> ST (wrapper P) A) :
  0 <= n -> (forall bs, bytes_ok bs -> zlen bs = n -> reads 0 Q E (f bs)) -> reads n Q E (mbind f (read n)).
Proof. intros Hn Hf. eapply gives_head; [by apply reads_read|]. intros bs []. by apply Hf. Qed.

Lemma reads_ule n : reads (Z.of_nat n) (fun z => 0 <= z < 256 ^ Z.of_nat n) E
  (bs ← read (Z.of_nat n); st_lift (unpack_ule n bs)).
Proof.
  apply reads_exact; [lia|]. intros bs Hb Hl. apply gives_lift. unfold unpack_ule.
  rewrite decide_True by (unfold zlen in Hl; lia). cbn. rewrite <- Hl. by apply le_decode_bound.
Qed.

Lemma reads_sle n : (0 < n)%nat -> reads (Z.of_nat n) (int_range false n) E
  (bs ← read (Z.of_nat n); st_lift (unpack_sle n bs)).
Proof.
  intros Hn. apply reads_exact; [lia|]. intros bs Hb Hl. apply gives_lift. unfold unpack_sle, unpack_ule.
  rewrite decide_True by (unfold zlen in Hl; lia). cbn. pose proof (le_decode_bound bs Hb) as Hd.
  rewrite Hl, pow_256_2 in Hd. apply to_signed_range; lia.
Qed.

Lemma reads_sbe n : (0 < n)%nat -> reads (Z.of_nat n) (int_range false n) E
  (bs ← read (Z.of_nat n); st_lift (unpack_sbe n bs)).
Proof.
  intros Hn. apply reads_exact; [lia|]. intros bs Hb Hl. apply gives_lift. unfold unpack_sbe, unpack_ube.
  rewrite decide_True by (unfold zlen in Hl; lia). cbn. pose proof (be_decode_bound bs Hb) as Hd.
  rewrite Hl, pow_256_2 in Hd. apply to_signed_range; lia.
Qed.

(** Three bytes read at once. *)
Lemma reads_three {A} (Q : A -> Prop) (f : Z -> Z -> Z -> A) :
  (forall a b c, byte_ok a -> byte_ok b -> byte_ok c -> Q (f a b c)) ->
  reads 3 Q E (bs ← read 3; '(a, b, c) ← st_lift (unpack_bbb bs); mret (f a b c)).
Proof.
  intros Hf. apply reads_exact; [lia|]. intros bs Hb Hl.
  destruct bs as [|a [|b [|c [|]]]]; try (unfold zlen in Hl; cbn in Hl; lia).
  inversion_clear Hb as [|?? Ha Hb']. inversion_clear Hb' as [|?? Hb Hc']. inversion_clear Hc' as [|?? Hc _].
  cbn [unpack_bbb]. eapply gives_tail with (Q := eq (a, b, c)); [by apply gives_lift|]. intros ? <-. apply gives_ret. by apply Hf.
Qed.

Lemma reads_uint24 : reads 3 (int_range true 3) E read_uint24.
Proof.
  apply (reads_three (int_range true 3) (fun a b c => a + Z.shiftl b 8 + Z.shiftl c 16)).
  unfold byte_ok. intros a b c Ha Hb Hc. cbn [int_range]. change (256 ^ Z.of_nat 3) with (2 ^ 24).
  rewrite !Z.shiftl_mul_pow2 by lia. lia.
Qed.

Lemma sign24_range z : 0 <= z < 2 ^ 24 -> int_range false 3 (sign24 z).
Proof.
  intros Hz. unfold sign24. cbn [int_range]. change (2 ^ (8 * Z.of_nat 3 - 1)) with (2 ^ 23).
  destruct (Z.leb_spec 0x800000 z); lia.
Qed.

Lemma three_bytes_lor a b c : byte_ok a -> byte_ok b -> byte_ok c ->
  Z.lor (Z.lor a (Z.shiftl b 8)) (Z.shiftl c 16) = a + b * 2 ^ 8 + c * 2 ^ 16.
Proof.
  unfold byte_ok. intros Ha Hb Hc. rewrite (lor_shiftl_add a b 8), (Z.shiftl_mul_pow2 b) by lia.
  rewrite lor_shiftl_add, Z.shiftl_mul_pow2 by lia. done.
Qed.

Lemma reads_int24 : reads 3 (int_range false 3) E read_int24.
Proof.
  apply (reads_three (int_range false 3) (fun a b c => sign24 (Z.lor (Z.lor a (Z.shiftl b 8)) (Z.shiftl c 16)))).
  intros a b c Ha Hb Hc. rewrite three_bytes_lor by done. apply sign24_range. unfold byte_ok in *. lia.
Qed.

Lemma reads_int24_be : reads 3 (int_range false 3) E read_int24_be.
Proof.
  apply (reads_three (int_range false 3) (fun a b c => sign24 (Z.lor (Z.lor (Z.shiftl a 16) (Z.shiftl b 8)) c))).
  intros a b c Ha Hb Hc. rewrite (Z.lor_comm _ c), (Z.lor_comm (Z.shiftl a 16)), Z.lor_assoc.
  rewrite three_bytes_lor by done. apply sign24_range. unfold byte_ok in *. lia.
Qed.

Lemma reads_int40_be : reads 5 (fun z => 0 <= z) E read_int40_be.
Proof.
  apply reads_exact; [lia|]. intros bs Hb Hl. apply gives_lift. rewrite decide_True by (unfold zlen in Hl; lia). cbn -[Z.shiftl].
  pose proof (be_decode_bound (drop 4 bs) ltac:(by apply Forall_drop)). 
  pose proof (be_decode_bound (take 4 bs) ltac:(by apply Forall_take)).
  rewrite Z.shiftl_mul_pow2 by lia. lia.
Qed.

(** [read_int_be_by_size] for the sizes the row readers use. *)
Lemma reads_be_by_size n :
  1 <= n <= 5 -> reads n (fun o => exists z, o = Some z) E (read_int_be_by_size n).
Proof.
  intros Hn. unfold read_int_be_by_size.
  assert (forall k, (0 < k)%nat ->
    reads (Z.of_nat k) (fun o => exists z, o = Some z) E (bs ← read (Z.of_nat k); st_lift (Some <$> unpack_sbe k bs))) as Hs.
  { intros k Hk. apply reads_exact; [lia|]. intros bs Hb Hl. apply gives_lift. unfold unpack_sbe, unpack_ube.
    rewrite decide_True by (unfold zlen in Hl; lia). cbn. eauto. }
  destruct (Z.eqb_spec n 1) as [->|]; [apply (Hs 1%nat); lia|].
  destruct (Z.eqb_spec n 2) as [->|]; [apply (Hs 2%nat); lia|].
  destruct (Z.eqb_spec n 3) as [->|]; [eapply gives_head; [apply reads_int24_be|]; intros; apply gives_ret; eauto|].
  destruct (Z.eqb_spec n 4) as [->|]; [apply (Hs 4%nat); lia|].
  destruct (Z.eqb_spec n 5) as [->|]; [|lia]. eapply gives_head; [apply reads_int40_be|]. intros. apply gives_ret. eauto.
Qed.

(** The sizes [struct.unpack] splits five, six and seven bytes into. *)
Lemma reads_fields {A} n ns (Q : A -> Prop) (f : list Z -> ST (wrapper P) A) :
  n = Z.of_nat (sum_list ns) ->
  (forall fs, length fs = length ns -> Forall (fun z => 0 <= z) fs -> reads 0 Q E (f fs)) ->
  reads n Q E (bs ← read n; fs ← st_lift (unpack_fields ns bs); f fs).
Proof.
  intros -> Hf. apply reads_exact; [lia|]. intros bs Hb Hl. unfold unpack_fields.
  rewrite decide_True by (unfold zlen in Hl; lia). unfold st_lift. clear Hl.
  set (go := fix go ns bs := match ns with [] => [] | n :: ns' => _ :: _ end).
  eapply gives_tail; [apply gives_lift with (Q := fun fs => length fs = length ns /\ Forall (fun z => 0 <= z) fs)|].
  - cbn. clear Hf. revert bs Hb. induction ns as [|k ns IH]; intros bs Hb; cbn; [done|].
    destruct (IH (drop k bs) ltac:(by apply Forall_drop)) as [Hlen Hfs]. split; [by rewrite Hlen|].
    constructor; [|done]. pose proof (le_decode_bound (take k bs) ltac:(by apply Forall_take)). lia.
  - intros fs []. by apply Hf.
Qed.

Lemma reads_uint40 : reads 5 (fun z => 0 <= z) E read_uint40.
Proof.
  apply reads_fields; [done|]. intros [|a [|b [|]]] Hl Hf; try discriminate Hl.
  repeat (apply Forall_cons in Hf as [? Hf]). apply gives_ret. rewrite Z.shiftl_mul_pow2 by lia. lia.
Qed.

Lemma reads_uint48 : reads 6 (fun z => 0 <= z) E read_uint48.
Proof.
  apply reads_fields; [done|]. intros [|a [|b [|c [|]]]] Hl Hf; try discriminate Hl.
  repeat (apply Forall_cons in Hf as [? Hf]). apply gives_ret. rewrite !Z.shiftl_mul_pow2 by lia. lia.
Qed.

Lemma reads_uint56 : reads 7 (fun z => 0 <= z) E read_uint56.
Proof.
  apply reads_fields; [done|]. intros [|a [|b [|c [|]]]] Hl Hf; try discriminate Hl.
  repeat (apply Forall_cons in Hf as [? Hf]). apply gives_ret. rewrite !Z.shiftl_mul_pow2 by lia. lia.
Qed.

Definition some_nonneg (o : option Z) : Prop := forall z, o = Some z -> 0 <= z.

(** [read_uint_by_size]; a size it does not know gives [None]. *)
Lemma reads_uint_by_size n : reads 0 some_nonneg E (read_uint_by_size n).
Proof.
  unfold read_uint_by_size.
  assert (forall (Q : Z -> Prop) k (m : ST (wrapper P) Z), 0 <= k -> (forall z, Q z -> 0 <= z) -> reads k Q E m ->
    reads 0 some_nonneg E (z ← m; mret (Some z))) as Hs.
  { intros Q k m Hk HQ Hm. eapply gives_less; [exact Hk|]. eapply gives_head; [exact Hm|].
    intros z Hz. apply gives_ret. intros ? [= <-]. auto. }
  case_match; [refine (Hs _ 1 _ _ _ (reads_ule 1)); [lia|by intros ? []]|].
  case_match; [refine (Hs _ 2 _ _ _ (reads_ule 2)); [lia|by intros ? []]|].
  case_match; [refine (Hs _ 3 _ _ _ reads_uint24); [lia|by intros ? []]|].
  case_match; [refine (Hs _ 4 _ _ _ (reads_ule 4)); [lia|by intros ? []]|].
  case_match; [refine (Hs _ 5 _ _ _ reads_uint40); [lia|done]|].
  case_match; [refine (Hs _ 6 _ _ _ reads_uint48); [lia|done]|].
  case_match; [refine (Hs _ 7 _ _ _ reads_uint56); [lia|done]|].
  case_match; [refine (Hs _ 8 _ _ _ (reads_ule 8)); [lia|by intros ? []]|]. apply gives_ret. by intros ?.
Qed.
End readers.

(** ** The values and exceptions of a column *)

(** The characters of a [BIT] value. *)
Definition is_bit (c : ascii) : bool := (Ascii.eqb c "0" || Ascii.eqb c "1")%bool.

Inductive typed (column : Column) : pyval -> Prop :=
  | typed_int n z :
      int_width (type column) = Some n -> int_range (unsigned column) n z -> typed column (VInt z)
  | typed_float b :
      type column ∈ [FIELD_TYPE.FLOAT; FIELD_TYPE.DOUBLE] -> 0 <= b < 2 ^ 64 -> typed column (VFloat b)
  | typed_str s :
      type column ∈ [FIELD_TYPE.VARCHAR; FIELD_TYPE.STRING; FIELD_TYPE.BLOB] -> typed column (VStr s)
  | typed_raw bs :
      type column ∈ [FIELD_TYPE.VARCHAR; FIELD_TYPE.STRING; FIELD_TYPE.BLOB; FIELD_TYPE.GEOMETRY] -> bytes_ok bs ->
      typed column (VBytes bs)
  | typed_decimal neg c e :
      type column = FIELD_TYPE.NEWDECIMAL -> 0 <= c -> typed column (VDecimal neg c e)
  | typed_date y m d :
      type column = FIELD_TYPE.DATE -> date_ok y m d = true -> typed column (VDate y m d)
  | typed_datetime y m d h mi s us :
      type column ∈ [FIELD_TYPE.TIMESTAMP; FIELD_TYPE.DATETIME2; FIELD_TYPE.TIMESTAMP2] ->
      date_ok y m d && time_ok h mi s us = true -> typed column (VDatetime y m d h mi s us)
  | typed_zero_date :
      type column ∈ [FIELD_TYPE.DATE; FIELD_TYPE.DATETIME2] -> typed column VNone
  | typed_time us :
      type column ∈ [FIELD_TYPE.TIME; FIELD_TYPE.TIME2] -> typed column (VTimedelta us)
  | typed_year y :
      type column = FIELD_TYPE.YEAR -> 1900 <= y <= 2155 -> typed column (VInt y)
  | typed_enum v vals :
      type column = FIELD_TYPE.ENUM -> enum_values column = Some vals -> v ∈ vals -> typed column (VStr v)
  | typed_enum_unknown :
      type column = FIELD_TYPE.ENUM -> default [] (enum_values column) = [] -> typed column VNone
  | typed_set l vals :
      type column = FIELD_TYPE.SET -> set_values column = Some vals -> l <> [] -> NoDup l -> l ⊆ vals ->
      typed column (VSet l)
  | typed_set_empty :
      type column = FIELD_TYPE.SET -> typed column VNone
  | typed_bit s :
      type column = FIELD_TYPE.BIT -> str_forallb is_bit s = true -> typed column (VStr s)
  | typed_json v :
      type column = FIELD_TYPE.JSON -> val_ok v -> typed column v.

(** The exceptions a column of a type can raise besides that of a packet that
    is too short. *)
Definition type_errors (t : Z) : list exn :=
  if bool_decide (is_Some (int_width t)) then []
  else if bool_decide (t ∈ [FIELD_TYPE.FLOAT; FIELD_TYPE.DOUBLE; FIELD_TYPE.TIME; FIELD_TYPE.TIME2; FIELD_TYPE.YEAR; FIELD_TYPE.BIT]) then []
  else if bool_decide (t ∈ [FIELD_TYPE.VARCHAR; FIELD_TYPE.STRING]) then [UnicodeDecodeError]
  else if t =? FIELD_TYPE.BLOB then [TypeError; UnicodeDecodeError]
  else if t =? FIELD_TYPE.NEWDECIMAL then [InvalidOperation]
  else if bool_decide (t ∈ [FIELD_TYPE.DATE; FIELD_TYPE.TIMESTAMP; FIELD_TYPE.DATETIME2; FIELD_TYPE.TIMESTAMP2]) then [ValueError]
  else if t =? FIELD_TYPE.ENUM then [TypeError; IndexError]
  else if bool_decide (t ∈ [FIELD_TYPE.DATETIME; FIELD_TYPE.SET; FIELD_TYPE.GEOMETRY]) then [TypeError]
  else if t =? FIELD_TYPE.JSON then TypeError :: json_errors
  else [NotImplementedErr].

Definition read_errors (column : Column) : list exn := AssertionError :: type_errors (type column).

(** The attributes the reader of a type looks at are there. *)
Definition attributes_ok (column : Column) : Prop :=
  let t := type column in
  if bool_decide (t ∈ [FIELD_TYPE.VARCHAR; FIELD_TYPE.STRING]) then is_Some (max_length column)
  else if bool_decide (t ∈ [FIELD_TYPE.BLOB; FIELD_TYPE.GEOMETRY; FIELD_TYPE.JSON]) then is_Some (length_size column)
  else if bool_decide (t ∈ [FIELD_TYPE.DATETIME2; FIELD_TYPE.TIME2; FIELD_TYPE.TIMESTAMP2]) then is_Some (fsp column)
  else if bool_decide (t ∈ [FIELD_TYPE.ENUM; FIELD_TYPE.SET]) then is_Some (size column)
  else if t =? FIELD_TYPE.NEWDECIMAL then is_Some (precision column) /\ is_Some (decimals column)
  else if t =? FIELD_TYPE.BIT then is_Some (bits column) /\ is_Some (col_bytes column)
  else True.

(** A codec raises only for bytes it cannot decode or a name it does not know. *)
Definition codecs_ok (cd : codecs) : Prop := forall enc errors bs,
  outcome (fun _ => True) (fun e => e = UnicodeDecodeError \/ e = LookupError) (decode cd enc errors bs).

(** ** The readers of single types *)

Lemma set_members_subset idx vals mask : set_members idx vals mask ⊆ vals.
Proof. revert idx. induction vals as [|v vals IH]; intros idx; cbn; [done|]. case_match; specialize (IH (idx + 1)); set_solver. Qed.

Section types.
Context {P : Type} `{MysqlPacketLaws P} (cd : codecs) (ignore : bool) (depth : nat) (E : exn -> Prop).
Hypothesis Hcd : codecs_ok cd.
Hypothesis HE : E AssertionError.
Abbreviation reads := (reads (P:=P)).

Lemma reads_some {A} (R : A -> Prop) k (f : Z -> ST (wrapper P) A) z :
  reads k R E (f z) -> reads k R E (mbind f (need (Some z))).
Proof. intros Hf. eapply gives_tail with (Q := eq z); [by apply gives_lift|]. by intros ? <-. Qed.

Lemma reads_attr {A B} (R : B -> Prop) k (f : A -> ST (wrapper P) B) o a :
  o = Some a -> reads k R E (f a) -> reads k R E (mbind f (read_attr o)).
Proof. intros -> Hf. eapply gives_tail with (Q := eq a); [by apply gives_lift|]. by intros ? <-. Qed.

(** A string with a length of one or two bytes. *)
Lemma reads_pascal_short n :
  n = 1 \/ n = 2 -> reads 0 bytes_ok E (read_length_coded_pascal_string n).
Proof.
  assert (forall k, reads 0 bytes_ok E (o ← (z ← (bs ← read (Z.of_nat k); st_lift (unpack_ule k bs)); mret (Some z)); read_opt o)) as Hk.
  { intros k. eapply gives_tail with (Q := fun o => exists z, o = Some z /\ 0 <= z).
    - eapply gives_less; [|eapply gives_head; [by apply reads_ule|]]; [lia|]. intros z [Hz _]. apply gives_ret. by exists z.
    - intros ? (z & -> & Hz). eapply gives_less; [exact Hz|]. eapply gives_mono; [by apply reads_read|lia|by intros ? []|done]. }
  intros [-> | ->]; [exact (Hk 1%nat)|exact (Hk 2%nat)].
Qed.

Lemma reads_pascal n : E TypeError -> reads 0 bytes_ok E (read_length_coded_pascal_string n).
Proof.
  intros Ht. unfold read_length_coded_pascal_string. eapply gives_tail; [by apply reads_uint_by_size|].
  intros [z|] Hz; [|by apply gives_raise]. specialize (Hz z eq_refl). eapply gives_less; [exact Hz|].
  eapply gives_mono; [by apply reads_read|lia|by intros ? []|done].
Qed.

Lemma decode_text_outcome column bs :
  E UnicodeDecodeError -> bytes_ok bs ->
  outcome (fun v => v = VBytes bs \/ exists s, v = VStr s) E (decode_text cd ignore column bs).
Proof.
  intros Hu Hb. unfold decode_text. destruct (character_set_name column) as [cs|].
  - match goal with |- context [decode cd ?enc ?er bs] => pose proof (Hcd enc er bs) as Hd; destruct (decode cd enc er bs) as [s|e] end.
    + cbn. eauto.
    + cbn in Hd. destruct Hd as [-> | ->]; cbn; eauto.
  - unfold utf8_decode. destruct ignore; cbn; [eauto|]. case_match; cbn; eauto.
Qed.

Lemma reads_fsp column : is_Some (fsp column) -> reads 0 (fun _ => True) E (read_fsp column).
Proof.
  intros [f Hf]. unfold read_fsp. eapply reads_attr; [exact Hf|]. case_match eqn:Hr; [|by apply gives_ret].
  match goal with |- context [read_int_be_by_size ?k] => assert (1 <= k <= 5) as Hk end.
  { zify_bool. repeat case_match; lia. }
  eapply gives_less; [|eapply gives_head; [by apply reads_be_by_size|]]; [lia|]. intros ? [z ->].
  apply reads_some. by apply gives_ret.
Qed.

Definition is_datetime (v : pyval) : Prop := exists y m d h mi s us, v = VDatetime y m d h mi s us /\ val_ok v.

Lemma mk_datetime_typed y m d h mi s us : E ValueError -> outcome is_datetime E (mk_datetime y m d h mi s us).
Proof. intros He. unfold mk_datetime. case_match eqn:Hc; [|done]. cbn. unfold is_datetime. repeat eexists. done. Qed.

Lemma reads_add_fsp column v :
  is_Some (fsp column) -> E ValueError -> is_datetime v -> reads 0 is_datetime E (add_fsp_to_time v column).
Proof.
  intros Hf He Hv. unfold add_fsp_to_time. eapply gives_tail; [by apply reads_fsp|]. intros us _.
  case_match; [|by apply gives_ret]. apply gives_lift. destruct Hv as (y & m & d & h & mi & s & us0 & -> & _).
  by apply mk_datetime_typed.
Qed.

Lemma reads_datetime2 column raw :
  is_Some (fsp column) -> E ValueError -> reads 0 (fun v => v = VNone \/ is_datetime v) E (read_datetime2 column raw).
Proof.
  intros Hf He. unfold read_datetime2. unfold mk_datetime at 1. cbv zeta.
  destruct (date_ok _ _ _ && _)%bool eqn:Hc.
  - eapply gives_mono; [apply (reads_add_fsp column); [done|done|]|lia|by right|done].
    unfold is_datetime. repeat eexists. done.
  - eapply gives_tail; [by apply reads_fsp|]. intros _ _. apply gives_ret. by left.
Qed.

Lemma reads_time2 column : is_Some (fsp column) -> reads 0 (fun v => exists us, v = VTimedelta us) E (read_time2 column).
Proof.
  intros Hf. unfold read_time2. eapply gives_less; [|eapply gives_head; [apply (reads_be_by_size E HE 3); lia|]]; [lia|].
  intros ? [z ->]. apply reads_some. eapply gives_tail; [by apply reads_fsp|]. intros us _. cbn. apply gives_ret. eauto.
Qed.

Lemma read_date_outcome raw :
  E ValueError -> outcome (fun v => v = VNone \/ exists y m d, v = VDate y m d /\ date_ok y m d = true) E (read_date raw).
Proof.
  intros He. unfold read_date. destruct (raw =? 0); [by left|]. cbv zeta.
  destruct (_ || _)%bool; [by left|]. unfold mk_date. destruct (date_ok _ _ _) eqn:Hc; [|done]. right. eauto.
Qed.

Lemma low_bits_bits n v : str_forallb is_bit (low_bits n v) = true.
Proof. induction n as [|n IH]; [done|]. cbn [low_bits str_forallb]. rewrite IH. by destruct (Z.testbit v (Z.of_nat n)). Qed.

Lemma reads_bit_loop n first nb bytes_ resp :
  str_forallb is_bit resp = true -> reads 0 (fun s => str_forallb is_bit s = true) E (read_bit_loop n first nb bytes_ resp).
Proof.
  revert first resp. induction n as [|n IH]; intros first resp Hr; cbn [read_bit_loop]; [by apply gives_ret|].
  eapply gives_less; [|eapply gives_head; [apply (reads_ule E HE 1)|]]; [lia|]. intros data _. apply IH.
  rewrite str_forallb_app, Hr. apply low_bits_bits.
Qed.

(** A remainder by nine indexes the table of sizes, also a negative one. *)
Lemma compressed_size n : outcome (fun s => 0 <= s <= 4) E (py_index compressed_bytes (n - Z.quot n 9 * 9)).
Proof.
  replace (n - Z.quot n 9 * 9) with (Z.rem n 9) by (pose proof (Z.quot_rem' n 9); lia).
  pose proof (Z.rem_bound_abs n 9 ltac:(lia)) as Hb.
  assert (forallb (fun k => match py_index compressed_bytes (Z.of_nat k - 8) with
                            | Ok s => (0 <=? s) && (s <=? 4) | Err _ => false end) (seq 0 17) = true) as Hall by done.
  rewrite forallb_forall in Hall. specialize (Hall (Z.to_nat (Z.rem n 9 + 8)) ltac:(apply in_seq; lia)).
  replace (Z.of_nat (Z.to_nat (Z.rem n 9 + 8)) - 8) with (Z.rem n 9) in Hall by lia.
  destruct (py_index _ _); [|done]. cbn. zify_bool. lia.
Qed.

Lemma reads_decimal_groups n mask res : reads 0 (fun _ => True) E (read_decimal_groups n mask res).
Proof.
  revert res. induction n as [|n IH]; intros res; cbn [read_decimal_groups]; [by apply gives_ret|].
  eapply gives_less; [|apply (reads_exact E HE 4)]; [lia|lia|]. intros bs Hb Hl.
  eapply gives_tail with (Q := fun _ => True); [|intros; apply IH]. apply gives_lift. unfold unpack_sbe, unpack_ube.
  rewrite decide_True by (unfold zlen in Hl; lia). done.
Qed.

Lemma reads_optional_digits sz (f : Z -> string) res :
  0 <= sz <= 4 ->
  reads 0 (fun _ => True) E (if 0 <? sz then o ← read_int_be_by_size sz; v ← need o; mret (f v) else mret res).
Proof.
  intros Hs. destruct (Z.ltb_spec 0 sz); [|by apply gives_ret].
  eapply gives_less; [|eapply gives_head; [apply (reads_be_by_size E HE sz); lia|]]; [lia|].
  intros ? [z ->]. apply reads_some. by apply gives_ret.
Qed.

Lemma decimal_str_typed s : E InvalidOperation -> outcome (fun v => exists neg c e, v = VDecimal neg c e /\ 0 <= c) E (decimal_of_str s).
Proof.
  intros He. pose proof (decimal_of_str_outcome (fun _ => True) ltac:(done) s) as Hok. revert Hok.
  unfold decimal_of_str. destruct (match s with EmptyString => _ | String _ _ => _ end) as [neg body].
  destruct (split_on "." body) as [|i [|f [|]]]; cbn; auto; case_match; cbn; eauto 8.
Qed.

Lemma reads_new_decimal column :
  is_Some (precision column) -> is_Some (decimals column) -> E InvalidOperation ->
  reads 0 (fun v => exists neg c e, v = VDecimal neg c e /\ 0 <= c) E (read_new_decimal column).
Proof.
  intros [p Hp] [d Hd] He. unfold read_new_decimal. eapply reads_attr; [exact Hp|]. eapply reads_attr; [exact Hd|].
  eapply gives_bind with (k1 := 1) (k2 := -1); [apply (reads_ule E HE 1)| |lia]. intros b Hb.
  destruct (if negb _ then _ else _) as [res mask].
  assert (pack_ule 1 (Z.lxor b 0x80) = Ok [Z.lxor b 0x80] /\ byte_ok (Z.lxor b 0x80)) as [Hpack Hx].
  { pose proof (byte_forall (fun b => (0 <=? Z.lxor b 0x80) && (Z.lxor b 0x80 <? 256)) eq_refl b Hb) as Hr.
    cbn beta in Hr. unfold pack_ule. change (256 ^ Z.of_nat 1) with 256. rewrite Hr. zify_bool.
    split; [|done]. cbn [le_encode]. by rewrite Z.mod_small. }
  eapply gives_tail with (Q := eq [Z.lxor b 0x80]); [apply gives_lift; by rewrite Hpack|]. intros ? <-.
  eapply gives_head; [apply (reads_unread [Z.lxor b 0x80]); by constructor|]. intros _ _.
  unfold read_decimal_digits.
  eapply gives_tail; [apply gives_lift, compressed_size|]. intros sz Hsz.
  eapply gives_tail; [by apply reads_optional_digits|]. intros res1 _.
  eapply gives_tail; [apply reads_decimal_groups|]. intros res2 _.
  eapply gives_tail; [apply reads_decimal_groups|]. intros res3 _.
  eapply gives_tail; [apply gives_lift, compressed_size|]. intros sz' Hsz'.
  eapply gives_tail; [by apply reads_optional_digits|]. intros res4 _. apply gives_lift. by apply decimal_str_typed.
Qed.

Lemma length_encoded_outcome data :
  (forall e, e ∈ json_errors -> E e) -> outcome (fun _ => True) E (length_encoded_int data).
Proof.
  intros Hj. assert (E IndexError /\ E StructError) as [Hi Hs] by (split; apply Hj; in_list).
  assert (forall k bs, outcome (fun _ => True) E (unpack_ule k bs)) as Hu
    by (intros k bs; unfold unpack_ule; by case_decide).
  unfold length_encoded_int. destruct data as [|b rest]; [done|]. case_match; [done|].
  case_match; [eapply outcome_bind; [apply Hu|done]|].
  case_match; [unfold parse_uint24; eapply outcome_bind with (Q := fun _ => True); [|done];
    do 3 (eapply outcome_bind; [by apply py_index_outcome|]; intros ? _); done|].
  case_match; [eapply outcome_bind; [apply Hu|done]|done].
Qed.

Lemma slice_opt_ok bs o : bytes_ok bs -> bytes_ok (slice_to_opt bs o) /\ bytes_ok (slice_from_opt bs o).
Proof. intros Hb. destruct o; cbn; eauto with py. Qed.

Lemma decode_json_outcome partial data :
  (forall e, e ∈ json_errors -> E e) -> bytes_ok data ->
  outcome (fun c => val_ok (json_cell_val (Some c))) E (decode_json_data depth partial data).
Proof.
  intros Hj Hd. assert (E IndexError) as Hi by (apply Hj; in_list). unfold decode_json_data. destruct partial.
  2:{ eapply outcome_bind; [by apply py_index_outcome|]. intros t _.
      eapply outcome_bind; [apply (parse_json_outcome E Hj); eauto with py|]. by intros. }
  eapply outcome_bind; [by apply py_index_outcome|]. intros op _.
  eapply outcome_bind with (Q := fun _ => True); [unfold by_index; repeat case_match; (done || (apply Hj; in_list))|]. intros jop _.
  eapply outcome_bind; [by apply length_encoded_outcome|]. intros [[pl ?] n] _.
  eapply outcome_bind; [by apply length_encoded_outcome|]. intros [[vl ?] n'] _.
  destruct jop; [| |done]; (eapply outcome_bind; [by apply py_index_outcome|]; intros t _;
    eapply outcome_bind; [apply (parse_json_outcome E Hj)|done]; apply slice_from_ok, slice_opt_ok, slice_from_ok, slice_opt_ok; eauto with py).
Qed.

Lemma reads_json n partial :
  E TypeError -> (forall e, e ∈ json_errors -> E e) ->
  reads 0 (fun c => val_ok (json_cell_val c)) E (read_binary_json depth n partial).
Proof.
  intros Ht Hj. unfold read_binary_json. eapply gives_tail; [by apply reads_uint_by_size|]. intros o Ho.
  case_decide; [by apply gives_ret|]. destruct o as [z|]; [|by apply gives_raise].
  eapply gives_less; [|eapply gives_head; [apply reads_read|]]; [exact (Ho z eq_refl)|exact (Ho z eq_refl)|done|].
  intros data [Hd _]. apply gives_lift. eapply outcome_fmap; [by apply decode_json_outcome|done].
Qed.

Lemma reads_enum column :
  type column = FIELD_TYPE.ENUM -> is_Some (size column) -> E TypeError -> E IndexError ->
  reads 0 (typed column) E (read_enum column).
Proof.
  intros Ht [sz Hs] He Hi. unfold read_enum. eapply reads_attr; [exact Hs|].
  destruct (enum_values column) as [[|v vals]|] eqn:Ev.
  1,3: eapply gives_tail; [by apply reads_uint_by_size|]; intros ? _; apply gives_ret; apply typed_enum_unknown; by rewrite ?Ev.
  eapply gives_tail; [by apply reads_uint_by_size|]. intros [z|] _; [|by apply gives_raise]. apply reads_some.
  eapply gives_tail; [apply gives_lift; by apply py_index_outcome|]. intros x Hx. apply gives_ret. by eapply typed_enum.
Qed.
End types.

Lemma lor_lt a b n : 0 <= n -> 0 <= a < 2 ^ n -> 0 <= b < 2 ^ n -> 0 <= Z.lor a b < 2 ^ n.
Proof.
  intros Hn Ha Hb. assert (0 <= Z.lor a b) as H0 by (apply Z.lor_nonneg; lia). split; [done|].
  destruct (Z.eq_dec (Z.lor a b) 0) as [->|Hne]; [lia|]. apply Z.log2_lt_pow2; [lia|]. rewrite Z.log2_lor by lia.
  assert (forall x, 0 <= x < 2 ^ n -> x = 0 \/ Z.log2 x < n) as Hx.
  { intros x Hx. destruct (Z.eq_dec x 0); [by left|right]. apply Z.log2_lt_pow2; lia. }
  assert (n <> 0) by (intros ->; assert (a = 0) by lia; assert (b = 0) by lia; subst; done).
  destruct (Hx a Ha) as [->|], (Hx b Hb) as [->|]; change (Z.log2 0) with 0 in *; lia.
Qed.

Lemma f32_to_f64_range b : 0 <= b < 2 ^ 32 -> 0 <= f32_to_f64 b < 2 ^ 64.
Proof.
  intros Hb. unfold f32_to_f64. cbv zeta. change 0xFF with (Z.ones 8). change 0x7FFFFF with (Z.ones 23).
  rewrite !Z.land_ones, !Z.shiftr_div_pow2, !Z.shiftl_mul_pow2 by lia.
  assert (0 <= b / 2 ^ 31 < 2) by (Z.to_euclidean_division_equations; lia).
  assert (0 <= (b / 2 ^ 23) mod 2 ^ 8 < 2 ^ 8) by (apply Z.mod_pos_bound; lia).
  assert (0 <= b mod 2 ^ 23 < 2 ^ 23) as Hm by (apply Z.mod_pos_bound; lia).
  set (m := b mod 2 ^ 23) in *. set (e := (b / 2 ^ 23) mod 2 ^ 8) in *. set (s := b / 2 ^ 31) in *. clearbody m e s.
  repeat case_match; zify_bool; try lia; repeat (apply lor_lt; [lia| |]); try lia.
  - assert (0 <= Z.log2 m < 23) by (split; [apply Z.log2_nonneg|apply Z.log2_lt_pow2; lia]). rewrite ?Z.shiftl_mul_pow2 by lia. lia.
  - pose proof (Z.log2_spec m ltac:(lia)) as Hl. assert (0 <= Z.log2 m < 23) by (split; [apply Z.log2_nonneg|apply Z.log2_lt_pow2; lia]).
    rewrite ?Z.shiftl_mul_pow2 by lia. rewrite Z.pow_succ_r in Hl by lia.
    assert (2 ^ Z.log2 m * 2 ^ (52 - Z.log2 m) = 2 ^ 52) by (rewrite <- Z.pow_add_r by lia; f_equal; lia).
    assert (0 < 2 ^ (52 - Z.log2 m)) by (apply Z.pow_pos_nonneg; lia). nia.
  - rewrite Z.shiftl_mul_pow2 by lia. lia.
Qed.

(** ** Reading a value *)

Section values.
Context {P : Type} `{MysqlPacketLaws P} (cd : codecs) (ignore : bool) (depth : nat).
Hypothesis Hcd : codecs_ok cd.

Definition rgives {A} : Z -> (A -> Prop) -> (exn -> Prop) -> ST (rowst P) A -> Prop := gives rs_packet.

Lemma rgives_packet {A} k (Q : A -> Prop) E (m : PM P A) : reads k Q E m -> rgives k Q E (on_packet m).
Proof.
  intros Hm s Hs. unfold on_packet. specialize (Hm (rs_packet s) Hs). by destruct (m (rs_packet s)) as [[a|e] w].
Qed.

Lemma rgives_attr {A B} (R : B -> Prop) k E (f : A -> ST (rowst P) B) o a :
  o = Some a -> rgives k R E (f a) -> rgives k R E (mbind f (on_packet (read_attr o))).
Proof.
  intros -> Hf. eapply gives_tail with (Q := eq a); [by apply rgives_packet, gives_lift|]. by intros ? <-.
Qed.

Lemma rgives_set_none n src E : rgives 0 (fun _ => True) E (set_none n src).
Proof. by apply gives_modify. Qed.
Lemma rgives_set_raw n raw E : rgives 0 (fun _ => True) E (set_raw n raw).
Proof. by apply gives_modify. Qed.

Lemma rgives_none_if v n src (Q : pyval -> Prop) E : Q v -> rgives 0 Q E (none_if v n src).
Proof.
  intros Hv. unfold none_if. eapply gives_tail with (Q := fun _ => True); [|intros; by apply gives_ret].
  case_match; [apply rgives_set_none|by apply gives_ret].
Qed.

(** A value computed from what was read first. *)
Lemma rgives_read {A B} k (Q : A -> Prop) (R : B -> Prop) E (m : PM P A) (f : A -> ST (rowst P) B) :
  0 <= k -> reads k Q E m -> (forall a, Q a -> rgives 0 R E (f a)) -> rgives 0 R E (mbind f (on_packet m)).
Proof. intros Hk Hm Hf. eapply gives_less; [exact Hk|]. eapply gives_head; [by apply rgives_packet|done]. Qed.

Context (column : Column) (E : exn -> Prop).
Hypothesis Hattr : attributes_ok column.
Hypothesis HE : forall e, e ∈ read_errors column -> E e.

Lemma E_short : E AssertionError. Proof. apply HE. left. Qed.

Lemma value_error t es e : type column = t -> type_errors t = es -> e ∈ es -> E e.
Proof. intros Ht <- He. apply HE. unfold read_errors. rewrite Ht. by right. Qed.

(** Signed and unsigned integers of a width. *)
Lemma rgives_int n (mu ms : PM P Z) :
  int_width (type column) = Some n -> reads (Z.of_nat n) (int_range true n) E mu ->
  reads (Z.of_nat n) (int_range false n) E ms ->
  rgives 0 (typed column) E (z ← on_packet (if unsigned column then mu else ms); mret (VInt z)).
Proof.
  intros Hw Hu Hs. eapply (rgives_read (Z.of_nat n) (int_range (unsigned column) n)); [lia| |].
  - by destruct (unsigned column).
  - intros z Hz. apply gives_ret. by apply (typed_int _ n).
Qed.

(** Facts about the type at hand. *)
Ltac raised Ht := eapply value_error; [exact Ht|reflexivity|in_list].
Ltac attribute Ht := let Ha := fresh in pose proof Hattr as Ha; unfold attributes_ok in Ha; rewrite Ht in Ha; exact Ha.
Ltac one_of Ht := rewrite Ht; in_list.

Lemma rgives_text n :
  type column ∈ [FIELD_TYPE.VARCHAR; FIELD_TYPE.STRING; FIELD_TYPE.BLOB] -> E UnicodeDecodeError ->
  reads 0 bytes_ok E (read_length_coded_pascal_string (P:=P) n) ->
  rgives 0 (typed column) E (on_packet (read_string_value cd ignore n column)).
Proof.
  intros Ht Hu Hn. apply rgives_packet. unfold read_string_value. eapply gives_tail; [exact Hn|]. intros bs Hb.
  apply gives_lift. eapply outcome_mono; [by apply (decode_text_outcome cd ignore E Hcd)| |done].
  intros v [-> | [s ->]]; [apply typed_raw; [|done]; set_solver|by apply typed_str].
Qed.

Lemma rgives_set sz vals :
  type column = FIELD_TYPE.SET -> set_values column = vals ->
  rgives 0 (typed column) E
    (o ← on_packet (read_uint_by_size sz);
     match vals with
     | Some ((_ :: _) as vals) =>
         mask ← on_packet (need o);
         match set_members 0 vals mask with
         | [] => set_none (name column) NONE_SOURCE.EMPTY_SET ;; mret VNone
         | l => mret (VSet (remove_dups l))
         end
     | _ => set_none (name column) NONE_SOURCE.EMPTY_SET ;; mret VNone
     end).
Proof.
  intros Ht Hv.
  assert (rgives 0 (typed column) E (set_none (name column) NONE_SOURCE.EMPTY_SET ;; mret VNone)) as Hnone
    by (eapply gives_tail; [apply rgives_set_none|intros; apply gives_ret; by apply typed_set_empty]).
  eapply (rgives_read 0); [lia|apply reads_uint_by_size, E_short|]. intros o _.
  destruct vals as [[|x l]|]; [done| |done].
  eapply gives_tail with (Q := fun _ => True).
  { apply rgives_packet, gives_lift, outcome_of_option; [raised Ht|done]. }
  intros mask _. pose proof (set_members_subset 0 (x :: l) mask) as Hs.
  destruct (set_members 0 (x :: l) mask) as [|m ms]; [done|]. apply gives_ret.
  apply (typed_set _ _ (x :: l)); [done|done| |apply NoDup_remove_dups|].
  - intros Hnil. assert (m ∈ remove_dups (m :: ms)) as Hin by (apply elem_of_remove_dups; left).
    rewrite Hnil in Hin. by apply not_elem_of_nil in Hin.
  - intros y Hy. apply Hs. by apply elem_of_remove_dups.
Qed.

(** The types in the groups the proofs below take them in. *)
Definition number_types : list Z :=
  [FIELD_TYPE.TINY; FIELD_TYPE.SHORT; FIELD_TYPE.LONG; FIELD_TYPE.INT24; FIELD_TYPE.LONGLONG; FIELD_TYPE.FLOAT;
   FIELD_TYPE.DOUBLE; FIELD_TYPE.NEWDECIMAL; FIELD_TYPE.YEAR; FIELD_TYPE.BIT].
Definition temporal_types : list Z :=
  [FIELD_TYPE.DATETIME; FIELD_TYPE.TIME; FIELD_TYPE.DATE; FIELD_TYPE.TIMESTAMP; FIELD_TYPE.DATETIME2;
   FIELD_TYPE.TIME2; FIELD_TYPE.TIMESTAMP2].
Definition string_types : list Z :=
  [FIELD_TYPE.VARCHAR; FIELD_TYPE.STRING; FIELD_TYPE.BLOB; FIELD_TYPE.ENUM; FIELD_TYPE.SET; FIELD_TYPE.GEOMETRY; FIELD_TYPE.JSON].

(** Take the next type of the group. *)
Ltac next_type Hin Ht :=
  apply elem_of_cons in Hin as [Ht|Hin]; [pick_type Ht|try by apply not_elem_of_nil in Hin].

Lemma rgives_number : type column ∈ number_types ->
  forall partial, rgives 0 (typed column) E (read_value cd ignore depth column partial).
Proof.
  intros Hin partial. pose proof E_short as Hs.
  next_type Hin Ht; [apply (rgives_int 1); [by rewrite Ht|by apply (reads_ule E Hs 1)|by apply (reads_sle E Hs 1); lia]|].
  next_type Hin Ht; [apply (rgives_int 2); [by rewrite Ht|by apply (reads_ule E Hs 2)|by apply (reads_sle E Hs 2); lia]|].
  next_type Hin Ht; [apply (rgives_int 4); [by rewrite Ht|by apply (reads_ule E Hs 4)|by apply (reads_sle E Hs 4); lia]|].
  next_type Hin Ht; [apply (rgives_int 3); [by rewrite Ht|by apply reads_uint24|by apply reads_int24]|].
  next_type Hin Ht; [apply (rgives_int 8); [by rewrite Ht|by apply (reads_ule E Hs 8)|by apply (reads_sle E Hs 8); lia]|].
  next_type Hin Ht.
  { eapply (rgives_read 4); [lia|by apply (reads_ule E Hs 4)|]. intros b Hb. apply gives_ret.
    apply typed_float; [one_of Ht|by apply f32_to_f64_range]. }
  next_type Hin Ht.
  { eapply (rgives_read 8); [lia|by apply (reads_ule E Hs 8)|]. intros b Hb. apply gives_ret. apply typed_float; [one_of Ht|exact Hb]. }
  next_type Hin Ht.
  { assert (is_Some (precision column) /\ is_Some (decimals column)) as [Hp Hd] by (attribute Ht).
    apply rgives_packet. eapply gives_mono; [apply (reads_new_decimal E Hs); [done|done|raised Ht]|lia| |done].
    intros v (neg & c & e & -> & Hc). by apply typed_decimal. }
  next_type Hin Ht.
  { eapply (rgives_read 1); [lia|by apply (reads_ule E Hs 1)|]. intros z [Hz1 Hz2]. change (256 ^ Z.of_nat 1) with 256 in Hz2.
    apply gives_ret. apply typed_year; [done|lia]. }
  next_type Hin Ht.
  assert (is_Some (bits column) /\ is_Some (col_bytes column)) as [[n Hn] [b Hb]] by (attribute Ht).
  apply rgives_packet. unfold read_bit. eapply reads_attr; [exact Hb|]. eapply reads_attr; [exact Hn|].
  eapply gives_tail; [by apply reads_bit_loop|]. intros s Hbits. apply gives_ret. by apply typed_bit.
Qed.

Lemma rgives_temporal : type column ∈ temporal_types ->
  forall partial, rgives 0 (typed column) E (read_value cd ignore depth column partial).
Proof.
  intros Hin partial. pose proof E_short as Hs.
  assert (forall v, type column ∈ [FIELD_TYPE.TIMESTAMP; FIELD_TYPE.DATETIME2; FIELD_TYPE.TIMESTAMP2] ->
    is_datetime v -> typed column v) as Hdt by (intros ? ? (? & ? & ? & ? & ? & ? & ? & -> & ?); by apply typed_datetime).
  assert (forall ts, E ValueError -> outcome is_datetime E (utcfromtimestamp ts)) as Hutc.
  { intros ts He. unfold utcfromtimestamp. destruct (civil_from_days _) as [[y m] d]. by apply mk_datetime_typed. }
  next_type Hin Ht.
  { eapply (rgives_read 8); [lia|by apply (reads_ule E Hs 8)|]. intros raw _.
    eapply gives_tail; [apply rgives_set_raw|]. intros _ _. apply gives_raise. raised Ht. }
  next_type Hin Ht.
  { apply rgives_packet. eapply gives_less; [|eapply gives_head; [by apply reads_uint24|]]; [lia|].
    intros ? _. apply gives_ret. apply typed_time. one_of Ht. }
  next_type Hin Ht.
  { eapply (rgives_read 3); [lia|by apply reads_uint24|]. intros raw _. eapply gives_tail; [apply rgives_set_raw|]. intros _ _.
    eapply gives_tail; [apply gives_lift, (read_date_outcome E); raised Ht|].
    intros v [-> | (y & m & d & -> & Hd)]; apply rgives_none_if; [apply typed_zero_date; one_of Ht|by apply typed_date]. }
  next_type Hin Ht.
  { eapply (rgives_read 4); [lia|by apply (reads_ule E Hs 4)|]. intros raw _. eapply gives_tail; [apply rgives_set_raw|].
    intros _ _. apply gives_lift. eapply outcome_mono; [apply Hutc; raised Ht| |done]. intros. apply Hdt; [one_of Ht|done]. }
  next_type Hin Ht.
  { eapply (rgives_read 5); [lia|apply (reads_be_by_size E Hs 5); lia|]. intros ? [z ->].
    eapply gives_tail with (Q := eq z); [by apply rgives_packet, gives_lift|]. intros ? <-.
    eapply gives_tail; [apply rgives_set_raw|]. intros _ _.
    eapply gives_tail; [apply rgives_packet, (reads_datetime2 E Hs); [attribute Ht|raised Ht]|].
    intros v [-> | Hv]; apply rgives_none_if; [apply typed_zero_date; one_of Ht|]. apply Hdt; [one_of Ht|done]. }
  next_type Hin Ht.
  { apply rgives_packet. eapply gives_mono; [apply (reads_time2 E Hs); attribute Ht|lia| |done].
    intros ? [us ->]. apply typed_time. one_of Ht. }
  next_type Hin Ht. eapply (rgives_read 4); [lia|apply (reads_be_by_size E Hs 4); lia|]. intros ? [z ->].
  eapply gives_tail with (Q := eq z); [by apply rgives_packet, gives_lift|]. intros ? <-.
  eapply gives_tail; [apply gives_lift, Hutc; raised Ht|]. intros v Hv. apply rgives_packet.
  eapply gives_mono; [apply (reads_add_fsp E Hs); [attribute Ht|raised Ht|done]|lia| |done]. intros. apply Hdt; [one_of Ht|done].
Qed.

Lemma rgives_string : type column ∈ string_types ->
  forall partial, rgives 0 (typed column) E (read_value cd ignore depth column partial).
Proof.
  intros Hin partial. pose proof E_short as Hs.
  assert (forall ml : Z, reads (P:=P) 0 bytes_ok E (read_length_coded_pascal_string (if 255 <? ml then 2 else 1))) as Hshort.
  { intros ml. apply reads_pascal_short; [done|]. destruct (255 <? ml); [by right|by left]. }
  next_type Hin Ht.
  { assert (is_Some (max_length column)) as [ml Hml] by (attribute Ht). eapply rgives_attr; [exact Hml|].
    apply rgives_text; [one_of Ht|raised Ht|apply Hshort]. }
  next_type Hin Ht.
  { assert (is_Some (max_length column)) as [ml Hml] by (attribute Ht). eapply rgives_attr; [exact Hml|].
    apply rgives_text; [one_of Ht|raised Ht|apply Hshort]. }
  next_type Hin Ht.
  { assert (is_Some (length_size column)) as [ls Hls] by (attribute Ht). eapply rgives_attr; [exact Hls|].
    apply rgives_text; [one_of Ht|raised Ht|apply reads_pascal; [done|raised Ht]]. }
  next_type Hin Ht; [apply rgives_packet, reads_enum; [done|done|attribute Ht|raised Ht|raised Ht]|].
  next_type Hin Ht.
  { assert (is_Some (size column)) as [sz Hsz] by (attribute Ht). eapply rgives_attr; [exact Hsz|]. by apply rgives_set. }
  next_type Hin Ht.
  { assert (is_Some (length_size column)) as [ls Hls] by (attribute Ht). eapply rgives_attr; [exact Hls|].
    eapply (rgives_read 0); [lia|apply reads_pascal; [done|raised Ht]|]. intros bs Hb. apply gives_ret.
    apply typed_raw; [one_of Ht|done]. }
  next_type Hin Ht. assert (is_Some (length_size column)) as [ls Hls] by (attribute Ht). eapply rgives_attr; [exact Hls|].
  eapply (rgives_read 0); [lia|apply (reads_json depth E Hs); [raised Ht|]|].
  - intros e He. eapply value_error; [exact Ht|reflexivity|by right].
  - intros c Hc. destruct partial; [apply rgives_none_if|apply gives_ret]; by apply typed_json.
Qed.

(** Any other type is refused. *)
Lemma rgives_other : type column ∉ number_types ++ temporal_types ++ string_types ->
  forall partial, rgives 0 (typed column) E (read_value cd ignore depth column partial).
Proof.
  intros Hn partial. assert (forall t, t ∈ number_types ++ temporal_types ++ string_types -> (type column =? t) = false) as Hneq
    by (intros t Hin; apply Z.eqb_neq; intros Heq; apply Hn; by rewrite Heq).
  assert (E NotImplementedErr) as He.
  { apply HE. unfold read_errors, type_errors. right.
    assert (int_width (type column) = None) as -> by (unfold int_width; by rewrite !Hneq by in_list).
    rewrite !Hneq by in_list.
    rewrite !bool_decide_eq_false_2; [left| | | | |]; intros Hin; try (by destruct Hin);
      apply Hn; revert Hin; unfold number_types, temporal_types, string_types; set_solver. }
  unfold read_value. cbv zeta. rewrite !Hneq by in_list. by apply gives_raise.
Qed.

Lemma rgives_read_value partial : rgives 0 (typed column) E (read_value cd ignore depth column partial).
Proof.
  destruct (decide (type column ∈ number_types)) as [Hin|Hnum]; [by apply rgives_number|].
  destruct (decide (type column ∈ temporal_types)) as [Hin|Htmp]; [by apply rgives_temporal|].
  destruct (decide (type column ∈ string_types)) as [Hin|Hstr]; [by apply rgives_string|].
  apply rgives_other. rewrite !elem_of_app. tauto.
Qed.
End values.

(** ** Reading the rows of an event *)

Section loop.
Context {P : Type} `{MysqlPacketLaws P} (cd : codecs) (ignore : bool) (depth : nat).
Hypothesis Hcd : codecs_ok cd.
Context (cols : list Column).
Hypothesis Hcols : Forall attributes_ok cols.

(** A bitmap that is too short for the columns raises [IndexError]. *)
Definition row_errors : list exn := AssertionError :: IndexError :: concat (map read_errors cols).
Let E : exn -> Prop := fun e => e ∈ row_errors.

(** The value under a key is one of the column's, or [None]. *)
Definition cell_typed (kv : string * pyval) : Prop :=
  exists i c, cols !! i = Some c /\ fst kv = column_key c (Z.of_nat i) /\ (snd kv = VNone \/ typed c (snd kv)).

Lemma row_error_of c e : c ∈ cols -> e ∈ read_errors c -> E e.
Proof.
  intros Hc He. unfold E, row_errors. right. right. apply list_elem_of_In, in_concat. exists (read_errors c).
  split; [|by apply list_elem_of_In]. apply in_map. by apply list_elem_of_In.
Qed.

Lemma row_short : E AssertionError. Proof. left. Qed.
Lemma row_index : E IndexError. Proof. right. left. Qed.

Lemma rgives_lift {A} (Q : A -> Prop) (r : result A) : outcome Q E r -> rgives (P:=P) 0 Q E (st_lift r).
Proof. apply gives_lift. Qed.

Lemma BitGet_outcome bitmap i : outcome (fun _ => True) E (BitGet bitmap i).
Proof. unfold BitGet. eapply outcome_bind; [apply py_index_outcome, row_index|by intros]. Qed.

Lemma rgives_values_name c nb ni partial cb i :
  c ∈ cols -> rgives (P:=P) 0 (fun v => v = VNone \/ typed c v) E (read_values_name cd ignore depth c nb ni partial cb i).
Proof.
  intros Hc. unfold read_values_name. eapply gives_tail; [apply gives_lift, BitGet_outcome|]. intros present _.
  case_match; [eapply gives_tail; [apply rgives_set_none|intros; apply gives_ret; by left]|].
  eapply gives_tail with (Q := fun _ => True).
  { apply gives_lift. unfold row_is_null. eapply outcome_bind; [apply py_index_outcome, row_index|by intros]. }
  intros [] _; [eapply gives_tail; [apply rgives_set_none|intros; apply gives_ret; by left]|].
  eapply gives_mono; [apply (rgives_read_value cd ignore depth Hcd c E)|lia|by right|done].
  - by eapply Forall_forall in Hcols.
  - intros e He. by eapply row_error_of.
Qed.

Lemma rgives_columns pre rest ni pi nb cb values :
  cols = pre ++ rest -> Forall cell_typed values ->
  rgives (P:=P) 0 (Forall cell_typed) E (read_columns cd ignore depth rest (zlen pre) ni pi nb cb None values).
Proof.
  revert pre ni pi values. induction rest as [|c rest IH]; intros pre ni pi values Hsplit Hv; cbn [read_columns]; [by apply gives_ret|].
  eapply gives_tail with (Q := eq (false, pi)); [by apply gives_ret|]. intros ? <-.
  assert (cols !! length pre = Some c) as Hlook by (rewrite Hsplit, lookup_app_r, Nat.sub_diag by lia; done).
  eapply gives_tail; [apply rgives_values_name; by eapply list_elem_of_lookup_2|]. intros v Hvt.
  eapply gives_tail; [apply gives_lift, BitGet_outcome|]. intros present _.
  replace (zlen pre + 1) with (zlen (pre ++ [c])) by (by rewrite zlen_app).
  apply IH; [by rewrite <- app_assoc|]. clear IH. induction Hv as [|[k' v'] vs Hkv Hvs IHv]; cbn.
  - constructor; [|constructor]. exists (length pre), c. done.
  - case_decide; constructor; try done. subst. exists (length pre), c. done.
Qed.

Lemma rgives_column_data event_type bitmap n :
  BitCount bitmap = Ok n -> 0 < n ->
  rgives (P:=P) 1 (Forall cell_typed) E (read_column_data cd ignore depth event_type cols bitmap None).
Proof.
  intros Hn Hpos. unfold read_column_data. eapply gives_tail with (Q := eq None).
  { rewrite bool_decide_eq_false_2, andb_false_r by done. by apply gives_ret. }
  intros ? <-. eapply gives_tail with (Q := eq n); [apply gives_lift; by rewrite Hn|]. intros ? <-.
  assert (1 <= (n + 7) / 8) by (Z.to_euclidean_division_equations; lia).
  eapply gives_bind with (k1 := 1) (k2 := 0); [|intros nb _|lia].
  - eapply gives_mono; [apply rgives_packet, reads_read; [|apply row_short]|done|done|done]. lia.
  - by apply (rgives_columns []).
Qed.

(** Without a column that is present, only the loop over the columns runs. *)
Lemma rgives_column_data_any event_type bitmap :
  bytes_ok bitmap ->
  rgives (P:=P) 0 (Forall cell_typed) E (read_column_data cd ignore depth event_type cols bitmap None).
Proof.
  intros Hb. unfold read_column_data. eapply gives_tail with (Q := eq None).
  { rewrite bool_decide_eq_false_2, andb_false_r by done. by apply gives_ret. }
  intros ? <-. eapply gives_tail with (Q := fun n => 0 <= n).
  { apply gives_lift. unfold BitCount. rewrite BitCount_from by done. cbn. apply popcount_range. }
  intros n Hn. assert (0 <= (n + 7) / 8) by (apply Z.div_pos; lia).
  eapply gives_less; [done|]. eapply gives_head; [apply rgives_packet, reads_read; [done|apply row_short]|].
  intros nb _. by apply (rgives_columns []).
Qed.

Definition image_typed (r : row_image) : Prop :=
  match r with
  | RowValues d => Forall cell_typed (values d)
  | RowUpdate b a => Forall cell_typed (values b) /\ Forall cell_typed (values a)
  end.

Lemma rgives_row_data k event_type bitmap :
  rgives (P:=P) k (Forall cell_typed) E (read_column_data cd ignore depth event_type cols bitmap None) ->
  rgives (P:=P) k (fun d => Forall cell_typed (values d)) E (read_row_data cd ignore depth event_type cols bitmap).
Proof.
  intros Hd. unfold read_row_data. eapply gives_head; [exact Hd|]. intros v Hv.
  eapply gives_tail with (Q := fun _ => True); [apply gives_get; intros; by apply gives_ret|]. intros ns _.
  eapply gives_tail with (Q := fun _ => True); [apply gives_get; intros; by apply gives_ret|]. intros rv _. by apply gives_ret.
Qed.

Lemma rgives_one_row cls event_type bitmap bitmap2 n :
  cls <> CPartialUpdate -> BitCount bitmap = Ok n -> 0 < n -> bytes_ok bitmap2 ->
  rgives (P:=P) 1 image_typed E (fetch_one_row cd ignore depth cls event_type cols bitmap bitmap2).
Proof.
  intros Hcls Hn Hpos Hb2.
  assert (rgives (P:=P) 1 (fun d => Forall cell_typed (values d)) E (read_row_data cd ignore depth event_type cols bitmap)) as H1
    by (by eapply rgives_row_data, rgives_column_data).
  destruct cls; cbn [fetch_one_row]; [| | |done].
  1,2: eapply gives_head; [exact H1|]; intros d Hd; by apply gives_ret.
  eapply gives_head; [exact H1|]. intros b Hb.
  eapply gives_tail; [by apply rgives_row_data, rgives_column_data_any|]. intros a Ha. by apply gives_ret.
Qed.

(** A loop whose body consumes a byte ends when the fuel covers the bytes up
    to the end of the event. *)
Lemma fetch_rows_total fuel event_size (one : ST (rowst P) row_image) s :
  rgives 1 image_typed E one -> wrapper_ok (rs_packet s) ->
  (Z.to_nat (event_size - read_bytes (rs_packet s)) < fuel)%nat ->
  match fetch_rows fuel event_size one s with
  | (Ok l, s') => Forall image_typed l /\ event_size <= read_bytes (rs_packet s')
  | (Err e, _) => e ∈ row_errors
  end.
Proof.
  intros Hone. revert s. induction fuel as [|fuel IH]; intros s Hs Hf; [lia|]. cbn [fetch_rows].
  rewrite st_bind_eq. cbn [st_get]. destruct (Z.ltb_spec (read_bytes (rs_packet s)) event_size) as [Hlt|Hge].
  - rewrite st_bind_eq. specialize (Hone s Hs). destruct (one s) as [[r|e] s1]; [|done].
    destruct Hone as (Hs1 & Hk & Hr). specialize (IH s1 Hs1 ltac:(lia)). rewrite st_bind_eq.
    destruct (fetch_rows fuel event_size one s1) as [[l|e] s2]; [|done]. cbn. destruct IH. split; [by constructor|done].
  - cbn. split; [constructor|done].
Qed.
End loop.

(** ** The columns of a table map

    Whatever the metadata, a column definition either finds the packet too
    short or sets the attributes the reader of its type needs.  [ENUM] and
    [SET] are sent as [STRING]; the codes of their own have no metadata. *)
Definition too_short (e : exn) : Prop := e = AssertionError.

Lemma reads_byte_then {P A} `{MysqlPacketLaws P} (Q : A -> Prop) (f : Z -> ST (wrapper P) A) :
  (forall v, 0 <= v < 256 -> reads 0 Q too_short (f v)) -> reads 0 Q too_short (mbind f read_uint8).
Proof.
  intros Hf. eapply gives_less; [|eapply gives_head; [by apply (reads_ule too_short eq_refl 1)|exact Hf]]. lia.
Qed.

Lemma reads_byte_attribute {P} `{MysqlPacketLaws P} (c : Z -> Column) :
  (forall v, attributes_ok (c v)) -> reads (P:=P) 0 attributes_ok too_short (v ← read_uint8; mret (c v)).
Proof. intros Hc. apply reads_byte_then. intros v _. by apply gives_ret. Qed.

Lemma string_metadata_attributes {P} `{MysqlPacketLaws P} t :
  t = FIELD_TYPE.VAR_STRING \/ t = FIELD_TYPE.STRING ->
  reads (P:=P) 0 attributes_ok too_short (read_string_metadata (new_column t)).
Proof.
  intros Ht. unfold read_string_metadata. apply reads_byte_then. intros hi Hhi. apply reads_byte_then. intros lo Hlo. cbv zeta.
  assert (Z.shiftr (Z.shiftl hi 8 + lo) 8 = hi) as ->
    by (rewrite Z.shiftr_div_pow2, Z.shiftl_mul_pow2 by lia; Z.to_euclidean_division_equations; lia).
  destruct (_ || _)%bool eqn:Hreal; apply gives_ret.
  - apply orb_true_iff in Hreal as [Hr|Hr]; apply Z.eqb_eq in Hr; rewrite Hr; by eexists.
  - destruct Ht as [-> | ->]; [exact I|by eexists].
Qed.

Definition attribute_types : list Z :=
  [FIELD_TYPE.VARCHAR; FIELD_TYPE.STRING; FIELD_TYPE.BLOB; FIELD_TYPE.GEOMETRY; FIELD_TYPE.JSON; FIELD_TYPE.DATETIME2;
   FIELD_TYPE.TIME2; FIELD_TYPE.TIMESTAMP2; FIELD_TYPE.ENUM; FIELD_TYPE.SET; FIELD_TYPE.NEWDECIMAL; FIELD_TYPE.BIT].

Lemma no_attributes c : type c ∉ attribute_types -> attributes_ok c.
Proof.
  intros Hn. unfold attributes_ok.
  assert (forall l, l ⊆ attribute_types -> bool_decide (type c ∈ l) = false) as Hl
    by (intros l Hsub; apply bool_decide_eq_false_2; intros Hin; by apply Hn, Hsub).
  rewrite !Hl by (unfold attribute_types; set_solver).
  rewrite !(proj2 (Z.eqb_neq _ _)) by (intros Heq; apply Hn; rewrite Heq; in_list). done.
Qed.

Lemma parsed_column_attributes {P} `{MysqlPacketLaws P} t :
  t ∉ [FIELD_TYPE.ENUM; FIELD_TYPE.SET] -> reads (P:=P) 0 attributes_ok too_short (parse_column_definition t).
Proof.
  intros Hset. unfold parse_column_definition.
  destruct (Z.eqb_spec t FIELD_TYPE.VARCHAR) as [->|N1].
  { eapply gives_less; [|eapply gives_head; [apply (reads_read 2); [lia|reflexivity]|]]; [lia|]. intros bs [Hb Hl].
    eapply gives_tail with (Q := fun _ => True); [|intros; apply gives_ret; by eexists].
    apply gives_lift. unfold unpack_ule. by rewrite decide_True by (unfold zlen in Hl; lia). }
  destruct (Z.eqb_spec t FIELD_TYPE.DOUBLE) as [->|N2]; [by apply reads_byte_attribute|].
  destruct (Z.eqb_spec t FIELD_TYPE.FLOAT) as [->|N3]; [by apply reads_byte_attribute|].
  destruct (Z.eqb_spec t FIELD_TYPE.TIMESTAMP2) as [->|N4]; [apply reads_byte_attribute; by eexists|].
  destruct (Z.eqb_spec t FIELD_TYPE.DATETIME2) as [->|N5]; [apply reads_byte_attribute; by eexists|].
  destruct (Z.eqb_spec t FIELD_TYPE.TIME2) as [->|N6]; [apply reads_byte_attribute; by eexists|].
  destruct (Z.eqb_spec t FIELD_TYPE.VAR_STRING) as [->|N7]; [apply string_metadata_attributes; by left|].
  destruct (Z.eqb_spec t FIELD_TYPE.STRING) as [->|N8]; [apply string_metadata_attributes; by right|]. cbn [orb].
  destruct (Z.eqb_spec t FIELD_TYPE.BLOB) as [->|N9]; [apply reads_byte_attribute; by eexists|].
  destruct (Z.eqb_spec t FIELD_TYPE.GEOMETRY) as [->|N10]; [apply reads_byte_attribute; by eexists|].
  destruct (Z.eqb_spec t FIELD_TYPE.JSON) as [->|N11]; [apply reads_byte_attribute; by eexists|].
  destruct (Z.eqb_spec t FIELD_TYPE.NEWDECIMAL) as [->|N12].
  { apply reads_byte_then. intros p _. apply reads_byte_then. intros d _. apply gives_ret. split; by eexists. }
  destruct (Z.eqb_spec t FIELD_TYPE.BIT) as [->|N13].
  { apply reads_byte_then. intros p _. apply reads_byte_then. intros d _. apply gives_ret. split; by eexists. }
  apply gives_ret. apply no_attributes. cbn [new_column type]. unfold attribute_types. set_solver.
Qed.

(** C16. Reading a value is type safe on any bytes: for a column whose attributes
    are those of its type, [read_value] either returns a value of the column's
    type - integers in the range of their width and signedness, dates and
    datetimes that exist, members of the enumeration or set, binary digits,
    well-formed JSON - or raises one of the exceptions of the type; it never
    moves backwards in the packet and leaves it well-formed. *)
Theorem read_value_typed {P} `{MysqlPacketLaws P} (cd : codecs) (ignore : bool) (depth : nat) (column : Column)
    (partial : bool) (s : rowst P) :
  codecs_ok cd -> attributes_ok column -> wrapper_ok (rs_packet s) ->
  match read_value cd ignore depth column partial s with
  | (Ok v, s') => typed column v /\ wrapper_ok (rs_packet s') /\ read_bytes (rs_packet s) <= read_bytes (rs_packet s')
  | (Err e, _) => e ∈ read_errors column
  end.
Proof.
  intros Hcd Hattr Hs.
  pose proof (rgives_read_value cd ignore depth Hcd column (fun e => e ∈ read_errors column) Hattr (fun _ He => He) partial s Hs) as Hv.
  destruct (read_value _ _ _ _ _ s) as [[v|e] s']; [|done]. destruct Hv as (? & ? & ?). split; [done|]. split; [done|lia].
Qed.

Lemma no_codecs_ok : codecs_ok no_codecs.
Proof. intros enc er bs. by right. Qed.

Lemma read_value_typed_witness :
  fst (read_value no_codecs false 10 (new_column FIELD_TYPE.TINY) false (mkRowst (wrap_bytes [0x80]) [] [])) = Ok (VInt (-128)) /\
  typed (new_column FIELD_TYPE.TINY) (VInt (-128)).
Proof.
  pose proof (read_value_typed (P:=list_packet) no_codecs false 10 (new_column FIELD_TYPE.TINY) false
    (mkRowst (wrap_bytes [0x80]) [] []) no_codecs_ok I ltac:(split; repeat constructor; cbn; lia)) as H.
  split; [vm_compute; reflexivity|]. exact (proj1 H).
Defined.

(** C17. The loop over the rows of an insert, update or delete ends on every
    packet, well-formed or not: when at least one column is present in the
    images, [rows] returns typed rows having read up to the end of the event,
    or raises an exception of its columns, of a bitmap that is too short, or of
    a packet that is too short - the bound on its iterations is never what
    stops it. *)
Theorem rows_terminate {P} `{MysqlPacketLaws P} (cd : codecs) (ignore : bool) (depth : nat) (e : RowsEvent)
    (event_type event_size n : Z) (s : rowst P) :
  codecs_ok cd -> Forall attributes_ok (re_columns e) -> re_class e <> CPartialUpdate ->
  BitCount (re_bitmap e) = Ok n -> 0 < n -> bytes_ok (re_bitmap2 e) -> wrapper_ok (rs_packet s) ->
  match rows cd ignore depth e event_type event_size s with
  | (Ok l, s') => Forall (image_typed (re_columns e)) l /\ event_size <= read_bytes (rs_packet s')
  | (Err x, _) => x ∈ row_errors (re_columns e)
  end.
Proof.
  intros Hcd Hcols Hcls Hn Hpos Hb2 Hs. unfold rows. rewrite st_bind_eq. cbn [st_get].
  apply fetch_rows_total; [|done|lia]. by apply (rgives_one_row cd ignore depth Hcd _ Hcols _ _ _ _ n).
Qed.

Lemma ex_columns_attributes : Forall attributes_ok ex_columns.
Proof. constructor; [exact I|]. constructor; [by eexists|constructor]. Qed.

Lemma ex_rowst_ok : wrapper_ok (rs_packet ex_rowst).
Proof. split; [constructor|]. cbn. repeat (apply Forall_cons_2; [unfold byte_ok; lia|]). constructor. Qed.

(** The null bitmap of the third row is there, its values are missing. *)
Lemma rows_terminate_witness :
  fst (rows no_codecs false 10 ex_event 0x1E 14 ex_rowst) = Err AssertionError /\
  AssertionError ∈ row_errors ex_columns.
Proof.
  pose proof (rows_terminate (P:=list_packet) no_codecs false 10 ex_event 0x1E 14 2 ex_rowst no_codecs_ok
    ex_columns_attributes ltac:(discriminate) eq_refl ltac:(lia) ltac:(constructor) ex_rowst_ok) as H.
  split; [vm_compute; reflexivity|exact H].
Defined.

(** With no column present a row has no bytes, and the loop does not end. *)
Definition empty_rowst : rowst list_packet := mkRowst (mkWrapper 0 [] (mkPacket [] 0 eq_refl) 0 0 0 0 0 0) [] [].

Example empty_rows_loop : forall fuel,
  fst (fetch_rows fuel 1 (fetch_one_row no_codecs false 10 CWrite 0x1E [] [] []) empty_rowst) =
  Err (PyException "out of fuel").
Proof.
  assert (fetch_one_row no_codecs false 10 CWrite 0x1E [] [] [] empty_rowst =
    (Ok (RowValues (mkRowData [] [] (Some []))), empty_rowst)) as Hone by (vm_compute; reflexivity).
  induction fuel as [|fuel IH]; [done|]. cbn [fetch_rows]. rewrite st_bind_eq. cbn [st_get].
  change (read_bytes (rs_packet empty_rowst) <? 1) with true. cbn iota. rewrite st_bind_eq, Hone, st_bind_eq.
  destruct (fetch_rows fuel 1 _ _) as [[l|e] s']; [discriminate IH|exact IH].
Qed.
