(* ===== verification/TableMap.v ===== *)
(** * Table map events

    [TableMapEvent], [OptionalMetaData] and [MetadataFieldType] of
    [pymysqlreplication/row_event.py]: the columns of a table, the optional
    metadata behind them, and the names, character sets, signedness and keys
    it gives to the columns.

    The columns are objects shared between the event, its first table object
    (stored in the table map before the metadata is read) and its second:
    [sync_column_info] changes them in place.  The event keeps them once, in
    [tm_columns]; the table left in the table map has the changed columns and
    the primary key computed before the change. *)

From stdpp Require Import base list strings sets.
From Stdlib Require Import ZArith Lia Ascii ZifyNat.
From S2P Require Import Prelude PyBytes PyStr Values Packet Column Bitmap RowValues Event RowsEvent Charset.
Open Scope string_scope.
Open Scope Z_scope.

(** ** Metadata *)

Inductive MetadataFieldType :=
  | SIGNEDNESS | DEFAULT_CHARSET | COLUMN_CHARSET | COLUMN_NAME | SET_STR_VALUE | ENUM_STR_VALUE
  | GEOMETRY_TYPE | SIMPLE_PRIMARY_KEY | PRIMARY_KEY_WITH_PREFIX | ENUM_AND_SET_DEFAULT_CHARSET
  | ENUM_AND_SET_COLUMN_CHARSET | VISIBILITY | UNKNOWN_METADATA_FIELD_TYPE.

(** [MetadataFieldType.by_index] *)
Definition field_by_index (index : Z) : result MetadataFieldType :=
  if index =? 1 then Ok SIGNEDNESS
  else if index =? 2 then Ok DEFAULT_CHARSET
  else if index =? 3 then Ok COLUMN_CHARSET
  else if index =? 4 then Ok COLUMN_NAME
  else if index =? 5 then Ok SET_STR_VALUE
  else if index =? 6 then Ok ENUM_STR_VALUE
  else if index =? 7 then Ok GEOMETRY_TYPE
  else if index =? 8 then Ok SIMPLE_PRIMARY_KEY
  else if index =? 9 then Ok PRIMARY_KEY_WITH_PREFIX
  else if index =? 10 then Ok ENUM_AND_SET_DEFAULT_CHARSET
  else if index =? 11 then Ok ENUM_AND_SET_COLUMN_CHARSET
  else if index =? 12 then Ok VISIBILITY
  else if index =? 128 then Ok UNKNOWN_METADATA_FIELD_TYPE
  else Err ValueError.

(** A length-coded integer, [None] for the NULL marker. *)
Abbreviation oint := (option Z).

(** Lists that a method may leave as [None] are optional. *)
Record OptionalMetaData := mkMeta {
  unsigned_column_list : list bool;
  default_charset_collation : oint;
  charset_collation : dict oint oint;
  column_charset : list oint;
  column_name_list : list string;
  set_str_value_list : option (list (list string));
  set_enum_str_value_list : option (list (list string));
  geometry_type_list : list oint;
  simple_primary_key_list : list oint;
  primary_keys_with_prefix : dict oint oint;
  enum_and_set_default_charset : oint;
  enum_and_set_charset_collation : dict oint oint;
  enum_and_set_default_column_charset_list : list oint;
  charset_collation_list : option (list oint);
  enum_and_set_collation_list : option (list oint);
  visibility_list : list bool
}.

(** [OptionalMetaData.__init__] *)
Definition empty_meta : OptionalMetaData :=
  mkMeta [] None [] [] [] (Some []) (Some []) [] [] [] None [] [] (Some []) (Some []) [].

(** *** Column classes *)

Definition is_character_column (column_type : Z) (dbms : string) : bool :=
  bool_decide (column_type ∈ [FIELD_TYPE.STRING; FIELD_TYPE.VAR_STRING; FIELD_TYPE.VARCHAR; FIELD_TYPE.BLOB])
  || ((column_type =? FIELD_TYPE.GEOMETRY) && bool_decide (dbms = "mariadb")).
Definition is_enum_column (column_type : Z) : bool := column_type =? FIELD_TYPE.ENUM.
Definition is_set_column (column_type : Z) : bool := column_type =? FIELD_TYPE.SET.
Definition is_enum_or_set_column (column_type : Z) (dbms : string) : bool :=
  bool_decide (column_type ∈ [FIELD_TYPE.ENUM; FIELD_TYPE.SET]).
Definition is_numeric_column (column_type : Z) : bool :=
  bool_decide (column_type ∈ [FIELD_TYPE.TINY; FIELD_TYPE.SHORT; FIELD_TYPE.INT24; FIELD_TYPE.LONG;
    FIELD_TYPE.LONGLONG; FIELD_TYPE.NEWDECIMAL; FIELD_TYPE.FLOAT; FIELD_TYPE.DOUBLE; FIELD_TYPE.YEAR]).

(** *** Lists of the columns *)

(** [_convert_include_non_numeric_column]: spread the flags of the numeric
    columns over all columns. *)
Fixpoint convert_include_non_numeric_column (types : list Z) (signedness_bool_list : list bool) (position : nat)
  : result (list bool) :=
  match types with
  | [] => Ok []
  | t :: rest =>
      if is_numeric_column t then
        b ← of_option IndexError (signedness_bool_list !! position);
        l ← convert_include_non_numeric_column rest signedness_bool_list (S position);
        Ok (b :: l)
      else
        l ← convert_include_non_numeric_column rest signedness_bool_list position;
        Ok (false :: l)
  end.

(** [_parsed_column_charset_by_default_charset] *)
Fixpoint parsed_column_charset_by_default_charset (types : list Z) (dbms : string) (default_charset : oint)
    (charsets : dict oint oint) (detect : Z -> string -> bool) (position : Z) : list oint :=
  match types with
  | [] => []
  | t :: rest =>
      if detect t dbms then
        default default_charset (dict_get charsets (Some position))
          :: parsed_column_charset_by_default_charset rest dbms default_charset charsets detect (position + 1)
      else parsed_column_charset_by_default_charset rest dbms default_charset charsets detect position
  end.

Fixpoint column_charset_loop (types : list Z) (dbms : string) (column_charset_list : list oint)
    (detect : Z -> string -> bool) (position : nat) : result (list oint) :=
  match types with
  | [] => Ok []
  | t :: rest =>
      if detect t dbms then
        c ← of_option IndexError (column_charset_list !! position);
        l ← column_charset_loop rest dbms column_charset_list detect (S position);
        Ok (c :: l)
      else column_charset_loop rest dbms column_charset_list detect position
  end.

(** [_parsed_column_charset_by_column_charset]: [None] for an empty list. *)
Definition parsed_column_charset_by_column_charset (types : list Z) (dbms : string) (column_charset_list : list oint)
    (detect : Z -> string -> bool) : result (option (list oint)) :=
  match column_charset_list with
  | [] => Ok None
  | _ => Some <$> column_charset_loop types dbms column_charset_list detect 0
  end.

(** The loop of [_read_bool_list]: bits most significant first. *)
Fixpoint bool_list_loop (types : list Z) (signedness_flag : bool) (bytes_data : bytes) (byte : Z)
    (byte_idx : nat) (bit_idx : Z) : result (list bool) :=
  match types with
  | [] => Ok []
  | t :: rest =>
      if negb (is_numeric_column t) && signedness_flag
      then bool_list_loop rest signedness_flag bytes_data byte byte_idx bit_idx
      else
        '(byte, byte_idx) ← (if bit_idx =? 0
                             then b ← of_option IndexError (bytes_data !! byte_idx); Ok (b, S byte_idx)
                             else Ok (byte, byte_idx));
        l ← bool_list_loop rest signedness_flag bytes_data byte byte_idx ((bit_idx + 1) mod 8);
        Ok (negb (Z.land byte (Z.shiftr 0x80 bit_idx) =? 0) :: l)
  end.

Section read.
Context {P : Type} `{MysqlPacket P}.

Definition read_bool_list (types : list Z) (read_byte_length : oint) (signedness_flag : bool) : PM P (list bool) :=
  bytes_data ← read_opt read_byte_length;
  st_lift (bool_list_loop types signedness_flag bytes_data 0 0 0).

(** [while self.packet.read_bytes < read_until] around a reader. *)
Fixpoint read_until_loop {A} (fuel : nat) (read_until : Z) (m : PM P A) : PM P (list A) :=
  match fuel with
  | O => st_raise (PyException "out of fuel")
  | S f =>
      w ← st_get;
      if read_bytes w <? read_until then x ← m; l ← read_until_loop f read_until m; mret (x :: l)
      else mret []
  end.

Definition read_while {A} (length : Z) (m : PM P A) : PM P (list A) :=
  w ← st_get; read_until_loop (read_fuel w) (read_bytes w + length) m.

Definition read_ints (length : oint) : PM P (list oint) :=
  n ← need length; read_while n read_length_coded_binary.

(** [_read_default_charset]: [None], which the caller cannot unpack, for an
    empty field. *)
Definition read_default_charset (length : oint) : PM P (oint * dict oint oint) :=
  n ← need length;
  if n <=? 0 then st_raise TypeError
  else
    w ← st_get;
    let read_until := read_bytes w + n in
    d ← read_length_coded_binary;
    w ← st_get;
    l ← read_until_loop (read_fuel w) read_until
          (i ← read_length_coded_binary; c ← read_length_coded_binary; mret (i, c));
    mret (d, foldl (fun m (kv : oint * oint) => dict_set m (fst kv) (snd kv)) [] l).

Definition read_column_names (length : oint) : PM P (list string) :=
  n ← need length;
  read_while n (bs ← read_variable_length_string; st_lift (utf8_decode ErrStrict bs)).

(** A value that is not UTF-8 is replaced by the empty string. *)
Definition read_type_value : PM P string :=
  value ← read_variable_length_string;
  match utf8_decode ErrStrict value with
  | Ok s => mret s
  | Err UnicodeDecodeError => mret ""
  | Err e => st_raise e
  end.

Definition read_type_values (length : oint) : PM P (option (list (list string))) :=
  n ← need length;
  if n <=? 0 then mret None
  else
    l ← read_while n (o ← read_length_coded_binary; k ← need o; read_times (Z.to_nat k) read_type_value);
    mret (Some l).

(** Pairs of a column index and a prefix length. *)
Fixpoint pairs_dict (ints : list oint) : result (dict oint oint) :=
  match ints with
  | [] => Ok []
  | [_] => Err IndexError
  | i :: p :: rest => d ← pairs_dict rest; Ok ((i, p) :: d)
  end.

Definition read_primary_keys_with_prefix (length : oint) : PM P (dict oint oint) :=
  ints ← read_ints length;
  l ← st_lift (pairs_dict ints);
  mret (foldl (fun m (kv : oint * oint) => dict_set m (fst kv) (snd kv)) [] l).

(** *** The metadata fields *)

Section metadata.
Context (types : list Z) (dbms : string).

(** The value of one metadata field; an unknown field is not skipped. *)
Definition read_meta_value (field_type : MetadataFieldType) (length : oint) (m : OptionalMetaData) : PM P OptionalMetaData :=
  match field_type with
  | SIGNEDNESS =>
      l ← read_bool_list types length true;
      l ← st_lift (convert_include_non_numeric_column types l 0);
      mret (mkMeta l (default_charset_collation m) (charset_collation m) (column_charset m) (column_name_list m)
             (set_str_value_list m) (set_enum_str_value_list m) (geometry_type_list m)
             (simple_primary_key_list m) (primary_keys_with_prefix m) (enum_and_set_default_charset m)
             (enum_and_set_charset_collation m) (enum_and_set_default_column_charset_list m)
             (charset_collation_list m) (enum_and_set_collation_list m) (visibility_list m))
  | DEFAULT_CHARSET =>
      '(d, c) ← read_default_charset length;
      let l := parsed_column_charset_by_default_charset types dbms d c is_character_column 0 in
      mret (mkMeta (unsigned_column_list m) d c (column_charset m) (column_name_list m) (set_str_value_list m)
             (set_enum_str_value_list m) (geometry_type_list m) (simple_primary_key_list m)
             (primary_keys_with_prefix m) (enum_and_set_default_charset m) (enum_and_set_charset_collation m)
             (enum_and_set_default_column_charset_list m) (Some l) (enum_and_set_collation_list m)
             (visibility_list m))
  | COLUMN_CHARSET =>
      c ← read_ints length;
      l ← st_lift (parsed_column_charset_by_column_charset types dbms c is_character_column);
      mret (mkMeta (unsigned_column_list m) (default_charset_collation m) (charset_collation m) c
             (column_name_list m) (set_str_value_list m) (set_enum_str_value_list m) (geometry_type_list m)
             (simple_primary_key_list m) (primary_keys_with_prefix m) (enum_and_set_default_charset m)
             (enum_and_set_charset_collation m) (enum_and_set_default_column_charset_list m) l
             (enum_and_set_collation_list m) (visibility_list m))
  | COLUMN_NAME =>
      l ← read_column_names length;
      mret (mkMeta (unsigned_column_list m) (default_charset_collation m) (charset_collation m) (column_charset m)
             l (set_str_value_list m) (set_enum_str_value_list m) (geometry_type_list m)
             (simple_primary_key_list m) (primary_keys_with_prefix m) (enum_and_set_default_charset m)
             (enum_and_set_charset_collation m) (enum_and_set_default_column_charset_list m)
             (charset_collation_list m) (enum_and_set_collation_list m) (visibility_list m))
  | SET_STR_VALUE =>
      l ← read_type_values length;
      mret (mkMeta (unsigned_column_list m) (default_charset_collation m) (charset_collation m) (column_charset m)
             (column_name_list m) l (set_enum_str_value_list m) (geometry_type_list m)
             (simple_primary_key_list m) (primary_keys_with_prefix m) (enum_and_set_default_charset m)
             (enum_and_set_charset_collation m) (enum_and_set_default_column_charset_list m)
             (charset_collation_list m) (enum_and_set_collation_list m) (visibility_list m))
  | ENUM_STR_VALUE =>
      l ← read_type_values length;
      mret (mkMeta (unsigned_column_list m) (default_charset_collation m) (charset_collation m) (column_charset m)
             (column_name_list m) (set_str_value_list m) l (geometry_type_list m) (simple_primary_key_list m)
             (primary_keys_with_prefix m) (enum_and_set_default_charset m) (enum_and_set_charset_collation m)
             (enum_and_set_default_column_charset_list m) (charset_collation_list m)
             (enum_and_set_collation_list m) (visibility_list m))
  | GEOMETRY_TYPE =>
      l ← read_ints length;
      mret (mkMeta (unsigned_column_list m) (default_charset_collation m) (charset_collation m) (column_charset m)
             (column_name_list m) (set_str_value_list m) (set_enum_str_value_list m) l
             (simple_primary_key_list m) (primary_keys_with_prefix m) (enum_and_set_default_charset m)
             (enum_and_set_charset_collation m) (enum_and_set_default_column_charset_list m)
             (charset_collation_list m) (enum_and_set_collation_list m) (visibility_list m))
  | SIMPLE_PRIMARY_KEY =>
      l ← read_ints length;
      mret (mkMeta (unsigned_column_list m) (default_charset_collation m) (charset_collation m) (column_charset m)
             (column_name_list m) (set_str_value_list m) (set_enum_str_value_list m) (geometry_type_list m) l
             (primary_keys_with_prefix m) (enum_and_set_default_charset m) (enum_and_set_charset_collation m)
             (enum_and_set_default_column_charset_list m) (charset_collation_list m)
             (enum_and_set_collation_list m) (visibility_list m))
  | PRIMARY_KEY_WITH_PREFIX =>
      d ← read_primary_keys_with_prefix length;
      mret (mkMeta (unsigned_column_list m) (default_charset_collation m) (charset_collation m) (column_charset m)
             (column_name_list m) (set_str_value_list m) (set_enum_str_value_list m) (geometry_type_list m)
             (simple_primary_key_list m) d (enum_and_set_default_charset m) (enum_and_set_charset_collation m)
             (enum_and_set_default_column_charset_list m) (charset_collation_list m)
             (enum_and_set_collation_list m) (visibility_list m))
  | ENUM_AND_SET_DEFAULT_CHARSET =>
      '(d, c) ← read_default_charset length;
      let l := parsed_column_charset_by_default_charset types dbms d c is_enum_or_set_column 0 in
      mret (mkMeta (unsigned_column_list m) (default_charset_collation m) (charset_collation m) (column_charset m)
             (column_name_list m) (set_str_value_list m) (set_enum_str_value_list m) (geometry_type_list m)
             (simple_primary_key_list m) (primary_keys_with_prefix m) d c
             (enum_and_set_default_column_charset_list m) (charset_collation_list m) (Some l)
             (visibility_list m))
  | ENUM_AND_SET_COLUMN_CHARSET =>
      c ← read_ints length;
      l ← st_lift (parsed_column_charset_by_column_charset types dbms c is_enum_or_set_column);
      mret (mkMeta (unsigned_column_list m) (default_charset_collation m) (charset_collation m) (column_charset m)
             (column_name_list m) (set_str_value_list m) (set_enum_str_value_list m) (geometry_type_list m)
             (simple_primary_key_list m) (primary_keys_with_prefix m) (enum_and_set_default_charset m)
             (enum_and_set_charset_collation m) c (charset_collation_list m) l (visibility_list m))
  | VISIBILITY =>
      l ← read_bool_list types length false;
      mret (mkMeta (unsigned_column_list m) (default_charset_collation m) (charset_collation m) (column_charset m)
             (column_name_list m) (set_str_value_list m) (set_enum_str_value_list m) (geometry_type_list m)
             (simple_primary_key_list m) (primary_keys_with_prefix m) (enum_and_set_default_charset m)
             (enum_and_set_charset_collation m) (enum_and_set_default_column_charset_list m)
             (charset_collation_list m) (enum_and_set_collation_list m) l)
  | UNKNOWN_METADATA_FIELD_TYPE => mret m
  end.

(** One iteration of the loop in [_get_optional_meta_data]. *)
Definition read_meta_field (m : OptionalMetaData) : PM P OptionalMetaData :=
  option_metadata_type ← read_byte;
  length ← read_length_coded_binary;
  field_type ← st_lift (field_by_index option_metadata_type);
  read_meta_value field_type length m.

(** [while self.packet.bytes_to_read() > BINLOG.BINLOG_CHECKSUM_LEN] *)
Fixpoint read_meta_fields (fuel : nat) (m : OptionalMetaData) : PM P OptionalMetaData :=
  match fuel with
  | O => st_raise (PyException "out of fuel")
  | S f =>
      w ← st_get;
      if BINLOG_CHECKSUM_LEN <? bytes_to_read w then m ← read_meta_field m; read_meta_fields f m
      else mret m
  end.

(** [_get_optional_meta_data] *)
Definition get_optional_meta_data : PM P OptionalMetaData :=
  w ← st_get; read_meta_fields (read_fuel w) empty_meta.
End metadata.
End read.

(** ** Columns and metadata *)

(** Assignments to the attributes of a column. *)
Definition set_name (n : string) (c : Column) : Column :=
  mkColumn (type c) (Some n) (unsigned c) (is_primary c) (character_set_name c) (collation_name c)
    (enum_values c) (set_values c) (visibility c) (max_length c) (size c) (fsp c) (length_size c)
    (precision c) (decimals c) (bits c) (col_bytes c).
Definition set_charset (coll : option string) (enc : string) (c : Column) : Column :=
  mkColumn (type c) (Column.name c) (unsigned c) (is_primary c) (Some enc) coll
    (enum_values c) (set_values c) (visibility c) (max_length c) (size c) (fsp c) (length_size c)
    (precision c) (decimals c) (bits c) (col_bytes c).
Definition set_enum_values (l : list string) (c : Column) : Column :=
  mkColumn (type c) (Column.name c) (unsigned c) (is_primary c) (character_set_name c) (collation_name c)
    (Some l) (set_values c) (visibility c) (max_length c) (size c) (fsp c) (length_size c)
    (precision c) (decimals c) (bits c) (col_bytes c).
Definition set_set_values (l : list string) (c : Column) : Column :=
  mkColumn (type c) (Column.name c) (unsigned c) (is_primary c) (character_set_name c) (collation_name c)
    (enum_values c) (Some l) (visibility c) (max_length c) (size c) (fsp c) (length_size c)
    (precision c) (decimals c) (bits c) (col_bytes c).
Definition set_flags (uns prim vis : bool) (c : Column) : Column :=
  mkColumn (type c) (Column.name c) (unsigned c || uns) (is_primary c || prim) (character_set_name c)
    (collation_name c) (enum_values c) (set_values c) (visibility c || vis) (max_length c) (size c) (fsp c)
    (length_size c) (precision c) (decimals c) (bits c) (col_bytes c).

(** [l[i]] on a list that may be [None]. *)
Definition index_opt {A} (l : option (list A)) (i : nat) : result A :=
  match l with Some l => of_option IndexError (l !! i) | None => Err TypeError end.

(** [str(charset_id)] *)
Definition charset_text (c : oint) : string := match c with Some z => str_of_Z z | None => "None" end.

(** [flags and flags[i]] *)
Definition flag_at (flags : list bool) (i : nat) : result bool :=
  match flags with [] => Ok false | _ => of_option IndexError (flags !! i) end.

(** Positions in the lists of character sets, enumerations and sets. *)
Record positions := mkPos { charset_pos : nat; enum_or_set_pos : nat; enum_pos : nat; set_pos : nat }.

(** One iteration of the loop in [_sync_column_info]. *)
Definition sync_column (m : OptionalMetaData) (dbms : string) (column_idx : nat) (p : positions) (c : Column)
  : result (Column * positions) :=
  let column_type := type c in
  column_name ← of_option IndexError (column_name_list m !! column_idx);
  let c := set_name column_name c in
  '(c, p) ← (if is_character_column column_type dbms then
               charset_id ← index_opt (charset_collation_list m) (charset_pos p);
               '(encode_name, collation_name, _) ← find_charset (charset_text charset_id) dbms;
               Ok (set_charset collation_name encode_name c,
                   mkPos (S (charset_pos p)) (enum_or_set_pos p) (enum_pos p) (set_pos p))
             else Ok (c, p));
  '(c, p) ← (if is_enum_or_set_column column_type "mysql" then
               charset_id ← index_opt (enum_and_set_collation_list m) (enum_or_set_pos p);
               '(encode_name, collation_name, _) ← find_charset (charset_text charset_id) dbms;
               let c := set_charset collation_name encode_name c in
               let p := mkPos (charset_pos p) (S (enum_or_set_pos p)) (enum_pos p) (set_pos p) in
               '(c, p) ← (if is_enum_column column_type then
                            info ← index_opt (set_enum_str_value_list m) (enum_pos p);
                            Ok (set_enum_values ("" :: info) c,
                                mkPos (charset_pos p) (enum_or_set_pos p) (S (enum_pos p)) (set_pos p))
                          else Ok (c, p));
               if is_set_column column_type then
                 info ← index_opt (set_str_value_list m) (set_pos p);
                 Ok (set_set_values info c,
                     mkPos (charset_pos p) (enum_or_set_pos p) (enum_pos p) (S (set_pos p)))
               else Ok (c, p)
             else Ok (c, p));
  uns ← flag_at (unsigned_column_list m) column_idx;
  let prim := bool_decide (Some (Z.of_nat column_idx) ∈ simple_primary_key_list m) in
  vis ← flag_at (visibility_list m) column_idx;
  Ok (set_flags uns prim vis c, p).

Fixpoint sync_columns (m : OptionalMetaData) (dbms : string) (column_idx : nat) (p : positions) (l : list Column)
  : result (list Column) :=
  match l with
  | [] => Ok []
  | c :: rest =>
      '(c, p) ← sync_column m dbms column_idx p c;
      rest ← sync_columns m dbms (S column_idx) p rest;
      Ok (c :: rest)
  end.

Record TableMapEvent := mkTableMap {
  tm_table_id : Z;
  tm_flags : Z;
  tm_schema : string;
  tm_table : string;
  tm_column_count : Z;
  tm_columns : list Column;
  tm_null_bitmask : bytes;
  tm_optional_metadata : OptionalMetaData;
  tm_table_obj : Table
}.

(** [_sync_column_info]: the columns and the second table object, if the
    metadata is used and has column names. *)
Definition sync_column_info (optional_meta_data : bool) (dbms : string) (m : OptionalMetaData)
    (table_id : Z) (schema table : string) (columns : list Column) : result (list Column * Table) :=
  let table_obj := make_table table_id schema table columns false in
  if negb optional_meta_data then Ok (columns, table_obj)
  else match column_name_list m with
       | [] => Ok (columns, table_obj)
       | _ =>
           columns ← sync_columns m dbms 0 (mkPos 0 0 0 0) columns;
           Ok (columns, make_table table_id schema table columns true)
       end.

Section event.
Context {P : Type} `{MysqlPacket P}.

(** [for i in range(0, len(column_types)): Column(column_types[i], from_packet)] *)
Fixpoint read_column_definitions (column_types : bytes) : PM P (list Column) :=
  match column_types with
  | [] => mret []
  | t :: rest => c ← parse_column_definition t; l ← read_column_definitions rest; mret (c :: l)
  end.

(** [TableMapEvent.__init__]: the event and the new table map, or [None] for
    an event that is not processed. *)
Definition read_table_map (f : filters) (freeze_schema optional_meta_data : bool) (dbms : string)
    (table_map : dict Z Table) : PM P (option (TableMapEvent * dict Z Table)) :=
  tid ← read_table_id;
  if dict_mem table_map tid && freeze_schema then mret None
  else
    flags ← read_uint16;
    schema_length ← read_uint8;
    sb ← read schema_length;
    schema ← st_lift (utf8_decode ErrStrict sb);
    advance 1 ;;
    table_length ← read_uint8;
    tb ← read table_length;
    table ← st_lift (utf8_decode ErrStrict tb);
    if filtered f schema table then mret None
    else
      advance 1 ;;
      o ← read_length_coded_binary;
      column_count ← need o;
      column_types ← read column_count;
      _ ← read_length_coded_binary;
      columns ← read_column_definitions column_types;
      null_bitmask ← read ((column_count + 7) / 8);
      let first := make_table tid schema table columns false in
      m ← get_optional_meta_data (map type columns) dbms;
      '(columns, table_obj) ← st_lift (sync_column_info optional_meta_data dbms m tid schema table columns);
      mret (Some (mkTableMap tid flags schema table column_count columns null_bitmask m table_obj,
                  dict_set table_map tid (mkTable tid schema table columns (primary_key first) (column_name_flag first)))).
End event.

(** ** Properties *)

(** [lia] with quotients and remainders of natural numbers by constants. *)
Ltac div_nat := zify; Z.to_euclidean_division_equations; lia.

(** Bit [k] of a bitmap stored most significant bit first. *)
Definition msb_bit (bs : bytes) (k : nat) : bool :=
  match bs !! (k / 8)%nat with Some b => Z.testbit b (7 - Z.of_nat (k mod 8)) | None => false end.

(** The number of numeric columns among the first [i]. *)
Definition numeric_count (types : list Z) : nat := length (filter (fun t => is_numeric_column t = true) types).

(** The columns a bool list has a bit for. *)
Definition counted (flag : bool) (types : list Z) : nat := if flag then numeric_count types else length types.

Lemma shiftr_80 k : (k < 8)%nat -> Z.shiftr 0x80 (Z.of_nat k) = Z.shiftl 1 (7 - Z.of_nat k).
Proof. intros Hk. do 8 (destruct k as [|k]; [reflexivity|]). lia. Qed.

Lemma counted_cons flag t types :
  counted flag (t :: types) =
  if negb (is_numeric_column t) && flag then counted flag types else S (counted flag types).
Proof.
  unfold counted, numeric_count. rewrite filter_cons. destruct flag, (is_numeric_column t); try done.
Qed.

(** The state of the loop after [k] bits. *)
Lemma bool_list_loop_spec flag types (bs : bytes) k byte byte_idx :
  byte_idx = ((k + 7) / 8)%nat -> ((k mod 8 <> 0)%nat -> bs !! (k / 8)%nat = Some byte) ->
  (k + counted flag types <= 8 * length bs)%nat ->
  bool_list_loop types flag bs byte byte_idx (Z.of_nat (k mod 8)) = Ok (map (msb_bit bs) (seq k (counted flag types))).
Proof.
  revert k byte byte_idx. induction types as [|t types IH]; intros k byte byte_idx Hi Hb Hl.
  - by destruct flag.
  - cbn [bool_list_loop]. rewrite counted_cons in *.
    destruct (negb (is_numeric_column t) && flag); [by apply IH|].
    assert (exists b, (if Z.of_nat (k mod 8) =? 0 then b ← of_option IndexError (bs !! byte_idx); Ok (b, S byte_idx)
              else Ok (byte, byte_idx)) = Ok (b, ((S k + 7) / 8)%nat) /\ bs !! (k / 8)%nat = Some b) as (b & -> & Hlk).
    { destruct (Z.eqb_spec (Z.of_nat (k mod 8)) 0) as [E|E].
      - assert (byte_idx = (k / 8)%nat) as -> by div_nat. destruct (bs !! (k / 8)%nat) as [b|] eqn:El.
        + exists b. cbn [of_option mbind result_bind]. split; [|done]. do 2 f_equal. div_nat.
        + apply lookup_ge_None in El. exfalso. div_nat.
      - exists byte. split; [|apply Hb; lia]. do 2 f_equal. rewrite Hi. div_nat. }
    cbn [mbind result_bind].
    replace ((Z.of_nat (k mod 8) + 1) mod 8) with (Z.of_nat (S k mod 8)) by div_nat.
    rewrite (IH (S k)); [|done| |lia].
    + cbn [seq map mbind result_bind]. do 2 f_equal. unfold msb_bit. rewrite Hlk.
      rewrite shiftr_80 by div_nat. rewrite land_pow2_testbit by div_nat. apply negb_involutive.
    + intros Hm. replace (S k / 8)%nat with (k / 8)%nat by div_nat. done.
Qed.

(** The flag of each column: the bits in order for the numeric columns. *)
Fixpoint spread (types : list Z) (bits : nat -> bool) (k : nat) : list bool :=
  match types with
  | [] => []
  | t :: rest => if is_numeric_column t then bits k :: spread rest bits (S k) else false :: spread rest bits k
  end.

Lemma convert_spec types (f : nat -> bool) n k :
  (k + numeric_count types <= n)%nat ->
  convert_include_non_numeric_column types (map f (seq 0 n)) k = Ok (spread types f k).
Proof.
  revert k. induction types as [|t types IH]; intros k Hk; [done|].
  cbn [convert_include_non_numeric_column spread]. unfold numeric_count in *. rewrite filter_cons in Hk.
  destruct (is_numeric_column t) eqn:E.
  - rewrite decide_True in Hk by done. cbn [length] in Hk.
    rewrite list_lookup_fmap, lookup_seq_lt by lia. cbn. by rewrite IH by lia.
  - rewrite decide_False in Hk by done. by rewrite IH.
Qed.

Lemma spread_lookup types f k i t :
  types !! i = Some t ->
  spread types f k !! i = Some (is_numeric_column t && f (k + numeric_count (take i types))%nat).
Proof.
  revert k i. induction types as [|x types IH]; intros k i Hi; [done|]. destruct i as [|i]; cbn in Hi.
  - injection Hi as ->. cbn. destruct (is_numeric_column t); cbn; [by rewrite Nat.add_0_r|done].
  - cbn [spread take]. unfold numeric_count in *. rewrite filter_cons. destruct (is_numeric_column x) eqn:E.
    + change ((f k :: spread types f (S k)) !! S i) with (spread types f (S k) !! i).
      rewrite (IH (S k) i Hi), decide_True by done. cbn [length]. do 3 f_equal. lia.
    + change ((false :: spread types f k) !! S i) with (spread types f k !! i).
      by rewrite (IH k i Hi), decide_False by done.
Qed.

Section readers.
Context {P : Type} `{MysqlPacketLaws P}.

Lemma parses_bool_list types flag (bs : bytes) :
  (counted flag types <= 8 * length bs)%nat ->
  parses (P:=P) (read_bool_list types (Some (zlen bs)) flag) bs (map (msb_bit bs) (seq 0 (counted flag types))).
Proof.
  intros Hc. unfold read_bool_list. eapply parses_bind_pure; [by apply parses_read|]. intros w. unfold st_lift.
  pose proof (bool_list_loop_spec flag types bs 0 0 0) as E. change (Z.of_nat (0 mod 8)) with 0 in E.
  by rewrite E by (done || lia).
Qed.

(** The signedness and visibility bitmaps of a table map event: bits are
    read most significant first, one per column, or one per numeric column
    for the signedness, which is then spread over all columns so that column
    [i] is unsigned exactly when it is numeric and the bit of its rank among
    the numeric columns is set. *)
Theorem bool_lists_correct (types : list Z) (bs : bytes) :
  (length types <= 8 * length bs)%nat ->
  parses (P:=P) (read_bool_list types (Some (zlen bs)) false) bs (map (msb_bit bs) (seq 0 (length types))) /\
  exists l flags,
    parses (P:=P) (read_bool_list types (Some (zlen bs)) true) bs l /\
    convert_include_non_numeric_column types l 0 = Ok flags /\
    forall i t, types !! i = Some t ->
      flags !! i = Some (is_numeric_column t && msb_bit bs (numeric_count (take i types))).
Proof.
  intros Hl. assert (numeric_count types <= length types)%nat as Hn by apply length_filter.
  split; [by apply (parses_bool_list types false)|].
  exists (map (msb_bit bs) (seq 0 (numeric_count types))), (spread types (msb_bit bs) 0).
  split; [apply (parses_bool_list types true); cbn; lia|]. split; [by apply convert_spec|].
  intros i t Hi. by rewrite (spread_lookup _ _ 0 i t Hi).
Qed.
End readers.

Lemma bool_lists_correct_witness :
  exists l flags, parses (P:=list_packet) (read_bool_list [FIELD_TYPE.LONG; FIELD_TYPE.VARCHAR; FIELD_TYPE.TINY] (Some 1) true) [0x40] l /\
    convert_include_non_numeric_column [FIELD_TYPE.LONG; FIELD_TYPE.VARCHAR; FIELD_TYPE.TINY] l 0 = Ok flags /\
    forall i t, [FIELD_TYPE.LONG; FIELD_TYPE.VARCHAR; FIELD_TYPE.TINY] !! i = Some t ->
      flags !! i = Some (is_numeric_column t && msb_bit [0x40] (numeric_count (take i [FIELD_TYPE.LONG; FIELD_TYPE.VARCHAR; FIELD_TYPE.TINY]))).
Proof.
  apply (bool_lists_correct (P:=list_packet) [FIELD_TYPE.LONG; FIELD_TYPE.VARCHAR; FIELD_TYPE.TINY] [0x40]). cbn. lia.
Defined.

(** ** Names, character sets and keys *)

Definition count_type (p : Z -> bool) (columns : list Column) : nat := length (filter (fun c => p (type c) = true) columns).

Lemma count_type_snoc p pre c : count_type p (pre ++ [c])%list = (count_type p pre + if p (type c) then 1 else 0)%nat.
Proof. unfold count_type. rewrite filter_app, length_app, filter_cons. by destruct (p (type c)). Qed.

Lemma count_type_split p pre c post :
  p (type c) = true -> (count_type p pre < count_type p (pre ++ c :: post)%list)%nat.
Proof.
  intros Hp. unfold count_type. rewrite filter_app, length_app, filter_cons, decide_True by done. cbn. lia.
Qed.

Section sync.
Context (m : OptionalMetaData) (dbms : string).
Context (charset_ids enum_set_ids : list Z) (enums sets : list (list string)).

Abbreviation is_char := (fun t => is_character_column t dbms).
Abbreviation is_enum_set := (fun t => is_enum_or_set_column t "mysql").

(** Where the loop is after the columns [pre]. *)
Definition pos_of (pre : list Column) : positions :=
  mkPos (count_type is_char pre) (count_type is_enum_set pre) (count_type is_enum_column pre) (count_type is_set_column pre).

(** The metadata has an entry for each column it must have one for. *)
Definition meta_covers (columns : list Column) : Prop :=
  (length columns <= length (column_name_list m))%nat /\
  (unsigned_column_list m = [] \/ length columns <= length (unsigned_column_list m))%nat /\
  (visibility_list m = [] \/ length columns <= length (visibility_list m))%nat /\
  charset_collation_list m = Some (map Some charset_ids) /\
  enum_and_set_collation_list m = Some (map Some enum_set_ids) /\
  set_enum_str_value_list m = Some enums /\ set_str_value_list m = Some sets /\
  (count_type is_char columns <= length charset_ids)%nat /\
  (count_type is_enum_set columns <= length enum_set_ids)%nat /\
  (count_type is_enum_column columns <= length enums)%nat /\
  (count_type is_set_column columns <= length sets)%nat.

(** What the metadata says of the column behind the columns [pre]. *)
Definition column_synced (pre : list Column) (c c' : Column) : Prop :=
  type c' = type c /\ Column.name c' = column_name_list m !! length pre /\
  unsigned c' = unsigned c || default false (unsigned_column_list m !! length pre) /\
  is_primary c' = is_primary c || bool_decide (Some (Z.of_nat (length pre)) ∈ simple_primary_key_list m) /\
  (is_char (type c) = true -> exists cs enc coll nm,
     charset_ids !! count_type is_char pre = Some cs /\ find_charset (str_of_Z cs) dbms = Ok (enc, coll, nm) /\
     character_set_name c' = Some enc /\ collation_name c' = coll) /\
  (is_enum_column (type c) = true -> enum_values c' = cons "" <$> enums !! count_type is_enum_column pre) /\
  (is_set_column (type c) = true -> set_values c' = sets !! count_type is_set_column pre).

Lemma find_charset_ok cs : exists enc coll nm, find_charset (str_of_Z cs) dbms = Ok (enc, coll, nm).
Proof.
  unfold find_charset, by_id. rewrite int_of_str_of_Z. cbn [mbind result_bind].
  destruct (dict_get _ cs); by eexists _, _, _.
Qed.

Lemma flag_at_spec flags i n : flags = [] \/ (n <= length flags)%nat -> (i < n)%nat -> flag_at flags i = Ok (default false (flags !! i)).
Proof.
  intros [->|Hl] Hi; [done|]. unfold flag_at. destruct flags as [|b flags]; [cbn in Hl; lia|].
  destruct ((b :: flags) !! i) eqn:E; [done|]. apply lookup_ge_None in E. lia.
Qed.

Lemma column_classes t :
  (is_char t = true -> is_enum_set t = false /\ is_enum_column t = false /\ is_set_column t = false) /\
  (is_enum_set t = is_enum_column t || is_set_column t) /\ (is_enum_column t && is_set_column t = false).
Proof.
  unfold is_character_column, is_enum_or_set_column, is_enum_column, is_set_column.
  destruct (decide (t = FIELD_TYPE.ENUM)) as [->|He]; [by vm_compute|].
  destruct (decide (t = FIELD_TYPE.SET)) as [->|Hs]; [by vm_compute|].
  rewrite (proj2 (Z.eqb_neq _ _) He), (proj2 (Z.eqb_neq _ _) Hs).
  rewrite (bool_decide_eq_false_2 (t ∈ [FIELD_TYPE.ENUM; FIELD_TYPE.SET])) by set_solver. done.
Qed.

Lemma pos_of_snoc pre c :
  pos_of (pre ++ [c])%list = mkPos (count_type is_char pre + if is_char (type c) then 1 else 0)
    (count_type is_enum_set pre + if is_enum_set (type c) then 1 else 0)
    (count_type is_enum_column pre + if is_enum_column (type c) then 1 else 0)
    (count_type is_set_column pre + if is_set_column (type c) then 1 else 0).
Proof. unfold pos_of. by rewrite !count_type_snoc. Qed.

(** An entry of a metadata list at the rank of a column. *)
Lemma rank_lookup {A} (l : list A) p pre c post :
  (count_type p (pre ++ c :: post)%list <= length l)%nat -> p (type c) = true ->
  exists x, l !! count_type p pre = Some x.
Proof.
  intros Hl Hp. apply lookup_lt_is_Some. pose proof (count_type_split p pre c post Hp). lia.
Qed.

Lemma index_some {A B} (f : A -> B) (l : list A) i x : l !! i = Some x -> index_opt (Some (map f l)) i = Ok (f x).
Proof. intros Hl. unfold index_opt. by rewrite list_lookup_fmap, Hl. Qed.

Lemma sync_column_ok pre c post :
  meta_covers (pre ++ c :: post) ->
  exists c', sync_column m dbms (length pre) (pos_of pre) c = Ok (c', pos_of (pre ++ [c])) /\ column_synced pre c c'.
Proof.
  intros (Hn & Hu & Hv & Ecl & Eel & Een & Est & Hcl & Hel & Hen & Hst).
  assert (length pre < length (pre ++ c :: post))%nat as Hi by (rewrite length_app; cbn; lia).
  destruct (lookup_lt_is_Some_2 (column_name_list m) (length pre)) as [nm Hnm]; [lia|].
  unfold sync_column. rewrite Hnm. cbn [of_option mbind result_bind].
  rewrite (flag_at_spec _ _ _ Hu Hi), (flag_at_spec _ _ _ Hv Hi), Ecl, Eel, Een, Est, pos_of_snoc.
  destruct (column_classes (type c)) as (Hchar & Hes & Hdis). unfold column_synced. rewrite Hnm.
  cbn [pos_of charset_pos enum_or_set_pos enum_pos set_pos].
  destruct (is_char (type c)) eqn:Ec.
  - destruct (Hchar eq_refl) as (E1 & E2 & E3). rewrite E1, E2, E3, !Nat.add_0_r, Nat.add_1_r.
    destruct (rank_lookup charset_ids is_char pre c post Hcl Ec) as [cs Hcs].
    rewrite (index_some Some _ _ cs Hcs). cbn [mbind result_bind charset_text].
    destruct (find_charset_ok cs) as (enc & coll & nm' & Hf). rewrite Hf. cbn [mbind result_bind].
    eexists. split; [done|]. cbn. repeat split; try done. intros _. by exists cs, enc, coll, nm'.
  - rewrite Hes. destruct (is_enum_column (type c)) eqn:Ee; [|destruct (is_set_column (type c)) eqn:Es].
    + destruct (is_set_column (type c)) eqn:Es; [done|]. cbn [orb] in *.
      rewrite !Nat.add_0_r, !Nat.add_1_r.
      cbn [mbind result_bind pos_of charset_pos enum_or_set_pos enum_pos set_pos].
      destruct (rank_lookup enum_set_ids is_enum_set pre c post Hel Hes) as [cs Hcs].
      rewrite (index_some Some _ _ cs Hcs). cbn [mbind result_bind charset_text].
      destruct (find_charset_ok cs) as (enc & coll & nm' & Hf). rewrite Hf. cbn [mbind result_bind charset_pos enum_or_set_pos enum_pos set_pos].
      destruct (rank_lookup enums is_enum_column pre c post Hen Ee) as [ev Hev].
      unfold index_opt at 1. rewrite Hev. cbn [of_option mbind result_bind].
      eexists. split; [done|]. cbn. repeat split; done.
    + cbn [orb] in *. rewrite !Nat.add_0_r, !Nat.add_1_r.
      cbn [mbind result_bind pos_of charset_pos enum_or_set_pos enum_pos set_pos].
      destruct (rank_lookup enum_set_ids is_enum_set pre c post Hel Hes) as [cs Hcs].
      rewrite (index_some Some _ _ cs Hcs). cbn [mbind result_bind charset_text].
      destruct (find_charset_ok cs) as (enc & coll & nm' & Hf). rewrite Hf. cbn [mbind result_bind charset_pos enum_or_set_pos enum_pos set_pos].
      destruct (rank_lookup sets is_set_column pre c post Hst Es) as [sv Hsv].
      unfold index_opt at 1. rewrite Hsv. cbn [of_option mbind result_bind].
      eexists. split; [done|]. cbn. repeat split; done.
    + cbn [orb mbind result_bind]. rewrite !Nat.add_0_r. eexists. split; [done|]. cbn. repeat split; done.
Qed.

Lemma sync_columns_ok pre columns :
  meta_covers (pre ++ columns) ->
  exists columns', sync_columns m dbms (length pre) (pos_of pre) columns = Ok columns' /\
    length columns' = length columns /\
    forall i c c', columns !! i = Some c -> columns' !! i = Some c' -> column_synced (pre ++ take i columns) c c'.
Proof.
  revert pre. induction columns as [|c columns IH]; intros pre Hm; [by exists []|].
  destruct (sync_column_ok pre c columns Hm) as (c' & E & Hc).
  destruct (IH (pre ++ [c])%list) as (rest & Er & Hl & Hr); [by rewrite <- app_assoc|].
  exists (c' :: rest). cbn [sync_columns]. rewrite E. cbn [mbind result_bind].
  rewrite length_app, Nat.add_1_r in Er. rewrite Er. cbn [mbind result_bind]. split; [done|].
  split; [cbn; by rewrite Hl|]. intros [|i] x x' Hx Hx'; cbn in Hx, Hx'.
  - simplify_eq. cbn. by rewrite app_nil_r.
  - cbn [take]. specialize (Hr i x x' Hx Hx'). by rewrite <- app_assoc in Hr.
Qed.
End sync.
