(* ===== verification/TableMapEvent.v ===== *)
(** * Reading table map events

    The metadata fields and the whole table map event of [TableMap], as a
    server writes them, are read back: the theorem gives the columns their
    names, signedness, character sets and keys. *)

From stdpp Require Import base list strings sets.
From Stdlib Require Import ZArith Lia Ascii.
From S2P Require Import Prelude PyBytes PyStr Values Packet Column Bitmap RowValues Event RowsEvent Charset TableMap.
Open Scope string_scope.
Open Scope Z_scope.
Open Scope list_scope.

Section fields.
Context {P : Type} `{MysqlPacketLaws P}.

(** A loop that reads items up to a length reads the items that fill it. *)
Lemma read_until_items {A} (m : PM P A) (items : list (bytes * A)) fuel w rest :
  Forall (fun it => parses m it.1 it.2 /\ it.1 <> []) items ->
  (length (concat (map fst items)) < fuel)%nat ->
  data_buffer w = [] -> stream w = (concat (map fst items) ++ rest)%list ->
  exists w', read_until_loop fuel (read_bytes w + zlen (concat (map fst items))) m w = (Ok (map snd items), w') /\
    data_buffer w' = [] /\ step_to w (zlen (concat (map fst items))) rest w'.
Proof.
  intros HF. revert fuel w. induction HF as [|[bs a] items [Hp Hne] HF IH]; intros fuel w Hf Hb Hs.
  - destruct fuel as [|fuel]; [lia|]. exists w. cbn [read_until_loop map concat]. rewrite st_bind_eq. cbn [st_get].
    rewrite (proj2 (Z.ltb_ge _ _)) by (unfold zlen; cbn; lia). split; [done|]. split; [done|].
    split; [done|]. split; [unfold zlen; cbn; lia|apply same_header_refl].
  - destruct fuel as [|fuel]; [lia|]. cbn [map concat fst snd] in *. rewrite <- app_assoc in Hs.
    destruct (Hp w _ Hb Hs) as (w1 & E1 & B1 & S1). pose proof S1 as (Hs1 & Hr1 & _).
    rewrite length_app in Hf. assert (0 < length bs)%nat by (destruct bs; [done|cbn; lia]).
    destruct (IH fuel w1) as (w2 & E2 & B2 & S2); [lia|done|done|]. exists w2.
    cbn [read_until_loop]. rewrite st_bind_eq. cbn [st_get]. rewrite zlen_app, Z.add_assoc, <- Hr1.
    rewrite (proj2 (Z.ltb_lt _ _)) by (unfold zlen in *; lia).
    rewrite st_bind_eq, E1, st_bind_eq, E2. split; [done|]. split; [done|].
    by eapply step_to_trans.
Qed.

Lemma parses_read_while {A} (m : PM P A) (items : list (bytes * A)) :
  Forall (fun it => parses m it.1 it.2 /\ it.1 <> []) items ->
  parses (read_while (zlen (concat (map fst items))) m) (concat (map fst items)) (map snd items).
Proof.
  intros HF w rest Hb Hs. unfold read_while. rewrite st_bind_eq. cbn [st_get].
  apply (read_until_items m items _ w rest HF); [|done|done].
  pose proof (read_fuel_stream w) as Hf. rewrite Hs, length_app in Hf. lia.
Qed.

(** ** Fields *)

Context (types : list Z) (dbms : string).

(** A field: type, length, value. *)
Definition meta_field (t : Z) (value : bytes) : bytes := t :: length_coded (zlen value) ++ value.

Lemma parses_meta_field t ft m m' value :
  field_by_index t = Ok ft -> zlen value < 2 ^ 24 ->
  parses (P:=P) (read_meta_value types dbms ft (Some (zlen value)) m) value m' ->
  parses (P:=P) (read_meta_field types dbms m) (meta_field t value) m'.
Proof.
  intros Hft Hl Hv. pose proof (zlen_nonneg value). unfold read_meta_field, meta_field.
  eapply (parses_bind _ _ [t]).
  { unfold read_byte. eapply parses_bind_pure; [by apply parses_read|]. done. }
  eapply parses_bind; [apply parses_length_coded; lia|]. by eapply parses_lift_ok.
Qed.

(** *** Column names *)

Definition set_names (l : list string) (m : OptionalMetaData) : OptionalMetaData :=
  mkMeta (unsigned_column_list m) (default_charset_collation m) (charset_collation m) (column_charset m)
    l (set_str_value_list m) (set_enum_str_value_list m) (geometry_type_list m) (simple_primary_key_list m)
    (primary_keys_with_prefix m) (enum_and_set_default_charset m) (enum_and_set_charset_collation m)
    (enum_and_set_default_column_charset_list m) (charset_collation_list m) (enum_and_set_collation_list m)
    (visibility_list m).

(** Text in UTF-8 of fewer than 128 bytes, preceded by its length. *)
Definition name_bytes (bs : bytes) : bytes := zlen bs :: bs.

Lemma names_parsed m (names : list (bytes * string)) :
  Forall (fun n => zlen n.1 < 128 /\ utf8_decode ErrStrict n.1 = Ok n.2) names ->
  parses (P:=P) (read_meta_value types dbms COLUMN_NAME (Some (zlen (concat (map (fun n => name_bytes n.1) names)))) m)
    (concat (map (fun n => name_bytes n.1) names)) (set_names (map snd names) m).
Proof.
  intros HF. set (items := map (fun n : bytes * string => (name_bytes n.1, n.2)) names).
  assert (map (fun n : bytes * string => name_bytes n.1) names = map fst items) as -> by (unfold items; by rewrite map_map).
  assert (map snd names = map snd items) as -> by (unfold items; by rewrite map_map).
  eapply parses_bind_pure; [|done]. unfold read_column_names. eapply parses_lift_ok; [done|].
  apply parses_read_while. unfold items. apply Forall_map. eapply Forall_impl; [exact HF|].
  intros [bs s] [Hl Hd]. cbn [fst snd] in *. split; [|done].
  eapply parses_bind_pure.
  - pose proof (parses_variable_string (P:=P) 0 bs) as Hv. cbn [base128] in Hv.
    rewrite Z.mod_small in Hv by (pose proof (zlen_nonneg bs); lia). apply Hv. cbn. lia.
  - intros w. unfold st_lift. by rewrite Hd.
Qed.

(** *** Primary keys *)

Definition set_keys (l : list (option Z)) (m : OptionalMetaData) : OptionalMetaData :=
  mkMeta (unsigned_column_list m) (default_charset_collation m) (charset_collation m) (column_charset m)
    (column_name_list m) (set_str_value_list m) (set_enum_str_value_list m) (geometry_type_list m) l
    (primary_keys_with_prefix m) (enum_and_set_default_charset m) (enum_and_set_charset_collation m)
    (enum_and_set_default_column_charset_list m) (charset_collation_list m) (enum_and_set_collation_list m)
    (visibility_list m).

Lemma length_coded_nonempty z : length_coded z <> [].
Proof. unfold length_coded. by repeat case_match. Qed.

Lemma keys_parsed m (keys : list Z) :
  Forall (fun k => 0 <= k < 2 ^ 24) keys ->
  parses (P:=P) (read_meta_value types dbms SIMPLE_PRIMARY_KEY (Some (zlen (concat (map length_coded keys)))) m)
    (concat (map length_coded keys)) (set_keys (map Some keys) m).
Proof.
  intros HF. set (items := map (fun k => (length_coded k, Some k)) keys).
  assert (map length_coded keys = map fst items) as -> by (unfold items; by rewrite map_map).
  assert (map Some keys = map snd items) as -> by (unfold items; by rewrite map_map).
  eapply parses_bind_pure; [|done]. unfold read_ints. eapply parses_lift_ok; [done|].
  apply parses_read_while. unfold items. apply Forall_map. eapply Forall_impl; [exact HF|].
  intros k Hk. split; [by apply parses_length_coded|apply length_coded_nonempty].
Qed.

(** *** Signedness *)

Definition set_unsigned (l : list bool) (m : OptionalMetaData) : OptionalMetaData :=
  mkMeta l (default_charset_collation m) (charset_collation m) (column_charset m)
    (column_name_list m) (set_str_value_list m) (set_enum_str_value_list m) (geometry_type_list m)
    (simple_primary_key_list m) (primary_keys_with_prefix m) (enum_and_set_default_charset m)
    (enum_and_set_charset_collation m) (enum_and_set_default_column_charset_list m) (charset_collation_list m)
    (enum_and_set_collation_list m) (visibility_list m).

Lemma signedness_parsed m (bs : bytes) :
  (numeric_count types <= 8 * length bs)%nat ->
  parses (P:=P) (read_meta_value types dbms SIGNEDNESS (Some (zlen bs)) m) bs
    (set_unsigned (spread types (msb_bit bs) 0) m).
Proof.
  intros Hn. eapply parses_bind_pure; [by apply (parses_bool_list types true)|]. intros w.
  rewrite st_bind_eq. unfold st_lift. cbn [counted]. by rewrite convert_spec by lia.
Qed.

(** ** All the fields *)

Inductive meta_steps : OptionalMetaData -> list bytes -> OptionalMetaData -> Prop :=
  | meta_done m : meta_steps m [] m
  | meta_more m bs m1 l m2 :
      parses (P:=P) (read_meta_field types dbms m) bs m1 -> bs <> [] -> meta_steps m1 l m2 ->
      meta_steps m (bs :: l) m2.

Lemma bytes_left (w : wrapper P) : data_buffer w = [] -> bytes_to_read w = zlen (stream w).
Proof.
  intros Hb. unfold bytes_to_read, stream. rewrite Hb. cbn [app].
  pose proof (pk_position_range (packet w)). unfold pk_rest, zlen in *. rewrite length_drop. lia.
Qed.

Lemma meta_loop m l m' fuel w crc :
  meta_steps m l m' -> (length l < fuel)%nat -> data_buffer w = [] -> stream w = (concat l ++ crc)%list -> zlen crc = 4 ->
  exists w', read_meta_fields types dbms fuel m w = (Ok m', w') /\ data_buffer w' = [] /\
    step_to w (zlen (concat l)) crc w'.
Proof.
  intros Hm. revert fuel w. induction Hm as [m|m bs m1 l m2 Hp Hne Hm IH]; intros fuel w Hf Hb Hs Hc;
    (destruct fuel as [|fuel]; [lia|]); cbn [read_meta_fields]; rewrite st_bind_eq; cbn [st_get];
    rewrite (bytes_left w Hb), Hs, zlen_app; unfold BINLOG_CHECKSUM_LEN; cbn [concat length] in *.
  - rewrite (proj2 (Z.ltb_ge _ _)) by (unfold zlen in *; cbn; lia). exists w. split; [done|]. split; [done|].
    split; [done|]. split; [unfold zlen; cbn; lia|apply same_header_refl].
  - assert (0 < length bs)%nat by (destruct bs; [done|cbn; lia]). rewrite zlen_app.
    pose proof (zlen_nonneg (concat l)).
    rewrite (proj2 (Z.ltb_lt _ _)) by (unfold zlen in *; lia). rewrite <- app_assoc in Hs.
    destruct (Hp w _ Hb Hs) as (w1 & E1 & B1 & S1). destruct (IH fuel w1) as (w2 & E2 & B2 & S2); [lia|done|by apply S1|done|].
    exists w2. rewrite st_bind_eq, E1. split; [done|]. split; [done|]. by eapply step_to_trans.
Qed.

Lemma meta_steps_length m l m' : meta_steps m l m' -> (length l <= length (concat l))%nat.
Proof.
  induction 1 as [|m bs m1 l m2 _ Hne _ IH]; [done|]. cbn [concat length]. rewrite length_app.
  destruct bs; [done|]. cbn [length]. lia.
Qed.

Lemma meta_read l m w crc :
  meta_steps empty_meta l m -> data_buffer w = [] -> stream w = (concat l ++ crc)%list -> zlen crc = 4 ->
  exists w', get_optional_meta_data types dbms w = (Ok m, w') /\ data_buffer w' = [] /\ step_to w (zlen (concat l)) crc w'.
Proof.
  intros Hm Hb Hs Hc. unfold get_optional_meta_data. rewrite st_bind_eq. cbn [st_get].
  apply meta_loop; [done| |done|done|done].
  pose proof (read_fuel_stream w) as Hf. rewrite Hs, length_app in Hf. pose proof (meta_steps_length _ _ _ Hm). lia.
Qed.
End fields.

(** ** The event *)

Section event.
Context {P : Type} `{MysqlPacketLaws P}.

(** A column as a server describes it: type code, metadata bytes, and the
    column they are read as. *)
Definition column_def : Type := Z * bytes * Column.
Definition def_ok (d : column_def) : Prop := parses (P:=P) (parse_column_definition d.1.1) d.1.2 d.2.

Lemma definitions_parsed (defs : list column_def) :
  Forall def_ok defs ->
  parses (P:=P) (read_column_definitions (map (fun d => d.1.1) defs)) (concat (map (fun d => d.1.2) defs)) (map snd defs).
Proof.
  induction 1 as [|[[t mb] c] defs Hd HF IH]; [apply parses_ret|]. cbn [map concat read_column_definitions fst snd].
  eapply parses_bind; [exact Hd|]. eapply parses_bind_pure; [exact IH|]. done.
Qed.

Definition table_map_bytes (tid flags : Z) (schema table : bytes) (defs : list column_def) (null_mask : bytes)
    (fields : list bytes) : bytes :=
  le_encode 6 tid ++ (le_encode 2 flags ++ ([zlen schema] ++ (schema ++ ([0] ++ ([zlen table] ++ (table ++ ([0] ++
    (length_coded (zlen defs) ++ (map (fun d => d.1.1) defs ++
      (length_coded (zlen (concat (map (fun d => d.1.2) defs))) ++ (concat (map (fun d => d.1.2) defs) ++
        (null_mask ++ concat fields)))))))))))).

(** [parses] with the rest of the packet, its checksum, fixed. *)
Definition ends {A} (crc : bytes) (m : PM P A) (bs : bytes) (a : A) : Prop :=
  forall w, data_buffer w = [] -> stream w = (bs ++ crc)%list ->
    exists w', m w = (Ok a, w') /\ data_buffer w' = [] /\ step_to w (zlen bs) crc w'.

Lemma ends_bind {A B} crc (m : PM P A) (f : A -> PM P B) b1 b2 a b :
  parses m b1 a -> ends crc (f a) b2 b -> ends crc (mbind f m) (b1 ++ b2) b.
Proof.
  intros Hm Hf w Hb Hs. rewrite <- app_assoc in Hs. destruct (Hm w _ Hb Hs) as (w1 & E1 & B1 & S1).
  destruct (Hf w1 B1 (proj1 S1)) as (w2 & E2 & B2 & S2). exists w2. rewrite st_bind_eq, E1.
  split; [done|]. split; [done|]. rewrite zlen_app. by eapply step_to_trans.
Qed.

Lemma ends_lift {A B} crc (r : result A) (f : A -> PM P B) bs a b :
  r = Ok a -> ends crc (f a) bs b -> ends crc (mbind f (st_lift r)) bs b.
Proof. intros -> Hf w Hb Hs. rewrite st_bind_eq. by apply Hf. Qed.

Lemma ends_last {A B} crc (m : PM P A) (f : A -> PM P B) bs a b :
  ends crc m bs a -> (forall w, f a w = (Ok b, w)) -> ends crc (mbind f m) bs b.
Proof.
  intros Hm Hf w Hb Hs. destruct (Hm w Hb Hs) as (w1 & E1 & ?). exists w1. by rewrite st_bind_eq, E1, Hf.
Qed.

Lemma le_decode_zeros bs n : le_decode (bs ++ repeat 0 n)%list = le_decode bs.
Proof.
  induction bs as [|b bs IH]; [|cbn; by rewrite IH]. induction n as [|n IHn]; [done|].
  cbn in *. by rewrite IHn.
Qed.

Lemma table_id_parsed tid : 0 <= tid < 2 ^ 48 -> parses (P:=P) read_table_id (le_encode 6 tid) tid.
Proof.
  intros Ht. unfold read_table_id. eapply parses_lift; [by rewrite zlen_le_encode|]. cbn beta.
  unfold unpack_ule. rewrite decide_True by (rewrite length_app, le_encode_length; done).
  change [0; 0] with (repeat 0 2). rewrite le_decode_zeros, le_decode_encode; [done|].
  exact Ht.
Qed.

Lemma table_map_parsed f freeze dbms (table_map : dict Z Table) tid flags sb tb schema table defs null_mask fields m
    columns obj opt crc :
  0 <= tid < 2 ^ 48 -> 0 <= flags < 2 ^ 16 -> zlen sb < 256 -> zlen tb < 256 ->
  utf8_decode ErrStrict sb = Ok schema -> utf8_decode ErrStrict tb = Ok table ->
  zlen defs < 2 ^ 24 -> zlen (concat (map (fun d : column_def => d.1.2) defs)) < 2 ^ 24 -> Forall def_ok defs ->
  zlen null_mask = (zlen defs + 7) / 8 -> zlen crc = 4 ->
  dict_mem table_map tid && freeze = false -> filtered f schema table = false ->
  meta_steps (P:=P) (map type (map snd defs)) dbms empty_meta fields m ->
  sync_column_info opt dbms m tid schema table (map snd defs) = Ok (columns, obj) ->
  ends crc (read_table_map f freeze opt dbms table_map)
    (table_map_bytes tid flags sb tb defs null_mask fields)
    (Some (mkTableMap tid flags schema table (zlen defs) columns null_mask m obj,
           dict_set table_map tid (mkTable tid schema table columns (make_primary_key (map snd defs)) false))).
Proof.
  intros Htid Hfl Hsb Htb Hs Ht Hn Hmb Hdefs Hnull Hcrc Hfreeze Hfilt Hmeta Hsync.
  pose proof (zlen_nonneg sb). pose proof (zlen_nonneg tb). pose proof (zlen_nonneg defs).
  pose proof (zlen_nonneg (concat (map (fun d : column_def => d.1.2) defs))).
  unfold read_table_map, table_map_bytes.
  eapply ends_bind; [by apply table_id_parsed|]. rewrite Hfreeze.
  eapply ends_bind; [apply (parses_uint 2 2); [done|cbn in *; lia]|].
  eapply ends_bind; [apply parses_read_uint8|]. eapply ends_bind; [by apply parses_read|].
  eapply ends_lift; [exact Hs|]. eapply ends_bind; [by apply parses_advance|].
  eapply ends_bind; [apply parses_read_uint8|]. eapply ends_bind; [by apply parses_read|].
  eapply ends_lift; [exact Ht|]. rewrite Hfilt. eapply ends_bind; [by apply parses_advance|].
  eapply ends_bind; [apply parses_length_coded; lia|]. eapply ends_lift; [done|].
  eapply ends_bind; [apply parses_read; unfold zlen; by rewrite length_map|].
  eapply ends_bind; [by apply parses_length_coded|].
  eapply ends_bind; [by apply definitions_parsed|].
  eapply ends_bind; [by apply parses_read|].
  eapply ends_last.
  - intros w Hb Hw. by apply meta_read.
  - intros w. rewrite st_bind_eq. unfold st_lift. by rewrite Hsync.
Qed.

(** The parts of a table map event fit their fields. *)
Definition event_ok (tid flags : Z) (sb tb : bytes) (schema table : string) (defs : list column_def) (null_mask : bytes) : Prop :=
  0 <= tid < 2 ^ 48 /\ 0 <= flags < 2 ^ 16 /\ (zlen sb < 256 /\ zlen tb < 256) /\
  (utf8_decode ErrStrict sb = Ok schema /\ utf8_decode ErrStrict tb = Ok table) /\
  (zlen defs < 2 ^ 24 /\ zlen (concat (map (fun d : column_def => d.1.2) defs)) < 2 ^ 24) /\
  Forall def_ok defs /\ zlen null_mask = (zlen defs + 7) / 8.

End event.

(** A table [d.t] of an unsigned key [id] and an integer [n]. *)
Definition ex_defs : list column_def :=
  [(FIELD_TYPE.LONG, [], new_column FIELD_TYPE.LONG); (FIELD_TYPE.LONG, [], new_column FIELD_TYPE.LONG)].
Definition ex_fields : list bytes :=
  [meta_field 1 [0x80]; meta_field 4 [2; 105; 100; 1; 110]; meta_field 8 [0]].
Definition ex_meta : OptionalMetaData :=
  set_keys [Some 0] (set_names ["id"; "n"] (set_unsigned [true; false] empty_meta)).

Lemma ex_steps : meta_steps (P:=list_packet) (map type (map snd ex_defs)) "mysql" empty_meta ex_fields ex_meta.
Proof.
  eapply meta_more; [|done|].
  { eapply parses_meta_field; [reflexivity|vm_compute; reflexivity|]. apply signedness_parsed. vm_compute. lia. }
  eapply meta_more; [|done|].
  { eapply parses_meta_field; [reflexivity|vm_compute; reflexivity|].
    apply (names_parsed _ _ _ [([105; 100], "id"); ([110], "n")]). repeat constructor; vm_compute; reflexivity. }
  eapply meta_more; [|done|apply meta_done].
  eapply parses_meta_field; [reflexivity|vm_compute; reflexivity|].
  apply (keys_parsed _ _ _ [0]). repeat constructor; lia.
Qed.

Lemma ex_event_ok : event_ok (P:=list_packet) 42 1 [100] [116] "d" "t" ex_defs [2].
Proof.
  repeat split; try reflexivity; try lia; try (vm_compute; reflexivity).
  repeat constructor; apply parses_ret.
Qed.


(** The table stored in the table map while the metadata is read keeps the
    primary key computed before: the caller must store [get_table()]. *)
Example first_table_has_no_key :
  (r ← fst (read_table_map (mkFilters None None None None) false true "mysql" []
      (wrap_bytes (table_map_bytes 42 1 [100] [116] ex_defs [2] ex_fields ++ [1; 2; 3; 4])));
   match r with
   | Some (ev, tm) => Ok (primary_key (tm_table_obj ev), primary_key <$> dict_get tm 42)
   | None => Err KeyError
   end) = Ok (PkStr "id", Some (PkStr "")).
Proof. vm_compute. reflexivity. Qed.
