(* ===== verification/Ddl.v ===== *)
(** * Classification of DDL statements

    [nondml_patterns] and [extract_schema] of [main.py].  Python's [re] is
    modelled by a backtracking matcher for the constructs the patterns use:
    literals and classes, greedy repetition of a class, optional parts and
    groups, searched for from every position.

    A character is its UTF-8 text.  Which non-ASCII characters are white
    space or word characters, and which equal an ASCII letter when case is
    ignored, is a table of the Unicode database: the parameter
    [UnicodeTables], of which only this is used: a word character is not white
    space. *)

From stdpp Require Import base list strings sets.
From Stdlib Require Import ZArith Lia Ascii.
From S2P Require Import Prelude PyBytes PyStr Sql.
Open Scope string_scope.
Open Scope nat_scope.

Class UnicodeTables := {
  uni_space : string -> bool;
  uni_word : string -> bool;
  uni_letter : string -> ascii -> bool;
  uni_word_space : forall c, uni_word c = true -> uni_space c = false
}.

(** ** Characters of a text *)

Definition is_continuation (c : ascii) : bool := let n := nat_of_ascii c in (128 <=? n) && (n <? 192).

Fixpoint chars (s : string) : list string :=
  match s with
  | EmptyString => []
  | String c s' =>
      match chars s' with
      | String d h :: t => if is_continuation d then String c (String d h) :: t else String c EmptyString :: String d h :: t
      | l => String c EmptyString :: l
      end
  end.

Fixpoint text (l : list string) : string :=
  match l with [] => EmptyString | c :: l' => c ++ text l' end.

(** ** Patterns *)

Inductive re :=
  | Chr (p : string -> bool)
  | Star (p : string -> bool)
  | Plus (p : string -> bool)
  | Opt (r : re)
  | Seq (r1 r2 : re)
  | Grp (n : nat) (r : re).

(** Captures: group number and text. *)
Definition captures : Type := dict nat string.

(** Greedy repetition: the longest first, then shorter ones. *)
Fixpoint star {A} (p : string -> bool) (s : list string) (k : list string -> option A) : option A :=
  match s with
  | c :: s' =>
      if p c then match star p s' k with Some r => Some r | None => k s end else k s
  | [] => k []
  end.

(** Match [r] at the start of [s] and continue with what follows. *)
Fixpoint run_re {A} (r : re) (s : list string) (caps : captures) (k : list string -> captures -> option A) : option A :=
  match r with
  | Chr p => match s with c :: s' => if p c then k s' caps else None | [] => None end
  | Star p => star p s (fun s' => k s' caps)
  | Plus p => match s with c :: s' => if p c then star p s' (fun s'' => k s'' caps) else None | [] => None end
  | Opt r => match run_re r s caps k with Some x => Some x | None => k s caps end
  | Seq r1 r2 => run_re r1 s caps (fun s' caps' => run_re r2 s' caps' k)
  | Grp n r => run_re r s caps (fun s' caps' => k s' (dict_set caps' n (text (take (length s - length s') s))))
  end.

Definition match_at (r : re) (s : list string) : option captures := run_re r s [] (fun _ caps => Some caps).

(** [regex.search] *)
Fixpoint search (r : re) (s : list string) : option captures :=
  match match_at r s with
  | Some caps => Some caps
  | None => match s with [] => None | _ :: s' => search r s' end
  end.

Section patterns.
Context `{UnicodeTables}.

Definition ascii_of (c : string) : option ascii :=
  match c with String a EmptyString => if nat_of_ascii a <? 128 then Some a else None | _ => None end.

(** [\s] *)
Definition space (c : string) : bool :=
  match ascii_of c with
  | Some a => let n := nat_of_ascii a in ((9 <=? n) && (n <=? 13)) || ((28 <=? n) && (n <=? 32))
  | None => uni_space c
  end.

(** [\w] *)
Definition word (c : string) : bool :=
  match ascii_of c with
  | Some a => let n := nat_of_ascii a in
      ((48 <=? n) && (n <=? 57)) || ((65 <=? n) && (n <=? 90)) || ((97 <=? n) && (n <=? 122)) || (n =? 95)
  | None => uni_word c
  end.

(** A small letter of a pattern, case ignored. *)
Definition letter (l : ascii) (c : string) : bool :=
  match ascii_of c with
  | Some a => bool_decide (a = l) ||
      let n := nat_of_ascii a in ((65 <=? n) && (n <=? 90) && (n + 32 =? nat_of_ascii l))
  | None => uni_letter c l
  end.

Definition char_is (a : ascii) (c : string) : bool := bool_decide (c = String a EmptyString).

(** [.] *)
Definition any (c : string) : bool := negb (char_is "010"%char c).

(** [literal k r]: the letters of [k], then [r]. *)
Fixpoint literal (k : string) (r : re) : re :=
  match k with EmptyString => r | String l k' => Seq (Chr (letter l)) (literal k' r) end.

Definition quote : re := Opt (Chr (char_is "`")).

(** [`?(\w+)`?] *)
Definition ident (n : nat) : re := Seq quote (Seq (Grp n (Plus word)) quote).

(** [(?:`?(\w+)`?\.)?`?(\w+)`?] followed by [e] *)
Definition table_name (e : re) : re := Seq (Opt (Seq (ident 1) (Chr (char_is ".")))) (Seq (ident 2) e).

(** [\s*k1\s+k2\s+] followed by [r] *)
Definition keywords (k1 k2 : string) (r : re) : re :=
  Seq (Star space) (literal k1 (Seq (Plus space) (literal k2 (Seq (Plus space) r)))).

(** [if\s+not\s+exists\s+] and [if\s+exists\s+] *)
Definition if_not_exists : re :=
  literal "if" (Seq (Plus space) (literal "not" (Seq (Plus space) (literal "exists" (Plus space))))).
Definition if_exists : re := literal "if" (Seq (Plus space) (literal "exists" (Plus space))).

(** The ends of the patterns: [\s*], [\s?.*], [\s+.*]. *)
Definition end_spaces : re := Star space.
Definition end_any : re := Seq (Opt (Chr space)) (Star any).
Definition end_more : re := Seq (Plus space) (Star any).

Definition nondml_patterns : list (re * NonDMLType) := [
  (keywords "create" "database" (Seq (Opt if_not_exists) (Seq (ident 1) end_spaces)), CREATEDATABASE);
  (keywords "alter" "database" (Seq (ident 1) end_spaces), ALTERDATABASE);
  (keywords "drop" "database" (Seq (Opt if_exists) (Seq (ident 1) end_spaces)), DROPDATABASE);
  (keywords "create" "table" (table_name end_any), CREATETABLE);
  (keywords "alter" "table" (table_name end_more), ALTERTABLE);
  (keywords "drop" "table" (table_name end_spaces), DROPTABLE);
  (keywords "rename" "table" (table_name end_more), RENAMETABLE);
  (keywords "truncate" "table" (table_name end_spaces), TRUNCATETABLE);
  (keywords "create" "index" (Seq (Plus word) (Seq (Plus space) (literal "on" (Seq (Plus space) (table_name end_any))))),
   CREATEINDEX)
].

Definition is_database_type (t : NonDMLType) : bool :=
  bool_decide (t ∈ [CREATEDATABASE; ALTERDATABASE; DROPDATABASE]).
Definition is_table_type (t : NonDMLType) : bool :=
  bool_decide (t ∈ [CREATETABLE; ALTERTABLE; DROPTABLE; TRUNCATETABLE; RENAMETABLE; CREATEINDEX]).

(** The loop of [extract_schema]. *)
Fixpoint extract_loop (patterns : list (re * NonDMLType)) (statement : list string)
  : option NonDMLType * option string * option string :=
  match patterns with
  | [] => (None, None, None)
  | (regex, ddl_type) :: rest =>
      match search regex statement with
      | Some groups =>
          if is_database_type ddl_type then (Some ddl_type, None, None)
          else if is_table_type ddl_type then (Some ddl_type, dict_get groups 1, dict_get groups 2)
          else extract_loop rest statement
      | None => extract_loop rest statement
      end
  end.

Definition extract_schema (statement : string) : option NonDMLType * option string * option string :=
  extract_loop nondml_patterns (chars statement).
End patterns.

(** ** Properties *)

Open Scope list_scope.

Section matcher.
Context {A : Type}.

(** The next character is not in a class. *)
Definition stops (p : string -> bool) (s : list string) : Prop :=
  match s with [] => True | c :: _ => p c = false end.

Lemma star_greedy p w s (k : list string -> option A) x :
  Forall (fun c => p c = true) w -> stops p s -> k s = Some x -> star p (w ++ s) k = Some x.
Proof.
  intros Hw Hs Hk. induction Hw as [|c w Hc Hw IH]; cbn [app star].
  - destruct s as [|c s]; [done|]. cbn [star]. by rewrite Hs.
  - by rewrite Hc, IH.
Qed.

Lemma star_none p w s (k : list string -> option A) :
  Forall (fun c => p c = true) w -> stops p s ->
  (forall w1 w2, w = w1 ++ w2 -> k (w2 ++ s) = None) -> star p (w ++ s) k = None.
Proof.
  intros Hw Hs. induction Hw as [|c w Hc Hw IH]; intros Hk; cbn [app star].
  - specialize (Hk [] [] eq_refl). destruct s as [|c s]; [done|]. cbn [star]. by rewrite Hs.
  - rewrite Hc, IH; [by apply (Hk [] (c :: w))|]. intros w1 w2 ->. by apply (Hk (c :: w1)).
Qed.

Lemma star_total p s (k : list string -> option A) x : (forall s, k s = Some x) -> star p s k = Some x.
Proof. intros Hk. induction s as [|c s IH]; cbn; [done|]. destruct (p c); [by rewrite IH|done]. Qed.

Lemma run_plus p w s caps (k : list string -> captures -> option A) x :
  w <> [] -> Forall (fun c => p c = true) w -> stops p s -> k s caps = Some x -> run_re (Plus p) (w ++ s) caps k = Some x.
Proof.
  intros Hne Hw Hs Hk. destruct Hw as [|c w Hc Hw]; [done|]. cbn. rewrite Hc. by apply star_greedy.
Qed.
End matcher.

Section statements.
Context `{UnicodeTables} {A : Type}.

(** A spelling of a keyword: its letters in either case. *)
Definition spells (k : string) (w : list string) : Prop :=
  Forall2 (fun l c => letter l c = true /\ space c = false) (String.list_ascii_of_string k) w.

Lemma run_literal k w r s caps (K : list string -> captures -> option A) :
  spells k w -> run_re (literal k r) (w ++ s) caps K = run_re r s caps K.
Proof.
  unfold spells. revert w. induction k as [|l k IH]; intros w Hw; inversion Hw as [|? c ? w' [Hc _] Hw']; subst; [done|].
  cbn [literal run_re app]. rewrite Hc. by apply IH.
Qed.

Lemma spells_stops k w s : k <> EmptyString -> spells k w -> stops space (w ++ s).
Proof. unfold spells. destruct k; [done|]. intros _ Hw. inversion Hw as [|? ? ? ? [_ ?]]; subst. done. Qed.

Definition spaces (w : list string) : Prop := Forall (fun c => space c = true) w.

Lemma run_keywords k1 k2 r w0 w1 w2 t1 t2 s caps (K : list string -> captures -> option A) x :
  k1 <> EmptyString -> k2 <> EmptyString -> spells k1 t1 -> spells k2 t2 ->
  spaces w0 -> spaces w1 -> spaces w2 -> w1 <> [] -> w2 <> [] -> stops space s ->
  run_re r s caps K = Some x ->
  run_re (keywords k1 k2 r) (w0 ++ t1 ++ w1 ++ t2 ++ w2 ++ s) caps K = Some x.
Proof.
  intros N1 N2 H1 H2 Hw0 Hw1 Hw2 Hne1 Hne2 Hs Hr. unfold keywords. cbn [run_re].
  apply star_greedy; [done|by apply (spells_stops k1)|]. rewrite (run_literal k1) by done. cbn [run_re].
  change (run_re (Plus space) (w1 ++ t2 ++ w2 ++ s) caps
    (fun s' caps' => run_re (literal k2 (Seq (Plus space) r)) s' caps' K) = Some x).
  apply run_plus; [done|done|by apply (spells_stops k2)|]. rewrite (run_literal k2) by done.
  change (run_re (Plus space) (w2 ++ s) caps (fun s' caps' => run_re r s' caps' K) = Some x).
  by apply run_plus.
Qed.

(** An identifier, in backquotes or not. *)
Definition quoted (q : bool) (w : list string) : list string := if q then "`" :: w ++ ["`"] else w.

Definition identifier (w : list string) : Prop := w <> [] /\ Forall (fun c => word c = true) w.

Lemma word_not_quote c : word c = true -> char_is "`" c = false /\ char_is "." c = false.
Proof.
  intros Hc. split; apply bool_decide_eq_false; intros ->; by vm_compute in Hc.
Qed.

Lemma run_quote_skip s caps (K : list string -> captures -> option A) :
  stops (char_is "`") s -> run_re quote s caps K = K s caps.
Proof. unfold quote. cbn. destruct s as [|c s]; [done|]. cbn. by intros ->. Qed.

Lemma run_quote_take s caps (K : list string -> captures -> option A) x :
  K s caps = Some x -> run_re quote ("`" :: s) caps K = Some x.
Proof. unfold quote. cbn [run_re]. change (char_is "`" "`") with true. by intros ->. Qed.

(** Where an identifier ends. *)
Definition ident_end (q : bool) (s : list string) : Prop :=
  q = true \/ (stops word s /\ stops (char_is "`") s).

Lemma run_group n w s caps (K : list string -> captures -> option A) x :
  identifier w -> stops word s -> K s (dict_set caps n (text w)) = Some x ->
  run_re (Grp n (Plus word)) (w ++ s) caps K = Some x.
Proof.
  intros [Hne Hw] Hs Hk. cbn [run_re]. fold (@run_re A). 
  change (run_re (Plus word) (w ++ s) caps (fun s' caps' => K s' (dict_set caps' n (text (take (length (w ++ s) - length s') (w ++ s))))) = Some x).
  apply run_plus; [done|done|done|]. rewrite length_app, Nat.add_sub, take_app_length. done.
Qed.

Lemma run_seq r1 r2 s caps (K : list string -> captures -> option A) :
  run_re (Seq r1 r2) s caps K = run_re r1 s caps (fun s' caps' => run_re r2 s' caps' K).
Proof. done. Qed.

Lemma word_not_space c : word c = true -> space c = false.
Proof.
  unfold word, space. destruct (ascii_of c) as [a|]; [|apply uni_word_space].
  destruct a as [[] [] [] [] [] [] [] []]; by vm_compute.
Qed.

Lemma word_stops_space w s : identifier w -> stops space (w ++ s).
Proof. intros [Hne Hw]. destruct Hw as [|c w Hc Hw]; [done|]. cbn. by apply word_not_space. Qed.

Lemma quoted_stops_space q w s : identifier w -> stops space (quoted q w ++ s).
Proof. intros Hw. destruct q; [done|by apply word_stops_space]. Qed.

Lemma word_stops_quote w s : identifier w -> stops (char_is "`") (w ++ s).
Proof. intros [Hne Hw]. destruct Hw as [|c w Hc Hw]; [done|]. cbn. by apply word_not_quote. Qed.

Lemma run_ident n q w s caps (K : list string -> captures -> option A) x :
  identifier w -> ident_end q s -> K s (dict_set caps n (text w)) = Some x ->
  run_re (ident n) (quoted q w ++ s) caps K = Some x.
Proof.
  intros Hid Hend Hk. unfold ident. rewrite run_seq. destruct q; cbn [quoted].
  - cbn [app]. apply run_quote_take. rewrite run_seq, <- app_assoc. apply run_group; [done|done|].
    by apply run_quote_take.
  - destruct Hend as [|[Hs1 Hs2]]; [done|]. rewrite run_quote_skip by by apply word_stops_quote.
    rewrite run_seq. apply run_group; [done|done|]. by rewrite run_quote_skip.
Qed.

(** An identifier that no dot follows is not the name of a schema. *)
Lemma run_quote_none s caps (K : list string -> captures -> option A) :
  K s caps = None -> (forall s', s = "`" :: s' -> K s' caps = None) -> run_re quote s caps K = None.
Proof.
  intros H1 H2. unfold quote. cbn. destruct s as [|c s]; [done|]. destruct (char_is "`" c) eqn:E; [|done].
  apply bool_decide_eq_true in E as ->. by rewrite (H2 s eq_refl).
Qed.

Lemma run_dot_none s caps (K : list string -> captures -> option A) :
  stops (char_is ".") s -> run_re (Chr (char_is ".")) s caps K = None.
Proof. destruct s as [|c s]; [done|]. cbn. by intros ->. Qed.

Lemma word_stops_dot w s : Forall (fun c => word c = true) w -> stops (char_is ".") s -> stops (char_is ".") (w ++ s).
Proof. intros Hw Hs. destruct Hw as [|c w Hc Hw]; [done|]. cbn. by apply word_not_quote. Qed.

Lemma run_group_none n w s caps (K : list string -> captures -> option A) :
  identifier w -> stops word s ->
  (forall w1 w2 caps', w = w1 ++ w2 -> K (w2 ++ s) caps' = None) -> run_re (Grp n (Plus word)) (w ++ s) caps K = None.
Proof.
  intros [Hne Hw] Hs Hk. destruct Hw as [|c w Hc Hw]; [done|]. cbn. rewrite Hc.
  apply star_none; [done|done|]. intros w1 w2 ->. by apply (Hk (c :: w1)).
Qed.

Lemma run_schema_none q w s caps (K : list string -> captures -> option A) :
  identifier w -> ident_end q s -> stops (char_is ".") s ->
  run_re (Seq (ident 1) (Chr (char_is "."))) (quoted q w ++ s) caps K = None.
Proof.
  intros Hid Hend Hdot. unfold ident. rewrite !run_seq. destruct q; cbn [quoted].
  - cbn [app]. rewrite <- app_assoc. apply run_quote_none; [done|]. intros s' [= <-]. rewrite run_seq.
    apply run_group_none; [done|done|]. intros w1 w2 caps' ->. destruct Hid as [_ [_ Hw2]%Forall_app].
    apply run_quote_none.
    + apply run_dot_none. by apply word_stops_dot.
    + intros s' E. destruct Hw2 as [|c w2 Hc Hw2]; cbn in E; [injection E as <-; by apply run_dot_none|].
      injection E as -> _. by vm_compute in Hc.
  - destruct Hend as [|[Hs1 Hs2]]; [done|]. rewrite run_quote_skip by by apply word_stops_quote. rewrite run_seq.
    apply run_group_none; [done|done|]. intros w1 w2 caps' ->. destruct Hid as [_ [_ Hw2]%Forall_app].
    rewrite run_quote_skip; [by apply run_dot_none, word_stops_dot|].
    destruct Hw2 as [|c w2 Hc Hw2]; [done|]. cbn. by apply word_not_quote.
Qed.
End statements.

Section schemas.
Context `{UnicodeTables}.

(** A table name as a statement writes it: [db.tab] or [tab], each part in
    backquotes or not. *)
Record written_name := WrittenName {
  wn_schema : option (bool * list string);
  wn_quoted : bool;
  wn_table : list string
}.

Definition write_name (n : written_name) : list string :=
  match wn_schema n with Some (q, d) => quoted q d ++ "." :: [] | None => [] end ++ quoted (wn_quoted n) (wn_table n).

Definition name_ok (n : written_name) : Prop :=
  match wn_schema n with Some (_, d) => identifier d | None => True end /\ identifier (wn_table n).

(** What follows the name does not go on with it. *)
Definition name_end (n : written_name) (rest : list string) : Prop :=
  ident_end (wn_quoted n) rest /\ match wn_schema n with Some _ => True | None => stops (char_is ".") rest end.

Definition name_captures (n : written_name) : captures :=
  dict_set (match wn_schema n with Some (_, d) => [(1, text d)] | None => [] end) 2 (text (wn_table n)).

(** The end of a pattern matches what follows the name. *)
Definition accepts (e : re) (rest : list string) : Prop :=
  forall caps, run_re e rest caps (fun _ caps => Some caps) = Some caps.

Lemma accepts_spaces rest : accepts end_spaces rest.
Proof. intros caps. by apply star_total. Qed.

Lemma accepts_any rest : accepts end_any rest.
Proof.
  intros caps. unfold end_any. rewrite run_seq. cbn. assert (forall s, star any s (fun _ => Some caps) = Some caps) as E
    by (intros s; by apply star_total). destruct rest as [|c rest]; [done|]. by destruct (space c); rewrite ?E.
Qed.

Lemma accepts_more c rest : space c = true -> accepts end_more (c :: rest).
Proof.
  intros Hc caps. unfold end_more. rewrite run_seq. cbn. rewrite Hc. apply star_total. intros s. by apply star_total.
Qed.

Lemma run_table_name n e rest :
  name_ok n -> name_end n rest -> accepts e rest ->
  run_re (table_name e) (write_name n ++ rest) [] (fun _ caps => Some caps) = Some (name_captures n).
Proof.
  destruct n as [sch q t]. intros [Hd Ht] [He Hdot] Hacc. cbn in Hd, Ht, He, Hdot. unfold table_name, write_name, name_captures.
  cbn [wn_schema wn_quoted wn_table]. rewrite run_seq.
  assert (forall caps, run_re (Seq (ident 2) e) (quoted q t ++ rest) caps (fun _ caps => Some caps) = Some (dict_set caps 2 (text t))) as E2.
  { intros caps. rewrite run_seq. apply run_ident; [done|done|]. apply Hacc. }
  destruct sch as [[q1 d]|].
  - rewrite <- !app_assoc. cbn [app]. cbn [run_re]. fold (@run_re captures).
    change (match run_re (Seq (ident 1) (Chr (char_is "."))) (quoted q1 d ++ "." :: quoted q t ++ rest) []
      (fun s' caps' => run_re (Seq (ident 2) e) s' caps' (fun _ caps => Some caps)) with
      | Some x => Some x | None => run_re (Seq (ident 2) e) (quoted q1 d ++ "." :: quoted q t ++ rest) [] (fun _ caps => Some caps) end
      = Some (dict_set [(1, text d)] 2 (text t))).
    rewrite run_seq, (run_ident 1 q1 d _ _ _ (dict_set [(1, text d)] 2 (text t))); [done|done|by right|]. apply E2.
  - cbn [app]. change (match run_re (Seq (ident 1) (Chr (char_is "."))) (quoted q t ++ rest) []
      (fun s' caps' => run_re (Seq (ident 2) e) s' caps' (fun _ caps => Some caps)) with
      | Some x => Some x | None => run_re (Seq (ident 2) e) (quoted q t ++ rest) [] (fun _ caps => Some caps) end
      = Some (dict_set [] 2 (text t))).
    rewrite run_schema_none by done. apply E2.
Qed.

(** The statements about one table: their keywords, the end of their
    pattern and their type. *)
Definition table_forms : list (string * re * NonDMLType) := [
  ("create", end_any, CREATETABLE); ("alter", end_more, ALTERTABLE); ("drop", end_spaces, DROPTABLE);
  ("rename", end_more, RENAMETABLE); ("truncate", end_spaces, TRUNCATETABLE)
].

Lemma extract_loop_found pre post r ty s caps :
  Forall (fun p => search p.1 s = None) pre -> search r s = Some caps -> is_table_type ty = true ->
  extract_loop (pre ++ (r, ty) :: post) s = (Some ty, dict_get caps 1, dict_get caps 2).
Proof.
  intros Hpre Hr Hty. induction Hpre as [|[r' ty'] pre Hn Hpre IH]; cbn [app extract_loop].
  - rewrite Hr, Hty. by destruct ty.
  - cbn in Hn. by rewrite Hn.
Qed.

Lemma search_table_form k e ty w0 t1 w1 t2 w2 n rest :
  (k, e, ty) ∈ table_forms -> spells k t1 -> spells "table" t2 ->
  spaces w0 -> spaces w1 -> spaces w2 -> w1 <> [] -> w2 <> [] ->
  name_ok n -> name_end n rest -> accepts e rest ->
  search (keywords k "table" (table_name e)) (w0 ++ t1 ++ w1 ++ t2 ++ w2 ++ write_name n ++ rest) = Some (name_captures n).
Proof.
  intros Hin H1 H2 Hw0 Hw1 Hw2 N1 N2 Hok Hend Hacc.
  assert (match_at (keywords k "table" (table_name e)) (w0 ++ t1 ++ w1 ++ t2 ++ w2 ++ write_name n ++ rest)
    = Some (name_captures n)) as E.
  { apply run_keywords; try done.
    - intros ->. by repeat (apply elem_of_cons in Hin as [|Hin]; [done|]); apply elem_of_nil in Hin.
    - destruct n as [[[q1 d]|] q t]; unfold write_name; destruct Hok as [Hd Ht]; cbn in Hd, Ht |- *.
      + rewrite <- !app_assoc. by apply quoted_stops_space.
      + by apply quoted_stops_space.
    - by apply run_table_name. }
  destruct (w0 ++ _); cbn [search]; by rewrite E.
Qed.

(** ALTER and RENAME need white space after the name. *)
Definition rest_ok (ty : NonDMLType) (rest : list string) : Prop :=
  match ty with ALTERTABLE | RENAMETABLE => match rest with c :: _ => space c = true | [] => False end | _ => True end.

Lemma rest_accepted k e ty rest : (k, e, ty) ∈ table_forms -> rest_ok ty rest -> accepts e rest.
Proof.
  intros Hin Hr. unfold table_forms in Hin. rewrite !elem_of_cons, elem_of_nil in Hin.
  destruct_or! Hin; simplify_eq; (destruct rest as [|c rest]; [done || apply accepts_any || apply accepts_spaces|]);
    first [apply accepts_any | apply accepts_spaces | by apply accepts_more].
Qed.

Lemma table_form_pattern k e ty :
  (k, e, ty) ∈ table_forms -> exists pre post,
    nondml_patterns = pre ++ (keywords k "table" (table_name e), ty) :: post /\
    Forall (fun p => p.2 <> ty) pre /\ is_table_type ty = true.
Proof.
  intros Hin. unfold table_forms in Hin. rewrite !elem_of_cons, elem_of_nil in Hin.
  destruct_or! Hin; simplify_eq;
    [exists (take 3 nondml_patterns), (drop 4 nondml_patterns) | exists (take 4 nondml_patterns), (drop 5 nondml_patterns)
    |exists (take 5 nondml_patterns), (drop 6 nondml_patterns) | exists (take 6 nondml_patterns), (drop 7 nondml_patterns)
    |exists (take 7 nondml_patterns), (drop 8 nondml_patterns)];
    (split; [done|split; [cbn; repeat constructor; done|done]]).
Qed.

End schemas.

(** ** Examples *)

(** No non-ASCII character is special. *)
#[export] Instance ascii_only : UnicodeTables := { uni_space _ := false; uni_word _ := true; uni_letter _ _ := false;
  uni_word_space _ _ := eq_refl }.

Example create_table_example :
  extract_schema "CREATE TABLE `db`.`tab` (id int)" = (Some CREATETABLE, Some "db", Some "tab").
Proof. vm_compute. reflexivity. Qed.

Example alter_example : extract_schema "alter  table t1 add c int" = (Some ALTERTABLE, None, Some "t1").
Proof. vm_compute. reflexivity. Qed.

Example drop_database_example : extract_schema "DROP DATABASE IF EXISTS x" = (Some DROPDATABASE, None, None).
Proof. vm_compute. reflexivity. Qed.

Example index_example : extract_schema "create index i on d.t (a)" = (Some CREATEINDEX, Some "d", Some "t").
Proof. vm_compute. reflexivity. Qed.

Example not_ddl : extract_schema "grant all on *.* to u" = (None, None, None).
Proof. vm_compute. reflexivity. Qed.

(** [IF NOT EXISTS] is taken for the name of the table. *)
Example create_if_not_exists :
  extract_schema "CREATE TABLE IF NOT EXISTS `db`.`tab` (id int)" = (Some CREATETABLE, None, Some "IF").
Proof. vm_compute. reflexivity. Qed.

(** The patterns are searched for anywhere in the statement. *)
Example matched_inside :
  extract_schema "ALTER TABLE t COMMENT 'see create database x'" = (Some CREATEDATABASE, None, None).
Proof. vm_compute. reflexivity. Qed.

