(* ===== verification/Dispatch.v ===== *)
(** * From packets to events

    The constructor of [BinLogPacketWrapper] ([pymysqlreplication/packet.py])
    and of [BinLogEvent] ([event.py]): the header of an event, the map from
    event types to event classes, the filter on classes, the checksum, and the
    constructor of the class, which may leave the event unprocessed.

    A row event keeps the packet it was read from, because its rows are read
    when they are asked for. *)

From stdpp Require Import base list strings sets.
From Stdlib Require Import ZArith Lia Ascii.
From S2P Require Import Prelude PyBytes PyStr Values UtilBytes Packet Column Bitmap JsonBinary RowValues RowDecimal Event Sql RowsEvent RowCells RowImage TableMap.
Open Scope string_scope.
Open Scope Z_scope.

(** ** Event classes *)

Inductive event_class :=
  | QueryEventC | RotateEventC | FormatDescriptionEventC | XidEventC | IntvarEventC
  | GtidEventC | PreviousGtidsEventC | StopEventC | BeginLoadQueryEventC
  | ExecuteLoadQueryEventC | HeartbeatLogEventC | XAPrepareEventC | RowsQueryLogEventC
  | RandEventC | UserVarEventC
  | UpdateRowsEventC | WriteRowsEventC | DeleteRowsEventC | TableMapEventC | PartialUpdateRowsEventC
  | NotImplementedEventC
  | MariadbAnnotateRowsEventC | MariadbBinLogCheckPointEventC | MariadbGtidEventC
  | MariadbGtidListEventC | MariadbStartEncryptionEventC.

#[export] Instance event_class_eq_dec : EqDecision event_class.
Proof. solve_decision. Defined.

(** [__event_map] *)
Definition event_map : list (Z * event_class) := [
  (BINLOG.QUERY_EVENT, QueryEventC);
  (BINLOG.ROTATE_EVENT, RotateEventC);
  (BINLOG.FORMAT_DESCRIPTION_EVENT, FormatDescriptionEventC);
  (BINLOG.XID_EVENT, XidEventC);
  (BINLOG.INTVAR_EVENT, IntvarEventC);
  (BINLOG.GTID_LOG_EVENT, GtidEventC);
  (BINLOG.PREVIOUS_GTIDS_LOG_EVENT, PreviousGtidsEventC);
  (BINLOG.STOP_EVENT, StopEventC);
  (BINLOG.BEGIN_LOAD_QUERY_EVENT, BeginLoadQueryEventC);
  (BINLOG.EXECUTE_LOAD_QUERY_EVENT, ExecuteLoadQueryEventC);
  (BINLOG.HEARTBEAT_LOG_EVENT, HeartbeatLogEventC);
  (BINLOG.XA_PREPARE_EVENT, XAPrepareEventC);
  (BINLOG.ROWS_QUERY_LOG_EVENT, RowsQueryLogEventC);
  (BINLOG.RAND_EVENT, RandEventC);
  (BINLOG.USER_VAR_EVENT, UserVarEventC);
  (BINLOG.UPDATE_ROWS_EVENT_V1, UpdateRowsEventC);
  (BINLOG.WRITE_ROWS_EVENT_V1, WriteRowsEventC);
  (BINLOG.DELETE_ROWS_EVENT_V1, DeleteRowsEventC);
  (BINLOG.UPDATE_ROWS_EVENT_V2, UpdateRowsEventC);
  (BINLOG.WRITE_ROWS_EVENT_V2, WriteRowsEventC);
  (BINLOG.DELETE_ROWS_EVENT_V2, DeleteRowsEventC);
  (BINLOG.TABLE_MAP_EVENT, TableMapEventC);
  (BINLOG.PARTIAL_UPDATE_ROWS_EVENT, PartialUpdateRowsEventC);
  (BINLOG.ANONYMOUS_GTID_LOG_EVENT, NotImplementedEventC);
  (BINLOG.MARIADB_ANNOTATE_ROWS_EVENT, MariadbAnnotateRowsEventC);
  (BINLOG.MARIADB_BINLOG_CHECKPOINT_EVENT, MariadbBinLogCheckPointEventC);
  (BINLOG.MARIADB_GTID_EVENT, MariadbGtidEventC);
  (BINLOG.MARIADB_GTID_GTID_LIST_EVENT, MariadbGtidListEventC);
  (BINLOG.MARIADB_START_ENCRYPTION_EVENT, MariadbStartEncryptionEventC)
].

(** [__event_map.get(event_type, NotImplementedEvent)] *)
Definition class_of (event_type : Z) : event_class := default NotImplementedEventC (dict_get event_map event_type).

(** An event object: what its constructor reads. *)
Inductive event (P : Type) :=
  | EQuery (q : QueryEvent)
  | ERotate (position : Z) (next_binlog : string)
  | EFormatDescription (fd : FormatDescriptionEvent)
  | EXid (xid : Z)
  | EIntvar (type value : Z)
  | EGtid (g : GtidEvent)
  | EPreviousGtids (gtids : string)
  | EStop
  | EBeginLoadQuery (file_id : Z) (block_data : bytes)
  | EExecuteLoadQuery (fields : list Z)
  | EHeartbeat (ident : string)
  | EXAPrepare (one_phase : bool) (format_id : Z) (gtrid bqual : bytes)
  | ERowsQuery (query : string)
  | ERand (seed1 seed2 : Z)
  | EUserVar (u : UserVarEvent)
  | ERows (r : RowsEvent) (s : rowst P) (event_size : Z)
  | ETableMap (t : TableMapEvent)
  | ENotImplemented
  | EMariadbAnnotate (sql_statement : bytes)
  | EMariadbCheckpoint (filename : string)
  | EMariadbGtid (gtid_seq_no domain_id flags : Z) (gtid : string)
  | EMariadbGtidList (gtid_list : list string)
  | EMariadbEncryption (schema key_version : Z) (nonce : bytes).
Arguments EQuery {P}.
Arguments ERotate {P}.
Arguments EFormatDescription {P}.
Arguments EXid {P}.
Arguments EIntvar {P}.
Arguments EGtid {P}.
Arguments EPreviousGtids {P}.
Arguments EStop {P}.
Arguments EBeginLoadQuery {P}.
Arguments EExecuteLoadQuery {P}.
Arguments EHeartbeat {P}.
Arguments EXAPrepare {P}.
Arguments ERowsQuery {P}.
Arguments ERand {P}.
Arguments EUserVar {P}.
Arguments ERows {P}.
Arguments ETableMap {P}.
Arguments ENotImplemented {P}.
Arguments EMariadbAnnotate {P}.
Arguments EMariadbCheckpoint {P}.
Arguments EMariadbGtid {P}.
Arguments EMariadbGtidList {P}.
Arguments EMariadbEncryption {P}.

(** [type(event)] *)
Definition rows_event_class (c : rows_class) : event_class :=
  match c with
  | CDelete => DeleteRowsEventC | CWrite => WriteRowsEventC
  | CUpdate => UpdateRowsEventC | CPartialUpdate => PartialUpdateRowsEventC
  end.

Definition class_of_event {P} (e : event P) : event_class :=
  match e with
  | EQuery _ => QueryEventC | ERotate _ _ => RotateEventC | EFormatDescription _ => FormatDescriptionEventC
  | EXid _ => XidEventC | EIntvar _ _ => IntvarEventC | EGtid _ => GtidEventC
  | EPreviousGtids _ => PreviousGtidsEventC | EStop => StopEventC | EBeginLoadQuery _ _ => BeginLoadQueryEventC
  | EExecuteLoadQuery _ => ExecuteLoadQueryEventC | EHeartbeat _ => HeartbeatLogEventC
  | EXAPrepare _ _ _ _ => XAPrepareEventC | ERowsQuery _ => RowsQueryLogEventC | ERand _ _ => RandEventC
  | EUserVar _ => UserVarEventC | ERows r _ _ => rows_event_class (re_class r) | ETableMap _ => TableMapEventC
  | ENotImplemented => NotImplementedEventC | EMariadbAnnotate _ => MariadbAnnotateRowsEventC
  | EMariadbCheckpoint _ => MariadbBinLogCheckPointEventC | EMariadbGtid _ _ _ _ => MariadbGtidEventC
  | EMariadbGtidList _ => MariadbGtidListEventC | EMariadbEncryption _ _ _ => MariadbStartEncryptionEventC
  end.

(** What the stream reader passes to every event. *)
Record event_context := mkContext {
  ec_mysql_version : list Z;
  ec_use_checksum : bool;
  ec_allowed_events : list event_class;
  ec_filters : filters;
  ec_freeze_schema : bool;
  ec_verify_checksum : bool;
  ec_optional_meta_data : bool;
  ec_dbms : string
}.

Section dispatch.
Context {P : Type} `{MysqlPacket P}.

(** The constructor of an event class, after [BinLogEvent.__init__]; [None]
    is an event that was not processed.  A table map event also changes the
    table map of the reader. *)
Definition construct_body (ctx : event_context) (cls : event_class) (verify : bool) (event_size : Z) (table_map : dict Z Table)
  : PM P (option (event P) * dict Z Table) :=
  let simple (m : PM P (event P)) : PM P (option (event P) * dict Z Table) := e ← m; mret (Some e, table_map) in
  let row_event (c : rows_class) : PM P (option (event P) * dict Z Table) :=
    o ← read_rows_event c (ec_filters ctx) table_map;
    w ← st_get;
    mret (match o with Some r => Some (ERows r (mkRowst w [] []) event_size) | None => None end, table_map) in
  match cls with
  | QueryEventC => simple (q ← read_query_event event_size; mret (EQuery q))
  | RotateEventC => simple ('(pos, nb) ← read_rotate event_size; mret (ERotate pos nb))
  | FormatDescriptionEventC => simple (fd ← read_format_description event_size; mret (EFormatDescription fd))
  | XidEventC => simple (x ← read_xid; mret (EXid x))
  | IntvarEventC => simple ('(t, v) ← read_intvar; mret (EIntvar t v))
  | GtidEventC => simple (g ← read_gtid_event (ec_mysql_version ctx); mret (EGtid g))
  | PreviousGtidsEventC => simple (s ← read_previous_gtids; mret (EPreviousGtids s))
  | StopEventC => simple (mret EStop)
  | BeginLoadQueryEventC => simple ('(f, d) ← read_begin_load_query event_size; mret (EBeginLoadQuery f d))
  | ExecuteLoadQueryEventC => simple (l ← read_execute_load_query; mret (EExecuteLoadQuery l))
  | HeartbeatLogEventC => simple (s ← read_heartbeat event_size; mret (EHeartbeat s))
  | XAPrepareEventC => simple ('(o, f, g, b) ← read_xa_prepare; mret (EXAPrepare o f g b))
  | RowsQueryLogEventC => simple (s ← read_rows_query; mret (ERowsQuery s))
  | RandEventC => simple ('(a, b) ← read_rand; mret (ERand a b))
  | UserVarEventC => simple (u ← read_user_var; mret (EUserVar u))
  | UpdateRowsEventC => row_event CUpdate
  | WriteRowsEventC => row_event CWrite
  | DeleteRowsEventC => row_event CDelete
  | PartialUpdateRowsEventC => row_event CPartialUpdate
  | TableMapEventC =>
      o ← read_table_map (ec_filters ctx) (ec_freeze_schema ctx) (ec_optional_meta_data ctx) (ec_dbms ctx) table_map;
      mret (match o with Some (t, tm) => (Some (ETableMap t), tm) | None => (None, table_map) end)
  | NotImplementedEventC => simple (read_not_implemented event_size ;; mret ENotImplemented)
  | MariadbAnnotateRowsEventC => simple (s ← read_mariadb_annotate event_size; mret (EMariadbAnnotate s))
  | MariadbBinLogCheckPointEventC => simple (s ← read_mariadb_checkpoint; mret (EMariadbCheckpoint s))
  | MariadbGtidEventC => simple ('(a, b, c, d) ← read_mariadb_gtid; mret (EMariadbGtid a b c d))
  | MariadbGtidListEventC => simple (l ← read_mariadb_gtid_list verify event_size; mret (EMariadbGtidList l))
  | MariadbStartEncryptionEventC => simple ('(a, b, c) ← read_start_encryption; mret (EMariadbEncryption a b c))
  end.

Definition construct (ctx : event_context) (cls : event_class) (verify : bool) (event_size : Z) (table_map : dict Z Table)
  : PM P (option (event P) * dict Z Table) :=
  verify_event verify event_size ;; construct_body ctx cls verify event_size table_map.

(** [BinLogPacketWrapper.__init__]: the wrapper, its event, if any, and the
    table map. *)
Definition wrap_packet (ctx : event_context) (table_map : dict Z Table) (p : P)
  : result (wrapper P * option (event P) * dict Z Table) :=
  w ← open_packet p;
  let '(verify, size) := if ec_use_checksum ctx then (ec_verify_checksum ctx, event_size w - 23)
                         else (false, event_size w - 19) in
  let cls := class_of (event_type w) in
  if bool_decide (cls ∈ ec_allowed_events ctx) then
    match construct ctx cls verify size table_map w with
    | (Ok (o, table_map'), w') => Ok (w', o, table_map')
    | (Err e, _) => Err e
    end
  else Ok (w, None, table_map).
End dispatch.

(** ** Properties *)

(** A packet as a server sends it: the OK byte, the event header, the body
    and the checksum, if there is one. *)
Definition frame (ts ty sid size pos fl : Z) (body footer : bytes) : bytes :=
  (0 :: le_encode 4 ts ++ le_encode 1 ty ++ le_encode 4 sid ++ le_encode 4 size ++ le_encode 4 pos ++ le_encode 2 fl
     ++ body ++ footer)%list.

Section framing.
Context {P : Type} `{MysqlPacketLaws P}.

Definition u32 (z : Z) : Prop := 0 <= z < 2 ^ 32.

(** The wrapper of a packet whose header has been read. *)
Definition opened (p : P) (ts ty sid size pos fl : Z) (rest : bytes) (w : wrapper P) : Prop :=
  stream w = rest /\ read_bytes w = 0 /\ data_buffer w = [] /\
  timestamp w = ts /\ event_type w = ty /\ server_id w = sid /\ event_size w = size /\ log_pos w = pos /\ flags w = fl /\
  pk_data (packet w) = pk_data p.

(** [struct.unpack] of packed fields gives the fields back. *)
Lemma unpack_fields_encode (fs : list (nat * Z)) :
  Forall (fun f => 0 <= f.2 < 256 ^ Z.of_nat f.1) fs ->
  unpack_fields (map fst fs) (concat (map (fun f => le_encode f.1 f.2) fs)) = Ok (map snd fs).
Proof.
  intros Hf. unfold unpack_fields. rewrite decide_True.
  - apply (f_equal Ok). induction Hf as [|f fs Hz Hf IH]; [done|]. cbn [map concat].
    rewrite take_app_length', drop_app_length' by (by rewrite le_encode_length). by rewrite le_decode_encode, IH.
  - clear. induction fs as [|f fs IH]; [done|]. cbn [map concat]. rewrite length_app, le_encode_length. cbn. by rewrite IH.
Qed.

Lemma opened_header (p : P) ts ty sid size pos fl (rest : bytes) :
  u32 ts -> 0 <= ty < 256 -> u32 sid -> u32 size -> u32 pos -> 0 <= fl < 65536 ->
  pk_position p = 0 -> pk_data p = frame ts ty sid size pos fl rest [] ->
  exists w, open_packet p = Ok w /\ opened p ts ty sid size pos fl rest w /\ pk_position (packet w) = 20.
Proof.
  intros Hts Hty Hsid Hsize Hpos Hfl Hp Hd. unfold u32 in *.
  assert (pk_rest p = pk_data p) as Hr by (unfold pk_rest; by rewrite Hp).
  set (hdr := (0 :: le_encode 4 ts ++ le_encode 1 ty ++ le_encode 4 sid ++ le_encode 4 size ++ le_encode 4 pos ++ le_encode 2 fl)%list).
  assert (pk_data p = hdr ++ rest)%list as Hd'.
  { rewrite Hd. unfold frame, hdr. rewrite app_nil_r. cbn [app]. by rewrite <- !app_assoc. }
  assert (length hdr = 20%nat) as Hl by (unfold hdr; cbn [length]; rewrite !length_app, !le_encode_length; done).
  destruct (pk_read_enough 20 p) as (p' & E & Hd1 & Hp1).
  { rewrite Hr, Hd', zlen_app. unfold zlen. lia. }
  rewrite Hr, Hd', take_app_length' in E by done. unfold open_packet. rewrite E. cbn [mbind result_bind].
  pose proof (unpack_fields_encode [(1%nat, 0); (4%nat, ts); (1%nat, ty); (4%nat, sid); (4%nat, size); (4%nat, pos); (2%nat, fl)]) as Hu.
  assert (concat (map (fun f : nat * Z => le_encode f.1 f.2)
    [(1%nat, 0); (4%nat, ts); (1%nat, ty); (4%nat, sid); (4%nat, size); (4%nat, pos); (2%nat, fl)]) = hdr) as Hc.
  { cbn [map concat fst snd]. rewrite app_nil_r. reflexivity. }
  rewrite Hc in Hu. cbn [map fst snd] in Hu.
  rewrite Hu by (repeat constructor; cbn [fst snd]; lia). cbn [mbind result_bind]. eexists. split; [done|]. split; [|cbn; lia].
  unfold opened, stream, pk_rest. cbn [read_bytes data_buffer packet timestamp event_type server_id event_size log_pos flags app].
  rewrite Hd1, Hp1, Hp, Hd', drop_app_length' by done. by repeat split.
Qed.

Lemma frame_bytes_ok ts ty sid size pos fl body footer :
  bytes_ok body -> bytes_ok footer -> bytes_ok (frame ts ty sid size pos fl body footer).
Proof.
  intros Hb Hf. unfold frame. constructor; [unfold byte_ok; lia|].
  repeat (apply Forall_app; split; [apply le_encode_ok|]). by apply Forall_app.
Qed.

Lemma zlen_frame ts ty sid size pos fl body footer :
  zlen (frame ts ty sid size pos fl body footer) = 20 + zlen body + zlen footer.
Proof. unfold frame, zlen. cbn [length]. rewrite !length_app, !le_encode_length. lia. Qed.

Lemma opened_same p ts ty sid size pos fl rest (w w' : wrapper P) :
  opened p ts ty sid size pos fl rest w -> stream w' = stream w -> read_bytes w' = read_bytes w ->
  data_buffer w' = [] -> same_header w w' -> opened p ts ty sid size pos fl rest w'.
Proof.
  unfold opened, same_header. intros (? & ? & ? & ? & ? & ? & ? & ? & ? & ?) ? ? ? (? & ? & ? & ? & ? & ? & ?).
  repeat split; congruence.
Qed.

(** The event of a packet, given the wrapper on which its constructor runs. *)
Definition event_from (ctx : event_context) (table_map : dict Z Table) (ty size : Z) (w : wrapper P)
  : result (wrapper P * option (event P) * dict Z Table) :=
  if bool_decide (class_of ty ∈ ec_allowed_events ctx) then
    match construct_body ctx (class_of ty) (ec_use_checksum ctx && ec_verify_checksum ctx) size table_map w with
    | (Ok (o, table_map'), w') => Ok (w', o, table_map')
    | (Err e, _) => Err e
    end
  else Ok (w, None, table_map).

Lemma wrap_packet_opened ctx table_map (p : P) ts ty sid pos fl body footer :
  u32 ts -> 0 <= ty < 256 -> u32 sid -> u32 (19 + zlen body + zlen footer) -> u32 pos -> 0 <= fl < 65536 ->
  bytes_ok body -> bytes_ok footer -> zlen footer = (if ec_use_checksum ctx then 4 else 0) ->
  pk_position p = 0 -> pk_data p = frame ts ty sid (19 + zlen body + zlen footer) pos fl body footer ->
  exists w, opened p ts ty sid (19 + zlen body + zlen footer) pos fl (body ++ footer) w /\
    wrap_packet ctx table_map p = event_from ctx table_map ty (zlen body) w.
Proof.
  intros Hts Hty Hsid Hsize Hpos Hfl Hbo Hfo Hf Hp Hd.
  destruct (opened_header p ts ty sid (19 + zlen body + zlen footer) pos fl (body ++ footer)%list) as (w & E & Ho & Hw);
    [done..|unfold frame in *; rewrite app_nil_r; exact Hd|].
  pose proof Ho as (Hs & Hr & Hb & Hts' & Hty' & Hsid' & Hsize' & Hpos' & Hfl' & Hdata).
  unfold wrap_packet. rewrite E. cbn [mbind result_bind]. rewrite Hsize', Hty'.
  assert ((if ec_use_checksum ctx then (ec_verify_checksum ctx, 19 + zlen body + zlen footer - 23)
           else (false, 19 + zlen body + zlen footer - 19)) = (ec_use_checksum ctx && ec_verify_checksum ctx, zlen body)) as ->.
  { rewrite Hf. destruct (ec_use_checksum ctx); f_equal; lia. }
  unfold event_from. case_bool_decide as Hc; [|by exists w].
  destruct (ec_use_checksum ctx && ec_verify_checksum ctx) eqn:Ev; [|by exists w].
  apply andb_true_iff in Ev as [Eu _]. rewrite Eu in Hf.
  destruct (verify_event_spec w (zlen body) Hb Hw) as (w' & E' & S' & R' & B' & H').
  { rewrite Hdata, Hd. by apply frame_bytes_ok. } { unfold zlen; lia. } { rewrite Hdata, Hd, zlen_frame. lia. }
  exists w'. split; [by eapply opened_same|]. unfold construct. by rewrite st_bind_eq, E'.
Qed.

(** C20. The packet wrapper reads an event as its class does: for a packet made
    of the OK byte, a header, a body and, when checksums are on, four more
    bytes, the wrapper has the fields of the header, and its event is what
    the constructor of the class of its type makes of the body, on a cursor
    over exactly the body and the footer, whether or not the checksum is
    verified and whether or not it is right; an event of a class that is not
    allowed is not read at all. *)
Theorem packet_framing_correct ctx table_map (p : P) ts ty sid pos fl (body footer : bytes) :
  u32 ts -> 0 <= ty < 256 -> u32 sid -> u32 (19 + zlen body + zlen footer) -> u32 pos -> 0 <= fl < 65536 ->
  bytes_ok body -> bytes_ok footer -> zlen footer = (if ec_use_checksum ctx then 4 else 0) ->
  pk_position p = 0 -> pk_data p = frame ts ty sid (19 + zlen body + zlen footer) pos fl body footer ->
  exists w, opened p ts ty sid (19 + zlen body + zlen footer) pos fl (body ++ footer) w /\
    wrap_packet ctx table_map p = event_from ctx table_map ty (zlen body) w.
Proof. apply wrap_packet_opened. Qed.
End framing.

Definition no_filters : filters := mkFilters None None None None.
Definition ex_context (allowed : list event_class) : event_context :=
  mkContext [8; 0; 30] true allowed no_filters false true true "mysql".

(** An XID event with a wrong checksum. *)
Definition ex_xid_packet : list_packet := lp_start (frame 7 0x10 1 31 400 0 (le_encode 8 42) [1; 2; 3; 4]).

Lemma packet_framing_correct_witness :
  (exists w, opened ex_xid_packet 7 0x10 1 31 400 0 (le_encode 8 42 ++ [1; 2; 3; 4]) w /\
    wrap_packet (ex_context [XidEventC]) [] ex_xid_packet = event_from (ex_context [XidEventC]) [] 0x10 8 w) /\
  (r ← wrap_packet (ex_context [XidEventC]) [] ex_xid_packet; Ok r.1.2) = Ok (Some (EXid 42)).
Proof.
  split; [|vm_compute; reflexivity].
  apply (packet_framing_correct (P:=list_packet) (ex_context [XidEventC]) [] ex_xid_packet 7 0x10 1 400 0 (le_encode 8 42) [1; 2; 3; 4]);
    unfold u32, zlen; cbn; try lia; try reflexivity.
  - apply (le_encode_ok 8 42).
  - repeat constructor; unfold byte_ok; lia.
Defined.

(** Without checksums, the text of a rows-query event loses its last four
    bytes. *)
Example rows_query_truncated :
  (r ← wrap_packet (mkContext [8; 0; 30] false [RowsQueryLogEventC] no_filters false false true "mysql") []
         (lp_start (frame 7 0x1D 1 31 400 0 (11 :: bytes_of_string "DELETE FROM") []));
   Ok r.1.2) = Ok (Some (ERowsQuery "DELETE ")).
Proof. vm_compute. reflexivity. Qed.
