(* ===== verification/Stream.v ===== *)
(** * The binlog stream

    [pymysqlreplication/binlogstream.py]: [ReportSlave] and
    [BinLogStreamReader].  Connecting sends session settings and the dump
    command; [fetchone] reads packets until one carries an event the caller
    asked for, keeping the position, the table map and the server version.

    The connection is PyMySQL's and the server's: what they answer is a
    parameter.  [server] holds the answers to the queries of one connection,
    and [incoming] is what reading a packet returns.  What the reader sends
    is kept in the state ([sent]).  Times are whole seconds, for which the
    floating-point computation of the heartbeat period is exact. *)

From stdpp Require Import base list strings sets.
From Stdlib Require Import ZArith Lia Ascii.
From S2P Require Import Prelude PyBytes PyStr Values UtilBytes Packet Column Gtid GtidText GtidWire GtidSet Bitmap JsonBinary RowValues RowDecimal Event Sql RowsEvent RowCells RowImage TableMap Dispatch.
Open Scope string_scope.
Open Scope Z_scope.

(** ** [ReportSlave] *)

Record ReportSlave := mkReportSlave {
  hostname : string;
  username : string;
  password : string;
  port : Z
}.

(** The argument of the constructor: a text, a tuple of texts (of which the
    fourth is converted by [int]) or a dictionary. *)
Inductive report_value :=
  | RvText (s : string)
  | RvTuple (l : list string)
  | RvDict (host user pass : option string) (port : option Z).

Definition report_slave (v : report_value) : result ReportSlave :=
  match v with
  | RvText s => Ok (mkReportSlave s "" "" 0)
  | RvTuple l =>
      let at_ i := default "" (l !! i) in
      p ← (match l !! 3%nat with Some s => int_of_str s | None => Ok 0 end);
      Ok (mkReportSlave (at_ 0%nat) (at_ 1%nat) (at_ 2%nat) p)
  | RvDict h u pw p => Ok (mkReportSlave (default "" h) (default "" u) (default "" pw) (default 0 p))
  end.

Definition COM_BINLOG_DUMP : Z := 0x12.
Definition COM_REGISTER_SLAVE : Z := 0x15.
Definition COM_BINLOG_DUMP_GTID : Z := 0x1E.

(** [struct.pack(f"<{n}p", s)]: a length byte, at most 255, and the text, cut
    or padded with zeros so that there are [n] bytes in all. *)
Definition pack_pascal (n : nat) (s : bytes) : bytes :=
  match n with
  | O => []
  | S m => let k := Nat.min (length s) m in
           Z.min (Z.of_nat k) 255 :: (take k s ++ repeat 0 (m - k))%list
  end.

Definition MAX_STRING_LEN : nat := 257.

(** [ReportSlave.encoded] *)
Definition report_encoded (r : ReportSlave) (server_id master_id : Z) : result bytes :=
  let h := bytes_of_string (hostname r) in
  let u := bytes_of_string (username r) in
  let pw := bytes_of_string (password r) in
  let packet_len := 1 + 4 + 1 + zlen h + 1 + zlen u + 1 + zlen pw + 2 + 4 + 4 in
  let text s := pack_pascal (Nat.min MAX_STRING_LEN (length s + 1)) s in
  a ← pack_sle 4 packet_len;
  b ← pack_ule 4 server_id;
  c ← pack_ule 2 (port r);
  d ← pack_sle 4 0;
  e ← pack_sle 4 master_id;
  Ok (a ++ [COM_REGISTER_SLAVE] ++ b ++ text h ++ text u ++ text pw ++ c ++ d ++ e)%list.

(** ** The reader *)

Record reader_config := mkReaderConfig {
  rc_server_id : Z;
  rc_resume_stream : bool;
  rc_blocking : bool;
  rc_only_events : option (list event_class);
  rc_ignored_events : option (list event_class);
  rc_filter_non_implemented : bool;
  rc_log_file : option string;
  rc_log_pos : option Z;
  rc_end_log_pos : option Z;
  rc_auto_position : option string;
  rc_filters : filters;
  rc_freeze_schema : bool;
  rc_skip_to_timestamp : option Z;
  rc_report_slave : option ReportSlave;
  rc_slave_uuid : option string;
  rc_slave_heartbeat : option Z;
  rc_read_timeout : option Z;
  rc_is_mariadb : bool;
  rc_annotate_rows_event : bool;
  rc_verify_checksum : bool
}.

(** The answers of the server: the variable BINLOG_CHECKSUM, SHOW MASTER
    STATUS, the variable BINLOG_ROW_METADATA and the server version text. *)
Record server := mkServer {
  sv_binlog_checksum : option string;
  sv_master_status : option (string * Z);
  sv_row_metadata : option string;
  sv_info : string
}.

Inductive sent := SQuery (sql : string) | SBytes (bs : bytes).

Record reader := mkReader {
  connected_stream : bool;
  connected_ctl : bool;
  use_checksum : bool;
  optional_meta_data : bool;
  rd_table_map : dict Z Table;
  rd_log_pos : option Z;
  log_file : option string;
  past_end : bool;
  mysql_version : list Z;
  sent_ : list sent
}.

Definition reader_init (c : reader_config) : reader :=
  mkReader false false false false [] (rc_log_pos c) (rc_log_file c) false [0; 0; 0] [].

Definition set_connected_stream (b : bool) (s : reader) : reader :=
  mkReader b (connected_ctl s) (use_checksum s) (optional_meta_data s) (rd_table_map s) (rd_log_pos s) (log_file s)
    (past_end s) (mysql_version s) (sent_ s).
Definition set_connected_ctl (b : bool) (s : reader) : reader :=
  mkReader (connected_stream s) b (use_checksum s) (optional_meta_data s) (rd_table_map s) (rd_log_pos s) (log_file s)
    (past_end s) (mysql_version s) (sent_ s).
Definition set_use_checksum (b : bool) (s : reader) : reader :=
  mkReader (connected_stream s) (connected_ctl s) b (optional_meta_data s) (rd_table_map s) (rd_log_pos s) (log_file s)
    (past_end s) (mysql_version s) (sent_ s).
Definition set_optional_meta_data (b : bool) (s : reader) : reader :=
  mkReader (connected_stream s) (connected_ctl s) (use_checksum s) b (rd_table_map s) (rd_log_pos s) (log_file s)
    (past_end s) (mysql_version s) (sent_ s).
Definition set_table_map (m : dict Z Table) (s : reader) : reader :=
  mkReader (connected_stream s) (connected_ctl s) (use_checksum s) (optional_meta_data s) m (rd_log_pos s) (log_file s)
    (past_end s) (mysql_version s) (sent_ s).
Definition set_log_pos (p : option Z) (s : reader) : reader :=
  mkReader (connected_stream s) (connected_ctl s) (use_checksum s) (optional_meta_data s) (rd_table_map s) p (log_file s)
    (past_end s) (mysql_version s) (sent_ s).
Definition set_log_file (f : option string) (s : reader) : reader :=
  mkReader (connected_stream s) (connected_ctl s) (use_checksum s) (optional_meta_data s) (rd_table_map s) (rd_log_pos s) f
    (past_end s) (mysql_version s) (sent_ s).
Definition set_past_end (b : bool) (s : reader) : reader :=
  mkReader (connected_stream s) (connected_ctl s) (use_checksum s) (optional_meta_data s) (rd_table_map s) (rd_log_pos s)
    (log_file s) b (mysql_version s) (sent_ s).
Definition set_mysql_version (v : list Z) (s : reader) : reader :=
  mkReader (connected_stream s) (connected_ctl s) (use_checksum s) (optional_meta_data s) (rd_table_map s) (rd_log_pos s)
    (log_file s) (past_end s) v (sent_ s).
Definition set_sent (l : list sent) (s : reader) : reader :=
  mkReader (connected_stream s) (connected_ctl s) (use_checksum s) (optional_meta_data s) (rd_table_map s) (rd_log_pos s)
    (log_file s) (past_end s) (mysql_version s) l.

(** ** Allowed events *)

Definition default_events : list event_class := [
  QueryEventC; RotateEventC; StopEventC; FormatDescriptionEventC; XAPrepareEventC; XidEventC; GtidEventC;
  BeginLoadQueryEventC; ExecuteLoadQueryEventC; UpdateRowsEventC; WriteRowsEventC; DeleteRowsEventC; TableMapEventC;
  HeartbeatLogEventC; NotImplementedEventC; MariadbGtidEventC; RowsQueryLogEventC; MariadbAnnotateRowsEventC;
  RandEventC; MariadbStartEncryptionEventC; MariadbGtidListEventC; MariadbBinLogCheckPointEventC; UserVarEventC;
  PreviousGtidsEventC; PartialUpdateRowsEventC
].

(** [events.remove(e)] *)
Definition remove_event (events : list event_class) (e : event_class) : result (list event_class) :=
  if bool_decide (e ∈ events) then Ok (filter (fun x => x <> e) events) else Err KeyError.

(** [_allowed_event_list] *)
Definition allowed_event_list (only ignored : option (list event_class)) (filter_non_implemented : bool)
  : result (list event_class) :=
  events ← foldM_result remove_event (default [] ignored) (default default_events only);
  Ok (if filter_non_implemented then filter (fun x => x <> NotImplementedEventC) events else events).

(** ** Connecting *)

Abbreviation DM := (ST reader).

Definition send (x : sent) : DM unit := st_modify (fun s => set_sent (sent_ s ++ [x])%list s).

(** The period in nanoseconds: half the read timeout at most, and at most
    4294967 seconds. *)
Definition heartbeat_period (read_timeout : option Z) (heartbeat : Z) : Z :=
  Z.min (Z.min (default 4294967 read_timeout * 500000000) (heartbeat * 1000000000)) (4294967 * 1000000000).

(** [len(s)]: the number of characters. *)
Definition py_len (s : string) : Z :=
  zlen (filter (fun b => (b < 0x80) \/ (0xC0 <= b)) (bytes_of_string s)).

Definition BINLOG_DUMP_NON_BLOCK : Z := 0x01.
Definition BINLOG_THROUGH_GTID : Z := 0x04.

(** COM_BINLOG_DUMP from a file and a position. *)
Definition position_prelude (c : reader_config) (file : string) (pos : Z) : result bytes :=
  a ← pack_sle 4 (py_len file + 11);
  b ← pack_ule 4 (if rc_resume_stream c then pos else 4);
  d ← pack_ule 2 (if rc_blocking c then 0 else BINLOG_DUMP_NON_BLOCK);
  e ← pack_ule 4 (rc_server_id c);
  Ok (a ++ [COM_BINLOG_DUMP] ++ b ++ d ++ e ++ bytes_of_string file)%list.

(** COM_BINLOG_DUMP_GTID with the set of transactions already applied. *)
Definition gtid_prelude (c : reader_config) (auto_position : string) : result bytes :=
  gs ← gset_of_string auto_position;
  let encoded_data_size := gset_encoded_length gs in
  let header_size := 2 + 4 + 4 + 4 + 8 + 4 in
  a ← pack_sle 4 (header_size + encoded_data_size);
  b ← pack_ule 2 (Z.lor (if rc_blocking c then 0 else BINLOG_DUMP_NON_BLOCK) BINLOG_THROUGH_GTID);
  d ← pack_ule 4 (rc_server_id c);
  e ← pack_ule 4 3;
  f ← pack_ule 8 4;
  g ← pack_ule 4 encoded_data_size;
  data ← gset_encoded gs;
  Ok (a ++ [COM_BINLOG_DUMP_GTID] ++ b ++ d ++ e ++ [0; 0; 0] ++ f ++ g ++ data)%list.

(** [__set_mariadb_settings] *)
Definition mariadb_prelude (c : reader_config) : result bytes :=
  a ← pack_sle 4 (4 + 2 + 4 + 4);
  b ← pack_sle 4 4;
  d ← pack_ule 2 (Z.lor (if rc_annotate_rows_event c then 0x02 else 0) (if rc_blocking c then 0 else BINLOG_DUMP_NON_BLOCK));
  e ← pack_ule 4 (rc_server_id c);
  Ok (a ++ [COM_BINLOG_DUMP] ++ b ++ d ++ e ++ [0; 0; 0; 0])%list.

Definition set_mariadb_settings (c : reader_config) : DM bytes :=
  (match rc_auto_position c with
   | Some p => send (SQuery ("SET @slave_connect_state=" ++ String (chr 34) (p ++ String (chr 34) "")))
   | None => mret tt
   end) ;;
  send (SQuery "SET @slave_gtid_strict_mode=1") ;;
  send (SQuery "SET @slave_gtid_ignore_duplicates=0") ;;
  st_lift (mariadb_prelude c).

(** A true string, number. *)
Definition true_str (o : option string) : option string :=
  match o with Some s => if decide (s = "") then None else Some s | None => None end.
Definition true_int (o : option Z) : option Z :=
  match o with Some z => if z =? 0 then None else Some z | None => None end.

(** [__checksum_enabled] *)
Definition checksum_enabled (sv : server) : bool :=
  match sv_binlog_checksum sv with None => false | Some v => negb (bool_decide (v = "NONE")) end.

(** The file and position to start from, asked from the server when either
    is missing. *)
Definition start_position (sv : server) : DM (string * Z) :=
  s ← st_get;
  match log_file s, rd_log_pos s with
  | Some f, Some p => mret (f, p)
  | _, _ =>
      send (SQuery "SHOW MASTER STATUS") ;;
      match sv_master_status sv with
      | None => st_raise BinLogNotEnabled
      | Some (f, p) => st_modify (fun s => set_log_pos (Some p) (set_log_file (Some f) s)) ;; mret (f, p)
      end
  end.

(** [_register_slave]: nothing is sent unless the replica is reported. *)
Definition register_slave (c : reader_config) : DM unit :=
  match rc_report_slave c with
  | Some r => bs ← st_lift (report_encoded r (rc_server_id c) 0); send (SBytes bs)
  | None => mret tt
  end.

(** [__connect_to_stream] *)
Definition connect_to_stream (c : reader_config) (sv : server) : DM unit :=
  send (SQuery "SHOW GLOBAL VARIABLES LIKE 'BINLOG_CHECKSUM'") ;;
  st_modify (set_use_checksum (checksum_enabled sv)) ;;
  (if checksum_enabled sv then send (SQuery "SET @master_binlog_checksum= @@global.binlog_checksum") else mret tt) ;;
  (match true_str (rc_slave_uuid c) with
   | Some u => send (SQuery ("SET @slave_uuid = '" ++ u ++ "', @replica_uuid = '" ++ u ++ "'"))
   | None => mret tt
   end) ;;
  (match true_int (rc_slave_heartbeat c) with
   | Some h => send (SQuery ("SET @master_heartbeat_period= " ++ str_of_Z (heartbeat_period (rc_read_timeout c) h)))
   | None => mret tt
   end) ;;
  send (SQuery "SET @mariadb_slave_capability=4") ;;
  register_slave c ;;
  prelude ← (if rc_is_mariadb c then set_mariadb_settings c
             else match true_str (rc_auto_position c) with
                  | None => '(f, p) ← start_position sv; st_lift (position_prelude c f p)
                  | Some a => st_lift (gtid_prelude c a)
                  end);
  send (SBytes prelude) ;;
  st_modify (set_connected_stream true).

Fixpoint upper (s : string) : string :=
  match s with
  | EmptyString => EmptyString
  | String a s' => String (if (97 <=? code a) && (code a <=? 122) then chr (code a - 32) else a) (upper s')
  end.

(** [__check_optional_meta_data]: the flag is set when the server logs full
    row metadata and is never reset. *)
Definition check_optional_meta_data (sv : server) : DM unit :=
  match sv_row_metadata sv with
  | Some v => if bool_decide (upper v = "FULL") then st_modify (set_optional_meta_data true) else mret tt
  | None => mret tt
  end.

(** [__connect_to_ctl] *)
Definition connect_to_ctl (sv : server) : DM unit :=
  st_modify (set_connected_ctl true) ;;
  check_optional_meta_data sv.

(** [close] *)
Definition close_reader : DM unit := st_modify (fun s => set_connected_ctl false (set_connected_stream false s)).

Fixpoint str_prefix (w s : string) : bool :=
  match w, s with
  | EmptyString, _ => true
  | String a w', String b s' => bool_decide (a = b) && str_prefix w' s'
  | String _ _, EmptyString => false
  end.
(** [w in s] *)
Fixpoint str_contains (w s : string) : bool :=
  str_prefix w s || match s with EmptyString => false | String _ s' => str_contains w s' end.

(** [__get_dbms] *)
Definition get_dbms (sv : server) : string := if str_contains "MariaDB" (sv_info sv) then "mariadb" else "mysql".

(** ** Reading events *)

(** The result of reading a packet: an [OperationalError] with its code, an
    end-of-file packet, a packet that is not OK, or an OK packet. *)
Inductive incoming (P : Type) :=
  | InError (code : Z)
  | InEof
  | InNotOk
  | InPacket (p : P).
Arguments InError {P}.
Arguments InEof {P}.
Arguments InNotOk {P}.
Arguments InPacket {P}.

Definition MYSQL_EXPECTED_ERROR_CODES : list Z := [2013; 2006].

(** What [fetchone] returns: an event with its timestamp, or [None]; [FBlocked]
    when no more packets arrive. *)
Inductive fetched (P : Type) :=
  | FEvent (timestamp : Z) (e : event P)
  | FEnd
  | FBlocked.
Arguments FEvent {P}.
Arguments FEnd {P}.
Arguments FBlocked {P}.

Section fetch.
Context {P : Type} `{MysqlPacket P} (c : reader_config) (sv : server) (allowed : list event_class).

(** [__allowed_events_in_packet] *)
Definition allowed_in_packet : list event_class := TableMapEventC :: RotateEventC :: allowed.

Definition context_of (s : reader) : event_context :=
  mkContext (mysql_version s) (use_checksum s) allowed_in_packet (rc_filters c) (rc_freeze_schema c)
    (rc_verify_checksum c) (optional_meta_data s) (get_dbms sv).

(** The position after an event. *)
Definition update_position (w : wrapper P) (o : option (event P)) : DM unit :=
  if event_type w =? BINLOG.ROTATE_EVENT then
    match o with
    | Some (ERotate position next_binlog) =>
        st_modify (fun s => set_log_file (Some next_binlog) (set_log_pos (Some position) s)) ;;
        if timestamp w =? 0 then mret tt else st_modify (set_table_map [])
    | _ => st_raise AttributeError
    end
  else if log_pos w =? 0 then mret tt
  else st_modify (set_log_pos (Some (log_pos w))).

(** [if self.end_log_pos and self.log_pos >= self.end_log_pos] *)
Definition check_end : DM unit :=
  match true_int (rc_end_log_pos c) with
  | None => mret tt
  | Some e =>
      s ← st_get;
      match rd_log_pos s with
      | None => st_raise TypeError
      | Some p => if e <=? p then st_modify (set_past_end true) else mret tt
      end
  end.

Definition skipped (w : wrapper P) : bool :=
  match true_int (rc_skip_to_timestamp c) with Some t => timestamp w <? t | None => false end.

(** The part of the loop that handles one packet: the event to return, if
    any. *)
Definition handle_packet (p : P) : DM (option (Z * event P)) :=
  s ← st_get;
  '(w, o, table_map) ← st_lift (wrap_packet (context_of s) (rd_table_map s) p);
  st_modify (set_table_map table_map) ;;
  update_position w o ;;
  check_end ;;
  if skipped w then mret None
  else
    (match o with
     | Some (ETableMap t) => st_modify (fun s => set_table_map (dict_set (rd_table_map s) (tm_table_id t) (tm_table_obj t)) s)
     | _ => mret tt
     end) ;;
    match o with
    | None => mret None
    | Some e =>
        if bool_decide (class_of_event e ∈ allowed) then
          (match e with EFormatDescription fd => st_modify (set_mysql_version (fd_mysql_version fd)) | _ => mret tt end) ;;
          mret (Some (timestamp w, e))
        else mret None
    end.

(** [fetchone]: one packet is read in each iteration. *)
Fixpoint fetchone (packets : list (incoming P)) : DM (fetched P * list (incoming P)) :=
  s ← st_get;
  if past_end s then mret (FEnd, packets)
  else
    (if connected_stream s then mret tt else connect_to_stream c sv) ;;
    (if connected_ctl s then mret tt else connect_to_ctl sv) ;;
    match packets with
    | [] => mret (FBlocked, [])
    | InError code :: rest =>
        if bool_decide (code ∈ MYSQL_EXPECTED_ERROR_CODES)
        then st_modify (set_connected_stream false) ;; fetchone rest
        else st_raise (BackendError code)
    | InEof :: rest => close_reader ;; mret (FEnd, rest)
    | InNotOk :: rest => fetchone rest
    | InPacket p :: rest =>
        o ← handle_packet p;
        match o with
        | Some (t, e) => mret (FEvent t e, rest)
        | None => fetchone rest
        end
    end.
End fetch.
