(* ===== verification/Logging.v ===== *)
(** * Texts of the library

    [binlogstream.py]: [ReportSlave.__repr__] and [__log_valid_parameters],
    which writes the parameters of a reader to the log; [exceptions.py]: the
    messages of the library's own exceptions. *)

From stdpp Require Import base list strings sets.
From Stdlib Require Import ZArith Lia Ascii.
From S2P Require Import Prelude PyBytes PyStr Values Dispatch Stream.
Open Scope string_scope.
Open Scope Z_scope.

(** ** [exceptions.py] *)

Definition table_metadata_message (table : string) : string := "Unable to find metadata for table " ++ table.
Definition binlog_not_enabled_message : string := "MySQL binary logging is not enabled.".
Definition status_variable_message : string :=
  join " " ["Unknown status variable in query event."; "Possible parse failure in preceding fields";
            "or outdated constants.STATUS_VAR_KEY"; "Refer to MySQL documentation/source code"; "or create an issue on GitHub"].

(** ** [ReportSlave.__repr__] *)

Definition report_repr (r : ReportSlave) : string :=
  "<ReportSlave hostname=" ++ hostname r ++ " username=" ++ username r ++ " password=" ++ password r ++
  " port=" ++ str_of_Z (port r) ++ ">".

(** ** The parameters of a reader *)

(** The value of an attribute: false, a frozenset of classes given by the text
    of each, or another with its text. *)
Inductive attr_value := AFalse | AText (s : string) | AClasses (l : list string).

Fixpoint starts_with (w s : string) : bool :=
  match w, s with
  | EmptyString, _ => true
  | String a w', String b s' => bool_decide (a = b) && starts_with w' s'
  | _, _ => false
  end.

(** [s[n:]] *)
Fixpoint str_drop (n : nat) (s : string) : string :=
  match n, s with
  | S n', String _ s' => str_drop n' s'
  | _, _ => s
  end.

(** [s.replace(w, "")] for a non-empty [w]; the fuel is the length of [s]. *)
Fixpoint str_remove_from (fuel : nat) (w s : string) : string :=
  match fuel with
  | O => s
  | S fuel' =>
      match s with
      | EmptyString => EmptyString
      | String c s' =>
          if starts_with w s then str_remove_from fuel' w (str_drop (String.length w) s)
          else String c (str_remove_from fuel' w s')
      end
  end.
Definition str_remove (w s : string) : string := str_remove_from (S (String.length s)) w s.

(** The prefix of private attributes. *)
Definition mangling : string := "_BinLogStreamReader__".

Definition parameter_name (name : string) : string := if starts_with mangling name then str_remove mangling name else name.

(** [str(item).split()[-1][:-2].split(".")[2]] *)
Definition short_name (item : string) : result string :=
  w ← of_option IndexError (last (words item));
  of_option IndexError (split_on "." (String.substring 0 (String.length w - 2) w) !! 2%nat).

(** The line of one attribute, if it has one. *)
Definition log_parameter (attr : string * attr_value) : result (option string) :=
  let parameter := parameter_name attr.1 in
  if bool_decide (parameter ∈ ["allowed_events"; "table_map"]) then Ok None
  else match attr.2 with
       | AFalse | AClasses [] => Ok None
       | AText value => Ok (Some (parameter ++ ": " ++ value))
       | AClasses l => items ← mapM short_name l; Ok (Some (parameter ++ ": [" ++ join ", " items ++ "]"))
       end.

Definition log_valid_parameters (attrs : list (string * attr_value)) : result (list string) :=
  lines ← mapM log_parameter attrs;
  Ok (omap id lines).

(** The attributes when [__init__] calls it, in the order they were set; the
    texts of the dictionaries and lists among them are arguments. *)
Definition flag_value (b : bool) : attr_value := if b then AText "True" else AFalse.
Definition int_value (o : option Z) : attr_value :=
  match true_int o with Some z => AText (str_of_Z z) | None => AFalse end.
Definition text_value (o : option string) : attr_value :=
  match o with Some s => if decide (s = "") then AFalse else AText s | None => AFalse end.

Definition event_name (c : event_class) : string :=
  match c with
  | QueryEventC => "QueryEvent" | RotateEventC => "RotateEvent" | FormatDescriptionEventC => "FormatDescriptionEvent"
  | XidEventC => "XidEvent" | IntvarEventC => "IntvarEvent" | GtidEventC => "GtidEvent"
  | PreviousGtidsEventC => "PreviousGtidsEvent" | StopEventC => "StopEvent" | BeginLoadQueryEventC => "BeginLoadQueryEvent"
  | ExecuteLoadQueryEventC => "ExecuteLoadQueryEvent" | HeartbeatLogEventC => "HeartbeatLogEvent"
  | XAPrepareEventC => "XAPrepareEvent" | RowsQueryLogEventC => "RowsQueryLogEvent" | RandEventC => "RandEvent"
  | UserVarEventC => "UserVarEvent" | UpdateRowsEventC => "UpdateRowsEvent" | WriteRowsEventC => "WriteRowsEvent"
  | DeleteRowsEventC => "DeleteRowsEvent" | TableMapEventC => "TableMapEvent"
  | PartialUpdateRowsEventC => "PartialUpdateRowsEvent" | NotImplementedEventC => "NotImplementedEvent"
  | MariadbAnnotateRowsEventC => "MariadbAnnotateRowsEvent"
  | MariadbBinLogCheckPointEventC => "MariadbBinLogCheckPointEvent" | MariadbGtidEventC => "MariadbGtidEvent"
  | MariadbGtidListEventC => "MariadbGtidListEvent" | MariadbStartEncryptionEventC => "MariadbStartEncryptionEvent"
  end.

Definition event_module (c : event_class) : string :=
  match c with
  | UpdateRowsEventC | WriteRowsEventC | DeleteRowsEventC | TableMapEventC | PartialUpdateRowsEventC => "row_event"
  | _ => "event"
  end.

(** [str(cls)] *)
Definition class_text (c : event_class) : string :=
  "<class 'pymysqlreplication." ++ event_module c ++ "." ++ event_name c ++ "'>".

Definition reader_attributes (connection_settings ctl_settings only_tables ignored_tables only_schemas ignored_schemas : attr_value)
    (ignore_decode_errors : bool) (c : reader_config) (allowed in_packet : list event_class) : list (string * attr_value) :=
  [(mangling ++ "connection_settings", connection_settings); (mangling ++ "connected_stream", AFalse);
   (mangling ++ "connected_ctl", AFalse); (mangling ++ "resume_stream", flag_value (rc_resume_stream c));
   (mangling ++ "blocking", flag_value (rc_blocking c)); ("_ctl_connection_settings", ctl_settings);
   (mangling ++ "only_tables", only_tables); (mangling ++ "ignored_tables", ignored_tables);
   (mangling ++ "only_schemas", only_schemas); (mangling ++ "ignored_schemas", ignored_schemas);
   (mangling ++ "freeze_schema", flag_value (rc_freeze_schema c));
   (mangling ++ "allowed_events", AClasses (map class_text allowed));
   (mangling ++ "ignore_decode_errors", flag_value ignore_decode_errors);
   (mangling ++ "verify_checksum", flag_value (rc_verify_checksum c)); (mangling ++ "optional_meta_data", AFalse);
   (mangling ++ "allowed_events_in_packet", AClasses (map class_text in_packet));
   (mangling ++ "server_id", int_value (Some (rc_server_id c))); (mangling ++ "use_checksum", AFalse); ("table_map", AFalse);
   ("log_pos", int_value (rc_log_pos c)); ("end_log_pos", int_value (rc_end_log_pos c)); ("log_file", text_value (rc_log_file c));
   ("auto_position", text_value (rc_auto_position c)); ("skip_to_timestamp", int_value (rc_skip_to_timestamp c));
   ("is_mariadb", flag_value (rc_is_mariadb c)); (mangling ++ "annotate_rows_event", flag_value (rc_annotate_rows_event c))].

(** ** Properties *)

Lemma short_name_class c : short_name (class_text c) = Ok (event_name c).
Proof. by destruct c. Qed.


(** The parameters that are logged: a frozenset of event classes is shown by the
    names of its classes, and a private attribute without the name of its
    class in front. *)
Theorem classes_logged (l : list event_class) :
  l <> [] ->
  log_parameter (mangling ++ "allowed_events_in_packet", AClasses (map class_text l)) =
  Ok (Some ("allowed_events_in_packet: [" ++ join ", " (map event_name l) ++ "]")).
Proof.
  intros Hl. unfold log_parameter. cbn [fst snd].
  assert (parameter_name (mangling ++ "allowed_events_in_packet") = "allowed_events_in_packet") as -> by (vm_compute; reflexivity).
  rewrite bool_decide_eq_false_2 by (apply (bool_decide_unpack _); vm_compute; exact I).
  assert (mapM short_name (map class_text l) = Ok (map event_name l)) as E.
  { clear Hl. induction l as [|c l IH]; [done|]. cbn [map mapM]. rewrite short_name_class. cbn. by rewrite IH. }
  destruct l as [|c l]; [done|]. cbn [map] in *. by rewrite E.
Qed.

Lemma classes_logged_witness :
  log_parameter (mangling ++ "allowed_events_in_packet", AClasses (map class_text [TableMapEventC; RotateEventC])) =
  Ok (Some "allowed_events_in_packet: [TableMapEvent, RotateEvent]").
Proof. apply (classes_logged [TableMapEventC; RotateEventC]). done. Defined.

(** The first line holds the connection settings, the password among them. *)
Example password_logged :
  head <$> log_valid_parameters (reader_attributes (AText "{'host': 'db1', 'password': 'root_password'}") AFalse AFalse AFalse AFalse AFalse
    false (mkReaderConfig 9999 false true None None true None None None None no_filters false None None None None None false false false) [] [RotateEventC])
  = Ok (Some "connection_settings: {'host': 'db1', 'password': 'root_password'}").
Proof. vm_compute. reflexivity. Qed.
