(* ===== verification/Resume.v ===== *)
(** * Resuming a stream

    The start position of [main.py] ([Checkpoint]) as the stream reader of
    [binlogstream.py] sends it to the source: the text written for each
    server is parsed as a GTID set and encoded in the dump command. *)

From stdpp Require Import base list strings sets.
From Stdlib Require Import ZArith Lia Ascii.
From S2P Require Import Prelude PyBytes PyStr Values Packet Column Gtid GtidText GtidWire GtidSet Event Sql Metric Checkpoint RowsEvent TableMap Dispatch Stream.
Open Scope string_scope.
Open Scope Z_scope.

(** [f"{key}:1-{value}"] *)
Definition start_text (kv : string * Z) : string := kv.1 ++ ":1-" ++ str_of_Z kv.2.
(** Transactions 1 to [value] of a server. *)
Definition start_gtid (kv : string * Z) : Gtid := mkGtid kv.1 [(1, kv.2 + 1)].

(** An entry of a start position: a UUID and the number of a transaction. *)
Definition start_ok (kv : string * Z) : Prop := sid_ok kv.1 = true /\ 1 <= kv.2 < 2 ^ 63.

Lemma start_number n : 1 <= n -> is_number (str_of_Z n) = true.
Proof. intros Hn. apply is_number_dec. lia. Qed.

Lemma start_text_no_char c kv :
  is_hex c = false -> is_digit c = false -> c <> "-"%char -> c <> ":"%char -> start_ok kv ->
  str_mem c (start_text kv) = false.
Proof.
  intros Hh Hd Hm Hc [Hs Hn]. unfold start_text. rewrite !str_mem_app, (sid_ok_no_char c) by done.
  rewrite (is_number_no_char c (str_of_Z kv.2)) by (done || apply start_number; lia).
  cbn. rewrite !bool_decide_false; [done|..]; intros E; subst c; done.
Qed.

Lemma parse_start_interval n : 1 <= n -> parse_interval ("1-" ++ str_of_Z n) = Ok (1, n + 1).
Proof.
  intros Hn. unfold parse_interval. pose proof (start_number n Hn) as H1.
  rewrite chomp_id by (rewrite str_mem_app; by rewrite (is_number_no_char "010" (str_of_Z n))).
  change ("1-" ++ str_of_Z n) with ("1" ++ String "-" (str_of_Z n)).
  rewrite split_on_app, split_on_word by (done || by apply is_number_no_char).
  rewrite H1. cbn [andb is_number]. rewrite digits_value_str by lia. done.
Qed.

Lemma parse_start kv : start_ok kv -> gtid_of_string (start_text kv) = Ok (start_gtid kv).
Proof.
  intros [Hs Hn]. unfold gtid_of_string, start_text.
  replace (kv.1 ++ ":1-" ++ str_of_Z kv.2)
    with (kv.1 ++ ":" ++ join ":" (map (fun i : interval => "1-" ++ str_of_Z (i.2 - 1)) [(1, kv.2 + 1)]))
    by (cbn [map join snd]; by replace (kv.2 + 1 - 1) with kv.2 by lia).
  rewrite gtid_parse_text_gen; [|done|done|].
  - cbn [mbind result_bind]. unfold gtid_make. rewrite fold_add_canonical; [done|].
    split; repeat constructor. unfold nonempty. cbn. lia.
  - apply Forall_singleton. cbn [fst snd]. replace (kv.2 + 1 - 1) with kv.2 by lia.
    split; [|apply parse_start_interval; lia].
    pose proof (interval_text_number _ (start_number kv.2 ltac:(lia))) as H1. unfold interval_text in *.
    apply andb_true_iff in H1 as [_ H1]. cbn. exact H1.
Qed.

(** The elements of [", ".join(l)] after [split(",")] and [strip(" \n")]. *)
Lemma split_join_blank l :
  l <> [] -> Forall (fun t => str_mem "," t = false /\ str_mem " " t = false /\ str_mem "010" t = false /\ str_nonempty t = true) l ->
  map (strip is_blank) (split_on "," (join ", " l)) = l.
Proof.
  intros Hne Hl. induction Hl as [|t l (H1 & H2 & H3 & H4) Hl IH]; [done|].
  destruct l as [|u l]; [cbn [join]; rewrite split_on_word by done; cbn; by rewrite strip_blank_id|].
  change (join ", " (t :: u :: l)) with (t ++ String "," (String " " (join ", " (u :: l)))).
  rewrite split_on_app by done. cbn [map]. rewrite strip_blank_id by done. f_equal.
  etrans; [|by apply IH]. clear. set (w := join ", " (u :: l)). cbn [split_on]. rewrite decide_False by done.
  destruct (split_on "," w) as [|x xs] eqn:Ew; [by apply split_on_nonempty in Ew|].
  cbn [map]. by f_equal.
Qed.

Lemma start_nonempty kv : start_ok kv -> str_nonempty (start_text kv) = true.
Proof.
  intros [Hs _]. unfold start_text. destruct (sid_ok_inv _ Hs) as (a & b & c & d & e & -> & Ha & _).
  apply andb_true_iff in Ha as [Ha _]. apply bool_decide_eq_true in Ha. by destruct a.
Qed.

Lemma parse_start_set (d : dict string Z) :
  Forall start_ok d -> gset_of_string (join ", " (map start_text d)) = Ok (map start_gtid d).
Proof.
  intros Hd. destruct d as [|kv d]; [done|]. unfold gset_of_string.
  assert (str_nonempty (join ", " (map start_text (kv :: d))) = true) as ->.
  { inversion_clear Hd as [|?? Hk _]. apply start_nonempty in Hk. cbn [map].
    destruct (map start_text d); cbn [join]; by destruct (start_text kv). }
  assert (Forall (fun t => str_mem "," t = false /\ str_mem " " t = false /\ str_mem "010" t = false /\ str_nonempty t = true)
    (map start_text (kv :: d))) as Hl.
  { apply List.Forall_map. eapply Forall_impl; [exact Hd|]. intros x Hx.
    rewrite !start_text_no_char, start_nonempty by done. done. }
  assert (forall l, mapM_result (fun x => gtid_of_string (strip is_blank x)) l = mapM_result gtid_of_string (map (strip is_blank) l)) as ->.
  { intros l. induction l as [|x l IH]; [done|]. cbn [mapM_result map]. by rewrite IH. }
  rewrite split_join_blank by done. clear Hl. induction Hd as [|x l Hx Hd IH]; [done|].
  cbn [map mapM_result]. rewrite parse_start by done. cbn [mbind result_bind]. by rewrite IH.
Qed.

Lemma pack_sle_nonneg z : 0 <= z < 2 ^ 31 -> pack_sle 4 z = Ok (le_encode 4 z).
Proof.
  intros Hz. unfold pack_sle. change (2 ^ (8 * Z.of_nat 4 - 1)) with (2 ^ 31). cbv zeta.
  rewrite Z.mod_small by (change (256 ^ Z.of_nat 4) with (2 ^ 32); lia).
  destruct (Z.leb_spec (- 2 ^ 31) z), (Z.ltb_spec z (2 ^ 31)); done || lia.
Qed.

Lemma dump_prelude (c : reader_config) (d : dict string Z) :
  Forall start_ok d -> 0 <= rc_server_id c < 2 ^ 32 -> zlen d < 2 ^ 20 ->
  exists prelude data,
    gtid_prelude c (join ", " (map start_text d)) = Ok prelude /\
    prelude = (le_encode 4 (zlen prelude - 4) ++ [COM_BINLOG_DUMP_GTID] ++
      le_encode 2 (if rc_blocking c then 4 else 5) ++ le_encode 4 (rc_server_id c) ++
      le_encode 4 3 ++ [0; 0; 0] ++ le_encode 8 4 ++ le_encode 4 (zlen data) ++ data)%list /\
    gset_decode data = Ok (map (fun kv => mkGtid (hex_lower kv.1) [(1, kv.2 + 1)]) d, []).
Proof.
  intros Hd Hsid Hlen. unfold gtid_prelude. rewrite parse_start_set by done. cbn [mbind result_bind].
  destruct (gset_encoded_spec (map start_gtid d)) as (data & E & Hz & Hdec).
  - apply List.Forall_map. eapply Forall_impl; [exact Hd|]. intros kv [Hs Hn]. split; [done|]. split; [done|].
    unfold itvl_u64, u64. change (256 ^ 8) with (2 ^ 64). unfold start_gtid, zlen. cbn [intervals length].
    split; [apply Forall_singleton; cbn [fst snd]; lia|lia].
  - unfold u64, zlen in *. rewrite length_map. change (256 ^ 8) with (2 ^ 64). lia.
  - apply List.Forall_map. eapply Forall_impl; [exact Hd|]. intros kv [Hs Hn].
    split; repeat constructor. unfold nonempty. cbn. lia.
  - assert (gset_encoded_length (map start_gtid d) = 8 + 40 * zlen d) as Hel.
    { clear. unfold gset_encoded_length. f_equal. induction d as [|kv d IH]; [done|]. cbn [map foldr]. rewrite IH, zlen_cons.
      unfold encoded_length, start_gtid. cbn [intervals]. change (zlen [(1, kv.2 + 1)]) with 1. lia. }
    rewrite Hel in *. pose proof (zlen_nonneg d).
    assert (Z.lor (if rc_blocking c then 0 else BINLOG_DUMP_NON_BLOCK) BINLOG_THROUGH_GTID = if rc_blocking c then 4 else 5) as ->
      by (by destruct (rc_blocking c)).
    rewrite pack_sle_nonneg by lia. rewrite !pack_ule_in_range by (destruct (rc_blocking c); cbn; lia).
    cbn [mbind result_bind]. rewrite E. cbn [mbind result_bind]. eexists _, data. split; [done|].
    split; [|by rewrite <- (app_nil_r data), Hdec, map_map].
    rewrite !zlen_app, !zlen_le_encode, Hz.
    change (zlen [COM_BINLOG_DUMP_GTID]) with 1. change (zlen [0; 0; 0]) with 3.
    replace (_ - 4) with (2 + 4 + 4 + 4 + 8 + 4 + (8 + 40 * zlen d)) by lia. by destruct (rc_blocking c).
Qed.



(** ** What the reader sends *)

Definition gtid_config (auto_position : string) : reader_config :=
  mkReaderConfig 7 false false None None true None None None (Some auto_position) no_filters false None None None None None false false true.

Definition dumps (s : reader) : list bytes :=
  omap (fun x => match x with SBytes bs => Some bs | SQuery _ => None end) (sent_ s).

(** After a lost connection the reader asks again for everything after the
    position it was constructed with: the transactions received meanwhile
    are sent, and applied, a second time. *)
Example reconnect_replays :
  let c := gtid_config "19d69c1e-ae97-4b8c-a1ef-9e12ba966457:1-5" in
  let sv := mkServer (Some "CRC32") None (Some "FULL") "8.0.30" in
  let gtid := lp_start (frame 7 0x21 1 (19 + 42 + 4) 200 0 (encode_gtid_event 1 ex_sid_bytes 6 2 0 1) [0; 0; 0; 0]) in
  let s := snd (fetchone (P:=list_packet) c sv [GtidEventC] [InPacket gtid; InError 2013] (reader_init c)) in
  let s' := snd (fetchone (P:=list_packet) c sv [GtidEventC] [InError 2013] s) in
  rd_log_pos s = Some 200 /\ length (dumps s') = 2%nat /\ nth_error (dumps s') 0 = nth_error (dumps s') 1.
Proof. vm_compute. done. Qed.

(** The length field of the MariaDB dump command is one less than what
    follows. *)
Example mariadb_length_short :
  (bs ← mariadb_prelude (gtid_config "0-1-1"); Ok (le_decode (take 4 bs), zlen bs - 4)) = Ok (14, 15).
Proof. reflexivity. Qed.

(** The length field of the registration counts the whole host name, of which
    at most 256 bytes are sent. *)
Example report_length_long :
  let host := string_of_bytes (repeat 104 300) in
  (bs ← report_encoded (mkReportSlave host "" "" 0) 1 0; Ok (le_decode (take 4 bs), zlen bs - 4)) = Ok (318, 274).
Proof. vm_compute. reflexivity. Qed.

(** Without format description events the server version stays unknown and a
    GTID event has no [last_committed]. *)
Example gtid_without_version :
  let c := gtid_config "19d69c1e-ae97-4b8c-a1ef-9e12ba966457:1-5" in
  let sv := mkServer (Some "CRC32") None (Some "FULL") "8.0.30" in
  let gtid := lp_start (frame 7 0x21 1 (19 + 42 + 4) 200 0 (encode_gtid_event 1 ex_sid_bytes 6 2 0 1) [0; 0; 0; 0]) in
  match fst (fetchone (P:=list_packet) c sv [GtidEventC] [InPacket gtid] (reader_init c)) with
  | Ok (FEvent _ (EGtid g), _) => ge_last_committed g = None
  | _ => False
  end.
Proof. vm_compute. reflexivity. Qed.
