(* ===== verification/Replication.v ===== *)
(** * From events to operations

    [main.py]: [reset_col_val], [reset_values], [format_filter_tables] and the
    class [MysqlReplication], whose generator [operation_stream] turns the
    events of the binlog into the operations [MysqlSync] applies.

    A generator is the list of what it yields, ended by the exception it
    raises, if any. *)

From stdpp Require Import base list strings sets.
From Stdlib Require Import ZArith Lia Ascii.
From S2P Require Import Prelude PyBytes PyStr Values UtilBytes Packet Column Gtid GtidText GtidWire GtidSet Bitmap JsonBinary RowValues RowDecimal Event Sql Metric Checkpoint Client Sync Ddl RowsEvent RowCells RowImage TableMap Dispatch Stream.
Open Scope string_scope.
Open Scope Z_scope.

(** ** Values *)

(** The digits of [int(s, 2)]: single underscores may separate them. *)
Fixpoint binary_digits (prev_digit : bool) (acc : Z) (s : string) : option Z :=
  match s with
  | EmptyString => if prev_digit then Some acc else None
  | String c s' =>
      if decide (c = "0"%char) then binary_digits true (2 * acc) s'
      else if decide (c = "1"%char) then binary_digits true (2 * acc + 1) s'
      else if decide (c = "_"%char) then if prev_digit then binary_digits false acc s' else None
      else None
  end.

(** The prefix [0b], after which an underscore is allowed. *)
Definition binary_unsigned (s : string) : option Z :=
  match s with
  | String "0" (String ("b" | "B") (String "_" s')) => binary_digits false 0 s'
  | String "0" (String ("b" | "B") s') => binary_digits false 0 s'
  | _ => binary_digits false 0 s
  end.

(** [int(s, 2)] *)
Definition int_base_2 (s : string) : result Z :=
  of_option ValueError
    match strip is_space s with
    | String "-" s' => Z.opp <$> binary_unsigned s'
    | String "+" s' => binary_unsigned s'
    | s' => binary_unsigned s'
    end.

(** The types [reset_col_val] passes through. *)
Definition plain_types : list Z := [
  FIELD_TYPE.VAR_STRING; FIELD_TYPE.VARCHAR; FIELD_TYPE.DECIMAL; FIELD_TYPE.CHAR; FIELD_TYPE.STRING;
  FIELD_TYPE.SHORT; FIELD_TYPE.LONG; FIELD_TYPE.INT24; FIELD_TYPE.LONGLONG; FIELD_TYPE.FLOAT;
  FIELD_TYPE.DOUBLE; FIELD_TYPE.NEWDECIMAL; FIELD_TYPE.DATE; FIELD_TYPE.DATETIME2; FIELD_TYPE.TIMESTAMP2;
  FIELD_TYPE.TIME2; FIELD_TYPE.YEAR; FIELD_TYPE.BLOB; FIELD_TYPE.ENUM
].

(** [int(v, 2)] of a value that is not text raises [TypeError]. *)
Definition bit_int (v : pyval) : result Z :=
  match v with
  | VStr s => int_base_2 s
  | VBytes bs => int_base_2 (string_of_bytes bs)
  | _ => Err TypeError
  end.

Section values.
(** The order in which a Python set is traversed. *)
Context (set_order : list string -> list string).

(** [",".join(v)] of a value a row can hold. *)
Definition join_value (v : pyval) : result pyval :=
  match v with
  | VSet l => Ok (VStr (join "," (set_order l)))
  | VStr s => Ok (VStr (join "," (chars s)))
  | VBytes [] | VList [] | VDict [] => Ok (VStr "")
  | VList l => VStr ∘ join "," <$> mapM_result (fun x => match x with VStr s => Ok s | _ => Err TypeError end) l
  | _ => Err TypeError
  end.

Definition reset_col_val (colum_type : Z) (col_val : pyval) : result pyval :=
  if bool_decide (colum_type ∈ plain_types) then Ok col_val
  else if colum_type =? FIELD_TYPE.BIT then
    n ← bit_int col_val;
    VBytes <$> to_bytes_big n ((bit_length (Z.abs n) + 7) / 8)
  else if colum_type =? FIELD_TYPE.SET then join_value col_val
  else Err (PyException "unreset col val type").

(** The loop of [reset_values]. *)
Fixpoint reset_loop (values : row) (columns : list Column) (new_values : row) : result row :=
  match columns with
  | [] => Ok new_values
  | column :: rest =>
      new_values ←
        match name column with
        | Some col_name =>
            match dict_get values col_name with
            | Some v => v' ← reset_col_val (type column) v; Ok (dict_set new_values col_name v')
            | None => Ok new_values
            end
        | None => Ok new_values
        end;
      reset_loop values rest new_values
  end.

Definition reset_values (values : row) (columns : list Column) : result row := reset_loop values columns [].

(** ** Handlers *)

Definition handle_update_rows (e : RowsEvent) (r : row_image) : result operation :=
  match r with
  | RowUpdate before after =>
      new_after ← reset_values (values after) (re_columns e);
      new_before ← reset_values (values before) (re_columns e);
      Ok (OpDML (OperationDMLUpdate (re_schema e) (re_table e) new_after new_before (re_primary_key e)))
  | RowValues _ => Err KeyError
  end.

Definition handle_write_rows (e : RowsEvent) (r : row_image) : result operation :=
  match r with
  | RowValues d =>
      new_values ← reset_values (values d) (re_columns e);
      Ok (OpDML (OperationDMLInsert (re_schema e) (re_table e) new_values (re_primary_key e)))
  | RowUpdate _ _ => Err KeyError
  end.

Definition handle_delete_rows (e : RowsEvent) (r : row_image) : result operation :=
  match r with
  | RowValues d =>
      new_values ← reset_values (values d) (re_columns e);
      Ok (OpDML (OperationDMLDelete (re_schema e) (re_table e) new_values (re_primary_key e)))
  | RowUpdate _ _ => Err KeyError
  end.

Definition handle_gtid (g : GtidEvent) : result operation :=
  match split_on ":" (ge_gtid g) with
  | [server_uuid; xid] =>
      lc ← attr (ge_last_committed g);
      Ok (OperationGtid server_uuid xid lc)
  | _ => Err ValueError
  end.

Definition is_database_statement (t : NonDMLType) : bool :=
  bool_decide (t ∈ [CREATEDATABASE; DROPDATABASE; ALTERDATABASE]).
Definition is_table_statement (t : NonDMLType) : bool :=
  bool_decide (t ∈ [CREATETABLE; ALTERTABLE; TRUNCATETABLE; CREATEINDEX; RENAMETABLE; DROPTABLE]).

Context `{UnicodeTables}.

Definition handle_query (q : QueryEvent) : result (list operation) :=
  if decide (qe_query q = "BEGIN") then Ok [OperationBegin]
  else if decide (qe_query q = "COMMIT") then Ok []
  else
    match extract_schema (qe_query q) with
    | (None, _, _) => Err (PyException "not know queryevent query")
    | (Some ddltype, db, tab) =>
        if is_database_statement ddltype then Ok [OperationNonDML ddltype None None (qe_query q)]
        else if is_table_statement ddltype then
          schema ← (if 1 <=? qe_schema_length q then Some <$> utf8_decode ErrStrict (qe_schema q) else Ok db);
          match true_str schema with
          | Some schema => Ok [OperationNonDML ddltype (Some schema) tab (qe_query q)]
          | None => Err (PyException "db not know")
          end
        else Ok []
    end.

Section events.
Context {P : Type} `{MysqlPacket P} (cd : codecs) (ignore_decode_errors : bool) (json_depth : nat).

(** [event.rows], then one operation per row. *)
Definition handle_rows (r : RowsEvent) (s : rowst P) (event_size : Z) (one : row_image -> result operation)
  : result (list operation) :=
  l ← fst (rows cd ignore_decode_errors json_depth r (event_type (rs_packet s)) event_size s);
  mapM_result one l.

(** The handler of an event: the operations it yields. *)
Definition handle_event (e : event P) : result (list operation) :=
  match e with
  | ERows r s size =>
      match re_class r with
      | CUpdate => handle_rows r s size (handle_update_rows r)
      | CWrite => handle_rows r s size (handle_write_rows r)
      | CDelete => handle_rows r s size (handle_delete_rows r)
      | CPartialUpdate => Ok []
      end
  | EGtid g => o ← handle_gtid g; Ok [o]
  | EXid _ => Ok [OperationCommit]
  | EQuery q => handle_query q
  | EHeartbeat _ => Ok [OperationHeartbeat]
  | _ => Ok []
  end.

Definition is_heartbeat_event (e : event P) : bool := match e with EHeartbeat _ => true | _ => false end.

(** Local variables of [operation_stream]: [None] is an unbound variable. *)
Record locals := mkLocals {
  lc_log_file : option (option string);
  lc_log_pos : option Z;
  lc_end_log_pos : option Z
}.

Definition locals_init : locals := mkLocals None (Some 4) (Some 0).

(** One iteration: the items yielded and the exception raised, if any; [rd]
    is the reader after the event. *)
Definition handle_item (rd : reader) (ts : Z) (e : event P) (l : locals) : list (result item) * option locals :=
  let l := if is_heartbeat_event e then l
           else mkLocals (Some (log_file rd)) (lc_log_pos l) (rd_log_pos rd) in
  match handle_event e with
  | Err x => ([Err x], None)
  | Ok ops =>
      let next := mkLocals (lc_log_file l) (lc_end_log_pos l) (lc_end_log_pos l) in
      match ops, lc_log_file l with
      | [], _ => ([], Some next)
      | _, None => ([Err UnboundLocalError], None)
      | _, Some f => (map (fun o => Ok (f, lc_log_pos l, ts, o)) ops, Some next)
      end
  end.

Context (c : reader_config) (sv : server) (allowed : list event_class).

(** [for binlogevent in self.binlogeventstream]; each event takes at least
    one packet, so their number is enough fuel.  The reader's state is
    returned: the one in which the stream ended, blocked or raised. *)
Fixpoint stream_loop (fuel : nat) (packets : list (incoming P)) (rd : reader) (l : locals) : list (result item) * reader :=
  match fuel with
  | O => ([], rd)
  | S f =>
      match fetchone c sv allowed packets rd with
      | (Err x, rd') => ([Err x], rd')
      | (Ok (FEvent ts e, rest), rd') =>
          match handle_item rd' ts e l with
          | (items, Some l') => let '(more, rd'') := stream_loop f rest rd' l' in ((items ++ more)%list, rd'')
          | (items, None) => (items, rd')
          end
      | (Ok (_, _), rd') => ([], rd')
      end
  end.

Definition operation_stream (packets : list (incoming P)) (rd : reader) : list (result item) * reader :=
  stream_loop (S (length packets)) packets rd locals_init.
End events.
End values.

(** ** [format_filter_tables] *)

Definition filter_entry (d : dict string (list string)) (dbtab : string) : result (dict string (list string)) :=
  match split_on "." dbtab with
  | [db; tab] =>
      match dict_get d db with
      | Some l => Ok (dict_set d db (l ++ [tab])%list)
      | None => Ok (dict_set d db [tab])
      end
  | _ => Err ValueError
  end.

Definition format_filter_tables (tables : list string) : result (dict string (list string)) :=
  foldM_result filter_entry tables [].

(** ** Properties *)

(** *** BIT columns *)

Definition bit_text (s : string) : bool :=
  str_forallb (fun c => bool_decide (c = "0"%char) || bool_decide (c = "1"%char)) s.

Lemma low_bits_text n v : bit_text (low_bits n v) = true.
Proof.
  unfold bit_text. induction n as [|n IH]; [done|]. cbn [low_bits str_forallb]. rewrite IH.
  by destruct (Z.testbit v (Z.of_nat n)).
Qed.

Lemma binary_digits_low n v acc b :
  (0 < n)%nat \/ b = true -> 0 <= v -> binary_digits b acc (low_bits n v) = Some (acc * 2 ^ Z.of_nat n + v mod 2 ^ Z.of_nat n).
Proof.
  revert acc b. induction n as [|n IH]; intros acc b Hn Hv.
  - destruct Hn as [Hn| ->]; [lia|]. cbn [low_bits binary_digits]. change (2 ^ Z.of_nat 0) with 1. rewrite Z.mod_1_r. f_equal. lia.
  - cbn [low_bits].
    assert (v mod 2 ^ Z.of_nat (S n) = Z.b2z (Z.testbit v (Z.of_nat n)) * 2 ^ Z.of_nat n + v mod 2 ^ Z.of_nat n) as ->.
    { rewrite Nat2Z.inj_succ, Z.pow_succ_r by lia. rewrite (Z.mul_comm 2), Z.rem_mul_r by lia.
      rewrite <- Z.testbit_spec' by lia. lia. }
    rewrite Nat2Z.inj_succ, Z.pow_succ_r by lia.
    destruct (Z.testbit v (Z.of_nat n)); cbn [binary_digits Z.b2z].
    + rewrite decide_False, decide_True, IH by (done || by right). apply (f_equal Some). ring.
    + rewrite decide_True, IH by (done || by right). apply (f_equal Some). ring.
Qed.

Lemma int_base_2_low n v : (0 < n)%nat -> 0 <= v -> int_base_2 (low_bits n v) = Ok (v mod 2 ^ Z.of_nat n).
Proof.
  intros Hn Hv. unfold int_base_2. rewrite strip_id.
  2:{ eapply str_forallb_impl; [|apply (low_bits_text n v)]. intros a Ha.
      apply orb_true_iff in Ha as [Ha|Ha]; apply bool_decide_eq_true in Ha as ->; done. }
  pose proof (binary_digits_low n v 0 false (or_introl Hn) Hv) as E. rewrite Z.mul_0_l, Z.add_0_l in E.
  destruct n as [|n]; [lia|]. cbn [low_bits] in *.
  assert (forall b, binary_unsigned (String (if b : bool then "1"%char else "0"%char) (low_bits n v)) =
    binary_digits false 0 (String (if b then "1"%char else "0"%char) (low_bits n v))) as Hu.
  { intros []; [done|]. destruct n as [|n]; [done|]. cbn [low_bits]. by destruct (Z.testbit v (Z.of_nat n)). }
  rewrite <- Hu in E. by destruct (Z.testbit v (Z.of_nat n)); rewrite E.
Qed.

Lemma reset_bit set_order n v :
  (0 < n)%nat -> 0 <= v < 2 ^ Z.of_nat n ->
  reset_col_val set_order FIELD_TYPE.BIT (VStr (low_bits n v)) =
  Ok (VBytes (be_encode (Z.to_nat ((bit_length v + 7) / 8)) v)).
Proof.
  intros Hn Hv. unfold reset_col_val. rewrite bool_decide_eq_false_2 by (apply (bool_decide_unpack _); vm_compute; exact I).
  change (FIELD_TYPE.BIT =? FIELD_TYPE.BIT) with true. cbn [bit_int]. rewrite int_base_2_low by lia.
  rewrite Z.mod_small by lia. cbn [mbind result_bind]. rewrite Z.abs_eq, to_bytes_big_minimal by lia. done.
Qed.

Lemma minimal_bytes v : 0 <= v -> v < 256 ^ Z.of_nat (Z.to_nat ((bit_length v + 7) / 8)).
Proof.
  intros Hv. pose proof (to_bytes_big_minimal v Hv) as E. unfold to_bytes_big in E.
  pose proof (bit_length_nonneg v). rewrite Z2Nat.id by (apply Z.div_pos; lia).
  destruct (Z.ltb_spec v (256 ^ ((bit_length v + 7) / 8))); [done|]. by rewrite andb_false_r in E.
Qed.

(** *** Rows *)

(** The value the target is given for a column. *)
Definition reset_column (set_order : list string -> list string) (cv : Column * pyval) : result pyval :=
  reset_col_val set_order (type cv.1) cv.2.

Lemma reset_loop_spec set_order r columns names vals pre :
  map name columns = map Some names -> length vals = length names ->
  NoDup (dict_keys pre ++ names)%list -> (forall i k, names !! i = Some k -> dict_get r k = vals !! i) ->
  reset_loop set_order r columns pre =
  (vs ← mapM_result (reset_column set_order) (zip columns vals); Ok (pre ++ zip names vs)%list).
Proof.
  revert names vals pre. induction columns as [|c columns IH]; intros names vals pre Hn Hl Hnd Hr.
  - destruct names; [|done]. cbn. by rewrite app_nil_r.
  - destruct names as [|k names]; [done|]. destruct vals as [|v vals]; [done|]. cbn in Hn. injection Hn as Hk Hn.
    cbn [reset_loop zip zip_with mapM_result]. rewrite Hk, (Hr 0%nat k eq_refl). change ((v :: vals) !! 0%nat) with (Some v).
    assert (reset_column set_order (c, v) = reset_col_val set_order (type c) v) as -> by done.
    destruct (reset_col_val set_order (type c) v) as [v'|e]; cbn [mbind result_bind]; [|done].
    rewrite dict_set_new by (intros Hin; apply NoDup_app in Hnd as (_ & Hdis & _); apply (Hdis _ Hin); set_solver).
    rewrite (IH names vals); [|done|by injection Hl| |intros i k' Hi; apply (Hr (S i) k' Hi)].
    + destruct (mapM_result _ _) as [vs|e]; [|done]. cbn. by rewrite <- app_assoc.
    + unfold dict_keys in *. rewrite map_app. cbn. by rewrite <- app_assoc.
Qed.

Lemma zip_get (names : list string) (vals : list pyval) i k :
  NoDup names -> length vals = length names -> names !! i = Some k -> dict_get (zip names vals) k = vals !! i.
Proof.
  revert vals i. induction names as [|k0 names IH]; intros vals i Hnd Hl Hi; [done|].
  destruct vals as [|v vals]; [done|]. apply NoDup_cons in Hnd as [Hni Hnd]. cbn.
  destruct i as [|i]; cbn in Hi; [injection Hi as ->; by rewrite decide_True|].
  injection Hl as Hl. rewrite decide_False; [by apply (IH vals i)|]. intros ->. apply Hni. by eapply list_elem_of_lookup_2.
Qed.

(** C32. [reset_values]: for a row whose columns have distinct names, each column
    keeps its name and its place and its value is converted by its type; the
    row fails when a column does.  A BIT column, whose value is the text of
    its bits, becomes the shortest big-endian byte string of that number; a
    SET column the names of its members joined by commas, in the order of the
    set; the plain types are left alone. *)
Theorem reset_values_correct (set_order : list string -> list string) (columns : list Column) (names : list string)
    (vals : list pyval) :
  map name columns = map Some names -> NoDup names -> length vals = length names ->
  reset_values set_order (zip names vals) columns =
    (vs ← mapM_result (reset_column set_order) (zip columns vals); Ok (zip names vs)) /\
  (forall t v, t ∈ plain_types -> reset_col_val set_order t v = Ok v) /\
  (forall l, reset_col_val set_order FIELD_TYPE.SET (VSet l) = Ok (VStr (join "," (set_order l)))) /\
  (forall n v, (0 < n)%nat -> 0 <= v < 2 ^ Z.of_nat n -> exists bs,
     reset_col_val set_order FIELD_TYPE.BIT (VStr (low_bits n v)) = Ok (VBytes bs) /\
     be_decode bs = v /\ zlen bs = (bit_length v + 7) / 8).
Proof.
  intros Hn Hnd Hl. split; [|split; [|split]].
  - unfold reset_values. rewrite (reset_loop_spec _ _ _ names vals); [done|done|done|done|].
    intros i k Hi. by apply zip_get.
  - intros t v Ht. unfold reset_col_val. by rewrite bool_decide_eq_true_2.
  - intros l. unfold reset_col_val. rewrite bool_decide_eq_false_2 by (apply (bool_decide_unpack _); vm_compute; exact I). done.
  - intros n v Hn0 Hv. eexists. split; [by apply reset_bit|]. split; [apply be_decode_encode; split; [lia|apply minimal_bytes; lia]|].
    unfold be_encode, zlen. rewrite length_rev, le_encode_length. pose proof (bit_length_nonneg v).
    apply Z2Nat.id, Z.div_pos; lia.
Qed.

Lemma reset_values_correct_witness :
  reset_values (fun l => l) [("id", VInt 7); ("flags", VStr "0000000101")]
    [named "id" (new_column FIELD_TYPE.LONG); named "flags" (new_column FIELD_TYPE.BIT)] =
  Ok [("id", VInt 7); ("flags", VBytes [5])].
Proof.
  refine (eq_trans (proj1 (reset_values_correct (fun l => l)
    [named "id" (new_column FIELD_TYPE.LONG); named "flags" (new_column FIELD_TYPE.BIT)] ["id"; "flags"]
    [VInt 7; VStr "0000000101"] eq_refl _ eq_refl)) _); [|reflexivity].
  apply (bool_decide_unpack _). vm_compute. exact I.
Defined.

(** A NULL in a BIT or SET column makes the whole row fail. *)
Example bit_null_raises : reset_col_val (fun l => l) FIELD_TYPE.BIT VNone = Err TypeError.
Proof. reflexivity. Qed.
Example set_null_raises : reset_col_val (fun l => l) FIELD_TYPE.SET VNone = Err TypeError.
Proof. reflexivity. Qed.

(** The number zero in a BIT column becomes the empty byte string. *)
Example bit_zero_empty : reset_col_val (fun l => l) FIELD_TYPE.BIT (VStr "00000000") = Ok (VBytes []).
Proof. reflexivity. Qed.

(** Columns of types the decoder reads are refused here. *)
Example json_refused : is_ok (reset_col_val (fun l => l) FIELD_TYPE.JSON (VInt 1)) = false.
Proof. reflexivity. Qed.

(** Without column names in the metadata a row loses all its values. *)
Example unnamed_columns_lost :
  reset_values (fun l => l) [("UNKNOWN_COL0", VInt 7)] [new_column FIELD_TYPE.LONG] = Ok [].
Proof. reflexivity. Qed.

(** *** Filters *)

(** The tables listed for a schema. *)
Definition listed (d : dict string (list string)) (db : string) : list string := default [] (dict_get d db).

Lemma filter_entry_spec d (q : string * string) db :
  str_mem "." q.1 = false -> str_mem "." q.2 = false ->
  exists d', filter_entry d (q.1 ++ "." ++ q.2) = Ok d' /\
    listed d' db = (listed d db ++ if decide (q.1 = db) then [q.2] else [])%list.
Proof.
  intros H1 H2. unfold filter_entry. change ("." ++ q.2) with (String "." q.2).
  rewrite split_on_app, split_on_word by done. unfold listed.
  destruct (dict_get d q.1) as [l|] eqn:E; (eexists; split; [done|]);
    (destruct (decide (q.1 = db)) as [<-|Hne]; [rewrite dict_get_set_eq, E; done|]);
    rewrite dict_get_set_ne by done; by rewrite app_nil_r.
Qed.

(** [format_filter_tables]: from a list of [schema.table] names whose parts
    contain no dot, each schema gets exactly its tables, in the order of the
    list, and a schema that is not named gets none. *)
Theorem filter_tables_correct (tables : list (string * string)) :
  Forall (fun q => str_mem "." q.1 = false /\ str_mem "." q.2 = false) tables ->
  exists d, format_filter_tables (map (fun q => q.1 ++ "." ++ q.2) tables) = Ok d /\
    forall db, listed d db = map snd (filter (fun q => q.1 = db) tables).
Proof.
  unfold format_filter_tables. intros Ht.
  assert (forall d0, exists d, foldM_result filter_entry (map (fun q => q.1 ++ "." ++ q.2) tables) d0 = Ok d /\
    forall db, listed d db = (listed d0 db ++ map snd (filter (fun q => q.1 = db) tables))%list) as Hg.
  { induction Ht as [|q tables [H1 H2] Ht IH]; intros d0.
    - exists d0. split; [done|]. intros db. by rewrite app_nil_r.
    - cbn [map foldM_result]. destruct (filter_entry_spec d0 q "" H1 H2) as (d1 & E & _). rewrite E. cbn [mbind result_bind].
      destruct (IH d1) as (d & Ed & Hd). exists d. split; [done|]. intros db. rewrite Hd.
      destruct (filter_entry_spec d0 q db H1 H2) as (d1' & E' & Hl). rewrite E in E'. injection E' as <-.
      rewrite Hl, filter_cons, <- app_assoc. by destruct (decide (q.1 = db)). }
  apply (Hg []).
Qed.

Lemma filter_tables_correct_witness :
  exists d, format_filter_tables ["a.x"; "b.y"; "a.z"] = Ok d /\ listed d "a" = ["x"; "z"].
Proof.
  destruct (filter_tables_correct [("a", "x"); ("b", "y"); ("a", "z")]) as (d & E & Hd); [by repeat constructor|].
  exists d. split; [exact E|]. rewrite Hd. reflexivity.
Defined.
