(* ===== verification/EndToEnd.v ===== *)
(** * From the bytes of the binlog to the target

    The packets a source sends for its transactions, and what the whole
    program makes of them: each packet is framed, decoded and handled, the
    generator yields the operations of the transactions with the position of
    the event before, and the synchronisation loop leaves exactly their
    statements committed on the target. *)

From stdpp Require Import base list strings sets.
From Stdlib Require Import ZArith Lia Ascii.
From S2P Require Import Prelude PyBytes PyStr Values UtilBytes Packet Column Gtid GtidText GtidWire GtidSet Bitmap JsonBinary RowValues RowDecimal Event Sql Metric Checkpoint Client Sync SyncLive Ddl RowsEvent RowCells RowImage TableMap TableMapEvent Dispatch Stream Replication.
Open Scope string_scope.
Open Scope Z_scope.
Open Scope list_scope.

Section packets.
Context {P : Type} `{MysqlPacketLaws P} `{UnicodeTables}.
Context (cd : codecs) (ignore_decode_errors : bool) (json_depth : nat) (set_order : list string -> list string).
Context (c : reader_config) (sv : server) (allowed : list event_class).

(** ** Row events *)

(** The type of the version 2 event of a class. *)
Definition rows_type (cls : rows_class) : Z :=
  match cls with CWrite => BINLOG.WRITE_ROWS_EVENT_V2 | CDelete => BINLOG.DELETE_ROWS_EVENT_V2 | _ => BINLOG.UPDATE_ROWS_EVENT_V2 end.

Definition second_bitmap (cls : rows_class) (bitmap : bytes) : bytes := match cls with CUpdate => bitmap | _ => [] end.

(** The post-header of a row event without extra data. *)
Definition rows_header (tid flags n : Z) (bitmap bitmap2 : bytes) : bytes :=
  le_encode 6 tid ++ le_encode 2 flags ++ le_encode 2 2 ++ length_coded n ++ bitmap ++ bitmap2.

Lemma v2_header_parsed ty flags :
  0 <= flags < 2 ^ 16 -> parses (P:=P) (read_v2_header ty) (le_encode 2 flags ++ le_encode 2 2) flags.
Proof.
  intros Hf. unfold read_v2_header. eapply parses_bind; [by apply (parses_uint 2 2 flags)|].
  rewrite <- (app_nil_r (le_encode 2 2)). eapply parses_bind; [apply (parses_uint 2 2 2); [done|lia]|].
  rewrite <- (app_nil_r []). eapply parses_bind; apply parses_ret.
Qed.

Lemma rows_header_read cls f (tm : dict Z Table) tid tb flags n bitmap bitmap2 (w : wrapper P) rest :
  cls <> CPartialUpdate ->
  0 <= tid < 2 ^ 48 -> 0 <= flags < 2 ^ 16 -> 0 <= n < 2 ^ 24 -> zlen bitmap = (n + 7) / 8 ->
  bitmap2 = second_bitmap cls bitmap2 -> (cls = CUpdate -> zlen bitmap2 = (n + 7) / 8) ->
  dict_get tm tid = Some tb -> filtered f (schema tb) (table tb) = false ->
  event_type w = rows_type cls -> data_buffer w = [] ->
  stream w = rows_header tid flags n bitmap bitmap2 ++ rest ->
  exists w', read_rows_event cls f tm w =
      (Ok (Some (mkRowsEvent cls tid (schema tb) (table tb) (primary_key tb) flags n (columns tb) bitmap bitmap2)), w') /\
    data_buffer w' = [] /\ step_to w (zlen (rows_header tid flags n bitmap bitmap2)) rest w'.
Proof.
  intros Hc Htid Hfl Hn Hbm Hb2 Hb2l Htm Hfi Hty Hb Hs. unfold read_rows_event. rewrite st_bind_eq. cbn [st_get]. rewrite Hty.
  match goal with |- exists w', ?m w = _ /\ _ => enough (parses (P:=P) m (rows_header tid flags n bitmap bitmap2)
    (Some (mkRowsEvent cls tid (schema tb) (table tb) (primary_key tb) flags n (columns tb) bitmap bitmap2))) as Hp by (by apply Hp) end.
  unfold rows_header. eapply parses_bind; [by apply table_id_parsed|]. rewrite Htm, Hfi.
  replace (is_v2 (rows_type cls)) with true by (by destruct cls).
  rewrite (app_assoc (le_encode 2 flags)). eapply parses_bind; [by apply v2_header_parsed|].
  eapply parses_bind; [by apply parses_length_coded|]. eapply parses_lift_ok; [done|].
  eapply parses_bind; [by apply parses_read|].
  destruct cls; [| | |done]; cbn [second_bitmap] in Hb2.
  3: { eapply parses_bind_pure; [apply parses_read; by apply Hb2l|]. done. }
  all: subst bitmap2; eapply parses_bind_pure; [apply parses_ret|]; done.
Qed.

(** The operation of one row: its images, with the values reset. *)
Definition row_operation (e : RowsEvent) (rs : list row) : result operation :=
  match re_class e, rs with
  | CWrite, [r] => v ← reset_values set_order r (re_columns e);
      Ok (OpDML (OperationDMLInsert (re_schema e) (re_table e) v (re_primary_key e)))
  | CDelete, [r] => v ← reset_values set_order r (re_columns e);
      Ok (OpDML (OperationDMLDelete (re_schema e) (re_table e) v (re_primary_key e)))
  | CUpdate, [before; after] =>
      a ← reset_values set_order after (re_columns e); b ← reset_values set_order before (re_columns e);
      Ok (OpDML (OperationDMLUpdate (re_schema e) (re_table e) a b (re_primary_key e)))
  | _, _ => Err KeyError
  end.

Definition row_handler (e : RowsEvent) : row_image -> result operation :=
  match re_class e with
  | CWrite => handle_write_rows set_order e
  | CDelete => handle_delete_rows set_order e
  | _ => handle_update_rows set_order e
  end.

Lemma row_handler_operation e l :
  re_class e <> CPartialUpdate -> mapM_result (row_handler e) l = mapM_result (row_operation e) (map row_values_of l).
Proof.
  intros Hc. induction l as [|r l IH]; [done|]. cbn [mapM_result map]. rewrite IH. f_equal.
  unfold row_handler, row_operation. destruct (re_class e); [| | |done]; by destruct r.
Qed.

(** ** What a packet carries *)

(** The body of an event of a type, the operations it stands for, and the
    table map before and after it. *)
Inductive carries (version : list Z) (tm : dict Z Table) : Z -> bytes -> list operation -> dict Z Table -> Prop :=
  | carries_gtid flag sid gno lt lc sn :
      version_geb version [5; 7] = true ->
      length sid = 16%nat -> bytes_ok sid -> 0 <= gno < 2 ^ 63 -> 0 <= lc < 2 ^ 64 -> 0 <= sn < 2 ^ 64 ->
      carries version tm BINLOG.GTID_LOG_EVENT (encode_gtid_event flag sid gno lt lc sn)
        [OperationGtid (uuid_text sid) (str_of_Z gno) lc] tm
  | carries_query pid et ec vars schema query qs ops :
      0 <= pid < 2 ^ 32 -> 0 <= et < 2 ^ 32 -> 0 <= ec < 2 ^ 16 ->
      vars_ok (P:=P) vars -> zlen (var_bytes vars) < 2 ^ 16 ->
      utf8_decode ErrBackslashReplace query = Ok qs ->
      handle_query (mkQueryEvent pid et (zlen schema) ec (zlen (var_bytes vars)) (map fst vars) schema qs) = Ok ops ->
      carries version tm BINLOG.QUERY_EVENT (encode_query_event pid et ec vars schema query) ops tm
  | carries_xid x :
      0 <= x < 2 ^ 64 -> carries version tm BINLOG.XID_EVENT (le_encode 8 x) [OperationCommit] tm
  | carries_table_map tid flags sb tb schema table defs null_mask fields m cols :
      event_ok (P:=P) tid flags sb tb schema table defs null_mask ->
      filtered (rc_filters c) schema table = false ->
      meta_steps (P:=P) (map type (map snd defs)) (get_dbms sv) empty_meta fields m ->
      sync_column_info true (get_dbms sv) m tid schema table (map snd defs) = Ok (cols, make_table tid schema table cols true) ->
      carries version tm BINLOG.TABLE_MAP_EVENT (table_map_bytes tid flags sb tb defs null_mask fields) []
        (dict_set tm tid (make_table tid schema table cols true))
  | carries_rows cls tid tb flags n bitmap bitmap2 images expected ops :
      cls <> CPartialUpdate ->
      0 <= tid < 2 ^ 48 -> 0 <= flags < 2 ^ 16 -> 0 <= n < 2 ^ 24 -> zlen bitmap = (n + 7) / 8 ->
      bitmap2 = second_bitmap cls bitmap2 -> (cls = CUpdate -> zlen bitmap2 = (n + 7) / 8) ->
      dict_get tm tid = Some tb -> filtered (rc_filters c) (schema tb) (table tb) = false ->
      NoDup (column_keys 0 (columns tb)) ->
      Forall2 (fun bs rs => bs <> [] /\ row_bytes_of cd ignore_decode_errors json_depth cls (columns tb) bitmap bitmap2 bs rs)
        images expected ->
      mapM_result (row_operation (mkRowsEvent cls tid (schema tb) (table tb) (primary_key tb) flags n (columns tb) bitmap bitmap2))
        expected = Ok ops ->
      carries version tm (rows_type cls) (rows_header tid flags n bitmap bitmap2 ++ concat images) ops tm.

(** The table map the reader has after an event. *)
Definition table_map_after (e : event P) (tm : dict Z Table) : dict Z Table :=
  match e with ETableMap t => dict_set tm (tm_table_id t) (tm_table_obj t) | _ => tm end.

(** The constructor of the class reads the body as an event whose handler
    yields the operations. *)
Definition decodes (ctx : event_context) (verify : bool) (tm : dict Z Table) (ty : Z) (body : bytes)
    (ops : list operation) (tm' : dict Z Table) : Prop :=
  forall (w : wrapper P) (crc : bytes), zlen crc = 4 -> data_buffer w = [] -> read_bytes w = 0 -> event_type w = ty ->
    stream w = body ++ crc ->
    exists e tm1 w', construct_body ctx (class_of ty) verify (zlen body) tm w = (Ok (Some e, tm1), w') /\
      same_header w w' /\ handle_event set_order cd ignore_decode_errors json_depth e = Ok ops /\
      class_of_event e = class_of ty /\ table_map_after e tm1 = tm'.

Lemma dict_set_twice {K V} `{EqDecision K} (d : dict K V) k v v' : dict_set (dict_set d k v) k v' = dict_set d k v'.
Proof.
  induction d as [|[k0 v0] d IH]; cbn.
  - by rewrite decide_True.
  - destruct (decide (k = k0)) as [->|]; cbn; [by rewrite decide_True|]. rewrite decide_False by done. by rewrite IH.
Qed.

Lemma gtid_handled flag sid gno lt lc sn :
  length sid = 16%nat -> bytes_ok sid -> 0 <= gno ->
  handle_gtid (mkGtidEvent flag sid gno lt (Some lc) sn) = Ok (OperationGtid (uuid_text sid) (str_of_Z gno) lc).
Proof.
  intros Hl Hok Hg. unfold handle_gtid, ge_gtid. cbn [ge_sid ge_gno ge_last_committed].
  change (":" ++ str_of_Z gno)%string with (String ":" (str_of_Z gno)).
  rewrite split_on_app by (apply sid_ok_no_char; [done|done|by apply uuid_text_ok]).
  by rewrite split_on_word by (apply is_number_no_char; [done|by apply is_number_dec]).
Qed.

Section decoding.
Context (ctx : event_context) (verify : bool).
Hypothesis Hfilters : ec_filters ctx = rc_filters c.
Hypothesis Hfreeze : ec_freeze_schema ctx = false.
Hypothesis Hmeta : ec_optional_meta_data ctx = true.
Hypothesis Hdbms : ec_dbms ctx = get_dbms sv.

(** Events made by a reader of the whole body. *)
Lemma decodes_simple tm ty body ops e (m : PM P (event P)) :
  parses m body e ->
  construct_body ctx (class_of ty) verify (zlen body) tm = (x ← m; mret (Some x, tm)) ->
  handle_event set_order cd ignore_decode_errors json_depth e = Ok ops ->
  class_of_event e = class_of ty -> table_map_after e tm = tm ->
  decodes ctx verify tm ty body ops tm.
Proof.
  intros Hp Hc Hh Hcl Htm w crc _ Hb _ _ Hs. destruct (Hp w crc Hb Hs) as (w' & E & _ & _ & _ & Hh').
  exists e, tm, w'. by rewrite Hc, st_bind_eq, E.
Qed.

Lemma decodes_rows tm cls tid tb flags n bitmap bitmap2 images expected ops :
  cls <> CPartialUpdate ->
  0 <= tid < 2 ^ 48 -> 0 <= flags < 2 ^ 16 -> 0 <= n < 2 ^ 24 -> zlen bitmap = (n + 7) / 8 ->
  bitmap2 = second_bitmap cls bitmap2 -> (cls = CUpdate -> zlen bitmap2 = (n + 7) / 8) ->
  dict_get tm tid = Some tb -> filtered (rc_filters c) (schema tb) (table tb) = false ->
  NoDup (column_keys 0 (columns tb)) ->
  Forall2 (fun bs rs => bs <> [] /\ row_bytes_of cd ignore_decode_errors json_depth cls (columns tb) bitmap bitmap2 bs rs)
    images expected ->
  mapM_result (row_operation (mkRowsEvent cls tid (schema tb) (table tb) (primary_key tb) flags n (columns tb) bitmap bitmap2))
    expected = Ok ops ->
  decodes ctx verify tm (rows_type cls) (rows_header tid flags n bitmap bitmap2 ++ concat images) ops tm.
Proof.
  intros Hcls Htid Hfl Hn Hbm Hb2 Hb2l Htm Hfi Hnd HF Hops w crc _ Hb Hr Hty Hs. rewrite <- app_assoc in Hs.
  destruct (rows_header_read cls (rc_filters c) tm tid tb flags n bitmap bitmap2 w (concat images ++ crc)
    Hcls Htid Hfl Hn Hbm Hb2 Hb2l Htm Hfi Hty Hb Hs) as (w' & E & Hb' & Hs' & Hr' & Hh').
  set (e := mkRowsEvent _ _ _ _ _ _ _ _ _ _) in *.
  destruct (rows_parsed cd ignore_decode_errors json_depth e (event_type w') images expected (mkRowst w' [] []) crc
    Hnd HF Hb' Hs') as (l & s' & El & Hl & _).
  rewrite Hr, Z.add_0_l in Hr'.
  exists (ERows e (mkRowst w' [] []) (zlen (rows_header tid flags n bitmap bitmap2 ++ concat images))), tm, w'.
  split; [|split; [done|split; [|split; [by destruct cls|done]]]].
  - destruct cls; [| | |done]; cbn [rows_type] in *;
      change (class_of BINLOG.DELETE_ROWS_EVENT_V2) with DeleteRowsEventC;
      change (class_of BINLOG.WRITE_ROWS_EVENT_V2) with WriteRowsEventC;
      change (class_of BINLOG.UPDATE_ROWS_EVENT_V2) with UpdateRowsEventC;
      cbn [construct_body]; rewrite Hfilters, st_bind_eq, E; done.
  - rewrite zlen_app, <- Hr'. cbn [rs_packet] in El.
    assert (handle_rows cd ignore_decode_errors json_depth e (mkRowst w' [] []) (read_bytes w' + zlen (concat images)) (row_handler e)
      = Ok ops) as Hh.
    { unfold handle_rows. cbn [rs_packet]. rewrite El. cbn [fst mbind result_bind].
      by rewrite row_handler_operation, Hl. }
    clear -Hh Hcls. unfold row_handler in Hh. cbn [handle_event]. by destruct cls.
Qed.

Lemma decodes_table_map tm tid flags sb tb schema table defs null_mask fields m cols :
  event_ok (P:=P) tid flags sb tb schema table defs null_mask ->
  filtered (rc_filters c) schema table = false ->
  meta_steps (P:=P) (map type (map snd defs)) (get_dbms sv) empty_meta fields m ->
  sync_column_info true (get_dbms sv) m tid schema table (map snd defs) = Ok (cols, make_table tid schema table cols true) ->
  decodes ctx verify tm BINLOG.TABLE_MAP_EVENT (table_map_bytes tid flags sb tb defs null_mask fields) []
    (dict_set tm tid (make_table tid schema table cols true)).
Proof.
  intros (Htid & Hfl & [Hsb Htb] & [Hs Ht] & [Hn Hmb] & Hdefs & Hnull) Hfilt Hsteps Hsync w crc Hcrc Hb _ _ Hw.
  destruct (table_map_parsed (rc_filters c) false (get_dbms sv) tm tid flags sb tb schema table defs null_mask fields m cols _ true crc
    Htid Hfl Hsb Htb Hs Ht Hn Hmb Hdefs Hnull Hcrc (andb_false_r _) Hfilt Hsteps Hsync w Hb Hw) as (w' & E & _ & _ & _ & Hh).
  eexists _, _, w'. split; [|split; [exact Hh|split; [|split]]].
  - change (class_of BINLOG.TABLE_MAP_EVENT) with TableMapEventC. cbn [construct_body].
    rewrite Hfilters, Hfreeze, Hmeta, Hdbms, st_bind_eq, E. reflexivity.
  - done.
  - done.
  - cbn [table_map_after tm_table_id tm_table_obj]. apply dict_set_twice.
Qed.

Lemma carries_decodes tm ty body ops tm' :
  carries (ec_mysql_version ctx) tm ty body ops tm' -> decodes ctx verify tm ty body ops tm'.
Proof.
  destruct 1.
  - eapply (decodes_simple _ _ _ _ _ (g ← read_gtid_event (ec_mysql_version ctx); mret (EGtid g))).
    + eapply parses_bind_pure; [by apply (gtid_event_parsed flag gno lt lc sn sid (ec_mysql_version ctx))|].
      intros ?. reflexivity.
    + done.
    + cbn [handle_event]. by rewrite gtid_handled by (done || lia).
    + done.
    + done.
  - eapply (decodes_simple _ _ _ _ _ (q ← read_query_event _; mret (EQuery q))).
    + eapply parses_bind_pure; [by apply query_event_parsed|]. intros ?. reflexivity.
    + done.
    + done.
    + done.
    + done.
  - eapply (decodes_simple _ _ _ _ _ (x ← read_xid; mret (EXid x))).
    + eapply parses_bind_pure; [by apply (parses_uint 8 8)|]. intros ?. reflexivity.
    + done.
    + done.
    + done.
    + done.
  - by eapply decodes_table_map.
  - by eapply decodes_rows.
Qed.
End decoding.

(** ** The stream *)

(** A packet as the server sends it, with a checksum. *)
Definition sends (p : P) (ts pos ty : Z) (body : bytes) : Prop :=
  exists sid fl crc, pk_position p = 0 /\ pk_data p = frame ts ty sid (19 + zlen body + zlen crc) pos fl body crc /\
    u32 ts /\ 0 <= ty < 256 /\ u32 sid /\ u32 (19 + zlen body + zlen crc) /\ u32 pos /\ pos <> 0 /\ 0 <= fl < 65536 /\
    bytes_ok body /\ bytes_ok crc /\ zlen crc = 4.

(** A connected reader of a server with checksums and full row metadata. *)
Definition ready (rd : reader) : Prop :=
  connected_stream rd = true /\ connected_ctl rd = true /\ past_end rd = false /\
  use_checksum rd = true /\ optional_meta_data rd = true.

Hypothesis Hend : true_int (rc_end_log_pos c) = None.
Hypothesis Hskip : true_int (rc_skip_to_timestamp c) = None.
Hypothesis Hfreeze : rc_freeze_schema c = false.
Hypothesis Hallowed : [GtidEventC; QueryEventC; XidEventC; TableMapEventC; WriteRowsEventC; UpdateRowsEventC; DeleteRowsEventC] ⊆ allowed.

Lemma carries_class version tm ty body ops tm' :
  carries version tm ty body ops tm' ->
  class_of ty ∈ allowed /\ ty <> BINLOG.ROTATE_EVENT /\ class_of ty <> HeartbeatLogEventC /\ class_of ty <> FormatDescriptionEventC.
Proof.
  assert (forall cls, cls ∈ [GtidEventC; QueryEventC; XidEventC; TableMapEventC; WriteRowsEventC; UpdateRowsEventC; DeleteRowsEventC]
    -> cls ∈ allowed) as Hin by (intros cls; apply Hallowed).
  destruct 1 as [| | | |cls]; [..|destruct cls; [..|done]];
    (split; [apply Hin, (bool_decide_unpack _); vm_compute; exact I|split; [done|split; by vm_compute]]).
Qed.

Lemma fetch_packet p ts pos ty body ops tm' rest rd :
  ready rd -> sends p ts pos ty body -> carries (mysql_version rd) (rd_table_map rd) ty body ops tm' ->
  exists e, fetchone c sv allowed (InPacket p :: rest) rd =
      (Ok (FEvent ts e, rest), set_table_map tm' (set_log_pos (Some pos) rd)) /\
    handle_event set_order cd ignore_decode_errors json_depth e = Ok ops /\ is_heartbeat_event e = false.
Proof.
  intros (Hcs & Hcc & Hpe & Huc & Hom) (sid & fl & crc & Hp & Hd & Hts & Hty & Hsid & Hsize & Hpos & Hpos0 & Hfl & Hbo & Hco & Hcrc) Hcar.
  destruct (carries_class _ _ _ _ _ _ Hcar) as (Hcl & Hnr & Hnh & Hnf).
  set (ctx := context_of c sv allowed rd).
  destruct (wrap_packet_opened ctx (rd_table_map rd) p ts ty sid pos fl body crc) as (w & Ho & Ew);
    [done..|by cbn; rewrite Huc|done|done|].
  destruct Ho as (Hs & Hr & Hb & Hts' & Hty' & _ & _ & Hpos' & _).
  destruct (carries_decodes ctx (ec_use_checksum ctx && ec_verify_checksum ctx) eq_refl Hfreeze Hom eq_refl _ _ _ _ _ Hcar w crc
    Hcrc Hb Hr Hty' Hs) as (e & tm1 & w' & Ec & Hh & He & Hce & Htm).
  destruct Hh as (Ht2 & Hty2 & _ & _ & Hpos2 & _).
  exists e. split; [|split; [done|]].
  2:{ by destruct e. }
  assert (handle_packet c sv allowed p rd = (Ok (Some (ts, e)), set_table_map tm' (set_log_pos (Some pos) rd))) as E.
  { unfold handle_packet. rewrite st_bind_eq. cbn [st_get]. fold ctx. rewrite st_bind_eq. unfold st_lift. rewrite Ew. unfold event_from.
    rewrite bool_decide_eq_true_2 by (unfold ctx; cbn; unfold allowed_in_packet; set_solver). rewrite Ec.
    rewrite st_bind_eq. cbn [st_modify]. rewrite st_bind_eq. unfold update_position. rewrite Hty2, Hty', Hpos2, Hpos'.
    rewrite (proj2 (Z.eqb_neq _ _) Hnr), (proj2 (Z.eqb_neq _ _) Hpos0). cbn [st_modify].
    rewrite st_bind_eq. unfold check_end. rewrite Hend. cbn [mret ST_ret]. unfold skipped. rewrite Hskip.
    rewrite bool_decide_eq_true_2 by (by rewrite Hce). subst tm'. rewrite Ht2, Hts'.
    by destruct e. }
  cbn [fetchone]. rewrite st_bind_eq. cbn [st_get]. rewrite Hpe, Hcs, Hcc. cbn [mret ST_ret].
  rewrite !st_bind_eq. cbn [mret ST_ret]. rewrite !st_bind_eq. cbn [mret ST_ret]. by rewrite st_bind_eq, E.
Qed.

(** A sequence of packets with the timestamp, the end position and the
    operations of each; the tables a row event refers to are those of the
    last table map events before it. *)
Inductive transmission (version : list Z) : dict Z Table -> list P -> list (Z * Z * list operation) -> Prop :=
  | transmission_nil tm : transmission version tm [] []
  | transmission_cons tm p ts pos ty body ops tm' ps l :
      sends p ts pos ty body -> carries version tm ty body ops tm' ->
      transmission version tm' ps l -> transmission version tm (p :: ps) ((ts, pos, ops) :: l).

(** The items yielded: each operation with the binlog file and the end
    position of the event before. *)
Fixpoint expected_items (file : option string) (prev : option Z) (l : list (Z * Z * list operation)) : list item :=
  match l with
  | [] => []
  | (ts, pos, ops) :: rest => map (fun o => (file, prev, ts, o)) ops ++ expected_items file (Some pos) rest
  end.

Lemma expected_operations file prev l : map snd (expected_items file prev l) = mjoin (map snd l).
Proof.
  revert prev. induction l as [|[[ts pos] ops] l IH]; intros prev; [done|].
  cbn [expected_items map mjoin list_join snd]. rewrite map_app, IH, map_map. cbn. by rewrite map_id.
Qed.

Lemma stream_loop_items fuel ps l rd lc :
  (length ps < fuel)%nat -> ready rd -> transmission (mysql_version rd) (rd_table_map rd) ps l ->
  fst (stream_loop set_order cd ignore_decode_errors json_depth c sv allowed fuel (map InPacket ps ++ [InEof]) rd lc) =
  map Ok (expected_items (log_file rd) (lc_log_pos lc) l).
Proof.
  intros Hf Hrd Htr. remember (mysql_version rd) as version eqn:Hv. remember (rd_table_map rd) as tm eqn:Ht.
  revert fuel rd lc Hf Hrd Hv Ht.
  induction Htr as [tm|tm p ts pos ty body ops tm' ps l Hp Hc Htr IH]; intros fuel rd lc Hf Hrd -> ->;
    (destruct fuel as [|fuel]; [cbn in Hf; lia|]).
  - destruct Hrd as (Hcs & Hcc & Hpe & _). cbn [map app stream_loop fetchone].
    rewrite st_bind_eq. cbn [st_get]. rewrite Hpe, Hcs, Hcc, !st_bind_eq. done.
  - cbn [map app stream_loop]. cbn [length] in Hf.
    destruct (fetch_packet p ts pos ty body ops tm' (map InPacket ps ++ [InEof]) rd Hrd Hp Hc) as (e & -> & He & Hh).
    set (rd' := set_table_map tm' (set_log_pos (Some pos) rd)).
    set (lc' := mkLocals (Some (log_file rd)) (Some pos) (Some pos)).
    assert (handle_item set_order cd ignore_decode_errors json_depth rd' ts e lc =
      (map (fun o => Ok (log_file rd, lc_log_pos lc, ts, o)) ops, Some lc')) as ->.
    { unfold handle_item. rewrite He, Hh. by destruct ops. }
    specialize (IH fuel rd' lc' ltac:(lia) Hrd eq_refl eq_refl).
    destruct (stream_loop set_order cd ignore_decode_errors json_depth c sv allowed fuel _ rd' lc') as [more rd''].
    cbn [fst] in *. rewrite IH. cbn [expected_items]. by rewrite map_app, map_map.
Qed.

Lemma operation_stream_items ps l rd :
  ready rd -> transmission (mysql_version rd) (rd_table_map rd) ps l ->
  fst (operation_stream set_order cd ignore_decode_errors json_depth c sv allowed (map InPacket ps ++ [InEof]) rd) =
  map Ok (expected_items (log_file rd) (Some 4) l).
Proof.
  intros Hrd Htr. unfold operation_stream. apply stream_loop_items; [|done|done].
  rewrite length_app, length_map. cbn. lia.
Qed.

(** From bytes to operations: for any sequence of GTID, query, XID, table
    map and row event packets, with their headers and checksums, sent to a
    connected reader, [operation_stream] yields exactly the operations the
    events stand for, in order - row events decoded with the columns of the
    last table map event of their table - each with the timestamp of its
    event, the current binlog file and the end position of the event before
    it (4 at the start). *)
Theorem operation_stream_correct ps l rd :
  ready rd -> transmission (mysql_version rd) (rd_table_map rd) ps l ->
  fst (operation_stream set_order cd ignore_decode_errors json_depth c sv allowed (map InPacket ps ++ [InEof]) rd) =
  map Ok (expected_items (log_file rd) (Some 4) l).
Proof. apply operation_stream_items. Qed.

(** From bytes to the target: when the packets a source sends are those of
    the transactions [ts], and the target accepts their statements, the
    synchronisation loop over the operation stream returns without error and
    has committed on the target exactly the statements of these transactions,
    once and in order, after whatever was committed before, with nothing left
    pending. *)
Theorem replication_correct {C : Type} `{TargetLaws C} `{!TargetHealthy C} (now : nat -> Z) (cfg : settings)
    ps l rd ts (s : sync C) :
  ready rd -> transmission (mysql_version rd) (rd_table_map rd) ps l -> mjoin (map snd l) = stream_of ts ->
  Forall trx_fine ts -> healthy (con (mc s)) -> metric_wf (metric_of s) -> client_inv (mc s) -> sopen s = [] ->
  (allow_commit s = true \/ allow_checkpoint s = true -> latest_position s <> None) ->
  exists s', Sync.run now cfg
      (fst (operation_stream set_order cd ignore_decode_errors json_depth c sv allowed (map InPacket ps ++ [InEof]) rd)) s
      = (Ok false, s') /\
    sdone s' = sdone s ++ effect cfg ts /\ sopen s' = [].
Proof.
  intros Hrd Htr Hops Hts Hh Hm Hi Ho Hp. rewrite (operation_stream_items ps l rd Hrd Htr).
  apply run_total; try done. by rewrite expected_operations.
Qed.
End packets.

(** ** A transaction

    The row [(7, 8)] inserted into [d.t], sent as five packets. *)

Definition ex_config : reader_config :=
  mkReaderConfig 1 false false None None true None None None (Some "") no_filters false None None None None None false false true.
Definition ex_server : server := mkServer (Some "CRC32") None (Some "FULL") "8.0.30".
Definition ex_allowed : list event_class := default [] (match allowed_event_list None None true with Ok l => Some l | Err _ => None end).
Definition ex_reader : reader := mkReader true true true true [] (Some 4) (Some "binlog.1") false [8; 0; 30] [].

Definition ex_body_gtid : bytes := encode_gtid_event 1 ex_sid_bytes 23 2 5 6.
Definition ex_body_begin : bytes := encode_query_event 9 0 0 [] [100] (bytes_of_string "BEGIN").
Definition ex_body_map : bytes := table_map_bytes 42 1 [100] [116] ex_defs [2] ex_fields.
Definition ex_image : bytes := [0; 7; 0; 0; 0; 8; 0; 0; 0].
Definition ex_body_rows : bytes := rows_header 42 1 2 [3] [] ++ concat [ex_image].

Definition ex_send (ts pos ty : Z) (body : bytes) : list_packet :=
  lp_start (frame ts ty 1 (19 + zlen body + 4) pos 0 body [0; 0; 0; 0]).

Definition ex_packets : list list_packet :=
  [ex_send 100 200 0x21 ex_body_gtid; ex_send 100 300 0x02 ex_body_begin; ex_send 100 400 0x13 ex_body_map;
   ex_send 100 500 0x1E ex_body_rows; ex_send 100 600 0x10 (le_encode 8 77)].

Definition ex_insert : OperationDML := OperationDMLInsert "d" "t" [("id", VInt 7); ("n", VInt 8)] (PkStr "id").
Definition ex_uuid : string := "57b70f4e-20d3-11e5-a393-4a63946f7eac".
Definition ex_log : list (Z * Z * list operation) :=
  [(100, 200, [OperationGtid ex_uuid "23" 5]); (100, 300, [OperationBegin]); (100, 400, []);
   (100, 500, [OpDML ex_insert]); (100, 600, [OperationCommit])].

Definition ex_cols : list Column :=
  match sync_column_info true "mysql" ex_meta 42 "d" "t" (map snd ex_defs) with Ok (l, _) => l | Err _ => [] end.

Lemma ex_sends ts pos ty body :
  u32 ts -> 0 <= ty < 256 -> u32 (23 + zlen body) -> u32 pos -> pos <> 0 -> bytes_ok body ->
  sends (ex_send ts pos ty body) ts pos ty body.
Proof.
  intros ? ? ? ? ? ?. exists 1, 0, [0; 0; 0; 0]. change (zlen [0; 0; 0; 0]) with 4. unfold u32 in *.
  repeat split; try lia; try done. repeat constructor; unfold byte_ok; lia.
Qed.

Lemma ex_carries_rows :
  carries (P:=list_packet) no_codecs false 10 (fun l => l) ex_config ex_server [8; 0; 30]
    [(42, make_table 42 "d" "t" ex_cols true)] 0x1E ex_body_rows [OpDML ex_insert]
    [(42, make_table 42 "d" "t" ex_cols true)].
Proof.
  apply (carries_rows no_codecs false 10 _ ex_config ex_server [8; 0; 30] _ CWrite 42 (make_table 42 "d" "t" ex_cols true) 1 2 [3] []
    [ex_image] [[[("id", VInt 7); ("n", VInt 8)]]]); try done.
  - apply (bool_decide_unpack _). vm_compute. exact I.
  - repeat constructor; [done|]. eexists. split; [|done].
    exists [0], [Value [7; 0; 0; 0] (VInt 7); Value [8; 0; 0; 0] (VInt 8)].
    repeat split; try reflexivity; try (repeat constructor; unfold byte_ok; lia); try (cbn; lia).
    repeat constructor; cbn [cell_ok].
    + apply (cell_int _ _ _ _ 4 7); [reflexivity|]. cbn. lia.
    + apply (cell_int _ _ _ _ 4 8); [reflexivity|]. cbn. lia.
Qed.

Lemma ex_transmission :
  transmission (P:=list_packet) no_codecs false 10 (fun l => l) ex_config ex_server [8; 0; 30] [] ex_packets ex_log.
Proof.
  eapply transmission_cons; [apply ex_sends; vm_compute; repeat constructor; done| |].
  { apply (carries_gtid no_codecs false 10 _ ex_config ex_server _ _ 1 ex_sid_bytes 23 2 5 6); try done; try lia.
    apply (bool_decide_unpack _). vm_compute. exact I. }
  eapply transmission_cons; [apply ex_sends; vm_compute; repeat constructor; done| |].
  { apply (carries_query no_codecs false 10 _ ex_config ex_server _ _ 9 0 0 [] [100] (bytes_of_string "BEGIN") "BEGIN"); try done; try lia.
    constructor. }
  eapply transmission_cons; [apply ex_sends; vm_compute; repeat constructor; done| |].
  { apply (carries_table_map no_codecs false 10 _ ex_config ex_server _ _ 42 1 [100] [116] "d" "t" ex_defs [2] ex_fields ex_meta ex_cols);
      [apply ex_event_ok|done|apply ex_steps|vm_compute; reflexivity]. }
  eapply transmission_cons; [apply ex_sends; vm_compute; repeat constructor; done|apply ex_carries_rows|].
  eapply transmission_cons; [apply ex_sends; vm_compute; repeat constructor; done| |constructor].
  apply carries_xid. lia.
Qed.

Lemma ex_allowed_ok :
  [GtidEventC; QueryEventC; XidEventC; TableMapEventC; WriteRowsEventC; UpdateRowsEventC; DeleteRowsEventC] ⊆ ex_allowed.
Proof. intros x Hx. revert x Hx. apply Forall_forall, (bool_decide_unpack _). vm_compute. exact I. Qed.

Lemma operation_stream_correct_witness :
  fst (operation_stream (fun l => l) no_codecs false 10 ex_config ex_server ex_allowed (map InPacket ex_packets ++ [InEof]) ex_reader)
  = map Ok [((Some "binlog.1", Some 4), 100, OperationGtid ex_uuid "23" 5);
            ((Some "binlog.1", Some 200), 100, OperationBegin);
            ((Some "binlog.1", Some 400), 100, OpDML ex_insert);
            ((Some "binlog.1", Some 500), 100, OperationCommit)].
Proof.
  apply (operation_stream_correct no_codecs false 10 (fun l => l) ex_config ex_server ex_allowed eq_refl eq_refl eq_refl ex_allowed_ok
    ex_packets ex_log ex_reader); [done|apply ex_transmission].
Defined.

Lemma replication_correct_witness :
  exists s', Sync.run ex_clock ex_merge
      (fst (operation_stream (fun l => l) no_codecs false 10 ex_config ex_server ex_allowed (map InPacket ex_packets ++ [InEof]) ex_reader))
      (ex_state []) = (Ok false, s') /\
    sdone s' = [ADml "REPLACE INTO `d`.`t`(id, n) VALUES(%s,%s)" [VInt 7; VInt 8]] /\ sopen s' = [].
Proof.
  destruct (replication_correct no_codecs false 10 (fun l => l) ex_config ex_server ex_allowed eq_refl eq_refl eq_refl ex_allowed_ok
    ex_clock ex_merge ex_packets ex_log ex_reader [TDml ex_uuid "23" 5 [ex_insert]] (ex_state [])) as (s' & E & D & O).
  - by repeat split.
  - apply ex_transmission.
  - reflexivity.
  - repeat constructor; by eexists.
  - reflexivity.
  - reflexivity.
  - split; cbn; [lia|done].
  - reflexivity.
  - by intros [|].
  - exists s'. split; [exact E|]. split; [|exact O]. rewrite D. vm_compute. reflexivity.
Defined.

(** A heartbeat before any other event finds [log_file] unbound. *)
Example heartbeat_first :
  fst (operation_stream (fun l => l) no_codecs false 10 ex_config ex_server ex_allowed
    [InPacket (ex_send 0 200 0x1B (bytes_of_string "binlog.1"))] ex_reader) = [Err UnboundLocalError].
Proof. vm_compute. reflexivity. Qed.

(** Row events of a partial JSON update are read and then dropped. *)
Example partial_update_dropped s size :
  handle_event (P:=list_packet) (fun l => l) no_codecs false 10
    (ERows (mkRowsEvent CPartialUpdate 42 "d" "t" (PkStr "id") 0 2 ex_cols [3] [3]) s size) = Ok [].
Proof. reflexivity. Qed.
