(* ===== verification/Converge.v ===== *)
(** * The target's tables are the source's

    The statements the program commits, executed as SQL: a database is a map
    from tables to rows, the source changes it by transactions of row changes
    and DDL statements, and the target applies the texts it is sent.  The
    theorems compare the two databases up to the tables that are excluded from
    replication: whatever fails, the target is always in a state the source
    had between two transactions, and a healthy run ends in the state the
    source has. *)

From stdpp Require Import base list strings sets gmap.
From Stdlib Require Import ZArith Lia Ascii.
From S2P Require Import Prelude PyBytes PyStr Values UtilBytes Packet Column Sql SqlText Metric Checkpoint Client Sync SyncLive Ddl RowValues RowsEvent RowCells TableMap TableMapEvent Dispatch Stream Replication EndToEnd.
Open Scope string_scope.
Open Scope Z_scope.

(** ** Databases *)

Record relation := mkRelation { rel_key : list string; rel_cols : list string; rel_rows : list row }.

(** The rows of a table are in no order. *)
Definition rel_eq (r r' : relation) : Prop :=
  rel_key r = rel_key r' /\ rel_cols r = rel_cols r' /\ rel_rows r ≡ₚ rel_rows r'.

#[export] Instance rel_eq_equivalence : Equivalence rel_eq.
Proof.
  split.
  - done.
  - by intros r r' (H1 & H2 & H3).
  - intros r1 r2 r3 (H1 & H2 & H3) (H4 & H5 & H6). split; [by rewrite H1|]. split; [by rewrite H2|by rewrite H3].
Qed.

Definition with_rows (l : list row) (r : relation) : relation := mkRelation (rel_key r) (rel_cols r) l.

(** Tables by schema and name. *)
Abbreviation db := (gmap (string * string) relation) (only parsing).

Definition stmt_table (s : stmt) : string * string :=
  match s with SReplace sc t _ | SDelete sc t _ | SUpdate sc t _ _ => (sc, t) end.
Definition dml_name (o : OperationDML) : string * string := (dml_schema o, dml_table o).

(** Steps of a labelled transition system, one after the other. *)
Inductive path {S L : Type} (next : S -> L -> S -> Prop) : S -> list L -> S -> Prop :=
  | path_nil s : path next s [] s
  | path_cons s x s1 l s2 : next s x s1 -> path next s1 l s2 -> path next s (x :: l) s2.

Lemma path_app_inv {S L} (next : S -> L -> S -> Prop) l1 l2 s s2 :
  path next s (l1 ++ l2)%list s2 -> exists s1, path next s l1 s1 /\ path next s1 l2 s2.
Proof.
  revert s. induction l1 as [|x l1 IH]; intros s Hp; cbn in Hp; [exists s; split; [constructor|done]|].
  inversion Hp as [|? ? s1 ? ? Hx Hl]; subst. destruct (IH _ Hl) as (s3 & H1 & H2).
  exists s3. split; [by econstructor|done].
Qed.

(** A simulation of every step is a simulation of every path. *)
Lemma path_simulation {S L T} (next : S -> L -> S -> Prop) (f : L -> T -> T) (R : S -> T -> Prop) :
  (forall s x s' t, next s x s' -> R s t -> R s' (f x t)) ->
  forall l s s' t, path next s l s' -> R s t -> R s' (foldl (fun t x => f x t) t l).
Proof.
  intros Hstep l s s' t Hp. revert t. induction Hp as [|s x s1 l s2 Hx Hl IH]; intros t HR; [done|].
  cbn. apply IH. by eapply Hstep.
Qed.

Section databases.
(** The target's comparison of values and reserved words, the settings, and
    the effect of a DDL statement. *)
Context (veq : pyval -> pyval -> bool) (reserved : string -> bool) (cfg : settings) (ddl : string -> db -> db).

(** *** Executing what is sent *)

Definition exec_on (s : stmt) (d : db) : db :=
  match d !! stmt_table s with
  | Some r => <[stmt_table s := with_rows (exec veq (rel_key r) s (rel_rows r)) r]> d
  | None => d
  end.

(** A text that is not a statement has no effect. *)
Definition apply_action (a : action) (d : db) : db :=
  match a with
  | ADml sql ps => match parse_sql reserved sql ps with Some s => exec_on s d | None => d end
  | ADdl q => ddl q d
  end.

Definition apply_actions (l : list action) (d : db) : db := foldl (fun d a => apply_action a d) d l.

Lemma apply_actions_app l1 l2 d : apply_actions (l1 ++ l2)%list d = apply_actions l2 (apply_actions l1 d).
Proof. apply foldl_app. Qed.

(** *** Agreement on the replicated tables *)

Definition excluded_table (n : string * string) : bool :=
  match dict_get (exclude_tables cfg) n.1 with Some ts => bool_decide (n.2 ∈ ts) | None => false end.

Lemma excluded_name o : excluded cfg o = excluded_table (dml_name o).
Proof. done. Qed.

Definition agree (d e : db) : Prop := forall n, excluded_table n = false -> option_Forall2 rel_eq (d !! n) (e !! n).

#[export] Instance agree_equivalence : Equivalence agree.
Proof.
  split.
  - by intros d n.
  - intros d e H n Hn. symmetry. by apply H.
  - intros d e f H1 H2 n Hn. etrans; [by apply H1|by apply H2].
Qed.

#[export] Instance exec_perm key s : Proper ((≡ₚ) ==> (≡ₚ)) (exec veq key s).
Proof.
  intros l l' Hl. destruct s; cbn [exec]; [by rewrite Hl|by rewrite Hl|]. by apply Permutation_map.
Qed.

#[export] Instance exec_on_agree s : Proper (agree ==> agree) (exec_on s).
Proof.
  intros d e Hde n Hn. destruct (decide (n = stmt_table s)) as [->|Hne].
  - specialize (Hde _ Hn) as H. unfold exec_on. inversion H as [r r' (Hk & Hc & Hr) E1 E2|E1 E2]; [|by rewrite <- E1, <- E2].
    rewrite !lookup_insert_eq. constructor. split; [done|]. split; [done|]. cbn. by rewrite Hk, Hr.
  - assert (forall d, exec_on s d !! n = d !! n) as Ho.
    { intros d0. unfold exec_on. destruct (d0 !! stmt_table s); [by rewrite lookup_insert_ne|done]. }
    rewrite !Ho. by apply Hde.
Qed.

Lemma agree_insert_excluded n r d : excluded_table n = true -> agree (<[n := r]> d) d.
Proof. intros Hx m Hm. rewrite lookup_insert_ne; [done|]. intros ->. congruence. Qed.

(** *** Tables with a primary key *)

(** Neither row has the key of the other. *)
Definition apart (key : list string) (a b : row) : Prop :=
  same_key veq key a b = false /\ same_key veq key b a = false.

Definition row_ok (r : relation) (x : row) : Prop := dict_keys x = rel_cols r /\ keyed (rel_key r) x.

Record wf_relation (r : relation) : Prop := {
  wf_cols : NoDup (rel_cols r) /\ rel_cols r <> [] /\ Forall (column_name reserved) (rel_cols r);
  wf_rows : Forall (row_ok r) (rel_rows r);
  wf_keys : ForallOrdPairs (apart (rel_key r)) (rel_rows r)
}.

(** Every replicated table is well formed. *)
Definition wf_db (d : db) : Prop :=
  forall n r, excluded_table n = false -> d !! n = Some r -> any_name n.1 /\ any_name n.2 /\ wf_relation r.

Lemma apart_middle key (x : row) (l1 l2 : list row) :
  ForallOrdPairs (apart key) (l1 ++ x :: l2)%list <->
  Forall (apart key x) (l1 ++ l2)%list /\ ForallOrdPairs (apart key) (l1 ++ l2)%list.
Proof.
  induction l1 as [|y l1 IH]; cbn.
  - split; [by inversion 1|intros [??]; by constructor].
  - rewrite Forall_cons. split.
    + inversion 1 as [|? ? Hy Hl]; subst. apply Forall_app in Hy as [Hy1 [Hy Hy2]%Forall_cons].
      apply IH in Hl as [Hx Hl]. split; [split; [split; by apply Hy|done]|]. constructor; [by apply Forall_app|done].
    + intros [[Hxy Hx] Hl]. inversion Hl as [|? ? Hy Hl']; subst. constructor; [|by apply IH].
      apply Forall_app in Hy as [Hy1 Hy2]. apply Forall_app. split; [done|]. constructor; [split; by apply Hxy|done].
Qed.

(** *** What the source does *)

(** A row change of a table, with the columns of its key in the event. *)
Inductive change : OperationDML -> relation -> relation -> Prop :=
  | change_insert sc t x pk r :
      names_key pk (rel_key r) -> row_ok r x -> Forall (apart (rel_key r) x) (rel_rows r) ->
      change (OperationDMLInsert sc t x pk) r (with_rows (rel_rows r ++ [x])%list r)
  | change_delete sc t x pk r l1 l2 :
      names_key pk (rel_key r) -> rel_rows r = (l1 ++ x :: l2)%list ->
      change (OperationDMLDelete sc t x pk) r (with_rows (l1 ++ l2)%list r)
  | change_update sc t a x pk r l1 l2 :
      names_key pk (rel_key r) -> rel_rows r = (l1 ++ x :: l2)%list -> row_ok r a -> Forall (apart (rel_key r) a) (l1 ++ l2)%list ->
      change (OperationDMLUpdate sc t a x pk) r (with_rows (l1 ++ a :: l2)%list r).

(** Excluded tables change in any way. *)
Inductive source_step : db -> OperationDML -> db -> Prop :=
  | step_replicated d o r r' :
      excluded cfg o = false -> d !! dml_name o = Some r -> change o r r' -> source_step d o (<[dml_name o := r']> d)
  | step_excluded d o r' : excluded cfg o = true -> source_step d o (<[dml_name o := r']> d).

(** A DDL statement leaves well-formed tables, and what it does to the
    replicated ones does not depend on the others. *)
Definition ddl_local (q : string) : Prop :=
  Proper (agree ==> agree) (ddl q) /\ forall d, wf_db d -> wf_db (ddl q d).

Inductive source_trx : db -> trx -> db -> Prop :=
  | source_dml d u x lc ops d' : path source_step d ops d' -> source_trx d (TDml u x lc ops) d'
  | source_ddl d u x lc ty sch tab q : ddl_local q -> source_trx d (TDdl u x lc ty sch tab q) (ddl q d)
  | source_idle d : source_trx d TIdle d.

(** The source went through the transactions, from the first database to the
    second. *)
Definition history (d : db) (ts : list trx) (d' : db) : Prop := path source_trx d ts d'.

(** ** Replaying *)

Hypothesis veq_refl : forall v, is_null v = false -> veq v v = true.

Lemma apart_same_key key x l : Forall (apart key x) l -> Forall (fun y => same_key veq key y x = false) l.
Proof. intros Hl. eapply Forall_impl; [exact Hl|]. intros y [_ H]. exact H. Qed.

(** A change keeps the table well formed. *)
Lemma change_wf o r r' : change o r r' -> wf_relation r -> wf_relation r'.
Proof.
  intros Hch [Hc Hr Hk]. destruct Hch as [sc t x pk r Hpk Hx Ha|sc t x pk r l1 l2 Hpk E|sc t a x pk r l1 l2 Hpk E Ha Hap];
    (split; [done| |]); cbn [with_rows rel_rows rel_key].
  - apply Forall_app. split; [done|]. by constructor.
  - apply apart_middle. by rewrite app_nil_r.
  - rewrite E in Hr. apply Forall_app in Hr as [H1 [_ H2]%Forall_cons]. by apply Forall_app.
  - rewrite E in Hk. by apply apart_middle in Hk as [_ Hk].
  - rewrite E in Hr. apply Forall_app in Hr as [H1 [_ H2]%Forall_cons]. apply Forall_app. split; [done|]. by constructor.
  - rewrite E in Hk. apply apart_middle in Hk as [_ Hk]. by apply apart_middle.
Qed.

(** The row of a delete or an update is in the table, under its own key. *)
Lemma member_facts r x l1 l2 :
  wf_relation r -> rel_rows r = (l1 ++ x :: l2)%list ->
  row_ok r x /\ Forall (fun y => same_key veq (rel_key r) y x = false) (l1 ++ l2)%list.
Proof.
  intros [_ Hr Hk] E. rewrite E in Hr, Hk. apply Forall_app in Hr as [_ [Hx _]%Forall_cons].
  apply apart_middle in Hk as [Ha _]. split; [done|]. by apply apart_same_key.
Qed.

(** The statement of a change has the change's effect. *)
Lemma change_replayed o r r' :
  change o r r' -> wf_relation r ->
  exists s, statement o = Ok s /\ stmt_table s = dml_name o /\ with_rows (exec veq (rel_key r) s (rel_rows r)) r = r'.
Proof.
  intros Hch Hwf. destruct Hch as [sc t x pk r Hpk Hx Ha|sc t x pk r l1 l2 Hpk E|sc t a x pk r l1 l2 Hpk E Ha Hap].
  - exists (SReplace sc t x). rewrite replay_insert by (by apply apart_same_key). done.
  - destruct (member_facts r x l1 l2 Hwf E) as [[_ Hkx] HF].
    destruct (replay_delete veq (rel_key r) pk sc t x veq_refl Hpk Hkx l1 l2 HF) as (s & Hs & He).
    exists s. rewrite E, He. split; [done|]. cbn in Hs. by inv_ok.
  - destruct (member_facts r x l1 l2 Hwf E) as [[Hcx Hkx] HF]. pose proof (wf_cols r Hwf) as (Hnd & _).
    destruct (replay_update veq (rel_key r) pk sc t x veq_refl Hpk Hkx a l1 l2 HF) as (s & Hs & He);
      [by rewrite Hcx|by rewrite Hcx; apply Ha|].
    exists s. rewrite E, He. split; [done|]. cbn in Hs. by inv_ok.
Qed.

Lemma row_ok_names r x : wf_relation r -> row_ok r x -> row_names reserved x.
Proof.
  intros Hwf [Hc _]. destruct (wf_cols r Hwf) as (_ & Hne & Hn). unfold row_names. unfold dict_keys in Hc. rewrite Hc.
  split; [|done]. intros ->. by rewrite <- Hc in Hne.
Qed.

Lemma change_names o r r' :
  change o r r' -> wf_relation r -> any_name (dml_schema o) -> any_name (dml_table o) -> op_names reserved o.
Proof.
  intros Hch Hwf Hs Ht. split; [done|]. split; [done|].
  destruct Hch as [sc t x pk r Hpk Hx Ha|sc t x pk r l1 l2 Hpk E|sc t a x pk r l1 l2 Hpk E Ha Hap].
  - by eapply row_ok_names.
  - eapply row_ok_names; [done|]. by eapply member_facts.
  - split; eapply row_ok_names; try done. by eapply member_facts.
Qed.

(** Source and target: well formed, and equal on the replicated tables. *)
Definition in_step (d e : db) : Prop := wf_db d /\ agree d e.

(** What the target is sent for an operation. *)
Definition op_actions (o : OperationDML) : list action := if excluded cfg o then [] else dml_action o.

(** The text of a change, executed. *)
Lemma change_applied o r r' :
  change o r r' -> wf_relation r -> any_name (dml_schema o) -> any_name (dml_table o) ->
  exists s, statement o = Ok s /\ stmt_table s = dml_name o /\ with_rows (exec veq (rel_key r) s (rel_rows r)) r = r' /\
    forall e, apply_actions (dml_action o) e = exec_on s e.
Proof.
  intros Hch Hw Hs Ht. destruct (change_replayed o r r' Hch Hw) as (s & Es & Hst & He).
  exists s. split; [done|]. split; [done|]. split; [done|]. intros e.
  destruct (text_denotes reserved o s (change_names o r r' Hch Hw Hs Ht) Es) as [E1 E2].
  unfold dml_action. rewrite E1. destruct (render s) as [sql ps]. cbn in E2 |- *. by rewrite E2.
Qed.

Lemma source_step_replayed d o d' e : source_step d o d' -> in_step d e -> in_step d' (apply_actions (op_actions o) e).
Proof.
  intros Hstep [Hwf Hag]. unfold op_actions.
  destruct Hstep as [d o r r' Hx Hr Hch|d o r' Hx]; rewrite Hx; rewrite excluded_name in Hx.
  - destruct (Hwf _ _ Hx Hr) as (Hs & Ht & Hw).
    destruct (change_applied o r r' Hch Hw Hs Ht) as (s & Es & Hst & He & ->). split.
    + intros n r0 Hn. destruct (decide (n = dml_name o)) as [->|Hne].
      * rewrite lookup_insert_eq. intros [= <-]. split; [done|]. split; [done|]. by eapply change_wf.
      * rewrite lookup_insert_ne by done. by apply Hwf.
    + rewrite <- Hag. unfold exec_on. by rewrite Hst, Hr, He.
  - split; [|cbn; rewrite <- Hag; by apply agree_insert_excluded].
    intros n r0 Hn. rewrite lookup_insert_ne by (intros <-; congruence). by apply Hwf.
Qed.

Lemma source_step_wf d o d' : source_step d o d' -> wf_db d -> wf_db d'.
Proof. intros Hs Hwf. by apply (source_step_replayed d o d' d Hs). Qed.

Lemma apply_dml_actions ops e :
  apply_actions (dml_actions cfg ops) e = foldl (fun e o => apply_actions (op_actions o) e) e ops.
Proof.
  unfold dml_actions. revert e. induction ops as [|o ops IH]; intros e; [done|].
  cbn [map]. unfold mjoin. cbn [list_join]. rewrite apply_actions_app. apply IH.
Qed.

Lemma source_trx_replayed d t d' e : source_trx d t d' -> in_step d e -> in_step d' (apply_actions (actions_of cfg t) e).
Proof.
  intros Ht Hin. destruct Ht as [d u x lc ops d' Hp|d u x lc ty sch tab q [Hpr Hw]|d]; [| |done].
  - cbn [actions_of]. rewrite apply_dml_actions.
    by eapply (path_simulation source_step (fun o => apply_actions (op_actions o)) in_step source_step_replayed).
  - cbn. destruct Hin as [Hwf Hag]. split; [by apply Hw|by apply Hpr].
Qed.

Lemma history_replayed d ts d' e : history d ts d' -> in_step d e -> in_step d' (apply_actions (effect cfg ts) e).
Proof.
  intros Hh Hin. assert (apply_actions (effect cfg ts) e = foldl (fun e t => apply_actions (actions_of cfg t) e) e ts) as ->.
  { clear. unfold effect. revert e. induction ts as [|t ts IH]; intros e; [done|].
    cbn [map]. unfold mjoin. cbn [list_join]. rewrite apply_actions_app. apply IH. }
  by eapply (path_simulation source_trx (fun t => apply_actions (actions_of cfg t)) in_step source_trx_replayed).
Qed.
End databases.

(** ** The replica *)

Section replica.
Context {C : Type} `{TargetLaws C}.
Context (veq : pyval -> pyval -> bool) (reserved : string -> bool) (cfg : settings) (ddl : string -> db -> db) (now : nat -> Z).
Hypothesis veq_refl : forall v, is_null v = false -> veq v v = true.

(** The database of the target: what it has committed, executed from [e0]. *)
Definition target_db (e0 : db) (s : sync C) : db := apply_actions veq reserved ddl (sdone s) e0.

End replica.

Section bytes_to_tables.
Context {P : Type} `{MysqlPacketLaws P} `{UnicodeTables} {C : Type} `{TargetLaws C} `{!TargetHealthy C}.
Context (cd : codecs) (ignore_decode_errors : bool) (json_depth : nat) (set_order : list string -> list string).
Context (c : reader_config) (sv : server) (allowed : list event_class).
Context (veq : pyval -> pyval -> bool) (reserved : string -> bool) (cfg : settings) (ddl : string -> db -> db) (now : nat -> Z).
Hypothesis veq_refl : forall v, is_null v = false -> veq v v = true.
Hypothesis Hend : true_int (rc_end_log_pos c) = None.
Hypothesis Hskip : true_int (rc_skip_to_timestamp c) = None.
Hypothesis Hfreeze : rc_freeze_schema c = false.
Hypothesis Hallowed : [GtidEventC; QueryEventC; XidEventC; TableMapEventC; WriteRowsEventC; UpdateRowsEventC; DeleteRowsEventC] ⊆ allowed.

(** The replica converges: when the packets the source sends are those of
    the transactions its database went through, and the target accepts what
    it is sent, the program run on these packets returns without error and
    executing the SQL texts the target has committed gives a database that
    agrees with the source's on every replicated table. *)
Theorem replica_converges (ps : list P) (l : list (Z * Z * list operation)) (rd : reader) (ts : list trx) (d d' e0 : db) (s : sync C) :
  ready rd ->
  transmission cd ignore_decode_errors json_depth set_order c sv (mysql_version rd) (rd_table_map rd) ps l ->
  mjoin (map snd l) = stream_of ts -> Forall trx_fine ts ->
  history veq reserved cfg ddl d ts d' -> wf_db veq reserved cfg d -> agree cfg d (target_db veq reserved ddl e0 s) ->
  healthy (con (mc s)) -> metric_wf (metric_of s) -> client_inv (mc s) -> sopen s = [] ->
  (allow_commit s = true \/ allow_checkpoint s = true -> latest_position s <> None) ->
  exists s', Sync.run now cfg
      (fst (operation_stream set_order cd ignore_decode_errors json_depth c sv allowed (map InPacket ps ++ [InEof])%list rd)) s
      = (Ok false, s') /\
    sopen s' = [] /\ agree cfg d' (target_db veq reserved ddl e0 s').
Proof.
  intros Hrd Htr Hops Hts Hh Hwf Hag Hhe Hm Hi Ho Hp.
  rewrite (operation_stream_items cd ignore_decode_errors json_depth set_order c sv allowed Hend Hskip Hfreeze Hallowed ps l rd Hrd Htr).
  destruct (run_total now cfg ts (expected_items (log_file rd) (Some 4) l) s) as (s' & E & Hd & Hopen); try done.
  { by rewrite expected_operations. }
  exists s'. split; [done|]. split; [done|]. unfold target_db in *. rewrite Hd, apply_actions_app.
  by eapply (history_replayed veq reserved cfg ddl veq_refl d ts d').
Qed.
End bytes_to_tables.

(** ** A replicated table

    The table [d.t] with the key [id], before and after the transaction of
    [EndToEnd]. *)

Definition ex_relation (rows : list row) : relation := mkRelation ["id"] ["id"; "n"] rows.
Definition ex_db (rows : list row) : db := {[("d", "t") := ex_relation rows]}.
Definition ex_old : list row := [[("id", VInt 1); ("n", VInt 2)]].
Definition ex_new : list row := (ex_old ++ [[("id", VInt 7); ("n", VInt 8)]])%list.
Definition ex_trx : trx := TDml ex_uuid "23" 5 [ex_insert].
Definition ex_ddl (q : string) (d : db) : db := d.

Lemma int_eq_refl v : is_null v = false -> int_eq v v = true.
Proof. destruct v; cbn; try done; intros _; [apply Z.eqb_refl|by apply bool_decide_eq_true_2]. Qed.

Lemma ex_row_ok a b rows : row_ok (ex_relation rows) [("id", VInt a); ("n", VInt b)].
Proof. split; [done|]. intros k Hk. apply list_elem_of_singleton in Hk as ->. by exists (VInt a). Qed.

Lemma ex_wf : wf_db int_eq ex_reserved ex_merge (ex_db ex_old).
Proof.
  intros n r _ Hr. unfold ex_db in Hr. apply lookup_singleton_Some in Hr as [<- <-]. split; [done|]. split; [done|]. split.
  - split; [apply (bool_decide_unpack _); vm_compute; exact I|]. split; [done|]. repeat constructor; done.
  - apply Forall_singleton, ex_row_ok.
  - repeat constructor.
Qed.

Lemma ex_history : history int_eq ex_reserved ex_merge ex_ddl (ex_db ex_old) [ex_trx] (ex_db ex_new).
Proof.
  eapply path_cons; [|constructor]. constructor. eapply path_cons; [|constructor].
  replace (ex_db ex_new) with (<[dml_name ex_insert := ex_relation ex_new]> (ex_db ex_old))
    by (unfold ex_db; apply insert_singleton_eq).
  eapply (step_replicated int_eq ex_merge _ ex_insert (ex_relation ex_old)); [done|apply lookup_singleton_eq|].
  apply (change_insert int_eq "d" "t" _ _ (ex_relation ex_old)); [done|apply ex_row_ok|].
  repeat constructor.
Qed.


Lemma replica_converges_witness :
  exists s', Sync.run ex_clock ex_merge
      (fst (operation_stream (fun l => l) no_codecs false 10 ex_config ex_server ex_allowed (map InPacket ex_packets ++ [InEof])%list ex_reader))
      (ex_state []) = (Ok false, s') /\
    sopen s' = [] /\ agree ex_merge (ex_db ex_new) (target_db int_eq ex_reserved ex_ddl (ex_db ex_old) s').
Proof.
  apply (replica_converges no_codecs false 10 (fun l => l) ex_config ex_server ex_allowed int_eq ex_reserved ex_merge ex_ddl ex_clock
    int_eq_refl eq_refl eq_refl eq_refl ex_allowed_ok ex_packets ex_log ex_reader [ex_trx] (ex_db ex_old)).
  - by repeat split.
  - apply ex_transmission.
  - reflexivity.
  - repeat constructor; by eexists.
  - apply ex_history.
  - apply ex_wf.
  - intros n _. reflexivity.
  - reflexivity.
  - reflexivity.
  - split; cbn; [lia|done].
  - reflexivity.
  - by intros [|].
Defined.
