(* ===== verification/Replay.v ===== *)
(** * Replaying what was replayed before

    A restart begins again at an earlier position, so the target receives row
    changes it already holds.  The statements of [dmlOperation2Sql] tolerate
    that: a row is written whole by REPLACE and found by its key.  The file
    follows the rows with one key through a sequence of row changes and shows
    that a target in which every row is as it was at some later moment is
    brought to the last state by replaying from an earlier one, as long as no
    update changes the key of a row. *)

From stdpp Require Import base list strings sets gmap.
From Stdlib Require Import ZArith Lia Ascii.
From S2P Require Import Prelude PyBytes PyStr Values UtilBytes Packet Column Sql SqlText Metric Checkpoint Client Sync Converge.
Open Scope string_scope.
Open Scope Z_scope.

(** The comparison of values by the target's [=]: an equivalence on values that
    are not NULL. *)
Class ValueEquality (veq : pyval -> pyval -> bool) : Prop := {
  value_refl : forall v, is_null v = false -> veq v v = true;
  value_sym : forall v w, veq v w = true -> veq w v = true;
  value_trans : forall u v w, veq u v = true -> veq v w = true -> veq u w = true
}.

Section rows.
Context (veq : pyval -> pyval -> bool) `{!ValueEquality veq} (key : list string).

Abbreviation same := (same_key veq key).

Lemma same_sym a b : same a b = true -> same b a = true.
Proof.
  unfold same_key. rewrite !forallb_forall. intros Hall k Hk. specialize (Hall k Hk).
  destruct (dict_get a k) as [x|], (dict_get b k) as [y|]; try done. unfold sql_true in *.
  rewrite !andb_true_iff in *. destruct Hall as [[? ?] ?]. repeat split; try done. by apply value_sym.
Qed.

Lemma same_trans a b c : same a b = true -> same b c = true -> same a c = true.
Proof.
  unfold same_key. rewrite !forallb_forall. intros H1 H2 k Hk. specialize (H1 k Hk). specialize (H2 k Hk).
  destruct (dict_get a k) as [x|], (dict_get b k) as [y|], (dict_get c k) as [z|]; try done. unfold sql_true in *.
  rewrite !andb_true_iff in *. destruct H1 as [[? ?] ?], H2 as [[? ?] ?]. repeat split; try done. by eapply value_trans.
Qed.

(** Rows of the same key have the same key as any third one. *)
Lemma same_class a b c : same a b = true -> same a c = same b c.
Proof.
  intros H. destruct (same a c) eqn:E1, (same b c) eqn:E2; try done.
  - by rewrite (same_trans b a c (same_sym _ _ H) E1) in E2.
  - by rewrite (same_trans a b c H E2) in E1.
Qed.

(** The rows with the key of [y]. *)
Definition sel (y : row) (l : list row) : list row := filter (fun z => same z y = true) l.

Lemma sel_app y l1 l2 : sel y (l1 ++ l2)%list = (sel y l1 ++ sel y l2)%list.
Proof. apply filter_app. Qed.

(** *** The three statements *)

Lemma sel_filter (p : row -> bool) y l :
  sel y (filter (fun z => p z = false) l) = filter (fun z => p z = false) (sel y l).
Proof. unfold sel. rewrite !list_filter_filter. apply list_filter_iff. tauto. Qed.

Lemma sel_same y l : Forall (fun z => same z y = true) (sel y l).
Proof. apply Forall_forall. intros z Hz. by apply list_elem_of_filter in Hz as [? _]. Qed.

(** Removing the rows with the key of [x]. *)
Lemma sel_remove x y l :
  sel y (filter (fun z => same z x = false) l) = if same x y then [] else sel y l.
Proof.
  rewrite sel_filter. destruct (same x y) eqn:E.
  - apply filter_nothing. eapply Forall_impl; [apply sel_same|]. intros z Hz. cbn in *. by rewrite (same_trans z y x Hz (same_sym _ _ E)).
  - apply filter_all. eapply Forall_impl; [apply sel_same|]. intros z Hz. cbn in *. destruct (same z x) eqn:E2; [|done].
    by rewrite (same_class z x y E2), E in Hz.
Qed.

(** Replacing them by [a], which has their key. *)
Lemma sel_replace a x y l :
  same a x = true -> sel y (map (fun z => if same z x then a else z) l) = if same x y then map (fun _ => a) (sel y l) else sel y l.
Proof.
  intros Ha. unfold sel. induction l as [|z l IH]; [by destruct (same x y)|]. cbn [map]. rewrite !filter_cons, IH.
  destruct (same z x) eqn:Ez.
  - rewrite (same_class a x y Ha), (same_class z x y Ez). by destruct (same x y).
  - destruct (same x y) eqn:Exy; [|done]. case_decide as Hz; [|done].
    by rewrite (same_trans z y x Hz (same_sym _ _ Exy)) in Ez.
Qed.

(** What an operation does to the rows with the key of [y]. *)
Definition sel_effect (o : OperationDML) (y : row) (l : list row) : list row :=
  match o with
  | OperationDMLInsert _ _ x _ => if same x y then [x] else l
  | OperationDMLDelete _ _ x _ => if same x y then [] else l
  | OperationDMLUpdate _ _ a x _ => if same x y then map (fun _ => a) l else l
  end.

(** An update that keeps the key of its row. *)
Definition keeps_key (o : OperationDML) : Prop :=
  match o with OperationDMLUpdate _ _ a x _ => same a x = true | _ => True end.

(** Effects are idempotent: applied to rows that are there already, or to
    those of a later moment, they give the rows after the operation or leave
    them missing. *)
Lemma sel_effect_again o y (before l : list row) :
  (length l <= 1)%nat -> length before = 1%nat \/ (match o with OperationDMLUpdate _ _ _ x _ => same x y = false | _ => True end) ->
  sel_effect o y l = sel_effect o y before \/ sel_effect o y l = l.
Proof.
  intros Hl Hb. destruct o as [sc t x pk|sc t x pk|sc t a x pk]; cbn in *; destruct (same x y); auto.
  destruct Hb as [Hb|]; [|done]. destruct l as [|z [|]]; cbn in *; [by right| |lia]. left.
  by destruct before as [|b [|]].
Qed.
End rows.

(** ** One table *)

Section table.
Context (veq : pyval -> pyval -> bool) `{!ValueEquality veq} (reserved : string -> bool).

(** A statement acts on the rows of each key as its operation does. *)
Lemma exec_sel o s r r' l y :
  change veq o r r' -> wf_relation veq reserved r -> keeps_key veq (rel_key r) o -> statement o = Ok s ->
  Forall (fun z => dict_keys z = rel_cols r) l ->
  sel veq (rel_key r) y (exec veq (rel_key r) s l) = sel_effect veq (rel_key r) o y (sel veq (rel_key r) y l).
Proof.
  intros Hch Hwf Hkk Hs Hl.
  destruct Hch as [sc t x pk r Hpk Hx Ha|sc t x pk r l1 l2 Hpk E|sc t a x pk r l1 l2 Hpk E Ha Hap]; cbn in Hs.
  - injection Hs as <-. cbn [exec sel_effect]. rewrite sel_app, sel_remove by done. unfold sel at 2.
    rewrite filter_cons, filter_nil. destruct (same_key veq (rel_key r) x y); [done|]. by rewrite decide_False, app_nil_r.
  - destruct (member_facts veq reserved r x l1 l2 Hwf E) as [[_ Hk] _].
    destruct (conditions_key pk (rel_key r) x Hpk Hk) as (c & Ec & HF). rewrite Ec in Hs. injection Hs as <-.
    cbn [exec sel_effect]. rewrite <- sel_remove by done. f_equal. apply list_filter_iff. intros z.
    by rewrite (where_same_key veq (rel_key r) c x z HF).
  - destruct (member_facts veq reserved r x l1 l2 Hwf E) as [[Hcx Hk] _].
    destruct (conditions_key pk (rel_key r) x Hpk Hk) as (c & Ec & HF). rewrite Ec in Hs. injection Hs as <-.
    cbn [exec sel_effect]. rewrite <- (sel_replace veq (rel_key r) a x y l Hkk). f_equal. apply map_ext_Forall.
    eapply Forall_impl; [exact Hl|]. intros z Hz. cbn. rewrite (where_same_key veq (rel_key r) c x z HF).
    destruct (same_key veq (rel_key r) z x); [|done]. apply assign_all.
    + rewrite Hz. apply (wf_cols _ _ _ Hwf).
    + rewrite Hz. apply Ha.
Qed.

(** It leaves rows of the table's columns with non-null keys. *)
Lemma exec_rows_ok o s r r' l :
  change veq o r r' -> wf_relation veq reserved r -> statement o = Ok s ->
  Forall (row_ok r) l -> Forall (row_ok r) (exec veq (rel_key r) s l).
Proof.
  intros Hch Hwf Hs Hl.
  destruct Hch as [sc t x pk r Hpk Hx Ha|sc t x pk r l1 l2 Hpk E|sc t a x pk r l1 l2 Hpk E Ha Hap]; cbn in Hs.
  - injection Hs as <-. cbn. apply Forall_app. split; [by apply Forall_filter|]. by constructor.
  - destruct (conditions pk x) as [c|]; [|done]. injection Hs as <-. cbn. by apply Forall_filter.
  - destruct (conditions pk x) as [c|]; [|done]. injection Hs as <-. cbn. apply Forall_map.
    eapply Forall_impl; [exact Hl|]. intros z Hz. cbn. destruct (where_holds veq c z); [|done].
    rewrite assign_all; [done| |]; rewrite (proj1 Hz); [apply (wf_cols _ _ _ Hwf)|apply Ha].
Qed.

(** A well-formed table has one row of a key at most. *)
Lemma sel_one r y : wf_relation veq reserved r -> (length (sel veq (rel_key r) y (rel_rows r)) <= 1)%nat.
Proof.
  intros [_ _ Hk]. unfold sel. induction Hk as [|z l Hz Hk IH]; [cbn; lia|].
  rewrite filter_cons. case_decide as E; [|done]. cbn.
  assert (filter (fun z0 => same_key veq (rel_key r) z0 y = true) l = []) as ->; [|cbn; lia].
  apply filter_nothing. eapply Forall_impl; [exact Hz|]. intros w [Hw _] Hwy.
  by rewrite (same_trans veq (rel_key r) z y w E (same_sym veq (rel_key r) w y Hwy)) in Hw.
Qed.

(** Tables with the same rows of every key are equal. *)
Lemma sel_all_eq r (l : list row) :
  wf_relation veq reserved r -> Forall (row_ok r) l ->
  (forall y, sel veq (rel_key r) y l = sel veq (rel_key r) y (rel_rows r)) -> rel_rows r ≡ₚ l.
Proof.
  intros Hwf Hl Heq. assert (forall z l, row_ok r z -> z ∈ l <-> z ∈ sel veq (rel_key r) z l) as Hin.
  { intros z l0 [_ Hz]. unfold sel. rewrite list_elem_of_filter.
    rewrite (same_key_refl veq (rel_key r) value_refl z Hz). naive_solver. }
  assert (forall l, Forall (row_ok r) l -> (forall y, (length (sel veq (rel_key r) y l) <= 1)%nat) -> NoDup l) as Hnd.
  { clear Hl Heq l. induction 1 as [|z l Hz HF IH]; intros Hone; [constructor|]. constructor.
    - intros Hzl. apply (Hin z l Hz) in Hzl. specialize (Hone z). unfold sel in Hone, Hzl. rewrite filter_cons_True in Hone
        by (apply same_key_refl; [apply value_refl|apply Hz]). cbn in Hone.
      destruct (filter _ l); [by apply not_elem_of_nil in Hzl|cbn in Hone; lia].
    - apply IH. intros y. specialize (Hone y). unfold sel in *. rewrite filter_cons in Hone. case_decide; cbn in Hone; lia. }
  pose proof (wf_rows _ _ _ Hwf) as Hr. apply NoDup_Permutation.
  - apply Hnd; [done|]. intros y. by apply sel_one.
  - apply Hnd; [done|]. intros y. rewrite Heq. by apply sel_one.
  - intros z. rewrite Forall_forall in Hr, Hl. split; intros Hz.
    + apply (Hin z l (Hr z Hz)). rewrite Heq. by apply (proj1 (Hin z _ (Hr z Hz))).
    + apply (Hin z _ (Hl z Hz)). rewrite <- Heq. by apply (proj1 (Hin z _ (Hl z Hz))).
Qed.
End table.

(** ** Databases *)

(** The states a path goes through. *)
Lemma path_states {S L} (next : S -> L -> S -> Prop) l s s' :
  path next s l s' ->
  exists f : nat -> S, f 0%nat = s /\ f (length l) = s' /\ forall i x, l !! i = Some x -> next (f i) x (f (Datatypes.S i)).
Proof.
  induction 1 as [s|s x s1 l s2 Hx Hl (f & H0 & H1 & Hf)]; [by exists (fun _ => s)|].
  exists (fun i => match i with O => s | Datatypes.S j => f j end). split; [done|]. split; [done|].
  intros [|i] y Hy; cbn in Hy; [by injection Hy as <-; rewrite H0|by apply Hf].
Qed.

Section databases.
Context (veq : pyval -> pyval -> bool) `{!ValueEquality veq} (reserved : string -> bool) (cfg : settings) (ddl : string -> db -> db).

(** A row change that keeps the keys of a replicated table. *)
Definition key_kept (d : db) (o : OperationDML) : Prop :=
  forall r, excluded cfg o = false -> d !! dml_name o = Some r -> keeps_key veq (rel_key r) o.
Definition kept_step (d : db) (o : OperationDML) (d' : db) : Prop := source_step veq cfg d o d' /\ key_kept d o.

Definition shape (n : string * string) (d : db) : option (list string * list string) :=
  (fun r => (rel_key r, rel_cols r)) <$> d !! n.

(** The rows of a table with the key of [y]. *)
Definition key_rows (n : string * string) (y : row) (d : db) : list row :=
  match d !! n with Some r => sel veq (rel_key r) y (rel_rows r) | None => [] end.

Definition rows_ok (n : string * string) (d : db) : Prop := forall r, d !! n = Some r -> Forall (row_ok r) (rel_rows r).

(** What an operation does to them. *)
Definition op_rows (k : option (list string * list string)) (n : string * string) (y : row) (o : OperationDML) (l : list row) : list row :=
  if decide (excluded cfg o = false /\ n = dml_name o)
  then match k with Some (key, _) => sel_effect veq key o y l | None => l end else l.

Lemma op_rows_here key c y o l : excluded cfg o = false -> op_rows (Some (key, c)) (dml_name o) y o l = sel_effect veq key o y l.
Proof. intros Hx. unfold op_rows. by rewrite decide_True. Qed.
Lemma op_rows_other k n y o l : excluded cfg o = true \/ n <> dml_name o -> op_rows k n y o l = l.
Proof. intros Hx. unfold op_rows. rewrite decide_False; [done|]. intros [Hx' Hn]. destruct Hx; congruence. Qed.

Lemma key_rows_one n y d : excluded_table cfg n = false -> wf_db veq reserved cfg d -> (length (key_rows n y d) <= 1)%nat.
Proof.
  intros Hn Hwf. unfold key_rows. destruct (d !! n) as [r|] eqn:E; [|cbn; lia].
  eapply sel_one; [done|]. by apply (Hwf n r Hn E).
Qed.

(** A database in agreement with a well-formed one has the same rows. *)
Lemma agree_rows d e n :
  wf_db veq reserved cfg d -> agree cfg d e -> excluded_table cfg n = false ->
  shape n e = shape n d /\ rows_ok n e /\ forall y, key_rows n y e = key_rows n y d.
Proof.
  intros Hwf Hag Hn. pose proof (fun y => key_rows_one n y d Hn Hwf) as Hone. specialize (Hag n Hn).
  assert (forall r, d !! n = Some r -> Forall (row_ok r) (rel_rows r)) as Hok by (intros r Hr; by apply (Hwf n r Hn Hr)).
  unfold shape, rows_ok, key_rows in *.
  inversion Hag as [r r' (Hk & Hc & Hr) E1 E2|E1 E2]; rewrite <- E1 in Hone, Hok; cbn; [|done].
  rewrite Hk, Hc. split; [done|]. split.
  - intros ? [= <-]. specialize (Hok r eq_refl). rewrite Hr in Hok. eapply Forall_impl; [exact Hok|].
    intros z [H1 H2]. split; [by rewrite <- Hc|by rewrite <- Hk].
  - intros y. specialize (Hone y). rewrite <- Hk.
    assert (sel veq (rel_key r) y (rel_rows r) ≡ₚ sel veq (rel_key r) y (rel_rows r')) as Hp by (unfold sel; by rewrite Hr).
    destruct (sel veq (rel_key r) y (rel_rows r)) as [|z [|]].
    + by apply Permutation_nil_l in Hp.
    + by apply Permutation_singleton_l in Hp.
    + cbn in Hone. lia.
Qed.

(** What the target is sent acts on the rows of every key as the operation. *)
Lemma target_rows d o d' e n :
  kept_step d o d' -> wf_db veq reserved cfg d -> excluded_table cfg n = false -> shape n e = shape n d -> rows_ok n e ->
  let e' := apply_actions veq reserved ddl (op_actions cfg o) e in
  shape n e' = shape n d /\ rows_ok n e' /\ forall y, key_rows n y e' = op_rows (shape n d) n y o (key_rows n y e).
Proof.
  intros [Hst Hkk] Hwf Hn Hsh Hok. unfold op_actions.
  destruct Hst as [d o r r' Hx Hr Hch|d o r' Hx]; rewrite Hx.
  2: { split; [done|]. split; [done|]. intros y. rewrite op_rows_other; [done|by left]. }
  pose proof Hx as Hxn. rewrite excluded_name in Hxn. destruct (Hwf _ _ Hxn Hr) as (Hs & Ht & Hw).
  destruct (change_applied veq reserved ddl value_refl o r r' Hch Hw Hs Ht) as (s & Es & Hst & _ & ->).
  unfold exec_on. rewrite Hst. destruct (decide (n = dml_name o)) as [->|Hne].
  - unfold shape, rows_ok, key_rows in *. rewrite Hr in Hsh |- *. cbn in Hsh |- *.
    destruct (e !! dml_name o) as [re|] eqn:Ee; [|done]. cbn in Hsh. injection Hsh as Hk Hc.
    specialize (Hok re eq_refl). rewrite lookup_insert_eq. cbn [with_rows rel_key rel_rows rel_cols fmap option_fmap option_map].
    rewrite Hk, Hc. split; [done|]. assert (Forall (row_ok r) (rel_rows re)) as Hok'.
    { eapply Forall_impl; [exact Hok|]. intros z [H1 H2]. split; [by rewrite <- Hc|by rewrite <- Hk]. }
    split.
    + intros ? [= <-]. cbn. eapply Forall_impl; [by eapply exec_rows_ok|]. intros z [H1 H2].
      split; cbn; [by rewrite Hc|by rewrite Hk].
    + intros y. rewrite op_rows_here by done. eapply exec_sel; try done; [by apply Hkk|]. eapply Forall_impl; [exact Hok'|]. by intros z [? _].
  - unfold shape, rows_ok, key_rows in *.
    destruct (e !! dml_name o); [rewrite lookup_insert_ne by done|]; (split; [done|]; split; [done|]; intros y;
      rewrite op_rows_other; [done|by right]).
Qed.

(** The source's rows change by the operation. *)
Lemma source_rows d o d' n :
  kept_step d o d' -> wf_db veq reserved cfg d -> excluded_table cfg n = false ->
  shape n d' = shape n d /\ forall y, key_rows n y d' = op_rows (shape n d) n y o (key_rows n y d).
Proof.
  intros Hst Hwf Hn. assert (rows_ok n d) as Hok by (intros r Hr; by apply (Hwf n r Hn Hr)).
  destruct (target_rows d o d' d n Hst Hwf Hn eq_refl Hok) as (Hsh & _ & Hrows).
  destruct (source_step_replayed veq reserved cfg ddl value_refl d o d' d (proj1 Hst)) as [Hwf' Hag]; [done|].
  destruct (agree_rows d' _ n Hwf' Hag Hn) as (Hsh' & _ & Hrows'). split; [congruence|]. intros y. by rewrite <- Hrows', Hrows.
Qed.

(** An update acts on a row that is there. *)
Lemma op_rows_again d o d' n y (l : list row) :
  kept_step d o d' -> wf_db veq reserved cfg d -> excluded_table cfg n = false -> (length l <= 1)%nat ->
  op_rows (shape n d) n y o l = key_rows n y d' \/ op_rows (shape n d) n y o l = l.
Proof.
  intros Hst Hwf Hn Hl. rewrite (proj2 (source_rows d o d' n Hst Hwf Hn) y). pose proof (key_rows_one n y d Hn Hwf) as Hone.
  unfold op_rows, shape, key_rows in *. case_decide as E; [|by right]. destruct E as [Hx ->].
  destruct Hst as [Hst _]. destruct Hst as [d o r r' _ Hr Hch|]; [|congruence]. rewrite Hr in *. cbn.
  apply sel_effect_again; [done|]. destruct Hch as [sc t x pk r Hpk Hx' Ha|sc t x pk r l1 l2 Hpk E|sc t a x pk r l1 l2 Hpk E Ha Hap];
    [by right|by right|]. destruct (same_key veq (rel_key r) x y) eqn:Es; [left|by right].
  rewrite E in Hone |- *. unfold sel in *. rewrite filter_app, length_app, filter_cons_True in * by done. cbn in *. lia.
Qed.

(** *** Catching up *)

Section catching_up.
(** The states [f 0], [f 1], ... of a source that makes the changes [ops]. *)
Context (f : nat -> db) (ops : list OperationDML).
Hypothesis Hf : forall i o, ops !! i = Some o -> kept_step (f i) o (f (S i)).
Hypothesis Hwf0 : wf_db veq reserved cfg (f 0).

Lemma states_wf i : (i <= length ops)%nat -> wf_db veq reserved cfg (f i).
Proof.
  induction i as [|i IH]; intros Hi; [done|]. destruct (lookup_lt_is_Some_2 ops i) as [o Ho]; [lia|].
  eapply (source_step_wf veq reserved cfg ddl value_refl); [apply (Hf i o Ho)|apply IH; lia].
Qed.

(** Every row of the target is as it was in the source after the first [m]
    changes or later. *)
Definition caught (m : nat) (e : db) : Prop :=
  forall n, excluded_table cfg n = false ->
    shape n e = shape n (f m) /\ rows_ok n e /\
    forall y, exists q, (m <= q <= length ops)%nat /\ key_rows n y e = key_rows n y (f q).

Lemma caught_here m e : (m <= length ops)%nat -> agree cfg (f m) e -> caught m e.
Proof.
  intros Hm Hag n Hn. destruct (agree_rows (f m) e n (states_wf m Hm) Hag Hn) as (H1 & H2 & H3).
  split; [done|]. split; [done|]. intros y. exists m. by split; [lia|].
Qed.

Lemma shape_back m i n : (i <= m <= length ops)%nat -> excluded_table cfg n = false -> shape n (f m) = shape n (f i).
Proof.
  intros Him Hn. induction m as [|m IH]; [by replace i with 0%nat by lia|].
  destruct (decide (i = S m)) as [->|Hne]; [done|]. destruct (lookup_lt_is_Some_2 ops m) as [o Ho]; [lia|].
  rewrite <- IH by lia. by apply (source_rows (f m) o (f (S m)) n (Hf m o Ho)); [apply states_wf; lia|].
Qed.

(** A restart from an earlier position. *)
Lemma caught_back m i e : (i <= m <= length ops)%nat -> caught m e -> caught i e.
Proof.
  intros Him Hc n Hn. destruct (Hc n Hn) as (H1 & H2 & H3). rewrite H1. split; [by apply shape_back|]. split; [done|].
  intros y. destruct (H3 y) as (q & Hq & Hr). exists q. by split; [lia|].
Qed.

Lemma caught_step m o e :
  ops !! m = Some o -> caught m e -> caught (S m) (apply_actions veq reserved ddl (op_actions cfg o) e).
Proof.
  intros Ho Hc n Hn. destruct (Hc n Hn) as (Hsh & Hok & Hrows). pose proof (Hf m o Ho) as Hst.
  pose proof (lookup_lt_Some _ _ _ Ho) as Hm. pose proof (states_wf m ltac:(lia)) as Hwf.
  destruct (target_rows (f m) o (f (S m)) e n Hst Hwf Hn Hsh Hok) as (Hsh' & Hok' & Hrows').
  destruct (source_rows (f m) o (f (S m)) n Hst Hwf Hn) as (Hsm & Hsr).
  split; [by rewrite Hsh'|]. split; [done|]. intros y. rewrite Hrows'. destruct (Hrows y) as (q & Hq & ->).
  destruct (decide (q = m)) as [->|Hne]; [exists (S m); split; [lia|by rewrite Hsr]|].
  destruct (op_rows_again (f m) o (f (S m)) n y (key_rows n y (f q)) Hst Hwf Hn) as [->| ->].
  - apply key_rows_one; [done|apply states_wf; lia].
  - exists (S m). by split; [lia|].
  - exists q. by split; [lia|].
Qed.

(** Replaying any number of changes from here. *)
Lemma caught_replay l m e :
  l `prefix_of` drop m ops -> caught m e ->
  caught (m + length l) (foldl (fun e o => apply_actions veq reserved ddl (op_actions cfg o) e) e l).
Proof.
  revert m e. induction l as [|o l IH]; intros m e [k Hk] Hc; [by rewrite Nat.add_0_r|].
  cbn [length foldl]. rewrite <- Nat.add_succ_comm. apply IH.
  - exists k. replace (S m) with (m + 1)%nat by lia. by rewrite <- drop_drop, Hk.
  - apply caught_step; [|done]. rewrite <- (Nat.add_0_r m), <- lookup_drop, Hk. done.
Qed.

(** At the end the target has the source's rows. *)
Lemma caught_up e : caught (length ops) e -> agree cfg (f (length ops)) e.
Proof.
  intros Hc n Hn. destruct (Hc n Hn) as (Hsh & Hok & Hrows). pose proof (states_wf (length ops) ltac:(lia)) as Hwf.
  assert (forall y, key_rows n y e = key_rows n y (f (length ops))) as Heq.
  { intros y. destruct (Hrows y) as (q & Hq & ->). by replace q with (length ops) by lia. }
  clear Hrows. unfold shape, rows_ok, key_rows in *.
  destruct (e !! n) as [re|] eqn:Ee, (f (length ops) !! n) as [r|] eqn:Er; cbn in Hsh; try done; constructor.
  injection Hsh as Hk Hcols. split; [done|]. split; [done|]. destruct (Hwf n r Hn Er) as (_ & _ & Hw).
  eapply (sel_all_eq veq reserved); [done| |intros y; specialize (Heq y); by rewrite Hk in Heq].
  eapply Forall_impl; [by apply Hok|]. intros z [H1 H2]. split; [by rewrite <- Hcols|by rewrite <- Hk].
Qed.
End catching_up.
End databases.
