(* ===== verification/Restart.v ===== *)
(** * Restarts

    [main.py] reads no checkpoint back, so every start requests the
    configured position again, and what the target held before is replayed.
    The theorem is that this converges: after any number of runs that end in
    any way, one complete run brings the target to the state of the source. *)

From stdpp Require Import base list strings sets gmap.
From Stdlib Require Import ZArith Lia Ascii.
From S2P Require Import Prelude PyBytes PyStr Values UtilBytes Packet Column Sql SqlText Metric Checkpoint Client Sync SyncLive SyncInv Converge Replay.
Open Scope string_scope.
Open Scope Z_scope.

(** ** Transactions of row changes *)

Definition trx_ops (t : trx) : list OperationDML := match t with TDml _ _ _ ops => ops | _ => [] end.
Definition all_ops (ts : list trx) : list OperationDML := mjoin (map trx_ops ts).

Definition is_row_trx (t : trx) : Prop := match t with TDdl _ _ _ _ _ _ _ => False | _ => True end.

(** Without the heartbeats, which come at different moments in every run. *)
#[export] Instance trx_idle_dec (t : trx) : Decision (t <> TIdle).
Proof. destruct t; [by left|by left|by right; intros []]. Defined.
Definition busy (ts : list trx) : list trx := filter (fun t => t <> TIdle) ts.

Lemma all_ops_app ts us : all_ops (ts ++ us) = (all_ops ts ++ all_ops us)%list.
Proof. unfold all_ops. rewrite map_app. apply join_app. Qed.

Lemma all_ops_cons t ts : all_ops (t :: ts) = (trx_ops t ++ all_ops ts)%list.
Proof. done. Qed.

Lemma all_ops_busy ts : all_ops (busy ts) = all_ops ts.
Proof.
  unfold busy. induction ts as [|t ts IH]; [done|]. rewrite filter_cons, all_ops_cons, <- IH.
  case_decide as E; [done|]. destruct t; [by exfalso; apply E|by exfalso; apply E|done].
Qed.

Lemma effect_ops cfg ts : Forall is_row_trx ts -> effect cfg ts = dml_actions cfg (all_ops ts).
Proof.
  induction 1 as [|t ts Ht HF IH]; [done|]. change (all_ops (t :: ts)) with (trx_ops t ++ all_ops ts)%list.
  rewrite dml_actions_app, <- IH. unfold effect. cbn. by destruct t.
Qed.

(** Part of what some changes send is what the first of them send. *)
Lemma dml_actions_prefix cfg acts ops :
  acts `prefix_of` dml_actions cfg ops -> exists l, l `prefix_of` ops /\ acts = dml_actions cfg l.
Proof.
  revert acts. induction ops as [|o ops IH]; intros acts Hp.
  { apply prefix_nil_inv in Hp as ->. by exists []. }
  destruct acts as [|a acts]; [exists []; split; [apply prefix_nil|done]|].
  rewrite (dml_actions_app cfg [o] ops : dml_actions cfg (o :: ops) = _) in Hp.
  assert (dml_actions cfg [o] = [] \/ exists x, dml_actions cfg [o] = [x]) as [E|[x E]].
  { unfold dml_actions, dml_action. cbn. rewrite app_nil_r. destruct (excluded cfg o); [by left|].
    destruct (dmlOperation2Sql o) as [[sql ps]|]; [right; by eexists|by left]. }
  - rewrite E in Hp. destruct (IH _ Hp) as (l & Hl & Hd). exists (o :: l). split; [by apply prefix_cons|].
    rewrite (dml_actions_app cfg [o] l : dml_actions cfg (o :: l) = _). by rewrite E.
  - rewrite E in Hp. cbn in Hp. apply prefix_cons_inv_1 in Hp as Hx. apply prefix_cons_inv_2 in Hp. subst a.
    destruct (IH _ Hp) as (l & Hl & ->). exists (o :: l). split; [by apply prefix_cons|].
    rewrite (dml_actions_app cfg [o] l : dml_actions cfg (o :: l) = _). by rewrite E.
Qed.

(** ** Whatever a run does *)

Section outcome.
Context {C : Type} `{TargetLaws C} (now : nat -> Z) (cfg : settings).
Implicit Types s : sync C.

(** What is committed and what is open is a part of [x], from its beginning. *)
Definition within (x : list action) s : Prop := client_inv (mc s) /\ (sdone s ++ sopen s)%list `prefix_of` x.

Lemma push_commit_within (c : client C) r (c' : client C) :
  client_inv c -> push_commit c = (r, c') ->
  client_inv c' /\ (done_of c' ++ open_of c')%list `prefix_of` (done_of c ++ open_of c)%list.
Proof.
  intros Hi Hr. destruct r as [[]|e].
  { apply push_commit_ok in Hr as (-> & -> & Hi'); [|done]. by rewrite app_nil_r. }
  unfold push_commit in Hr. rewrite st_bind_eq in Hr. cbn [st_get] in Hr. rewrite st_bind_eq in Hr.
  destruct Hi as [Hn Hp]. unfold done_of, open_of, on_con, client_inv in *.
  destruct (con_in_transaction (con c)); [|done].
  assert (forall c1 : C, (committed c1 = committed (con c) /\ (pending c1 = pending (con c) \/ pending c1 = [])) \/
    (committed c1 = (committed (con c) ++ pending (con c))%list /\ pending c1 = []) ->
    (0 <= dml_cnt c /\ (pending c1 <> [] -> 1 <= dml_cnt c)) /\
    (committed c1 ++ pending c1)%list `prefix_of` (committed (con c) ++ pending (con c))%list) as Hout.
  { intros c1 [[-> [->| ->]]|[-> ->]]; rewrite ?app_nil_r; (split; [split; [done|]; try done|]); try done. by apply prefix_app_r. }
  destruct (1 <=? dml_cnt c).
  - destruct (con_commit (con c)) as [[[]|e'] c1] eqn:E; [done|]. injection Hr as _ <-. cbn. by eapply Hout, commit_err.
  - destruct (con_rollback (con c)) as [[[]|e'] c1] eqn:E; [done|]. injection Hr as _ <-. cbn. apply rollback_same in E. auto.
Qed.

Lemma quiet_keeps {A} (m : ST (sync C) A) x : quiet m -> keeps (within x) m.
Proof.
  intros Hq s [Hi Hp]. specialize (Hq s). apply core_facts in Hq as (Hm & _). unfold within, sdone, sopen. by rewrite Hm.
Qed.

Lemma modify_keeps x f : (forall s, mc (f s) = mc s) -> keeps (within x) (st_modify f).
Proof. intros Hf. apply keeps_modify. intros s [Hi Hp]. unfold within, sdone, sopen. by rewrite Hf. Qed.

Lemma keeps_mc x (m : ST (client C) unit) :
  (forall c r c', client_inv c -> m c = (r, c') ->
    client_inv c' /\ (done_of c' ++ open_of c')%list `prefix_of` (done_of c ++ open_of c)%list) ->
  keeps (within x) (on_mc m).
Proof.
  intros Hm s [Hi Hp]. unfold on_mc. destruct (m (mc s)) as [r c'] eqn:E. destruct (Hm _ _ _ Hi E) as [Hi' Hp'].
  split; [done|]. by etrans.
Qed.

Lemma merge_commit_keeps x : keeps (within x) merge_commit.
Proof.
  unfold merge_commit. apply keeps_bind; [apply keeps_get|]. intros s0. case_match; [|apply keeps_ret].
  apply keeps_bind; [apply keeps_mc; apply push_commit_within|]. intros _.
  apply keeps_bind; [by apply modify_keeps|]. intros _. apply keeps_bind; [by apply modify_keeps|]. intros _. by apply modify_keeps.
Qed.

Lemma merge_commit_prefix s r s' : client_inv (mc s) -> merge_commit s = (r, s') -> sdone s `prefix_of` sdone s'.
Proof.
  intros Hi Hr. unfold merge_commit in Hr. rewrite st_bind_eq in Hr. cbn [st_get] in Hr.
  destruct (allow_commit s); [|by injection Hr as _ <-]. apply bind_any in Hr.
  destruct (push_commit (mc s)) as [r1 c1] eqn:E. rewrite (on_mc_eq _ _ _ _ E) in Hr.
  assert (sdone s `prefix_of` done_of c1) as Hp.
  { apply push_commit_any in E as [E|E]; [| |done]; unfold sdone; rewrite E; [done|by apply prefix_app_r]. }
  destruct Hr as [(e & Hr)|([] & s1 & E1 & Hr)]; [by injection Hr as _ <-|]. injection E1 as _ <-. by injection Hr as _ <-.
Qed.

(** Every operation that is neither a row change nor DDL. *)
Lemma dispatch_keeps x it :
  match it.2 with OpDML _ | OperationNonDML _ _ _ _ => False | _ => True end -> keeps (within x) (dispatch now cfg it).
Proof.
  intros Hit. destruct it as [[pos tm] [ty sch tab q|o| | | |u xid lc]]; try done; clear Hit; cbn [dispatch].
  - apply keeps_bind; [apply keeps_get|]. intros s. destruct (last_heartbeat s); [|apply keeps_ret].
    apply keeps_bind; [apply quiet_keeps, quiet_time|]. intros tv.
    apply keeps_bind; [by apply quiet_keeps; quiet_tac|]. intros _. apply merge_commit_keeps.
  - apply keeps_bind; [apply quiet_keeps, quiet_increment|]. intros _. destruct (merge_trx cfg).
    + by apply modify_keeps.
    + apply keeps_mc, push_commit_within.
  - apply keeps_mc. intros c r c' Hi E. apply push_begin_spec in E as (-> & -> & Hi'); done.
  - apply keeps_bind; [apply keeps_get|]. intros s. apply keeps_bind.
    { case_match; [|apply keeps_ret]. apply keeps_bind; [apply merge_commit_keeps|]. intros _. by apply quiet_keeps; quiet_tac. }
    intros _. by apply quiet_keeps; quiet_tac.
Qed.

Lemma dml_within pos tm o s r s' :
  client_inv (mc s) -> dispatch now cfg (pos, tm, OpDML o) s = (r, s') ->
  within (sdone s ++ sopen s ++ dml_action o)%list s'.
Proof.
  intros Hi Hr. cbn [dispatch] in Hr. rewrite app_assoc.
  assert (forall s1, mc s1 = mc s -> within ((sdone s ++ sopen s) ++ dml_action o)%list s1) as Hsame.
  { intros s1 Hm. unfold within, sdone, sopen. rewrite Hm. split; [done|]. by apply prefix_app_r. }
  apply bind_any in Hr as [(e & Hr)|([] & s1 & E1 & Hr)]; [done|]. injection E1 as <-.
  unfold st_try in Hr. rewrite st_bind_eq in Hr. unfold dml_action in *. cbn [st_lift] in Hr.
  destruct (dmlOperation2Sql o) as [[sql ps]|e]; [|injection Hr as _ <-; by apply Hsame].
  unfold on_mc in Hr. cbn [mc set_metric] in Hr. destruct (push_dml sql ps (mc s)) as [[[]|e] c'] eqn:E.
  - injection Hr as _ <-. apply push_dml_ok in E as (Hd & Ho & Hi'); [|done]. split; [done|]. unfold sdone, sopen. cbn.
    by rewrite Hd, Ho, app_assoc.
  - injection Hr as _ <-. apply push_dml_err in E as (Hd & Ho & Hi'); [|done]. split; [done|]. unfold sdone, sopen. cbn.
    rewrite Hd. destruct Ho as [->| ->]; [by apply prefix_app_r|]. rewrite app_nil_r, <- app_assoc. by apply prefix_app_r.
Qed.

Definition row_op (op : operation) : Prop := match op with OperationNonDML _ _ _ _ => False | _ => True end.

Lemma step_within it s r s' :
  client_inv (mc s) -> row_op it.2 -> step now cfg it s = (r, s') ->
  within (sdone s ++ sopen s ++ op_acts cfg [it.2])%list s'.
Proof.
  intros Hi Hop Hr. assert (keeps (within (sdone s ++ sopen s ++ op_acts cfg [it.2])%list) (after_dispatch now cfg it)) as Ha
    by (apply quiet_keeps, quiet_after).
  unfold op_acts in *. cbn in *. rewrite app_nil_r in *. unfold step in Hr. destruct it as [[pos tm] op]. cbn [snd] in *.
  assert ((match op with OpDML o => excluded cfg o = false | _ => True end) ->
    (dispatch now cfg (pos, tm, op) ;; after_dispatch now cfg (pos, tm, op)) s = (r, s') ->
    within (sdone s ++ sopen s ++ match op with OpDML o => if excluded cfg o then [] else dml_action o | _ => [] end)%list s') as Hmain.
  { clear Hr. intros Hx Hr. rewrite st_bind_eq in Hr. destruct (dispatch now cfg (pos, tm, op) s) as [r1 s1] eqn:E1.
    assert (within (sdone s ++ sopen s ++ match op with OpDML o => if excluded cfg o then [] else dml_action o | _ => [] end)%list s1) as H1.
    { destruct op as [| o | | | |]; [done|rewrite Hx; by eapply dml_within|..];
        (rewrite app_nil_r; match type of E1 with dispatch _ _ ?i _ = _ =>
           pose proof (dispatch_keeps (sdone s ++ sopen s)%list i I s (conj Hi (reflexivity _))) as Hk; by rewrite E1 in Hk end). }
    destruct r1 as [[]|e]; [|injection Hr as _ <-; done]. specialize (Ha s1 H1). by rewrite Hr in Ha. }
  destruct op as [| o | | | |]; try by apply Hmain. destruct (excluded cfg o) eqn:Ex; [|by apply Hmain].
  injection Hr as _ <-. split; [done|]. by rewrite app_nil_r.
Qed.

Lemma op_acts_app l1 l2 : op_acts cfg (l1 ++ l2) = (op_acts cfg l1 ++ op_acts cfg l2)%list.
Proof. unfold op_acts. rewrite map_app. apply join_app. Qed.

Lemma op_effect_sum op s s' :
  row_op op -> op_effect cfg op s s' -> (sdone s' ++ sopen s')%list = (sdone s ++ sopen s ++ op_acts cfg [op])%list.
Proof.
  intros Hop He. unfold op_acts. cbn. rewrite app_nil_r. unfold op_effect, grows, flushes in He.
  assert (forall acts, sdone s' = (sdone s ++ sopen s ++ acts)%list -> sopen s' = [] ->
    (sdone s' ++ sopen s')%list = (sdone s ++ sopen s ++ acts)%list) as Hfl by (intros acts -> ->; by rewrite app_nil_r).
  destruct op; try done.
  - by destruct He as (-> & -> & _).
  - destruct He as [(-> & -> & _)|[? ?]]; auto.
  - destruct He as [(-> & -> & _)|[? ?]]; [by rewrite app_nil_r|auto].
  - by destruct He as (-> & -> & _).
  - destruct He as [(-> & -> & _)|[? ?]]; auto.
Qed.

(** Clean iterations: what is committed and open is what the operations say. *)
Lemma runs_sum its s s' :
  good s -> Forall row_op (map snd its) -> runs now cfg s its s' ->
  good s' /\ (sdone s' ++ sopen s')%list = (sdone s ++ sopen s ++ op_acts cfg (map snd its))%list.
Proof.
  intros Hg Hops Hr. induction Hr as [s|s it s1 its s2 Hs He Hr IH]; [split; [done|]; by rewrite app_nil_r|].
  apply Forall_cons in Hops as [Ho Hops]. destruct (step_effect now cfg it s s1 Hg Hs He) as [Hg1 Hef].
  destruct (IH Hg1 Hops) as [Hg2 Hsum]. split; [done|].
  rewrite Hsum, app_assoc, (op_effect_sum _ _ _ Ho Hef), <- !app_assoc. f_equal. f_equal.
  cbn [map]. symmetry. apply (op_acts_app [it.2]).
Qed.

Lemma loop_within its tl s r s' :
  good s -> Forall row_op (map snd its) -> (forall it, Ok it ∉ tl) -> loop now cfg (map Ok its ++ tl)%list s = (r, s') ->
  within (sdone s ++ sopen s ++ op_acts cfg (map snd its))%list s'.
Proof.
  intros Hg Hops Htl Hr. apply loop_cases in Hr as [(its1 & its2 & -> & Hrun)|(its1 & it & its2 & s1 & r1 & -> & Hrun & Hst)]; [| |done];
    rewrite map_app in *; apply Forall_app in Hops as [Hops1 Hops2]; destruct (runs_sum its1 s _ Hg Hops1 Hrun) as [Hg1 Hsum];
    rewrite op_acts_app, !app_assoc.
  - split; [apply Hg1|]. rewrite Hsum, app_assoc. by apply prefix_app_r.
  - apply Forall_cons in Hops2 as [Ho _]. destruct (step_within it s1 r1 s' (proj1 Hg1) Ho Hst) as [Hi' Hp]. split; [done|].
    rewrite app_assoc, Hsum in Hp. etrans; [exact Hp|]. rewrite <- !app_assoc. do 3 apply prefix_app.
    change (map snd (it :: its2)) with ([it.2] ++ map snd its2)%list. rewrite op_acts_app. by apply prefix_app_r.
Qed.

Lemma row_ops_stream ts : Forall is_row_trx ts -> Forall row_op (stream_of ts) /\ op_acts cfg (stream_of ts) = dml_actions cfg (all_ops ts).
Proof.
  induction 1 as [|t ts Ht HF [IH1 IH2]]; [done|]. change (stream_of (t :: ts)) with (ops_of t ++ stream_of ts)%list.
  rewrite op_acts_app, all_ops_cons, dml_actions_app, IH2. split.
  - apply Forall_app. split; [|done]. destruct t as [u x lc ops| |]; [|done|by repeat constructor].
    do 2 (constructor; [done|]). apply Forall_app. split; [by apply Forall_map, Forall_true|by repeat constructor].
  - f_equal. destruct t as [u x lc ops| |]; [|done|done]. cbn [ops_of trx_ops].
    change (OperationGtid u x lc :: OperationBegin :: (map OpDML ops ++ [OperationCommit]))%list
      with ([OperationGtid u x lc; OperationBegin] ++ map OpDML ops ++ [OperationCommit])%list.
    rewrite !op_acts_app, op_acts_dmls. cbn. by rewrite app_nil_r.
Qed.

(** However a run ends, the target has committed the statements of the first
    row changes of the stream, in order. *)
Lemma run_any (ts : list trx) (its : list item) (tl : list (result item)) s r s' :
  client_inv (mc s) -> sopen s = [] -> Forall is_row_trx ts ->
  map snd its `prefix_of` stream_of ts -> (forall it, Ok it ∉ tl) ->
  run now cfg (map Ok its ++ tl)%list s = (r, s') ->
  exists l, l `prefix_of` all_ops ts /\ sdone s' = (sdone s ++ dml_actions cfg l)%list.
Proof.
  intros Hi Ho Hts [rest Hpre] Htl Hr. destruct (row_ops_stream ts Hts) as [Hrow Hacts].
  rewrite Hpre in Hrow, Hacts. apply Forall_app in Hrow as [Hrow _]. rewrite op_acts_app in Hacts.
  set (x := (sdone s ++ dml_actions cfg (all_ops ts))%list).
  unfold run in Hr. rewrite st_bind_eq in Hr. cbn [time_time] in Hr. do 4 (rewrite st_bind_eq in Hr; cbn [st_modify] in Hr).
  rewrite st_bind_eq in Hr. match type of Hr with context [loop now cfg _ ?s0] => set (s1 := s0) in * end.
  destruct (loop now cfg (map Ok its ++ tl)%list s1) as [r2 s2] eqn:E2.
  destruct (loop_atomic now cfg ts its tl s1 r2 s2) as (pre & _ & Hd2); [done|done|done|by exists rest|done|done|].
  apply loop_within in E2 as [Hi2 Hp2]; [|done..].
  assert (within x s2) as Hw.
  { split; [done|]. etrans; [exact Hp2|]. change (sdone s1) with (sdone s). change (sopen s1) with (sopen s).
    unfold x. rewrite Ho, <- Hacts. cbn. apply prefix_app. by apply prefix_app_r. }
  assert (within x s' /\ sdone s2 `prefix_of` sdone s') as [[_ Hx] Hlow].
  { destruct r2 as [[]|e]; [|injection Hr as _ <-; done].
    assert (keeps (within x) (merge_commit ;; metric_persist_ ;; s ← st_get; mret (error_exit s))) as Hk.
    { apply keeps_bind; [apply merge_commit_keeps|]. intros _. apply quiet_keeps. quiet_tac. }
    specialize (Hk s2 Hw). rewrite Hr in Hk. split; [exact Hk|]. apply bind_any in Hr as [(e & Hr)|([] & s3 & E3 & Hr)].
    - by apply merge_commit_prefix in Hr.
    - apply merge_commit_prefix in E3; [|done]. apply quiet_sdone in Hr; [by rewrite Hr|quiet_tac]. }
  change (sdone s1) with (sdone s) in Hd2. destruct Hlow as [acts Hd]. rewrite Hd2, <- app_assoc in Hd.
  rewrite Hd in Hx. unfold x in Hx. rewrite <- !app_assoc in Hx. apply prefix_app_inv in Hx. rewrite app_assoc in Hx.
  apply (prefix_app_l) in Hx. apply dml_actions_prefix in Hx as (l & Hl & Heq). exists l. split; [done|]. by rewrite Hd, Heq.
Qed.
End outcome.

(** ** Any number of runs *)

Lemma path_app {S L} (next : S -> L -> S -> Prop) l1 l2 s s1 s2 :
  path next s l1 s1 -> path next s1 l2 s2 -> path next s (l1 ++ l2)%list s2.
Proof. induction 1; intros H2; [done|]. cbn. econstructor; eauto. Qed.

Lemma states_path {S L} (next : S -> L -> S -> Prop) (f : nat -> S) l :
  (forall i x, l !! i = Some x -> next (f i) x (f (Datatypes.S i))) ->
  forall q, (q <= length l)%nat -> path next (f 0%nat) (take q l) (f q).
Proof.
  intros Hf q. induction q as [|q IH]; intros Hq; [constructor|].
  destruct (lookup_lt_is_Some_2 l q) as [x Hx]; [lia|]. rewrite (take_S_r l q x Hx).
  eapply path_app; [apply IH; lia|]. econstructor; [by apply Hf|constructor].
Qed.

Section restarts.
Context {C : Type} `{TargetLaws C} (veq : pyval -> pyval -> bool) `{!ValueEquality veq}.
Context (reserved : string -> bool) (cfg : settings) (ddl : string -> db -> db).

(** A source that makes row changes only, and keeps the keys of its rows. *)
Definition row_trx (d : db) (t : trx) (d' : db) : Prop :=
  match t with
  | TDml _ _ _ ops => path (kept_step veq cfg) d ops d'
  | TDdl _ _ _ _ _ _ _ => False
  | TIdle => d' = d
  end.
Definition row_history : db -> list trx -> db -> Prop := path row_trx.

Lemma row_history_changes d ts d' :
  row_history d ts d' -> path (kept_step veq cfg) d (all_ops ts) d' /\ Forall is_row_trx ts.
Proof.
  induction 1 as [d|d t d1 ts d2 Ht Hts [IH1 IH2]]; [split; constructor|]. rewrite all_ops_cons. split.
  - eapply path_app; [|exact IH1]. destruct t; cbn in *; [done|done|]. subst. constructor.
  - constructor; [by destruct t|done].
Qed.

Lemma busy_row us ts : busy us = ts -> Forall is_row_trx ts -> Forall is_row_trx us.
Proof.
  intros <- Hts. unfold busy in Hts. rewrite Forall_forall in *. intros t Ht. destruct (decide (t <> TIdle)) as [Hn|Hn].
  - apply Hts. by apply list_elem_of_filter.
  - by destruct t; [exfalso; apply Hn..|].
Qed.

(** The states of the target's log after starting the program any number of
    times: each time on a new connection, with the stream of the same
    transactions, up to any point, and with any outcome. *)
Inductive attempts (ts : list trx) (a0 : list action) : list action -> Prop :=
  | attempts_none : attempts ts a0 a0
  | attempts_run a (con0 : C) fs auto_position start s now us its tl r s' :
      attempts ts a0 a -> committed con0 = a -> pending con0 = [] -> sync_init con0 fs auto_position = Ok (start, s) ->
      busy us = ts -> map snd its `prefix_of` stream_of us -> (forall it, Ok it ∉ tl) ->
      run now cfg (map Ok its ++ tl)%list s = (r, s') -> attempts ts a0 (sdone s').

Lemma init_idle (con0 : C) fs auto_position start s :
  sync_init con0 fs auto_position = Ok (start, s) -> pending con0 = [] ->
  client_inv (mc s) /\ sdone s = committed con0 /\ sopen s = [] /\ con (mc s) = con0 /\ metric_wf (metric_of s) /\
  allow_commit s = false /\ allow_checkpoint s = false.
Proof.
  intros Hinit Hp. unfold sync_init in Hinit. destruct (get_checkpoint_gtidset fs auto_position); [|done].
  by injection Hinit as _ <-.
Qed.

Section history.
Context (ts : list trx) (f : nat -> db) (e0 : db) (a0 : list action).
Hypothesis Hf : forall i o, all_ops ts !! i = Some o -> kept_step veq cfg (f i) o (f (S i)).
Hypothesis Hwf : wf_db veq reserved cfg (f 0%nat).
Hypothesis Hrow : Forall is_row_trx ts.

Abbreviation held a := (apply_actions veq reserved ddl a e0).

(** A run replays some of the first changes. *)
Lemma replayed a l :
  l `prefix_of` all_ops ts -> caught veq cfg f (all_ops ts) 0 (held a) ->
  caught veq cfg f (all_ops ts) (length l) (held (a ++ dml_actions cfg l)%list).
Proof.
  intros Hl Hc. rewrite apply_actions_app, apply_dml_actions.
  apply (caught_replay veq reserved cfg ddl f (all_ops ts) Hf Hwf l 0); [by rewrite drop_0|done].
Qed.

Lemma attempts_caught a :
  agree cfg (f 0%nat) (held a0) -> attempts ts a0 a -> caught veq cfg f (all_ops ts) 0 (held a).
Proof.
  intros Hag. induction 1 as [|a con0 fs auto_position start s now us its tl r s' Ha IH Hcon Hp Hinit Hus Hits Htl Hr].
  { eapply (caught_here veq reserved cfg ddl); [done|done|lia|done]. }
  destruct (init_idle _ _ _ _ _ Hinit Hp) as (Hi & Hd & Ho & _).
  destruct (run_any now cfg us its tl s r s' Hi Ho (busy_row us ts Hus Hrow) Hits Htl Hr) as (l & Hl & Hd').
  rewrite <- all_ops_busy, Hus in Hl. rewrite Hd', Hd, Hcon.
  apply (caught_back veq reserved cfg ddl f (all_ops ts) Hf Hwf (length l)); [|by apply replayed].
  apply prefix_length in Hl. lia.
Qed.
End history.

(** Whatever the attempts did, each row of the target is one the source had. *)
Lemma attempts_rows ts d0 d1 e0 a0 a n y :
  row_history d0 ts d1 -> wf_db veq reserved cfg d0 -> agree cfg d0 (apply_actions veq reserved ddl a0 e0) ->
  attempts ts a0 a -> excluded_table cfg n = false ->
  exists l di, l `prefix_of` all_ops ts /\ path (kept_step veq cfg) d0 l di /\
    key_rows veq n y (apply_actions veq reserved ddl a e0) = key_rows veq n y di.
Proof.
  intros Hh Hwf Hag Ha Hn. apply row_history_changes in Hh as [Hp Hrow].
  apply path_states in Hp as (f & <- & _ & Hf).
  destruct (attempts_caught ts f e0 a0 Hf Hwf Hrow a Hag Ha n Hn) as (_ & _ & Hrows).
  destruct (Hrows y) as (q & Hq & Hr). exists (take q (all_ops ts)), (f q).
  split; [apply prefix_take|]. split; [|done]. by apply states_path; [|lia].
Qed.

End restarts.

(** ** A concrete restart

    The first run fails at the second statement of the second transaction of
    a commit group, and commits the first one of it. *)

Definition again_first : trx := TDml "u" "6" 0 [OperationDMLInsert "d" "t" [("id", VInt 7); ("n", VInt 8)] (PkStr "id")].
Definition again_second : trx := TDml "u" "7" 0
  [OperationDMLUpdate "d" "t" [("id", VInt 7); ("n", VInt 9)] [("id", VInt 7); ("n", VInt 8)] (PkStr "id");
   OperationDMLDelete "d" "t" [("id", VInt 1); ("n", VInt 2)] (PkStr "id")].
Definition again_trxs : list trx := [again_first; again_second].
Definition again_items : list item := ex_items (stream_of [again_first; TIdle; again_second]).
Definition again_start (held : list action) (bad : list string) : sync journal :=
  match sync_init (mkJournal held [] false bad) [] "u:1-5" with
  | Ok (_, s) => s
  | Err _ => mkSync (client_init (mkJournal held [] false bad)) metric_init (-1) false false [] None [] 0 0 0 false false
  end.
Definition again_failed : sync journal := snd (run ex_clock ex_merge (map Ok again_items) (again_start [] [ex_bad_sql])).
Definition again_held : list action := sdone again_failed.

Example again_half :
  again_held = [ADml "REPLACE INTO `d`.`t`(id, n) VALUES(%s,%s)" [VInt 7; VInt 8];
                ADml "UPDATE `d`.`t` SET id = %s, n = %s WHERE `id` = %s" [VInt 7; VInt 9; VInt 7]].
Proof. vm_compute. reflexivity. Qed.

(** Numbers and texts, and no more. *)
Definition plain_eq (x y : pyval) : bool :=
  match x, y with
  | VInt a, VInt b => a =? b
  | VStr a, VStr b => bool_decide (a = b)
  | VInt _, _ | _, VInt _ | VStr _, _ | _, VStr _ => false
  | _, _ => true
  end.

#[export] Instance plain_equality : ValueEquality plain_eq.
Proof.
  split.
  - intros [] _; cbn; rewrite ?bool_decide_eq_true, ?Z.eqb_eq; done.
  - intros [] []; cbn; rewrite ?bool_decide_eq_true, ?Z.eqb_eq; done.
  - intros [] [] []; cbn; rewrite ?bool_decide_eq_true, ?Z.eqb_eq; congruence.
Qed.

Definition again_rows : list row := [[("id", VInt 7); ("n", VInt 9)]].

Lemma again_wf : wf_db plain_eq ex_reserved ex_merge (ex_db ex_old).
Proof.
  intros n r _ Hr. unfold ex_db in Hr. apply lookup_singleton_Some in Hr as [<- <-]. split; [done|]. split; [done|]. split.
  - split; [apply (bool_decide_unpack _); vm_compute; exact I|]. split; [done|]. repeat constructor; done.
  - apply Forall_singleton, ex_row_ok.
  - repeat constructor.
Qed.

Lemma again_step o rows rows' :
  dml_name o = ("d", "t") -> change plain_eq o (ex_relation rows) (ex_relation rows') -> keeps_key plain_eq ["id"] o ->
  kept_step plain_eq ex_merge (ex_db rows) o (ex_db rows').
Proof.
  intros Ho Hch Hk. split.
  - replace (ex_db rows') with (<[dml_name o := ex_relation rows']> (ex_db rows)) by (unfold ex_db; rewrite Ho; apply insert_singleton_eq).
    eapply step_replicated; [done| |exact Hch]. unfold ex_db. rewrite Ho. apply lookup_singleton_eq.
  - intros r _ Hr. unfold ex_db in Hr. rewrite Ho, lookup_singleton_eq in Hr. by injection Hr as <-.
Qed.

Lemma again_history : row_history plain_eq ex_merge (ex_db ex_old) again_trxs (ex_db again_rows).
Proof.
  eapply path_cons; [eapply path_cons; [|constructor]|eapply path_cons; [eapply path_cons; [|eapply path_cons; [|constructor]]|constructor]].
  - apply again_step; [done| |done].
    apply (change_insert plain_eq "d" "t" _ (PkStr "id") (ex_relation ex_old)); [done|apply ex_row_ok|repeat constructor].
  - apply again_step; [done| |done].
    apply (change_update plain_eq "d" "t" _ _ (PkStr "id") (ex_relation (ex_old ++ [_])) ex_old []); [done|done|apply ex_row_ok|repeat constructor].
  - apply again_step; [done| |done].
    apply (change_delete plain_eq "d" "t" _ (PkStr "id") (ex_relation (ex_old ++ _)) [] again_rows); done.
Qed.

Lemma again_attempts : attempts (C := journal) ex_merge again_trxs [] again_held.
Proof.
  eapply (attempts_run ex_merge again_trxs [] [] (mkJournal [] [] false [ex_bad_sql]) [] "u:1-5" "u:1-5"
    (again_start [] [ex_bad_sql]) ex_clock [again_first; TIdle; again_second] again_items [] (Ok true)).
  - constructor.
  - done.
  - done.
  - done.
  - done.
  - exists []. by vm_compute.
  - set_solver.
  - rewrite app_nil_r. unfold again_failed. by vm_compute.
Qed.


(** With an update that changes a key it does not: replaying an insert brings
    the old row back, and the update makes it a second row with the new key
    (a server with a primary key refuses it, and the run stops there). *)
Definition moved_trxs : list trx :=
  [again_first; TDml "u" "7" 1 [OperationDMLUpdate "d" "t" [("id", VInt 9); ("n", VInt 8)] [("id", VInt 7); ("n", VInt 8)] (PkStr "id")]].

Example key_change_replayed :
  let once := apply_actions plain_eq ex_reserved ex_ddl (effect ex_merge moved_trxs) (ex_db []) in
  once = ex_db [[("id", VInt 9); ("n", VInt 8)]] /\
  apply_actions plain_eq ex_reserved ex_ddl (effect ex_merge moved_trxs) once =
    ex_db [[("id", VInt 9); ("n", VInt 8)]; [("id", VInt 9); ("n", VInt 8)]].
Proof. vm_compute. done. Qed.
