(* ===== verification/Session.v ===== *)
(** * A whole session with the source

    The reader from its construction on: it connects, the server opens the
    dump with a rotate event and a format description, and goes on with the
    events of transactions, rotations to the next file, heartbeats and events
    the program does not use.  [EndToEnd] treats the events of transactions on
    a connected reader; here are the other events, the connection, and the
    program as a whole from its start position to the tables of the target. *)

From stdpp Require Import base list strings sets gmap.
From Stdlib Require Import ZArith Lia Ascii.
From S2P Require Import Prelude PyBytes PyStr Values UtilBytes Packet Column Sql SqlText Metric Checkpoint Client Sync SyncLive Ddl RowValues Event RowsEvent RowCells TableMap TableMapEvent Dispatch Stream Resume Replication EndToEnd Converge.
Open Scope string_scope.
Open Scope Z_scope.
Open Scope list_scope.

(** ** Events that announce something *)

(** The first [n] bytes of a text, padded with zeros. *)
Definition padded (n : nat) (bs : bytes) : bytes := bs ++ repeat 0 (n - length bs).

(** The body of a format description as a server with checksums writes it:
    version, server version, creation time, length of the common header,
    lengths of the other headers, and the checksum algorithm. *)
Definition encode_format (version created : Z) (server_version lengths : bytes) (alg : Z) : bytes :=
  le_encode 2 version ++ padded 50 server_version ++ le_encode 4 created ++ le_encode 1 19 ++ lengths ++ [alg].

Definition encode_rotate (position : Z) (next : bytes) : bytes := le_encode 8 position ++ next.

Section notices.
Context {P : Type} `{MysqlPacketLaws P}.

(** The constructor of the class reads the body as [e], whatever follows it,
    and leaves the table map alone. *)
Definition reads (ty : Z) (body : bytes) (e : event P) : Prop :=
  class_of_event e = class_of ty /\
  forall ctx verify tm (w : wrapper P) (crc : bytes), data_buffer w = [] -> stream w = body ++ crc ->
    exists w', construct_body ctx (class_of ty) verify (zlen body) tm w = (Ok (Some e, tm), w') /\ same_header w w'.

(** A reader that uses a first part of the body. *)
Lemma reads_prefix ty (m : PM P (event P)) body used left e :
  class_of_event e = class_of ty -> body = used ++ left -> parses m used e ->
  (forall ctx verify tm, construct_body (P:=P) ctx (class_of ty) verify (zlen body) tm = (e ← m; mret (Some e, tm))) ->
  reads ty body e.
Proof.
  intros Hcl -> Hp Hc. split; [done|]. intros ctx verify tm w crc Hb Hs. rewrite <- app_assoc in Hs.
  destruct (Hp w _ Hb Hs) as (w' & E & _ & _ & _ & Hh). exists w'. by rewrite Hc, st_bind_eq, E.
Qed.

Lemma rotate_reads position next text :
  0 <= position < 2 ^ 64 -> utf8_decode ErrStrict next = Ok text ->
  reads BINLOG.ROTATE_EVENT (encode_rotate position next) (ERotate position text).
Proof.
  intros Hp Hn. eapply (reads_prefix _ _ _ (encode_rotate position next) []); [done|by rewrite app_nil_r| |done].
  unfold read_rotate, encode_rotate. apply (parses_bind_pure _ _ _ (position, text)); [|done].
  eapply parses_bind; [by apply (parses_uint 8 8)|].
  rewrite <- (app_nil_r next) at 2. eapply parses_bind.
  - apply parses_read. rewrite zlen_app, zlen_le_encode. lia.
  - eapply parses_lift_ok; [done|]. apply parses_ret.
Qed.

Lemma heartbeat_reads ident text :
  utf8_decode ErrStrict ident = Ok text -> reads BINLOG.HEARTBEAT_LOG_EVENT ident (EHeartbeat text).
Proof.
  intros Hn. eapply (reads_prefix _ _ _ ident []); [done|by rewrite app_nil_r| |done].
  unfold read_heartbeat. eapply parses_bind_pure; [|done]. by apply parses_lift.
Qed.

Lemma stop_reads body : reads BINLOG.STOP_EVENT body EStop.
Proof. eapply (reads_prefix _ _ _ [] body); [done|done|apply parses_ret|done]. Qed.

Lemma rstrip_padded n bs : last bs <> Some 0 -> rstrip_nul (padded n bs) = bs.
Proof.
  intros Hl. unfold padded. generalize (n - length bs)%nat. intros k. unfold rstrip_nul. rewrite foldr_app.
  assert (foldr (fun b acc => match acc with [] => if b =? 0 then [] else [b] | _ => b :: acc end) [] (repeat 0 k) = []) as ->.
  { induction k as [|k IH]; [done|]. cbn. by rewrite IH. }
  induction bs as [|b bs IH]; [done|]. cbn. rewrite last_cons in Hl. destruct (last bs) eqn:E.
  - rewrite IH by done. by destruct bs.
  - apply last_None in E. subst bs. cbn. destruct (Z.eqb_spec b 0); [congruence|done].
Qed.

(** The version of the server, as the numbers before the first hyphen. *)
Definition version_numbers (server_version : bytes) (v : list Z) : Prop :=
  exists text first, utf8_decode ErrStrict server_version = Ok text /\ head (split_on "-" text) = Some first /\
    mapM_result int_of_str (split_on "." first) = Ok v.

Lemma format_reads version created server_version lengths alg v :
  0 <= version < 2 ^ 16 -> 0 <= created < 2 ^ 32 -> (length server_version <= 50)%nat -> last server_version <> Some 0 ->
  version_numbers server_version v -> bytes_ok lengths -> (23 <= length lengths)%nat ->
  exists fd, fd_mysql_version fd = v /\
    reads BINLOG.FORMAT_DESCRIPTION_EVENT (encode_format version created server_version lengths alg) (EFormatDescription fd).
Proof.
  intros Hv Hc Hl Hlast (text & first & Ht & Hf & Hm) Hlen Hn.
  set (k := (length lengths - 23)%nat).
  assert (exists ph sv net tl, lengths = ph ++ sv ++ [net] ++ tl /\ length ph = k /\ length sv = 3%nat) as (ph & sv & net & tl & El & Hph & Hsv).
  { exists (take k lengths), (take 3 (drop k lengths)).
    destruct (drop 3 (drop k lengths)) as [|net tl] eqn:E.
    { apply (f_equal length) in E. rewrite !length_drop in E. cbn in E. unfold k in *. lia. }
    exists net, tl. rewrite length_take, length_take, length_drop. split; [|unfold k; lia].
    change ([net] ++ tl) with (net :: tl). rewrite <- E. by rewrite !take_drop. }
  assert (byte_ok net) as Hnet by (unfold bytes_ok in Hlen; rewrite El, !Forall_app, Forall_singleton in Hlen; tauto).
  exists (mkFormatDescription version text v created 19 ph sv net). split; [done|].
  assert (zlen (encode_format version created server_version lengths alg) - 57 - 19 - 1 - 4 = zlen ph) as Hz.
  { unfold encode_format, padded. rewrite !zlen_app, !zlen_le_encode. unfold zlen. rewrite repeat_length, Hph. cbn [length]. unfold k. lia. }
  eapply (reads_prefix _ _ _ ((le_encode 2 version ++ padded 50 server_version ++ le_encode 4 created ++ le_encode 1 19 ++ ph ++ sv ++ le_encode 1 net) ++ [])
    (tl ++ [alg])); [done| | |done].
  - unfold encode_format. rewrite El, app_nil_r, <- !app_assoc. replace (le_encode 1 net) with [net]; [done|].
    cbn. unfold byte_ok in Hnet. by rewrite Z.mod_small by lia.
  - rewrite app_nil_r. eapply parses_bind_pure; [|done]. unfold read_format_description.
    eapply parses_bind; [by apply (parses_uint 2 2)|].
    eapply parses_bind; [apply parses_read; unfold padded; rewrite zlen_app; unfold zlen; rewrite repeat_length; lia|].
    rewrite rstrip_padded by done. eapply parses_lift_ok; [done|]. eapply parses_lift_ok; [by rewrite Hf|].
    eapply parses_lift_ok; [done|].
    eapply parses_bind; [by apply (parses_uint 4 4)|]. eapply parses_bind; [apply (parses_uint 1 1); [done|lia]|]. cbv zeta.
    rewrite Hz. eapply parses_bind; [by apply parses_read|].
    eapply parses_bind; [apply parses_read; unfold zlen; by rewrite Hsv|].
    eapply parses_bind_pure; [apply (parses_uint 1 1); [done|exact Hnet]|]. done.
Qed.
End notices.

(** ** The session *)

Section session.
Context {P : Type} `{MysqlPacketLaws P} `{UnicodeTables}.
Context (cd : codecs) (ignore_decode_errors : bool) (json_depth : nat) (set_order : list string -> list string).
Context (c : reader_config) (sv : server) (allowed : list event_class).

(** A packet with a checksum; the position in its header may be zero. *)
Definition framed (p : P) (ts pos ty : Z) (body : bytes) : Prop :=
  exists sid fl crc, pk_position p = 0 /\ pk_data p = frame ts ty sid (19 + zlen body + zlen crc) pos fl body crc /\
    u32 ts /\ 0 <= ty < 256 /\ u32 sid /\ u32 (19 + zlen body + zlen crc) /\ u32 pos /\ 0 <= fl < 65536 /\
    bytes_ok body /\ bytes_ok crc /\ zlen crc = 4.

Definition is_rotate (e : event P) : bool := match e with ERotate _ _ => true | _ => false end.
Definition is_table_map (e : event P) : bool := match e with ETableMap _ => true | _ => false end.

(** An event that is read, and is not one of a table. *)
Definition notice (ty : Z) (body : bytes) (e : event P) : Prop :=
  reads ty body e /\ class_of ty ∈ allowed /\ (ty =? BINLOG.ROTATE_EVENT) = is_rotate e /\ is_table_map e = false.

(** The position of the reader after an event that ends at [pos]. *)
Definition moved (pos : Z) (rd : reader) : reader := if pos =? 0 then rd else set_log_pos (Some pos) rd.

Definition after_notice (e : event P) (ts pos : Z) (rd : reader) : reader :=
  match e with
  | ERotate position next =>
      let rd := set_log_file (Some next) (set_log_pos (Some position) rd) in
      if ts =? 0 then rd else set_table_map [] rd
  | EFormatDescription fd => set_mysql_version (fd_mysql_version fd) (moved pos rd)
  | _ => moved pos rd
  end.

(** A packet, whether it is a heartbeat, its operations, and the reader after
    it. *)
Inductive delivers (rd : reader) (p : P) (ts : Z) : bool -> list operation -> reader -> Prop :=
  | delivers_data pos ty body ops tm' :
      sends p ts pos ty body ->
      carries cd ignore_decode_errors json_depth set_order c sv (mysql_version rd) (rd_table_map rd) ty body ops tm' ->
      delivers rd p ts false ops (set_table_map tm' (set_log_pos (Some pos) rd))
  | delivers_notice pos ty body e ops :
      framed p ts pos ty body -> notice ty body e ->
      handle_event set_order cd ignore_decode_errors json_depth e = Ok ops ->
      delivers rd p ts (is_heartbeat_event e) ops (after_notice e ts pos rd).

Inductive session : reader -> list P -> list (Z * bool * list operation * reader) -> Prop :=
  | session_nil rd : session rd [] []
  | session_cons rd p ts hb ops rd' ps l :
      delivers rd p ts hb ops rd' -> session rd' ps l -> session rd (p :: ps) ((ts, hb, ops, rd') :: l).

(** What the generator yields: each operation with the file of the reader and
    the end position of the event before; heartbeats keep both, and one that
    comes first finds the file unbound. *)
Fixpoint session_items (lc : locals) (l : list (Z * bool * list operation * reader)) : list (result item) :=
  match l with
  | [] => []
  | (ts, hb, ops, rd) :: rest =>
      let lc := if hb : bool then lc else mkLocals (Some (log_file rd)) (lc_log_pos lc) (rd_log_pos rd) in
      let next := mkLocals (lc_log_file lc) (lc_end_log_pos lc) (lc_end_log_pos lc) in
      match ops, lc_log_file lc with
      | [], _ => session_items next rest
      | _, None => [Err UnboundLocalError]
      | _, Some f => map (fun o => Ok (f, lc_log_pos lc, ts, o)) ops ++ session_items next rest
      end
  end.

Hypothesis Hend : true_int (rc_end_log_pos c) = None.
Hypothesis Hskip : true_int (rc_skip_to_timestamp c) = None.
Hypothesis Hfreeze : rc_freeze_schema c = false.
Hypothesis Hallowed : [GtidEventC; QueryEventC; XidEventC; TableMapEventC; WriteRowsEventC; UpdateRowsEventC; DeleteRowsEventC] ⊆ allowed.

Lemma same_table_map rd : set_table_map (rd_table_map rd) rd = rd.
Proof. by destruct rd. Qed.

(** A notice goes through one round of the loop of [fetchone]. *)
Lemma handle_notice p ts pos ty body e rd :
  use_checksum rd = true -> framed p ts pos ty body -> notice ty body e ->
  handle_packet c sv allowed p rd = (Ok (Some (ts, e)), after_notice e ts pos rd).
Proof.
  intros Huc (sid & fl & crc & Hp & Hd & Hts & Hty & Hsid & Hsize & Hpos & Hfl & Hbo & Hco & Hcrc) ((Hcls & Hrd) & Hal & Hrot & Htm).
  set (ctx := context_of c sv allowed rd).
  destruct (wrap_packet_opened ctx (rd_table_map rd) p ts ty sid pos fl body crc) as (w & Ho & Ew);
    [done..|by cbn; rewrite Huc|done|done|].
  destruct Ho as (Hs & Hr & Hb & Hts' & Hty' & _ & _ & Hpos' & _).
  destruct (Hrd ctx (ec_use_checksum ctx && ec_verify_checksum ctx) (rd_table_map rd) w crc Hb Hs) as (w' & Ec & Hh).
  destruct Hh as (Ht2 & Hty2 & _ & _ & Hpos2 & _).
  unfold handle_packet. rewrite st_bind_eq. cbn [st_get]. fold ctx. rewrite st_bind_eq. unfold st_lift. rewrite Ew. unfold event_from.
  rewrite bool_decide_eq_true_2 by (unfold ctx; cbn; unfold allowed_in_packet; set_solver). rewrite Ec.
  rewrite st_bind_eq. cbn [st_modify]. rewrite same_table_map, st_bind_eq. unfold update_position.
  rewrite Hty2, Hty', Hpos2, Hpos', Ht2, Hts', Hrot. unfold check_end. rewrite Hend.
  unfold skipped. rewrite Hskip. rewrite bool_decide_eq_true_2 by (by rewrite Hcls).
  destruct e; try done; cbn [is_rotate after_notice]; unfold moved;
    destruct (pos =? 0), (ts =? 0); reflexivity.
Qed.

Lemma fetch_step p rest rd o rd' :
  connected_stream rd = true -> connected_ctl rd = true -> past_end rd = false ->
  handle_packet c sv allowed p rd = (Ok (Some o), rd') ->
  fetchone c sv allowed (InPacket p :: rest) rd = (Ok (FEvent o.1 o.2, rest), rd').
Proof.
  intros Hcs Hcc Hpe E. cbn [fetchone]. rewrite st_bind_eq. cbn [st_get]. rewrite Hpe, Hcs, Hcc.
  rewrite !st_bind_eq. cbn [mret ST_ret]. rewrite !st_bind_eq. cbn [mret ST_ret]. rewrite st_bind_eq, E. by destruct o.
Qed.

Lemma after_notice_ready e ts pos rd : ready rd -> ready (after_notice e ts pos rd).
Proof. intros Hr. unfold after_notice, moved. destruct e; try case_match; done. Qed.

Lemma fetch_delivers rd p ts hb ops rd' rest :
  ready rd -> delivers rd p ts hb ops rd' ->
  ready rd' /\
  exists e, fetchone c sv allowed (InPacket p :: rest) rd = (Ok (FEvent ts e, rest), rd') /\
    handle_event set_order cd ignore_decode_errors json_depth e = Ok ops /\ is_heartbeat_event e = hb.
Proof.
  intros Hrd [pos ty body ops' tm' Hs Hc|pos ty body e ops' Hf Hn Hh].
  - split; [done|]. by eapply fetch_packet.
  - split; [by apply after_notice_ready|]. exists e. split; [|done].
    destruct Hrd as (Hcs & Hcc & Hpe & Huc & _). apply (fetch_step p rest rd (ts, e)); try done. by eapply handle_notice.
Qed.

Lemma stream_loop_session fuel ps l rd lc :
  (length ps < fuel)%nat -> ready rd -> session rd ps l ->
  fst (stream_loop set_order cd ignore_decode_errors json_depth c sv allowed fuel (map InPacket ps ++ [InEof]) rd lc) =
  session_items lc l.
Proof.
  intros Hf Hrd Hse. revert fuel lc Hf Hrd. induction Hse as [rd|rd p ts hb ops rd' ps l Hd Hse IH]; intros fuel lc Hf Hrd;
    (destruct fuel as [|fuel]; [cbn in Hf; lia|]).
  - destruct Hrd as (Hcs & Hcc & Hpe & _). cbn [map app stream_loop fetchone].
    rewrite st_bind_eq. cbn [st_get]. rewrite Hpe, Hcs, Hcc, !st_bind_eq. done.
  - cbn [map app stream_loop session_items]. cbn [length] in Hf.
    destruct (fetch_delivers rd p ts hb ops rd' (map InPacket ps ++ [InEof]) Hrd Hd) as (Hrd' & e & -> & He & Hh).
    unfold handle_item. rewrite He, Hh. cbv zeta.
    set (lc' := if hb then lc else mkLocals (Some (log_file rd')) (lc_log_pos lc) (rd_log_pos rd')).
    assert (forall lc2, fst (stream_loop set_order cd ignore_decode_errors json_depth c sv allowed fuel
      (map InPacket ps ++ [InEof]) rd' lc2) = session_items lc2 l) as Hrest by (intros lc2; apply IH; [lia|done]).
    destruct ops as [|o ops].
    + rewrite <- Hrest. by destruct (stream_loop _ _ _ _ _ _ _ _ _ _ _).
    + destruct (lc_log_file lc') as [f|] eqn:Ef; [|done].
      rewrite <- Hrest. by destruct (stream_loop _ _ _ _ _ _ _ _ _ _ _).
Qed.

(** Operations without a heartbeat in front of them all. *)
Definition log_operations (l : list (Z * bool * list operation * reader)) : list operation := mjoin (map (fun x => x.1.2) l).

Lemma log_operations_cons ts hb ops rd l : log_operations ((ts, hb, ops, rd) :: l) = ops ++ log_operations l.
Proof. reflexivity. Qed.

Lemma session_items_ok lc l :
  (match l with (_, true, _, _) :: _ => lc_log_file lc <> None | _ => True end) ->
  exists its, session_items lc l = map Ok its /\ map snd its = log_operations l.
Proof.
  unfold log_operations. revert lc. induction l as [|[[[ts hb] ops] rd] l IH]; intros lc Hhb; [by exists []|]. cbn [session_items map].
  set (lc' := if hb then lc else _).
  assert (exists f, lc_log_file lc' = Some f) as (f & Ef).
  { unfold lc'. destruct hb; [destruct (lc_log_file lc); [by eexists|done]|by eexists]. }
  destruct (IH (mkLocals (lc_log_file lc') (lc_end_log_pos lc') (lc_end_log_pos lc'))) as (its & E & Ho).
  { cbn. rewrite Ef. destruct l as [|[[[? []] ?] ?] ?]; done. }
  destruct ops as [|o ops]; [by exists its|]. rewrite E, Ef.
  exists (map (fun o => (f, lc_log_pos lc', ts, o)) (o :: ops) ++ its). split; [by rewrite map_app, map_map|].
  rewrite map_app, map_map. etrans; [|apply (f_equal (app (o :: ops)) Ho)]. f_equal. apply map_id.
Qed.
End session.

(** ** Connecting *)

(** [m] returns [a], having sent something and then changed the reader by [g]. *)
Definition ends_in {A} (g : reader -> reader) (m : ST reader A) (a : A) : Prop :=
  forall rd, exists l, m rd = (Ok a, g (set_sent l rd)).

Abbreviation sends_ok := (ends_in id).

Lemma same_sent rd : set_sent (sent_ rd) rd = rd.
Proof. by destruct rd. Qed.

Lemma sends_ok_bind {A B} g (m : ST reader A) (f : A -> ST reader B) a b :
  sends_ok m a -> ends_in g (f a) b -> ends_in g (mbind f m) b.
Proof.
  intros Hm Hf rd. destruct (Hm rd) as (l & E). destruct (Hf (set_sent l rd)) as (l' & E').
  exists l'. rewrite st_bind_eq, E. unfold id. by rewrite E'.
Qed.

Lemma sends_ok_send x : sends_ok (send x) tt.
Proof. intros rd. by eexists. Qed.
Lemma sends_ok_ret {A} (a : A) : sends_ok (mret a) a.
Proof. intros rd. exists (sent_ rd). cbn. by rewrite same_sent. Qed.
Lemma sends_ok_lift {A} (r : result A) a : r = Ok a -> sends_ok (st_lift r) a.
Proof. intros -> rd. exists (sent_ rd). cbn. by rewrite same_sent. Qed.
Lemma ends_in_modify g : ends_in g (st_modify g) tt.
Proof. intros rd. exists (sent_ rd). by rewrite same_sent. Qed.

#[local] Hint Resolve sends_ok_send sends_ok_ret ends_in_modify : py.

Section connecting.
Context (c : reader_config) (sv : server) (d : dict string Z).
Hypothesis Hmaria : rc_is_mariadb c = false.
Hypothesis Hauto : rc_auto_position c = Some (join ", " (map start_text d)).
Hypothesis Hd : Forall start_ok d.
Hypothesis Hne : d <> [].
Hypothesis Hlen : zlen d < 2 ^ 20.
Hypothesis Hsid : 0 <= rc_server_id c < 2 ^ 32.
Hypothesis Hreport : match rc_report_slave c with Some r => is_ok (report_encoded r (rc_server_id c) 0) = true | None => True end.

Lemma start_nonempty_text : true_str (rc_auto_position c) = Some (join ", " (map start_text d)).
Proof.
  rewrite Hauto. cbn. rewrite decide_False; [done|]. destruct d as [|kv [|kv' d']]; [done| |].
  - apply Forall_cons in Hd as [Hk _]. apply start_nonempty in Hk. cbn. by destruct (start_text kv).
  - apply Forall_cons in Hd as [Hk _]. apply start_nonempty in Hk. cbn. by destruct (start_text kv).
Qed.

Lemma register_succeeds : sends_ok (register_slave c) tt.
Proof.
  unfold register_slave. destruct (rc_report_slave c) as [r|]; [|eauto with py].
  destruct (report_encoded r (rc_server_id c) 0) eqn:E; [|done].
  eapply sends_ok_bind; [by apply sends_ok_lift|eauto with py].
Qed.

(** A reader with a start position connects. *)
Lemma connect_succeeds rd :
  exists l, connect_to_stream c sv rd =
    (Ok tt, set_connected_stream true (set_sent l (set_use_checksum (checksum_enabled sv) rd))).
Proof.
  destruct (dump_prelude c d Hd Hsid Hlen) as (prelude & data & Ep & _).
  unfold connect_to_stream. rewrite st_bind_eq. cbn [send st_modify]. rewrite st_bind_eq. cbn [st_modify].
  match goal with |- exists l, ?m ?rd1 = _ => enough (ends_in (set_connected_stream true) m tt) as Hm by (apply (Hm rd1)) end.
  eapply sends_ok_bind; [destruct (checksum_enabled sv); eauto with py|].
  eapply sends_ok_bind; [destruct (true_str (rc_slave_uuid c)); eauto with py|].
  eapply sends_ok_bind; [destruct (true_int (rc_slave_heartbeat c)); eauto with py|].
  eapply sends_ok_bind; [eauto with py|]. eapply sends_ok_bind; [apply register_succeeds|].
  rewrite Hmaria, start_nonempty_text. eapply sends_ok_bind; [by apply sends_ok_lift|].
  eapply sends_ok_bind; eauto with py.
Qed.
End connecting.

(** ** The whole program *)

(** A configuration that replicates from a set of GTIDs, given as the last
    transaction of each server, and a source with checksums and full row
    metadata. *)
Record gtid_session (c : reader_config) (sv : server) (allowed : list event_class) (d : dict string Z) : Prop := {
  gs_mariadb : rc_is_mariadb c = false;
  gs_auto : rc_auto_position c = Some (join ", " (map start_text d));
  gs_start : Forall start_ok d /\ d <> [] /\ zlen d < 2 ^ 20;
  gs_server_id : 0 <= rc_server_id c < 2 ^ 32;
  gs_report : match rc_report_slave c with Some r => is_ok (report_encoded r (rc_server_id c) 0) = true | None => True end;
  gs_checksum : checksum_enabled sv = true;
  gs_metadata : exists v, sv_row_metadata sv = Some v /\ upper v = "FULL";
  gs_all : true_int (rc_end_log_pos c) = None /\ true_int (rc_skip_to_timestamp c) = None /\ rc_freeze_schema c = false;
  gs_allowed : [GtidEventC; QueryEventC; XidEventC; TableMapEventC; WriteRowsEventC; UpdateRowsEventC; DeleteRowsEventC] ⊆ allowed
}.

(** The reader when it has connected and read nothing. *)
Definition opened_reader (c : reader_config) (l : list sent) : reader :=
  mkReader true true true true [] (rc_log_pos c) (rc_log_file c) false [0; 0; 0] l.

(** What it has sent by then. *)
Definition greeting (c : reader_config) (sv : server) : list sent := sent_ (snd (connect_to_stream c sv (reader_init c))).

Section program.
Context {P : Type} `{MysqlPacketLaws P} `{UnicodeTables}.
Context (cd : codecs) (ignore_decode_errors : bool) (json_depth : nat) (set_order : list string -> list string).
Context (c : reader_config) (sv : server) (allowed : list event_class) (d : dict string Z).
Hypothesis Hgs : gtid_session c sv allowed d.

Lemma opened_ready l : ready (opened_reader c l).
Proof. done. Qed.

(** [fetchone] connects first when it has to. *)
Lemma fetch_reconnect (ps : list (incoming P)) rd rd1 :
  past_end rd = false -> past_end rd1 = false -> connected_stream rd1 = true -> connected_ctl rd1 = true ->
  ((if connected_stream rd then mret tt else connect_to_stream c sv) ;;
   (if connected_ctl rd then mret tt else connect_to_ctl sv)) rd = (Ok tt, rd1) ->
  fetchone c sv allowed ps rd = fetchone c sv allowed ps rd1.
Proof.
  intros Hp Hp1 Hs Hc Ec. rewrite st_bind_eq in Ec.
  assert (forall A (k : ST reader A), ((if connected_stream rd then mret tt else connect_to_stream c sv) ;;
    ((if connected_ctl rd then mret tt else connect_to_ctl sv) ;; k)) rd = k rd1) as Hk.
  { intros A k. rewrite st_bind_eq. destruct ((if connected_stream rd then mret tt else connect_to_stream c sv) rd) as [[[]|] rd2]; [|done].
    by rewrite st_bind_eq, Ec. }
  destruct ps as [|i ps]; cbn [fetchone]; rewrite (st_bind_eq _ st_get rd), (st_bind_eq _ st_get rd1); cbn [st_get];
    rewrite Hp, Hp1, Hs, Hc, Hk, !(st_bind_eq _ (mret tt)); cbn [mret ST_ret]; rewrite (st_bind_eq _ (mret tt)); done.
Qed.

(** The first [fetchone] connects. *)
Lemma fetch_connects (ps : list (incoming P)) :
  fetchone c sv allowed ps (reader_init c) = fetchone c sv allowed ps (opened_reader c (greeting c sv)).
Proof.
  destruct Hgs as [Hma Hau (Hst & Hne & Hlen) Hsid Hrep Hck (v & Hv & Hfull) _ _].
  destruct (connect_succeeds c sv d Hma Hau Hst Hne Hlen Hsid Hrep (reader_init c)) as (l & E).
  assert (greeting c sv = l) as -> by (unfold greeting; by rewrite E).
  assert (((if connected_stream (reader_init c) then mret tt else connect_to_stream c sv) ;;
           (if connected_ctl (reader_init c) then mret tt else connect_to_ctl sv)) (reader_init c) = (Ok tt, opened_reader c l)) as Ec.
  { cbn [reader_init connected_stream connected_ctl]. rewrite st_bind_eq, E. unfold connect_to_ctl, check_optional_meta_data.
    rewrite Hv, Hck, bool_decide_eq_true_2 by done. done. }
  by apply (fetch_reconnect ps (reader_init c) (opened_reader c l)).
Qed.

Lemma stream_connects ps :
  operation_stream set_order cd ignore_decode_errors json_depth c sv allowed ps (reader_init c) =
  operation_stream set_order cd ignore_decode_errors json_depth c sv allowed ps (opened_reader c (greeting c sv)).
Proof. unfold operation_stream. cbn [stream_loop]. by rewrite fetch_connects. Qed.

Lemma session_stream ps l :
  session cd ignore_decode_errors json_depth set_order c sv allowed (opened_reader c (greeting c sv)) ps l ->
  fst (operation_stream set_order cd ignore_decode_errors json_depth c sv allowed (map InPacket ps ++ [InEof]) (reader_init c)) =
  session_items locals_init l.
Proof.
  intros Hse. destruct Hgs as [_ _ _ _ _ _ _ (He & Hs & Hf) Hal]. rewrite stream_connects. unfold operation_stream.
  apply stream_loop_session; try done. rewrite length_app, length_map. cbn. lia.
Qed.


(** A complete run of the program. *)
Lemma program_converges {C : Type} `{TargetLaws C} `{!TargetHealthy C}
    (veq : pyval -> pyval -> bool) (reserved : string -> bool) (cfg : settings) (ddl : string -> db -> db) (now : nat -> Z)
    (con0 : C) (fs : files) (auto_position : string) (s : sync C)
    (ps : list P) (l : list (Z * bool * list operation * reader)) (ts : list trx) (d0 d1 e0 : db) :
  (forall v, is_null v = false -> veq v v = true) ->
  sync_init con0 fs auto_position = Ok (join ", " (map start_text d), s) ->
  healthy con0 -> pending con0 = [] ->
  session cd ignore_decode_errors json_depth set_order c sv allowed (opened_reader c (greeting c sv)) ps l ->
  match l with (_, true, _, _) :: _ => False | _ => True end ->
  log_operations l = stream_of ts -> Forall trx_fine ts ->
  history veq reserved cfg ddl d0 ts d1 -> wf_db veq reserved cfg d0 -> agree cfg d0 (target_db veq reserved ddl e0 s) ->
  exists s', Sync.run now cfg
      (fst (operation_stream set_order cd ignore_decode_errors json_depth c sv allowed (map InPacket ps ++ [InEof]) (reader_init c))) s
      = (Ok false, s') /\
    sopen s' = [] /\ agree cfg d1 (target_db veq reserved ddl e0 s').
Proof.
  intros Hveq Hinit Hhe Hpe Hse Hhb Hops Hts Hh Hwf Hag. rewrite (session_stream ps l Hse).
  destruct (session_items_ok locals_init l) as (its & -> & Hits); [by destruct l as [|[[[? []] ?] ?] ?]|].
  unfold sync_init in Hinit. destruct (get_checkpoint_gtidset fs auto_position); [|done]. injection Hinit as _ <-.
  destruct (run_total now cfg ts its
    (mkSync (client_init con0) metric_init (-1) false false [] None fs 0 0 0 false false)) as (s' & E & Hdone & Hopen).
  - done.
  - done.
  - split; cbn; [done|by rewrite Hpe].
  - exact Hpe.
  - by intros [|].
  - done.
  - by rewrite Hits.
  - exists s'. split; [done|]. split; [done|]. unfold target_db in *. rewrite Hdone, apply_actions_app.
    by eapply (history_replayed veq reserved cfg ddl Hveq d0 ts d1).
Qed.

End program.

(** ** A session

    The start position 1-22, a rotate event, a format description, and the
    transaction of [EndToEnd]. *)

Definition ex_start : dict string Z := [(ex_uuid, 22)].
Definition ex_gtid_config : reader_config :=
  mkReaderConfig 1 false false None None true None None None (Some (join ", " (map start_text ex_start))) no_filters false None None None None None false false true.
Definition ex_rotate : bytes := encode_rotate 4 (bytes_of_string "binlog.2").
Definition ex_format : bytes := encode_format 4 0 (bytes_of_string "8.0.30-log") (repeat 56 41) 1.
Definition ex_session_packets : list list_packet :=
  ex_send 0 0 0x04 ex_rotate :: ex_send 0 0 0x0F ex_format :: ex_packets.

Lemma ex_gtid_session : gtid_session ex_gtid_config ex_server ex_allowed ex_start.
Proof.
  split; try done.
  - split; [|done]. apply Forall_singleton. split; [vm_compute; reflexivity|cbn [snd]; lia].
  - by exists "FULL".
  - apply ex_allowed_ok.
Qed.

Lemma ex_framed ts pos ty body :
  u32 ts -> 0 <= ty < 256 -> u32 (23 + zlen body) -> u32 pos -> bytes_ok body -> framed (ex_send ts pos ty body) ts pos ty body.
Proof.
  intros ? ? ? ? ?. exists 1, 0, [0; 0; 0; 0]. change (zlen [0; 0; 0; 0]) with 4. unfold u32 in *.
  repeat split; try lia; try done. repeat constructor; unfold byte_ok; lia.
Qed.

(** Of the configuration, a transmission depends on the filters only. *)
Lemma transmission_config {P : Type} `{MysqlPacketLaws P} `{UnicodeTables} cd ide jd so (c c' : reader_config) sv v tm (ps : list P) tl :
  rc_filters c = rc_filters c' ->
  transmission cd ide jd so c sv v tm ps tl -> transmission cd ide jd so c' sv v tm ps tl.
Proof.
  intros Hf Htr. induction Htr as [tm|tm p ts pos ty body ops tm' ps tl Hp Hc Htr IH]; [constructor|].
  econstructor; [exact Hp| |exact IH]. destruct Hc.
  - by apply carries_gtid.
  - by eapply carries_query.
  - by apply carries_xid.
  - eapply carries_table_map; try done. by rewrite <- Hf.
  - eapply carries_rows; try done. by rewrite <- Hf.
Qed.

(** What is sent on a connected reader is a session. *)
Lemma transmission_session ps tl rd :
  transmission (P:=list_packet) no_codecs false 10 (fun l => l) ex_gtid_config ex_server (mysql_version rd) (rd_table_map rd) ps tl ->
  exists l, session no_codecs false 10 (fun l => l) ex_gtid_config ex_server ex_allowed rd ps l /\
    log_operations l = mjoin (map snd tl) /\ match l with (_, true, _, _) :: _ => False | _ => True end.
Proof.
  intros Htr. remember (mysql_version rd) as v eqn:Hv. remember (rd_table_map rd) as tm eqn:Htm.
  revert rd Hv Htm. induction Htr as [tm|tm p ts pos ty body ops tm' ps tl Hp Hc Htr IH]; intros rd -> ->.
  - exists []. split; [constructor|done].
  - destruct (IH (set_table_map tm' (set_log_pos (Some pos) rd)) eq_refl eq_refl) as (l & Hs & Ho & _).
    eexists. split; [eapply session_cons; [by eapply delivers_data|exact Hs]|]. split; [|done].
    rewrite log_operations_cons, Ho. reflexivity.
Qed.

Lemma ex_session :
  exists l, session no_codecs false 10 (fun l => l) ex_gtid_config ex_server ex_allowed
      (opened_reader ex_gtid_config (greeting ex_gtid_config ex_server)) ex_session_packets l /\
    log_operations l = stream_of [ex_trx] /\ match l with (_, true, _, _) :: _ => False | _ => True end.
Proof.
  destruct (format_reads (P:=list_packet) 4 0 (bytes_of_string "8.0.30-log") (repeat 56 41) 1 [8; 0; 30]) as (fd & Hfd & Hr);
    [lia|lia|vm_compute; lia|done|by eexists _, _|repeat constructor; unfold byte_ok; lia|cbn; lia|].
  set (rd1 := after_notice (P:=list_packet) (ERotate 4 "binlog.2") 0 0 (opened_reader ex_gtid_config (greeting ex_gtid_config ex_server))).
  set (rd2 := after_notice (P:=list_packet) (EFormatDescription fd) 0 0 rd1).
  destruct (transmission_session ex_packets ex_log rd2) as (l & Hs & Ho & _).
  { unfold rd2. cbn. rewrite Hfd. apply (transmission_config _ _ _ _ ex_config); [done|apply ex_transmission]. }
  eexists. split; [|split].
  - eapply session_cons; [eapply delivers_notice with (pos := 0) (ty := 4) (body := ex_rotate) (e := ERotate 4 "binlog.2"); [apply ex_framed; vm_compute; repeat constructor; done| |reflexivity]|].
    { split; [by apply rotate_reads|]. split; [|done]. apply (bool_decide_unpack _). vm_compute. exact I. }
    eapply session_cons; [eapply delivers_notice with (pos := 0) (ty := 15) (body := ex_format) (e := EFormatDescription fd); [apply ex_framed; vm_compute; repeat constructor; done| |reflexivity]|exact Hs].
    split; [exact Hr|]. split; [|done]. apply (bool_decide_unpack _). vm_compute. exact I.
  - rewrite !log_operations_cons, Ho. reflexivity.
  - done.
Qed.


