(* ===== verification/Settings.v ===== *)
(** * The settings of the repository

    [settings.py]: the source and the synchronisation settings that come with
    the program, as the arguments they give the constructors in [main.py] and
    [binlogstream.py].  With them the program meets the conditions under which
    it replicates. *)

From stdpp Require Import base list strings sets gmap.
From Stdlib Require Import ZArith Lia Ascii.
From S2P Require Import Prelude PyBytes PyStr Values UtilBytes Packet Column GtidText Sql SqlText Metric Checkpoint Client Sync SyncLive RowValues RowsEvent RowCells TableMap TableMapEvent Ddl Dispatch Stream Resume Replication EndToEnd Converge Session.
Open Scope string_scope.
Open Scope Z_scope.

(** [source_settings["auto_position"]] *)
Definition settings_auto_position : string := "a8d55263-1a60-11ef-b60e-0242ac130006:1".

(** The keyword arguments of [BinLogStreamReader] made of [source_settings],
    with the defaults of the others; [MysqlSync] has replaced
    [auto_position] by the start position [start]. *)
Definition source_settings (start : string) : reader_config :=
  mkReaderConfig 9999 false true None (Some [RowsQueryLogEventC]) true None None None (Some start) no_filters false None
    (match report_slave (RvText "myqslsync") with Ok r => Some r | Err _ => None end) None (Some 10) None false false false.

(** [sync_settings], and the checkpoint interval of [MysqlSync.__init__], which
    is the heartbeat period of the source settings. *)
Definition sync_settings : settings := mkSettings true (10 * 1000000) [].

Definition settings_start : dict string Z := [("a8d55263-1a60-11ef-b60e-0242ac130006", 1)].

(** The events the reader lets through. *)
Definition settings_allowed : list event_class :=
  match allowed_event_list None (Some [RowsQueryLogEventC]) true with Ok l => l | Err _ => [] end.

(** The start position without a checkpoint file. *)
Lemma settings_position {C : Type} (con0 : C) (fs : files) :
  dict_get fs "ckpt.json" = None ->
  exists s, sync_init con0 fs settings_auto_position = Ok (join ", " (map start_text settings_start), s) /\ mc s = client_init con0.
Proof.
  intros Hfs. unfold sync_init, get_checkpoint_gtidset.
  assert (format_gtidset settings_auto_position = Ok settings_start) as -> by (vm_compute; reflexivity).
  cbn [mbind result_bind]. rewrite Hfs. eexists. split; [vm_compute; reflexivity|done].
Qed.

Lemma settings_session (sv : server) :
  checksum_enabled sv = true -> (exists v, sv_row_metadata sv = Some v /\ upper v = "FULL") ->
  gtid_session (source_settings (join ", " (map start_text settings_start))) sv settings_allowed settings_start.
Proof.
  intros Hck Hmd. split; try done.
  - split; [|done]. apply Forall_singleton. split; [vm_compute; reflexivity|cbn [snd]; lia].
  - apply (bool_decide_unpack _). vm_compute. exact I.
Qed.

(** The settings work: with the repository's [settings.py], no checkpoint file,
    and a source with binlog checksums and full row metadata, the program
    replicates. *)
Theorem settings_replicate {P : Type} `{MysqlPacketLaws P} `{UnicodeTables} {C : Type} `{TargetLaws C} `{!TargetHealthy C}
    (cd : codecs) (ignore_decode_errors : bool) (json_depth : nat) (set_order : list string -> list string) (sv : server)
    (veq : pyval -> pyval -> bool) (reserved : string -> bool) (ddl : string -> db -> db) (now : nat -> Z)
    (con0 : C) (fs : files) (ps : list P) (l : list (Z * bool * list operation * reader)) (ts : list trx) (d0 d1 e0 : db) :
  let c := source_settings (join ", " (map start_text settings_start)) in
  (forall v, is_null v = false -> veq v v = true) ->
  checksum_enabled sv = true -> (exists v, sv_row_metadata sv = Some v /\ upper v = "FULL") ->
  dict_get fs "ckpt.json" = None -> healthy con0 -> pending con0 = [] -> committed con0 = [] ->
  session cd ignore_decode_errors json_depth set_order c sv settings_allowed (opened_reader c (greeting c sv)) ps l ->
  match l with (_, true, _, _) :: _ => False | _ => True end ->
  log_operations l = stream_of ts -> Forall trx_fine ts ->
  history veq reserved sync_settings ddl d0 ts d1 -> wf_db veq reserved sync_settings d0 -> agree sync_settings d0 e0 ->
  exists s s', sync_init con0 fs settings_auto_position = Ok (join ", " (map start_text settings_start), s) /\
    Sync.run now sync_settings
      (fst (operation_stream set_order cd ignore_decode_errors json_depth c sv settings_allowed (map InPacket ps ++ [InEof])%list (reader_init c))) s
      = (Ok false, s') /\
    agree sync_settings d1 (target_db veq reserved ddl e0 s').
Proof.
  intros c Hveq Hck Hmd Hfs Hhe Hpe Hco Hse Hhb Hops Hts Hh Hwf Hag.
  destruct (settings_position con0 fs Hfs) as (s & Hinit & Hmc).
  destruct (program_converges cd ignore_decode_errors json_depth set_order c sv settings_allowed settings_start
    (settings_session sv Hck Hmd) veq reserved sync_settings ddl now con0 fs settings_auto_position s ps l ts d0 d1 e0)
    as (s' & E & _ & Hend); try done.
  - unfold target_db, sdone, done_of. rewrite Hmc. cbn. by rewrite Hco.
  - by exists s, s'.
Qed.
