(* ===== verification/BakClient.v ===== *)
(** * The client of the earlier program

    [main.bak1.py], class [MysqlClient], the version of the program before
    [main.py]: it keeps its own flag [active_trx] instead of asking the
    connection, and its [push_nondml] does not commit first.  The connection
    is the one of [Client]. *)

From stdpp Require Import base list strings sets.
From Stdlib Require Import ZArith Lia Ascii.
From S2P Require Import Prelude PyBytes PyStr Values Client.
Open Scope string_scope.
Open Scope Z_scope.

Record bak_client (C : Type) := mkBakClient { b_con : C; b_dml_cnt : Z; b_active_trx : bool }.
Arguments mkBakClient {C}.
Arguments b_con {C}.
Arguments b_dml_cnt {C}.
Arguments b_active_trx {C}.

Section client.
Context {C : Type} `{TargetConnection C}.

Definition on_bak_con (m : ST C unit) : ST (bak_client C) unit := fun s =>
  let '(r, c') := m (b_con s) in (r, mkBakClient c' (b_dml_cnt s) (b_active_trx s)).

Definition set_active (b : bool) : ST (bak_client C) unit :=
  st_modify (fun s => mkBakClient (b_con s) (b_dml_cnt s) b).

(** [MysqlClient.__init__] on an open connection. *)
Definition bak_client_init (c : C) : bak_client C := mkBakClient c 0 false.

Definition bak_push_begin : ST (bak_client C) unit :=
  s ← st_get;
  if b_active_trx s then mret tt
  else on_bak_con con_start_transaction ;; set_active true.

Definition bak_push_dml (sql_text : string) (params : list pyval) : ST (bak_client C) unit :=
  on_bak_con (con_execute sql_text params) ;;
  st_modify (fun s => mkBakClient (b_con s) (b_dml_cnt s + 1) (b_active_trx s)).

(** [if db:] is false for [None] and for the empty name. *)
Definition bak_push_nondml (db : option string) (sql_text : string) : ST (bak_client C) unit :=
  (match db with
   | None => mret tt
   | Some d => if decide (d = "") then mret tt else on_bak_con (con_set_database d)
   end) ;;
  on_bak_con (con_execute_ddl sql_text) ;;
  set_active false.

Definition bak_push_commit : ST (bak_client C) unit :=
  s ← st_get;
  (if (1 <=? b_dml_cnt s) && b_active_trx s then on_bak_con con_commit else on_bak_con con_rollback) ;;
  st_modify (fun s => mkBakClient (b_con s) 0 false).

Definition bak_push_rollback : ST (bak_client C) unit := on_bak_con con_rollback.
End client.

(** ** Weakest preconditions

    [wp m Q E s]: run on [s], [m] returns with [Q] or raises with [E]. *)

Definition wp {S A} (m : ST S A) (Q : A -> S -> Prop) (E : S -> Prop) (s : S) : Prop :=
  match m s with (Ok a, s') => Q a s' | (Err _, s') => E s' end.

Section wp.
Context {S : Type}.
Implicit Types (s : S) (E : S -> Prop).

Lemma wp_bind {A B} (m : ST S A) (f : A -> ST S B) Q E s :
  wp m (fun a => wp (f a) Q E) E s -> wp (mbind f m) Q E s.
Proof. unfold wp. rewrite st_bind_eq. by destruct (m s) as [[a|e] s']. Qed.

Lemma wp_ret {A} (a : A) Q E s : Q a s -> wp (mret a) Q E s.
Proof. done. Qed.

Lemma wp_get Q E s : Q s s -> wp st_get Q E s.
Proof. done. Qed.

Lemma wp_modify (f : S -> S) (Q : unit -> S -> Prop) E s : Q tt (f s) -> wp (st_modify f) Q E s.
Proof. done. Qed.

Lemma wp_lift {A} (r : result A) (Q : A -> S -> Prop) E s :
  (forall a, r = Ok a -> Q a s) -> E s -> wp (st_lift r) Q E s.
Proof. unfold wp, st_lift. destruct r; eauto. Qed.

Lemma wp_raise {A} e (Q : A -> S -> Prop) E s : E s -> wp (st_raise e) Q E s.
Proof. done. Qed.

Lemma wp_try {A} (m : ST S A) (h : exn -> ST S A) Q E s :
  wp m Q (fun s' => forall e, wp (h e) Q E s') s -> wp (st_try m h) Q E s.
Proof. unfold wp, st_try. destruct (m s) as [[a|e] s']; [done|]. intros Hh. apply (Hh e). Qed.

Lemma wp_mono {A} (m : ST S A) (Q Q' : A -> S -> Prop) E E' s :
  wp m Q E s -> (forall a s', Q a s' -> Q' a s') -> (forall s', E s' -> E' s') -> wp m Q' E' s.
Proof. unfold wp. destruct (m s) as [[a|e] s']; auto. Qed.

Lemma wp_run {A} (m : ST S A) (R : S -> Prop) s r s' :
  wp m (fun _ => R) R s -> m s = (r, s') -> R s'.
Proof. unfold wp. intros Hw E. rewrite E in Hw. by destruct r. Qed.
End wp.

(** Follow the program. *)
Ltac wp_step :=
  lazymatch goal with
  | |- wp (mbind _ _) _ _ _ => apply wp_bind
  | |- wp (mret _) _ _ _ => apply wp_ret
  | |- wp st_get _ _ _ => apply wp_get
  | |- wp (st_modify _) _ _ _ => apply wp_modify
  | |- wp (st_raise _) _ _ _ => apply wp_raise
  | |- wp (st_try _ _) _ _ _ => apply wp_try
  end.
Ltac wp_steps := cbv beta iota; repeat (wp_step; cbv beta iota).

(** ** What the client does to the target *)

Section laws.
Context {C : Type} `{TargetLaws C}.
Implicit Types s : bak_client C.

Definition bdone s : list action := committed (b_con s).
Definition bopen s : list action := pending (b_con s).

(** The statements of an open transaction are counted and the flag says that
    it is open. *)
Definition bak_inv s : Prop :=
  0 <= b_dml_cnt s /\ (bopen s <> [] -> 1 <= b_dml_cnt s /\ b_active_trx s = true).

(** A statement that fails commits nothing of itself: what was committed
    before, or that and all that was pending. *)
Definition bak_same_or_all s s' : Prop := bdone s' = bdone s \/ bdone s' = (bdone s ++ bopen s)%list.

Lemma bak_begin_wp s :
  bak_inv s ->
  wp bak_push_begin
    (fun _ s' => bdone s' = bdone s /\ bopen s' = bopen s /\ bak_inv s' /\ b_active_trx s' = true)
    (fun s' => bdone s' = bdone s) s.
Proof.
  intros Hi. unfold bak_push_begin. wp_steps. destruct (b_active_trx s) eqn:Ha; [wp_steps; done|].
  destruct Hi as [Hn Hp].
  assert (bopen s = []) as Hpe.
  { destruct (bopen s) eqn:E; [done|]. destruct (Hp ltac:(done)) as [_ Hb]. congruence. }
  unfold wp, set_active, on_bak_con, st_modify, mbind, ST_bind.
  unfold bak_inv, bdone, bopen in *. destruct (con_start_transaction (b_con s)) as [[[]|e] c'] eqn:E; cbn.
  - apply start_ok in E as (-> & Hpc). rewrite (Hpc Hpe), Hpe. split; [done|]. split; [done|]. done.
  - by apply start_err in E as (-> & _).
Qed.

Lemma bak_dml_wp sql ps s :
  bak_inv s -> b_active_trx s = true ->
  wp (bak_push_dml sql ps)
    (fun _ s' => bdone s' = bdone s /\ bopen s' = (bopen s ++ [ADml sql ps])%list /\ bak_inv s' /\ b_active_trx s' = true)
    (fun s' => bdone s' = bdone s) s.
Proof.
  intros [Hn Hp] Ha. unfold wp, bak_push_dml, on_bak_con, st_modify, mbind, ST_bind, bak_inv, bdone, bopen in *.
  destruct (con_execute sql ps (b_con s)) as [[[]|e] c'] eqn:E; cbn.
  - apply execute_ok in E as (-> & -> & _). rewrite Ha. repeat split; lia.
  - by apply execute_err in E as (-> & _).
Qed.

Lemma bak_commit_wp s :
  bak_inv s ->
  wp bak_push_commit
    (fun _ s' => bdone s' = (bdone s ++ bopen s)%list /\ bopen s' = [] /\ bak_inv s')
    (fun s' => bak_same_or_all s s') s.
Proof.
  intros [Hn Hp]. unfold bak_push_commit. wp_steps. unfold bak_same_or_all.
  unfold wp, on_bak_con, st_modify, mbind, ST_bind, bak_inv, bdone, bopen in *.
  destruct ((1 <=? b_dml_cnt s) && b_active_trx s) eqn:Hc.
  - destruct (con_commit (b_con s)) as [[[]|e] c'] eqn:E; cbn.
    + apply commit_ok in E as [-> ->]. done.
    + apply commit_err in E as [[-> _]|[-> _]]; eauto.
  - assert (pending (b_con s) = []) as Hpe.
    { destruct (pending (b_con s)); [done|]. destruct (Hp ltac:(done)) as [H1 H2].
      rewrite H2, andb_true_r in Hc. apply Z.leb_gt in Hc. lia. }
    destruct (con_rollback (b_con s)) as [[[]|e] c'] eqn:E; cbn; apply rollback_same in E as (-> & Hpc); [|eauto].
    rewrite Hpe in *. rewrite app_nil_r. assert (pending c' = []) as -> by naive_solver. done.
Qed.

Lemma bak_nondml_wp db sql s :
  bak_inv s ->
  wp (bak_push_nondml db sql)
    (fun _ s' => bdone s' = (bdone s ++ bopen s ++ [ADdl sql])%list /\ bopen s' = [] /\ bak_inv s')
    (fun s' => bak_same_or_all s s') s.
Proof.
  intros [Hn Hp]. unfold bak_push_nondml.
  assert (forall s1, bdone s1 = bdone s -> bopen s1 = bopen s -> b_dml_cnt s1 = b_dml_cnt s ->
    wp (on_bak_con (con_execute_ddl sql) ;; set_active false)
      (fun _ s' => bdone s' = (bdone s ++ bopen s ++ [ADdl sql])%list /\ bopen s' = [] /\ bak_inv s')
      (fun s' => bak_same_or_all s s') s1) as Hddl.
  { intros s1 Hd Ho Hc. unfold bak_same_or_all. rewrite <- Hd, <- Ho.
    unfold wp, set_active, on_bak_con, st_modify, mbind, ST_bind, bak_inv, bdone, bopen in *.
    destruct (con_execute_ddl sql (b_con s1)) as [[[]|e] c'] eqn:E; cbn.
    - apply ddl_ok in E as (-> & ->). rewrite Hc. done.
    - apply ddl_err in E as [[-> _]|[-> _]]; eauto. }
  wp_steps. destruct db as [d|]; [|apply wp_ret; by apply Hddl]. case_decide; [apply wp_ret; by apply Hddl|].
  unfold wp at 1, on_bak_con at 1. destruct (con_set_database d (b_con s)) as [[[]|e] c'] eqn:E;
    apply database_same in E as [? ?]; [by apply Hddl|by left].
Qed.
End laws.

(** The connection gains nothing from the flag when nothing was begun: a
    statement outside [push_begin] is rolled back by [push_commit]. *)
Example bak_statement_without_begin :
  let '(r, s) := (bak_push_dml "a" [] ;; bak_push_commit) (bak_client_init (mkJournal [] [] false [])) in
  r = Ok tt /\ bdone s = [] /\ bopen s = [].
Proof. vm_compute. done. Qed.
