(* ===== verification/BakSync.v ===== *)
(** * The earlier program: checkpoints and synchronisation loop

    [main.bak1.py], classes [Checkpoint] and [MysqlSync], the version before
    [main.py].  It differs from [main.py] in what it keeps (a dictionary of
    statistics), in when it writes the checkpoint (inside [__merge_commit],
    after a commit, when ten seconds have passed), and in that it reads back
    the file it writes.  Its operation classes, SQL generation, DDL patterns,
    value conversion, event handlers and table filter have the text of
    [main.py]; they are the definitions of [Sql], [Ddl] and [Replication].

    After the first merged commit [self.checkpoint_gtidset] and
    [self.latest_gtidset] are the same dictionary object: [CkShared].
    What the program prints is not modelled, but evaluating it is: before the
    first merged commit [checkpoint_gtidset] is a string, which has no
    [items()]. *)

From stdpp Require Import base list strings sets.
From Stdlib Require Import ZArith Lia Ascii.
From S2P Require Import Prelude PyBytes PyStr Values Column Sql Metric Checkpoint Client Sync BakClient.
Open Scope string_scope.
Open Scope Z_scope.

(** [DDLType] has the constructors of [NonDMLType]; [name.lower()] *)
Definition bak_ddl_name (t : NonDMLType) : string :=
  match t with
  | CREATEDATABASE => "createdatabase"
  | DROPDATABASE => "dropdatabase"
  | ALTERDATABASE => "alterdatabase"
  | CREATETABLE => "createtable"
  | ALTERTABLE => "altertable"
  | DROPTABLE => "droptable"
  | RENAMETABLE => "renametable"
  | TRUNCATETABLE => "truncatetable"
  | CREATEINDEX => "createindex"
  end.

(** ** [parse_gtidset] *)

Definition in_range (lo hi : Z) (c : ascii) : bool := (lo <=? code c) && (code c <=? hi).

(** [[a-zA-Z0-9]] and [[a-zA-Z0-_]], in which [0-_] is a range. *)
Definition alnum (c : ascii) : bool := in_range 97 122 c || in_range 65 90 c || in_range 48 57 c.
Definition alnum_wide (c : ascii) : bool := in_range 97 122 c || in_range 65 90 c || in_range 48 95 c.

(** [class{n}]: the matched text and the rest. *)
Fixpoint take_class (p : ascii -> bool) (n : nat) (s : string) : option (string * string) :=
  match n with
  | O => Some ("", s)
  | S n' =>
      match s with
      | String c s' =>
          if p c then '(t, r) ← take_class p n' s'; Some (String c t, r) else None
      | EmptyString => None
      end
  end.

Definition take_char (c : ascii) (s : string) : option string :=
  match s with
  | String c' s' => if decide (c = c') then Some s' else None
  | EmptyString => None
  end.

(** [[0-9]+], greedy; what follows it in the pattern is no digit. *)
Fixpoint take_digits (s : string) : string * string :=
  match s with
  | String c s' => if in_range 48 57 c then let '(t, r) := take_digits s' in (String c t, r) else ("", s)
  | EmptyString => ("", "")
  end.

(** [$] matches at the end and before a newline at the end. *)
Definition at_end (s : string) : bool :=
  match s with
  | EmptyString => true
  | String c EmptyString => code c =? 10
  | _ => false
  end.

(** The groups of [gtid_re.search], which begins with [^]. *)
Definition gtid_re_match (gtid : string) : option (string * string) :=
  '(a, s) ← take_class alnum 8 gtid; s ← take_char "-" s;
  '(b, s) ← take_class alnum 4 s; s ← take_char "-" s;
  '(c, s) ← take_class alnum_wide 4 s; s ← take_char "-" s;
  '(d, s) ← take_class alnum 4 s; s ← take_char "-" s;
  '(e, s) ← take_class alnum 12 s; s ← take_char ":" s;
  let '(n, s) := take_digits s in
  s ← (if decide (n = "") then None else take_char "-" s);
  let '(x, s) := take_digits s in
  if decide (x = "") then None
  else if at_end s then Some (a ++ "-" ++ b ++ "-" ++ c ++ "-" ++ d ++ "-" ++ e, x)
  else None.

Definition parse_gtidset_entry (d : dict string Z) (gtid : string) : result (dict string Z) :=
  match gtid_re_match gtid with
  | Some (server_uuid, xid) => x ← int_of_str xid; Ok (dict_set d server_uuid x)
  | None => Err (PyException ("gtid set format error " ++ gtid))
  end.

Definition parse_gtidset (gtidset_str : string) : result (dict string Z) :=
  foldM_result parse_gtidset_entry (split_on "," gtidset_str) [].

(** ** [Checkpoint] *)

(** [__get_checkpoint_gtidset] is the one of [main.py]. *)
Definition bak_get_checkpoint_gtidset : files -> string -> result string := get_checkpoint_gtidset.

Definition bak_persist_checkpoint (gtidset : dict string Z) (fs : files) : files :=
  dict_set fs "ckpt.json" (FJson gtidset).

(** ** [MysqlSync] *)

(** [self.checkpoint_gtidset]: the text of the [Checkpoint] object, or the
    object [self.latest_gtidset]. *)
Inductive ckpt_ref := CkText (text : string) | CkShared.

Record bak_sync (C : Type) := mkBakSync {
  bs_mc : bak_client C;
  statistics : dict string Z;
  bs_last_committed : Z;
  bs_allow_commit : bool;
  bs_last_heartbeat : bool;                      (* type(self.last_operation) == OperationHeartbeat *)
  bs_allow_checkpoint : bool;
  bs_checkpoint : ckpt_ref;
  bs_checkpoint_position : option position;
  bs_latest : dict string Z;
  bs_position : option position;
  bs_dir : files;
  bs_ticks : nat;
  (* local variables of [run] *)
  bs_ts_0 : Z;
  bs_timestamp : Z
}.
Arguments mkBakSync {C}.
Arguments bs_mc {C}.
Arguments statistics {C}.
Arguments bs_last_committed {C}.
Arguments bs_allow_commit {C}.
Arguments bs_last_heartbeat {C}.
Arguments bs_allow_checkpoint {C}.
Arguments bs_checkpoint {C}.
Arguments bs_checkpoint_position {C}.
Arguments bs_latest {C}.
Arguments bs_position {C}.
Arguments bs_dir {C}.
Arguments bs_ticks {C}.
Arguments bs_ts_0 {C}.
Arguments bs_timestamp {C}.

Section sync.
Context {C : Type} `{TargetConnection C} (now : nat -> Z) (cfg : settings).

Abbreviation BM := (ST (bak_sync C)).

(** *** Assignments *)

Definition bs_set_mc (x : bak_client C) (s : bak_sync C) : bak_sync C :=
  mkBakSync x (statistics s) (bs_last_committed s) (bs_allow_commit s) (bs_last_heartbeat s) (bs_allow_checkpoint s)
    (bs_checkpoint s) (bs_checkpoint_position s) (bs_latest s) (bs_position s) (bs_dir s) (bs_ticks s) (bs_ts_0 s) (bs_timestamp s).
Definition bs_set_statistics (x : dict string Z) (s : bak_sync C) : bak_sync C :=
  mkBakSync (bs_mc s) x (bs_last_committed s) (bs_allow_commit s) (bs_last_heartbeat s) (bs_allow_checkpoint s)
    (bs_checkpoint s) (bs_checkpoint_position s) (bs_latest s) (bs_position s) (bs_dir s) (bs_ticks s) (bs_ts_0 s) (bs_timestamp s).
Definition bs_set_last_committed (x : Z) (s : bak_sync C) : bak_sync C :=
  mkBakSync (bs_mc s) (statistics s) x (bs_allow_commit s) (bs_last_heartbeat s) (bs_allow_checkpoint s)
    (bs_checkpoint s) (bs_checkpoint_position s) (bs_latest s) (bs_position s) (bs_dir s) (bs_ticks s) (bs_ts_0 s) (bs_timestamp s).
Definition bs_set_allow_commit (x : bool) (s : bak_sync C) : bak_sync C :=
  mkBakSync (bs_mc s) (statistics s) (bs_last_committed s) x (bs_last_heartbeat s) (bs_allow_checkpoint s)
    (bs_checkpoint s) (bs_checkpoint_position s) (bs_latest s) (bs_position s) (bs_dir s) (bs_ticks s) (bs_ts_0 s) (bs_timestamp s).
Definition bs_set_last_heartbeat (x : bool) (s : bak_sync C) : bak_sync C :=
  mkBakSync (bs_mc s) (statistics s) (bs_last_committed s) (bs_allow_commit s) x (bs_allow_checkpoint s)
    (bs_checkpoint s) (bs_checkpoint_position s) (bs_latest s) (bs_position s) (bs_dir s) (bs_ticks s) (bs_ts_0 s) (bs_timestamp s).
Definition bs_set_allow_checkpoint (x : bool) (s : bak_sync C) : bak_sync C :=
  mkBakSync (bs_mc s) (statistics s) (bs_last_committed s) (bs_allow_commit s) (bs_last_heartbeat s) x
    (bs_checkpoint s) (bs_checkpoint_position s) (bs_latest s) (bs_position s) (bs_dir s) (bs_ticks s) (bs_ts_0 s) (bs_timestamp s).
Definition bs_set_checkpoint (x : ckpt_ref) (p : option position) (s : bak_sync C) : bak_sync C :=
  mkBakSync (bs_mc s) (statistics s) (bs_last_committed s) (bs_allow_commit s) (bs_last_heartbeat s) (bs_allow_checkpoint s)
    x p (bs_latest s) (bs_position s) (bs_dir s) (bs_ticks s) (bs_ts_0 s) (bs_timestamp s).
Definition bs_set_latest (g : dict string Z) (p : option position) (s : bak_sync C) : bak_sync C :=
  mkBakSync (bs_mc s) (statistics s) (bs_last_committed s) (bs_allow_commit s) (bs_last_heartbeat s) (bs_allow_checkpoint s)
    (bs_checkpoint s) (bs_checkpoint_position s) g p (bs_dir s) (bs_ticks s) (bs_ts_0 s) (bs_timestamp s).
Definition bs_set_dir (x : files) (s : bak_sync C) : bak_sync C :=
  mkBakSync (bs_mc s) (statistics s) (bs_last_committed s) (bs_allow_commit s) (bs_last_heartbeat s) (bs_allow_checkpoint s)
    (bs_checkpoint s) (bs_checkpoint_position s) (bs_latest s) (bs_position s) x (bs_ticks s) (bs_ts_0 s) (bs_timestamp s).
Definition bs_set_ts_0 (x : Z) (s : bak_sync C) : bak_sync C :=
  mkBakSync (bs_mc s) (statistics s) (bs_last_committed s) (bs_allow_commit s) (bs_last_heartbeat s) (bs_allow_checkpoint s)
    (bs_checkpoint s) (bs_checkpoint_position s) (bs_latest s) (bs_position s) (bs_dir s) (bs_ticks s) x (bs_timestamp s).
Definition bs_set_timestamp (x : Z) (s : bak_sync C) : bak_sync C :=
  mkBakSync (bs_mc s) (statistics s) (bs_last_committed s) (bs_allow_commit s) (bs_last_heartbeat s) (bs_allow_checkpoint s)
    (bs_checkpoint s) (bs_checkpoint_position s) (bs_latest s) (bs_position s) (bs_dir s) (bs_ticks s) (bs_ts_0 s) x.

(** *** Helpers *)

(** [time.time()] *)
Definition bak_time : BM Z := fun s =>
  (Ok (now (bs_ticks s)),
   mkBakSync (bs_mc s) (statistics s) (bs_last_committed s) (bs_allow_commit s) (bs_last_heartbeat s) (bs_allow_checkpoint s)
     (bs_checkpoint s) (bs_checkpoint_position s) (bs_latest s) (bs_position s) (bs_dir s) (S (bs_ticks s)) (bs_ts_0 s) (bs_timestamp s)).

Definition on_bak_mc (m : ST (bak_client C) unit) : BM unit := fun s =>
  let '(r, c') := m (bs_mc s) in (r, bs_set_mc c' s).

(** [self.statistics[key] += 1] *)
Definition stat_add (key : string) : BM unit :=
  s ← st_get;
  v ← st_lift (dict_index (statistics s) key);
  st_modify (bs_set_statistics (dict_set (statistics s) key (v + 1))).

(** [self.statistics[key] = self.statistics.get(key, 0) + 1] *)
Definition stat_get_add (key : string) : BM unit :=
  st_modify (fun s => bs_set_statistics
    (dict_set (statistics s) key (default 0 (dict_get (statistics s) key) + 1)) s).

(** [self.checkpoint_gtidset.items()] *)
Definition checkpoint_items : BM (dict string Z) :=
  s ← st_get;
  match bs_checkpoint s with
  | CkText _ => st_raise AttributeError
  | CkShared => mret (bs_latest s)
  end.

(** [__merge_commit]; [checkpoint_gtidset] is [latest_gtidset] when it is
    written. *)
Definition bak_merge_commit : BM unit :=
  s ← st_get;
  if bs_allow_commit s then
    on_bak_mc bak_push_commit ;;
    st_modify (bs_set_allow_commit false) ;;
    stat_add "trx-merge" ;;
    st_modify (fun s => bs_set_checkpoint CkShared (bs_position s) s) ;;
    s ← st_get;
    if bs_allow_checkpoint s then
      g ← checkpoint_items;
      st_modify (fun s => bs_set_dir (bak_persist_checkpoint g (bs_dir s)) s) ;;
      st_modify (bs_set_allow_checkpoint false)
    else mret tt
  else mret tt.

Definition bak_dml_stat (o : OperationDML) : string :=
  match o with
  | OperationDMLDelete _ _ _ _ => "dml-delete"
  | OperationDMLInsert _ _ _ _ => "dml-insert"
  | OperationDMLUpdate _ _ _ _ _ => "dml-update"
  end.

(** The [if]/[elif] chain of the loop body; [true] is [sys.exit(1)].  An error
    in a row change is raised again. *)
Definition bak_dispatch (it : item) : BM bool :=
  let '(pos, timestamp, op) := it in
  match op with
  | OperationNonDML oper_type schema _ query =>
      bak_merge_commit ;;
      st_try (on_bak_mc (bak_push_nondml schema query) ;;
              stat_add "nomdml" ;;
              stat_get_add ("nondml-" ++ bak_ddl_name oper_type) ;;
              mret false)
             (fun _ => mret true)
  | OpDML o =>
      stat_add "dml" ;;
      stat_add (bak_dml_stat o) ;;
      '(sql_text, params) ← st_lift (dmlOperation2Sql o);
      on_bak_mc (bak_push_dml sql_text params) ;;
      mret false
  | OperationBegin => on_bak_mc bak_push_begin ;; mret false
  | OperationCommit =>
      stat_add "trx" ;;
      (if merge_trx cfg then st_modify (bs_set_allow_commit true) else on_bak_mc bak_push_commit) ;;
      mret false
  | OperationGtid server_uuid xid lc =>
      s ← st_get;
      (if merge_trx cfg && negb (bs_last_committed s =? lc)
       then bak_merge_commit ;; st_modify (bs_set_last_committed lc) else mret tt) ;;
      x ← st_lift (int_of_str xid);
      st_modify (fun s => bs_set_latest (dict_set (bs_latest s) server_uuid x) (Some pos) s) ;;
      mret false
  | OperationHeartbeat =>
      s ← st_get;
      (if bs_last_heartbeat s
       then t ← bak_time; st_modify (bs_set_timestamp t) ;; bak_merge_commit
       else mret tt) ;;
      mret false
  end.

(** The rest of the loop body: every ten seconds the statistics are printed
    and a checkpoint is allowed if a commit is due. *)
Definition bak_after (it : item) : BM unit :=
  let '(_, timestamp, op) := it in
  (if is_heartbeat op then mret tt else st_modify (bs_set_timestamp (timestamp * 1000000))) ;;
  t1 ← bak_time;
  s ← st_get;
  (if bs_ts_0 s + 10 * 1000000 <=? t1 then
     checkpoint_items ;;
     bak_time ;;
     st_modify (bs_set_ts_0 t1) ;;
     s ← st_get;
     if bs_allow_commit s && negb (bs_allow_checkpoint s) then st_modify (bs_set_allow_checkpoint true) else mret tt
   else mret tt) ;;
  st_modify (bs_set_last_heartbeat (is_heartbeat op)).

(** What follows a statement that may have called [sys.exit(1)]. *)
Definition unless (stop : bool) (m : BM bool) : BM bool := if stop then mret true else m.

(** One iteration; operations on excluded tables [continue]. *)
Definition bak_step (it : item) : BM bool :=
  match it.2 with
  | OpDML o =>
      if excluded cfg o then mret false
      else stop ← bak_dispatch it; unless stop (bak_after it ;; mret false)
  | _ => stop ← bak_dispatch it; unless stop (bak_after it ;; mret false)
  end.

Fixpoint bak_loop (items : list (result item)) : BM bool :=
  match items with
  | [] => mret false
  | Err e :: _ => st_raise e
  | Ok it :: rest =>
      stop ← bak_step it;
      unless stop (bak_loop rest)
  end.

(** [run]; [true] is [sys.exit(1)].  The last line printed evaluates
    [self.checkpoint_gtidset.items()]. *)
Definition bak_run (items : list (result item)) : BM bool :=
  t ← bak_time;
  st_modify (bs_set_ts_0 t) ;;
  st_modify (bs_set_timestamp 0) ;;
  stop ← bak_loop items;
  unless stop (bak_merge_commit ;; checkpoint_items ;; mret false).

(** [MysqlSync.__init__]: the start position and the initial state, for an
    open connection. *)
Definition bak_sync_init (c : C) (d : files) (auto_position : string) : result (string * bak_sync C) :=
  start ← bak_get_checkpoint_gtidset d auto_position;
  Ok (start, mkBakSync (bak_client_init c)
    [("dml", 0); ("nomdml", 0); ("trx-merge", 0); ("trx", 0); ("dml-delete", 0); ("dml-insert", 0); ("dml-update", 0)]
    (-1) false false false (CkText start) None [] None d 0 0 0).
End sync.

(** ** [parse_gtidset] does not read what [Checkpoint] writes

    The start position of two servers is joined by a comma and a blank. *)

Example parse_one_server :
  parse_gtidset "3e11fa47-71ca-11e1-9e33-c80aa9429562:1-5" = Ok [("3e11fa47-71ca-11e1-9e33-c80aa9429562", 5)].
Proof. reflexivity. Qed.

Example parse_two_servers :
  exists e, (start ← get_checkpoint_gtidset []
      "3e11fa47-71ca-11e1-9e33-c80aa9429562:1-5,4e11fa47-71ca-11e1-9e33-c80aa9429562:1-7";
    parse_gtidset start) = Err e.
Proof. eexists. vm_compute. reflexivity. Qed.
