(* ===== verification/BakSafe.v ===== *)
(** * The checkpoints of the earlier program are safe

    However a run of [main.bak1.py] ends, the target holds whole transactions
    and the checkpoint file names no transaction it does not hold; the next
    start resumes from that file. *)

From stdpp Require Import base list strings sets.
From Stdlib Require Import ZArith Lia Ascii.
From S2P Require Import Prelude PyBytes PyStr Values Column Sql Metric Checkpoint Client Sync BakClient BakSync.
Open Scope string_scope.
Open Scope Z_scope.
Open Scope list_scope.

(** ** What the source announces *)

(** The position after a transaction: the number of the last one of each
    server. *)
Definition note (g : dict string Z) (t : trx) : dict string Z :=
  match t with
  | TDml u x _ _ | TDdl u x _ _ _ _ _ => match int_of_str x with Ok n => dict_set g u n | Err _ => g end
  | TIdle => g
  end.

Definition noted (g : dict string Z) (ts : list trx) : dict string Z := foldl note g ts.

(** A DDL statement does not belong to the commit group of the transaction
    before it. *)
Fixpoint ddl_alone (lc : Z) (ts : list trx) : Prop :=
  match ts with
  | [] => True
  | TDml _ _ l _ :: ts' => ddl_alone l ts'
  | TDdl _ _ l _ _ _ _ :: ts' => l <> lc /\ ddl_alone l ts'
  | TIdle :: ts' => ddl_alone lc ts'
  end.

(** The source delivers these operations, or the first of them and then an
    exception. *)
Inductive delivers : list (result item) -> list operation -> Prop :=
  | delivers_all its : delivers (map Ok its) (map snd its)
  | delivers_some its e rest ops :
      map snd its `prefix_of` ops -> delivers (map Ok its ++ Err e :: rest) ops.

Lemma delivers_nil items : delivers items [] -> items = [] \/ exists e rest, items = Err e :: rest.
Proof.
  intros Hd. inversion Hd as [its E1 E2|its e rest ops Hp]; subst.
  - destruct its; [by left|done].
  - right. apply prefix_nil_inv in Hp. destruct its; [|done]. by eexists _, _.
Qed.

Lemma delivers_cons items op ops :
  delivers items (op :: ops) ->
  (exists e rest, items = Err e :: rest) \/
  (exists pos tm rest, items = Ok (pos, tm, op) :: rest /\ delivers rest ops).
Proof.
  intros Hd. inversion Hd as [its E1 E2|its e rest ops' Hp]; subst.
  - destruct its as [|[[pos tm] op'] its]; [done|]. cbn in E2. injection E2 as -> <-.
    right. exists pos, tm, (map Ok its). split; [done|constructor].
  - destruct its as [|[[pos tm] op'] its]; [left; by eexists _, _|]. cbn in Hp.
    apply prefix_cons_inv_1 in Hp as Ho. apply prefix_cons_inv_2 in Hp. subst.
    right. exists pos, tm, (map Ok its ++ Err e :: rest). split; [done|]. by constructor.
Qed.

Section safe.
Context {C : Type} `{TargetLaws C} (now : nat -> Z) (cfg : settings).
(** What was committed, announced and stored at the start, and the
    transactions of the source. *)
Context (d0 : list action) (g0 : dict string Z) (f0 : option file) (all : list trx).
Implicit Types (s : bak_sync C) (ts : list trx).

Definition ckpt_file s : option file := dict_get (bs_dir s) "ckpt.json".

(** The checkpoint file is that of the start or covers only [ts]. *)
Definition file_within ts s : Prop :=
  ckpt_file s = f0 \/ exists saved, saved `prefix_of` ts /\ ckpt_file s = Some (FJson (noted g0 saved)).

(** The target holds the first transactions of the source, whole, and the
    checkpoint only names some of these. *)
Definition safe s : Prop :=
  exists held, held `prefix_of` all /\ bdone (bs_mc s) = d0 ++ effect cfg held /\ file_within held s.

(** After the transactions [ts], with [extra] announced and the statements
    [acts] of it executed. *)
Record cut ts (extra : list trx) (acts : list action) s : Prop := {
  cut_prefix : ts `prefix_of` all;
  cut_client : bak_inv (bs_mc s);
  cut_mode : bs_allow_commit s = true -> merge_trx cfg = true;
  cut_latest : bs_latest s = noted g0 (ts ++ extra);
  cut_held : exists held waiting, ts = held ++ waiting /\ bdone (bs_mc s) = d0 ++ effect cfg held /\
    bopen (bs_mc s) = effect cfg waiting ++ acts /\ file_within held s
}.

(** Between transactions. *)
Definition between ts s : Prop := cut ts [] [] s.

Lemma cut_safe ts extra acts s : cut ts extra acts s -> safe s.
Proof.
  intros Hc. destruct (cut_held _ _ _ _ Hc) as (held & waiting & -> & Hd & _ & Hf).
  exists held. split; [|done]. etrans; [|apply (cut_prefix _ _ _ _ Hc)]. by exists waiting.
Qed.

Lemma file_within_more ts ts' s : ts `prefix_of` ts' -> file_within ts s -> file_within ts' s.
Proof. intros Hp [Hf|(saved & Hs & Hf)]; [by left|]. right. exists saved. split; [by etrans|done]. Qed.

(** A step that touches neither the target nor what is announced or stored. *)
Definition core_of s := (bs_mc s, bs_allow_commit s, bs_latest s, ckpt_file s, bs_last_committed s).

Lemma cut_core ts extra acts s s' : core_of s' = core_of s -> cut ts extra acts s -> cut ts extra acts s'.
Proof.
  unfold core_of. intros E [Hp Hi Hm Hl Hh]. injection E as E1 E2 E3 E4 _.
  split; unfold file_within in *; rewrite ?E1, ?E2, ?E3, ?E4; done.
Qed.

Definition silent {A} (m : ST (bak_sync C) A) : Prop := forall s, core_of (snd (m s)) = core_of s.

Lemma silent_bind {A B} (m : ST (bak_sync C) A) (f : A -> ST (bak_sync C) B) :
  silent m -> (forall a, silent (f a)) -> silent (mbind f m).
Proof.
  intros Hm Hf s. rewrite st_bind_eq. specialize (Hm s). destruct (m s) as [[a|e] s']; cbn in *; [|done].
  by rewrite Hf.
Qed.

Lemma silent_modify f : (forall s, core_of (f s) = core_of s) -> silent (st_modify f).
Proof. intros Hf s. apply Hf. Qed.

Lemma wp_silent {A} (m : ST (bak_sync C) A) (Q : A -> bak_sync C -> Prop) (E : bak_sync C -> Prop) s :
  silent m -> (forall a s', core_of s' = core_of s -> Q a s') ->
  (forall s', core_of s' = core_of s -> E s') -> wp m Q E s.
Proof. intros Hm HQ HE. unfold wp. specialize (Hm s). destruct (m s) as [[a|e] s']; auto. Qed.
End safe.

Ltac silent_tac :=
  repeat first
    [ done
    | lazymatch goal with |- forall _, _ => intros ? end
    | apply silent_bind; [|intros ?]
    | apply silent_modify; intros ?; done
    | case_match ].

Section steps.
Context {C : Type} `{TargetLaws C} (now : nat -> Z) (cfg : settings).
Context (d0 : list action) (g0 : dict string Z) (f0 : option file) (all : list trx).
Implicit Types (s : bak_sync C) (ts : list trx).

Abbreviation safe := (safe cfg d0 g0 f0 all).
Abbreviation cut := (cut cfg d0 g0 f0 all).

Lemma silent_stat key : silent (C := C) (stat_add key).
Proof. unfold stat_add. silent_tac. Qed.

Lemma silent_stat_get key : silent (C := C) (stat_get_add key).
Proof. unfold stat_get_add. silent_tac. Qed.

Lemma silent_items : silent (C := C) checkpoint_items.
Proof. unfold checkpoint_items. silent_tac. Qed.

Lemma silent_after it : silent (C := C) (bak_after now it).
Proof.
  destruct it as [[pos tm] op]. unfold bak_after.
  apply silent_bind; [silent_tac|]. intros _. apply silent_bind; [done|]. intros t.
  apply silent_bind; [done|]. intros s1. apply silent_bind; [|silent_tac].
  case_match; [|done]. apply silent_bind; [apply silent_items|]. silent_tac.
Qed.

(** Running the client inside the loop. *)
Lemma wp_mc (m : ST (bak_client C) unit) (Q : unit -> bak_sync C -> Prop) E s :
  wp m (fun a c => Q a (bs_set_mc c s)) (fun c => E (bs_set_mc c s)) (bs_mc s) -> wp (on_bak_mc m) Q E s.
Proof. unfold wp, on_bak_mc. by destruct (m (bs_mc s)) as [[a|e] c]. Qed.

Lemma effect_all held waiting : effect cfg (held ++ waiting) = effect cfg held ++ effect cfg waiting.
Proof. apply effect_app. Qed.

(** A commit that failed between transactions. *)
Lemma cut_same_or_all ts s c :
  cut ts [] [] s -> bak_same_or_all (bs_mc s) c -> safe (bs_set_mc c s).
Proof.
  intros Hc [Hd|Hd]; destruct (cut_held _ _ _ _ _ _ _ _ _ Hc) as (held & waiting & -> & Hd0 & Ho & Hf).
  - exists held. split; [|by rewrite <- Hd0]. etrans; [|apply (cut_prefix _ _ _ _ _ _ _ _ _ Hc)]. by exists waiting.
  - exists (held ++ waiting). split; [apply (cut_prefix _ _ _ _ _ _ _ _ _ Hc)|].
    split; [|by apply (file_within_more _ _ held); [exists waiting|]].
    cbn [bs_mc bs_set_mc]. by rewrite Hd, Hd0, Ho, app_nil_r, effect_app, app_assoc.
Qed.

Lemma merge_wp ts s :
  cut ts [] [] s ->
  wp bak_merge_commit
    (fun _ s' => cut ts [] [] s' /\ bs_allow_commit s' = false /\ bs_last_committed s' = bs_last_committed s)
    safe s.
Proof.
  intros Hc. unfold bak_merge_commit. wp_steps. destruct (bs_allow_commit s) eqn:Ha; [|wp_steps; done].
  wp_steps. apply wp_mc. eapply wp_mono; [apply bak_commit_wp, (cut_client _ _ _ _ _ _ _ _ _ Hc)| |].
  2: { intros c Hany. by eapply cut_same_or_all. }
  cbv beta. intros _ c (Hd & Ho & Hi). wp_steps.
  destruct (cut_held _ _ _ _ _ _ _ _ _ Hc) as (held & waiting & Hts & Hd0 & Ho0 & Hf).
  assert (bdone c = d0 ++ effect cfg ts) as Hdone by by rewrite Hd, Hd0, Ho0, app_nil_r, Hts, effect_app, app_assoc.
  assert (cut ts [] [] (bs_set_allow_commit false (bs_set_mc c s))) as Hc'.
  { destruct Hc as [Hp _ _ Hl _]. split; [done|done|done|done|]. exists ts, [].
    cbn [bs_mc bs_set_mc bs_set_allow_commit]. rewrite app_nil_r.
    split; [done|]. split; [done|]. split; [done|]. apply (file_within_more _ _ held); [by exists waiting|done]. }
  apply wp_silent; [apply silent_stat| |intros s' Hs'; by eapply cut_safe, cut_core].
  intros _ s1 Hs1. pose proof (cut_core _ _ _ _ _ _ _ _ _ _ Hs1 Hc') as Hc1. wp_steps.
  injection Hs1 as Hmc1 Ha1 _ _ Hlc1. cbn in Hmc1, Ha1, Hlc1.
  destruct (bs_allow_checkpoint _); wp_steps; [|split; [by apply (cut_core _ _ _ _ _ _ _ _ s1)|done]].
  unfold checkpoint_items. wp_steps. cbn [bs_checkpoint bs_set_checkpoint]. wp_steps. split; [|done].
  destruct Hc1 as [Hp Hi1 Hm1 Hl1 _]. split; [done|done|done|done|]. exists ts, [].
  cbn [bs_mc bs_set_allow_checkpoint bs_set_dir bs_set_checkpoint bs_latest]. rewrite app_nil_r, Hmc1.
  split; [done|]. split; [done|]. split; [done|]. right. exists ts. split; [done|].
  unfold ckpt_file, bak_persist_checkpoint. cbn [bs_dir bs_set_allow_checkpoint bs_set_dir bs_set_checkpoint].
  by rewrite dict_get_set_eq, Hl1, app_nil_r.
Qed.

(** *** Each operation *)

Lemma noted_snoc ts t : noted g0 (ts ++ [t]) = note (noted g0 ts) t.
Proof. unfold noted. by rewrite foldl_app. Qed.

(** The commit group known after an operation. *)
Definition group_is (lc : Z) s : Prop := merge_trx cfg = true -> bs_last_committed s = lc.

Lemma gtid_wp ts t u x lc lc' pos tm s :
  cut ts [] [] s -> (forall g n, int_of_str x = Ok n -> note g t = dict_set g u n) -> group_is lc s ->
  wp (bak_dispatch now cfg (pos, tm, OperationGtid u x lc'))
    (fun stop s' => stop = false /\ cut ts [t] [] s' /\ group_is lc' s' /\
       (merge_trx cfg && (lc =? lc') = false -> bs_allow_commit s' = false))
    safe s.
Proof.
  intros Hc Ht Hlc. cbn [bak_dispatch]. wp_steps.
  apply (wp_mono _ (fun _ s' => cut ts [] [] s' /\ group_is lc' s' /\
      (merge_trx cfg && (lc =? lc') = false -> bs_allow_commit s' = false)) _ safe safe); [| |done].
  - destruct (merge_trx cfg) eqn:Hm; cbn [andb].
    + unfold group_is in *. rewrite Hlc by done. destruct (Z.eqb_spec lc lc') as [->|Hne]; cbn [negb].
      * wp_steps. split; [done|]. split; [by intros _; apply Hlc|done].
      * wp_steps. eapply wp_mono; [by apply merge_wp| |done]. cbv beta. intros _ s1 (Hc1 & Ha1 & _). wp_steps.
        split; [|done]. destruct Hc1 as [? ? ? ? ?]. by split.
    + wp_steps. split; [done|]. split; [unfold group_is; congruence|]. intros _. destruct (bs_allow_commit s) eqn:E; [|done].
      apply (cut_mode _ _ _ _ _ _ _ _ _ Hc) in E. congruence.
  - cbv beta. intros _ s1 (Hc1 & Hg1 & Ha1). wp_steps. apply wp_lift; [|by eapply cut_safe].
    intros n Hn. wp_steps. split; [done|]. split; [|done].
    destruct Hc1 as [? ? ? Hl ?]. split; [done|done|done| |done]. cbn [bs_latest bs_set_latest].
    by rewrite noted_snoc, (Ht _ n Hn), Hl, app_nil_r.
Qed.

Lemma begin_wp ts extra acts lc pos tm s :
  cut ts extra acts s -> group_is lc s ->
  wp (bak_dispatch now cfg (pos, tm, OperationBegin))
    (fun stop s' => stop = false /\ cut ts extra acts s' /\ group_is lc s' /\ b_active_trx (bs_mc s') = true)
    safe s.
Proof.
  intros [Hp Hi Hm Hl (held & waiting & Hts & Hd & Ho & Hf)] Hlc. cbn [bak_dispatch]. wp_steps. apply wp_mc.
  eapply wp_mono; [by apply bak_begin_wp| |]; cbv beta.
  - intros _ c (Hd' & Ho' & Hi' & Ha'). wp_steps. split; [done|]. split; [|done].
    split; [done|done|done|done|]. exists held, waiting. cbn [bs_mc bs_set_mc]. by rewrite Hd', Ho'.
  - intros c Hd'. exists held. cbn [bs_mc bs_set_mc]. rewrite Hd'. split; [|done]. etrans; [|done]. by exists waiting.
Qed.

Lemma dml_wp ts extra acts o lc pos tm s :
  cut ts extra acts s -> group_is lc s -> b_active_trx (bs_mc s) = true ->
  wp (bak_dispatch now cfg (pos, tm, OpDML o))
    (fun stop s' => stop = false /\ cut ts extra (acts ++ dml_action o) s' /\ group_is lc s' /\
       b_active_trx (bs_mc s') = true)
    safe s.
Proof.
  intros Hc Hlc Hact. cbn [bak_dispatch]. wp_steps.
  apply wp_silent; [apply silent_stat| |intros s' Hs'; by eapply cut_safe, cut_core].
  intros _ s1 Hs1. wp_steps.
  apply wp_silent; [apply silent_stat| |intros s' Hs'; eapply cut_safe, (cut_core _ _ _ _ _ _ _ _ s); [congruence|done]].
  intros _ s2 Hs2. rewrite Hs1 in Hs2. clear Hs1 s1. apply (cut_core _ _ _ _ _ _ _ _ _ _ Hs2) in Hc.
  injection Hs2 as Hmc2 _ _ _ Hlc2. wp_steps. apply wp_lift; [|by eapply cut_safe].
  intros [sql ps] Hsql. wp_steps. apply wp_mc. unfold dml_action. rewrite Hsql.
  destruct Hc as [Hp Hi Hm Hl (held & waiting & Hts & Hd & Ho & Hf)].
  eapply wp_mono; [apply bak_dml_wp; [done|by rewrite Hmc2]| |]; cbv beta.
  - intros _ c (Hd' & Ho' & Hi' & Ha'). wp_steps. split; [done|]. split; [|by unfold group_is; cbn; rewrite Hlc2].
    split; [done|done|done|done|]. exists held, waiting. cbn [bs_mc bs_set_mc]. by rewrite Hd', Ho', Ho, app_assoc.
  - intros c Hd'. exists held. cbn [bs_mc bs_set_mc]. rewrite Hd'. split; [|done]. etrans; [|done]. by exists waiting.
Qed.

Lemma commit_wp ts t lc pos tm s :
  cut ts [t] (actions_of cfg t) s -> (ts ++ [t]) `prefix_of` all -> group_is lc s ->
  wp (bak_dispatch now cfg (pos, tm, OperationCommit))
    (fun stop s' => stop = false /\ cut (ts ++ [t]) [] [] s' /\ group_is lc s') safe s.
Proof.
  intros Hc Hp' Hlc. cbn [bak_dispatch]. wp_steps.
  apply wp_silent; [apply silent_stat| |intros s' Hs'; by eapply cut_safe, cut_core].
  intros _ s1 Hs1. apply (cut_core _ _ _ _ _ _ _ _ _ _ Hs1) in Hc. injection Hs1 as Hmc1 _ _ _ Hlc1. wp_steps.
  destruct Hc as [Hp Hi Hm Hl (held & waiting & -> & Hd & Ho & Hf)]. destruct (merge_trx cfg) eqn:Hmt.
  - wp_steps. split; [done|]. split; [|by unfold group_is; cbn; rewrite Hlc1].
    split; [done|done|done|by rewrite app_nil_r|]. exists held, (waiting ++ [t]). rewrite app_assoc.
    cbn [bs_mc bs_set_allow_commit]. by rewrite app_nil_r, effect_snoc.
  - apply wp_mc. eapply wp_mono; [by apply bak_commit_wp| |]; cbv beta.
    + intros _ c (Hd' & Ho' & Hi'). wp_steps. split; [done|]. split; [|by unfold group_is; cbn; rewrite Hlc1].
      split; [done|done|by rewrite Hmt|by rewrite app_nil_r|]. exists ((held ++ waiting) ++ [t]), [].
      cbn [bs_mc bs_set_mc]. rewrite app_nil_r, Hd', Ho', Hd, Ho, effect_snoc, effect_app, <- !app_assoc.
      split; [done|]. split; [done|]. split; [done|]. apply (file_within_more _ _ held); [|done].
      by eexists (waiting ++ [t]).
    + intros c [Hd'|Hd'].
      * exists held. cbn [bs_mc bs_set_mc]. rewrite Hd'. split; [|done]. etrans; [|exact Hp]. by exists waiting.
      * exists ((held ++ waiting) ++ [t]). cbn [bs_mc bs_set_mc]. rewrite Hd', Hd, Ho, effect_snoc, effect_app, <- !app_assoc.
        split; [by rewrite app_assoc|]. split; [done|].
        apply (file_within_more _ _ held); [by eexists (waiting ++ [t])|done].
Qed.

Lemma heartbeat_wp ts lc pos tm s :
  cut ts [] [] s -> (ts ++ [TIdle]) `prefix_of` all -> group_is lc s ->
  wp (bak_dispatch now cfg (pos, tm, OperationHeartbeat))
    (fun stop s' => stop = false /\ cut (ts ++ [TIdle]) [] [] s' /\ group_is lc s') safe s.
Proof.
  intros Hc Hp' Hlc. cbn [bak_dispatch]. wp_steps.
  apply (wp_mono _ (fun _ s' => cut ts [] [] s' /\ group_is lc s') _ safe safe); [| |done].
  - destruct (bs_last_heartbeat s); [|wp_steps; done]. wp_steps.
    apply wp_silent; [done| |intros s' Hs'; by eapply cut_safe, cut_core]. intros tv s1 Hs1. wp_steps.
    eapply wp_mono; [apply merge_wp, (cut_core _ _ _ _ _ _ _ _ s); [|done]| |done].
    + by rewrite <- Hs1.
    + cbv beta. intros _ s2 (Hc2 & _ & Hlc2). split; [done|]. unfold group_is. rewrite Hlc2.
      cbn. by injection Hs1 as _ _ _ _ ->.
  - cbv beta. intros _ s1 ([Hp Hi Hm Hl (held & waiting & -> & Hd & Ho & Hf)] & Hlc1). wp_steps.
    split; [done|]. split; [|done]. split; [done|done|done| |].
    + by rewrite app_nil_r, noted_snoc, Hl, app_nil_r.
    + exists held, (waiting ++ [TIdle]). rewrite app_assoc, effect_snoc. by rewrite Ho, !app_nil_r.
Qed.

(** The statement runs outside [__merge_commit] when the transaction before it
    was committed at its GTID. *)
Lemma nondml_wp ts t ty sch tab q lc pos tm s :
  cut ts [t] [] s -> actions_of cfg t = [ADdl q] -> (ts ++ [t]) `prefix_of` all -> group_is lc s ->
  bs_allow_commit s = false ->
  wp (bak_dispatch now cfg (pos, tm, OperationNonDML ty sch tab q))
    (fun stop s' => if stop then safe s' else cut (ts ++ [t]) [] [] s' /\ group_is lc s') safe s.
Proof.
  intros [Hp Hi Hm Hl (held & waiting & -> & Hd & Ho & Hf)] Hq Hp' Hlc Ha. cbn [bak_dispatch]. wp_steps.
  unfold bak_merge_commit. wp_steps. rewrite Ha. wp_steps. apply wp_mc. rewrite app_nil_r in Ho.
  eapply wp_mono; [by apply bak_nondml_wp| |]; cbv beta.
  - intros _ c (Hd' & Ho' & Hi').
    assert (cut ((held ++ waiting) ++ [t]) [] [] (bs_set_mc c s)) as Hc'.
    { split; [done|done|by cbn; rewrite Ha|by rewrite app_nil_r|]. exists ((held ++ waiting) ++ [t]), [].
      cbn [bs_mc bs_set_mc]. rewrite app_nil_r, Hd', Ho', Hd, Ho, effect_snoc, effect_app, Hq, <- !app_assoc.
      split; [done|]. split; [done|]. split; [done|].
      apply (file_within_more _ _ held); [by eexists (waiting ++ [t])|done]. }
    wp_steps. apply wp_silent; [apply silent_stat| |intros s1 Hs1 e; wp_steps; by eapply cut_safe, cut_core].
    intros _ s1 Hs1. wp_steps. apply wp_silent; [apply silent_stat_get|
      |intros s2 Hs2 e; wp_steps; eapply cut_safe, (cut_core _ _ _ _ _ _ _ _ (bs_set_mc c s)); [congruence|done]].
    intros _ s2 Hs2. rewrite Hs1 in Hs2. wp_steps. split; [by eapply cut_core|].
    unfold group_is. by injection Hs2 as _ _ _ _ ->.
  - intros c Hany e. wp_steps. destruct Hany as [Hd'|Hd'].
    + exists held. cbn [bs_mc bs_set_mc]. rewrite Hd'. split; [|done]. etrans; [|exact Hp]. by exists waiting.
    + exists (held ++ waiting). cbn [bs_mc bs_set_mc]. rewrite Hd', Hd, Ho, effect_app, <- app_assoc.
      split; [done|]. split; [done|]. apply (file_within_more _ _ held); [by exists waiting|done].
Qed.

(** *** Sequences of operations *)

(** From [s] on, however the source delivers [ops], the run stays safe. *)
Definition follows (ops : list operation) s : Prop :=
  forall items, delivers items ops ->
    wp (bak_loop now cfg items) (fun stop s' => if stop then safe s' else cut all [] [] s') safe s.

Lemma follows_nil s : cut all [] [] s -> follows [] s.
Proof.
  intros Hc items Hd. apply delivers_nil in Hd as [->|(e & rest & ->)]; cbn [bak_loop]; wp_steps; [done|].
  by eapply cut_safe.
Qed.

Lemma follows_cons op ops s :
  safe s ->
  (forall pos tm, wp (bak_step now cfg (pos, tm, op))
     (fun stop s' => if stop then safe s' else follows ops s') safe s) ->
  follows (op :: ops) s.
Proof.
  intros Hs Hop items Hd. apply delivers_cons in Hd as [(e & rest & ->)|(pos & tm & rest & -> & Hd)]; cbn [bak_loop].
  - by wp_steps.
  - wp_steps. eapply wp_mono; [apply Hop| |done]. cbv beta. intros stop s1 H1.
    destruct stop; unfold unless; [by wp_steps|by apply H1].
Qed.

(** The rest of an iteration changes nothing that matters here. *)
Lemma step_wp (R : bak_sync C -> Prop) it s :
  (forall s1 s2, core_of s2 = core_of s1 -> R s1 -> R s2 /\ safe s2) ->
  (forall o, it.2 = OpDML o -> excluded cfg o = false) ->
  wp (bak_dispatch now cfg it) (fun stop s' => if stop then safe s' else R s') safe s ->
  wp (bak_step now cfg it) (fun stop s' => if stop then safe s' else R s') safe s.
Proof.
  intros HR Hex Hd.
  assert (wp (stop ← bak_dispatch now cfg it; unless stop (bak_after now it ;; mret false))
    (fun stop s' => if stop then safe s' else R s') safe s) as Hmain.
  { wp_steps. eapply wp_mono; [exact Hd| |done]. cbv beta. intros stop s1 H1.
    destruct stop; unfold unless; [by wp_steps|]. wp_steps.
    apply wp_silent; [apply silent_after| |]; intros; wp_steps; by eapply HR. }
  unfold bak_step. destruct it.2 eqn:E; try exact Hmain. by rewrite (Hex o eq_refl).
Qed.

(** Facts on a cut survive what does not touch the core. *)
Lemma cut_closed ts extra acts lc s1 s2 :
  core_of s2 = core_of s1 -> cut ts extra acts s1 /\ group_is lc s1 -> (cut ts extra acts s2 /\ group_is lc s2) /\ safe s2.
Proof.
  intros E [Hc Hg]. apply (cut_core _ _ _ _ _ _ _ _ _ _ E) in Hc. split; [|by eapply cut_safe].
  split; [done|]. unfold group_is in *. by injection E as _ _ _ _ ->.
Qed.

(** One operation, then the others. *)
Lemma follows_step (R : bak_sync C -> Prop) op ops s :
  safe s -> (forall s1 s2, core_of s2 = core_of s1 -> R s1 -> R s2 /\ safe s2) ->
  (forall o, op = OpDML o -> excluded cfg o = false) ->
  (forall pos tm, wp (bak_dispatch now cfg (pos, tm, op)) (fun stop s' => if stop then safe s' else R s') safe s) ->
  (forall s', R s' -> follows ops s') -> follows (op :: ops) s.
Proof.
  intros Hs HR Hex Hd Hrest. apply follows_cons; [done|]. intros pos tm.
  eapply wp_mono; [by apply (step_wp R)| |done]. intros [] s1 H1; [done|by apply Hrest].
Qed.

Lemma follows_dmls ts t lc ops rest acts s :
  cut ts [t] acts s -> group_is lc s -> b_active_trx (bs_mc s) = true ->
  (forall s', cut ts [t] (acts ++ dml_actions cfg ops) s' -> group_is lc s' -> follows rest s') ->
  follows (map OpDML ops ++ rest) s.
Proof.
  revert acts s. induction ops as [|o ops IH]; intros acts s Hc Hg Ha Hrest.
  - apply Hrest; [|done]. by rewrite app_nil_r.
  - cbn [map app]. destruct (excluded cfg o) eqn:Ex.
    + apply follows_cons; [by eapply cut_safe|]. intros pos tm. unfold bak_step. cbn [snd]. rewrite Ex. wp_steps.
      apply (IH acts); [done|done|done|]. intros s' Hc' Hg'. apply Hrest; [|done].
      unfold dml_actions. cbn. by rewrite Ex.
    + apply (follows_step (fun s' => (cut ts [t] (acts ++ dml_action o) s' /\ group_is lc s') /\ b_active_trx (bs_mc s') = true)).
      * by eapply cut_safe.
      * intros s1 s2 E [H1 H2]. destruct (cut_closed _ _ _ _ _ _ E H1) as [H3 H4]. split; [|done]. split; [done|].
        by injection E as -> _ _ _ _.
      * intros o' E. by injection E as <-.
      * intros pos tm. eapply wp_mono; [by eapply dml_wp| |done]. cbv beta.
        intros stop s' (-> & ? & ? & ?). done.
      * intros s' [[Hc' Hg'] Ha']. apply (IH (acts ++ dml_action o)); [done|done|done|].
        intros s2 Hc2 Hg2. apply Hrest; [|done]. unfold dml_actions. cbn. rewrite Ex, app_assoc. exact Hc2.
Qed.

(** A commit of row changes. *)
Lemma follows_trx ts u x lc ops rest lc0 s :
  cut ts [] [] s -> group_is lc0 s -> (ts ++ [TDml u x lc ops]) `prefix_of` all ->
  (forall s', cut (ts ++ [TDml u x lc ops]) [] [] s' -> group_is lc s' -> follows rest s') ->
  follows (ops_of (TDml u x lc ops) ++ rest) s.
Proof.
  intros Hc Hg Hp Hrest. cbn [ops_of app]. set (t := TDml u x lc ops) in *.
  apply (follows_step (fun s' => cut ts [t] [] s' /\ group_is lc s')); [by eapply cut_safe|apply cut_closed|done| |].
  { intros pos tm. eapply wp_mono; [apply (gtid_wp ts t u x lc0 lc); [done| |done]| |done].
    - intros g n Hn. cbn. by rewrite Hn.
    - cbv beta. intros stop s' (-> & ? & ? & _). done. }
  intros s1 [Hc1 Hg1].
  apply (follows_step (fun s' => (cut ts [t] [] s' /\ group_is lc s') /\ b_active_trx (bs_mc s') = true)); [by eapply cut_safe| |done| |].
  { intros s2 s3 E [H1 H2]. destruct (cut_closed _ _ _ _ _ _ E H1) as [H3 H4]. split; [|done]. split; [done|].
    by injection E as -> _ _ _ _. }
  { intros pos tm. eapply wp_mono; [by apply (begin_wp ts [t] [] lc)| |done]. cbv beta. intros stop s' (-> & ? & ? & ?). done. }
  intros s2 [[Hc2 Hg2] Ha2]. rewrite <- app_assoc. apply (follows_dmls ts t lc ops _ [] s2 Hc2 Hg2 Ha2).
  intros s3 Hc3 Hg3. cbn [app] in Hc3.
  apply (follows_step (fun s' => cut (ts ++ [t]) [] [] s' /\ group_is lc s')); [by eapply cut_safe|apply cut_closed|done| |].
  { intros pos tm. eapply wp_mono; [by apply (commit_wp ts t lc)| |done]. cbv beta. intros stop s' (-> & ? & ?). done. }
  intros s4 [Hc4 Hg4]. by apply Hrest.
Qed.

(** A DDL statement, in a commit group of its own. *)
Lemma follows_ddl ts u x lc ty sch tab q rest lc0 s :
  cut ts [] [] s -> group_is lc0 s -> (merge_trx cfg = true -> lc <> lc0) ->
  (ts ++ [TDdl u x lc ty sch tab q]) `prefix_of` all ->
  (forall s', cut (ts ++ [TDdl u x lc ty sch tab q]) [] [] s' -> group_is lc s' -> follows rest s') ->
  follows (ops_of (TDdl u x lc ty sch tab q) ++ rest) s.
Proof.
  intros Hc Hg Hlc Hp Hrest. cbn [ops_of app]. set (t := TDdl u x lc ty sch tab q) in *.
  apply (follows_step (fun s' => (cut ts [t] [] s' /\ group_is lc s') /\ bs_allow_commit s' = false)); [by eapply cut_safe| |done| |].
  { intros s2 s3 E [H1 H2]. destruct (cut_closed _ _ _ _ _ _ E H1) as [H3 H4]. split; [|done]. split; [done|].
    by injection E as _ -> _ _ _. }
  { intros pos tm. eapply wp_mono; [apply (gtid_wp ts t u x lc0 lc); [done| |done]| |done].
    - intros g n Hn. cbn. by rewrite Hn.
    - cbv beta. intros stop s' (-> & ? & ? & Ha). split; [done|]. apply Ha.
      destruct (merge_trx cfg); [|done]. cbn. apply Z.eqb_neq. specialize (Hlc eq_refl). done. }
  intros s1 [[Hc1 Hg1] Ha1].
  apply (follows_step (fun s' => cut (ts ++ [t]) [] [] s' /\ group_is lc s')); [by eapply cut_safe|apply cut_closed|done| |].
  { intros pos tm. by apply nondml_wp. }
  intros s2 [Hc2 Hg2]. by apply Hrest.
Qed.

Lemma follows_stream us ts lc s :
  all = ts ++ us -> cut ts [] [] s -> group_is lc s -> (merge_trx cfg = true -> ddl_alone lc us) ->
  follows (stream_of us) s.
Proof.
  revert ts lc s. induction us as [|t us IH]; intros ts lc s Hall Hc Hg Hdd.
  - rewrite app_nil_r in Hall. rewrite <- Hall in Hc. by apply follows_nil.
  - assert ((ts ++ [t]) `prefix_of` all) as Hp by (exists us; by rewrite Hall, <- app_assoc).
    assert (all = (ts ++ [t]) ++ us) as Hall' by by rewrite Hall, <- app_assoc.
    change (stream_of (t :: us)) with (ops_of t ++ stream_of us)%list.
    destruct t as [u x l ops|u x l ty sch tab q|].
    + eapply follows_trx; [done|done|done|]. intros s' Hc' Hg'. by apply (IH (ts ++ [TDml u x l ops]) l).
    + eapply follows_ddl; [done|done|intros Hm; apply (Hdd Hm)|done|]. intros s' Hc' Hg'. apply (IH (ts ++ [TDdl u x l ty sch tab q]) l); [done|done|done|].
      intros Hm. apply (Hdd Hm).
    + cbn [ops_of app].
      apply (follows_step (fun s' => cut (ts ++ [TIdle]) [] [] s' /\ group_is lc s')); [by eapply cut_safe|apply cut_closed|done| |].
      { intros pos tm. eapply wp_mono; [by apply (heartbeat_wp ts lc)| |done]. cbv beta. intros stop s' (-> & ? & ?). done. }
      intros s' [Hc' Hg']. by apply (IH (ts ++ [TIdle]) lc).
Qed.

Lemma run_wp items s :
  cut [] [] [] s -> bs_last_committed s = -1 -> delivers items (stream_of all) ->
  (merge_trx cfg = true -> ddl_alone (-1) all) ->
  wp (bak_run now cfg items) (fun _ => safe) safe s.
Proof.
  intros Hc Hlc Hd Hdd. unfold bak_run. wp_steps.
  apply wp_silent; [done| |intros s' Hs'; by eapply cut_safe, cut_core]. intros tv s1 Hs1. wp_steps.
  match goal with |- wp _ _ _ ?s2 => assert (core_of s2 = core_of s) as Hs2 by by rewrite <- Hs1 end.
  apply (cut_core _ _ _ _ _ _ _ _ _ _ Hs2) in Hc.
  eapply wp_mono; [eapply (follows_stream all [] (-1)); [done|done| |done|done]| |done].
  - intros _. injection Hs2 as _ _ _ _ E. cbn in *. congruence.
  - cbv beta. intros [] s3 H3; unfold unless; wp_steps; [done|].
    eapply wp_mono; [by apply merge_wp| |done]. cbv beta. intros _ s4 (Hc4 & _). wp_steps.
    apply wp_silent; [apply silent_items| |]; intros; wp_steps; by eapply cut_safe, cut_core.
Qed.
End steps.

(** ** Restarting *)

Lemma noted_nodup g ts : NoDup (dict_keys g) -> NoDup (dict_keys (noted g ts)).
Proof.
  revert g. induction ts as [|t ts IH]; intros g Hg; [done|]. cbn. apply IH.
  destruct t; cbn; try done; destruct (int_of_str _); try done; by apply dict_set_nodup.
Qed.

(** The start position after a run: for each server the larger of the
    configured number and the one of the checkpoint. *)
Definition resumes_from (gtidset : string) (d : dict string Z) (fs : files) : Prop :=
  forall start, format_gtidset gtidset = Ok start ->
    exists merged, bak_get_checkpoint_gtidset fs gtidset =
        Ok (join ", " (map (fun kv : string * Z => (kv.1 ++ ":1-" ++ str_of_Z kv.2)%string) merged)) /\
      forall k, dict_get merged k =
        match dict_get d k, dict_get start k with
        | Some v, Some w => Some (Z.max w v)
        | Some v, None => Some v
        | None, o => o
        end.

Lemma resumes_checkpoint gtidset d fs :
  NoDup (dict_keys d) -> dict_get fs "ckpt.json" = Some (FJson d) -> resumes_from gtidset d fs.
Proof.
  intros Hnd Hf start Hs. exists (foldl merge_entry start d).
  unfold bak_get_checkpoint_gtidset, get_checkpoint_gtidset. rewrite Hs. cbn [mbind result_bind]. rewrite Hf.
  split; [done|]. intros k. by apply merge_entries_get.
Qed.

Section restart.
Context {C : Type} `{TargetLaws C} (now : nat -> Z) (cfg : settings).

Lemma bak_run_safe (c : C) (fs : files) (auto_position start gtidset : string) (ts : list trx)
    (items : list (result item)) s r s' :
  pending c = [] -> bak_sync_init c fs auto_position = Ok (start, s) ->
  delivers items (stream_of ts) -> (merge_trx cfg = true -> ddl_alone (-1) ts) ->
  bak_run now cfg items s = (r, s') ->
  exists held, held `prefix_of` ts /\ bdone (bs_mc s') = committed c ++ effect cfg held /\
    (dict_get (bs_dir s') "ckpt.json" = dict_get fs "ckpt.json" \/
     exists saved, saved `prefix_of` held /\
       dict_get (bs_dir s') "ckpt.json" = Some (FJson (noted [] saved)) /\
       resumes_from gtidset (noted [] saved) (bs_dir s')).
Proof.
  intros Hpc Hinit Hd Hdd Hrun. unfold bak_sync_init in Hinit.
  destruct (bak_get_checkpoint_gtidset fs auto_position) as [st|]; [|done]. cbn in Hinit. injection Hinit as -> <-.
  match type of Hrun with bak_run _ _ _ ?s0 = _ => set (s := s0) in * end.
  assert (cut cfg (committed c) [] (dict_get fs "ckpt.json") ts [] [] [] s) as Hc.
  { split; [apply prefix_nil| |done|done|].
    - split; [cbn; lia|]. unfold bopen. cbn. by rewrite Hpc.
    - exists [], []. unfold bdone, bopen. cbn. rewrite Hpc, app_nil_r. split; [done|]. split; [done|]. split; [done|].
      by left. }
  pose proof (wp_run _ _ _ _ _ (run_wp now cfg _ _ _ _ items s Hc eq_refl Hd Hdd) Hrun) as (held & Hp & Hdone & Hf).
  exists held. split; [done|]. split; [done|]. destruct Hf as [Hf|(saved & Hs & Hf)]; [by left|].
  right. exists saved. split; [done|]. split; [done|]. apply resumes_checkpoint; [|done].
  apply noted_nodup. constructor.
Qed.

(** C6. The earlier program never loses a transaction across a restart: start it
    with an idle connection and run it on a stream of transactions, delivered
    to the end or cut short by an exception of the source, against a target
    that may fail at any statement, in either commit mode.  When no DDL
    statement is in the commit group of the transaction before it, then
    however the run ends the target holds exactly the statements of the first
    transactions, whole and in order, and the checkpoint file is the one of
    the start or names the last transaction of each server among some of the
    first of these; in that case the next start resumes from the larger of
    these numbers and the configured ones. *)
Theorem bak_checkpoint_safe (c : C) (fs : files) (auto_position start gtidset : string) (ts : list trx)
    (items : list (result item)) s r s' :
  pending c = [] -> bak_sync_init c fs auto_position = Ok (start, s) ->
  delivers items (stream_of ts) -> (merge_trx cfg = true -> ddl_alone (-1) ts) ->
  bak_run now cfg items s = (r, s') ->
  exists held, held `prefix_of` ts /\ bdone (bs_mc s') = committed c ++ effect cfg held /\
    (dict_get (bs_dir s') "ckpt.json" = dict_get fs "ckpt.json" \/
     exists saved, saved `prefix_of` held /\
       dict_get (bs_dir s') "ckpt.json" = Some (FJson (noted [] saved)) /\
       resumes_from gtidset (noted [] saved) (bs_dir s')).
Proof. apply bak_run_safe. Qed.
End restart.

(** ** Concrete runs *)

Definition bak_state (bad : list string) : bak_sync journal :=
  match bak_sync_init (mkJournal [] [] false bad) [] "u:1-5" with
  | Ok (_, s) => s
  | Err _ => mkBakSync (bak_client_init (mkJournal [] [] false bad)) [] 0 false false false CkShared None [] None [] 0 0 0
  end.

(** A clock that stands still, and one that jumps by an hour at some call. *)
Definition still (n : nat) : Z := 0.
Definition jump (k n : nat) : Z := if (n <? k)%nat then 0 else 3600 * 1000000.

(** Three groups. *)
Definition bak_trxs : list trx :=
  [TDml "u" "6" 0 [ex_row 1]; TDml "u" "7" 1 [ex_row 2]; TDml "u" "8" 2 [ex_row 3]].

(** The clock jumps when the second transaction has been read: it is committed
    and saved when the third is announced. *)
Definition bak_example : result bool * bak_sync journal :=
  bak_run (jump 8) ex_merge (map Ok (ex_items (stream_of bak_trxs))) (bak_state []).

Example bak_saves :
  fst (bak_run (jump 8) ex_merge (map Ok (ex_items (take 10 (stream_of bak_trxs))) ++ [Err ValueError]) (bak_state [])) = Err ValueError /\
  let s := snd (bak_run (jump 8) ex_merge (map Ok (ex_items (take 10 (stream_of bak_trxs))) ++ [Err ValueError]) (bak_state [])) in
  bdone (bs_mc s) = [ex_action 1; ex_action 2] /\ bs_dir s = [("ckpt.json", FJson [("u", 7)])] /\
  get_checkpoint_gtidset (bs_dir s) "u:1-5" = Ok "u:1-7".
Proof. vm_compute. done. Qed.

Lemma bak_checkpoint_safe_witness :
  exists held, held `prefix_of` bak_trxs /\
    bdone (bs_mc (snd bak_example)) = committed (mkJournal [] [] false []) ++ effect ex_merge held /\
    (dict_get (bs_dir (snd bak_example)) "ckpt.json" = dict_get [] "ckpt.json" \/
     exists saved, saved `prefix_of` held /\
       dict_get (bs_dir (snd bak_example)) "ckpt.json" = Some (FJson (noted [] saved)) /\
       resumes_from "u:1-5" (noted [] saved) (bs_dir (snd bak_example))).
Proof.
  apply (bak_checkpoint_safe (jump 8) ex_merge (mkJournal [] [] false []) [] "u:1-5" "u:1-5" "u:1-5" bak_trxs
    (map Ok (ex_items (stream_of bak_trxs))) (bak_state []) (fst bak_example) (snd bak_example)).
  - reflexivity.
  - reflexivity.
  - exact (delivers_all (ex_items (stream_of bak_trxs))).
  - intros _. cbn. done.
  - unfold bak_example. apply surjective_pairing.
Defined.

(** Ten seconds before the first merged commit the program stops: the text of
    the start position has no [items()].  Without [merge_trx] there is no
    merged commit at all. *)
Example bak_early_tick :
  fst (bak_run (jump 2) ex_merge (map Ok (ex_items (stream_of bak_trxs))) (bak_state [])) = Err AttributeError.
Proof. vm_compute. reflexivity. Qed.

Example bak_without_merge :
  fst (bak_run still (mkSettings false 0 []) (map Ok (ex_items (stream_of bak_trxs))) (bak_state [])) = Err AttributeError.
Proof. vm_compute. reflexivity. Qed.

(** A DDL statement in the commit group of the transaction before it: its
    number is saved before it runs, and it is lost when the target refuses it. *)
Definition bak_grouped_ddl : list trx :=
  [TDml "u" "6" 0 [ex_row 1]; TDml "u" "7" 1 [ex_row 2];
   TDdl "u" "8" 1 CREATETABLE (Some "d") (Some "x") "create table x(id int)"].

Example bak_ddl_saved_early :
  let '(r, s) := bak_run (jump 8) ex_merge (map Ok (ex_items (stream_of bak_grouped_ddl))) (bak_state ["create table x(id int)"]) in
  r = Ok true /\ bdone (bs_mc s) = [ex_action 1; ex_action 2] /\ bs_dir s = [("ckpt.json", FJson [("u", 8)])].
Proof. vm_compute. done. Qed.
