(* ===== verification/BakRestart.v ===== *)
(** * Restarts of the earlier program

    [main.bak1.py] reads its checkpoint back: a start requests the larger of
    the configured position and that of the file, and the source sends the
    transactions after it.  With the transactions of one server, whatever
    happens in the runs before, a run that has sent the target everything the
    source had left brings it to the state of the source. *)

From stdpp Require Import base list strings sets gmap.
From Stdlib Require Import ZArith Lia Ascii.
From S2P Require Import Prelude PyBytes PyStr Values UtilBytes Packet Column Sql SqlText Metric Checkpoint Client Sync SyncLive SyncInv Converge Replay Restart BakClient BakSync BakSafe.
Open Scope string_scope.
Open Scope Z_scope.

(** ** What the source is asked for and sends *)

(** The position whose text [bak_get_checkpoint_gtidset] returns. *)
Definition asked (fs : files) (auto_position : string) : dict string Z :=
  match format_gtidset auto_position, dict_get fs "ckpt.json" with
  | Ok start, Some (FJson d) => foldl merge_entry start d
  | Ok start, _ => start
  | Err _, _ => []
  end.

Lemma asked_text fs auto_position text :
  bak_get_checkpoint_gtidset fs auto_position = Ok text ->
  text = join ", " (map (fun kv : string * Z => kv.1 ++ ":1-" ++ str_of_Z kv.2) (asked fs auto_position)).
Proof.
  unfold bak_get_checkpoint_gtidset, get_checkpoint_gtidset, asked. destruct (format_gtidset auto_position); [|done].
  cbn [mbind result_bind]. destruct (dict_get fs "ckpt.json") as [[d|]|]; cbn; intros E; try done; by injection E as <-.
Qed.

(** A transaction that is not in the set asked for. *)
Definition unseen (m : dict string Z) (t : trx) : bool :=
  match t with
  | TDml u x _ _ | TDdl u x _ _ _ _ _ =>
      match int_of_str x, dict_get m u with Ok v, Some w => w <? v | _, _ => true end
  | TIdle => true
  end.

Definition sent (fs : files) (auto_position : string) (ts : list trx) : list trx :=
  filter (fun t => unseen (asked fs auto_position) t = true) ts.

(** ** The transactions of one server *)

(** Transactions of the server [u], with growing numbers above [lo]. *)
Fixpoint numbered (u : string) (lo : Z) (ts : list trx) : Prop :=
  match ts with
  | [] => True
  | TDml u' x _ _ :: ts' => u' = u /\ exists v, int_of_str x = Ok v /\ lo < v /\ numbered u v ts'
  | _ :: _ => False
  end.

(** The number of the last one. *)
Definition number (t : trx) : Z :=
  match t with TDml _ x _ _ | TDdl _ x _ _ _ _ _ => match int_of_str x with Ok v => v | Err _ => 0 end | TIdle => 0 end.
Definition reached (lo : Z) (ts : list trx) : Z := foldl (fun _ t => number t) lo ts.

Section one_server.
Context (u : string).

Lemma numbered_app lo a b : numbered u lo (a ++ b)%list -> numbered u lo a /\ numbered u (reached lo a) b.
Proof.
  revert lo. induction a as [|t a IH]; intros lo Hn; [done|]. destruct t as [u' x lc ops| |]; cbn in Hn; try done.
  destruct Hn as (-> & v & Hx & Hv & Hn). destruct (IH v Hn) as [H1 H2]. split; [cbn; eauto|].
  unfold reached in *. cbn. by rewrite Hx.
Qed.

Lemma reached_app lo a b : reached lo (a ++ b)%list = reached (reached lo a) b.
Proof. apply foldl_app. Qed.

Lemma reached_le lo a : numbered u lo a -> lo <= reached lo a.
Proof.
  revert lo. induction a as [|t a IH]; intros lo Hn; [done|]. destruct t as [u' x lc ops| |]; cbn in Hn; try done.
  destruct Hn as (-> & v & Hx & Hv & Hn). specialize (IH v Hn). unfold reached in *. cbn. rewrite Hx. lia.
Qed.

(** The source sends what lies behind the number asked for. *)
Lemma unseen_none m lo a w :
  dict_get m u = Some w -> numbered u lo a -> reached lo a <= w -> filter (fun t => unseen m t = true) a = [].
Proof.
  intros Hm. revert lo. induction a as [|t a IH]; intros lo Hn Hw; [done|]. destruct t as [u' x lc ops| |]; cbn in Hn; try done.
  destruct Hn as (-> & v & Hx & Hv & Hn). unfold reached in *. cbn in Hw. rewrite Hx in Hw.
  pose proof (reached_le v a Hn) as Hle. unfold reached in Hle. rewrite filter_cons_False; [by eapply IH|].
  cbn. rewrite Hx, Hm. destruct (Z.ltb_spec w v); [lia|done].
Qed.

Lemma unseen_all m lo a w :
  dict_get m u = Some w -> numbered u lo a -> w <= lo -> filter (fun t => unseen m t = true) a = a.
Proof.
  intros Hm. revert lo. induction a as [|t a IH]; intros lo Hn Hw; [done|]. destruct t as [u' x lc ops| |]; cbn in Hn; try done.
  destruct Hn as (-> & v & Hx & Hv & Hn). rewrite filter_cons_True; [by rewrite (IH v Hn) by lia|].
  cbn. rewrite Hx, Hm. destruct (Z.ltb_spec w v); [done|lia].
Qed.

Lemma unseen_rest m lo a b :
  numbered u lo (a ++ b)%list -> dict_get m u = Some (reached lo a) -> filter (fun t => unseen m t = true) (a ++ b)%list = b.
Proof.
  intros [Ha Hb]%numbered_app Hm. rewrite filter_app, (unseen_none m lo a _ Hm Ha), (unseen_all m _ b _ Hm Hb); done.
Qed.

(** The checkpoint names the last number. *)
Lemma noted_number g lo a : numbered u lo a -> a <> [] -> dict_get (noted g a) u = Some (reached lo a).
Proof.
  revert g lo. induction a as [|t a IH]; intros g lo Hn Hne; [done|]. destruct t as [u' x lc ops| |]; cbn in Hn; try done.
  destruct Hn as (-> & v & Hx & Hv & Hn). unfold noted, reached in *. cbn. rewrite Hx.
  destruct a as [|t' a]; [cbn; by rewrite dict_get_set_eq|]. by eapply IH.
Qed.

Lemma noted_busy g ts : noted g (busy ts) = noted g ts.
Proof.
  unfold noted, busy. revert g. induction ts as [|t ts IH]; intros g; [done|]. rewrite filter_cons. case_decide as E; [apply IH|].
  destruct t; [by exfalso; apply E|by exfalso; apply E|]. apply IH.
Qed.
End one_server.

Lemma take_more {A} k (l ts : list A) : l `prefix_of` drop k ts -> take (k + length l) ts = (take k ts ++ l)%list.
Proof. intros [rest Hl]. by rewrite <- take_take_drop, Hl, take_app_length. Qed.

Lemma busy_app a b : busy (a ++ b)%list = (busy a ++ busy b)%list.
Proof. apply filter_app. Qed.

Lemma busy_prefix a b : a `prefix_of` b -> busy a `prefix_of` busy b.
Proof. intros [k ->]. rewrite busy_app. by eexists. Qed.

(** ** Any number of runs *)

Section restarts.
Context {C : Type} `{TargetLaws C} (veq : pyval -> pyval -> bool) `{!ValueEquality veq}.
Context (reserved : string -> bool) (cfg : settings) (ddl : string -> db -> db) (auto_position : string).

(** The target's log and the files of the program after any number of runs, the
    source sending each time what is not in the set it is asked for, up to
    any point. *)
Inductive bak_attempts (ts : list trx) (a0 : list action) (fs0 : files) : list action -> files -> Prop :=
  | bak_attempts_none : bak_attempts ts a0 fs0 a0 fs0
  | bak_attempts_run a fs (con0 : C) start s now us items r s' :
      bak_attempts ts a0 fs0 a fs -> committed con0 = a -> pending con0 = [] ->
      bak_sync_init con0 fs auto_position = Ok (start, s) ->
      busy us = sent fs auto_position ts -> delivers items (stream_of us) -> bak_run now cfg items s = (r, s') ->
      bak_attempts ts a0 fs0 (bdone (bs_mc s')) (bs_dir s').

Lemma row_ddl_alone lc us : Forall is_row_trx us -> ddl_alone lc us.
Proof. intros Hus. revert lc. induction Hus as [|t us Ht HF IH]; intros lc; [done|]. destruct t; cbn; [apply IH|done|apply IH]. Qed.

Section history.
Context (u : string) (lo : Z) (start : dict string Z) (ts : list trx) (f : nat -> db) (e0 : db).
Hypothesis Hf : forall i o, all_ops ts !! i = Some o -> kept_step veq cfg (f i) o (f (S i)).
Hypothesis Hwf : wf_db veq reserved cfg (f 0%nat).
Hypothesis Hrow : Forall is_row_trx ts.
Hypothesis Hstart : format_gtidset auto_position = Ok start.
Hypothesis Hlo : dict_get start u = Some lo.
Hypothesis Hnum : numbered u lo ts.

Abbreviation held a := (apply_actions veq reserved ddl a e0).
Abbreviation caught_at k a := (caught veq cfg f (all_ops ts) (length (all_ops (take k ts))) (held a)).

(** The files ask for the transactions behind the first [k]. *)
Definition asks (k : nat) (fs : files) : Prop := dict_get (asked fs auto_position) u = Some (reached lo (take k ts)).

Lemma asks_rest k fs : asks k fs -> sent fs auto_position ts = drop k ts.
Proof.
  intros Hk. unfold sent. pose proof Hnum as Hn. rewrite <- (take_drop k ts) in Hn. rewrite <- (take_drop k ts) at 1.
  by apply (unseen_rest u _ lo).
Qed.

Lemma asks_start fs : dict_get fs "ckpt.json" = None -> asks 0 fs.
Proof. intros Hfs. unfold asks, asked. by rewrite Hstart, Hfs. Qed.

(** A checkpoint moves the position forward, or back to the configured one when
    it is empty. *)
Lemma asks_saved k fs saved :
  saved `prefix_of` drop k ts -> dict_get fs "ckpt.json" = Some (FJson (noted [] saved)) ->
  asks (if decide (saved = []) then 0 else k + length saved)%nat fs.
Proof.
  intros [rest Hs] Hfs. unfold asks, asked. rewrite Hstart, Hfs.
  rewrite merge_entries_get by (apply noted_nodup; constructor). rewrite Hlo. case_decide as E.
  - subst saved. done.
  - pose proof Hnum as Hn. rewrite <- (take_drop k ts), Hs in Hn. apply numbered_app in Hn as [H1 H2].
    apply numbered_app in H2 as [H2 _]. rewrite (noted_number u [] _ saved H2 E).
    assert (take (k + length saved) ts = take k ts ++ saved)%list as ->.
    { by apply take_more; exists rest. }
    rewrite reached_app. f_equal. pose proof (reached_le u _ _ H1). pose proof (reached_le u _ _ H2). lia.
Qed.

(** What a run leaves. *)
Lemma bak_run_catches k a fs (con0 : C) text s now us items r s' :
  (k <= length ts)%nat -> asks k fs -> caught_at k a ->
  committed con0 = a -> pending con0 = [] -> bak_sync_init con0 fs auto_position = Ok (text, s) ->
  busy us = sent fs auto_position ts -> delivers items (stream_of us) -> bak_run now cfg items s = (r, s') ->
  (exists k', (k' <= length ts)%nat /\ asks k' (bs_dir s') /\ caught_at k' (bdone (bs_mc s'))) /\
  (bdone (bs_mc s') = (a ++ effect cfg us)%list -> caught_at (length ts) (bdone (bs_mc s'))).
Proof.
  intros Hk Has Hc Hcon Hp Hinit Hus Hd Hrun. rewrite (asks_rest k fs Has) in Hus.
  assert (Forall is_row_trx us) as Hrus by (eapply busy_row; [exact Hus|]; by apply Forall_drop).
  assert (all_ops ts = all_ops (take k ts) ++ all_ops (busy us))%list as Hsplit.
  { by rewrite <- all_ops_app, Hus, take_drop. }
  (* replaying the first transactions of [us] *)
  assert (forall hb, hb `prefix_of` us ->
    caught veq cfg f (all_ops ts) (length (all_ops (take k ts)) + length (all_ops hb)) (held (a ++ effect cfg hb)%list)) as Hrep.
  { intros hb [rest Hhb]. rewrite apply_actions_app, (effect_ops cfg hb), apply_dml_actions.
    2: { rewrite Hhb in Hrus. by apply Forall_app in Hrus as [? _]. }
    apply (caught_replay veq reserved cfg ddl f (all_ops ts) Hf Hwf); [|done].
    rewrite Hsplit, drop_app_length, all_ops_busy, Hhb, all_ops_app. by eexists. }
  assert (length (all_ops ts) = length (all_ops (take k ts)) + length (all_ops us))%nat as Hlen
    by (by rewrite Hsplit, length_app, all_ops_busy).
  destruct (bak_run_safe now cfg con0 fs auto_position text auto_position us items s r s' Hp Hinit Hd) as (hb & Hhb & Hdone & Hfile);
    [intros _; by apply row_ddl_alone|done|].
  rewrite Hcon in Hdone. pose proof (Hrep hb Hhb) as Hch. rewrite <- Hdone in Hch.
  assert (length (all_ops hb) <= length (all_ops us))%nat as Hle
    by (destruct Hhb as [rest ->]; rewrite all_ops_app, length_app; lia).
  assert (forall k', (length (all_ops (take k' ts)) <= length (all_ops (take k ts)) + length (all_ops hb))%nat ->
    caught_at k' (bdone (bs_mc s'))) as Hback.
  { intros k' Hk'. eapply (caught_back veq reserved cfg ddl f (all_ops ts) Hf Hwf); [|exact Hch]. lia. }
  split; [|intros Hall; rewrite Hall; rewrite take_ge by lia; rewrite Hlen; by apply Hrep].
  destruct Hfile as [Hfile|(saved & Hsaved & Hfile & _)].
  - exists k. split; [done|]. split; [unfold asks, asked in *; by rewrite Hfile|]. apply Hback. lia.
  - assert (busy saved `prefix_of` drop k ts) as Hsp by (rewrite <- Hus; apply busy_prefix; by etrans).
    rewrite <- noted_busy in Hfile. eexists. split; [|split; [by eapply asks_saved|]]; case_decide as E.
    + lia.
    + apply prefix_length in Hsp. rewrite length_drop in Hsp. lia.
    + apply Hback. rewrite take_0. change (length (all_ops [])) with 0%nat. lia.
    + apply Hback. rewrite (take_more k _ ts Hsp), all_ops_app, length_app, all_ops_busy.
      destruct Hsaved as [r2 ->]. rewrite all_ops_app, length_app. lia.
Qed.
End history.

End restarts.

(** ** A concrete restart

    The first run commits the first transaction and stops before a checkpoint
    is written; the second executes it again. *)

Definition bak_second : trx := TDml "u" "7" 1 (trx_ops again_second).
Definition bak_pair : list trx := [again_first; bak_second].
Definition bak_start (held : list action) (fs : files) (auto_position : string) : bak_sync journal :=
  match bak_sync_init (mkJournal held [] false []) fs auto_position with
  | Ok (_, s) => s
  | Err _ => bak_state []
  end.
Definition bak_stopped : bak_sync journal :=
  snd (bak_run (jump 6) ex_merge (map Ok (ex_items (take 5 (stream_of bak_pair))) ++ [Err ValueError])%list (bak_start [] [] "u:1-5")).
Definition bak_held : list action := bdone (bs_mc bak_stopped).
Definition bak_ended : result bool * bak_sync journal :=
  bak_run still ex_merge (map Ok (ex_items (stream_of bak_pair))) (bak_start bak_held [] "u:1-5").

Example bak_twice :
  bak_held = effect ex_merge [again_first] /\ bs_dir bak_stopped = [] /\
  bdone (bs_mc (snd bak_ended)) = (effect ex_merge [again_first] ++ effect ex_merge bak_pair)%list.
Proof. vm_compute. done. Qed.

Lemma bak_pair_history : row_history plain_eq ex_merge (ex_db ex_old) bak_pair (ex_db again_rows).
Proof.
  pose proof again_history as Hh. inversion Hh as [|? ? d1 ? ? H1 H2]; subst. inversion H2 as [|? ? d2 ? ? H3 H4]; subst.
  inversion H4; subst. eapply path_cons; [exact H1|]. eapply path_cons; [exact H3|constructor].
Qed.

Lemma bak_stopped_attempts : bak_attempts (C := journal) ex_merge "u:1-5" bak_pair [] [] bak_held (bs_dir bak_stopped).
Proof.
  eapply (bak_attempts_run ex_merge "u:1-5" bak_pair [] [] [] [] (mkJournal [] [] false []) "u:1-5" (bak_start [] [] "u:1-5")
    (jump 6) bak_pair (map Ok (ex_items (take 5 (stream_of bak_pair))) ++ [Err ValueError])%list (Err ValueError) bak_stopped).
  - constructor.
  - reflexivity.
  - reflexivity.
  - vm_compute. reflexivity.
  - vm_compute. reflexivity.
  - apply delivers_some. eexists. vm_compute. reflexivity.
  - vm_compute. reflexivity.
Qed.


(** With two servers it does not: a run names in its checkpoint only the servers
    it received transactions of, so the position of the others falls back to
    the configured one, and their transactions come again without those of
    the first that followed them. *)
Example bak_position_lost :
  let s := snd (bak_run (jump 8) ex_merge
    (map Ok (ex_items (take 10 (stream_of [TDml "v" "4" 0 [ex_row 1]; TDml "v" "5" 1 [ex_row 2]; TDml "v" "6" 2 [ex_row 3]])))
      ++ [Err ValueError])%list (bak_start [] [("ckpt.json", FJson [("u", 9); ("v", 3)])] "u:1-5,v:1-2")) in
  asked [("ckpt.json", FJson [("u", 9); ("v", 3)])] "u:1-5,v:1-2" = [("u", 9); ("v", 3)] /\
  bs_dir s = [("ckpt.json", FJson [("v", 5)])] /\ asked (bs_dir s) "u:1-5,v:1-2" = [("u", 5); ("v", 5)].
Proof. vm_compute. done. Qed.
