(* ===== verification/BakStream.v ===== *)
(** * The earlier program from the bytes of the binlog to the target

    The parts of [main.bak1.py] in front of its loop have the text of
    [main.py] up to what they print, so they are the same definitions; the
    theorem composes them with the loop of [BakSync]. *)

From stdpp Require Import base list strings sets.
From Stdlib Require Import ZArith Lia Ascii.
From S2P Require Import Prelude PyBytes PyStr Values UtilBytes Packet Column Gtid GtidText GtidWire GtidSet Bitmap JsonBinary RowValues RowDecimal Event Sql Metric Checkpoint Client Sync SyncLive Ddl RowsEvent RowCells RowImage TableMap TableMapEvent Dispatch Stream Replication EndToEnd BakClient BakSync BakSafe.
Open Scope string_scope.
Open Scope Z_scope.
Open Scope list_scope.

(** The dataclasses of operations. *)
Definition bak_operation : Type := operation.

Definition bak_generate_condition_and_values := generate_condition_and_values.
Definition bak_dmlOperation2Sql := dmlOperation2Sql.
Definition bak_format_filter_tables := format_filter_tables.

Section packets.
Context {P : Type} `{MysqlPacketLaws P} `{UnicodeTables}.
Context (cd : codecs) (ignore_decode_errors : bool) (json_depth : nat) (set_order : list string -> list string).
Context (c : reader_config) (sv : server) (allowed : list event_class).

Definition bak_extract_schema := extract_schema.
Definition bak_reset_col_val := reset_col_val set_order.
Definition bak_reset_values := reset_values set_order.
Definition bak_handle_update_rows := handle_update_rows set_order.
Definition bak_handle_write_rows := handle_write_rows set_order.
Definition bak_handle_delete_rows := handle_delete_rows set_order.
Definition bak_handle_gtid := handle_gtid.
Definition bak_handle_query := handle_query.
Definition bak_operation_stream : list (incoming P) -> reader -> list (result item) * reader :=
  operation_stream set_order cd ignore_decode_errors json_depth c sv allowed.

Hypothesis Hend : true_int (rc_end_log_pos c) = None.
Hypothesis Hskip : true_int (rc_skip_to_timestamp c) = None.
Hypothesis Hfreeze : rc_freeze_schema c = false.
Hypothesis Hallowed : [GtidEventC; QueryEventC; XidEventC; TableMapEventC; WriteRowsEventC; UpdateRowsEventC; DeleteRowsEventC] ⊆ allowed.

(** From bytes to the target and the checkpoint: when the packets a source
    sends are those of the transactions [ts], then however the run of the
    earlier program over the operation stream ends - the target may refuse any
    statement or commit - the target holds the statements of the first
    transactions, whole and in order, and the checkpoint file is the one of
    the start or names only transactions that are held, and the next start
    resumes from it. *)
Theorem bak_replication_safe {C : Type} `{TargetLaws C} (now : nat -> Z) (cfg : settings)
    ps l rd ts (k : C) (fs : files) (auto_position start gtidset : string) (s : bak_sync C) r s' :
  ready rd -> transmission cd ignore_decode_errors json_depth set_order c sv (mysql_version rd) (rd_table_map rd) ps l ->
  mjoin (map snd l) = stream_of ts -> (merge_trx cfg = true -> ddl_alone (-1) ts) ->
  pending k = [] -> bak_sync_init k fs auto_position = Ok (start, s) ->
  bak_run now cfg (fst (bak_operation_stream (map InPacket ps ++ [InEof]) rd)) s = (r, s') ->
  exists held, held `prefix_of` ts /\ bdone (bs_mc s') = committed k ++ effect cfg held /\
    (dict_get (bs_dir s') "ckpt.json" = dict_get fs "ckpt.json" \/
     exists saved, saved `prefix_of` held /\
       dict_get (bs_dir s') "ckpt.json" = Some (FJson (noted [] saved)) /\
       resumes_from gtidset (noted [] saved) (bs_dir s')).
Proof.
  intros Hrd Htr Hops Hdd Hk Hinit Hrun. unfold bak_operation_stream in Hrun.
  rewrite (operation_stream_items cd ignore_decode_errors json_depth set_order c sv allowed Hend Hskip Hfreeze Hallowed ps l rd Hrd Htr) in Hrun.
  eapply bak_run_safe; [done|done| |done|done].
  rewrite <- Hops, <- (expected_operations (log_file rd) (Some 4)). constructor.
Qed.
End packets.

Lemma bak_replication_safe_witness :
  exists held, held `prefix_of` [TDml ex_uuid "23" 5 [ex_insert]] /\
    bdone (bs_mc (snd (bak_run still ex_merge
      (fst (bak_operation_stream no_codecs false 10 (fun l => l) ex_config ex_server ex_allowed
        (map InPacket ex_packets ++ [InEof]) ex_reader)) (bak_state [])))) =
    committed (mkJournal [] [] false []) ++ effect ex_merge held.
Proof.
  destruct (bak_replication_safe no_codecs false 10 (fun l => l) ex_config ex_server ex_allowed eq_refl eq_refl eq_refl ex_allowed_ok
    still ex_merge ex_packets ex_log ex_reader [TDml ex_uuid "23" 5 [ex_insert]] (mkJournal [] [] false []) [] "u:1-5" "u:1-5" "u:1-5"
    (bak_state []) _ _ ltac:(by repeat split) ex_transmission eq_refl ltac:(done) eq_refl eq_refl (surjective_pairing _)) as (held & Hp & Hd & _).
  exists held. split; [exact Hp|exact Hd].
Defined.
