(* ===== verification/Dump.v ===== *)
(** * Printing events

    [event.py] and [row_event.py]: the methods [dump], [_dump], [to_dict] and
    [__repr__] of the event classes; [main.py], class [Logger].

    A printed line is kept as the pieces of its f-string, so that the text a
    value is shown with ([str] of floats, decimals, sets) is not fixed here; the
    output of a method that raises is what it printed before.  The operator [%]
    of Python applied to a string and a byte string is the parameter
    [percent]. *)

From stdpp Require Import base list strings sets.
From Stdlib Require Import ZArith Lia Ascii.
From S2P Require Import Prelude PyBytes PyStr Values UtilBytes Packet Column Gtid GtidText GtidWire GtidSet Bitmap JsonBinary RowValues Event Sql RowsEvent JsonDoc RowDecimal RowCells TableMap Dispatch.
Open Scope string_scope.
Open Scope Z_scope.

(** ** Output *)

(** What an f-string shows: a value of a row or an event, a tuple, a list of
    texts, a dictionary. *)
Inductive shown :=
  | ShVal (v : pyval)
  | ShTuple (l : list Z)
  | ShOint (o : oint)
  | ShBools (l : list bool)
  | ShOints (l : list oint)
  | ShOintDict (d : dict oint oint)
  | ShTexts (l : list string)
  | ShTextLists (o : option (list (list string)))
  | ShOintList (o : option (list oint))
  | ShPair (v : pyval) (source : string).         (* (f'{v} ', f'{source} ') *)

Inductive piece := PText (s : string) | PShow (x : shown).

Definition line : Type := list piece.

(** Output so far. *)
Abbreviation D := (ST (list line)).

Definition say (l : line) : D unit := st_modify (fun out => out ++ [l])%list.
Definition text (s : string) : D unit := say [PText s].
(** [print(f"{label}{x}")] *)
Definition field (label : string) (x : shown) : D unit := say [PText label; PShow x].
Definition field_int (label : string) (z : Z) : D unit := text (label ++ str_of_Z z).
Definition field_bool (label : string) (b : bool) : D unit := text (label ++ (if b then "True" else "False")).

(** ** Dates and bytes *)

(** [datetime.isoformat()] without microseconds. *)
Definition isoformat (v : pyval) : result string :=
  match v with
  | VDatetime y mo d h mi s 0 =>
      Ok (fmt_zero 4 y ++ "-" ++ fmt_zero 2 mo ++ "-" ++ fmt_zero 2 d ++ "T" ++ fmt_zero 2 h ++ ":" ++ fmt_zero 2 mi ++ ":" ++ fmt_zero 2 s)
  | _ => Err TypeError
  end.

Definition formatted_timestamp (ts : Z) : result string := d ← utcfromtimestamp ts; isoformat d.

Definition hex2 (b : Z) : string :=
  string_of_bytes [if b / 16 <? 10 then 48 + b / 16 else 87 + b / 16; if b mod 16 <? 10 then 48 + b mod 16 else 87 + b mod 16].

(** One byte in [repr] of bytes, inside quotes [q]. *)
Definition repr_byte (q b : Z) : string :=
  if (b =? 92) || (b =? q) then string_of_bytes [92; b]
  else if b =? 9 then string_of_bytes [92; 116]
  else if b =? 10 then string_of_bytes [92; 110]
  else if b =? 13 then string_of_bytes [92; 114]
  else if (b <? 32) || (127 <=? b) then string_of_bytes [92; 120] ++ hex2 b
  else string_of_bytes [b].

(** [repr] of bytes: single quotes unless they hold one and no double quote. *)
Definition repr_bytes (bs : bytes) : string :=
  let q := if bool_decide (39 ∈ bs) && negb (bool_decide (34 ∈ bs)) then 34 else 39 in
  "b" ++ string_of_bytes [q] ++ join "" (map (repr_byte q) bs) ++ string_of_bytes [q].

Section dump.
Context {P : Type} `{MysqlPacket P} (cd : codecs) (ignore_decode_errors : bool) (json_depth : nat).
Context (percent : string -> bytes -> result string).

(** ** The classes *)

Definition class_name (e : event P) : string :=
  match e with
  | EQuery _ => "QueryEvent"
  | ERotate _ _ => "RotateEvent"
  | EFormatDescription _ => "FormatDescriptionEvent"
  | EXid _ => "XidEvent"
  | EIntvar _ _ => "IntvarEvent"
  | EGtid _ => "GtidEvent"
  | EPreviousGtids _ => "PreviousGtidsEvent"
  | EStop => "StopEvent"
  | EBeginLoadQuery _ _ => "BeginLoadQueryEvent"
  | EExecuteLoadQuery _ => "ExecuteLoadQueryEvent"
  | EHeartbeat _ => "HeartbeatLogEvent"
  | EXAPrepare _ _ _ _ => "XAPrepareEvent"
  | ERowsQuery _ => "RowsQueryLogEvent"
  | ERand _ _ => "RandEvent"
  | EUserVar _ => "UserVarEvent"
  | ERows r _ _ =>
      match re_class r with
      | CDelete => "DeleteRowsEvent" | CWrite => "WriteRowsEvent"
      | CUpdate => "UpdateRowsEvent" | CPartialUpdate => "PartialUpdateRowsEvent"
      end
  | ETableMap _ => "TableMapEvent"
  | ENotImplemented => "NotImplementedEvent"
  | EMariadbAnnotate _ => "MariadbAnnotateRowsEvent"
  | EMariadbCheckpoint _ => "MariadbBinLogCheckPointEvent"
  | EMariadbGtid _ _ _ _ => "MariadbGtidEvent"
  | EMariadbGtidList _ => "MariadbGtidListEvent"
  | EMariadbEncryption _ _ _ => "MariadbStartEncryptionEvent"
  end.

Definition title (e : event P) : D unit := text ("=== " ++ class_name e ++ " ===").

(** ** [_dump] *)

Definition dump_gtid (g : GtidEvent) : D unit :=
  field_bool "Commit: " (ge_commit_flag g) ;;
  text ("GTID_NEXT: " ++ ge_gtid g) ;;
  match ge_last_committed g with
  | Some lc =>
      field_int "last_committed: " lc ;;
      sn ← st_lift (of_option AttributeError (ge_sequence_number g));
      field_int "sequence_number: " sn
  | None => mret tt
  end.

Definition dump_xa_prepare (one_phase : bool) (format_id : Z) (gtrid bqual : bytes) : D unit :=
  field_bool "One phase: " one_phase ;;
  field_int "XID formatID: " format_id ;;
  xid ← st_lift (xa_xid gtrid bqual);
  text ("XID: " ++ xid).

Definition dump_format_description (fd : FormatDescriptionEvent) : D unit :=
  field "Binlog version: " (ShTuple [fd_binlog_version fd]) ;;
  text ("mysql version: " ++ fd_mysql_version_str fd) ;;
  field_int "Created: " (fd_created fd) ;;
  field_int "Common header length: " (fd_common_header_len fd) ;;
  field "Post header length: " (ShTuple (fd_post_header_len fd)) ;;
  field "Server version split: " (ShTuple (fd_server_version_split fd)) ;;
  field_int "Number of event types: " (fd_number_of_event_types fd).

(** [print(f"Schema: {self.schema}" % (self.schema))] *)
Definition dump_query (q : QueryEvent) : D unit :=
  l ← st_lift (percent ("Schema: " ++ repr_bytes (qe_schema q)) (qe_schema q));
  text l ;;
  field_int "Execution time: " (qe_execution_time q) ;;
  text ("Query: " ++ qe_query q).

(** The fields in the order of the constructor. *)
Definition load_labels : list string :=
  ["Slave proxy id: "; "Execution time: "; "Schema length: "; "Error code: "; "Status vars length: ";
   "File id: "; "Start pos: "; "End pos: "; "Dup handling flags: "].

Definition dump_execute_load (fields : list Z) : D unit :=
  st_iter (fun '(l, z) => field_int l z) (zip load_labels fields).

(** [self.type_to_codes_and_method.get(self.type, ["UNKNOWN_TYPE"])[0]] *)
Definition user_var_type (t : Z) : string :=
  match dict_get [(0, "STRING_RESULT"); (1, "REAL_RESULT"); (2, "INT_RESULT"); (3, "ROW_RESULT"); (4, "DECIMAL_RESULT")] t with
  | Some s => s
  | None => "UNKNOWN_TYPE"
  end.

Definition dump_user_var (u : UserVarEvent) : D unit :=
  text ("User variable name: " ++ uv_name u) ;;
  text ("Is NULL: " ++ (if uv_is_null u =? 0 then "No" else "Yes")) ;;
  if uv_is_null u =? 0 then
    text ("Type: " ++ match uv_type u with Some t => user_var_type t | None => "UNKNOWN_TYPE" end) ;;
    field "Charset: " (ShOint (uv_charset u)) ;;
    field "Value: " (ShVal (uv_value u)) ;;
    field "Flags: " (ShOint (uv_flags u))
  else mret tt.

(** [OptionalMetaData.dump] *)
Definition dump_metadata (m : OptionalMetaData) : D unit :=
  text "=== OptionalMetaData ===" ;;
  field "unsigned_column_list: " (ShBools (unsigned_column_list m)) ;;
  field "default_charset_collation: " (ShOint (default_charset_collation m)) ;;
  field "charset_collation: " (ShOintDict (charset_collation m)) ;;
  field "column_charset: " (ShOints (column_charset m)) ;;
  field "column_name_list: " (ShTexts (column_name_list m)) ;;
  field "set_str_value_list : " (ShTextLists (set_str_value_list m)) ;;
  field "set_enum_str_value_list : " (ShTextLists (set_enum_str_value_list m)) ;;
  field "geometry_type_list : " (ShOints (geometry_type_list m)) ;;
  field "simple_primary_key_list: " (ShOints (simple_primary_key_list m)) ;;
  field "primary_keys_with_prefix: " (ShOintDict (primary_keys_with_prefix m)) ;;
  field "visibility_list: " (ShBools (visibility_list m)) ;;
  field "charset_collation_list: " (ShOintList (charset_collation_list m)) ;;
  field "enum_and_set_collation_list: " (ShOintList (enum_and_set_collation_list m)).

Definition dump_table_map (optional_meta_data : bool) (t : TableMapEvent) : D unit :=
  field_int "Table id: " (tm_table_id t) ;;
  text ("Schema: " ++ tm_schema t) ;;
  text ("Table: " ++ tm_table t) ;;
  field_int "Columns: " (tm_column_count t) ;;
  if optional_meta_data then dump_metadata (tm_optional_metadata t) else mret tt.

(** ** Rows *)

(** [row["none_sources"].get(key, "")], shown when it is not empty. *)
Definition dump_value (sources : dict string string) (kv : string * pyval) : D unit :=
  let '(key, v) := kv in
  match dict_get sources key with
  | Some src =>
      if decide (src = "") then say [PText ("* " ++ key ++ " : "); PShow (ShVal v)]
      else say [PText ("* " ++ key ++ " : "); PShow (ShVal v); PText (" (" ++ src ++ ")")]
  | None => say [PText ("* " ++ key ++ " : "); PShow (ShVal v)]
  end.

Definition dump_row_values (d : row_data) : D unit :=
  text "--" ;; st_iter (dump_value (rd_none_sources d)) (values d).

(** A value of an update, with its source when it has one. *)
Definition value_info (d : row_data) (key : string) (v : pyval) : shown :=
  match dict_get (rd_none_sources d) key with Some src => ShPair v src | None => ShVal v end.

(** [row["after_values"][key]] is read even when only the before image has the
    column. *)
Definition dump_row_update (before after : row_data) : D unit :=
  text "--" ;;
  st_iter (fun '(key, v) =>
    w ← st_lift (dict_index (values after) key);
    say [PText ("*" ++ key ++ ":"); PShow (value_info before key v); PText "=>"; PShow (value_info after key w)]) (values before).

Definition dump_row (r : row_image) : D unit :=
  match r with RowValues d => dump_row_values d | RowUpdate b a => dump_row_update b a end.

(** [RowsEvent._dump] and that of the subclasses; [self.rows] is read once. *)
Definition dump_rows (table_map : dict Z Table) (r : RowsEvent) (s : rowst P) (size : Z) : D unit :=
  text ("Table: " ++ re_schema r ++ "." ++ re_table r) ;;
  field_int "Affected columns: " (re_number_of_columns r) ;;
  l ← st_lift (fst (rows cd ignore_decode_errors json_depth r (event_type (rs_packet s)) size s));
  field_int "Changed rows: " (Z.of_nat (length l)) ;;
  t ← st_lift (dict_index table_map (re_table_id r));
  field_bool "Column Name Information Flag: " (column_name_flag t) ;;
  text "Values:" ;;
  st_iter dump_row l.

(** The classes that print a few fields. *)
Definition dump_previous_gtids (gtids : string) : D unit := text ("previous_gtids: " ++ gtids).
Definition dump_mariadb_gtid (flags : Z) (gtid : string) : D unit := field_int "Flags: " flags ;; text ("GTID: " ++ gtid).
Definition dump_mariadb_checkpoint (filename : string) : D unit := text ("Filename: " ++ filename).
Definition dump_mariadb_annotate (sql : bytes) : D unit := text ("SQL statement : " ++ repr_bytes sql).
Definition dump_xid (xid : Z) : D unit := field_int "Transaction ID: " xid.
Definition dump_begin_load (file_id : Z) (block_data : bytes) : D unit :=
  field_int "File id: " file_id ;; text ("Block data: " ++ repr_bytes block_data).
Definition dump_intvar (type_ value : Z) : D unit := field_int "type: " type_ ;; field_int "Value: " value.
Definition dump_rand (seed1 seed2 : Z) : D unit := field_int "seed1: " seed1 ;; field_int "seed2: " seed2.
Definition dump_encryption (schema key_version : Z) (nonce : bytes) : D unit :=
  field_int "Schema: " schema ;; field_int "Key version: " key_version ;; text ("Nonce: " ++ repr_bytes nonce).

(** [self.indent] is an attribute no event has. *)
Definition dump_heartbeat : D unit := st_raise AttributeError.

(** [self._dump()] *)
Definition dump_body (optional_meta_data : bool) (table_map : dict Z Table) (e : event P) : D unit :=
  match e with
  | EGtid g => dump_gtid g
  | EPreviousGtids g => dump_previous_gtids g
  | EMariadbGtid _ _ flags gtid => dump_mariadb_gtid flags gtid
  | EMariadbCheckpoint f => dump_mariadb_checkpoint f
  | EMariadbAnnotate sql => dump_mariadb_annotate sql
  | EXAPrepare one fmt g b => dump_xa_prepare one fmt g b
  | EFormatDescription fd => dump_format_description fd
  | EXid x => dump_xid x
  | EHeartbeat _ => dump_heartbeat
  | EQuery q => dump_query q
  | EBeginLoadQuery f b => dump_begin_load f b
  | EExecuteLoadQuery l => dump_execute_load l
  | EIntvar t v => dump_intvar t v
  | ERand a b => dump_rand a b
  | EUserVar u => dump_user_var u
  | EMariadbEncryption s k n => dump_encryption s k n
  | ETableMap t => dump_table_map optional_meta_data t
  | ERows r s size => dump_rows table_map r s size
  | ERotate _ _ | ERowsQuery _ | EStop | ENotImplemented | EMariadbGtidList _ => mret tt
  end.

(** ** [dump] *)

(** The two classes with a [dump] of their own, after the title. *)
Definition dump_rotate (position : Z) (next_binlog : string) : D unit :=
  field_int "Position: " position ;; text ("Next binlog file: " ++ next_binlog) ;; say [].
Definition dump_rows_query (query : string) : D unit := text ("Query: " ++ query).

(** The parts of the header that are printed. *)
Record header := mkHeader { h_timestamp : Z; h_log_pos : Z; h_event_size : Z; h_read_bytes : Z }.

Definition dump (optional_meta_data : bool) (table_map : dict Z Table) (h : header) (e : event P) : D unit :=
  match e with
  | ERotate position next_binlog =>
      title e ;; dump_rotate position next_binlog
  | ERowsQuery query => title e ;; dump_rows_query query
  | _ =>
      title e ;;
      d ← st_lift (formatted_timestamp (h_timestamp h));
      text ("Date: " ++ d) ;;
      field_int "Log position: " (h_log_pos h) ;;
      field_int "Event size: " (h_event_size h) ;;
      field_int "Read bytes: " (h_read_bytes h) ;;
      dump_body optional_meta_data table_map e ;;
      say []
  end.

(** [to_dict] and [to_json] *)
Definition to_dict (h : header) : result (dict string pyval) :=
  d ← formatted_timestamp (h_timestamp h);
  Ok [("timestamp", VStr d); ("log_pos", VInt (h_log_pos h)); ("event_size", VInt (h_event_size h));
      ("read_bytes", VInt (h_read_bytes h))].

Definition to_json (h : header) : result string :=
  d ← formatted_timestamp (h_timestamp h);
  let quote := string_of_bytes [34] in
  let key k := (quote ++ k ++ quote ++ ": ")%string in
  Ok ("{" ++ key "timestamp" ++ quote ++ d ++ quote ++ ", " ++ key "log_pos" ++ str_of_Z (h_log_pos h) ++ ", "
      ++ key "event_size" ++ str_of_Z (h_event_size h) ++ ", " ++ key "read_bytes" ++ str_of_Z (h_read_bytes h) ++ "}").

(** [__repr__] of the two classes that have one. *)
Definition repr_gtid_event (g : GtidEvent) : string :=
  let quote := string_of_bytes [34] in "<GtidEvent " ++ quote ++ ge_gtid g ++ quote ++ ">".
Definition repr_previous_gtids (gtids : string) : string :=
  let quote := string_of_bytes [34] in "<PreviousGtidsEvent " ++ quote ++ gtids ++ quote ++ ">".
End dump.

(** ** [Logger] *)

Inductive channel := Stdout | Stderr.

(** A line of the log, for the time of day [time_stamp]. *)
Definition log_text (module time_stamp level message : string) : string :=
  time_stamp ++ " -- " ++ level ++ " -- " ++ module ++ " -- " ++ message.

Definition log_info (module time_stamp message : string) := (Stdout, log_text module time_stamp "INFO" message).
Definition log_error (module time_stamp message : string) := (Stderr, log_text module time_stamp "ERROR" message).
Definition log_warning (module time_stamp message : string) := (Stdout, log_text module time_stamp "WARNING" message).
Definition log_debug (module time_stamp message : string) := (Stdout, log_text module time_stamp "DEBUG" message).

(** ** What is printed *)

Section prints.
Context {P : Type} `{MysqlPacket P} (cd : codecs) (ignore_decode_errors : bool) (json_depth : nat).
Context (percent : string -> bytes -> result string).
(** A format without a percent sign is returned as it is: a byte string counts
    as a mapping, and a mapping need not be used up. *)
Hypothesis percent_plain : forall s b, str_mem "%" s = false -> percent s b = Ok s.

(** [m] prints something and returns. *)
Definition prints (m : ST (list line) unit) : Prop := forall out, exists more, m out = (Ok tt, out ++ more)%list.

Lemma prints_say l : prints (say l).
Proof. intros out. by exists [l]. Qed.

Lemma prints_ret : prints (mret tt).
Proof. intros out. exists []. by rewrite app_nil_r. Qed.

Lemma prints_then m (m' : ST (list line) unit) : prints m -> prints m' -> prints (m ;; m').
Proof.
  intros Hm Hm' out. rewrite st_bind_eq. destruct (Hm out) as (l & ->). destruct (Hm' (out ++ l)%list) as (l' & ->).
  exists (l ++ l')%list. by rewrite app_assoc.
Qed.

Lemma prints_lift {A} (r : result A) (a : A) (f : A -> ST (list line) unit) :
  r = Ok a -> prints (f a) -> prints (x ← st_lift r; f x).
Proof. intros -> Hf out. by apply Hf. Qed.

Lemma prints_iter {B} (f : B -> ST (list line) unit) l : (forall x, x ∈ l -> prints (f x)) -> prints (st_iter f l).
Proof.
  induction l as [|x l IH]; intros Hf; [apply prints_ret|]. cbn. apply prints_then; [apply Hf; by left|].
  apply IH. intros y Hy. apply Hf. by right.
Qed.
End prints.

#[export] Hint Resolve prints_say prints_ret prints_then : py.

Ltac prints_tac := repeat first [solve [unfold field, field_int, field_bool, text; auto with py]|apply prints_then|case_match].

Ltac unfold_dump :=
  unfold dump_format_description, dump_user_var, dump_table_map, dump_metadata, dump_previous_gtids, dump_mariadb_gtid,
    dump_mariadb_checkpoint, dump_mariadb_annotate, dump_xid, dump_begin_load, dump_intvar, dump_rand, dump_encryption.

Section outcome.
Context {P : Type} `{MysqlPacket P} (cd : codecs) (ignore_decode_errors : bool) (json_depth : nat).
Context (percent : string -> bytes -> result string).
Hypothesis percent_plain : forall s b, str_mem "%" s = false -> percent s b = Ok s.

(** The representation of a name without a percent sign has none. *)
Lemma repr_byte_plain (double : bool) b :
  byte_ok b -> b <> 37 -> str_mem "%" (repr_byte (if double then 34 else 39) b) = false.
Proof.
  intros Hb Hn. apply (byte_forall (fun b => (b =? 37) || negb (str_mem "%" (repr_byte 34 b)) && negb (str_mem "%" (repr_byte 39 b)))) in Hb;
    [|vm_compute; reflexivity].
  apply orb_true_iff in Hb as [Hb|Hb]; [by apply Z.eqb_eq in Hb|]. apply andb_true_iff in Hb as [H1 H2].
  destruct double; by apply negb_true_iff.
Qed.

Lemma repr_bytes_plain bs : bytes_ok bs -> 37 ∉ bs -> str_mem "%" (repr_bytes bs) = false.
Proof.
  intros Hb Hn. unfold repr_bytes. set (double := bool_decide (39 ∈ bs) && negb (bool_decide (34 ∈ bs))).
  rewrite !str_mem_app. assert (str_mem "%" (string_of_bytes [if double then 34 else 39]) = false) as -> by by destruct double.
  rewrite orb_false_r. cbn [str_mem]. apply str_mem_join; [done|]. apply List.Forall_map.
  clearbody double. induction Hb as [|b bs Hb Hbs IH]; constructor.
  - apply repr_byte_plain; [done|]. intros ->. apply Hn. by left.
  - apply IH. intros Hx. apply Hn. by right.
Qed.

(** The columns of the before image are in the after image. *)
Definition row_aligned (r : row_image) : Prop :=
  match r with
  | RowValues _ => True
  | RowUpdate b a => forall k v, (k, v) ∈ values b -> dict_mem (values a) k = true
  end.

(** The events whose data can be printed. *)
Definition printable (table_map : dict Z Table) (e : event P) : Prop :=
  match e with
  | EHeartbeat _ => False
  | EQuery q => bytes_ok (qe_schema q) /\ 37 ∉ qe_schema q
  | EXAPrepare _ _ g b => is_ok (xa_xid g b) = true
  | EGtid g => is_Some (ge_last_committed g) -> is_Some (ge_sequence_number g)
  | ERows r s size =>
      exists l, fst (rows cd ignore_decode_errors json_depth r (event_type (rs_packet s)) size s) = Ok l /\
        Forall row_aligned l /\ is_Some (dict_get table_map (re_table_id r))
  | _ => True
  end.

Lemma dump_row_prints r : row_aligned r -> prints (dump_row r).
Proof.
  destruct r as [d|b a]; cbn [dump_row row_aligned]; intros Hr.
  - apply prints_then; [prints_tac|]. apply prints_iter. intros [k v] _. unfold dump_value. prints_tac.
  - apply prints_then; [prints_tac|]. apply prints_iter. intros [k v] Hin. specialize (Hr k v Hin).
    unfold dict_mem in Hr. destruct (dict_get (values a) k) as [w|] eqn:E; [|done].
    eapply prints_lift; [unfold dict_index; by rewrite E|]. prints_tac.
Qed.

Lemma dump_body_prints om tm e : printable tm e -> prints (dump_body cd ignore_decode_errors json_depth percent om tm e).
Proof.
  destruct e; cbn [printable dump_body]; intros Hp;
    try by (unfold_dump; prints_tac).
  - destruct Hp as [Hb Hn]. unfold dump_query. eapply prints_lift; [|prints_tac]. apply percent_plain.
    rewrite str_mem_app. by rewrite repr_bytes_plain.
  - unfold dump_gtid. destruct (ge_last_committed g); [|prints_tac]. destruct (Hp ltac:(done)) as (sn & ->). prints_tac.
    by eapply prints_lift; [done|prints_tac].
  - unfold dump_execute_load. apply prints_iter. intros [l z] _. prints_tac.
  - unfold dump_xa_prepare. destruct (xa_xid gtrid bqual) as [x|] eqn:E; [|done]. prints_tac.
    by eapply prints_lift; [done|prints_tac].
  - destruct Hp as (l & E & Hl & (t & Ht)). unfold dump_rows. apply prints_then; [prints_tac|].
    apply prints_then; [prints_tac|]. eapply prints_lift; [exact E|]. apply prints_then; [prints_tac|].
    eapply prints_lift; [unfold dict_index; by rewrite Ht|]. apply prints_then; [prints_tac|].
    apply prints_then; [prints_tac|]. apply prints_iter. intros r0 Hr. apply dump_row_prints.
    rewrite List.Forall_forall in Hl. by apply Hl, list_elem_of_In.
Qed.

(** Printing an event: for a timestamp with a date, [dump] prints its lines and
    returns for every event that is printable - a query whose schema has no
    percent sign, an XA transaction whose identifier is text, a row event whose
    rows can be read and whose before images name columns of the after images,
    and every event of another class but one: the heartbeat, which raises
    [AttributeError] after the five lines of the header. *)
Theorem dump_correct om tm h (e : event P) out :
  is_ok (formatted_timestamp (h_timestamp h)) = true ->
  (printable tm e -> exists more, dump cd ignore_decode_errors json_depth percent om tm h e out = (Ok tt, out ++ more)%list) /\
  (forall ident, e = EHeartbeat ident -> exists more,
     dump cd ignore_decode_errors json_depth percent om tm h e out = (Err AttributeError, out ++ more)%list /\ length more = 5%nat).
Proof.
  intros Hts. destruct (formatted_timestamp (h_timestamp h)) as [d|] eqn:E; [|done]. split.
  - intros Hp. revert out.
    assert (prints (title e ;; x ← st_lift (formatted_timestamp (h_timestamp h)); text ("Date: " ++ x) ;;
      field_int "Log position: " (h_log_pos h) ;; field_int "Event size: " (h_event_size h) ;;
      field_int "Read bytes: " (h_read_bytes h) ;; dump_body cd ignore_decode_errors json_depth percent om tm e ;; say [])) as Hmain.
    { apply prints_then; [unfold title; prints_tac|]. eapply prints_lift; [exact E|].
      do 4 (apply prints_then; [prints_tac|]). apply prints_then; [by apply dump_body_prints|]. prints_tac. }
    destruct e; try exact Hmain; unfold dump, title, dump_rotate, dump_rows_query; prints_tac.
  - intros ident ->.
    exists [[PText ("=== " ++ class_name (P:=P) (EHeartbeat ident) ++ " ===")]; [PText ("Date: " ++ d)];
      [PText ("Log position: " ++ str_of_Z (h_log_pos h))]; [PText ("Event size: " ++ str_of_Z (h_event_size h))];
      [PText ("Read bytes: " ++ str_of_Z (h_read_bytes h))]].
    split; [|done]. unfold dump, title, text, field_int, text, say. rewrite st_bind_eq. cbn [st_modify].
    rewrite st_bind_eq. unfold st_lift. rewrite E. unfold mbind, ST_bind, st_modify. cbn [dump_body]. unfold dump_heartbeat, st_raise.
    by rewrite <- !app_assoc.
Qed.
End outcome.

Lemma dump_correct_witness :
  exists more, dump (P:=list_packet) no_codecs false 10 (fun s _ => Ok s) false [] (mkHeader 1717200000 200 40 40)
    (EHeartbeat "binlog.1") [] = (Err AttributeError, more) /\ length more = 5%nat.
Proof.
  exact (proj2 (dump_correct (P:=list_packet) no_codecs false 10 (fun s _ => Ok s) (fun _ _ _ => eq_refl) false []
    (mkHeader 1717200000 200 40 40) (EHeartbeat "binlog.1") [] eq_refl) "binlog.1" eq_refl).
Defined.
