(* ===== verification/Scripts.v ===== *)
(** * The scripts around the program

    [scripts/main.py]: connection strings, the commands of the pipeline
    mysqlbinlog | mysqlbinlog-statistics | mysql, and the writer that spreads
    the lines of a pipe over one log file per day, with its variant in
    [labs/pipe_logs.py]; [scripts/dbcompare.py]: its connection settings, the
    query for the tables, and one task.  The queries and reports are in
    [Compare], the processes in [Pipeline]. *)

From stdpp Require Import base list strings sets.
From Stdlib Require Import ZArith Lia Ascii.
From S2P Require Import Prelude PyBytes PyStr GtidText.
Open Scope string_scope.
Open Scope Z_scope.

(** ** Connection strings *)

Record dsn := mkDsn { dsn_user : string; dsn_password : string; dsn_host : string; dsn_port : string }.

(** [a, b = s.split(c)] *)
Definition split_pair (c : ascii) (s : string) : result (string * string) :=
  match split_on c s with
  | [a; b] => Ok (a, b)
  | _ => Err ValueError
  end.

Definition parse_connection_string (conn_str : string) : result dsn :=
  '(user_info, host_info) ← split_pair "@" conn_str;
  '(username, password) ← split_pair "/" user_info;
  '(host, port) ← split_pair ":" host_info;
  Ok (mkDsn username password host port).

(** ** The commands of the pipeline *)

(** [x if x else ...] of an optional string: [None] and [""] are false. *)
Definition truthy (o : option string) : option string :=
  match o with Some s => if str_nonempty s then Some s else None | None => None end.

Definition make_cmd_cmd1 (d : dsn) (server_id start_binlogfile : string) (compression_level exclude_gtids : option string)
    (stop_never : bool) : list string :=
  concat [["mysqlbinlog"; "--host=" ++ dsn_host d; "--port=" ++ dsn_port d; "--user=" ++ dsn_user d;
    "--password=" ++ dsn_password d; "--read-from-remote-source=BINLOG-DUMP-GTIDS"; "--verify-binlog-checksum";
    "--connection-server-id=" ++ server_id; "--verbose"; "--verbose"; "--idempotent"; "--force-read";
    "--print-table-metadata"];
   match truthy compression_level with
      | Some l => ["--compression-algorithms=zstd"; "--zstd-compression-level=" ++ l]
      | None => []
      end;
   match truthy exclude_gtids with Some g => ["--exclude-gtids=" ++ g] | None => [] end;
   [if stop_never then "--stop-never" else "--to-last-log"; start_binlogfile]].

Definition make_cmd_cmd2 : list string := ["./target/debug/mysqlbinlog-statistics"].

Definition make_cmd_cmd3 (d : dsn) : list string :=
  ["mysql"; "--host=" ++ dsn_host d; "--port=" ++ dsn_port d; "--user=" ++ dsn_user d;
   "--password=" ++ dsn_password d; "--verbose"; "--verbose"; "--verbose"].

(** The three commands [main] starts, with the answers of the servers: the
    first binlog file of the source and the GTID set of the target. *)
Definition pipeline_commands (s_dsn t_dsn : dsn) (binlogfile gtid_set : string) (connection_server_id : Z)
    (stop_never : bool) : list string * list string * list string :=
  let exclude_gtids := if (1 <=? String.length gtid_set)%nat then Some gtid_set else None in
  (make_cmd_cmd1 s_dsn (str_of_Z connection_server_id) binlogfile None exclude_gtids stop_never,
   make_cmd_cmd2, make_cmd_cmd3 t_dsn).

(** ** The log writer *)

Record log_state := mkLogState {
  current_day : option string;
  log_open : option string;                  (* the name of the open file *)
  log_cnt : Z;
  log_files : dict string string
}.

Definition log_init (fs : dict string string) : log_state := mkLogState None None 1 fs.

Definition log_name (prefix day : string) : string := prefix ++ "." ++ day ++ ".log".

(** The file names of [labs/pipe_logs.py]. *)
Definition lab_log_name (prefix day : string) : string := prefix ++ "_errors_" ++ day ++ ".log".

(** [open(name, "a")]: a new file is empty. *)
Definition open_append (name : string) (fs : dict string string) : dict string string :=
  match dict_get fs name with Some _ => fs | None => dict_set fs name "" end.

Definition append_text (name text : string) (fs : dict string string) : dict string string :=
  dict_set fs name (default "" (dict_get fs name) ++ text).

(** The two writers differ in the name of the file of a day and in whether they
    count the lines. *)
Section writer.
Context (name_of : string -> string) (counted : bool).

(** The count of the lines and the line itself. *)
Definition log_write (line : bytes) : ST log_state unit :=
  (if counted
   then st_modify (fun s => mkLogState (current_day s) (log_open s) (log_cnt s + 1) (log_files s)) else mret tt) ;;
  text ← st_lift (utf8_decode ErrStrict line);
  s ← st_get;
  match log_open s with
  | Some name => st_modify (fun s => mkLogState (current_day s) (log_open s) (log_cnt s) (append_text name text (log_files s)))
  | None => st_raise AttributeError
  end.

(** One line, read on the day [today]. *)
Definition log_line (line : bytes) (today : string) : ST log_state unit :=
  s ← st_get;
  (if decide (current_day s = Some today) then mret tt
   else st_modify (fun s => mkLogState (Some today) (Some (name_of today)) (log_cnt s) (open_append (name_of today) (log_files s)))) ;;
  log_write line.

(** The lines of the pipe with the day each is read on; an empty one is the
    end of the pipe. *)
Fixpoint log_loop (input : list (bytes * string)) : ST log_state unit :=
  match input with
  | [] => mret tt
  | ([], _) :: _ => mret tt
  | (line, today) :: rest => log_line line today ;; log_loop rest
  end.

(** The [finally] clause closes the open file. *)
Definition write_logs (input : list (bytes * string)) : ST log_state unit := fun s =>
  let '(r, s') := log_loop input s in
  (r, mkLogState (current_day s') None (log_cnt s') (log_files s')).
End writer.

Definition log_writer (prefix : string) : list (bytes * string) -> ST log_state unit :=
  write_logs (log_name prefix) (bool_decide (prefix = "mysql.stdout")).

(** [labs/pipe_logs.py], function [log_writer]. *)
Definition lab_log_writer (prefix : string) : list (bytes * string) -> ST log_state unit :=
  write_logs (lab_log_name prefix) false.

(** ** [dbcompare.py] *)

(** The settings made of a DSN, with the session time zone. *)
Definition compare_dsn (text : string) : result (dict string string) :=
  '(userpass, hostport) ← split_pair "@" text;
  '(user, pass) ← split_pair "/" userpass;
  '(host, port) ← split_pair ":" hostport;
  Ok [("host", host); ("port", port); ("user", user); ("password", pass); ("time_zone", "+00:00")].

Definition compare_query (databases : string) : string :=
  "SELECT table_schema, table_name FROM information_schema.tables WHERE table_schema IN ("
    ++ join "," (map (fun d => "'" ++ d ++ "'") (split_on "," databases)) ++ ") ORDER BY 1, 2".

(** One task: [attempt i] is what the comparison does in the [i]-th round; the
    result is the number of rounds and whether [sys.exit(1)] was called. *)
Fixpoint compare_rounds (rounds : nat) (attempt : nat -> result unit) (done_ : nat) : nat * bool :=
  match rounds with
  | O => (done_, false)
  | S rounds' =>
      match attempt done_ with
      | Ok _ => (S done_, false)
      | Err _ => (S done_, true)
      end
  end.

Definition compare_task (attempt : nat -> result unit) : nat * bool := compare_rounds 5 attempt 0.

(** ** Properties *)

Lemma split_pair_ok c a b :
  str_mem c a = false -> str_mem c b = false -> split_pair c (a ++ String c b) = Ok (a, b).
Proof. intros Ha Hb. unfold split_pair. by rewrite split_on_app, split_on_word. Qed.

Lemma split_on_parts c s : Forall (fun w => str_mem c w = false) (split_on c s).
Proof.
  induction s as [|a s IH]; cbn; [by constructor; [|constructor]|]. case_decide as E; [by constructor|].
  destruct (split_on c s) as [|w ws]; [by constructor; [cbn; rewrite bool_decide_eq_false_2|constructor]|]. inversion IH as [|? ? Hw Hws]; subst. constructor; [|done].
  cbn. by rewrite bool_decide_eq_false_2, Hw.
Qed.

Lemma split_pair_inv c s a b :
  split_pair c s = Ok (a, b) -> s = (a ++ String c b) /\ str_mem c a = false /\ str_mem c b = false.
Proof.
  unfold split_pair. intros E. pose proof (join_split_on c s) as Hj. pose proof (split_on_parts c s) as Hp.
  destruct (split_on c s) as [|x [|y [|]]]; try done. injection E as -> ->. inversion Hp as [|? ? Ha Hp']; subst.
  inversion Hp' as [|? ? Hb _]; subst. split; [|done]. done.
Qed.

Lemma str_mem_sep c d a b : c <> d -> str_mem c (a ++ String d b) = str_mem c a || str_mem c b.
Proof. intros Hn. rewrite str_mem_app. cbn. by rewrite bool_decide_eq_false_2. Qed.

(** The text of connection settings. *)
Definition dsn_text (d : dsn) : string :=
  dsn_user d ++ "/" ++ dsn_password d ++ "@" ++ dsn_host d ++ ":" ++ dsn_port d.

(** No separator where it would be taken for one. *)
Definition dsn_ok (d : dsn) : bool :=
  forallb (fun s => negb (str_mem "@" s)) [dsn_user d; dsn_password d; dsn_host d; dsn_port d] &&
  forallb (fun s => negb (str_mem "/" s)) [dsn_user d; dsn_password d] &&
  forallb (fun s => negb (str_mem ":" s)) [dsn_host d; dsn_port d].

(** Connection strings: [parse_connection_string] accepts exactly the texts
    [user/password@host:port] whose parts hold no separator of theirs, and
    returns the parts; a password with a slash or an at sign is refused. *)
Theorem dsn_exact (text : string) (d : dsn) :
  parse_connection_string text = Ok d <-> text = dsn_text d /\ dsn_ok d = true.
Proof.
  unfold parse_connection_string, dsn_text, dsn_ok. split.
  - intros E. destruct (split_pair "@" text) as [[ui hi]|] eqn:E1; [|done]. cbn [mbind result_bind] in E.
    destruct (split_pair "/" ui) as [[u p]|] eqn:E2; [|done]. cbn [mbind result_bind] in E.
    destruct (split_pair ":" hi) as [[h q]|] eqn:E3; [|done]. cbn [mbind result_bind] in E. injection E as <-.
    apply split_pair_inv in E1 as (-> & Hu & Hh). apply split_pair_inv in E2 as (-> & Hu1 & Hp1).
    apply split_pair_inv in E3 as (-> & Hh1 & Hq1). rewrite str_mem_sep in Hu, Hh by done.
    apply orb_false_iff in Hu as [Hu2 Hp2]. apply orb_false_iff in Hh as [Hh2 Hq2]. cbn.
    split; [by rewrite !str_app_assoc|]. by rewrite Hu1, Hp1, Hh1, Hq1, Hu2, Hp2, Hh2, Hq2.
  - intros [-> Hok]. destruct d as [u p h q]. cbn in *.
    rewrite !andb_true_iff, !negb_true_iff in Hok. destruct Hok as [[(? & ? & ? & ? & _) (? & ? & _)] (? & ? & _)].
    change (u ++ "/" ++ p ++ "@" ++ h ++ ":" ++ q) with (u ++ String "/" (p ++ String "@" (h ++ String ":" q))).
    replace (u ++ String "/" (p ++ String "@" (h ++ String ":" q)))
      with ((u ++ String "/" p) ++ String "@" (h ++ String ":" q)) by (by rewrite str_app_assoc).
    rewrite split_pair_ok.
    + cbn. rewrite split_pair_ok by done. cbn. by rewrite split_pair_ok by done.
    + rewrite str_mem_sep by done. by apply orb_false_iff.
    + rewrite str_mem_sep by done. by apply orb_false_iff.
Qed.

Example dsn_slash : parse_connection_string "root/pass/word@db1:3306" = Err ValueError.
Proof. reflexivity. Qed.

(** *** Log files *)

Definition content (fs : dict string string) (name : string) : string := default "" (dict_get fs name).

(** The text of a line. *)
Definition line_text (line : bytes) : string :=
  match utf8_decode ErrStrict line with Ok text => text | Err _ => "" end.

Definition line_ok (x : bytes * string) : Prop := x.1 <> [] /\ is_ok (utf8_decode ErrStrict x.1) = true.

Lemma content_open name name' fs : content (open_append name' fs) name = content fs name.
Proof.
  unfold content, open_append. destruct (dict_get fs name') eqn:E; [done|].
  destruct (decide (name = name')) as [->|Hn]; [by rewrite dict_get_set_eq, E|]. by rewrite dict_get_set_ne.
Qed.

Lemma content_append name name' text fs :
  content (append_text name' text fs) name = content fs name ++ (if decide (name' = name) then text else "").
Proof.
  unfold append_text. case_decide as E.
  - subst. unfold content at 1. by rewrite dict_get_set_eq.
  - unfold content. rewrite dict_get_set_ne by done. by rewrite str_app_nil_r.
Qed.

(** The end of the pipe. *)
Definition pipe_end (rest : list (bytes * string)) : Prop := match rest with ([], _) :: _ | [] => True | _ => False end.

Section written.
Context (name_of : string -> string) (counted : bool).

(** What the lines add to a file: those of its day, in order. *)
Fixpoint day_text (name : string) (input : list (bytes * string)) : string :=
  match input with
  | [] => ""
  | (line, today) :: rest =>
      (if decide (name_of today = name) then line_text line else "") ++ day_text name rest
  end.

(** The open file is that of the current day. *)
Definition log_inv (s : log_state) : Prop :=
  forall day, current_day s = Some day -> log_open s = Some (name_of day).

Lemma log_write_ok line text today s :
  utf8_decode ErrStrict line = Ok text -> current_day s = Some today -> log_inv s ->
  exists s', log_write counted line s = (Ok tt, s') /\ log_inv s' /\
    forall name, content (log_files s') name = content (log_files s) name
      ++ (if decide (name_of today = name) then text else "").
Proof.
  intros E Hd Hi. pose proof (Hi today Hd) as Ho. unfold log_write. rewrite E.
  destruct counted; rewrite st_bind_eq; cbn [st_modify mret ST_ret]; rewrite st_bind_eq;
    cbn [st_lift]; rewrite st_bind_eq; cbn [st_get log_open]; rewrite Ho; eexists;
    (split; [done|]; split; [intros d Hd'; cbn in Hd' |- *; pose proof (Hi d Hd'); congruence|
      intros name; apply content_append]).
Qed.

Lemma log_line_ok line today s :
  log_inv s -> line_ok (line, today) ->
  exists s', log_line name_of counted line today s = (Ok tt, s') /\ log_inv s' /\
    forall name, content (log_files s') name = content (log_files s) name
      ++ (if decide (name_of today = name) then line_text line else "").
Proof.
  intros Hi [_ Hok]. cbn [fst] in Hok. unfold line_text. destruct (utf8_decode ErrStrict line) as [text|] eqn:E; [|done].
  unfold log_line. rewrite st_bind_eq. cbn [st_get]. rewrite st_bind_eq. case_decide as Hday.
  - by apply (log_write_ok line text today s).
  - cbn [st_modify]. match goal with |- context [log_write _ _ ?s1] =>
      destruct (log_write_ok line text today s1 E eq_refl) as (s' & Ew & Hi' & Hc) end.
    + intros d Hd. cbn in *. by injection Hd as ->.
    + exists s'. split; [exact Ew|]. split; [done|]. intros name. rewrite Hc. cbn [log_files]. by rewrite content_open.
Qed.

Lemma log_loop_ok input rest s :
  log_inv s -> Forall line_ok input -> pipe_end rest ->
  exists s', log_loop name_of counted (input ++ rest)%list s = (Ok tt, s') /\
    forall name, content (log_files s') name = content (log_files s) name ++ day_text name input.
Proof.
  intros Hi Hin Hend. revert s Hi. induction Hin as [|[line today] input Hl Hin IH]; intros s Hi.
  - exists s. split; [by destruct rest as [|[[|]]]|]. intros name. by rewrite str_app_nil_r.
  - destruct (log_line_ok line today s Hi Hl) as (s1 & E1 & Hi1 & Hc1).
    destruct (IH s1 Hi1) as (s' & E & Hc). exists s'. split.
    + cbn [app log_loop]. destruct line; [by destruct Hl|]. by rewrite st_bind_eq, E1.
    + intros name. rewrite Hc, Hc1. cbn [day_text]. by rewrite str_app_assoc.
Qed.

Lemma write_logs_ok (input rest : list (bytes * string)) (fs : dict string string) :
  Forall line_ok input -> pipe_end rest ->
  (exists s', write_logs name_of counted (input ++ rest)%list (log_init fs) = (Ok tt, s') /\
    forall name, content (log_files s') name = content fs name ++ day_text name input) /\
  forall any s, log_open (snd (write_logs name_of counted any s)) = None.
Proof.
  intros Hin Hend. split.
  - destruct (log_loop_ok input rest (log_init fs)) as (s' & E & Hc); [by intros d Hd|done|done|].
    eexists. unfold write_logs. rewrite E. split; [done|]. exact Hc.
  - intros any s. unfold write_logs. by destruct (log_loop name_of counted any s).
Qed.
End written.

(** The log files: whatever lines a pipe delivers up to its end, over however
    many days, [log_writer] returns having appended to the file of each day
    exactly the text of the lines read on that day, in order, and to no other
    file; the file it had open is closed however the writer ends.  The writer
    of [labs/pipe_logs.py] does the same with its own file names. *)
Theorem log_writer_correct (prefix : string) (input rest : list (bytes * string)) (fs : dict string string) :
  Forall line_ok input -> pipe_end rest ->
  ((exists s', log_writer prefix (input ++ rest)%list (log_init fs) = (Ok tt, s') /\
    forall name, content (log_files s') name = content fs name ++ day_text (log_name prefix) name input) /\
   forall any s, log_open (snd (log_writer prefix any s)) = None) /\
  ((exists s', lab_log_writer prefix (input ++ rest)%list (log_init fs) = (Ok tt, s') /\
    forall name, content (log_files s') name = content fs name ++ day_text (lab_log_name prefix) name input) /\
   forall any s, log_open (snd (lab_log_writer prefix any s)) = None).
Proof. intros Hin Hend. split; by apply write_logs_ok. Qed.

Lemma log_writer_correct_witness :
  exists s', log_writer "mysql.stderr" [([97; 10], "2024-06-01"); ([98; 10], "2024-06-02")] (log_init []) = (Ok tt, s') /\
    content (log_files s') "mysql.stderr.2024-06-01.log" =
      day_text (log_name "mysql.stderr") "mysql.stderr.2024-06-01.log" [([97; 10], "2024-06-01"); ([98; 10], "2024-06-02")].
Proof.
  destruct (proj1 (proj1 (log_writer_correct "mysql.stderr" [([97; 10], "2024-06-01"); ([98; 10], "2024-06-02")] [] []
    ltac:(repeat constructor; done) I))) as (s' & E & Hc).
  exists s'. split; [exact E|]. exact (Hc "mysql.stderr.2024-06-01.log").
Defined.

(** The rounds of a comparison end after the first, whatever it did. *)
Lemma compare_never_retries attempt : fst (compare_task attempt) = 1%nat.
Proof. unfold compare_task. cbn. by destruct (attempt 0%nat). Qed.
