(* ===== verification/Compare.v ===== *)
(** * Queries, comparisons and their reports

    The parts of the scripts that talk to servers: [scripts/main.py] up to the
    start of its processes and its watcher of the source,
    [scripts/dbcompare.py] with its pool of comparisons, and
    [labs/compare_gtid.py].  Servers and worker processes are parameters: what
    they answer and how they end. *)

From stdpp Require Import base list strings sets.
From Stdlib Require Import ZArith Lia Ascii.
From S2P Require Import Prelude PyBytes PyStr GtidText Scripts.
Open Scope string_scope.
Open Scope Z_scope.

(** ** The queries of [scripts/main.py] *)

(** A value of a result row of the queries below. *)
Inductive cell := CText (s : string) | CNumber (z : Z) | CNull.

#[export] Instance cell_eq_dec : EqDecision cell.
Proof. solve_decision. Defined.

(** An open connection: the first row of the answer to a query. *)
Definition conn : Type := string -> result (option (list cell)).

(** [cur.execute(sql); return cur.fetchone()[i]] *)
Definition fetch_cell (con : conn) (sql : string) (i : nat) : result cell :=
  row ← con sql;
  match row with
  | None => Err TypeError
  | Some cells => of_option IndexError (cells !! i)
  end.

Definition query_first_binlogfile (con : conn) : result cell := fetch_cell con "SHOW BINARY LOGS" 0.
Definition query_gtid_set (con : conn) : result cell := fetch_cell con "show master status" 4.
Definition query_server_uuid (con : conn) : result cell := fetch_cell con "select @@server_uuid" 0.
Definition query_server_id (con : conn) : result cell := fetch_cell con "select @@server_id" 0.

(** [len(x)], and a part of [" ".join(...)]: texts only. *)
Definition text_of (c : cell) : result string := match c with CText s => Ok s | _ => Err TypeError end.

(** [main] up to the first process: the three commands it prints and starts. *)
Definition pipeline_main (connect : dsn -> result conn) (source_dsn target_dsn : string) (connection_server_id : Z)
    (stop_never : bool) : result (list string * list string * list string) :=
  s_dsn ← parse_connection_string source_dsn;
  t_dsn ← parse_connection_string target_dsn;
  s_conn ← connect s_dsn;
  t_conn ← connect t_dsn;
  binlogfile ← query_first_binlogfile s_conn;
  gtid_set ← query_gtid_set t_conn;
  server_uuid ← query_server_uuid s_conn;
  server_id ← query_server_id s_conn;
  gtid_set ← text_of gtid_set;
  binlogfile ← text_of binlogfile;
  Ok (pipeline_commands s_dsn t_dsn binlogfile gtid_set connection_server_id stop_never).

(** *** The watcher of the source *)

Inductive watch_step := WExecute (sql : string) | WCommit.

Definition watch_setup : list watch_step :=
  [WExecute "DROP DATABASE IF EXISTS mysqlbinlogsync"; WExecute "CREATE DATABASE IF NOT EXISTS mysqlbinlogsync";
   WExecute "CREATE TABLE IF NOT EXISTS mysqlbinlogsync.sync_table (id INT PRIMARY KEY, ts DATETIME)"].
Definition watch_round : list watch_step := [WExecute "REPLACE INTO mysqlbinlogsync.sync_table VALUES(1, now())"; WCommit].

(** The steps in order, until one raises: those done and the exception. *)
Fixpoint watch_all (outcome : nat -> result unit) (i : nat) (l : list watch_step) : list watch_step * result unit :=
  match l with
  | [] => ([], Ok tt)
  | x :: l' =>
      match outcome i with
      | Ok _ => let '(d, r) := watch_all outcome (S i) l' in (x :: d, r)
      | Err e => ([], Err e)
      end
  end.

Definition is_mysql_error (e : exn) : bool := match e with BackendError _ => true | _ => false end.

(** [binlogReplicationWatcher], stopped after [polls] rounds; [outcome i] is
    what the [i]-th call on the connection does. *)
Definition binlogReplicationWatcher (outcome : nat -> result unit) (polls : nat) : list watch_step * result unit :=
  let '(d, r) := watch_all outcome 0 (watch_setup ++ mjoin (replicate polls watch_round))%list in
  (d, match r with Err e => if is_mysql_error e then Ok tt else Err e | Ok _ => Ok tt end).

(** ** [dbcompare.py] *)

(** [for db, tab in cur.fetchall(): tables.append((db, tab))] *)
Definition compare_tables (rows : list (list string)) : result (list (string * string)) :=
  mapM (fun row => match row with [d; t] => Ok (d, t) | _ => Err ValueError end) rows.

(** How a task ends: [_f] returns, raises, or calls [sys.exit], which the
    executor passes on as [SystemExit]. *)
Inductive future := FutureDone | FutureRaised (e : string) | FutureExit (status : Z).

(** The lines printed, without the time in front of them. *)
Inductive report := ReportException (task e : string) | ReportProgress (n total : nat) | ReportAllDone.

Definition report_text (r : report) : string :=
  match r with
  | ReportException task e => task ++ " generated an exception: " ++ e
  | ReportProgress n total => "compare progress: " ++ str_of_Z (Z.of_nat n) ++ "/" ++ str_of_Z (Z.of_nat total)
  | ReportAllDone => "compare all done."
  end.

(** The loop over the futures in the order they complete; [except Exception]
    does not catch [SystemExit], the [finally] clause runs before it leaves. *)
Fixpoint compare_progress (total compare_success : nat) (futures : list (string * future)) : list report * option Z :=
  match futures with
  | [] => ([], None)
  | (task, f) :: rest =>
      let n := S compare_success in
      match f with
      | FutureDone => let '(l, x) := compare_progress total n rest in (ReportProgress n total :: l, x)
      | FutureRaised e => let '(l, x) := compare_progress total n rest in (ReportException task e :: ReportProgress n total :: l, x)
      | FutureExit status => ([ReportProgress n total], Some status)
      end
  end.

(** The main block: the lines and the exit status. *)
Definition compare_main (futures : list (string * future)) : list report * Z :=
  let '(l, x) := compare_progress (length futures) 0 futures in
  match x with
  | Some status => (l, status)
  | None => ((l ++ [ReportAllDone])%list, 0)
  end.

(** The future of the task of one table. *)
Definition task_future (attempt : nat -> result unit) : future :=
  if snd (compare_task attempt) then FutureExit 1 else FutureDone.

(** ** [labs/compare_gtid.py] *)

(** A connection: whether it is open, and what [cursor()], the query and
    [close()] do. *)
Record lab_conn := mkLabConn {
  lab_connected : bool;
  lab_cursor : result unit;
  lab_row : result (option (list cell));
  lab_close : result unit
}.

Definition connect_to_mysql (connected : result lab_conn) : result (option lab_conn) :=
  match connected with
  | Ok c => Ok (if lab_connected c then Some c else None)
  | Err e => if is_mysql_error e then Ok None else Err e
  end.

(** [try ... except Error ... finally: cursor.close()]: without a cursor the
    [finally] clause raises. *)
Definition get_gtid_set (c : lab_conn) : result (option cell) :=
  match lab_cursor c with
  | Err _ => Err UnboundLocalError
  | Ok _ =>
      let r := match lab_row c with
               | Ok (Some (_ :: _ as row)) => Some <$> of_option IndexError (row !! 1%nat)
               | Ok _ => Ok None
               | Err e => if is_mysql_error e then Ok None else Err e
               end in
      _ ← lab_close c; r
  end.

Definition show_cell (o : option cell) : string :=
  match o with Some (CText s) => s | Some (CNumber z) => str_of_Z z | Some CNull | None => "None" end.

(** [None] and a NULL in the row are the same value. *)
Definition same_cell (a b : option cell) : bool := bool_decide (default CNull a = default CNull b).

Definition compare_gtids (gtid_set1 gtid_set2 : option cell) : list string :=
  if same_cell gtid_set1 gtid_set2 then ["GTID sets are identical."]
  else ["GTID sets are different."; "GTID Set 1: " ++ show_cell gtid_set1; "GTID Set 2: " ++ show_cell gtid_set2].

Definition compare_gtid_main (connected1 connected2 : result lab_conn) : result (list string) :=
  conn1 ← connect_to_mysql connected1;
  conn2 ← connect_to_mysql connected2;
  match conn1, conn2 with
  | Some c1, Some c2 =>
      gtid_set1 ← get_gtid_set c1;
      gtid_set2 ← get_gtid_set c2;
      Ok (compare_gtids gtid_set1 gtid_set2)
  | _, _ => Ok []
  end.

(** ** Properties *)

(** The script's commands: with connection strings of two servers that answer
    the queries, [main] starts mysqlbinlog on the source from its first binlog
    file, and lets it leave out the GTIDs the target has, unless there are
    none. *)
Theorem pipeline_main_correct (connect : dsn -> result conn) (s t : dsn) (sc tc : conn) (file gtids : string) r1 r2 c0 c1 c2 c3
    (uuid id : cell) (ru ri : list cell) (server_id : Z) (stop_never : bool) :
  dsn_ok s = true -> dsn_ok t = true -> connect s = Ok sc -> connect t = Ok tc ->
  sc "SHOW BINARY LOGS" = Ok (Some (CText file :: r1)) ->
  tc "show master status" = Ok (Some (c0 :: c1 :: c2 :: c3 :: CText gtids :: r2)) ->
  sc "select @@server_uuid" = Ok (Some (uuid :: ru)) -> sc "select @@server_id" = Ok (Some (id :: ri)) ->
  exists cmd1 cmd2 cmd3, pipeline_main connect (dsn_text s) (dsn_text t) server_id stop_never = Ok (cmd1, cmd2, cmd3) /\
    last cmd1 = Some file /\ (gtids <> "" -> ("--exclude-gtids=" ++ gtids) ∈ cmd1) /\
    ("--host=" ++ dsn_host s) ∈ cmd1 /\ ("--host=" ++ dsn_host t) ∈ cmd3.
Proof.
  intros Hs Ht Es Et E1 E2 E3 E4. unfold pipeline_main.
  rewrite (proj2 (dsn_exact (dsn_text s) s)) by done. rewrite (proj2 (dsn_exact (dsn_text t) t)) by done.
  cbn [mbind result_bind]. rewrite Es, Et. cbn [mbind result_bind].
  unfold query_first_binlogfile, query_gtid_set, query_server_uuid, query_server_id, fetch_cell. rewrite E1, E2, E3, E4.
  cbn [mbind result_bind lookup list_lookup of_option text_of]. unfold pipeline_commands. do 3 eexists. split; [reflexivity|].
  unfold make_cmd_cmd1. split; [|split; [|split]].
  - cbn [truthy]. destruct (truthy (if (1 <=? String.length gtids)%nat then Some gtids else None)), stop_never; reflexivity.
  - intros Hg. destruct gtids as [|a gtids]; [done|]. cbn. set_solver.
  - cbn. set_solver.
  - cbn. set_solver.
Qed.

Lemma watch_all_prefix outcome i l d r :
  watch_all outcome i l = (d, r) -> d `prefix_of` l /\ (r = Ok tt -> d = l) /\
    (r <> Ok tt -> exists e, r = Err e /\ outcome (i + length d)%nat = Err e).
Proof.
  revert i d. induction l as [|x l IH]; intros i d E; cbn in E; [by injection E as <- <-|].
  destruct (outcome i) as [[]|e] eqn:Eo.
  - destruct (watch_all outcome (S i) l) as [d1 r1] eqn:E1. injection E as <- <-.
    destruct (IH (S i) d1 E1) as (Hp & Ho & He). split; [by apply prefix_cons|]. split; [intros Hr; by rewrite Ho|].
    intros Hr. destruct (He Hr) as (e & -> & Hoe). exists e. split; [done|]. cbn. by rewrite Nat.add_succ_r.
  - injection E as <- <-. split; [apply prefix_nil|]. split; [done|]. intros _. exists e. by rewrite Nat.add_0_r.
Qed.

(** The watcher does its steps in order up to the first that fails; an error of
    the server ends it, another exception leaves it. *)
Theorem watcher_steps (outcome : nat -> result unit) (polls : nat) d r :
  binlogReplicationWatcher outcome polls = (d, r) ->
  d `prefix_of` (watch_setup ++ mjoin (replicate polls watch_round))%list /\
  ((forall i, outcome i = Ok tt) -> d = (watch_setup ++ mjoin (replicate polls watch_round))%list /\ r = Ok tt) /\
  (r <> Ok tt -> exists e, r = Err e /\ is_mysql_error e = false /\ outcome (length d) = Err e).
Proof.
  intros E. unfold binlogReplicationWatcher in E.
  destruct (watch_all outcome 0 (watch_setup ++ mjoin (replicate polls watch_round))%list) as [d1 r1] eqn:E1.
  injection E as <- <-. destruct (watch_all_prefix _ _ _ _ _ E1) as (Hp & Ho & He). split; [done|]. split.
  - intros Hok. destruct r1 as [[]|e]; [auto|]. destruct (He ltac:(done)) as (e' & _ & Hoe). by rewrite Hok in Hoe.
  - destruct r1 as [[]|e]; [done|]. intros Hr. destruct (He ltac:(done)) as (e' & [= <-] & Hoe).
    destruct (is_mysql_error e) eqn:Em; [done|]. by exists e.
Qed.

(** *** Reports *)

(** The counts that are printed. *)
Definition progress_numbers (l : list report) : list nat :=
  omap (fun r => match r with ReportProgress n _ => Some n | _ => None end) l.

Definition exits (x : string * future) : bool := match x.2 with FutureExit _ => true | _ => false end.

Lemma compare_progress_all total k fs :
  Forall (fun x => exits x = false) fs ->
  snd (compare_progress total k fs) = None /\ progress_numbers (fst (compare_progress total k fs)) = seq (S k) (length fs).
Proof.
  intros Hfs. revert k. induction Hfs as [|[task f] fs Hf HF IH]; intros k; [done|]. destruct (IH (S k)) as [H1 H2].
  cbn [compare_progress]. destruct (compare_progress total (S k) fs) as [l x]. cbn in H1, H2.
  destruct f; cbn; unfold progress_numbers in *; [| |done]; split; try done; cbn; by rewrite H2.
Qed.

Lemma compare_progress_exit total k fs task status rest :
  Forall (fun x => exits x = false) fs ->
  compare_progress total k (fs ++ (task, FutureExit status) :: rest)%list =
  ((fst (compare_progress total k fs) ++ [ReportProgress (k + S (length fs)) total])%list, Some status).
Proof.
  intros Hfs. revert k. induction Hfs as [|[t f] fs Hf HF IH]; intros k; [cbn; by rewrite Nat.add_1_r|].
  cbn [app compare_progress]. rewrite (IH (S k)). destruct (compare_progress total (S k) fs) as [l x].
  cbn [length fst]. replace (S k + S (length fs))%nat with (k + S (S (length fs)))%nat by lia. by destruct f.
Qed.

(** The report of the comparisons: when no task exits, every task is counted
    once, in the order they complete, and the status is zero.  The first that
    does - and a failing comparison exits - ends the report with its status:
    the tasks after it are not reported, although an exception of a task is
    meant to be printed. *)
Theorem compare_reports (futures : list (string * future)) :
  (Forall (fun x => exits x = false) futures ->
    exists l, compare_main futures = ((l ++ [ReportAllDone])%list, 0) /\ progress_numbers l = seq 1 (length futures)) /\
  (forall before task status rest,
    futures = (before ++ (task, FutureExit status) :: rest)%list -> Forall (fun x => exits x = false) before ->
    exists l, compare_main futures = (l, status) /\ progress_numbers l = seq 1 (S (length before)) /\ ReportAllDone ∉ l).
Proof.
  split.
  - intros Hf. unfold compare_main. destruct (compare_progress_all (length futures) 0 futures Hf) as [H1 H2].
    destruct (compare_progress (length futures) 0 futures) as [l x]. cbn in H1, H2. subst x. by exists l.
  - intros before task status rest -> Hf. unfold compare_main. set (n := length _). rewrite compare_progress_exit by done.
    destruct (compare_progress_all n 0 before Hf) as [_ H2]. eexists. split; [reflexivity|]. split.
    + unfold progress_numbers in *. rewrite omap_app, H2. cbn. by rewrite <- seq_S.
    + rewrite not_elem_of_app. split; [|set_solver]. clearbody n. clear H2 Hf. generalize 0%nat as k.
      induction before as [|[t f] before IH]; intros k; [set_solver|]. cbn [compare_progress].
      specialize (IH (S k)). destruct (compare_progress n (S k) before) as [l x]. destruct f; cbn in *; rewrite ?not_elem_of_cons; repeat split; try done; apply not_elem_of_nil.
Qed.

Lemma compare_reports_witness :
  compare_main [("d.a", FutureDone); ("d.b", task_future (fun _ => Err ValueError)); ("d.c", FutureDone)] =
    ([ReportProgress 1 3; ReportProgress 2 3], 1) /\
  exists l, compare_main [("d.a", FutureDone); ("d.b", FutureExit 1); ("d.c", FutureDone)] = (l, 1) /\ progress_numbers l = seq 1 2 /\ ReportAllDone ∉ l.
Proof.
  split; [reflexivity|].
  apply (proj2 (compare_reports [("d.a", FutureDone); ("d.b", FutureExit 1); ("d.c", FutureDone)]) [("d.a", FutureDone)] "d.b" 1 [("d.c", FutureDone)]).
  - reflexivity.
  - by constructor.
Defined.

(** The comparison of GTID sets is that of their texts: the same set written in
    another order is different, and two servers that answer nothing are
    identical. *)
Example gtid_texts_compared :
  compare_gtids (Some (CText "u:1-5:7")) (Some (CText "u:7:1-5")) =
    ["GTID sets are different."; "GTID Set 1: u:1-5:7"; "GTID Set 2: u:7:1-5"] /\
  compare_gtid_main (Ok (mkLabConn true (Ok tt) (Err (BackendError 2013)) (Ok tt))) (Ok (mkLabConn true (Ok tt) (Ok None) (Ok tt))) =
    Ok ["GTID sets are identical."].
Proof. split; reflexivity. Qed.

(** When the cursor cannot be made, the [finally] clause hides the error. *)
Example gtid_cursor_unbound :
  get_gtid_set (mkLabConn true (Err (BackendError 2006)) (Ok None) (Ok tt)) = Err UnboundLocalError.
Proof. reflexivity. Qed.
