(* ===== verification/Pipeline.v ===== *)
(** * The pipeline of processes

    [scripts/main.py], function [main] from the first [Popen] on, and
    [labs/pipe_logs.py], function [run_pipeline]: three programs connected by
    pipes, a signal handler that stops the first, and the parent waiting for
    each of them.

    The programs are not part of the repository: [p1] writes a number of bytes
    and ends (or, started with [--stop-never], waits for more), [p2] writes
    any number of bytes for each it reads and some at the end of its input,
    [p3] reads to the end of its input; each may fail at any moment.  A pipe
    holds up to [cap] bytes; reading from an empty pipe and writing to a full
    one block, unless the other end is closed everywhere, which is the end of
    the input of the reader and the death of the writer. *)

From stdpp Require Import base list relations.
From Stdlib Require Import Lia Arith Bool.
From S2P Require Import Prelude.
Open Scope nat_scope.

(** ** Processes and descriptors *)

Inductive proc := P1 | P2 | P3.
Inductive holder := Parent | Child (p : proc).

#[export] Instance proc_eq_dec : EqDecision proc.
Proof. solve_decision. Defined.
#[export] Instance holder_eq_dec : EqDecision holder.
Proof. solve_decision. Defined.

(** The bytes in a pipe and the processes that hold its ends. *)
Record pipe := mkPipe { p_data : nat; p_readers : list holder; p_writers : list holder }.

Record system := mkSystem {
  pipe1 : pipe;                  (* p1.stdout *)
  pipe2 : pipe;                  (* p2.stdout *)
  left1 : nat;                   (* bytes p1 has still to write *)
  seen : nat;                    (* bytes p2 has read *)
  pending : nat;                 (* bytes p2 has to write before it reads again *)
  at_eof : bool;                 (* p2 has met the end of its input *)
  run1 : bool; run2 : bool; run3 : bool;
  waits : nat                    (* p.wait() calls of the parent still to return *)
}.

Definition set_pipe1 (x : pipe) (s : system) : system :=
  mkSystem x (pipe2 s) (left1 s) (seen s) (pending s) (at_eof s) (run1 s) (run2 s) (run3 s) (waits s).
Definition set_pipe2 (x : pipe) (s : system) : system :=
  mkSystem (pipe1 s) x (left1 s) (seen s) (pending s) (at_eof s) (run1 s) (run2 s) (run3 s) (waits s).
Definition set_left1 (x : nat) (s : system) : system :=
  mkSystem (pipe1 s) (pipe2 s) x (seen s) (pending s) (at_eof s) (run1 s) (run2 s) (run3 s) (waits s).
Definition set_p2 (n p : nat) (e : bool) (s : system) : system :=
  mkSystem (pipe1 s) (pipe2 s) (left1 s) n p e (run1 s) (run2 s) (run3 s) (waits s).
Definition set_run (p : proc) (b : bool) (s : system) : system :=
  mkSystem (pipe1 s) (pipe2 s) (left1 s) (seen s) (pending s) (at_eof s)
    (match p with P1 => b | _ => run1 s end) (match p with P2 => b | _ => run2 s end)
    (match p with P3 => b | _ => run3 s end) (waits s).
Definition set_waits (n : nat) (s : system) : system :=
  mkSystem (pipe1 s) (pipe2 s) (left1 s) (seen s) (pending s) (at_eof s) (run1 s) (run2 s) (run3 s) n.

Definition running (p : proc) (s : system) : bool :=
  match p with P1 => run1 s | P2 => run2 s | P3 => run3 s end.

Definition set_data (n : nat) (q : pipe) : pipe := mkPipe n (p_readers q) (p_writers q).

(** Close what [h] holds of a pipe. *)
Definition drop (h : holder) (l : list holder) : list holder := filter (fun x => x <> h) l.
Definition close_all (h : holder) (q : pipe) : pipe := mkPipe (p_data q) (drop h (p_readers q)) (drop h (p_writers q)).

(** The end of a process closes its descriptors. *)
Definition ends (p : proc) (s : system) : system :=
  set_run p false (set_pipe1 (close_all (Child p) (pipe1 s)) (set_pipe2 (close_all (Child p) (pipe2 s)) s)).

(** ** Starting the processes *)

(** The pipe of the output of a process; the output of [p3] goes elsewhere. *)
Definition on_stdout (p : proc) (f : pipe -> pipe) (s : system) : system :=
  match p with P1 => set_pipe1 (f (pipe1 s)) s | P2 => set_pipe2 (f (pipe2 s)) s | P3 => s end.

(** [Popen(cmd, stdin=q.stdout, stdout=PIPE)]: the parent keeps the end to read
    from a new pipe and what it held before; the child has the other end and
    the read end it is given. *)
Definition popen (p : proc) (stdin : option proc) (stdout_pipe : bool) (s : system) : system :=
  let s := if stdout_pipe then on_stdout p (fun _ => mkPipe 0 [Parent] [Child p]) s else s in
  let s := match stdin with
           | Some q => on_stdout q (fun x => mkPipe (p_data x) (Child p :: p_readers x) (p_writers x)) s
           | None => s
           end in
  set_run p true s.

(** [p.stdout.close()] *)
Definition close_stdout (p : proc) : system -> system :=
  on_stdout p (fun x => mkPipe (p_data x) (drop Parent (p_readers x)) (p_writers x)).

Definition no_system (n : nat) : system :=
  mkSystem (mkPipe 0 [] []) (mkPipe 0 [] []) n 0 0 false false false false 0.

(** [scripts/main.py]: the state when the waits begin, for a [p1] that has
    [n] bytes to write. *)
Definition start_pipeline (n : nat) : system :=
  let s := popen P1 None true (no_system n) in
  let s := popen P2 (Some P1) true s in
  let s := popen P3 (Some P2) false s in
  let s := close_stdout P1 s in
  let s := close_stdout P2 s in
  set_waits 3 s.

(** [labs/pipe_logs.py]: the parent keeps its ends open. *)
Definition run_pipeline (n : nat) : system :=
  let s := popen P1 None true (no_system n) in
  let s := popen P2 (Some P1) true s in
  let s := popen P3 (Some P2) false s in
  set_waits 3 s.

(** The handler of SIGTERM and SIGINT: [if p1.poll() is None: p1.terminate()]. *)
Definition handler (s : system) : system := if run1 s then ends P1 s else s.

(** The process the parent waits for: [for p in [p1, p2, p3]: p.wait()]. *)
Definition waited (n : nat) : option proc :=
  match n with 3 => Some P1 | 2 => Some P2 | 1 => Some P3 | _ => None end.

(** ** Steps *)

Section steps.
(** The capacity of a pipe, the bytes [p2] writes for the [i]-th it reads and
    at the end of its input, and whether [p1] waits for more when it has
    written everything. *)
Context (cap : nat) (output : nat -> nat) (tail : nat) (never : bool).

Inductive step (s : system) : system -> Prop :=
  | p1_write n : run1 s = true -> left1 s = S n -> p_readers (pipe1 s) <> [] -> p_data (pipe1 s) < cap ->
      step s (set_left1 n (set_pipe1 (set_data (S (p_data (pipe1 s))) (pipe1 s)) s))
  | p1_sigpipe n : run1 s = true -> left1 s = S n -> p_readers (pipe1 s) = [] -> step s (ends P1 s)
  | p1_exit : run1 s = true -> left1 s = 0 -> never = false -> step s (ends P1 s)
  | p2_read n : run2 s = true -> at_eof s = false -> pending s = 0 -> p_data (pipe1 s) = S n ->
      step s (set_p2 (S (seen s)) (output (seen s)) false (set_pipe1 (set_data n (pipe1 s)) s))
  | p2_eof : run2 s = true -> at_eof s = false -> pending s = 0 -> p_data (pipe1 s) = 0 -> p_writers (pipe1 s) = [] ->
      step s (set_p2 (seen s) tail true s)
  | p2_write n : run2 s = true -> pending s = S n -> p_readers (pipe2 s) <> [] -> p_data (pipe2 s) < cap ->
      step s (set_p2 (seen s) n (at_eof s) (set_pipe2 (set_data (S (p_data (pipe2 s))) (pipe2 s)) s))
  | p2_sigpipe n : run2 s = true -> pending s = S n -> p_readers (pipe2 s) = [] -> step s (ends P2 s)
  | p2_exit : run2 s = true -> pending s = 0 -> at_eof s = true -> step s (ends P2 s)
  | p3_read n : run3 s = true -> p_data (pipe2 s) = S n -> step s (set_pipe2 (set_data n (pipe2 s)) s)
  | p3_eof : run3 s = true -> p_data (pipe2 s) = 0 -> p_writers (pipe2 s) = [] -> step s (ends P3 s)
  | parent_wait n p : waits s = S n -> waited (S n) = Some p -> running p s = false -> step s (set_waits n s).

(** A process fails or is stopped by a signal. *)
Inductive fault (s : system) : system -> Prop :=
  | fault_ends p : running p s = true -> fault s (ends p s)
  | fault_signal : run1 s = true -> fault s (handler s).

Definition any_step (s s' : system) : Prop := step s s' \/ fault s s'.

(** The parent has returned, and no process is left. *)
Definition finished (s : system) : Prop := waits s = 0 /\ run1 s = false /\ run2 s = false /\ run3 s = false.

(** [p1] waits for more to write, and what it wrote has gone through. *)
Definition waiting (s : system) : Prop :=
  never = true /\ run1 s = true /\ left1 s = 0 /\
  (run2 s = true -> p_data (pipe1 s) = 0 /\ pending s = 0) /\ (run3 s = true -> p_data (pipe2 s) = 0).

(** ** Every run ends *)

(** What [p2] will write for the next [m] bytes it reads. *)
Fixpoint outputs (i m : nat) : nat := match m with 0 => 0 | S m' => output i + outputs (S i) m' end.

Definition measure (s : system) : nat :=
  2 * left1 s + p_data (pipe1 s) + 2 * (outputs (seen s) (left1 s + p_data (pipe1 s)) + pending s)
  + (if at_eof s then 0 else 2 * tail + 1) + p_data (pipe2 s)
  + Nat.b2n (run1 s) + Nat.b2n (run2 s) + Nat.b2n (run3 s) + waits s.

Lemma ends_measure p s : running p s = true -> measure (ends p s) < measure s.
Proof. destruct p; cbn; intros Hr; unfold measure; cbn; rewrite Hr; cbn; lia. Qed.

Lemma step_measure s s' : step s s' -> measure s' < measure s.
Proof.
  destruct 1 as [n Hr Hl| | |n Hr He Hp Hd|Hr He Hp Hd Hw|n Hr Hp Hd Hc| | |n Hr Hd| |n p Hw Hp Hr];
    try match goal with |- measure (ends _ _) < _ => by apply ends_measure end; unfold measure; cbn [set_left1 set_pipe1 set_pipe2 set_p2 set_data set_waits
      pipe1 pipe2 left1 seen pending at_eof run1 run2 run3 waits p_data p_readers p_writers].
  - rewrite Hl. replace (n + S (p_data (pipe1 s))) with (S n + p_data (pipe1 s)) by lia. lia.
  - rewrite Hd, He, Hp, (Nat.add_succ_r (left1 s) n). cbn [outputs]. lia.
  - rewrite He, Hp. lia.
  - rewrite Hp. lia.
  - rewrite Hd. lia.
  - rewrite Hw. lia.
Qed.

Lemma any_step_measure s s' : any_step s s' -> measure s' < measure s.
Proof.
  intros [Hs|Hf]; [by apply step_measure|]. destruct Hf as [p Hr|Hr]; [by apply ends_measure|].
  unfold handler. rewrite Hr. by apply ends_measure.
Qed.

Lemma all_terminate s : sn any_step s.
Proof.
  enough (forall n s, measure s < n -> sn any_step s) as H by (apply (H (S (measure s))); lia).
  clear s. induction n as [|n IH]; intros s Hn; [lia|].
  constructor. intros s' Hs%any_step_measure. apply IH. lia.
Qed.

(** ** Nothing blocks for ever *)

(** The ends of a pipe are those of the running processes. *)
Definition held (b : bool) (p : proc) : list holder := if b then [Child p] else [].

Record pipe_inv (s : system) : Prop := {
  inv_w1 : p_writers (pipe1 s) = held (run1 s) P1;
  inv_r1 : p_readers (pipe1 s) = held (run2 s) P2;
  inv_w2 : p_writers (pipe2 s) = held (run2 s) P2;
  inv_r2 : p_readers (pipe2 s) = held (run3 s) P3;
  inv_eof : at_eof s = true -> run1 s = false /\ p_data (pipe1 s) = 0;
  inv_waits : waits s <= 3 /\ (waits s < 3 -> run1 s = false) /\ (waits s < 2 -> run2 s = false) /\ (waits s < 1 -> run3 s = false)
}.

Lemma start_pipeline_inv n : pipe_inv (start_pipeline n).
Proof. split; cbn; try done. lia. Qed.

Lemma drop_held p q b : drop (Child p) (held b q) = held (b && negb (bool_decide (p = q))) q.
Proof. by destruct p, q, b. Qed.

Lemma ends_inv p s : running p s = true -> pipe_inv s -> pipe_inv (ends p s).
Proof.
  intros Hr [Hw1 Hr1 Hw2 Hr2 He Hw]. split; cbn [ends set_run set_pipe1 set_pipe2 close_all pipe1 pipe2 p_writers p_readers p_data
    run1 run2 run3 at_eof waits].
  - rewrite Hw1, drop_held. by destruct p, (run1 s).
  - rewrite Hr1, drop_held. by destruct p, (run2 s).
  - rewrite Hw2, drop_held. by destruct p, (run2 s).
  - rewrite Hr2, drop_held. by destruct p, (run3 s).
  - intros E. destruct (He E) as [He1 He2]. by destruct p.
  - destruct Hw as (H0 & H1 & H2 & H3). split; [done|]. destruct p; auto.
Qed.

Lemma step_inv s s' : step s s' -> pipe_inv s -> pipe_inv s'.
Proof.
  intros Hst Hi. destruct Hst as [n Hr Hl| | |n Hr He Hp Hd|Hr He Hp Hd Hw|n Hr Hp Hd Hc| | |n Hr Hd| |n p Hw Hp Hr];
    try match goal with |- pipe_inv (ends _ _) => by apply ends_inv end; destruct Hi as [Hw1 Hr1 Hw2 Hr2 Heof Hws]; split; cbn; try done.
  - intros E. destruct (Heof E). congruence.
  - intros _. rewrite Hw in Hw1. by destruct (run1 s).
  - destruct Hws as (H0 & H1 & H2 & H3). rewrite Hw in *. split; [lia|].
    destruct n as [|[|[|n]]]; cbn in Hp; try done; injection Hp as <-; cbn in Hr;
      repeat split; intros; try lia; auto with lia.
Qed.

Lemma any_step_inv s s' : any_step s s' -> pipe_inv s -> pipe_inv s'.
Proof.
  intros [Hs|Hf]; [by apply step_inv|]. destruct Hf as [p Hr|Hr]; [by apply ends_inv|].
  unfold handler. rewrite Hr. by apply ends_inv.
Qed.

Hypothesis cap_pos : 0 < cap.

(** [p3] reads whatever is in its pipe, and ends after [p2]. *)
Lemma p3_moves s : pipe_inv s -> run3 s = true -> (p_data (pipe2 s) <> 0 \/ run2 s = false) -> exists s', step s s'.
Proof.
  intros Hi Hr Hc. destruct (p_data (pipe2 s)) as [|n] eqn:E; [|eexists; by eapply p3_read].
  destruct Hc as [Hc|Hc]; [done|]. eexists. apply p3_eof; [done|done|]. by rewrite (inv_w2 s Hi), Hc.
Qed.

(** [p2] has room for what it writes, or [p3] makes it, or it is killed. *)
Lemma p2_writes s : pipe_inv s -> run2 s = true -> pending s <> 0 -> exists s', step s s'.
Proof.
  intros Hi Hr Hp. destruct (pending s) as [|n] eqn:E; [done|]. destruct (run3 s) eqn:E3.
  - destruct (le_lt_dec cap (p_data (pipe2 s))).
    + apply p3_moves; [done|done|lia].
    + eexists. eapply p2_write; try done. by rewrite (inv_r2 s Hi), E3.
  - eexists. eapply p2_sigpipe; try done. by rewrite (inv_r2 s Hi), E3.
Qed.

(** [p2] reads whatever is in its pipe, and ends after [p1]. *)
Lemma p2_moves s : pipe_inv s -> run2 s = true ->
  (p_data (pipe1 s) <> 0 \/ run1 s = false \/ pending s <> 0) -> exists s', step s s'.
Proof.
  intros Hi Hr Hc. destruct (Nat.eq_dec (pending s) 0) as [Hp|Hp]; [|by apply p2_writes].
  destruct (at_eof s) eqn:Ee; [eexists; by apply p2_exit|].
  destruct (p_data (pipe1 s)) as [|n] eqn:Ed; [|eexists; by eapply p2_read].
  eexists. apply p2_eof; try done. rewrite (inv_w1 s Hi). destruct Hc as [?|[->|?]]; done.
Qed.

Lemma p1_moves s : pipe_inv s -> run1 s = true -> (left1 s <> 0 \/ never = false) -> exists s', step s s'.
Proof.
  intros Hi Hr Hc. destruct (left1 s) as [|n] eqn:El.
  { destruct Hc as [?|Hn]; [done|]. eexists. by apply p1_exit. }
  destruct (run2 s) eqn:E2.
  - destruct (le_lt_dec cap (p_data (pipe1 s))).
    + apply p2_moves; [done|done|lia].
    + eexists. eapply p1_write; try done. by rewrite (inv_r1 s Hi), E2.
  - eexists. eapply p1_sigpipe; try done. by rewrite (inv_r1 s Hi), E2.
Qed.

Lemma parent_moves s : pipe_inv s -> run1 s = false -> run2 s = false -> run3 s = false -> waits s <> 0 -> exists s', step s s'.
Proof.
  intros Hi H1 H2 H3 Hw. destruct (inv_waits s Hi) as (Hle & _). destruct (waits s) as [|[|[|[|n]]]] eqn:E; [done| | | |lia].
  - eexists. by apply (parent_wait s 0 P3).
  - eexists. by apply (parent_wait s 1 P2).
  - eexists. by apply (parent_wait s 2 P1).
Qed.

Lemma progress s : pipe_inv s -> (exists s', step s s') \/ finished s \/ waiting s.
Proof.
  intros Hi. destruct (run1 s) eqn:E1.
  - destruct (Nat.eq_dec (left1 s) 0) as [El|El]; [|left; apply p1_moves; auto].
    destruct never eqn:En; [|left; apply p1_moves; auto].
    destruct (decide (run2 s = true /\ (p_data (pipe1 s) <> 0 \/ pending s <> 0))) as [[H2 Hd]|H2];
      [left; apply p2_moves; tauto|].
    destruct (decide (run3 s = true /\ p_data (pipe2 s) <> 0)) as [[H3 Hd]|H3]; [left; apply p3_moves; tauto|].
    right. right. destruct (Nat.eq_dec (p_data (pipe1 s)) 0), (Nat.eq_dec (pending s) 0), (Nat.eq_dec (p_data (pipe2 s)) 0);
      unfold waiting; tauto.
  - destruct (run2 s) eqn:E2; [left; apply p2_moves; auto|].
    destruct (run3 s) eqn:E3; [left; apply p3_moves; auto|].
    destruct (Nat.eq_dec (waits s) 0); [right; left; done|]. left. by apply parent_moves.
Qed.

(** A process that has ended does not come back. *)
Lemma stopped_stays s s' : any_step s s' -> run1 s = false -> run1 s' = false.
Proof.
  intros [Hs|Hf] Hr; [destruct Hs; cbn; done|]. destruct Hf as [[]|]; cbn; try done. congruence.
Qed.

Lemma reachable_inv n s : rtc any_step (start_pipeline n) s -> pipe_inv s.
Proof.
  apply (rtc_ind_r (fun s => pipe_inv s) (start_pipeline n)); [apply start_pipeline_inv|]. intros ? ? _ Hs Hi. by eapply any_step_inv.
Qed.
End steps.


(** A first program with two bytes to write, and pipes of one byte. *)
Definition ex_output (i : nat) : nat := 1.


(** In [labs/pipe_logs.py] the parent keeps the read ends open: when [p2] fails
    while [p1] still has something to write, [p1] is not told, blocks on the
    full pipe, and the parent waits for it for ever. *)
Example lab_pipeline_hangs :
  exists s, rtc (any_step 1 ex_output 0 false) (run_pipeline 2) s /\ run1 s = true /\ waits s = 3 /\
    run2 s = false /\ run3 s = false /\ nf (step 1 ex_output 0 false) s.
Proof.
  eexists. split.
  { eapply rtc_l; [left; apply (p1_write _ _ _ _ _ 1); cbn; (lia || done)|]. eapply rtc_l; [right; by apply (fault_ends _ P2)|].
    eapply rtc_l; [right; by apply (fault_ends _ P3)|]. apply rtc_refl. }
  split; [done|]. split; [done|]. split; [done|]. split; [done|].
  intros [s' Hs]. inversion Hs; cbn in *; simplify_eq; try done; try lia.
Qed.
