(* ===== verification/Parallel.v ===== *)
(** * The experiment with parallel handlers

    [labs/parallel_rs.py]: lines of a transaction log are grouped by
    [last_committed] and handed to a pool of five threads, which are meant to
    run one after the other by means of locks.  The threads interleave between
    statements; a lock object is named by its handler and its key in
    [last_committed_locks], since [setdefault] never replaces one.  Releasing a
    lock that is not held raises [RuntimeError].  The lines come from standard
    input; after them the main loop goes round without end. *)

From stdpp Require Import base list strings relations.
From Stdlib Require Import ZArith Lia Ascii.
From S2P Require Import Prelude PyStr.
Open Scope string_scope.
Open Scope Z_scope.

(** ** State *)

(** A [ReplicationHandler]; a lock is [true] when held. *)
Record handler_state := mkHandler { last_committed_locks : dict string bool; last_sequence_number : dict string Z }.

Definition set_locks (x : dict string bool) (h : handler_state) : handler_state := mkHandler x (last_sequence_number h).
Definition set_sequence (x : dict string Z) (h : handler_state) : handler_state := mkHandler (last_committed_locks h) x.

(** [d.setdefault(k, v)] *)
Definition setdefault {V} (d : dict string V) (k : string) (v : V) : dict string V * V :=
  match dict_get d k with Some x => (d, x) | None => (dict_set d k v, v) end.

Definition get_lock (k : string) (h : handler_state) : handler_state :=
  set_locks (setdefault (last_committed_locks h) k false).1 h.
Definition held_lock (k : string) (h : handler_state) : bool := default false (dict_get (last_committed_locks h) k).
Definition put_lock (k : string) (b : bool) (h : handler_state) : handler_state :=
  set_locks (dict_set (last_committed_locks h) k b) h.

(** The key of the lock of a sequence number. *)
Definition lock_key (last_committed : string) (n : Z) : string := last_committed ++ "_" ++ str_of_Z n.

(** Where a thread is in [handle_replication]. *)
Inductive thread_pc :=
  | Queued                     (* submitted, no thread yet *)
  | AtPrevious                 (* last_sequence_number.setdefault *)
  | AtPrevLock (prev : Z)      (* last_committed_locks.setdefault *)
  | AtAcquire (key : string)   (* prev_lock.acquire() *)
  | AtPrint
  | AtUpdate                   (* last_sequence_number[last_committed] = sequence_number *)
  | AtRelease                  (* lock.release() *)
  | Returned
  | Raised.

#[export] Instance thread_pc_eq_dec : EqDecision thread_pc.
Proof. solve_decision. Defined.

Record task := mkTask { t_handler : nat; t_last_committed : string; t_sequence : Z; t_pc : thread_pc }.
Definition goto (pc : thread_pc) (t : task) : task := mkTask (t_handler t) (t_last_committed t) (t_sequence t) pc.

(** One statement of [handle_replication]; [None] while it waits for a lock. *)
Definition handle_replication (t : task) (h : handler_state) : option (task * handler_state) :=
  let lc := t_last_committed t in
  match t_pc t with
  | Queued => Some (goto (if 1 <? t_sequence t then AtPrevious else AtPrint) t, get_lock lc h)
  | AtPrevious =>
      let '(d, prev) := setdefault (last_sequence_number h) lc 1 in
      Some (goto (AtPrevLock prev) t, set_sequence d h)
  | AtPrevLock prev => Some (goto (AtAcquire (lock_key lc prev)) t, get_lock (lock_key lc prev) h)
  | AtAcquire k => if held_lock k h then None else Some (goto AtPrint t, put_lock k true h)
  | AtPrint => Some (goto AtUpdate t, h)
  | AtUpdate => Some (goto AtRelease t, set_sequence (dict_set (last_sequence_number h) lc (t_sequence t)) h)
  | AtRelease => if held_lock lc h then Some (goto Returned t, put_lock lc false h) else Some (goto Raised t, h)
  | Returned | Raised => None
  end.

(** ** The lines of the input *)

(** [entry[i].split('=')[1]] *)
Definition field (i : nat) (entry : list string) : result string :=
  w ← of_option IndexError (entry !! i); of_option IndexError (split_on "="%char w !! 1%nat).

Definition sequence_of (entry : list string) : result Z := f ← field 11 entry; int_of_str f.

(** [itertools.groupby] on the field 10, each group as a list: a group is
    complete when the key of the line after it has been read. *)
Fixpoint groups (lines : list string) (open : option (string * list (list string)))
  : list (string * list (list string)) * option exn :=
  match lines with
  | [] => (match open with Some g => [g] | None => [] end, None)
  | line :: rest =>
      let entry := words (strip is_space line) in
      match field 10 entry with
      | Err e => ([], Some e)
      | Ok k =>
          match open with
          | Some (k0, es) =>
              if decide (k = k0) then groups rest (Some (k0, es ++ [entry])%list)
              else let '(gs, e) := groups rest (Some (k, [entry])) in ((k0, es) :: gs, e)
          | None => groups rest (Some (k, [entry]))
          end
      end
  end.

(** What the main thread does with the pool and the locks. *)
Inductive instr :=
  | Submit (handler : nat) (last_committed : string) (sequence : Z)
  | ReleasePrev (handler : nat) (key : string).

(** The entries of a group, [prev] being the one before. *)
Fixpoint group_program (k : string) (prev : option (list string)) (queue : list (list string)) : list (result instr) :=
  match queue with
  | [] => []
  | entry :: rest =>
      match sequence_of entry with
      | Err e => [Err e]
      | Ok n =>
          match int_of_str k with
          | Err e => [Err e]
          | Ok z =>
              let h := Z.to_nat (z mod 5) in
              Ok (Submit h k n) ::
              match prev with
              | None => group_program k (Some entry) rest
              | Some p =>
                  match sequence_of p with
                  | Err e => [Err e]
                  | Ok m => ((if m =? n then [] else [Ok (ReleasePrev h (lock_key k m))]) ++ group_program k (Some entry) rest)%list
                  end
              end
          end
      end
  end.

Definition program (lines : list string) : list (result instr) :=
  let '(gs, e) := groups lines None in
  (mjoin (map (fun g => group_program g.1 None g.2) gs) ++ match e with Some e => [Err e] | None => [] end)%list.

(** ** Interleaving *)

Record world := mkWorld { handlers : list handler_state; tasks : list task; main_left : list (result instr); main_raised : bool }.

Definition max_workers : nat := 5.

(** A thread of the pool is in the task. *)
Definition active (t : task) : bool :=
  match t_pc t with Queued | Returned | Raised => false | _ => true end.

(** A queued task starts when the ones before it have and a thread is free. *)
Definition may_run (ts : list task) (i : nat) (t : task) : Prop :=
  t_pc t = Queued ->
  (length (filter (fun t => active t = true) ts) < max_workers)%nat /\ Forall (fun t => t_pc t <> Queued) (take i ts).

Inductive wstep (w : world) : world -> Prop :=
  | step_task i t h t' h' :
      tasks w !! i = Some t -> may_run (tasks w) i t -> handlers w !! t_handler t = Some h ->
      handle_replication t h = Some (t', h') ->
      wstep w (mkWorld (<[t_handler t := h']> (handlers w)) (<[i := t']> (tasks w)) (main_left w) (main_raised w))
  | step_submit i lc n rest :
      main_left w = Ok (Submit i lc n) :: rest ->
      wstep w (mkWorld (handlers w) (tasks w ++ [mkTask i lc n Queued])%list rest (main_raised w))
  | step_release i k rest h :
      main_left w = Ok (ReleasePrev i k) :: rest -> handlers w !! i = Some h ->
      wstep w (if held_lock k (get_lock k h)
               then mkWorld (<[i := put_lock k false (get_lock k h)]> (handlers w)) (tasks w) rest (main_raised w)
               else mkWorld (<[i := get_lock k h]> (handlers w)) (tasks w) [] true)
  | step_error e rest : main_left w = Err e :: rest -> wstep w (mkWorld (handlers w) (tasks w) [] true).

(** [main]: five handlers. *)
Definition main_start (lines : list string) : world :=
  mkWorld (repeat (mkHandler [] []) 5) [] (program lines) false.

(** ** No task returns *)

Definition plain (k : string) : Prop := str_mem "_"%char k = false.

(** No lock with a plain key is held. *)
Definition locks_inv (h : handler_state) : Prop := forall k, plain k -> held_lock k h = false.

Definition task_inv (t : task) : Prop :=
  plain (t_last_committed t) /\ t_pc t <> Returned /\ match t_pc t with AtAcquire k => ~ plain k | _ => True end.

Definition instr_inv (r : result instr) : Prop :=
  match r with Ok (Submit _ lc _) => plain lc | Ok (ReleasePrev _ k) => ~ plain k | Err _ => True end.

Definition world_inv (w : world) : Prop :=
  Forall locks_inv (handlers w) /\ Forall task_inv (tasks w) /\ Forall instr_inv (main_left w).

Lemma lock_key_not_plain lc n : ~ plain (lock_key lc n).
Proof. unfold plain, lock_key. rewrite str_mem_app. cbn. by rewrite orb_true_r. Qed.

Lemma get_lock_held k k' h : held_lock k (get_lock k' h) = held_lock k h.
Proof.
  unfold held_lock, get_lock, setdefault. cbn. destruct (dict_get (last_committed_locks h) k') eqn:E; [done|]. cbn.
  destruct (decide (k' = k)) as [->|]; [by rewrite dict_get_set_eq, E|by rewrite dict_get_set_ne].
Qed.

Lemma put_lock_inv k b h : (b = true -> ~ plain k) -> locks_inv h -> locks_inv (put_lock k b h).
Proof.
  intros Hk Hi k' Hp. unfold held_lock, put_lock. cbn.
  destruct (decide (k = k')) as [->|]; [|rewrite dict_get_set_ne by done; by apply Hi].
  rewrite dict_get_set_eq. cbn. destruct b; [by destruct Hk|done].
Qed.

Lemma get_lock_inv k h : locks_inv h -> locks_inv (get_lock k h).
Proof. intros Hi k' Hp. rewrite get_lock_held. by apply Hi. Qed.

Lemma handle_replication_inv t h t' h' :
  handle_replication t h = Some (t', h') -> task_inv t -> locks_inv h -> task_inv t' /\ locks_inv h'.
Proof.
  unfold handle_replication. intros E (Hlc & Hr & Hk) Hi. destruct (t_pc t) eqn:Epc; try done.
  - injection E as <- <-. split; [|by apply get_lock_inv]. split; [done|]. cbn. by case_match.
  - destruct (setdefault (last_sequence_number h) (t_last_committed t) 1) as [d prev]. by injection E as <- <-.
  - injection E as <- <-. split; [|by apply get_lock_inv]. split; [done|]. split; [done|]. apply lock_key_not_plain.
  - destruct (held_lock key h); [done|]. injection E as <- <-. split; [done|]. by apply put_lock_inv.
  - by injection E as <- <-.
  - by injection E as <- <-.
  - rewrite (Hi _ Hlc) in E. by injection E as <- <-.
Qed.

Lemma wstep_inv w w' : wstep w w' -> world_inv w -> world_inv w'.
Proof.
  intros Hs (Hh & Ht & Hm). destruct Hs as [i t h t' h' Et _ Eh E|i lc n rest Em|i k rest h Em Eh|e rest Em].
  - destruct (handle_replication_inv t h t' h' E) as [Ht' Hh'].
    { by eapply Forall_lookup_1 in Ht. } { by eapply Forall_lookup_1 in Hh. }
    split; [by apply Forall_insert|]. split; [by apply Forall_insert|done].
  - rewrite Em in Hm. apply Forall_cons in Hm as [Hi Hm]. split; [done|]. split; [|done].
    apply Forall_app. split; [done|]. by apply Forall_singleton.
  - rewrite Em in Hm. apply Forall_cons in Hm as [Hi Hm]. pose proof (Forall_lookup_1 _ _ _ _ Hh Eh) as Hlh.
    destruct (held_lock k (get_lock k h)); (split; [apply Forall_insert; [done|]|split; [done|]]); cbn; try done.
    + apply put_lock_inv; [done|]. by apply get_lock_inv.
    + by apply get_lock_inv.
  - split; [done|]. by split.
Qed.

(** The keys of the groups are those of the lines. *)
Definition line_plain (line : string) : Prop :=
  match field 10 (words (strip is_space line)) with Ok k => plain k | Err _ => True end.

Lemma groups_plain lines o gs e :
  Forall line_plain lines -> match o with Some g => plain g.1 | None => True end ->
  groups lines o = (gs, e) -> Forall (fun g => plain g.1) gs.
Proof.
  revert o gs e. induction lines as [|line lines IH]; intros o gs e Hl Ho E; cbn in E.
  - destruct o; injection E as <- _; by repeat constructor.
  - apply Forall_cons in Hl as [Hp Hl]. unfold line_plain in Hp. destruct (field 10 _) as [k|]; [|by injection E as <- _].
    destruct o as [[k0 es]|]; [|by eapply IH in E]. case_decide; [by eapply IH in E|].
    destruct (groups lines _) as [gs' e'] eqn:Eg. injection E as <- _. constructor; [done|]. by eapply IH in Eg.
Qed.

Lemma group_program_inv k prev queue : plain k -> Forall instr_inv (group_program k prev queue).
Proof.
  intros Hk. revert prev. induction queue as [|entry queue IH]; intros prev; cbn; [done|].
  destruct (sequence_of entry); [|by repeat constructor]. destruct (int_of_str k); [|by repeat constructor].
  constructor; [done|]. destruct prev as [p|]; [|done]. destruct (sequence_of p); [|by repeat constructor].
  apply Forall_app. split; [|done]. destruct (_ =? _); repeat constructor. apply lock_key_not_plain.
Qed.

Lemma main_start_inv lines : Forall line_plain lines -> world_inv (main_start lines).
Proof.
  intros Hl. split; [|split; [done|]].
  - cbn. repeat constructor.
  - cbn. unfold program. destruct (groups lines None) as [gs e] eqn:E. apply Forall_app. split; [|destruct e; by repeat constructor].
    apply (groups_plain lines None gs e Hl I) in E. induction E as [|g gs Hg E IH]; [done|].
    cbn. apply Forall_app. split; [by apply group_program_inv|done].
Qed.

(** The lock of a group is never acquired, only released: under every
    interleaving, for any input whose [last_committed] fields have no
    underscore, no task returns; a task that comes to its end raises
    [RuntimeError]. *)
Theorem no_task_returns (lines : list string) (w : world) :
  Forall line_plain lines -> rtc wstep (main_start lines) w -> Forall (fun t => t_pc t <> Returned) (tasks w).
Proof.
  intros Hl Hr. assert (world_inv w) as (_ & Ht & _).
  { revert w Hr. apply (rtc_ind_r world_inv (main_start lines)); [by apply main_start_inv|]. intros ? ? _ Hs Hi. by eapply wstep_inv. }
  eapply Forall_impl; [exact Ht|]. by intros t (_ & ? & _).
Qed.

(** ** A race

    Two transactions of a group: the main thread releases the lock of the
    first one's number, which only the second task acquires. *)

Definition ex_line (n : string) : string := "a b c d e f g h i j last_committed=5 sequence_number=" ++ n.
Definition ex_lines : list string := [ex_line "2"; ex_line "3"].

Example ex_program :
  program ex_lines = [Ok (Submit 0 "5" 2); Ok (Submit 0 "5" 3); Ok (ReleasePrev 0 "5_2")].
Proof. vm_compute. reflexivity. Qed.

Lemma no_task_returns_witness :
  Forall line_plain ex_lines /\ Forall (fun t => t_pc t <> Returned) (tasks (main_start ex_lines)).
Proof.
  assert (Forall line_plain ex_lines) as Hl by (repeat constructor).
  split; [exact Hl|]. apply (no_task_returns ex_lines (main_start ex_lines) Hl). apply rtc_refl.
Defined.

(** A scheduler: [Some i] runs a statement of task [i], [None] one of the main
    thread. *)
Definition may_run_b (ts : list task) (i : nat) (t : task) : bool :=
  if decide (t_pc t = Queued)
  then (length (filter (fun t => active t = true) ts) <? max_workers)%nat &&
       forallb (fun t => negb (bool_decide (t_pc t = Queued))) (take i ts)
  else true.

Definition run_one (c : option nat) (w : world) : option world :=
  match c with
  | Some i =>
      t ← tasks w !! i; h ← handlers w !! t_handler t; '(t', h') ← handle_replication t h;
      if may_run_b (tasks w) i t
      then Some (mkWorld (<[t_handler t := h']> (handlers w)) (<[i := t']> (tasks w)) (main_left w) (main_raised w)) else None
  | None =>
      match main_left w with
      | Ok (Submit i lc n) :: rest => Some (mkWorld (handlers w) (tasks w ++ [mkTask i lc n Queued])%list rest (main_raised w))
      | Ok (ReleasePrev i k) :: rest =>
          h ← handlers w !! i;
          Some (if held_lock k (get_lock k h)
                then mkWorld (<[i := put_lock k false (get_lock k h)]> (handlers w)) (tasks w) rest (main_raised w)
                else mkWorld (<[i := get_lock k h]> (handlers w)) (tasks w) [] true)
      | Err _ :: _ => Some (mkWorld (handlers w) (tasks w) [] true)
      | [] => None
      end
  end.

Fixpoint run_schedule (cs : list (option nat)) (w : world) : option world :=
  match cs with [] => Some w | c :: cs' => w' ← run_one c w; run_schedule cs' w' end.

Lemma may_run_spec ts i t : may_run_b ts i t = true -> may_run ts i t.
Proof.
  unfold may_run_b, may_run. intros Hb Hq. rewrite decide_True in Hb by done.
  apply andb_true_iff in Hb as [Hl Hf]. split; [by apply Nat.ltb_lt|].
  apply Forall_forall. intros x Hx%list_elem_of_In. rewrite forallb_forall in Hf. specialize (Hf x Hx).
  by apply negb_true_iff, bool_decide_eq_false in Hf.
Qed.

Lemma run_one_step c w w' : run_one c w = Some w' -> wstep w w'.
Proof.
  destruct c as [i|]; cbn; intros E.
  - destruct (tasks w !! i) as [t|] eqn:Et; [|done]. cbn in E. destruct (handlers w !! t_handler t) as [h|] eqn:Eh; [|done].
    cbn in E. destruct (handle_replication t h) as [[t' h']|] eqn:Er; [|done]. cbn in E.
    destruct (may_run_b (tasks w) i t) eqn:Em; [|done]. injection E as <-. apply may_run_spec in Em. by eapply step_task.
  - destruct (main_left w) as [|[[i lc n|i k]|e] rest] eqn:Em; [done| | |].
    + injection E as <-. by eapply step_submit.
    + destruct (handlers w !! i) as [h|] eqn:Eh; [|done]. injection E as <-. by eapply step_release.
    + injection E as <-. by eapply step_error.
Qed.

Lemma run_schedule_steps cs w w' : run_schedule cs w = Some w' -> rtc wstep w w'.
Proof.
  revert w. induction cs as [|c cs IH]; intros w E; cbn in E; [injection E as <-; apply rtc_refl|].
  destruct (run_one c w) as [w1|] eqn:E1; [|done]. eapply rtc_l; [by eapply run_one_step|by apply IH].
Qed.

(** The main thread ahead of the pool, and behind it. *)
Definition main_first : list (option nat) := [None; None; None].
Definition pool_first : list (option nat) :=
  (None :: repeat (Some 0%nat) 6 ++ None :: repeat (Some 1%nat) 4 ++ [None])%list.

(** When the main thread is ahead of the pool it raises [RuntimeError]; when it
    is behind it does not. *)
Example release_races :
  (exists w, rtc wstep (main_start ex_lines) w /\ main_raised w = true) /\
  (exists w, rtc wstep (main_start ex_lines) w /\ main_left w = [] /\ main_raised w = false).
Proof.
  split.
  - destruct (run_schedule main_first (main_start ex_lines)) as [w|] eqn:E; [|by vm_compute in E].
    exists w. split; [by eapply run_schedule_steps|]. vm_compute in E. by injection E as <-.
  - destruct (run_schedule pool_first (main_start ex_lines)) as [w|] eqn:E; [|by vm_compute in E].
    exists w. split; [by eapply run_schedule_steps|]. vm_compute in E. by injection E as <-.
Qed.
