(* ===== verification/Cli.v ===== *)
(** * The command lines

    The argument parsers of [main.py] and [main.bak1.py] (function [main]) and
    of [scripts/main.py]: the rules of [argparse] these use - options by their
    long name or an unambiguous prefix of it, with the value after [=] or in
    the next argument, flags, [-h], negative numbers as values, [--] - and the
    entry point of the program.  An error ends the process with status 2, help
    with status 0. *)

From stdpp Require Import base option list strings sets.
From Stdlib Require Import ZArith Lia Ascii.
From S2P Require Import Prelude PyStr.
Open Scope string_scope.
Open Scope Z_scope.

(** ** Parsers *)

Inductive opt_kind := KStr | KInt | KFlag | KHelp.

#[export] Instance opt_kind_eq_dec : EqDecision opt_kind.
Proof. solve_decision. Defined.

(** What a parser stores; the value [--] given after [=] becomes an empty list. *)
Inductive arg_value := VText (s : string) | VNumber (z : Z) | VTrue | VFalse | VAbsent | VEmptyList.

#[export] Instance arg_value_eq_dec : EqDecision arg_value.
Proof. solve_decision. Defined.

(** [add_argument(flag, ...)]; the name in the namespace is the flag here. *)
Record opt := mkOpt { o_flag : string; o_kind : opt_kind; o_required : bool; o_default : arg_value }.

(** [ArgumentParser(...)]: the help option comes first. *)
Definition parser (opts : list opt) : list opt := mkOpt "-h" KHelp false VAbsent :: mkOpt "--help" KHelp false VAbsent :: opts.

(** [main.py], [main.bak1.py] *)
Definition main_parser : list opt := parser [mkOpt "--config" KStr true VAbsent].
Definition bak_main_parser : list opt := main_parser.

(** [scripts/main.py] *)
Definition pipeline_parser : list opt := parser [
  mkOpt "--source-dsn" KStr true VAbsent;
  mkOpt "--target-dsn" KStr true VAbsent;
  mkOpt "--mysqlbinlog-statistics" KStr false VAbsent;
  mkOpt "--mysqlbinlog-zstd-compression-level" KInt false VAbsent;
  mkOpt "--mysqlbinlog-connection-server-id" KInt false (VNumber 99999);
  mkOpt "--mysqlbinlog-exclude-gtids" KStr false VAbsent;
  mkOpt "--mysqlbinlog-stop-never" KFlag false VFalse].

(** ** Classifying the arguments *)

Inductive outcome (A : Type) := Parsed (a : A) | Exit (status : Z).
Arguments Parsed {A}.
Arguments Exit {A}.

Inductive arg_class :=
  | AArgument
  | AOption (o : opt) (explicit : option string)
  | AUnknown
  | ADashes
  | AAmbiguous.

Fixpoint prefix (w s : string) : bool :=
  match w, s with
  | EmptyString, _ => true
  | String a w', String b s' => bool_decide (a = b) && prefix w' s'
  | String _ _, EmptyString => false
  end.

(** [s.split('=', 1)] when there is an equals sign. *)
Fixpoint split_eq (s : string) : option (string * string) :=
  match s with
  | EmptyString => None
  | String c s' =>
      if decide (c = "="%char) then Some ("", s')
      else match split_eq s' with Some (a, b) => Some (String c a, b) | None => None end
  end.

Definition find_option (opts : list opt) (flag : string) : option opt :=
  find (fun o => bool_decide (o_flag o = flag)) opts.

(** [^-\d+$|^-\d*\.\d+$] *)
Definition negative_number (s : string) : bool :=
  match s with
  | String c s' =>
      bool_decide (c = "-"%char) &&
      match split_on "."%char s' with
      | [a] => str_forallb is_digit a && negb (bool_decide (a = ""))
      | [a; b] => str_forallb is_digit a && str_forallb is_digit b && negb (bool_decide (b = ""))
      | _ => false
      end
  | EmptyString => false
  end.

(** [_get_option_tuples] *)
Definition option_tuples (opts : list opt) (s : string) : list (opt * option string) :=
  match s with
  | String _ (String c2 _) =>
      if decide (c2 = "-"%char) then
        let '(p, e) := match split_eq s with Some (p, e) => (p, Some e) | None => (s, None) end in
        map (fun o => (o, e)) (filter (fun o => prefix p (o_flag o) = true) opts)
      else
        mjoin (map (fun o => if decide (o_flag o = str_take 2 s) then [(o, Some (str_drop 2 s))]
                             else if prefix s (o_flag o) then [(o, None)] else []) opts)
  | _ => []
  end.

(** [_parse_optional] *)
Definition classify (opts : list opt) (s : string) : arg_class :=
  match s with
  | EmptyString => AArgument
  | String c rest =>
      if negb (bool_decide (c = "-"%char)) then AArgument
      else match find_option opts s with
      | Some o => AOption o None
      | None =>
          if decide (rest = "") then AArgument
          else
            let by_prefix :=
              match option_tuples opts s with
              | _ :: _ :: _ => AAmbiguous
              | [(o, e)] => AOption o e
              | [] => if negative_number s then AArgument else if str_mem " "%char s then AArgument else AUnknown
              end in
            match split_eq s with
            | Some (p, e) => match find_option opts p with Some o => AOption o (Some e) | None => by_prefix end
            | None => by_prefix
            end
      end
  end.

(** All arguments; those after [--] are not options. *)
Fixpoint classify_all (opts : list opt) (argv : list string) : list (string * arg_class) :=
  match argv with
  | [] => []
  | s :: rest =>
      if decide (s = "--") then (s, ADashes) :: map (fun x => (x, AArgument)) rest
      else (s, classify opts s) :: classify_all opts rest
  end.

(** ** Taking the actions *)

(** [take_action] of an option with a value. *)
Definition store (o : opt) (v : string) (ns : dict string arg_value) : outcome (dict string arg_value) :=
  if decide (v = "--") then Parsed (dict_set ns (o_flag o) VEmptyList)
  else match o_kind o with
  | KInt => match int_of_str v with Ok z => Parsed (dict_set ns (o_flag o) (VNumber z)) | Err _ => Exit 2 end
  | _ => Parsed (dict_set ns (o_flag o) (VText v))
  end.

(** The rest of a cluster [-h...]: the only short option is [-h]. *)
Definition cluster (explicit : string) : Z :=
  if str_forallb (fun c => bool_decide (c = "h"%char)) explicit then 0 else 2.

Fixpoint process (l : list (string * arg_class)) (ns : dict string arg_value) (extras : bool)
  : outcome (dict string arg_value * bool) :=
  match l with
  | [] => Parsed (ns, extras)
  | (_, AOption o (Some e)) :: rest =>
      match o_kind o with
      | KStr | KInt => match store o e ns with Parsed ns' => process rest ns' extras | Exit n => Exit n end
      | KFlag => Exit 2
      | KHelp => if bool_decide (o_flag o = "-h") && negb (bool_decide (e = "")) then Exit (cluster e) else Exit 2
      end
  | (_, AOption o None) :: rest =>
      match o_kind o with
      | KHelp => Exit 0
      | KFlag => process rest (dict_set ns (o_flag o) VTrue) extras
      | KStr | KInt =>
          match rest with
          | (v, AArgument) :: rest' => match store o v ns with Parsed ns' => process rest' ns' extras | Exit n => Exit n end
          | _ => Exit 2
          end
      end
  | (_, _) :: rest => process rest ns true
  end.

Definition defaults (opts : list opt) : dict string arg_value :=
  map (fun o => (o_flag o, o_default o)) (filter (fun o => o_kind o <> KHelp) opts).

(** [parse_args]: an ambiguous prefix is an error before anything else. *)
Definition parse_args (opts : list opt) (argv : list string) : outcome (dict string arg_value) :=
  let l := classify_all opts argv in
  if existsb (fun x => match x.2 with AAmbiguous => true | _ => false end) l then Exit 2
  else match process l [] false with
  | Exit n => Exit n
  | Parsed (given, extras) =>
      if existsb (fun o => o_required o && negb (dict_mem given (o_flag o))) opts then Exit 2
      else if extras then Exit 2
      else Parsed (foldl (fun ns kv => dict_set ns kv.1 kv.2) (defaults opts) given)
  end.

Example ex_cli :
  map (parse_args main_parser)
    [["--config"; "a"]; ["--c=a"]; ["--config"]; ["--config"; "-x"]; ["--config"; "-1.5"]; ["--=x"]; ["-hh"]; ["-hf"];
     ["foo"; "-h"]; ["--config"; "-h"]; ["--config="]; ["--config"; "a"; "b"]; ["--"; "-h"]; ["--config"; "a"; "--config=b"]; ["--config=--"]] =
  [Parsed [("--config", VText "a")]; Parsed [("--config", VText "a")]; Exit 2; Exit 2; Parsed [("--config", VText "-1.5")];
   Exit 2; Exit 0; Exit 2; Exit 0; Exit 2; Parsed [("--config", VText "")]; Exit 2; Exit 2;
   Parsed [("--config", VText "b")]; Parsed [("--config", VEmptyList)]].
Proof. vm_compute. reflexivity. Qed.

Example ex_cli_pipeline :
  map (fun extra => parse_args pipeline_parser ("--source-dsn=a" :: "--target-dsn=b" :: extra))
    [["--mysqlbinlog-s"]; ["--mysqlbinlog-sto"]; ["--mysqlbinlog-stop-never=1"]; ["--mysqlbinlog-c=x"]; ["--mysqlbinlog-c"; "-5"]] =
  let ns id never := Parsed [("--source-dsn", VText "a"); ("--target-dsn", VText "b"); ("--mysqlbinlog-statistics", VAbsent);
    ("--mysqlbinlog-zstd-compression-level", VAbsent); ("--mysqlbinlog-connection-server-id", VNumber id);
    ("--mysqlbinlog-exclude-gtids", VAbsent); ("--mysqlbinlog-stop-never", never)] in
  [Exit 2; ns 99999 VTrue; Exit 2; Exit 2; ns (-5) VFalse].
Proof. vm_compute. reflexivity. Qed.

(** ** The entry point

    Loading the settings file executes it, and [MysqlSync(...).run()] is
    modelled in [Sync]: here they are what [main] does with its argument. *)

Section main.
Context {S : Type} (load : string -> result S) (sync_run : S -> result Z).

(** [open] and [exec_module] are not reached for a false argument. *)
Definition main (argv : list string) : result Z :=
  match parse_args main_parser argv with
  | Exit n => Ok n
  | Parsed ns =>
      match dict_get ns "--config" with
      | Some (VText path) => if decide (path = "") then Ok 0 else settings ← load path; sync_run settings
      | _ => Ok 0
      end
  end.

Definition bak_main : list string -> result Z := main.
End main.

(** ** Properties *)

(** A command line that gives options by their full names. *)
Inductive written (opts : list opt) : list string -> dict string arg_value -> Prop :=
  | written_nil : written opts [] []
  | written_value o v x argv ns :
      find_option opts (o_flag o) = Some o -> o_kind o = KStr \/ o_kind o = KInt ->
      str_mem "="%char (o_flag o) = false -> prefix "-" (o_flag o) = true ->
      store o v [] = Parsed [(o_flag o, x)] -> written opts argv ns ->
      written opts ((o_flag o ++ "=" ++ v) :: argv) ((o_flag o, x) :: ns)
  | written_flag o argv ns :
      find_option opts (o_flag o) = Some o -> o_kind o = KFlag -> prefix "-" (o_flag o) = true -> o_flag o <> "--" ->
      written opts argv ns -> written opts (o_flag o :: argv) ((o_flag o, VTrue) :: ns).

Lemma split_eq_app a b : str_mem "="%char a = false -> split_eq (a ++ "=" ++ b) = Some (a, b).
Proof.
  induction a as [|c a IH]; intros Ha; [done|]. cbn in *. apply orb_false_iff in Ha as [Hc Ha].
  apply bool_decide_eq_false in Hc. rewrite decide_False by congruence. by rewrite IH.
Qed.

Lemma find_option_none opts s :
  find_option opts s = None <-> Forall (fun o => o_flag o <> s) opts.
Proof.
  unfold find_option. induction opts as [|o opts IH]; cbn; [split; constructor|].
  rewrite Forall_cons, <- IH. case_bool_decide; split; intuition congruence.
Qed.

(** The options of a parser have no equals sign in their names. *)
Definition plain_parser (opts : list opt) : Prop := Forall (fun o => str_mem "="%char (o_flag o) = false) opts.

Lemma classify_value opts o v :
  plain_parser opts -> find_option opts (o_flag o) = Some o -> str_mem "="%char (o_flag o) = false -> prefix "-" (o_flag o) = true ->
  o_flag o ++ "=" ++ v <> "--" /\ classify opts (o_flag o ++ "=" ++ v) = AOption o (Some v).
Proof.
  intros Hp Hf He Hd. assert (find_option opts (o_flag o ++ "=" ++ v) = None) as Hn.
  { apply find_option_none. eapply Forall_impl; [exact Hp|]. intros o' Ho' E. cbn in Ho'. rewrite E, str_mem_app in Ho'.
    cbn in Ho'. by rewrite orb_true_r in Ho'. }
  pose proof (split_eq_app (o_flag o) v He) as Hs.
  destruct (o_flag o) as [|c k] eqn:Ek; [done|]. split.
  { intros E. rewrite E in Hs. done. }
  change ((String c k ++ "=" ++ v)) with (String c (k ++ "=" ++ v)) in *. unfold classify. rewrite Hn, Hs, Hf.
  cbn in Hd. apply andb_true_iff in Hd as [Hc _]. apply bool_decide_eq_true in Hc. subst c. cbn.
  rewrite decide_False; [done|]. by destruct k.
Qed.

Lemma classify_flag opts o : find_option opts (o_flag o) = Some o -> prefix "-" (o_flag o) = true -> classify opts (o_flag o) = AOption o None.
Proof.
  intros Hf Hd. unfold classify. rewrite Hf. destruct (o_flag o) as [|c k]; [done|]. cbn in Hd.
  apply andb_true_iff in Hd as [Hc _]. apply bool_decide_eq_true in Hc. by subst c.
Qed.

Lemma store_any o v x ns : store o v [] = Parsed [(o_flag o, x)] -> store o v ns = Parsed (dict_set ns (o_flag o) x).
Proof.
  unfold store. case_decide; [by intros [= <-]|]. destruct (o_kind o); try by intros [= <-].
  destruct (int_of_str v); [by intros [= <-]|done].
Qed.

Definition set_all (ns : dict string arg_value) (l : dict string arg_value) : dict string arg_value :=
  foldl (fun ns kv => dict_set ns kv.1 kv.2) ns l.

Lemma written_processed opts argv given ns :
  plain_parser opts -> written opts argv given ->
  existsb (fun x => match x.2 with AAmbiguous => true | _ => false end) (classify_all opts argv) = false /\
  process (classify_all opts argv) ns false = Parsed (set_all ns given, false).
Proof.
  intros Hp Hw. revert ns. induction Hw as [|o v x argv given Hf Hk He Hd Hst Hw IH|o argv given Hf Hk Hd Hn Hw IH]; intros ns; [done| |].
  - destruct (classify_value opts o v Hp Hf He Hd) as [Hnd Hc]. cbn [classify_all]. rewrite decide_False, Hc by done.
    destruct (IH (dict_set ns (o_flag o) x)) as [H1 H2]. cbn. rewrite H1. split; [done|].
    rewrite (store_any o v x ns Hst). destruct Hk as [-> | ->]; done.
  - cbn [classify_all]. rewrite decide_False, (classify_flag opts o Hf Hd) by done.
    destruct (IH (dict_set ns (o_flag o) VTrue)) as [H1 H2]. cbn. rewrite H1. split; [done|]. by rewrite Hk.
Qed.

Lemma set_all_mem l ns k : dict_mem (set_all ns l) k = dict_mem ns k || bool_decide (k ∈ l.*1).
Proof.
  revert ns. induction l as [|[k' v] l IH]; intros ns; cbn.
  - by rewrite bool_decide_eq_false_2, orb_false_r by apply not_elem_of_nil.
  - unfold set_all in IH. rewrite IH. unfold dict_mem. destruct (decide (k' = k)) as [->|Hne].
    + rewrite dict_get_set_eq. rewrite (bool_decide_eq_true_2 (k ∈ k :: _)) by left. by rewrite orb_true_r.
    + rewrite dict_get_set_ne by done. f_equal. apply bool_decide_ext. rewrite elem_of_cons. naive_solver.
Qed.

(** Command lines are read back: give each option of a parser at most by its
    full name, values after an equals sign, in any order and as often as one
    likes, the required ones at least once; then [parse_args] returns the
    defaults overwritten by what was given, the last value of each option. *)
Theorem command_line_read (opts : list opt) (argv : list string) (given : dict string arg_value) :
  plain_parser opts -> written opts argv given ->
  Forall (fun o => o_required o = true -> o_flag o ∈ given.*1) opts ->
  parse_args opts argv = Parsed (set_all (defaults opts) (set_all [] given)).
Proof.
  intros Hp Hw Hreq. destruct (written_processed opts argv given [] Hp Hw) as [H1 H2].
  unfold parse_args. rewrite H1, H2.
  replace (existsb _ opts) with false; [done|]. symmetry. apply not_true_iff_false. intros Hex.
  apply existsb_exists in Hex as (o & Hin & Ho). apply andb_true_iff in Ho as [Hr Hm].
  apply list_elem_of_In in Hin. eapply Forall_forall in Hreq; [|exact Hin].
  rewrite set_all_mem, bool_decide_eq_true_2 in Hm by (by apply Hreq). cbn in Hm. done.
Qed.

Lemma command_line_read_witness :
  parse_args pipeline_parser ["--mysqlbinlog-stop-never"; "--target-dsn=u/p@h:1"; "--source-dsn=a"; "--source-dsn=--x"] =
  Parsed (set_all (defaults pipeline_parser)
    (set_all [] [("--mysqlbinlog-stop-never", VTrue); ("--target-dsn", VText "u/p@h:1"); ("--source-dsn", VText "a"); ("--source-dsn", VText "--x")])).
Proof.
  apply command_line_read.
  - repeat constructor.
  - apply (written_flag pipeline_parser (mkOpt "--mysqlbinlog-stop-never" KFlag false VFalse)); try done.
    apply (written_value pipeline_parser (mkOpt "--target-dsn" KStr true VAbsent) "u/p@h:1"); try done; [by left|].
    apply (written_value pipeline_parser (mkOpt "--source-dsn" KStr true VAbsent) "a"); try done; [by left|].
    apply (written_value pipeline_parser (mkOpt "--source-dsn" KStr true VAbsent) "--x"); try done; [by left|]. constructor.
  - repeat constructor; try done; intros _; cbn; set_solver.
Defined.

Lemma dict_get_config v : dict_get (set_all (defaults main_parser) (dict_set [] "--config" v)) "--config" = Some v.
Proof. reflexivity. Qed.

(** The program loads the file it is given, or ends: with status 2 for a
    command line without it. *)
Theorem main_loads {S : Type} (load : string -> result S) (sync_run : S -> result Z) (path : string) :
  main load sync_run [] = Ok 2 /\
  (path <> "" -> path <> "--" -> main load sync_run ["--config=" ++ path] = (settings ← load path; sync_run settings)) /\
  main load sync_run ["--config="] = Ok 0.
Proof.
  split; [done|]. split; [|done]. intros Hne Hd. unfold main.
  rewrite (command_line_read main_parser ["--config=" ++ path] [("--config", VText path)]).
  - cbn [set_all foldl fst snd]. rewrite dict_get_config. by rewrite decide_False.
  - repeat constructor.
  - apply (written_value main_parser (mkOpt "--config" KStr true VAbsent) path); try done; [by left| |constructor].
    unfold store. by rewrite decide_False.
  - repeat constructor; done.
Qed.
