(* ===== verification/Deploy.v ===== *)
(** * Conversion of job files

    [deploy/main.py]: every YAML file of the directory is converted to an HCL
    file of a job.  The two libraries are parameters: [safe_load] of a text
    and [dumps] of a document.  The directory is a map from names to texts. *)

From stdpp Require Import base list strings sets.
From Stdlib Require Import ZArith Lia Ascii.
From S2P Require Import Prelude PyStr.
Open Scope string_scope.

(** A document: null, a scalar, a list or a map with text keys. *)
Inductive doc :=
  | DNull
  | DScalar (text : string)
  | DList (l : list doc)
  | DMap (m : list (string * doc)).

Fixpoint doc_lookup (m : list (string * doc)) (k : string) : option doc :=
  match m with [] => None | (k', v) :: m' => if decide (k = k') then Some v else doc_lookup m' k end.

(** [d[k]] *)
Definition doc_index (d : doc) (k : string) : result doc :=
  match d with DMap m => of_option KeyError (doc_lookup m k) | _ => Err TypeError end.

(** [d.get(k, v)] *)
Definition doc_get (d : doc) (k : string) (v : doc) : result doc :=
  match d with DMap m => Ok (default v (doc_lookup m k)) | _ => Err AttributeError end.

(** The dictionary display of [convert_yaml_to_hcl], evaluated from left to right. *)
Definition hcl_data (yaml_data : doc) : result doc :=
  name ← doc_index yaml_data "name";
  region ← doc_get yaml_data "region" (DScalar "global");
  datacenters ← doc_index yaml_data "datacenters";
  group ← doc_index yaml_data "group";
  group_name ← doc_index group "name";
  count ← doc_index group "count";
  task ← doc_index group "task";
  task_name ← doc_index task "name";
  driver ← doc_index task "driver";
  config ← doc_index task "config";
  Ok (DMap [("job", DMap [
    ("name", name); ("region", region); ("datacenters", datacenters);
    ("group", DList [DMap [
      ("name", group_name); ("count", count);
      ("task", DList [DMap [("name", task_name); ("driver", driver); ("config", config)]])]])])]).

Section convert.
Context (safe_load : string -> result doc) (dumps : doc -> result string).

(** [open(hcl_file, 'w')] empties the file before [dumps] is called. *)
Definition convert_yaml_to_hcl (yaml_file hcl_file : string) : ST (dict string string) unit :=
  fs ← st_get;
  text ← st_lift (of_option LookupError (dict_get fs yaml_file));
  yaml_data ← st_lift (safe_load text);
  data ← st_lift (hcl_data yaml_data);
  st_modify (fun fs => dict_set fs hcl_file "") ;;
  out ← st_lift (dumps data);
  st_modify (fun fs => dict_set fs hcl_file out).

Fixpoint ends_with_at (w s : string) : bool :=
  bool_decide (s = w) || match s with EmptyString => false | String _ s' => ends_with_at w s' end.

Definition is_yaml (name : string) : bool := ends_with_at ".yaml" name || ends_with_at ".yml" name.

(** [filename.split('.')[0] + '.hcl'] *)
Definition hcl_name (name : string) : string := default "" (head (split_on "."%char name)) ++ ".hcl".

(** [for filename in os.listdir('.')]: the names are read before the loop. *)
Definition convert_all (listing : list string) : ST (dict string string) unit :=
  st_iter (fun name => if is_yaml name then convert_yaml_to_hcl name (hcl_name name) else mret tt) listing.

(** The text a file is converted to. *)
Definition converted (text : string) : result string := y ← safe_load text; d ← hcl_data y; dumps d.

(** ** Properties *)

Lemma convert_one fs y h text out :
  dict_get fs y = Some text -> converted text = Ok out ->
  convert_yaml_to_hcl y h fs = (Ok tt, dict_set (dict_set fs h "") h out).
Proof.
  intros Hy Hc. unfold converted in Hc. unfold convert_yaml_to_hcl. rewrite !st_bind_eq. cbn [st_get]. rewrite st_bind_eq, Hy. cbn.
  destruct (safe_load text) as [yd|]; [|done]. cbn in Hc |- *. rewrite st_bind_eq. cbn. rewrite st_bind_eq.
  destruct (hcl_data yd) as [hd|]; [|done]. cbn in Hc |- *. rewrite st_bind_eq. cbn. rewrite st_bind_eq. cbn.
  rewrite Hc. done.
Qed.

(** The names written do not end in [.yaml] or [.yml]: none of them is read. *)
Lemma ends_with_suffix w s : ends_with_at w s = true -> exists p, s = p ++ w.
Proof.
  induction s as [|c s IH]; cbn; intros H.
  - apply orb_true_iff in H as [H|H]; [|done]. apply bool_decide_eq_true in H. exists "". exact H.
  - apply orb_true_iff in H as [H|H]; [apply bool_decide_eq_true in H; exists ""; exact H|].
    destruct (IH H) as (p & ->). by exists (String c p).
Qed.

Lemma str_rev_acc_app a b acc : str_rev_acc (a ++ b) acc = str_rev_acc b (str_rev_acc a acc).
Proof. revert acc. induction a as [|c a IH]; intros acc; [done|]. cbn. apply IH. Qed.

Lemma hcl_not_yaml a : is_yaml (a ++ ".hcl") = false.
Proof.
  apply not_true_iff_false. intros H. unfold is_yaml in H. apply orb_true_iff in H as [H|H];
    apply ends_with_suffix in H as (p & E); apply (f_equal (fun s => str_rev s)) in E; unfold str_rev in E;
    rewrite !str_rev_acc_app in E; done.
Qed.

Lemma hcl_name_not_yaml name : is_yaml (hcl_name name) = false.
Proof. apply hcl_not_yaml. Qed.

(** Conversion of a directory: when every YAML file converts and no two of
    them have the same name up to the first dot, the loop ends, every YAML file
    has its conversion in the file named after it, and every other file is as
    it was. *)
Theorem convert_all_correct (listing : list string) (fs : dict string string) :
  NoDup (map hcl_name (filter (fun n => is_yaml n = true) listing)) ->
  Forall (fun n => is_yaml n = true -> exists text out, dict_get fs n = Some text /\ converted text = Ok out) listing ->
  exists fs', convert_all listing fs = (Ok tt, fs') /\
    (forall n text, n ∈ listing -> is_yaml n = true -> dict_get fs n = Some text ->
       match converted text with Ok out => dict_get fs' (hcl_name n) = Some out | Err _ => False end) /\
    (forall m, m ∉ map hcl_name (filter (fun n => is_yaml n = true) listing) -> dict_get fs' m = dict_get fs m).
Proof.
  revert fs. induction listing as [|n listing IH]; intros fs Hnd HF.
  { exists fs. split; [done|]. split; [|done]. intros n text Hn. by apply not_elem_of_nil in Hn. }
  apply Forall_cons in HF as [Hn HF]. unfold convert_all. cbn [st_iter]. rewrite st_bind_eq.
  destruct (is_yaml n) eqn:En.
  - rewrite filter_cons_True in Hnd |- * by done. cbn [map] in Hnd |- *. apply NoDup_cons in Hnd as [Hni Hnd].
    destruct (Hn eq_refl) as (text & out & Ht & Ho). rewrite (convert_one fs n (hcl_name n) text out Ht Ho).
    set (fs1 := dict_set (dict_set fs (hcl_name n) "") (hcl_name n) out).
    assert (forall m, m <> hcl_name n -> dict_get fs1 m = dict_get fs m) as Hsame.
    { intros m Hm. unfold fs1. by rewrite !dict_get_set_ne by done. }
    assert (forall m, is_yaml m = true -> dict_get fs1 m = dict_get fs m) as Hy.
    { intros m Hm. apply Hsame. intros ->. by rewrite hcl_name_not_yaml in Hm. }
    destruct (IH fs1 Hnd) as (fs' & E & Hc & Hr).
    { eapply Forall_impl; [exact HF|]. intros m Hm Hym. rewrite Hy by done. by apply Hm. }
    exists fs'. split; [exact E|]. split.
    + intros m t Hm Hym Hg. apply elem_of_cons in Hm as [->|Hm].
      * rewrite Ht in Hg. injection Hg as <-. rewrite Ho, Hr by done. unfold fs1. apply dict_get_set_eq.
      * apply (Hc m t Hm Hym). by rewrite Hy.
    + intros m Hm. apply not_elem_of_cons in Hm as [Hm1 Hm2]. rewrite Hr by done. by apply Hsame.
  - rewrite filter_cons_False in Hnd |- * by congruence. cbn.
    destruct (IH fs Hnd HF) as (fs' & E & Hc & Hr). exists fs'. split; [exact E|]. split; [|done].
    intros m t Hm Hym Hg. apply elem_of_cons in Hm as [->|Hm]; [congruence|]. by apply (Hc m t).
Qed.
End convert.

(** ** Examples *)

Definition ex_doc (name : string) : doc :=
  DMap [("name", DScalar name); ("datacenters", DList [DScalar "dc1"]);
        ("group", DMap [("name", DScalar "g"); ("count", DScalar "1");
           ("task", DMap [("name", DScalar "t"); ("driver", DScalar "docker"); ("config", DMap [])])])].
Definition ex_load (text : string) : result doc := Ok (ex_doc text).
Definition ex_dumps (d : doc) : result string :=
  job ← doc_index d "job"; n ← doc_index job "name"; match n with DScalar s => Ok s | _ => Err TypeError end.

Lemma convert_all_correct_witness :
  exists fs', convert_all ex_load ex_dumps ["a.yaml"; "b.yml"; "c.txt"] [("a.yaml", "x"); ("b.yml", "y"); ("c.txt", "z")] = (Ok tt, fs') /\
    dict_get fs' "a.hcl" = Some "x" /\ dict_get fs' "c.txt" = Some "z".
Proof.
  destruct (convert_all_correct ex_load ex_dumps ["a.yaml"; "b.yml"; "c.txt"] [("a.yaml", "x"); ("b.yml", "y"); ("c.txt", "z")])
    as (fs' & E & Hc & Hr).
  - apply (bool_decide_unpack _). vm_compute. exact I.
  - repeat constructor; intros H; try (by vm_compute in H); by eexists _, _.
  - exists fs'. split; [exact E|]. split.
    + apply (Hc "a.yaml" "x"); [left|reflexivity|reflexivity].
    + rewrite Hr; [reflexivity|]. apply (bool_decide_unpack _). vm_compute. exact I.
Defined.

(** Names are cut at the first dot: two files of a job and its variant are
    converted to the same file, and the second conversion is what remains. *)
Example same_stem_overwritten :
  snd (convert_all ex_load ex_dumps ["job.a.yml"; "job.b.yml"] [("job.a.yml", "a"); ("job.b.yml", "b")]) =
  [("job.a.yml", "a"); ("job.b.yml", "b"); ("job.hcl", "b")].
Proof. vm_compute. reflexivity. Qed.
