(* ===== verification/Generator.v ===== *)
(** * The generator of test statements

    [scripts/generate_sql_statements.py] writes a script of DDL and row
    statements that exercises the synchronisation.  The functions of Python's
    [random] module are the parameter [rng]: the [n]-th call of the program.
    The lists [ids] and [tables], which the code changes in place, are threaded
    through the functions that share them. *)

From stdpp Require Import base list strings sets.
From Stdlib Require Import ZArith Lia Ascii Permutation.
From S2P Require Import Prelude PyBytes PyStr.
Open Scope string_scope.
Open Scope Z_scope.

(** ** Randomness *)

Record rng := mkRng {
  randint : nat -> Z;                       (* random.randint(1, 100) *)
  shuffle : nat -> list Z -> list Z;        (* random.shuffle(l) *)
  choice : nat -> bool                      (* random.choice([True, False]) *)
}.

(** What the module documents: numbers within the bounds, and the same
    elements in some order. *)
Definition rng_ok (r : rng) : Prop :=
  (forall n, 1 <= randint r n <= 100) /\ (forall n l, shuffle r n l ≡ₚ l).

(** A table: its database and its name. *)
Abbreviation tab := (string * string)%type.
(** The lists of ids by table name. *)
Abbreviation tracker := (dict string (list Z)) (only parsing).

(** [range(1, n + 1)] *)
Definition range1 (n : nat) : list Z := map (fun k => Z.of_nat k + 1) (seq 0 n).

Section generate.
Context (r : rng).

(** The state is the number of calls made so far. *)
Abbreviation G := (ST nat).

Definition draw {A} (f : nat -> A) : G A := fun n => (Ok (f n), S n).

(** A loop that collects what its iterations append. *)
Fixpoint collect {A B} (f : A -> G (list B)) (l : list A) : G (list B) :=
  match l with
  | [] => mret []
  | x :: l' => ys ← f x; zs ← collect f l'; mret (ys ++ zs)%list
  end.

Definition generate_creates (num_creates : nat) : list string * list string * list tab :=
  let name k := str_of_Z (Z.of_nat k + 1) in
  let idx := seq 0 num_creates in
  (concat (map (fun i =>
     ["CREATE DATABASE IF NOT EXISTS database_" ++ name i ++ ";";
      "USE database_" ++ name i ++ ";";
      "CREATE TABLE IF NOT EXISTS table_" ++ name i ++ " (id INT PRIMARY KEY, data VARCHAR(100));"]) idx),
   map (fun i => "database_" ++ name i) idx,
   map (fun i => ("database_" ++ name i, "table_" ++ name i)) idx).

Definition insert_text (t : tab) (i v : Z) : string :=
  "INSERT INTO " ++ t.1 ++ "." ++ t.2 ++ " (id, data) VALUES (" ++ str_of_Z i ++ ", 'value_" ++ str_of_Z v ++ "');".

(** The statements and [id_tracker]. *)
Fixpoint generate_inserts (tables : list tab) (num_inserts_per_table : nat) (id_tracker : tracker)
  : G (list string * tracker) :=
  match tables with
  | [] => mret ([], id_tracker)
  | t :: tables' =>
      ys ← collect (fun i => v ← draw (randint r); mret [insert_text t i v]) (range1 num_inserts_per_table);
      '(zs, id_tracker') ← generate_inserts tables' num_inserts_per_table
        (dict_set id_tracker t.2 (range1 num_inserts_per_table));
      mret (ys ++ zs, id_tracker')%list
  end.

Definition delete_text (t : tab) (id : Z) : string :=
  "DELETE FROM " ++ t.1 ++ "." ++ t.2 ++ " WHERE id = " ++ str_of_Z id ++ ";".

(** [for i in range(...)]: [ids[i]], then [ids.pop(i)]; the ids deleted and
    the list that is left. *)
Fixpoint delete_loop (count i : nat) (ids : list Z) : result (list Z * list Z) :=
  match count with
  | O => Ok ([], ids)
  | S count' =>
      id ← of_option IndexError (ids !! i);
      '(out, rest) ← delete_loop count' (S i) (delete i ids);
      Ok (id :: out, rest)
  end.

Fixpoint generate_deletes (tables : list tab) (id_tracker : tracker) (num_deletes_per_table : nat)
  : G (list (tab * Z) * tracker) :=
  match tables with
  | [] => mret ([], id_tracker)
  | t :: tables' =>
      match dict_get id_tracker t.2 with
      | Some ids =>
          ids ← draw (fun n => shuffle r n ids);
          '(out, rest) ← st_lift (delete_loop (min num_deletes_per_table (length ids)) 0 ids);
          '(zs, id_tracker') ← generate_deletes tables' (dict_set id_tracker t.2 rest) num_deletes_per_table;
          mret (map (pair t) out ++ zs, id_tracker')%list
      | None => generate_deletes tables' id_tracker num_deletes_per_table
      end
  end.

Definition update_text (t : tab) (id v : Z) : string :=
  "UPDATE " ++ t.1 ++ "." ++ t.2 ++ " SET data = 'updated_" ++ str_of_Z v ++ "' WHERE id = " ++ str_of_Z id ++ ";".

(** [ids[i]] for [i] in [range(min(n, len(ids)))] *)
Fixpoint generate_updates (tables : list tab) (id_tracker : tracker) (num_updates_per_table : nat)
  : G (list (tab * Z * Z) * tracker) :=
  match tables with
  | [] => mret ([], id_tracker)
  | t :: tables' =>
      match dict_get id_tracker t.2 with
      | Some ids =>
          ids ← draw (fun n => shuffle r n ids);
          ys ← collect (fun id => v ← draw (randint r); mret [(t, id, v)]) (take num_updates_per_table ids);
          '(zs, id_tracker') ← generate_updates tables' (dict_set id_tracker t.2 ids) num_updates_per_table;
          mret (ys ++ zs, id_tracker')%list
      | None => generate_updates tables' id_tracker num_updates_per_table
      end
  end.

Definition generate_replaces (tables : list tab) (num_replaces_per_table : nat) : G (list string) :=
  collect (fun t : tab => collect (fun _ =>
    id ← draw (randint r);
    v ← draw (randint r);
    mret ["REPLACE INTO " ++ t.1 ++ "." ++ t.2 ++ " (id, data) VALUES (" ++ str_of_Z id
            ++ ", 'replaced_value_" ++ str_of_Z v ++ "');"]) (seq 0 num_replaces_per_table)) tables.

Definition generate_alters (tables : list tab) : G (list string) :=
  collect (fun t : tab =>
    v ← draw (randint r);
    mret ["ALTER TABLE " ++ t.1 ++ "." ++ t.2 ++ " ADD COLUMN new_column_" ++ str_of_Z v
            ++ " VARCHAR(255) DEFAULT 'add column';"]) tables.

Definition generate_truncates (tables : list tab) : list string :=
  map (fun t : tab => "TRUNCATE TABLE " ++ t.1 ++ "." ++ t.2 ++ ";") tables.

(** The position of the first element equal to [t]: [tables.index(t)]. *)
Fixpoint index_of (t : tab) (l : list tab) : result nat :=
  match l with
  | [] => Err ValueError
  | x :: l' => if decide (x = t) then Ok O else S <$> index_of t l'
  end.

Definition renamed (t : tab) : tab := (t.1, "renamed_" ++ t.2).

(** The loop runs over the list it assigns to: [k] is the position of the
    iterator. *)
Fixpoint rename_loop (fuel k : nat) (tables : list tab) : G (list string * list tab) :=
  match fuel with
  | O => mret ([], tables)
  | S fuel' =>
      match tables !! k with
      | None => mret ([], tables)
      | Some t =>
          b ← draw (choice r);
          j ← st_lift (index_of t tables);
          '(zs, tables') ← rename_loop fuel' (S k) (<[j := renamed t]> tables);
          mret ((if b : bool
                 then "RENAME TABLE " ++ t.1 ++ "." ++ t.2 ++ " TO " ++ t.1 ++ ".renamed_" ++ t.2 ++ ";"
                 else "ALTER TABLE " ++ t.1 ++ "." ++ t.2 ++ " RENAME TO " ++ t.1 ++ ".renamed_" ++ t.2 ++ ";") :: zs, tables')
      end
  end.

Definition generate_rename_tables (tables : list tab) : G (list string * list tab) :=
  rename_loop (length tables) 0 tables.

Definition generate_drop_tables (tables : list tab) : list string :=
  map (fun t : tab => "DROP TABLE IF EXISTS " ++ t.1 ++ "." ++ t.2 ++ ";") tables.

Definition generate_drop_databases (databases : list string) : list string :=
  map (fun db => "DROP DATABASE IF EXISTS " ++ db ++ ";") databases.

(** [main], with its constants as arguments: the statements printed. *)
Definition generator_main (num_tables num_inserts num_deletes num_updates num_replaces : nat) : G (list string) :=
  let '(creates, databases, tables) := generate_creates num_tables in
  '(inserts, id_tracker) ← generate_inserts tables num_inserts [];
  '(deletes, id_tracker) ← generate_deletes tables id_tracker num_deletes;
  '(updates, id_tracker) ← generate_updates tables id_tracker num_updates;
  replaces ← generate_replaces tables num_replaces;
  alters ← generate_alters tables;
  let truncates := generate_truncates tables in
  '(renames, tables) ← generate_rename_tables tables;
  let drop_tables := generate_drop_tables tables in
  let drop_dbs := generate_drop_databases databases in
  mret (drop_dbs ++ creates ++ inserts ++ map (fun '(t, id, v) => update_text t id v) updates
        ++ map (fun '(t, id) => delete_text t id) deletes ++ replaces ++ alters ++ truncates ++ renames ++ drop_tables)%list.
End generate.

(** ** Properties *)

Open Scope list_scope.

(** The deletes of one table stay within its shrinking list. *)
Definition fits (d m : nat) : bool := (2 * min d m <=? m + 1)%nat.

Lemma delete_loop_ok count i ids :
  (count = 0 \/ i + 2 * (count - 1) < length ids)%nat ->
  exists out rest, delete_loop count i ids = Ok (out, rest) /\ out ++ rest ≡ₚ ids /\ length out = count.
Proof.
  revert i ids. induction count as [|count IH]; intros i ids Hc; [by exists [], ids|].
  destruct (lookup_lt_is_Some_2 ids i ltac:(lia)) as [id Hid].
  destruct (IH (S i) (delete i ids)) as (out & rest & E & Hp & Hl).
  { rewrite length_delete by eauto. lia. }
  exists (id :: out), rest. cbn [delete_loop]. rewrite Hid. cbn. rewrite E. cbn.
  split; [done|]. split; [|by rewrite Hl]. rewrite Hp. symmetry. by apply delete_Permutation.
Qed.

Lemma delete_loop_err count i ids :
  (0 < count)%nat -> (length ids <= i + 2 * (count - 1))%nat -> delete_loop count i ids = Err IndexError.
Proof.
  revert i ids. induction count as [|count IH]; intros i ids Hc Hl; [lia|]. cbn [delete_loop].
  destruct (ids !! i) as [id|] eqn:E; [|done]. cbn. destruct count as [|count].
  - apply lookup_lt_Some in E. lia.
  - rewrite IH; [done|lia|]. rewrite length_delete by eauto. lia.
Qed.

Lemma fits_spec d m : fits d m = true -> (min d m = 0 \/ 0 + 2 * (min d m - 1) < m)%nat.
Proof. unfold fits. intros Hf. apply Nat.leb_le in Hf. lia. Qed.

Lemma fits_false d m : fits d m = false -> (0 < min d m)%nat /\ (m <= 0 + 2 * (min d m - 1))%nat.
Proof. unfold fits. intros Hf. apply Nat.leb_gt in Hf. lia. Qed.

(** The ids a list of statements touches in a table. *)
Definition ids_of (t : tab) (l : list (tab * Z)) : list Z := map snd (filter (fun x => x.1 = t) l).

Lemma ids_of_app t l1 l2 : ids_of t (l1 ++ l2) = ids_of t l1 ++ ids_of t l2.
Proof. unfold ids_of. by rewrite filter_app, map_app. Qed.

Lemma ids_of_same t l : ids_of t (map (pair t) l) = l.
Proof. induction l as [|x l IH]; [done|]. unfold ids_of in *. cbn [map]. rewrite filter_cons_True by done. cbn [map]. by rewrite IH. Qed.

Lemma ids_of_other t t' l : t <> t' -> ids_of t (map (pair t') l) = [].
Proof. intros Hn. induction l as [|x l IH]; [done|]. unfold ids_of in *. cbn [map]. rewrite filter_cons_False; [done|]. cbn. congruence. Qed.

Section proofs.
Context (r : rng) (Hr : rng_ok r).

(** Every table of the list is tracked with [n] ids. *)
Definition tracked (tables : list tab) (tr : tracker) (n : nat) : Prop :=
  forall t, t ∈ tables -> exists ids, dict_get tr t.2 = Some ids /\ length ids = n.

Lemma name_in (t t' : tab) tables : t' ∈ tables -> t'.2 = t.2 -> t.2 ∈ map snd tables.
Proof. intros Hin <-. by apply (list_elem_of_fmap_2 snd). Qed.

Lemma tracked_tail t tables tr ids n :
  NoDup (map snd (t :: tables)) -> tracked (t :: tables) tr n -> tracked tables (dict_set tr t.2 ids) n.
Proof.
  intros Hnd Ht t' Hin. destruct (Ht t' ltac:(by right)) as (l & Hl & Hn). exists l. split; [|done].
  rewrite dict_get_set_ne; [done|]. intros E. cbn in Hnd. apply NoDup_cons in Hnd as [Hni _].
  by apply Hni, (name_in t t').
Qed.

Lemma deletes_spec d n tables tr c :
  NoDup (map snd tables) -> tracked tables tr n -> fits d n = true ->
  exists out tr' c', generate_deletes r tables tr d c = (Ok (out, tr'), c') /\
    (forall t, t ∈ tables -> exists ids rest, dict_get tr t.2 = Some ids /\ dict_get tr' t.2 = Some rest /\
       ids_of t out ++ rest ≡ₚ ids /\ length (ids_of t out) = min d n) /\
    (forall k, k ∉ map snd tables -> dict_get tr' k = dict_get tr k) /\
    (forall t, t ∉ tables -> ids_of t out = []).
Proof.
  revert tr c. induction tables as [|t tables IH]; intros tr c Hnd Htr Hf.
  { exists [], tr, c. split; [done|]. split; [by intros t Ht; apply elem_of_nil in Ht|done]. }
  destruct (Htr t ltac:(by left)) as (ids & Hids & Hlen). cbn [generate_deletes]. rewrite Hids.
  destruct Hr as [_ Hsh]. pose proof (Hsh c ids) as Hperm. set (ids1 := shuffle r c ids) in *.
  assert (length ids1 = n) as Hlen1 by by rewrite Hperm.
  destruct (delete_loop_ok (min d n) 0 ids1) as (out & rest & E & Hp & Hl); [rewrite Hlen1; by apply fits_spec|].
  destruct (IH (dict_set tr t.2 rest) (S c)) as (zs & tr' & c' & Ez & Hin & Hout & Hno);
    [by inversion Hnd|by eapply tracked_tail|done|].
  exists (map (pair t) out ++ zs), tr', c'. cbn in Hnd. apply NoDup_cons in Hnd as [Hni _].
  assert (t ∉ tables) as Hnt by (intros Hx; by apply Hni, (list_elem_of_fmap_2 snd)).
  split; [|split; [|split]].
  - rewrite st_bind_eq. cbn [draw]. fold ids1. rewrite Hlen1, st_bind_eq. unfold st_lift. rewrite E. cbn [fst snd].
    rewrite st_bind_eq, Ez. done.
  - intros t' [->|Ht']%elem_of_cons.
    + exists ids, rest. rewrite Hout by done. rewrite dict_get_set_eq, ids_of_app, ids_of_same, (Hno t Hnt), app_nil_r.
      split; [done|]. split; [done|]. split; [by rewrite Hp|done].
    + destruct (Hin t' Ht') as (ids' & rest' & Hg & Hg' & Hp' & Hl'). exists ids', rest'.
      assert (t' <> t) as Hne by congruence.
      rewrite ids_of_app, ids_of_other by done. rewrite dict_get_set_ne in Hg; [done|].
      intros Ek. by apply Hni, (name_in t t').
  - intros k Hk. cbn in Hk. apply not_elem_of_cons in Hk as [Hk1 Hk2]. rewrite Hout by done. by apply dict_get_set_ne.
  - intros t' Ht'. apply not_elem_of_cons in Ht' as [Ht1 Ht2]. by rewrite ids_of_app, ids_of_other, Hno.
Qed.

Lemma deletes_error d n tables tr c :
  tables <> [] -> tracked tables tr n -> fits d n = false ->
  exists c', generate_deletes r tables tr d c = (Err IndexError, c').
Proof.
  intros Hne Htr Hf. destruct tables as [|t tables]; [done|]. destruct (Htr t ltac:(by left)) as (ids & Hids & Hlen).
  cbn [generate_deletes]. rewrite Hids. destruct Hr as [_ Hsh]. pose proof (Hsh c ids) as Hperm.
  rewrite st_bind_eq. cbn [draw]. set (ids1 := shuffle r c ids) in *.
  assert (length ids1 = n) as -> by by rewrite Hperm. destruct (fits_false d n Hf) as [H1 H2].
  eexists. rewrite st_bind_eq. unfold st_lift. rewrite delete_loop_err; [done|done|]. by rewrite Hperm, Hlen.
Qed.

(** A loop whose iterations only draw numbers returns. *)
Lemma collect_total {A B} (f : A -> ST nat (list B)) l c :
  (forall x c, exists ys c', f x c = (Ok ys, c')) -> exists ys c', collect f l c = (Ok ys, c').
Proof.
  intros Hf. revert c. induction l as [|x l IH]; intros c; [by eexists _, _|].
  cbn [collect]. rewrite st_bind_eq. destruct (Hf x c) as (ys & c1 & ->). rewrite st_bind_eq.
  destruct (IH c1) as (zs & c2 & ->). by eexists _, _.
Qed.

Definition update_ids (l : list (tab * Z * Z)) : list (tab * Z) := map fst l.

Lemma collect_updates t l c :
  exists ys c', collect (fun id => v ← draw (randint r); mret [(t, id, v)]) l c = (Ok ys, c') /\
    update_ids ys = map (pair t) l.
Proof.
  revert c. induction l as [|x l IH]; intros c; [by exists [], c|]. cbn [collect]. rewrite st_bind_eq. cbn [draw].
  rewrite st_bind_eq. cbn [draw mret ST_ret]. rewrite st_bind_eq. destruct (IH (S c)) as (zs & c2 & -> & Hz).
  eexists _, _. split; [done|]. unfold update_ids in *. cbn. by rewrite Hz.
Qed.

Lemma updates_spec u n tables tr c :
  NoDup (map snd tables) -> tracked tables tr n ->
  exists out tr' c', generate_updates r tables tr u c = (Ok (out, tr'), c') /\
    (forall t, t ∈ tables -> exists ids, dict_get tr t.2 = Some ids /\
       (exists rest, ids_of t (update_ids out) ++ rest ≡ₚ ids) /\ length (ids_of t (update_ids out)) = min u n) /\
    (forall t, t ∉ tables -> ids_of t (update_ids out) = []).
Proof.
  revert tr c. induction tables as [|t tables IH]; intros tr c Hnd Htr.
  { exists [], tr, c. split; [done|]. split; [by intros t Ht; apply elem_of_nil in Ht|done]. }
  destruct (Htr t ltac:(by left)) as (ids & Hids & Hlen). cbn [generate_updates]. rewrite Hids.
  destruct Hr as [_ Hsh]. pose proof (Hsh c ids) as Hperm. set (ids1 := shuffle r c ids) in *.
  destruct (collect_updates t (take u ids1) (S c)) as (ys & c1 & Ey & Hy).
  destruct (IH (dict_set tr t.2 ids1) c1) as (zs & tr' & c' & Ez & Hin & Hno); [by inversion Hnd|by eapply tracked_tail|].
  exists (ys ++ zs), tr', c'. cbn in Hnd. apply NoDup_cons in Hnd as [Hni _].
  assert (t ∉ tables) as Hnt by (intros Hx; by apply Hni, (name_in t t)).
  assert (forall t', ids_of t' (update_ids (ys ++ zs)) = ids_of t' (map (pair t) (take u ids1)) ++ ids_of t' (update_ids zs)) as Hcat.
  { intros t'. unfold update_ids in *. by rewrite map_app, ids_of_app, Hy. }
  split; [|split].
  - rewrite st_bind_eq. cbn [draw]. fold ids1. rewrite st_bind_eq, Ey, st_bind_eq, Ez. done.
  - intros t' [->|Ht']%elem_of_cons.
    + exists ids. rewrite Hcat, ids_of_same, (Hno t Hnt), app_nil_r. split; [done|].
      split; [exists (drop u ids1); by rewrite take_drop|]. rewrite length_take. rewrite Hperm, Hlen. done.
    + destruct (Hin t' Ht') as (ids' & Hg & Hp' & Hl'). exists ids'. assert (t' <> t) as Hne by congruence.
      rewrite Hcat, ids_of_other by done. rewrite dict_get_set_ne in Hg; [done|].
      intros Ek. by apply Hni, (name_in t t').
  - intros t' Ht'. apply not_elem_of_cons in Ht' as [Ht1 Ht2]. by rewrite Hcat, ids_of_other, Hno.
Qed.

Lemma inserts_spec m tables tr c :
  exists out tr' c', generate_inserts r tables m tr c = (Ok (out, tr'), c') /\
    (forall t, t ∈ tables -> dict_get tr' t.2 = Some (range1 m)) /\
    (forall k, k ∉ map snd tables -> dict_get tr' k = dict_get tr k).
Proof.
  revert tr c. induction tables as [|t tables IH]; intros tr c.
  { exists [], tr, c. split; [done|]. split; [by intros t Ht; apply elem_of_nil in Ht|done]. }
  cbn [generate_inserts]. rewrite st_bind_eq.
  destruct (collect_total (fun i => v ← draw (randint r); mret [insert_text t i v]) (range1 m) c) as (ys & c1 & ->);
    [by intros; eexists _, _|].
  rewrite st_bind_eq. destruct (IH (dict_set tr t.2 (range1 m)) c1) as (zs & tr' & c2 & -> & Hin & Hout).
  eexists _, _, _. split; [done|]. split.
  - intros t' [->|Ht']%elem_of_cons; [|by apply Hin].
    destruct (decide (t.2 ∈ map snd tables)) as [Hi|Hi].
    + apply list_elem_of_fmap in Hi as (t2 & -> & Ht2). by apply Hin.
    + rewrite Hout by done. apply dict_get_set_eq.
  - intros k Hk. cbn in Hk. apply not_elem_of_cons in Hk as [Hk1 Hk2]. rewrite Hout by done. by apply dict_get_set_ne.
Qed.

Lemma index_of_elem t l : t ∈ l -> exists j, index_of t l = Ok j.
Proof.
  induction l as [|x l IH]; [by intros Ht; apply elem_of_nil in Ht|]. cbn. intros Ht. case_decide; [by eexists|].
  apply elem_of_cons in Ht as [->|Ht]; [done|]. destruct (IH Ht) as (j & ->). by eexists.
Qed.

Lemma rename_total fuel k tables c : exists out c', rename_loop r fuel k tables c = (Ok out, c').
Proof.
  revert k tables c. induction fuel as [|fuel IH]; intros k tables c; [by eexists _, _|]. cbn [rename_loop].
  destruct (tables !! k) as [t|] eqn:E; [|by eexists _, _]. rewrite st_bind_eq. cbn [draw].
  destruct (index_of_elem t tables) as (j & Hj); [by eapply list_elem_of_lookup_2|].
  rewrite st_bind_eq. unfold st_lift. rewrite Hj, st_bind_eq.
  destruct (IH (S k) (<[j := renamed t]> tables) (S c)) as ([zs ts] & c' & ->). by eexists _, _.
Qed.

Lemma range1_nodup m : NoDup (range1 m).
Proof. apply NoDup_fmap_2_strong; [intros; lia|apply NoDup_seq]. Qed.

Lemma creates_names k : NoDup (map snd (generate_creates k).2).
Proof.
  cbn [generate_creates snd]. rewrite map_map. cbn [snd]. apply NoDup_fmap_2_strong; [|apply NoDup_seq].
  intros a b _ _ E. injection E as E. assert (Z.of_nat a + 1 = Z.of_nat b + 1); [|lia].
  pose proof (int_of_str_of_Z (Z.of_nat a + 1)) as H1. rewrite E, int_of_str_of_Z in H1. by injection H1 as ->.
Qed.
End proofs.

Lemma deletes_when r k d m tables tr c :
  rng_ok r -> NoDup (map snd tables) -> length tables = k -> (forall t, t ∈ tables -> dict_get tr t.2 = Some (range1 m)) ->
  (k =? 0)%nat || fits d m = true ->
  exists dels tr1 c2, generate_deletes r tables tr d c = (Ok (dels, tr1), c2) /\
    forall t, t ∈ tables -> exists rest, dict_get tr1 t.2 = Some rest /\ ids_of t dels ++ rest ≡ₚ range1 m /\
      length (ids_of t dels) = min d m.
Proof.
  intros Hr Hnd Hk Hins Hc. apply orb_true_iff in Hc as [Hk0|Hf].
  - apply Nat.eqb_eq in Hk0. destruct tables; [|cbn in Hk; lia]. exists [], tr, c. split; [done|].
    intros t Ht. by apply elem_of_nil in Ht.
  - destruct (deletes_spec r Hr d m tables tr c Hnd) as (dels & tr1 & c2 & E & Hd & _); [|done|].
    { intros t Ht. exists (range1 m). split; [by apply Hins|]. unfold range1. by rewrite length_map, length_seq. }
    exists dels, tr1, c2. split; [done|]. intros t Ht. destruct (Hd t Ht) as (ids & rest & Hg & Hg' & Hp & Hl).
    rewrite (Hins t Ht) in Hg. injection Hg as <-. by exists rest.
Qed.

(** Deleted and updated rows are different inserted ones. *)
Lemma rows_apart (dels ups rest rest' : list Z) m :
  dels ++ rest ≡ₚ range1 m -> ups ++ rest' ≡ₚ rest ->
  NoDup (dels ++ ups) /\ forall id, id ∈ dels ++ ups -> 1 <= id <= Z.of_nat m.
Proof.
  intros Hp Hp'. rewrite <- Hp', app_assoc in Hp.
  assert (NoDup ((dels ++ ups) ++ rest')) as Hn by (rewrite Hp; apply range1_nodup).
  split; [by apply NoDup_app in Hn as [Hn _]|]. intros id Hid.
  assert (id ∈ range1 m) as Hrange by (rewrite <- Hp; apply elem_of_app; by left).
  apply list_elem_of_fmap in Hrange as (j & -> & Hj). apply elem_of_seq in Hj. lia.
Qed.

(** ** The script *)


(** Numbers that are always one, lists left as they are. *)
Definition fixed_rng : rng := mkRng (fun _ => 1) (fun _ l => l) (fun _ => true).

Lemma fixed_rng_ok : rng_ok fixed_rng.
Proof. split; [cbn; lia|done]. Qed.


(** More than half of the rows cannot be deleted. *)
Example too_many_deletes : fst (generator_main fixed_rng 1 10 6 0 0 0%nat) = Err IndexError.
Proof. vm_compute. reflexivity. Qed.
